(* ===== verification/_CoqProject ===== *)
-Q . S2P
Prelude.v
Devices.v
Console.v
Strings.v
Printfmt.v
Machine.v
Segments.v
Spinlock.v
PageAlloc.v
Lapic.v
Pmap.v
UserMem.v
Env.v
Sched.v
Kprintf.v
Syscall.v
PageMap.v
Spaces.v
Loader.v
VmCalls.v
Trap.v
UserLib.v
CopyOnWrite.v
UserKernel.v
Kdebug.v
Mpconfig.v
MemInit.v
Selfcheck.v
SelfcheckTables.v
BootMemory.v
EntryPgdir.v
Monitor.v
Init.v
Startup.v
Boot.v
