(* ===== verification/Prelude.v ===== *)
(** * A verification library for the JOS kernel

    JOS is a small multiprocessor exokernel for the x86: the kernel multiplexes
    physical pages, address spaces and CPUs, and leaves fork, page-fault handling
    and most policy to a library in user space.  This development models the
    kernel's C code (src/kern), the boot loader (src/boot/main.c), the user library
    (src/lib) and the structures and constants of src/inc, and proves what makes
    them correct.

    ** The parts of the program and the files that model them

    - Prelude.v (this file): machine integers as [Z] with explicit wrap-around
      ([u8], [u16], [u32], [s32]), physical memory as a finite map of bytes, the
      monad [comp S E A] of computations on a state [S] that return or leave
      through an exit [E], bounded loops ([loop], with an exit for exhausted fuel)
      and [for_each], lists threaded through arrays ([chain]), and the tactics and
      hints ([jos]) that the other files use.
    - Devices.v: the I/O ports; kern/picirq.c, kern/kclock.c.  What a device
      answers is an arbitrary stream of bytes; what is written is logged.
    - Console.v: kern/console.c, output on three devices, the keyboard and
      serial drivers and the circular input buffer.
    - Strings.v: lib/string.c over byte memory.  Printfmt.v: lib/printfmt.c,
      [vprintfmt] over any output function, [vsnprintf].
    - Machine.v: the constants and structures of src/inc, kern/cpu.h,
      kern/spinlock.h, and the record [kstate] of all kernel variables and of the
      machine; [kexit], the ways a kernel path ends without returning (panic, entry
      into user mode, the monitor, a fault of the kernel itself, spinning); the
      kernel monad [M] and the equations by which proofs run it.
    - Segments.v: descriptors (inc/mmu.h), the GDT and [env_init_percpu].
    - Spinlock.v: kern/spinlock.c, as sequential routines and as atomic steps of
      any number of interleaved CPUs.
    - PageAlloc.v, Pmap.v, UserMem.v, MemInit.v: kern/pmap.c: the boot and page
      allocators; page tables; the checks of user pointers; the boot-time map.
      Selfcheck.v and SelfcheckTables.v: the self-checks of kern/pmap.c, each
      assertion a possible panic.  BootMemory.v: [mem_init] as a whole.
    - Env.v: kern/env.c: ids, the free list, address spaces, the ELF loader,
      [env_free], [env_run].  Loader.v: what the ELF loader leaves in the new
      address space.  Sched.v: kern/sched.c, with [env_destroy] and
      [user_mem_assert], which may reschedule.
    - Lapic.v, Mpconfig.v: kern/lapic.c, kern/mpconfig.c.
    - Kprintf.v: kern/printf.c.  Syscall.v and PageMap.v: kern/syscall.c, every system call and
      the dispatcher.  Trap.v: kern/trap.c, from the descriptor table to the
      return to user mode.  Kdebug.v: kern/kdebug.c.
    - Spaces.v, VmCalls.v: the address spaces of all environments at once.  The
      invariant [spaces] ties the page tables to the reference counts and the free
      list; [view] is the finite map that a directory stands for; [vm_spec] is
      what the memory system calls promise of these maps.
    - UserLib.v: lib/syscall.c, lib/fork.c, lib/pgfault.c, lib/ipc.c, lib/exit.c
      over an interface of system calls, loads and stores ([user_machine]).
      CopyOnWrite.v: the laws the library needs ([user_laws]) and its routines
      proved from them.  UserKernel.v: the kernel and the MMU as such a machine,
      where a system call is a run of [trap]; the laws hold of it.
    - EntryPgdir.v: kern/entrypgdir.c.  Monitor.v: kern/monitor.c, lib/readline.c
      and the printing of trap frames.  Boot.v: boot/main.c with its disk.
    - Init.v: kern/init.c and kern/mpentry.S: [i386_init] on the boot processor,
      the start of the other processors, [_panic] and [_warn].  Startup.v: the
      same function from the boot loader to the first user program.

    ** How the parts interact

    A trap from user mode ([trap]) takes the kernel lock, saves the registers in
    the current environment and dispatches: to the system calls, to the reflection
    of page faults, to the scheduler on a clock tick.  System calls look
    environments up ([envid2env]), check pointers ([user_mem_check]), and change
    address spaces through [page_alloc], [page_insert] and [page_remove], which
    walk and extend page tables in physical memory.  Every path ends in [env_run],
    which releases the lock and enters user mode, in the monitor, or in a panic.
    All of this is ordinary composition in [M]: the definitions call one another
    as the C functions do, on one shared [kstate].

    A pointer into [pages], [envs] or [cpus] is the index it designates; every
    other pointer is a 32-bit number.  Kernel accesses at KERNBASE and above go to
    physical memory directly; accesses to user addresses go through the page
    tables that CR3 designates ([mmu]) and fault as the processor would.

    ** What the theorems show

    - Allocation: [page_init] establishes, and every operation preserves, a
      well-formed free list ([pages_wf]); [page_alloc] and [page_free] refine a
      stack of free pages.
    - Page tables: on well-formed directories ([pd_wf]), [page_insert],
      [page_remove] and [boot_map_region] have exactly the stated effect on the
      entries [pte_of], on reference counts and on the free list, with errors
      that change nothing, and leave other address spaces alone; the boot-time
      layout follows by laying mappings over one another.
    - Booting: [mem_init] returns from every sane machine, so all its self-checks
      pass, with the kernel's address space loaded and a well-formed allocator;
      [check_page_free_list] reorders the free list; [i386_init] comes up to the
      creation of the first environments with every processor that answers
      started on its own stack; [env_create] loads exactly the program's pages and
      bytes; from the state the boot loader leaves, on a machine with room for the
      first programs, [i386_init] ends in user mode at the entry point of
      user/primes; a panic prints its message once.
    - User pointers: [user_mem_check] is sound and complete for page-aligned
      ranges; two theorems pin down the ranges it wrongly accepts.
    - Environments: ids name slots uniquely, [env_alloc] builds a usable address
      space or fails without effect, [env_run] hands over the CPU.
    - Scheduling: [sched_yield] picks the next runnable environment in circular
      order; an environment that stays runnable is chosen within a number of calls
      that depends only on how often the CPU's environment is destroyed.
    - The lock: mutual exclusion and absence of spurious panics for every
      interleaving (induction on the step relation), and agreement of the steps
      with the sequential routines.
    - System calls and traps: the effect of each branch of the memory, fork and
      IPC calls, what an unchecked permission argument lets a user map, the
      rendezvous of sender and receiver, the frame a page fault
      pushes, the return of a system call to its caller, the gates of the
      descriptor table.
    - Address spaces: the three system calls that change mappings return, refine
      the update of one entry of the abstract map, and preserve [spaces], so that
      no free page is mapped and no count is too small, as long as [sys_page_map]
      is given permissions below 4096 and no reference count overflows.
    - Copy-on-write: the page-fault handler of lib/fork.c gives the faulting
      environment a private writable copy, and [duppage] shares a page read-only,
      both on the real kernel: user code, traps, system calls and page tables
      composed.
    - Library code: [memmove] for every overlap, the string functions, the bound
      that [snprintf] keeps, and that [strtol] reads what "%d" prints.
    - Devices and boot: the console's queue, its output as that of a terminal of 25
      rows of 80 cells with two byte-wise lines, the interrupt mask, the
      processors that the MP table lists, the search for debugging symbols, the
      segments the boot loader reads, the addresses the first page table maps, the
      line editor and command interpreter of the monitor.
    Where the code does less than its comments promise, the theorem states what
    the code does.

    ** Fuel

    Loops that C writes with [while] or [for] over a variable bound run under
    [loop] with a number of rounds computed from the data (entries left to visit,
    bytes left to copy, slots of the table), and the theorems show the result is
    [Done] or the stated exit, so the fuel is enough.  Only three loops have a
    bound given from outside: waiting for a device, where the stream of answers is
    finite; [getchar], which polls; and the length of a zero-terminated string
    ([sfuel]).

    ** What is not modelled, and why

    - Messages printed with [cprintf] for information and the debugging name and
      call stack of a lock: they do not influence the state.  The output of
      [sys_cputs] and of the monitor is modelled.  Code under DEBUG_* and [bug_017] is
      not compiled in this configuration.
    - The TLB, caches and timing: the flushes are logged ([invlpgs]), the model's
      MMU always reads the tables.
    - Assembly (entry.S, trapentry.S, boot.S, pfentry.S): its entry points and the
      addresses fixed at link time are parameters.
    - Concurrent execution while the other processors start: a started processor
      runs until it waits for the kernel lock, and only then goes the boot
      processor on.
    - The buffered output of the user library (lib/printf.c, lib/console.c) and the
      user test programs.  Where the kernel enters the monitor, the model leaves by
      [InMonitor]; Monitor.v shows that the monitor does not return.
    - The user library's own stack and variables, as memory: a routine of the
      library is not interrupted by its own page faults. *)

From stdpp Require Import base numbers list gmap fin_maps strings.

Local Open Scope Z_scope.

(** ** Machine integers *)

(** The C integer types of inc/types.h, as the reductions that an assignment to
    a variable of that type performs. *)
Definition u8 (x : Z) : Z := x mod 2 ^ 8.
Definition u16 (x : Z) : Z := x mod 2 ^ 16.
Definition u32 (x : Z) : Z := x mod 2 ^ 32.
Definition s32 (x : Z) : Z := (x + 2 ^ 31) mod 2 ^ 32 - 2 ^ 31.

(** [x & flag], used as a C condition. *)
Definition has (flag x : Z) : bool := negb (Z.land x flag =? 0).

Ltac unfold_widths := unfold u8, u16, u32, s32 in *.

(** Linear arithmetic with division and modulo by literals. *)
Ltac zlia := unfold_widths; Z.div_mod_to_equations; lia.

(** Splits on the next integer test of the goal, dropping impossible cases. *)
Ltac Z_case :=
  match goal with
  | |- context [?a =? ?b] => destruct (Z.eqb_spec a b)
  | |- context [?a <=? ?b] => destruct (Z.leb_spec a b)
  | |- context [?a <? ?b] => destruct (Z.ltb_spec a b)
  end; try (exfalso; lia); simpl.

Section widths.
Lemma u8_range x : 0 <= u8 x < 256.
Proof. unfold u8. apply Z.mod_pos_bound. lia. Qed.

Lemma u16_range x : 0 <= u16 x < 65536.
Proof. unfold u16. apply Z.mod_pos_bound. lia. Qed.

Lemma u32_range x : 0 <= u32 x < 4294967296.
Proof. unfold u32. apply Z.mod_pos_bound. lia. Qed.

Lemma u8_id x : 0 <= x < 256 → u8 x = x.
Proof. intros. apply Z.mod_small. lia. Qed.

Lemma u16_id x : 0 <= x < 65536 → u16 x = x.
Proof. intros. apply Z.mod_small. lia. Qed.

Lemma u32_id x : 0 <= x < 4294967296 → u32 x = x.
Proof. intros. apply Z.mod_small. lia. Qed.

Lemma s32_id x : -2147483648 <= x < 2147483648 → s32 x = x.
Proof. intros. unfold s32. rewrite Z.mod_small; lia. Qed.
End widths.

(** ** Bit fields *)

Section bits.
Lemma land_low_mod x : Z.land x 0xFFF = x mod 4096.
Proof. change 0xFFF with (Z.ones 12). apply Z.land_ones. lia. Qed.

Lemma land_3ff x : Z.land x 0x3FF = x mod 1024.
Proof. change 0x3FF with (Z.ones 10). apply Z.land_ones. lia. Qed.

Lemma land_page_mask x :
  0 <= x < 4294967296 → Z.land x 0xFFFFF000 = x / 4096 * 4096.
Proof.
  intros Hx. rewrite <- (Z.mod_small x (2 ^ 32)) at 1 by lia.
  rewrite <- Z.land_ones by lia. rewrite <- Z.land_assoc.
  change (Z.land (Z.ones 32) 0xFFFFF000) with (Z.ldiff (Z.ones 32) (Z.ones 12)).
  rewrite Z.ldiff_land, Z.land_assoc, Z.land_ones, (Z.mod_small x) by lia.
  rewrite <- Z.ldiff_land, Z.ldiff_ones_r by lia.
  rewrite Z.shiftl_mul_pow2, Z.shiftr_div_pow2 by lia. reflexivity.
Qed.

Lemma page_land_low y f : 0 <= f < 4096 → Z.land (y * 4096) f = 0.
Proof.
  intros Hf. rewrite <- (Z.mod_small f (2 ^ 12)) by lia.
  rewrite <- Z.land_ones, (Z.land_comm f), Z.land_assoc, Z.land_ones by lia.
  change (2 ^ 12) with 4096. rewrite Z.mod_mul by lia. apply Z.land_0_l.
Qed.

Lemma lor_page_flags y f : 0 <= f < 4096 → Z.lor (y * 4096) f = y * 4096 + f.
Proof. intros. rewrite Z.add_nocarry_lor; [done|]. by apply page_land_low. Qed.

Lemma land_page_flags y f g :
  0 <= f < 4096 → 0 <= g < 4096 → Z.land (y * 4096 + f) g = Z.land f g.
Proof.
  intros. rewrite <- lor_page_flags by lia.
  rewrite Z.land_lor_distr_l, page_land_low by lia. apply Z.lor_0_l.
Qed.

Lemma lor_range n a b :
  0 <= n → 0 <= a < 2 ^ n → 0 <= b < 2 ^ n → 0 <= Z.lor a b < 2 ^ n.
Proof.
  intros Hn Ha Hb. split; [apply Z.lor_nonneg; lia|].
  destruct (Z.eq_dec (Z.lor a b) 0) as [->|Hz]; [lia|].
  assert (0 <= Z.lor a b) by (apply Z.lor_nonneg; lia).
  apply Z.log2_lt_pow2; [lia|]. rewrite Z.log2_lor by lia.
  assert (∀ c, 0 <= c < 2 ^ n → Z.log2 c < n ∨ c = 0) as Hl.
  { intros c Hc. destruct (Z.eq_dec c 0); [by right|left]. apply Z.log2_lt_pow2; lia. }
  assert (0 < n). { destruct (Z.eq_dec n 0) as [->|]; [|lia].
    change (2 ^ 0) with 1 in *. assert (a = 0) as -> by lia.
    assert (b = 0) as -> by lia. done. }
  destruct (Hl a Ha) as [?| ->], (Hl b Hb) as [?| ->]; simpl; lia.
Qed.

End bits.

(** ** Bounded quantification *)

#[export] Instance Zrange_dec (P : Z → Prop) (a b : Z) :
  (∀ i, Decision (P i)) → Decision (∀ i, a <= i < b → P i).
Proof.
  intros HP. refine (cast_if (decide (Forall P (seqZ a (b - a)))));
    rewrite Forall_seqZ in *; [intros; apply f; lia|].
  intros H. apply n. intros; apply H. lia.
Defined.

(** Discharges a decidable proposition by evaluating its decision procedure. *)
Ltac by_compute := apply (bool_decide_unpack _); vm_compute; exact I.

(** ** Byte-addressed memory *)

Abbreviation memory := (gmap Z Z).

(** One byte; addresses never written hold 0. *)
Definition mget (m : memory) (a : Z) : Z := u8 (default 0 (m !! a)).

(** Little-endian 32-bit access, as the x86 performs it on a [uint32_t *]. *)
Definition load32 (m : memory) (a : Z) : Z :=
  mget m a + 256 * mget m (a + 1) + 65536 * mget m (a + 2) + 16777216 * mget m (a + 3).
Definition store32 (m : memory) (a v : Z) : memory :=
  <[a := u8 v]> (<[a + 1 := u8 (v / 256)]>
  (<[a + 2 := u8 (v / 65536)]> (<[a + 3 := u8 (v / 16777216)]> m))).

(** [memset] and [memmove] on whole ranges. *)
Fixpoint fill (m : memory) (a c : Z) (n : nat) : memory :=
  match n with O => m | S n' => <[a := u8 c]> (fill m (a + 1) c n') end.
Fixpoint read_bytes (m : memory) (a : Z) (n : nat) : list Z :=
  match n with O => [] | S n' => mget m a :: read_bytes m (a + 1) n' end.
Fixpoint write_bytes (m : memory) (a : Z) (l : list Z) : memory :=
  match l with [] => m | b :: l' => <[a := u8 b]> (write_bytes m (a + 1) l') end.

Section memory.
Implicit Types (m : memory) (a b v c : Z).

Lemma u8_u8 c : u8 (u8 c) = u8 c.
Proof. unfold u8. by rewrite Z.mod_mod. Qed.

Lemma mget_insert m a b v :
  mget (<[a := v]> m) b = if decide (a = b) then u8 v else mget m b.
Proof. unfold mget. rewrite lookup_insert. by case_decide. Qed.

Lemma mget_range m a : 0 <= mget m a < 256.
Proof. apply u8_range. Qed.

Lemma load32_range m a : 0 <= load32 m a < 4294967296.
Proof.
  unfold load32. pose proof (mget_range m a). pose proof (mget_range m (a + 1)).
  pose proof (mget_range m (a + 2)). pose proof (mget_range m (a + 3)). lia.
Qed.

Lemma load32_ext m1 m2 a :
  (∀ b, a <= b < a + 4 → mget m1 b = mget m2 b) → load32 m1 a = load32 m2 a.
Proof. intros H. unfold load32. rewrite !H by lia. done. Qed.

Lemma load32_store32_eq m a v : load32 (store32 m a v) a = u32 v.
Proof.
  unfold load32, store32. rewrite !mget_insert.
  repeat (case_decide; try lia). rewrite !u8_u8. unfold_widths.
  change (2 ^ 8) with 256. change (2 ^ 32) with 4294967296.
  Z.div_mod_to_equations. lia.
Qed.

Lemma mget_store32_ne m a b v : b < a ∨ a + 4 <= b → mget (store32 m a v) b = mget m b.
Proof. intros. unfold store32. rewrite !mget_insert. repeat case_decide; lia. Qed.

Lemma load32_store32_ne m a b v :
  b + 4 <= a ∨ a + 4 <= b → load32 (store32 m a v) b = load32 m b.
Proof. intros. apply load32_ext. intros. apply mget_store32_ne. lia. Qed.

Lemma mget_fill m a c n b :
  mget (fill m a c n) b = if decide (a <= b < a + Z.of_nat n) then u8 c else mget m b.
Proof.
  revert a. induction n as [|n IH]; intros a; simpl.
  { case_decide; [lia|done]. }
  rewrite mget_insert, IH, u8_u8. by repeat case_decide; try lia.
Qed.

Lemma load32_fill_out m a c n b :
  b + 4 <= a ∨ a + Z.of_nat n <= b → load32 (fill m a c n) b = load32 m b.
Proof. intros. apply load32_ext. intros. rewrite mget_fill, decide_False; [done|lia]. Qed.

Lemma load32_fill_zero m a n b :
  a <= b → b + 4 <= a + Z.of_nat n → load32 (fill m a 0 n) b = 0.
Proof. intros. unfold load32. rewrite !mget_fill, !decide_True by lia. done. Qed.

Lemma length_read_bytes m a n : length (read_bytes m a n) = n.
Proof. revert a. induction n; intros; simpl; auto. Qed.

Lemma lookup_read_bytes m a n i :
  (i < n)%nat → read_bytes m a n !! i = Some (mget m (a + Z.of_nat i)).
Proof.
  revert a i. induction n as [|n IH]; intros a [|i] Hi; simpl; try lia.
  - by rewrite Z.add_0_r.
  - rewrite IH by lia. do 2 f_equal. lia.
Qed.

Lemma mget_write_bytes m a l b :
  mget (write_bytes m a l) b =
    if decide (a <= b < a + Z.of_nat (length l))
    then u8 (default 0 (l !! Z.to_nat (b - a))) else mget m b.
Proof.
  revert a. induction l as [|x l IH]; intros a; simpl.
  { rewrite decide_False by lia. done. }
  rewrite mget_insert, IH. destruct (decide (a = b)) as [->|Hne].
  { rewrite decide_True by lia. rewrite Z.sub_diag. simpl. apply u8_u8. }
  destruct (decide (a + 1 <= b < a + 1 + Z.of_nat (length l))).
  - rewrite decide_True by lia.
    replace (Z.to_nat (b - a)) with (S (Z.to_nat (b - (a + 1)))) by lia. done.
  - rewrite decide_False by lia. done.
Qed.

Lemma mget_copy m dst src n b :
  mget (write_bytes m dst (read_bytes m src n)) b =
    if decide (dst <= b < dst + Z.of_nat n) then mget m (src + (b - dst)) else mget m b.
Proof.
  rewrite mget_write_bytes, length_read_bytes. case_decide; [|done].
  rewrite lookup_read_bytes by lia. simpl. rewrite Z2Nat.id by lia.
  apply u8_id, mget_range.
Qed.

Lemma load32_copy_in m dst src n b :
  dst <= b → b + 4 <= dst + Z.of_nat n →
  load32 (write_bytes m dst (read_bytes m src n)) b = load32 m (src + (b - dst)).
Proof.
  intros. unfold load32. rewrite !mget_copy, !decide_True by lia.
  assert (∀ k, src + (b + k - dst) = src + (b - dst) + k) as Hk by lia.
  by rewrite !Hk.
Qed.

Lemma load32_copy_out m dst src n b :
  b + 4 <= dst ∨ dst + Z.of_nat n <= b →
  load32 (write_bytes m dst (read_bytes m src n)) b = load32 m b.
Proof.
  intros. apply load32_ext. intros. rewrite mget_copy, decide_False; [done|lia].
Qed.
End memory.

(** ** Kernel computations: state, early exits *)

(** A C function either returns a value in a new state, or leaves the kernel
    for good through one of its non-returning exits. *)
Inductive outcome (S E A : Type) : Type :=
  | Done (a : A) (s : S)
  | Exit (e : E) (s : S).
Arguments Done {S E A} a s.
Arguments Exit {S E A} e s.

Definition comp (S E A : Type) : Type := S → outcome S E A.

#[export] Instance comp_ret S E : MRet (comp S E) := λ A a s, Done a s.
#[export] Instance comp_bind S E : MBind (comp S E) := λ A B f m s,
  match m s with Done a s' => f a s' | Exit e s' => Exit e s' end.

Definition get {S E} : comp S E S := λ s, Done s s.
Definition gets {S E A} (f : S → A) : comp S E A := λ s, Done (f s) s.
Definition modify {S E} (f : S → S) : comp S E unit := λ s, Done tt (f s).
Definition leave {S E A} (e : E) : comp S E A := λ s, Exit e s.

(** [for (i in l) body (i)] *)
Fixpoint for_each {S E} (l : list Z) (body : Z → comp S E unit) : comp S E unit :=
  match l with
  | [] => mret tt
  | i :: l' => body i ;; for_each l' body
  end.

(** [while (step ())], for at most [fuel] iterations: [None] asks for another
    iteration, [Some a] leaves the loop; [e] is the exit taken when the fuel
    does not suffice. *)
Fixpoint loop {S E X A} (fuel : nat) (e : E) (step : X → comp S E (X + A)) (x : X) :
    comp S E A :=
  match fuel with
  | O => leave e
  | S n => r ← step x; match r with inl x' => loop n e step x' | inr a => mret a end
  end.

Section comp.
Context {S E : Type}.
Implicit Types (s : S) (e : E).

Lemma bind_Done {A B} (m : comp S E A) (f : A → comp S E B) s a s' :
  m s = Done a s' → (m ≫= f) s = f a s'.
Proof. intros H. unfold mbind, comp_bind. by rewrite H. Qed.

Lemma bind_Exit {A B} (m : comp S E A) (f : A → comp S E B) s e s' :
  m s = Exit e s' → (m ≫= f) s = Exit e s'.
Proof. intros H. unfold mbind, comp_bind. by rewrite H. Qed.

Lemma bind_inv {A B} (m : comp S E A) (f : A → comp S E B) s b s' :
  (m ≫= f) s = Done b s' → ∃ a s1, m s = Done a s1 ∧ f a s1 = Done b s'.
Proof. unfold mbind, comp_bind. destruct (m s) eqn:Em; [eauto|discriminate]. Qed.

Lemma ret_eq {A} (a : A) s : (mret a : comp S E A) s = Done a s.
Proof. done. Qed.

Lemma run_get {A} (k : S → comp S E A) s : (get ≫= k) s = k s s.
Proof. done. Qed.
Lemma run_gets {A B} (f : S → B) (k : B → comp S E A) s : (gets f ≫= k) s = k (f s) s.
Proof. done. Qed.
Lemma run_modify {A} f (k : unit → comp S E A) s : (modify f ≫= k) s = k tt (f s).
Proof. done. Qed.
Lemma run_ret {A B} (b : B) (k : B → comp S E A) s : (mret b ≫= k) s = k b s.
Proof. done. Qed.
Lemma run_assoc {A B C} (m : comp S E B) (f : B → comp S E C) (k : C → comp S E A) s :
  ((m ≫= f) ≫= k) s = (m ≫= λ b, f b ≫= k) s.
Proof. unfold mbind, comp_bind. by destruct (m s). Qed.

(** A computation in tail position is a bind with [mret]. *)
Lemma tail_bind {A} (m : comp S E A) s : m s = (m ≫= mret) s.
Proof. unfold mbind, comp_bind. by destruct (m s). Qed.

Lemma loop_S {X A} n e (step : X → comp S E (X + A)) x s :
  loop (Datatypes.S n) e step x s =
    (step x ≫= λ r, match r with inl x' => loop n e step x' | inr a => mret a end) s.
Proof. done. Qed.

Lemma for_each_ind (I : list Z → S → Prop) l body s :
  I l s →
  (∀ i l' s, I (i :: l') s → ∃ s', body i s = @Done S E unit tt s' ∧ I l' s') →
  ∃ s', for_each l body s = Done tt s' ∧ I [] s'.
Proof.
  intros HI Hbody. revert s HI. induction l as [|i l IH]; intros s HI; simpl.
  { eexists. split; [done|done]. }
  destruct (Hbody i l s HI) as (s1 & Hs1 & HI1).
  destruct (IH s1 HI1) as (s2 & Hs2 & HI2).
  exists s2. split; [|done]. by rewrite (bind_Done _ _ _ _ _ Hs1).
Qed.

Lemma for_each_app l1 l2 body s s1 :
  for_each l1 body s = @Done S E unit tt s1 →
  for_each (l1 ++ l2) body s = for_each l2 body s1.
Proof.
  revert s. induction l1 as [|i l IH]; intros s; simpl.
  { intros [= ->]. done. }
  intros H. apply bind_inv in H as ([] & s' & Hb & H).
  rewrite (bind_Done _ _ _ _ _ Hb). by apply IH.
Qed.
End comp.

(** ** What a computation leaves alone *)

(** However [m] ends, it preserves the relation [R] between the states before and
    after it; [keeps f m] says so of a part [f] of the state. *)
Definition final {S E A} (o : outcome S E A) : S := match o with Done _ s | Exit _ s => s end.
Definition within {S E A} (R : S → S → Prop) (m : comp S E A) : Prop := ∀ s, R s (final (m s)).
Abbreviation keeps f := (within (λ s s', f s' = f s)).

Section within.
Context {S E : Type} (R : S → S → Prop) `{!PreOrder R}.

Lemma within_ret {A} (a : A) : within R (mret a : comp S E A).
Proof. intros s. simpl. reflexivity. Qed.
Lemma within_leave {A} e : within R (leave e : comp S E A).
Proof. intros s. simpl. reflexivity. Qed.
Lemma within_get : within R (get : comp S E S).
Proof. intros s. simpl. reflexivity. Qed.
Lemma within_gets {A} (f : S → A) : within R (gets f : comp S E A).
Proof. intros s. simpl. reflexivity. Qed.
Lemma within_modify f : (∀ s, R s (f s)) → within R (modify f : comp S E unit).
Proof. intros H s. apply H. Qed.
Lemma within_bind {A B} (m : comp S E A) (k : A → comp S E B) :
  within R m → (∀ a, within R (k a)) → within R (m ≫= k).
Proof.
  intros Hm Hk s. specialize (Hm s). unfold mbind, comp_bind. destruct (m s) as [a s1|]; [|done].
  etransitivity; [exact Hm|apply Hk].
Qed.
Lemma within_for_each l (body : Z → comp S E unit) :
  (∀ i, within R (body i)) → within R (for_each l body).
Proof. intros H. induction l; simpl; [apply within_ret|by apply within_bind]. Qed.
Lemma within_loop {X A} n e (step : X → comp S E (X + A)) x :
  (∀ x, within R (step x)) → within R (loop n e step x).
Proof.
  intros H. revert x. induction n as [|n IH]; intros x; simpl; [apply within_leave|].
  apply within_bind; [done|]. intros [x'|a]; [apply IH|apply within_ret].
Qed.
End within.

#[export] Instance keeps_preorder {S B} (f : S → B) : PreOrder (λ s s', f s' = f s).
Proof. split; [done|]. intros s1 s2 s3 H1 H2. by rewrite H2, H1. Qed.

(** Runs the first operation of a bind whose result is known. *)
Ltac step_with H := rewrite (bind_Done _ _ _ _ _ H); cbv beta.

(** Splits [H : (m ≫= f) s = Done _ _] into its two halves. *)
Tactic Notation "inv_bind" hyp(H) "as" simple_intropattern(p) ident(s1) ident(H1) :=
  let H2 := fresh in
  apply bind_inv in H as (p & s1 & H1 & H2); rename H2 into H.

(** ** Singly linked lists inside arrays *)

(** [chain next hd l]: following [next] from [hd] visits exactly the array
    indices [l] and then reaches the null pointer. *)
Fixpoint chain (next : Z → option (option Z)) (hd : option Z) (l : list Z) : Prop :=
  match l with
  | [] => hd = None
  | p :: l' => hd = Some p ∧ match next p with Some q => chain next q l' | None => False end
  end.

#[export] Instance chain_dec next hd l : Decision (chain next hd l).
Proof.
  revert hd. induction l as [|p l IH]; intros hd; simpl; [apply _|].
  destruct (next p); [|right; by intros []]. apply and_dec; [apply _|apply IH].
Defined.

Section chain.
Implicit Types (next : Z → option (option Z)) (hd : option Z) (l : list Z).

Lemma chain_frame next next' hd l :
  (∀ p, p ∈ l → next' p = next p) → chain next hd l → chain next' hd l.
Proof.
  revert hd. induction l as [|p l IH]; intros hd Hf; simpl; [done|].
  intros [-> Hc]. split; [done|]. rewrite Hf by set_solver.
  destruct (next p); [|done]. apply IH; [|done]. set_solver.
Qed.

Lemma chain_fun next hd l1 l2 : chain next hd l1 → chain next hd l2 → l1 = l2.
Proof.
  revert hd l2. induction l1 as [|p l1 IH]; intros hd [|q l2]; simpl; try naive_solver.
  intros [-> H1] [[= <-] H2]. destruct (next p); [|done]. f_equal. eauto.
Qed.

Lemma chain_bound next hd l p : chain next hd l → p ∈ l → is_Some (next p).
Proof.
  revert hd. induction l as [|q l IH]; intros hd; simpl; [set_solver|].
  intros [_ Hc] Hp. destruct (next q) eqn:Eq; [|done].
  apply elem_of_cons in Hp as [->|Hp]; [by rewrite Eq|eauto].
Qed.

Lemma chain_app next hd l1 p l2 :
  chain next hd (l1 ++ p :: l2) → chain next (Some p) (p :: l2).
Proof.
  revert hd. induction l1 as [|q l1 IH]; intros hd; simpl.
  - by intros [-> ?].
  - intros [_ Hc]. destruct (next q); [|done]. by apply (IH o).
Qed.
End chain.

#[global] Opaque fill read_bytes write_bytes.
#[global] Arguments fill : simpl never.
#[global] Arguments read_bytes : simpl never.
#[global] Arguments write_bytes : simpl never.
#[global] Arguments load32 : simpl never.
#[global] Arguments store32 : simpl never.
#[global] Arguments u8 : simpl never.
#[global] Arguments u16 : simpl never.
#[global] Arguments u32 : simpl never.
#[global] Arguments s32 : simpl never.
#[global] Arguments has : simpl never.
#[global] Arguments Z.to_nat : simpl never.
#[global] Arguments Z.land : simpl never.
#[global] Arguments Z.lor : simpl never.
#[global] Arguments Z.shiftl : simpl never.
#[global] Arguments Z.shiftr : simpl never.
#[global] Arguments seqZ : simpl never.
#[global] Arguments lookup : simpl never.
#[global] Arguments insert : simpl never.
#[global] Arguments comp_bind : simpl never.
#[global] Arguments loop : simpl never.

Create HintDb jos.

(** Follows the structure of a computation; [known] are the operations in it. *)
Create HintDb known discriminated.
#[export] Hint Constants Opaque : known.
Ltac within_tac :=
  repeat match goal with
  | |- within _ (match ?x with _ => _ end) => destruct x
  | |- within _ (mret _) => apply (within_ret _)
  | |- within _ (leave _) => apply (within_leave _)
  | |- within _ get => apply (within_get _)
  | |- within _ (gets _) => apply (within_gets _)
  | |- within _ (loop _ _ _ _) => apply (within_loop _); intros
  | |- within _ (for_each _ _) => apply (within_for_each _); intros
  | |- within _ (_ ≫= _) => apply (within_bind _); [|intros]
  | |- within _ (let _ := _ in _) => cbv zeta
  | |- within _ _ => solve [auto with known]
  end.
#[export] Hint Resolve u8_range u16_range u32_range load32_range mget_range : jos.
