(* ===== verification/Devices.v ===== *)
(** * Devices: I/O ports, the interrupt controller and the real-time clock

    The state of the devices the kernel drives through I/O ports, with
    kern/picirq.c and kern/kclock.c.  What a device answers is not known: [inb]
    takes the next byte of an arbitrary stream, and reads 0 once the stream is
    used up (no device has data then). *)

From S2P Require Import Prelude.
From stdpp Require Import base numbers list gmap fin_maps strings.

Local Open Scope Z_scope.

Record devices : Type := mkDevices {
  inb_stream : list Z;  (** bytes the devices will return, next first *)
  outb_log : list (Z * Z);  (** (port, byte) written, newest first *)
  cga_present : bool;  (** the colour adapter's memory reads back *)
  irq_mask_8259A : Z;
  pic_didinit : bool;  (** [didinit] of kern/picirq.c *)
  serial_exists : bool;
  addr_6845 : Z;
  crt_buf : gmap Z Z;  (** the text screen *)
  crt_pos : Z;
  kbd_shift : Z;  (** [shift] of [kbd_proc_data] *)
  cons_buf : gmap Z Z;  (** [cons.buf] *)
  cons_rpos : Z;
  cons_wpos : Z
}.

Definition set_inb_stream (v : list Z) (d : devices) : devices :=
  mkDevices v (outb_log d) (cga_present d) (irq_mask_8259A d) (pic_didinit d)
    (serial_exists d) (addr_6845 d) (crt_buf d) (crt_pos d) (kbd_shift d) (cons_buf d)
    (cons_rpos d) (cons_wpos d).
Definition set_outb_log (v : list (Z * Z)) (d : devices) : devices :=
  mkDevices (inb_stream d) v (cga_present d) (irq_mask_8259A d) (pic_didinit d)
    (serial_exists d) (addr_6845 d) (crt_buf d) (crt_pos d) (kbd_shift d) (cons_buf d)
    (cons_rpos d) (cons_wpos d).
Definition set_cga_present (v : bool) (d : devices) : devices :=
  mkDevices (inb_stream d) (outb_log d) v (irq_mask_8259A d) (pic_didinit d)
    (serial_exists d) (addr_6845 d) (crt_buf d) (crt_pos d) (kbd_shift d) (cons_buf d)
    (cons_rpos d) (cons_wpos d).
Definition set_irq_mask_8259A (v : Z) (d : devices) : devices :=
  mkDevices (inb_stream d) (outb_log d) (cga_present d) v (pic_didinit d) (serial_exists
    d) (addr_6845 d) (crt_buf d) (crt_pos d) (kbd_shift d) (cons_buf d) (cons_rpos d)
    (cons_wpos d).
Definition set_pic_didinit (v : bool) (d : devices) : devices :=
  mkDevices (inb_stream d) (outb_log d) (cga_present d) (irq_mask_8259A d) v
    (serial_exists d) (addr_6845 d) (crt_buf d) (crt_pos d) (kbd_shift d) (cons_buf d)
    (cons_rpos d) (cons_wpos d).
Definition set_serial_exists (v : bool) (d : devices) : devices :=
  mkDevices (inb_stream d) (outb_log d) (cga_present d) (irq_mask_8259A d) (pic_didinit
    d) v (addr_6845 d) (crt_buf d) (crt_pos d) (kbd_shift d) (cons_buf d) (cons_rpos d)
    (cons_wpos d).
Definition set_addr_6845 (v : Z) (d : devices) : devices :=
  mkDevices (inb_stream d) (outb_log d) (cga_present d) (irq_mask_8259A d) (pic_didinit
    d) (serial_exists d) v (crt_buf d) (crt_pos d) (kbd_shift d) (cons_buf d) (cons_rpos
    d) (cons_wpos d).
Definition set_crt_buf (v : gmap Z Z) (d : devices) : devices :=
  mkDevices (inb_stream d) (outb_log d) (cga_present d) (irq_mask_8259A d) (pic_didinit
    d) (serial_exists d) (addr_6845 d) v (crt_pos d) (kbd_shift d) (cons_buf d)
    (cons_rpos d) (cons_wpos d).
Definition set_crt_pos (v : Z) (d : devices) : devices :=
  mkDevices (inb_stream d) (outb_log d) (cga_present d) (irq_mask_8259A d) (pic_didinit
    d) (serial_exists d) (addr_6845 d) (crt_buf d) v (kbd_shift d) (cons_buf d)
    (cons_rpos d) (cons_wpos d).
Definition set_kbd_shift (v : Z) (d : devices) : devices :=
  mkDevices (inb_stream d) (outb_log d) (cga_present d) (irq_mask_8259A d) (pic_didinit
    d) (serial_exists d) (addr_6845 d) (crt_buf d) (crt_pos d) v (cons_buf d) (cons_rpos
    d) (cons_wpos d).
Definition set_cons_buf (v : gmap Z Z) (d : devices) : devices :=
  mkDevices (inb_stream d) (outb_log d) (cga_present d) (irq_mask_8259A d) (pic_didinit
    d) (serial_exists d) (addr_6845 d) (crt_buf d) (crt_pos d) (kbd_shift d) v
    (cons_rpos d) (cons_wpos d).
Definition set_cons_rpos (v : Z) (d : devices) : devices :=
  mkDevices (inb_stream d) (outb_log d) (cga_present d) (irq_mask_8259A d) (pic_didinit
    d) (serial_exists d) (addr_6845 d) (crt_buf d) (crt_pos d) (kbd_shift d) (cons_buf
    d) v (cons_wpos d).
Definition set_cons_wpos (v : Z) (d : devices) : devices :=
  mkDevices (inb_stream d) (outb_log d) (cga_present d) (irq_mask_8259A d) (pic_didinit
    d) (serial_exists d) (addr_6845 d) (crt_buf d) (crt_pos d) (kbd_shift d) (cons_buf
    d) (cons_rpos d) v.

(** The console's static variables and the devices at power-on; [stream] is what
    the devices will answer. *)
Definition zero_devices (stream : list Z) : devices :=
  mkDevices stream [] true 0xFFFB false false 0 ∅ 0 0 ∅ 0 0.

(** The only exit of device code is a loop of the model that runs out. *)
Inductive dexit : Type := DevNoFuel.

Abbreviation DM := (comp devices dexit).

(** inc/x86.h: port access. *)
Definition inb (port : Z) : DM Z :=
  d ← get;
  match inb_stream d with
  | [] => mret 0
  | b :: l => modify (set_inb_stream l) ;; mret (u8 b)
  end.
Definition outb (port data : Z) : DM unit :=
  modify (λ d, set_outb_log ((port, u8 data) :: outb_log d) d).

#[global] Arguments inb : simpl never.
#[global] Arguments outb : simpl never.

(** ** kern/picirq.c *)

Definition IRQ_SLAVE : Z := 2.
Definition IRQ_OFFSET : Z := 32.
Definition IO_PIC1 : Z := 0x20.
Definition IO_PIC2 : Z := 0xA0.

Definition irq_setmask_8259A (mask : Z) : DM unit :=
  modify (set_irq_mask_8259A (u16 mask)) ;;
  d ← get;
  if negb (pic_didinit d) then mret tt else
  outb (IO_PIC1 + 1) (u16 mask) ;;
  outb (IO_PIC2 + 1) (Z.shiftr (u16 mask) 8).

Definition pic_init : DM unit :=
  modify (set_pic_didinit true) ;;
  outb (IO_PIC1 + 1) 0xFF ;;
  outb (IO_PIC2 + 1) 0xFF ;;
  outb IO_PIC1 0x11 ;;
  outb (IO_PIC1 + 1) IRQ_OFFSET ;;
  outb (IO_PIC1 + 1) (Z.shiftl 1 IRQ_SLAVE) ;;
  outb (IO_PIC1 + 1) 0x3 ;;
  outb IO_PIC2 0x11 ;;
  outb (IO_PIC2 + 1) (IRQ_OFFSET + 8) ;;
  outb (IO_PIC2 + 1) IRQ_SLAVE ;;
  outb (IO_PIC2 + 1) 0x01 ;;
  outb IO_PIC1 0x68 ;;
  outb IO_PIC1 0x0a ;;
  outb IO_PIC2 0x68 ;;
  outb IO_PIC2 0x0a ;;
  d ← get;
  if negb (irq_mask_8259A d =? 0xFFFF) then irq_setmask_8259A (irq_mask_8259A d) else mret tt.

(** ** kern/kclock.c *)

Definition IO_RTC : Z := 0x070.

Definition mc146818_read (reg : Z) : DM Z := outb IO_RTC reg ;; inb (IO_RTC + 1).
Definition mc146818_write (reg datum : Z) : DM unit := outb IO_RTC reg ;; outb (IO_RTC + 1) datum.

#[global] Arguments irq_setmask_8259A : simpl never.
#[global] Arguments pic_init : simpl never.
#[global] Arguments mc146818_read : simpl never.
#[global] Arguments mc146818_write : simpl never.

(** ** Running device code *)

(** The input left is a suffix of the input before. *)
Definition consumes (d d' : devices) : Prop := ∃ l, inb_stream d = l ++ inb_stream d'.

Section devices.
Implicit Types d : devices.

Lemma inb_run {A} port (k : Z → DM A) d :
  (inb port ≫= k) d = match inb_stream d with
                      | [] => k 0 d
                      | b :: l => k (u8 b) (set_inb_stream l d) end.
Proof.
  unfold inb, mbind, comp_bind, get, modify, mret, comp_ret. by destruct (inb_stream d).
Qed.

Lemma outb_run {A} port data (k : unit → DM A) d :
  (outb port data ≫= k) d = k tt (set_outb_log ((port, u8 data) :: outb_log d) d).
Proof. done. Qed.
End devices.

(** The masks last written to the two interrupt controllers, read off the log. *)
Definition last_out (d : devices) (port : Z) : option Z :=
  snd <$> head (filter (λ pd, pd.1 = port) (outb_log d)).

(** once the controllers are initialised, irq_setmask_8259A makes the mask
    registers of the two chips hold the low and the high byte of the mask, and
    pic_init ends with the registers agreeing with the software mask in the same
    way; before initialisation only the software mask changes. *)
Theorem pic_mask_in_sync d mask :
  (∃ d', irq_setmask_8259A mask d = Done tt d' ∧ irq_mask_8259A d' = u16 mask ∧
     (pic_didinit d = true → last_out d' (IO_PIC1 + 1) = Some (u16 mask mod 256) ∧
        last_out d' (IO_PIC2 + 1) = Some (u16 mask / 256)) ∧
     (pic_didinit d = false → outb_log d' = outb_log d)) ∧
  (∃ d', pic_init d = Done tt d' ∧ pic_didinit d' = true ∧
     irq_mask_8259A d' = (if irq_mask_8259A d =? 0xFFFF then 0xFFFF else u16 (irq_mask_8259A d)) ∧
     last_out d' (IO_PIC1 + 1) = Some (if irq_mask_8259A d =? 0xFFFF then 3
       else u16 (irq_mask_8259A d) mod 256)).
Proof.
  pose proof (u16_range mask) as Hm.
  assert (∀ m, u8 (u16 m) = u16 m mod 256 ∧ u8 (Z.shiftr (u16 m) 8) = u16 m / 256) as Hb.
  { intros m. pose proof (u16_range m). rewrite Z.shiftr_div_pow2 by lia.
    change (2 ^ 8) with 256. split; [done|]. unfold u8. apply Z.mod_small. zlia. }
  split.
  - unfold irq_setmask_8259A. rewrite run_modify, run_get. simpl.
    destruct (pic_didinit d) eqn:Ed; simpl.
    + rewrite outb_run, tail_bind, outb_run. eexists. split; [done|]. split; [done|].
      split; [|done]. intros _. unfold last_out. simpl. by rewrite (proj1 (Hb mask)), (proj2 (Hb mask)).
    + eexists. split; [done|]. by split.
  - unfold pic_init. rewrite run_modify. do 14 rewrite outb_run. rewrite run_get. simpl.
    destruct (Z.eqb_spec (irq_mask_8259A d) 0xFFFF) as [E|]; simpl.
    + eexists. split; [done|]. split_and!; [done|exact E|done].
    + unfold irq_setmask_8259A. rewrite run_modify, run_get. simpl.
      rewrite outb_run, tail_bind, outb_run. eexists. split; [done|]. split_and!; [done|done|].
      unfold last_out. simpl. by rewrite (proj1 (Hb (irq_mask_8259A d))).
Qed.
