(* ===== verification/Console.v ===== *)
(** * The console: kern/console.c

    Serial port, parallel port, text screen and keyboard drivers, and the
    circular input buffer they feed.  The buffer is related to an abstract queue
    of characters. *)

From S2P Require Import Prelude Devices.
From stdpp Require Import base numbers list gmap fin_maps strings.

Local Open Scope Z_scope.

(** ** Output devices *)

Definition delay : DM unit := inb 0x84 ;; inb 0x84 ;; inb 0x84 ;; inb 0x84 ;; mret tt.

Definition COM1 : Z := 0x3F8.
Definition COM_RX : Z := 0.
Definition COM_TX : Z := 0.
Definition COM_DLL : Z := 0.
Definition COM_DLM : Z := 1.
Definition COM_IER : Z := 1.
Definition COM_IER_RDI : Z := 0x01.
Definition COM_IIR : Z := 2.
Definition COM_FCR : Z := 2.
Definition COM_LCR : Z := 3.
Definition COM_LCR_DLAB : Z := 0x80.
Definition COM_LCR_WLEN8 : Z := 0x03.
Definition COM_MCR : Z := 4.
Definition COM_LSR : Z := 5.
Definition COM_LSR_DATA : Z := 0x01.
Definition COM_LSR_TXRDY : Z := 0x20.

Definition serial_putc (c : Z) : DM unit :=
  loop (Z.to_nat 12801) DevNoFuel (λ i,
    b ← inb (COM1 + COM_LSR);
    if negb (has COM_LSR_TXRDY b) && (i <? 12800) then delay ;; mret (inl (i + 1))
    else mret (inr tt)) 0 ;;
  outb (COM1 + COM_TX) c.

Definition serial_init : DM unit :=
  outb (COM1 + COM_FCR) 0 ;;
  outb (COM1 + COM_LCR) COM_LCR_DLAB ;;
  outb (COM1 + COM_DLL) (u8 (115200 / 9600)) ;;
  outb (COM1 + COM_DLM) 0 ;;
  outb (COM1 + COM_LCR) (Z.land COM_LCR_WLEN8 (Z.lnot COM_LCR_DLAB)) ;;
  outb (COM1 + COM_MCR) 0 ;;
  outb (COM1 + COM_IER) COM_IER_RDI ;;
  b ← inb (COM1 + COM_LSR);
  modify (set_serial_exists (negb (b =? 0xFF))) ;;
  inb (COM1 + COM_IIR) ;;
  inb (COM1 + COM_RX) ;;
  mret tt.

Definition lpt_putc (c : Z) : DM unit :=
  loop (Z.to_nat 12801) DevNoFuel (λ i,
    b ← inb (0x378 + 1);
    if negb (has 0x80 b) && (i <? 12800) then delay ;; mret (inl (i + 1))
    else mret (inr tt)) 0 ;;
  outb (0x378 + 0) c ;;
  outb (0x378 + 2) (Z.lor (Z.lor 0x08 0x04) 0x01) ;;
  outb (0x378 + 2) 0x08.

Definition MONO_BASE : Z := 0x3B4.
Definition CGA_BASE : Z := 0x3D4.
Definition CRT_COLS : Z := 80.
Definition CRT_SIZE : Z := 25 * 80.

Definition cga_init : DM unit :=
  d ← get;
  let addr := if cga_present d then CGA_BASE else MONO_BASE in
  modify (set_addr_6845 addr) ;;
  outb addr 14 ;;
  hi ← inb (addr + 1);
  outb addr 15 ;;
  lo ← inb (addr + 1);
  modify (set_crt_pos (u16 (Z.lor (Z.shiftl hi 8) lo))).

(** Characters with a meaning for the screen. *)
Definition BS : Z := 8.
Definition TAB : Z := 9.
Definition LF : Z := 10.
Definition CR : Z := 13.
Definition SPACE : Z := 32.

Definition crt_at (d : devices) (i : Z) : Z := default 0 (crt_buf d !! i).

(** [memmove] of all rows but the first one up by one row, and a blank last row. *)
Definition scroll (b : gmap Z Z) : gmap Z Z :=
  let moved := foldl (λ b' i, <[i := default 0 (b !! (i + CRT_COLS))]> b') b
    (seqZ 0 (CRT_SIZE - CRT_COLS)) in
  foldl (λ b' i, <[i := Z.lor 0x0700 SPACE]> b') moved (seqZ (CRT_SIZE - CRT_COLS) CRT_COLS).

(** The end of [cga_putc]: scrolling and the cursor. *)
Definition cga_update : DM unit :=
  d ← get;
  (if CRT_SIZE <=? crt_pos d then
     modify (set_crt_buf (scroll (crt_buf d))) ;;
     modify (set_crt_pos (crt_pos d - CRT_COLS))
   else mret tt) ;;
  d ← get;
  outb (addr_6845 d) 14 ;;
  outb (addr_6845 d + 1) (Z.shiftr (crt_pos d) 8) ;;
  outb (addr_6845 d) 15 ;;
  outb (addr_6845 d + 1) (crt_pos d).

Section putc.
(** [cons_putc], which [cga_putc] calls for the blanks of a tab. *)
Variable cons_putc : Z → DM unit.

Definition cga_putc (c : Z) : DM unit :=
  let c := if Z.land c (Z.lnot 0xFF) =? 0 then Z.lor c 0x0700 else c in
  let ch := Z.land c 0xff in
  (if ch =? BS then
     d ← get;
     if 0 <? crt_pos d then
       modify (set_crt_pos (crt_pos d - 1)) ;;
       modify (λ d, set_crt_buf (<[crt_pos d := u16 (Z.lor (Z.land c (Z.lnot 0xff)) SPACE)]>
         (crt_buf d)) d)
     else mret tt
   else if (ch =? LF) || (ch =? CR) then
     (if ch =? LF then modify (λ d, set_crt_pos (u16 (crt_pos d + CRT_COLS)) d) else mret tt) ;;
     modify (λ d, set_crt_pos (crt_pos d - crt_pos d mod CRT_COLS) d)
   else if ch =? TAB then
     for_each [SPACE; SPACE; SPACE; SPACE; SPACE] cons_putc
   else
     d ← get;
     modify (set_crt_buf (<[crt_pos d := u16 c]> (crt_buf d))) ;;
     modify (set_crt_pos (u16 (crt_pos d + 1)))) ;;
  cga_update.

Definition cons_putc_body (c : Z) : DM unit := serial_putc c ;; lpt_putc c ;; cga_putc c.
End putc.

(** A tab prints blanks, which print no further characters: depth two is enough. *)
Definition cons_putc (c : Z) : DM unit :=
  cons_putc_body (cons_putc_body (λ _, leave DevNoFuel)) c.
Definition cputchar (c : Z) : DM unit := cons_putc c.

(** ** Input devices *)

Definition serial_proc_data : DM Z :=
  b ← inb (COM1 + COM_LSR);
  if negb (has COM_LSR_DATA b) then mret (-1) else inb (COM1 + COM_RX).

Definition KBSTATP : Z := 0x64.
Definition KBS_DIB : Z := 0x01.
Definition KBDATAP : Z := 0x60.
Definition KEY_HOME : Z := 0xE0.
Definition KEY_END : Z := 0xE1.
Definition KEY_UP : Z := 0xE2.
Definition KEY_DN : Z := 0xE3.
Definition KEY_LF : Z := 0xE4.
Definition KEY_RT : Z := 0xE5.
Definition KEY_PGUP : Z := 0xE6.
Definition KEY_PGDN : Z := 0xE7.
Definition KEY_INS : Z := 0xE8.
Definition KEY_DEL : Z := 0xE9.

Definition SHIFT : Z := 1.
Definition CTL : Z := 2.
Definition ALT : Z := 4.
Definition CAPSLOCK : Z := 8.
Definition NUMLOCK : Z := 16.
Definition SCROLLLOCK : Z := 32.
Definition E0ESC : Z := 64.

(** An array initialised by listing its first elements and some others by index. *)
Definition array_init (first : list Z) (others : list (Z * Z)) (i : Z) : Z :=
  match head (filter (λ p, p.1 = i) others) with
  | Some p => p.2
  | None => default 0 (first !! Z.to_nat i)
  end.

(** The codes of the characters of a string. *)
Definition codes (s : string) : list Z :=
  (λ a, Z.of_N (Ascii.N_of_ascii a)) <$> String.list_ascii_of_string s.

Definition shiftcode : Z → Z :=
  array_init [] [(0x1D, CTL); (0x2A, SHIFT); (0x36, SHIFT); (0x38, ALT); (0x9D, CTL); (0xB8, ALT)].
Definition togglecode : Z → Z :=
  array_init [] [(0x3A, CAPSLOCK); (0x45, NUMLOCK); (0x46, SCROLLLOCK)].

Definition extended_keys : list (Z * Z) :=
  [(0xC7, KEY_HOME); (0x9C, LF); (0xB5, 47); (0xC8, KEY_UP); (0xC9, KEY_PGUP); (0xCB, KEY_LF);
   (0xCD, KEY_RT); (0xCF, KEY_END); (0xD0, KEY_DN); (0xD1, KEY_PGDN); (0xD2, KEY_INS);
   (0xD3, KEY_DEL)].

Definition keypad : list Z :=
  [0; 32; 0; 0; 0; 0; 0; 0; 0; 0; 0; 0; 0; 0; 0] ++ codes "789-456+1230." ++ [0; 0; 0; 0].

Definition normalmap : Z → Z :=
  array_init ([0; 0x1B] ++ codes "1234567890-=" ++ [BS; TAB] ++ codes "qwertyuiop[]" ++ [LF; 0] ++
    codes "asdfghjkl;'`" ++ [0] ++ codes "\zxcvbnm,./" ++ [0] ++ codes "*" ++ keypad) extended_keys.

Definition shiftmap : Z → Z :=
  array_init ([0; 27] ++ codes "!@#$%^&*()_+" ++ [BS; TAB] ++ codes "QWERTYUIOP{}" ++ [LF; 0] ++
    codes "ASDFGHJKL:" ++ [34] ++ codes "~" ++ [0] ++ codes "|ZXCVBNM<>?" ++ [0] ++ codes "*" ++
    keypad) extended_keys.

(** [C (x)] *)
Definition ctrl (x : Z) : Z := x - 64.

Definition ctlmap : Z → Z :=
  array_init (replicate 16 0 ++ (ctrl <$> codes "QWERTYUIOP") ++ [0; 0; CR; 0] ++
    (ctrl <$> codes "ASDFGHJKL") ++ [0; 0; 0; 0] ++ (ctrl <$> codes "\ZXCVBNM") ++ [0; 0] ++
    [ctrl 47; 0; 0])
  [(0x97, KEY_HOME); (0xB5, ctrl 47); (0xC8, KEY_UP); (0xC9, KEY_PGUP); (0xCB, KEY_LF);
   (0xCD, KEY_RT); (0xCF, KEY_END); (0xD0, KEY_DN); (0xD1, KEY_PGDN); (0xD2, KEY_INS);
   (0xD3, KEY_DEL)].

Definition charcode (i data : Z) : Z :=
  u8 (if i =? 0 then normalmap data else if i =? 1 then shiftmap data else ctlmap data).

(** One scan code: the new modifiers and the character, 0 if none is complete. *)
Definition kbd_translate (shift data : Z) : Z * Z :=
  if data =? 0xE0 then (Z.lor shift E0ESC, 0)
  else if has 0x80 data then
    let data := if has E0ESC shift then data else Z.land data 0x7F in
    (Z.land shift (Z.lnot (Z.lor (shiftcode data) E0ESC)), 0)
  else
    let '(data, shift) := if has E0ESC shift
      then (Z.lor data 0x80, Z.land shift (Z.lnot E0ESC)) else (data, shift) in
    let shift := Z.lxor (Z.lor shift (shiftcode data)) (togglecode data) in
    let c := charcode (Z.land shift (Z.lor CTL SHIFT)) data in
    let c := if has CAPSLOCK shift then
        if (97 <=? c) && (c <=? 122) then c + (65 - 97)
        else if (65 <=? c) && (c <=? 90) then c + (97 - 65) else c
      else c in
    (shift, c).

(** The message before the reset of the machine is left out. *)
Definition kbd_proc_data : DM Z :=
  b ← inb KBSTATP;
  if Z.land b KBS_DIB =? 0 then mret (-1) else
  data ← inb KBDATAP;
  d ← get;
  let '(shift, c) := kbd_translate (kbd_shift d) data in
  modify (set_kbd_shift shift) ;;
  (if (Z.land (Z.lnot shift) (Z.lor CTL ALT) =? 0) && (c =? KEY_DEL)
   then outb 0x92 0x3 else mret tt) ;;
  mret c.

(** ** The input buffer *)

Definition CONSBUFSIZE : Z := 512.

Definition cons_store (c : Z) (d : devices) : devices :=
  let wpos := cons_wpos d + 1 in
  set_cons_wpos (if wpos =? CONSBUFSIZE then 0 else wpos)
    (set_cons_buf (<[cons_wpos d := u8 c]> (cons_buf d)) d).

(** Every call of [proc] that does not answer -1 takes at least one byte of the
    input, so the remaining input bounds the number of iterations. *)
Definition cons_intr (proc : DM Z) : DM unit :=
  d ← get;
  loop (S (length (inb_stream d))) DevNoFuel (λ _,
    c ← proc;
    if c =? -1 then mret (inr tt)
    else if c =? 0 then mret (inl tt)
    else modify (cons_store c) ;; mret (inl tt)) tt.

Definition serial_intr : DM unit :=
  d ← get; if serial_exists d then cons_intr serial_proc_data else mret tt.
Definition kbd_intr : DM unit := cons_intr kbd_proc_data.

Definition kbd_init : DM unit :=
  kbd_intr ;;
  d ← get;
  irq_setmask_8259A (Z.land (irq_mask_8259A d) (Z.lnot (Z.shiftl 1 1))).

(** The buffer's next character, 0 if there is none. *)
Definition cons_take : DM Z :=
  d ← get;
  if negb (cons_rpos d =? cons_wpos d) then
    let rpos := cons_rpos d + 1 in
    modify (set_cons_rpos (if rpos =? CONSBUFSIZE then 0 else rpos)) ;;
    mret (default 0 (cons_buf d !! cons_rpos d))
  else mret 0.

Definition cons_getc : DM Z := serial_intr ;; kbd_intr ;; cons_take.

Definition cons_init : DM unit :=
  cga_init ;;
  kbd_init ;;
  serial_init ;;
  d ← get;
  if serial_exists d then mret tt
  else for_each (codes "Serial port does not exist!" ++ [LF]) cputchar.

(** [getchar] polls for at most [fuel] rounds. *)
Definition getchar (fuel : nat) : DM Z :=
  loop fuel DevNoFuel (λ _, c ← cons_getc; if c =? 0 then mret (inl tt) else mret (inr c)) tt.

Definition iscons (fdnum : Z) : Z := 1.

#[global] Arguments cons_store : simpl never.
#[global] Arguments cons_intr : simpl never.
#[global] Arguments kbd_translate : simpl never.
#[global] Arguments serial_proc_data : simpl never.
#[global] Arguments kbd_proc_data : simpl never.
#[global] Arguments serial_putc : simpl never.
#[global] Arguments lpt_putc : simpl never.

(** ** The buffer as a queue *)

Definition cons_inv (d : devices) : Prop := 0 <= cons_rpos d < 512 ∧ 0 <= cons_wpos d < 512.

(** The characters waiting, oldest first. *)
Definition pending (d : devices) : list Z :=
  (λ i, default 0 (cons_buf d !! ((cons_rpos d + i) mod 512))) <$>
    seqZ 0 ((cons_wpos d - cons_rpos d) mod 512).

Section queue.
Implicit Types d : devices.

Lemma cons_store_inv d c : cons_inv d → cons_inv (cons_store c d).
Proof.
  intros [? ?]. unfold cons_inv, cons_store, CONSBUFSIZE. simpl.
  destruct (Z.eqb_spec (cons_wpos d + 1) 512); lia.
Qed.

Lemma length_pending d : Z.of_nat (length (pending d)) = (cons_wpos d - cons_rpos d) mod 512.
Proof. unfold pending. rewrite length_fmap, length_seqZ. zlia. Qed.

(** A character is appended to the queue, unless the queue holds 511 already:
    then the write position catches up with the read position. *)
Lemma pending_store d c :
  cons_inv d →
  pending (cons_store c d) =
    if decide ((length (pending d) < 511)%nat) then pending d ++ [u8 c] else [].
Proof.
  intros [Hr Hw]. pose proof (length_pending d) as Hlen.
  unfold pending at 1. unfold cons_store, CONSBUFSIZE. simpl.
  set (w := cons_wpos d) in *. set (r := cons_rpos d) in *.
  assert (((if w + 1 =? 512 then 0 else w + 1) - r) mod 512 =
    if decide ((w - r) mod 512 < 511) then (w - r) mod 512 + 1 else 0) as ->.
  { destruct (Z.eqb_spec (w + 1) 512); case_decide; zlia. }
  case_decide as H1; case_decide as H2; try lia; [|done].
  rewrite seqZ_app by zlia. rewrite fmap_app. f_equal.
  - unfold pending. fold w r. apply list_fmap_ext. intros i x Hx.
    apply lookup_seqZ in Hx as [-> Hx]. rewrite lookup_insert_ne; [done|]. zlia.
  - rewrite seqZ_cons, seqZ_nil by lia. simpl. f_equal.
    rewrite lookup_insert, decide_True by zlia. done.
Qed.

Lemma cons_take_run d :
  cons_inv d →
  ∃ d', cons_take d = Done (default 0 (head (pending d))) d' ∧ cons_inv d' ∧
    pending d' = tail (pending d) ∧ inb_stream d' = inb_stream d.
Proof.
  intros [Hr Hw]. unfold cons_take. rewrite run_get. unfold pending.
  destruct (Z.eqb_spec (cons_rpos d) (cons_wpos d)) as [E|E]; simpl.
  - exists d. rewrite E, Z.sub_diag. by split_and!.
  - rewrite run_modify, ret_eq. eexists. split.
    { rewrite seqZ_cons by zlia. simpl. rewrite Z.add_0_r, Z.mod_small by lia. done. }
    unfold cons_inv, CONSBUFSIZE. simpl. split_and!; try done.
    1-4: destruct (Z.eqb_spec (cons_rpos d + 1) 512); lia.
    rewrite (seqZ_cons 0 ((cons_wpos d - cons_rpos d) mod 512)) by zlia. simpl.
    assert (((cons_wpos d - (if cons_rpos d + 1 =? 512 then 0 else cons_rpos d + 1)) mod 512) =
      Z.pred ((cons_wpos d - cons_rpos d) mod 512)) as ->
      by (destruct (Z.eqb_spec (cons_rpos d + 1) 512); zlia).
    change (Z.succ 0) with (1 + 0). rewrite <- fmap_add_seqZ, <- list_fmap_compose.
    apply list_fmap_ext. intros i x Hx. apply lookup_seqZ in Hx as [-> Hx]. simpl.
    do 2 f_equal. destruct (Z.eqb_spec (cons_rpos d + 1) 512); zlia.
Qed.
End queue.

(** ** Polling the devices *)

(** The queue after a character arrived. *)
Definition enqueue (q : list Z) (c : Z) : list Z :=
  if decide ((length q < 511)%nat) then q ++ [u8 c] else [].

(** The characters a polled serial port delivers, and the input left over: a
    status byte with the data bit set is followed by the character. *)
Fixpoint serial_chars (l : list Z) : list Z * list Z :=
  match l with
  | [] => ([], [])
  | lsr :: l' =>
      if has COM_LSR_DATA (u8 lsr) then
        match l' with
        | [] => ([0], [])
        | rx :: l'' => let '(cs, rest) := serial_chars l'' in (u8 rx :: cs, rest)
        end
      else ([], l')
  end.

(** The same for the keyboard, whose modifier keys are part of the state. *)
Fixpoint kbd_chars (shift : Z) (l : list Z) : list Z * list Z :=
  match l with
  | [] => ([], [])
  | st :: l' =>
      if Z.land (u8 st) KBS_DIB =? 0 then ([], l') else
      match l' with
      | [] => ([(kbd_translate shift 0).2], [])
      | data :: l'' =>
          let '(shift', c) := kbd_translate shift (u8 data) in
          let '(cs, rest) := kbd_chars shift' l'' in (c :: cs, rest)
      end
  end.

Definition arrived (cs : list Z) : list Z := filter (λ c, c ≠ 0) cs.

Section polling.
Implicit Types d : devices.

(** The loop of [cons_intr] for a device that delivers the characters [chars]. *)
Definition intr_step (proc : DM Z) : unit → DM (unit + unit) := λ _,
  c ← proc;
  if c =? -1 then mret (inr tt)
  else if c =? 0 then mret (inl tt)
  else modify (cons_store c) ;; mret (inl tt).

Lemma intr_step_run {A} proc (k : unit + unit → DM A) d :
  (intr_step proc tt ≫= k) d =
    (proc ≫= λ c, if c =? -1 then k (inr tt) else if c =? 0 then k (inl tt)
                  else λ d, k (inl tt) (cons_store c d)) d.
Proof.
  unfold intr_step. rewrite run_assoc. unfold mbind at 1 4, comp_bind.
  destruct (proc d) as [c d'|]; [|done]. by repeat case_match.
Qed.

(** [d'] differs from [d] in its input, its modifiers and its port log only. *)
Definition same_buffer d d' : Prop :=
  cons_buf d' = cons_buf d ∧ cons_rpos d' = cons_rpos d ∧ cons_wpos d' = cons_wpos d.

Lemma pending_same d d' : same_buffer d d' → pending d' = pending d ∧ (cons_inv d → cons_inv d').
Proof. intros (E1 & E2 & E3). unfold pending, cons_inv. by rewrite E1, E2, E3. Qed.

Lemma serial_proc_run {A} (k : Z → DM A) d :
  (serial_proc_data ≫= k) d = match inb_stream d with
    | [] => k (-1) d
    | lsr :: l =>
        if has COM_LSR_DATA (u8 lsr) then
          match l with
          | [] => k 0 (set_inb_stream [] d)
          | rx :: l' => k (u8 rx) (set_inb_stream l' (set_inb_stream l d)) end
        else k (-1) (set_inb_stream l d)
    end.
Proof.
  unfold serial_proc_data. rewrite run_assoc, inb_run.
  destruct (inb_stream d) as [|lsr l]; [done|].
  destruct (has COM_LSR_DATA (u8 lsr)); [|done]. simpl negb. cbv iota. rewrite inb_run.
  by destruct l.
Qed.

Lemma serial_intr_loop n d :
  cons_inv d → (length (inb_stream d) < n)%nat →
  ∃ d', loop n DevNoFuel (intr_step serial_proc_data) tt d = Done tt d' ∧ cons_inv d' ∧
    pending d' = foldl enqueue (pending d) (arrived (serial_chars (inb_stream d)).1) ∧
    inb_stream d' = (serial_chars (inb_stream d)).2 ∧ kbd_shift d' = kbd_shift d.
Proof.
  revert d. induction n as [|n IH]; intros d Hinv Hn; [lia|].
  rewrite loop_S, intr_step_run, serial_proc_run.
  destruct (inb_stream d) as [|lsr l] eqn:El.
  { exists d. by rewrite El. }
  simpl serial_chars. destruct (has COM_LSR_DATA (u8 lsr)).
  2: { eexists. split; [done|]. by split_and!. }
  destruct l as [|rx l].
  { simpl in Hn. destruct (IH (set_inb_stream [] d)) as (d' & Hrun & H1 & H2 & H3 & H4);
      [done|simpl; lia|]. exists d'. split; [exact Hrun|]. done. }
  pose proof (u8_range rx) as Hrx. destruct (Z.eqb_spec (u8 rx) (-1)); [lia|].
  set (d1 := set_inb_stream l (set_inb_stream (rx :: l) d)).
  assert (same_buffer d d1) as [Hp Hi]%pending_same by done.
  destruct (serial_chars l) as [cs rest] eqn:Esc. simpl fst. simpl snd.
  unfold arrived. rewrite filter_cons. simpl in Hn.
  destruct (Z.eqb_spec (u8 rx) 0) as [E0|E0].
  - rewrite decide_False by (by intros ?).
    destruct (IH d1) as (d' & Hrun & H1 & H2 & H3 & H4); [by apply Hi|simpl; lia|].
    simpl inb_stream in H2, H3. rewrite Esc in H2, H3. rewrite Hp in H2.
    exists d'. split; [exact Hrun|]. done.
  - rewrite decide_True by done.
    destruct (IH (cons_store (u8 rx) d1)) as (d' & Hrun & H1 & H2 & H3 & H4);
      [by apply cons_store_inv, Hi|simpl; lia|].
    simpl inb_stream in H2, H3. rewrite Esc in H2, H3.
    rewrite pending_store, Hp in H2 by (by apply Hi). exists d'. split; [exact Hrun|]. done.
Qed.

Lemma kbd_translate_range shift data : 0 <= (kbd_translate shift data).2 < 256.
Proof.
  unfold kbd_translate. destruct (data =? 0xE0); [simpl; lia|].
  destruct (has 0x80 data); [simpl; lia|].
  destruct (if has E0ESC shift then _ else _) as [dat sh]. simpl.
  pose proof (u8_range (if Z.land (Z.lxor (Z.lor sh (shiftcode dat)) (togglecode dat)) (Z.lor CTL SHIFT) =? 0
    then normalmap dat else if Z.land (Z.lxor (Z.lor sh (shiftcode dat)) (togglecode dat)) (Z.lor CTL SHIFT) =? 1
    then shiftmap dat else ctlmap dat)) as Hc.
  fold (charcode (Z.land (Z.lxor (Z.lor sh (shiftcode dat)) (togglecode dat)) (Z.lor CTL SHIFT)) dat) in Hc.
  destruct (has CAPSLOCK _); [|done]. repeat Z_case; lia.
Qed.

(** One answer of the keyboard. *)
Lemma kbd_proc_run d :
  ∃ d', kbd_proc_data d = Done (match inb_stream d with
      | [] => -1
      | st :: l => if Z.land (u8 st) KBS_DIB =? 0 then -1
                   else (kbd_translate (kbd_shift d) (u8 (default 0 (head l)))).2
      end) d' ∧ same_buffer d d' ∧ inb_stream d' = match inb_stream d with
      | [] => []
      | st :: l => if Z.land (u8 st) KBS_DIB =? 0 then l else tail l
      end ∧ kbd_shift d' = match inb_stream d with
      | [] => kbd_shift d
      | st :: l => if Z.land (u8 st) KBS_DIB =? 0 then kbd_shift d
                   else (kbd_translate (kbd_shift d) (u8 (default 0 (head l)))).1
      end.
Proof.
  unfold kbd_proc_data. rewrite inb_run. destruct (inb_stream d) as [|st l] eqn:El.
  { exists d. split_and!; done. }
  destruct (Z.land (u8 st) KBS_DIB =? 0).
  { eexists. split; [done|]. split_and!; done. }
  rewrite inb_run. simpl inb_stream.
  assert (u8 (default 0 (head l)) = match l with [] => 0 | b :: _ => u8 b end) as ->
    by (by destruct l).
  destruct l as [|data l]; rewrite run_get; simpl kbd_shift;
    destruct (kbd_translate _ _) as [sh c]; rewrite run_modify;
    destruct (_ && _); rewrite ?outb_run, ?run_ret; eexists; (split; [done|]); split_and!; done.
Qed.

Lemma kbd_intr_loop n d :
  cons_inv d → (length (inb_stream d) < n)%nat →
  ∃ d', loop n DevNoFuel (intr_step kbd_proc_data) tt d = Done tt d' ∧ cons_inv d' ∧
    pending d' = foldl enqueue (pending d) (arrived (kbd_chars (kbd_shift d) (inb_stream d)).1) ∧
    inb_stream d' = (kbd_chars (kbd_shift d) (inb_stream d)).2.
Proof.
  revert d. induction n as [|n IH]; intros d Hinv Hn; [lia|].
  rewrite loop_S, intr_step_run.
  destruct (kbd_proc_run d) as (d1 & Hrun & Hsame & Hin & Hsh). step_with Hrun. clear Hrun.
  apply pending_same in Hsame as [Hp Hi]. specialize (Hi Hinv).
  destruct (inb_stream d) as [|st l] eqn:El; simpl kbd_chars.
  { exists d1. by rewrite Hp, Hin. }
  simpl in Hn. destruct (Z.land (u8 st) KBS_DIB =? 0).
  { exists d1. by rewrite Hp, Hin. }
  set (data := u8 (default 0 (head l))) in *.
  assert (∃ cs rest, kbd_chars (kbd_shift d1) (inb_stream d1) = (cs, rest) ∧
    match l with
    | [] => ([(kbd_translate (kbd_shift d) 0).2], [])
    | dat :: l'' => let '(shift', c) := kbd_translate (kbd_shift d) (u8 dat) in
        let '(cs, rest) := kbd_chars shift' l'' in (c :: cs, rest)
    end = ((kbd_translate (kbd_shift d) data).2 :: cs, rest)) as (cs & rest & Hcs & ->).
  { rewrite Hin, Hsh. unfold data. destruct l as [|dat l]; simpl.
    - eexists _, _. split; done.
    - destruct (kbd_translate (kbd_shift d) (u8 dat)) as [sh c]. simpl.
      destruct (kbd_chars sh l) as [cs rest]. eauto. }
  pose proof (kbd_translate_range (kbd_shift d) data) as Hc.
  generalize dependent (kbd_translate (kbd_shift d) data).2. intros c Hc.
  destruct (Z.eqb_spec c (-1)); [lia|]. simpl fst. simpl snd. unfold arrived. rewrite filter_cons.
  assert (length (inb_stream d1) < n)%nat as Hlen by (rewrite Hin; destruct l; simpl in *; lia).
  destruct (Z.eqb_spec c 0) as [E0|E0].
  - rewrite decide_False by (by intros ?).
    destruct (IH d1 Hi Hlen) as (d' & Hrun & H1 & H2 & H3).
    rewrite Hcs in H2, H3. rewrite Hp in H2. eauto.
  - rewrite decide_True by done.
    destruct (IH (cons_store c d1)) as (d' & Hrun & H1 & H2 & H3);
      [by apply cons_store_inv|done|].
    change (inb_stream (cons_store c d1)) with (inb_stream d1) in H2, H3.
    change (kbd_shift (cons_store c d1)) with (kbd_shift d1) in H2, H3.
    rewrite Hcs in H2, H3. rewrite pending_store, Hp in H2 by done.
    exists d'. split; [exact Hrun|]. done.
Qed.
End polling.

(** ** The terminal *)

(** What cons_putc drives: a screen of 25 rows of 80 cells, whose last row is
    followed by nothing, a cursor, and the bytes written to the ports, oldest
    first; [t_addr] is the port of the screen's controller. *)
Record terminal : Type := mkTerminal {
  t_rows : list (list Z);
  t_row : Z;
  t_col : Z;
  t_ports : list (Z * Z);
  t_addr : Z
}.

Section terminal.
Implicit Types (t : terminal) (b : gmap Z Z) (c v : Z).

Definition t_send (l : list (Z * Z)) t : terminal :=
  mkTerminal (t_rows t) (t_row t) (t_col t) (t_ports t ++ l) (t_addr t).
Definition t_move (row col : Z) t : terminal := mkTerminal (t_rows t) row col (t_ports t) (t_addr t).
Definition t_write v t : terminal :=
  mkTerminal (alter (λ l, <[Z.to_nat (t_col t) := v]> l) (Z.to_nat (t_row t)) (t_rows t))
    (t_row t) (t_col t) (t_ports t) (t_addr t).
Definition blank_row : list Z := replicate 80 0x0720.
Definition t_scroll t : terminal :=
  if t_row t =? 25
  then mkTerminal (tail (t_rows t) ++ [blank_row]) 24 (t_col t) (t_ports t) (t_addr t)
  else t.

(** The controller is told the position of the cursor. *)
Definition t_cursor t : terminal :=
  let p := 80 * t_row t + t_col t in
  t_send [(t_addr t, 14); (t_addr t + 1, p / 256); (t_addr t, 15); (t_addr t + 1, p mod 256)] t.

(** The byte on the serial line, and on the printer with its strobe. *)
Definition char_out c : list (Z * Z) := [(0x3F8, u8 c); (0x378, u8 c); (0x37A, 0x0D); (0x37A, 0x08)].

(** The character with its attribute, grey on black if it has none. *)
Definition glyph c : Z := if Z.land c (Z.lnot 0xFF) =? 0 then Z.lor c 0x0700 else c.

Definition t_draw c t : terminal :=
  let ch := Z.land (glyph c) 0xff in
  if ch =? BS then
    if (t_row t =? 0) && (t_col t =? 0) then t else
    t_write (u16 (Z.lor (Z.land (glyph c) (Z.lnot 0xff)) SPACE))
      (if t_col t =? 0 then t_move (t_row t - 1) 79 t else t_move (t_row t) (t_col t - 1) t)
  else if ch =? LF then t_move (t_row t + 1) 0 t
  else if ch =? CR then t_move (t_row t) 0 t
  else let t := t_write (u16 (glyph c)) t in
    if t_col t =? 79 then t_move (t_row t + 1) 0 t else t_move (t_row t) (t_col t + 1) t.

Definition t_char c t : terminal := t_cursor (t_scroll (t_draw c (t_send (char_out c) t))).
Definition t_putc c t : terminal :=
  if Z.land (glyph c) 0xff =? TAB
  then t_cursor (t_scroll (Nat.iter 5 (t_char SPACE) (t_send (char_out c) t)))
  else t_char c t.

(** The terminal of a state of the devices. *)
Definition rows_of b : list (list Z) :=
  (λ r, (λ k, default 0 (b !! (80 * r + k))) <$> seqZ 0 80) <$> seqZ 0 25.
Definition terminal_of (d : devices) : terminal :=
  mkTerminal (rows_of (crt_buf d)) (crt_pos d / 80) (crt_pos d mod 80) (rev (outb_log d)) (addr_6845 d).

Lemma fmap_seqZ_alter {A} (f : Z → A) (g : A → A) n i :
  0 <= i →
  alter g (Z.to_nat i) (f <$> seqZ 0 n) = (λ k, if decide (k = i) then g (f k) else f k) <$> seqZ 0 n.
Proof.
  intros Hi. apply list_eq. intros j. rewrite list_lookup_alter. case_decide as Hj; [subst j|].
  - rewrite !list_lookup_fmap. destruct (decide (i < n)).
    + rewrite !lookup_seqZ_lt by lia. rewrite Z.add_0_l, Z2Nat.id by done. simpl. by rewrite decide_True.
    + by rewrite !lookup_seqZ_ge by lia.
  - rewrite !list_lookup_fmap. destruct (decide (Z.of_nat j < n)).
    + rewrite !lookup_seqZ_lt by lia. simpl. by rewrite decide_False by lia.
    + by rewrite !lookup_seqZ_ge by lia.
Qed.

Lemma rows_write b p v :
  0 <= p →
  rows_of (<[p := v]> b) = alter (λ l, <[Z.to_nat (p mod 80) := v]> l) (Z.to_nat (p / 80)) (rows_of b).
Proof.
  intros Hp. unfold rows_of. rewrite fmap_seqZ_alter by zlia. apply list_fmap_ext. intros _ r _.
  destruct (decide (r = p / 80)) as [->|Hr].
  - rewrite list_insert_alter, fmap_seqZ_alter by zlia. apply list_fmap_ext. intros _ k Hk%list_elem_of_lookup_2%elem_of_seqZ.
    rewrite lookup_insert. repeat case_decide; done || zlia.
  - apply list_fmap_ext. intros _ k Hk%list_elem_of_lookup_2%elem_of_seqZ. rewrite lookup_insert.
    case_decide; [|done]. zlia.
Qed.

(** Filling cells one after the other. *)
Lemma foldl_insert_lookup (f : Z → Z) b l n i :
  foldl (λ b' i, <[i := f i]> b') b (seqZ l n) !! i =
  if decide (l <= i < l + n) then Some (f i) else b !! i.
Proof.
  destruct (decide (n <= 0)) as [Hn|Hn].
  { rewrite decide_False by lia. by rewrite (seqZ_nil l n) by lia. }
  replace n with (Z.of_nat (Z.to_nat n)) by lia. generalize (Z.to_nat n) as k. clear Hn n. intros k.
  induction k as [|k IH].
  { by rewrite decide_False by lia. }
  rewrite Nat2Z.inj_succ, <- Z.add_1_r, seqZ_app, foldl_app by lia. change (seqZ (l + Z.of_nat k) 1) with [l + Z.of_nat k].
  cbn [foldl]. rewrite lookup_insert, IH. repeat case_decide; (done || lia || congruence).
Qed.

Lemma rows_scroll b : rows_of (scroll b) = tail (rows_of b) ++ [blank_row].
Proof.
  assert (∀ i, 0 <= i < 2000 → default 0 (scroll b !! i) = if decide (i < 1920) then default 0 (b !! (i + 80)) else 0x0720) as Hs.
  { intros i Hi. unfold scroll, CRT_SIZE, CRT_COLS. rewrite !foldl_insert_lookup.
    repeat case_decide; (done || lia). }
  unfold rows_of. change 25 with (24 + 1) at 1. rewrite (seqZ_app 0 24 1) by lia. change (seqZ (0 + 24) 1) with [24].
  rewrite fmap_app. f_equal.
  - rewrite (seqZ_cons 0 25) by lia. cbn [fmap list_fmap tail]. change (Z.succ 0) with (1 + 0). change (Z.pred 25) with 24.
    rewrite <- (fmap_add_seqZ 1 0 24), <- list_fmap_compose. apply list_fmap_ext. intros _ r Hr%list_elem_of_lookup_2%elem_of_seqZ.
    apply list_fmap_ext. intros _ k Hk%list_elem_of_lookup_2%elem_of_seqZ. rewrite Hs, decide_True by lia.
    f_equal. f_equal. lia.
  - cbn [fmap list_fmap]. f_equal. transitivity ((λ _, 0x0720) <$> seqZ 0 80); [|reflexivity].
    apply list_fmap_ext. intros _ k Hk%list_elem_of_lookup_2%elem_of_seqZ. by rewrite Hs, decide_False by lia.
Qed.
End terminal.

#[global] Opaque rows_of blank_row.


(** ** Output *)

Section output.
Implicit Types d : devices.

(** [d'] differs from [d] in the input consumed only. *)
Definition reads_input d d' : Prop := ∃ l, d' = set_inb_stream l d.

Lemma reads_input_refl d : reads_input d d.
Proof. exists (inb_stream d). by destruct d. Qed.

Lemma reads_input_trans d1 d2 d3 : reads_input d1 d2 → reads_input d2 d3 → reads_input d1 d3.
Proof. intros [l ->] [l' ->]. by exists l'. Qed.

Lemma inb_reads port d : ∃ b d', inb port d = Done b d' ∧ reads_input d d'.
Proof.
  rewrite tail_bind, inb_run. destruct (inb_stream d) as [|b l].
  - eexists _, _. split; [done|]. apply reads_input_refl.
  - eexists _, _. split; [done|]. by eexists.
Qed.

Lemma delay_reads d : ∃ d', delay d = Done tt d' ∧ reads_input d d'.
Proof.
  unfold delay. destruct (inb_reads 0x84 d) as (? & d1 & H1 & R1). step_with H1.
  destruct (inb_reads 0x84 d1) as (? & d2 & H2 & R2). step_with H2.
  destruct (inb_reads 0x84 d2) as (? & d3 & H3 & R3). step_with H3.
  destruct (inb_reads 0x84 d3) as (? & d4 & H4 & R4). step_with H4.
  exists d4. split; [done|]. eauto using reads_input_trans.
Qed.

(** Waiting for a device gives up after 12800 polls. *)
Lemma wait_reads port (ready : Z → bool) n i d :
  Z.of_nat n = 12801 - i → 0 <= i <= 12800 →
  ∃ d', loop n DevNoFuel (λ i,
    b ← inb port;
    if negb (ready b) && (i <? 12800) then delay ;; mret (inl (i + 1)) else mret (inr tt)) i d
      = Done tt d' ∧ reads_input d d'.
Proof.
  revert i d. induction n as [|n IH]; intros i d Hn Hi; [lia|]. rewrite loop_S, run_assoc.
  destruct (inb_reads port d) as (b & d1 & H1 & R1). step_with H1.
  destruct (negb (ready b) && (i <? 12800)) eqn:E.
  - apply andb_true_iff in E as [_ E%Z.ltb_lt]. rewrite run_assoc.
    destruct (delay_reads d1) as (d2 & H2 & R2). step_with H2. rewrite run_ret.
    destruct (IH (i + 1) d2) as (d3 & H3 & R3); [lia|lia|].
    exists d3. split; [done|]. eauto using reads_input_trans.
  - eauto.
Qed.

(** The terminal has become [t]; the input side is as before. *)
Record prints d d' (t : terminal) : Prop := {
  pr_term : terminal_of d' = t;
  pr_buf : same_buffer d d';
  pr_shift : kbd_shift d' = kbd_shift d
}.

Lemma prints_trans d1 d2 d3 t t' : prints d1 d2 t → prints d2 d3 t' → prints d1 d3 t'.
Proof.
  intros [_ (B1 & B2 & B3) S1] [T (B4 & B5 & B6) S2]. split; [done| |congruence]. unfold same_buffer.
  split_and!; congruence.
Qed.

Lemma ports_run c d :
  ∃ d', (serial_putc c ;; lpt_putc c) d = Done tt d' ∧ prints d d' (t_send (char_out c) (terminal_of d)) ∧
    crt_pos d' = crt_pos d.
Proof.
  unfold serial_putc. rewrite run_assoc.
  destruct (wait_reads (COM1 + COM_LSR) (has COM_LSR_TXRDY) (Z.to_nat 12801) 0 d) as (d1 & H1 & [l1 ->]);
    [lia|lia|]. step_with H1. rewrite outb_run. unfold lpt_putc.
  edestruct (wait_reads (0x378 + 1) (has 0x80) (Z.to_nat 12801) 0) as (d2 & H2 & [l2 ->]);
    [lia|lia|]. step_with H2. rewrite outb_run, outb_run, tail_bind, outb_run.
  eexists. split; [done|]. split; [|done]. split; [|done|done].
  unfold terminal_of, t_send, char_out. simpl. by rewrite <- !app_assoc.
Qed.

Lemma cga_update_run d :
  0 <= crt_pos d < 2080 →
  ∃ d', cga_update d = Done tt d' ∧ prints d d' (t_cursor (t_scroll (terminal_of d))) ∧ 0 <= crt_pos d' < 2000.
Proof.
  intros Hp. unfold cga_update. rewrite run_get. unfold CRT_SIZE, CRT_COLS.
  assert (∀ q, 0 <= q < 2000 → 80 * (q / 80) + q mod 80 = q ∧ u8 (Z.shiftr q 8) = q / 256 ∧ u8 q = q mod 256 ∧
    u8 14 = 14 ∧ u8 15 = 15) as Hq.
  { intros q Hq. rewrite Z.shiftr_div_pow2 by lia. change (2 ^ 8) with 256. unfold u8. split_and!; zlia || done. }
  destruct (Z.leb_spec (25 * 80) (crt_pos d)) as [Hge|Hlt];
    rewrite ?run_assoc, ?run_modify, ?run_ret, run_get, !outb_run, tail_bind, outb_run;
    eexists; (split; [done|]); (split; [split; [|done|done]|simpl; lia]);
    unfold terminal_of, t_scroll, t_cursor, t_send; simpl.
  - destruct (Hq (crt_pos d - 80) ltac:(lia)) as (E1 & E2 & E3 & E4 & E5). rewrite E2, E3, E4, E5.
    rewrite (proj2 (Z.eqb_eq _ _)) by zlia. simpl. rewrite rows_scroll, <- !app_assoc. simpl.
    assert ((crt_pos d - 80) / 80 = 24 ∧ (crt_pos d - 80) mod 80 = crt_pos d mod 80) as [-> Em] by zlia.
    rewrite Em in *. by replace (80 * 24 + crt_pos d mod 80) with (crt_pos d - 80) by zlia.
  - destruct (Hq (crt_pos d) ltac:(lia)) as (E1 & E2 & E3 & E4 & E5). rewrite E2, E3, E4, E5.
    rewrite (proj2 (Z.eqb_neq _ _)) by zlia. simpl. rewrite <- !app_assoc. simpl. by rewrite E1.
Qed.

(** Writing a cell, and moving the cursor. *)
Lemma terminal_write d p v :
  0 <= p → terminal_of (set_crt_buf (<[p := v]> (crt_buf d)) (set_crt_pos p d)) = t_write v (terminal_of (set_crt_pos p d)).
Proof. intros Hp. unfold terminal_of, t_write. simpl. by rewrite rows_write. Qed.

Lemma terminal_move d p row col :
  p / 80 = row → p mod 80 = col → terminal_of (set_crt_pos p d) = t_move row col (terminal_of d).
Proof. by intros <- <-. Qed.

Lemma cga_putc_run rec c d :
  Z.land (glyph c) 0xff ≠ TAB → 0 <= crt_pos d < 2000 →
  ∃ d', cga_putc rec c d = Done tt d' ∧ prints d d' (t_cursor (t_scroll (t_draw c (terminal_of d)))) ∧
    0 <= crt_pos d' < 2000.
Proof.
  intros Ht%Z.eqb_neq Hp. unfold cga_putc. fold (glyph c). rewrite Ht.
  assert (∀ d1, terminal_of d1 = t_draw c (terminal_of d) → same_buffer d d1 → kbd_shift d1 = kbd_shift d →
    0 <= crt_pos d1 < 2080 →
    ∃ d', cga_update d1 = Done tt d' ∧ prints d d' (t_cursor (t_scroll (t_draw c (terminal_of d)))) ∧
      0 <= crt_pos d' < 2000) as Hfin.
  { intros d1 <- E2 E3 Hp1. destruct (cga_update_run d1 Hp1) as (d' & H1 & H2 & H3).
    exists d'. split; [done|]. split; [|done]. eapply (prints_trans d d1); [|done]. by split. }
  unfold t_draw in *. cbn [t_row t_col terminal_of] in *. set (ch := Z.land (glyph c) 0xff) in *.
  destruct (ch =? BS); [|destruct (ch =? LF); [|destruct (ch =? CR)]]; cbn [orb]; cbv iota.
  - rewrite run_assoc, run_get. destruct (Z.ltb_spec 0 (crt_pos d)).
    + rewrite run_assoc, !run_modify. apply Hfin; [|done|done|simpl; lia].
      assert ((crt_pos d / 80 =? 0) && (crt_pos d mod 80 =? 0) = false) as ->.
      { apply andb_false_iff. rewrite !Z.eqb_neq. zlia. }
      etrans; [apply (terminal_write d (crt_pos d - 1)); lia|]. f_equal.
      destruct (Z.eqb_spec (crt_pos d mod 80) 0); apply terminal_move; zlia.
    + rewrite run_ret. apply Hfin; [|done|done|lia]. by replace (crt_pos d) with 0 by lia.
  - rewrite run_assoc, !run_modify. unfold CRT_COLS. apply Hfin; [|done|done|simpl; rewrite u16_id by lia; zlia].
    etrans; [apply (terminal_move d (u16 (crt_pos d + 80) - u16 (crt_pos d + 80) mod 80) (crt_pos d / 80 + 1) 0)|done];
      rewrite u16_id by lia; zlia.
  - rewrite run_assoc, run_ret, run_modify. unfold CRT_COLS. apply Hfin; [|done|done|simpl; zlia].
    apply (terminal_move d (crt_pos d - crt_pos d mod 80)); zlia.
  - rewrite run_assoc, run_get, run_assoc, !run_modify. apply Hfin; [|done|done|simpl; rewrite u16_id by lia; lia].
    rewrite u16_id by lia. set (d1 := set_crt_buf _ d).
    assert (terminal_of d1 = t_write (u16 (glyph c)) (terminal_of d)) as <-.
    { unfold terminal_of, t_write, d1. simpl. by rewrite rows_write by lia. }
    change (t_row (terminal_of d1)) with (crt_pos d / 80). change (t_col (terminal_of d1)) with (crt_pos d mod 80).
    destruct (Z.eqb_spec (crt_pos d mod 80) 79); apply terminal_move; zlia.
Qed.

Lemma cons_putc_char rec c d :
  Z.land (glyph c) 0xff ≠ TAB → 0 <= crt_pos d < 2000 →
  ∃ d', cons_putc_body rec c d = Done tt d' ∧ prints d d' (t_char c (terminal_of d)) ∧ 0 <= crt_pos d' < 2000.
Proof.
  intros Ht Hp. unfold cons_putc_body. destruct (ports_run c d) as (d1 & H1 & P1 & E1).
  rewrite <- run_assoc. step_with H1. destruct (cga_putc_run rec c d1 Ht) as (d' & H2 & P2 & Hp2); [lia|].
  exists d'. split; [done|]. split; [|done]. rewrite (pr_term _ _ _ P1) in P2. by eapply prints_trans.
Qed.

(** The blanks that a tab prints. *)
Lemma blanks_run rec n d :
  0 <= crt_pos d < 2000 →
  ∃ d', for_each (replicate n SPACE) (cons_putc_body rec) d = Done tt d' ∧
    prints d d' (Nat.iter n (t_char SPACE) (terminal_of d)) ∧ 0 <= crt_pos d' < 2000.
Proof.
  revert d. induction n as [|n IH]; intros d Hp; simpl.
  { exists d. split; [done|]. split; [|done]. by split. }
  destruct (cons_putc_char rec SPACE d) as (d1 & H1 & P1 & Hp1); [done|done|]. step_with H1.
  destruct (IH d1 Hp1) as (d2 & H2 & P2 & Hp2). exists d2. split; [done|]. split; [|done].
  rewrite (pr_term _ _ _ P1), Nat.iter_swap in P2. by eapply prints_trans.
Qed.

Lemma cons_putc_run c d :
  0 <= crt_pos d < CRT_SIZE →
  ∃ d', cons_putc c d = Done tt d' ∧ 0 <= crt_pos d' < CRT_SIZE ∧ same_buffer d d' ∧
    kbd_shift d' = kbd_shift d ∧ terminal_of d' = t_putc c (terminal_of d).
Proof.
  change CRT_SIZE with 2000. intros Hp. unfold cons_putc, t_putc.
  destruct (Z.eqb_spec (Z.land (glyph c) 0xff) TAB) as [Ht|Ht].
  - unfold cons_putc_body at 1. destruct (ports_run c d) as (d1 & H1 & P1 & E1).
    rewrite <- run_assoc. step_with H1. unfold cga_putc at 1. fold (glyph c). rewrite Ht.
    change (TAB =? BS) with false. change ((TAB =? LF) || (TAB =? CR)) with false. change (TAB =? TAB) with true. cbv iota.
    destruct (blanks_run (λ _, leave DevNoFuel) 5 d1) as (d2 & H2 & P2 & Hp2); [lia|]. step_with H2.
    destruct (cga_update_run d2) as (d3 & H3 & P3 & Hp3); [lia|]. exists d3. split; [done|]. split; [done|].
    rewrite (pr_term _ _ _ P2), (pr_term _ _ _ P1) in P3.
    destruct (prints_trans _ _ _ _ _ P1 (prints_trans _ _ _ _ _ P2 P3)) as [T B S]. done.
  - destruct (cons_putc_char (cons_putc_body (λ _, leave DevNoFuel)) c d Ht Hp) as (d' & H1 & [T B S] & Hp').
    by exists d'.
Qed.
End output.

(** ** Initialisation *)

Section initialisation.
Implicit Types d : devices.

Lemma keeps_inb {B} (f : devices → B) port :
  (∀ l d, f (set_inb_stream l d) = f d) → keeps f (inb port).
Proof. intros Hf d. unfold inb. rewrite run_get. destruct (inb_stream d); [done|]. rewrite run_modify. apply Hf. Qed.

(** Polling the keyboard does not touch the screen. *)
Lemma keeps_kbd_intr : keeps crt_pos kbd_intr.
Proof.
  unfold kbd_intr, cons_intr. apply within_bind; [apply _|apply within_get; apply _|]. intros d.
  apply within_loop; [apply _|]. intros _. apply within_bind; [apply _| |].
  2: { intros c. destruct (c =? -1); [apply within_ret; apply _|]. destruct (c =? 0); [apply within_ret; apply _|].
       apply within_bind; [apply _|by apply within_modify|intros _; apply within_ret; apply _]. }
  unfold kbd_proc_data. apply within_bind; [apply _|by apply keeps_inb|]. intros b.
  destruct (_ =? 0); [apply within_ret; apply _|]. apply within_bind; [apply _|by apply keeps_inb|]. intros data.
  apply within_bind; [apply _|apply within_get; apply _|]. intros d1. destruct (kbd_translate _ _) as [sh c].
  apply within_bind; [apply _|by apply within_modify|]. intros _.
  apply within_bind; [apply _|destruct (_ && _); [by apply within_modify|apply within_ret; apply _]|].
  intros _. apply within_ret. apply _.
Qed.

Lemma kbd_init_run d :
  cons_inv d → ∃ d', kbd_init d = Done tt d' ∧ crt_pos d' = crt_pos d.
Proof.
  intros Hi. unfold kbd_init. pose proof (keeps_kbd_intr d) as Hk.
  destruct (kbd_intr_loop (S (length (inb_stream d))) d Hi) as (d1 & H1 & _); [lia|].
  assert (kbd_intr d = Done tt d1) as R1 by (unfold kbd_intr, cons_intr; by rewrite run_get).
  rewrite R1 in Hk. step_with R1. rewrite run_get. unfold irq_setmask_8259A. rewrite run_modify, run_get.
  destruct (negb _); [by eexists|]. rewrite outb_run. by eexists.
Qed.

Lemma serial_init_run d : ∃ d', serial_init d = Done tt d' ∧ crt_pos d' = crt_pos d.
Proof.
  unfold serial_init. do 7 rewrite outb_run. set (d0 := set_outb_log _ _).
  destruct (inb_reads (COM1 + COM_LSR) d0) as (b & d1 & H1 & [l1 ->]). step_with H1. rewrite run_modify.
  set (d2 := set_serial_exists _ _). destruct (inb_reads (COM1 + COM_IIR) d2) as (b2 & d3 & H3 & [l3 ->]). step_with H3.
  destruct (inb_reads (COM1 + COM_RX) (set_inb_stream l3 d2)) as (b4 & d5 & H5 & [l5 ->]). step_with H5. by eexists.
Qed.

(** A text on the console. *)
Lemma cputchars_run l d :
  0 <= crt_pos d < CRT_SIZE → ∃ d', for_each l cputchar d = Done tt d' ∧ 0 <= crt_pos d' < CRT_SIZE.
Proof.
  revert d. induction l as [|c l IH]; intros d Hp; simpl; [by exists d|].
  destruct (cons_putc_run c d Hp) as (d1 & H1 & Hp1 & _). unfold cputchar at 1. step_with H1. by apply IH.
Qed.

Lemma lor_bytes hi lo : 0 <= lo < 256 → Z.lor (Z.shiftl hi 8) lo = 256 * hi + lo.
Proof.
  intros Hl. rewrite Z.shiftl_mul_pow2 by lia. change (2 ^ 8) with 256. rewrite <- Z.add_nocarry_lor; [lia|].
  apply Z.bits_inj'. intros n Hn. rewrite Z.land_spec, Z.bits_0. change 256 with (2 ^ 8).
  destruct (decide (n < 8)); [by rewrite Z.mul_pow2_bits_low by lia|].
  rewrite andb_comm, (Z.bits_above_log2 lo); [done|lia|]. destruct (decide (lo = 0)) as [->|]; [simpl; lia|].
  apply Z.log2_lt_pow2; [lia|]. assert (2 ^ 8 <= 2 ^ n) by (apply Z.pow_le_mono_r; lia). lia.
Qed.

(** The console comes up when the controller of the screen reports a cursor on the
    screen. *)
Lemma cons_init_run d hi lo l :
  inb_stream d = hi :: lo :: l → 256 * u8 hi + u8 lo < CRT_SIZE → cons_inv d →
  ∃ d', cons_init d = Done tt d' ∧ 0 <= crt_pos d' < CRT_SIZE.
Proof.
  intros Hin Hp Hi. unfold cons_init, cga_init. rewrite run_assoc, run_get, run_assoc, run_modify, run_assoc, outb_run, run_assoc, inb_run.
  cbn [inb_stream set_outb_log set_addr_6845]. rewrite Hin, run_assoc, outb_run, run_assoc, inb_run.
  cbn [inb_stream set_outb_log set_addr_6845 set_inb_stream]. rewrite run_modify.
  match goal with |- context [set_crt_pos ?p ?d] => set (q := p); set (d1 := set_crt_pos q d) end.
  assert (0 <= q < CRT_SIZE) as Hq.
  { unfold q. pose proof (u8_range hi). pose proof (u8_range lo). rewrite lor_bytes by done. unfold CRT_SIZE in *. rewrite u16_id by lia. lia. }
  destruct (kbd_init_run d1 Hi) as (d2 & H2 & E2). step_with H2.
  destruct (serial_init_run d2) as (d3 & H3 & E3). step_with H3. rewrite run_get.
  assert (0 <= crt_pos d3 < CRT_SIZE) as H3p by (rewrite E3, E2; exact Hq).
  destruct (serial_exists d3); [by exists d3|by apply cputchars_run].
Qed.
End initialisation.

(** ** Properties *)

Section properties.
Implicit Types d : devices.

(** C34: cons_putc drives the terminal.  From a cursor on the screen it returns
    within bounded waiting, leaves the input side (the buffer and the modifier
    keys) alone, keeps the cursor on the screen, and has the effect that t_putc
    describes on a screen of 25 rows of 80 cells: the byte goes to the serial
    line and to the printer, with the printer's strobe; the screen gets the
    character at the cursor, or the backspace, newline or carriage return is
    carried out; the rows move up and a blank one follows when the cursor has
    left the last one; and the controller is told where the cursor is.  A tab goes
    to the two lines as it is, and then five blanks go to all three devices.
    Nothing else is written to any port. *)
Theorem cons_putc_screen c d :
  0 <= crt_pos d < CRT_SIZE →
  ∃ d', cons_putc c d = Done tt d' ∧ 0 <= crt_pos d' < CRT_SIZE ∧ same_buffer d d' ∧
    kbd_shift d' = kbd_shift d ∧ terminal_of d' = t_putc c (terminal_of d).
Proof. apply cons_putc_run. Qed.

Lemma cons_getc_run d :
  cons_inv d →
  let '(cs1, l1) := if serial_exists d then serial_chars (inb_stream d) else ([], inb_stream d) in
  let '(cs2, l2) := kbd_chars (kbd_shift d) l1 in
  let q := foldl enqueue (pending d) (arrived cs1 ++ arrived cs2) in
  ∃ d', cons_getc d = Done (default 0 (head q)) d' ∧ cons_inv d' ∧ pending d' = tail q ∧
    inb_stream d' = l2.
Proof.
  intros Hi. destruct (if serial_exists d then _ else _) as [cs1 l1] eqn:E1.
  destruct (kbd_chars (kbd_shift d) l1) as [cs2 l2] eqn:E2.
  assert (∃ d1, serial_intr d = Done tt d1 ∧ cons_inv d1 ∧
    pending d1 = foldl enqueue (pending d) (arrived cs1) ∧ inb_stream d1 = l1 ∧
    kbd_shift d1 = kbd_shift d) as (d1 & H1 & Hi1 & Hp1 & Hl1 & Hs1).
  { unfold serial_intr. rewrite run_get. destruct (serial_exists d).
    - unfold cons_intr. rewrite run_get.
      destruct (serial_intr_loop (S (length (inb_stream d))) d Hi) as (d1 & H); [lia|].
      rewrite E1 in H. eauto.
    - simplify_eq. exists d. done. }
  assert (∃ d2, kbd_intr d1 = Done tt d2 ∧ cons_inv d2 ∧
    pending d2 = foldl enqueue (pending d) (arrived cs1 ++ arrived cs2) ∧ inb_stream d2 = l2)
    as (d2 & H2 & Hi2 & Hp2 & Hl2).
  { unfold kbd_intr, cons_intr. rewrite run_get.
    destruct (kbd_intr_loop (S (length (inb_stream d1))) d1 Hi1) as (d2 & H2 & ? & Hp2 & ?); [lia|].
    rewrite Hl1, Hs1, E2 in *. rewrite foldl_app, <- Hp1. eauto. }
  unfold cons_getc. step_with H1. step_with H2.
  destruct (cons_take_run d2 Hi2) as (d3 & H3 & ? & Hp3 & ?). rewrite H3.
  exists d3. rewrite Hp2 in *. split_and!; congruence.
Qed.

(** C33: cons_getc always returns.  It appends to the queue of pending characters
    what the serial port and then the keyboard deliver (a character that arrives
    while 511 are pending empties the queue instead), and returns and removes the
    oldest pending character, or 0 if there is none. *)
Theorem cons_getc_fifo d :
  cons_inv d →
  let '(cs1, l1) := if serial_exists d then serial_chars (inb_stream d) else ([], inb_stream d) in
  let '(cs2, l2) := kbd_chars (kbd_shift d) l1 in
  let q := foldl enqueue (pending d) (arrived cs1 ++ arrived cs2) in
  ∃ d', cons_getc d = Done (default 0 (head q)) d' ∧ cons_inv d' ∧ pending d' = tail q ∧
    inb_stream d' = l2.
Proof. apply cons_getc_run. Qed.

(** The ring loses a whole buffer of input when it overflows. *)
Lemma cons_overflow_discards d c :
  cons_inv d → (length (pending d) = 511)%nat → pending (cons_store c d) = [].
Proof. intros Hi Hl. by rewrite pending_store, decide_False by (done || lia). Qed.
End properties.

(** ** Concrete instances *)

(** A serial port that delivers "hi", a pressed key and then nothing; one
    character is waiting already. *)
Definition ex_console : devices :=
  set_cons_buf {[ 511 := 122 ]} (set_cons_rpos 511 (set_cons_wpos 0
    (set_serial_exists true (set_crt_pos 1999 (zero_devices [1; 104; 1; 105; 0; 1; 0x1E; 0]))))).

(** The last cell of the screen: the rows move up. *)
Lemma cons_putc_screen_witness :
  ∃ d', cons_putc 65 ex_console = Done tt d' ∧ 0 <= crt_pos d' < CRT_SIZE ∧ same_buffer ex_console d' ∧
    kbd_shift d' = 0 ∧
    terminal_of d' = mkTerminal (replicate 23 (replicate 80 0) ++ [replicate 79 0 ++ [0x0741]; replicate 80 0x0720])
      24 0 [(0x3F8, 65); (0x378, 65); (0x37A, 0x0D); (0x37A, 0x08); (0, 14); (1, 7); (0, 15); (1, 128)] 0.
Proof.
  assert (t_putc 65 (terminal_of ex_console) = mkTerminal
    (replicate 23 (replicate 80 0) ++ [replicate 79 0 ++ [0x0741]; replicate 80 0x0720])
    24 0 [(0x3F8, 65); (0x378, 65); (0x37A, 0x0D); (0x37A, 0x08); (0, 14); (1, 7); (0, 15); (1, 128)] 0) as <-
    by (vm_compute; reflexivity).
  apply (cons_putc_screen 65 ex_console). vm_compute. done.
Defined.

Lemma cons_getc_fifo_witness :
  ∃ d', cons_getc ex_console = Done 122 d' ∧ cons_inv d' ∧ pending d' = [104; 105; 97] ∧
    inb_stream d' = [].
Proof. apply (cons_getc_fifo ex_console). vm_compute. done. Defined.
