(* ===== verification/Strings.v ===== *)
(** * Strings and memory blocks: lib/string.c

    The routines shared by the kernel and the user programs, over a flat
    byte-addressed memory with 32-bit pointers.  A C loop without a bound takes
    fuel and returns [None] when it does not suffice; the theorems give the fuel
    that does.  The [rep] string instructions of [memset] and [memmove] are
    modelled word by word in the direction the code chooses. *)

From S2P Require Import Prelude.
From stdpp Require Import base numbers list gmap fin_maps strings.

Local Open Scope Z_scope.

Definition s8 (x : Z) : Z := (x + 128) mod 256 - 128.

(** [*p] for a [char *p], and a store through it. *)
Definition char_at (m : memory) (p : Z) : Z := s8 (mget m p).
Definition put_char (m : memory) (p c : Z) : memory := <[p := u8 c]> m.
Definition next (p : Z) : Z := u32 (p + 1).

(** ** Strings *)

Fixpoint strlen (fuel : nat) (m : memory) (s n : Z) : option Z :=
  match fuel with
  | O => None
  | S k => if char_at m s =? 0 then Some n else strlen k m (next s) (s32 (n + 1))
  end.

Fixpoint strnlen (fuel : nat) (m : memory) (s size n : Z) : option Z :=
  match fuel with
  | O => None
  | S k => if (0 <? size) && negb (char_at m s =? 0)
           then strnlen k m (next s) (size - 1) (s32 (n + 1)) else Some n
  end.

(** The memory after the copy; the routine returns its first argument. *)
Fixpoint strcpy (fuel : nat) (m : memory) (dst src : Z) : option memory :=
  match fuel with
  | O => None
  | S k => let c := char_at m src in let m := put_char m dst c in
           if c =? 0 then Some m else strcpy k m (next dst) (next src)
  end.

Definition strcat (fuel : nat) (m : memory) (dst src : Z) : option memory :=
  len ← strlen fuel m dst 0; strcpy fuel m (u32 (dst + len)) src.

Fixpoint strncpy (i : nat) (m : memory) (dst src : Z) : memory :=
  match i with
  | O => m
  | S k => let m := put_char m dst (char_at m src) in
           strncpy k m (next dst) (if char_at m src =? 0 then src else next src)
  end.

(** The loop of [strlcpy], entered with [--size]: the memory and [dst]. *)
Fixpoint strlcpy_loop (size : nat) (m : memory) (dst src : Z) : memory * Z :=
  match size with
  | O => (m, dst)
  | S k => if char_at m src =? 0 then (m, dst)
           else strlcpy_loop k (put_char m dst (char_at m src)) (next dst) (next src)
  end.

Definition strlcpy (m : memory) (dst src size : Z) : memory * Z :=
  if 0 <? size then
    let '(m, d) := strlcpy_loop (Z.to_nat (size - 1)) m dst src in
    (put_char m d 0, u32 (d - dst))
  else (m, 0).

Fixpoint strcmp (fuel : nat) (m : memory) (p q : Z) : option Z :=
  match fuel with
  | O => None
  | S k => if negb (char_at m p =? 0) && (char_at m p =? char_at m q)
           then strcmp k m (next p) (next q) else Some (mget m p - mget m q)
  end.

Fixpoint strncmp (n : nat) (m : memory) (p q : Z) : Z :=
  match n with
  | O => 0
  | S k => if negb (char_at m p =? 0) && (char_at m p =? char_at m q)
           then strncmp k m (next p) (next q) else mget m p - mget m q
  end.

Fixpoint strchr (fuel : nat) (m : memory) (s c : Z) : option Z :=
  match fuel with
  | O => None
  | S k => if char_at m s =? 0 then Some 0
           else if char_at m s =? s8 c then Some s else strchr k m (next s) c
  end.

Fixpoint strfind (fuel : nat) (m : memory) (s c : Z) : option Z :=
  match fuel with
  | O => None
  | S k => if char_at m s =? 0 then Some s
           else if char_at m s =? s8 c then Some s else strfind k m (next s) c
  end.

(** ** Blocks *)

(** [rep stosb], [rep stosl], and [rep movsb], [rep movsl] with the direction
    flag clear ([step] positive) or set. *)
Fixpoint stosb (n : nat) (m : memory) (d a : Z) : memory :=
  match n with O => m | S k => stosb k (put_char m d a) (u32 (d + 1)) a end.
Fixpoint stosl (n : nat) (m : memory) (d a : Z) : memory :=
  match n with O => m | S k => stosl k (store32 m d a) (u32 (d + 4)) a end.
Fixpoint movsb (dir : Z) (n : nat) (m : memory) (d s : Z) : memory :=
  match n with
  | O => m
  | S k => movsb dir k (put_char m d (mget m s)) (u32 (d + dir)) (u32 (s + dir))
  end.
Fixpoint movsl (dir : Z) (n : nat) (m : memory) (d s : Z) : memory :=
  match n with
  | O => m
  | S k => movsl dir k (store32 m d (load32 m s)) (u32 (d + 4 * dir)) (u32 (s + 4 * dir))
  end.

(** [c & 0xFF] in every byte of a word *)
Definition replicate_byte (c : Z) : Z :=
  let c := Z.land c 0xFF in
  Z.lor (Z.lor (Z.lor (Z.shiftl c 24) (Z.shiftl c 16)) (Z.shiftl c 8)) c.

Definition memset (m : memory) (v c n : Z) : memory :=
  if n =? 0 then m else
  if (v mod 4 =? 0) && (n mod 4 =? 0)
  then stosl (Z.to_nat (n / 4)) m v (replicate_byte c)
  else stosb (Z.to_nat n) m v c.

Definition memmove (m : memory) (dst src n : Z) : memory :=
  let s := src in
  let d := dst in
  if (s <? d) && (d <? u32 (s + n)) then
    let s := u32 (s + n) in
    let d := u32 (d + n) in
    if (s mod 4 =? 0) && (d mod 4 =? 0) && (n mod 4 =? 0)
    then movsl (-1) (Z.to_nat (n / 4)) m (u32 (d - 4)) (u32 (s - 4))
    else movsb (-1) (Z.to_nat n) m (u32 (d - 1)) (u32 (s - 1))
  else
    if (s mod 4 =? 0) && (d mod 4 =? 0) && (n mod 4 =? 0)
    then movsl 1 (Z.to_nat (n / 4)) m d s
    else movsb 1 (Z.to_nat n) m d s.

Definition memcpy (m : memory) (dst src n : Z) : memory := memmove m dst src n.

Fixpoint memcmp (n : nat) (m : memory) (s1 s2 : Z) : Z :=
  match n with
  | O => 0
  | S k => if mget m s1 =? mget m s2 then memcmp k m (next s1) (next s2)
           else mget m s1 - mget m s2
  end.

(** [ends] is computed once, modulo 2^32. *)
Definition memfind (fuel : nat) (m : memory) (s c n : Z) : option Z :=
  let ends := u32 (s + n) in
  (fix go (fuel : nat) (s : Z) : option Z :=
     match fuel with
     | O => None
     | S k => if s <? ends
              then if mget m s =? u8 c then Some s else go k (next s)
              else Some s
     end) fuel s.

(** ** Numbers *)

Fixpoint skip_blanks (fuel : nat) (m : memory) (s : Z) : option Z :=
  match fuel with
  | O => None
  | S k => if (char_at m s =? 32) || (char_at m s =? 9) then skip_blanks k m (next s) else Some s
  end.

(** The value of a digit character. *)
Definition digit_of (c : Z) : option Z :=
  if (48 <=? c) && (c <=? 57) then Some (c - 48)
  else if (97 <=? c) && (c <=? 122) then Some (c - 97 + 10)
  else if (65 <=? c) && (c <=? 90) then Some (c - 65 + 10)
  else None.

Fixpoint digits (fuel : nat) (m : memory) (base s val : Z) : option (Z * Z) :=
  match fuel with
  | O => None
  | S k =>
      match digit_of (char_at m s) with
      | None => Some (s, val)
      | Some dig => if base <=? dig then Some (s, val)
                    else digits k m base (next s) (s32 (s32 (val * base) + dig))
      end
  end.

(** The value and the value stored through [endptr].  A value out of range, for
    which C leaves the signed arithmetic undefined, wraps around as the compiled
    code does. *)
Definition strtol (fuel : nat) (m : memory) (s base : Z) : option (Z * Z) :=
  s ← skip_blanks fuel m s;
  let '(s, neg) :=
    if char_at m s =? 43 then (next s, false)
    else if char_at m s =? 45 then (next s, true) else (s, false) in
  let '(s, base) :=
    if ((base =? 0) || (base =? 16)) && (char_at m s =? 48) && (char_at m (next s) =? 120)
    then (u32 (s + 2), 16)
    else if (base =? 0) && (char_at m s =? 48) then (next s, 8)
    else if base =? 0 then (s, 10) else (s, base) in
  r ← digits fuel m base s 0;
  let '(s, val) := r in
  Some (if neg : bool then s32 (- val) else val, s).

#[global] Arguments next : simpl never.
#[global] Arguments char_at : simpl never.
#[global] Arguments put_char : simpl never.

(** ** Blocks: equivalence with a simultaneous copy *)

Section blocks.
Implicit Types (m : memory) (d s b : Z).

Lemma next_id p : 0 <= p → p + 1 < 4294967296 → next p = p + 1.
Proof. intros. apply u32_id. lia. Qed.

Lemma mget_put_char m p c b : mget (put_char m p c) b = if decide (p = b) then u8 c else mget m b.
Proof. unfold put_char. rewrite mget_insert, u8_u8. done. Qed.

Lemma s8_zero x : 0 <= x < 256 → (s8 x =? 0) = (x =? 0).
Proof. intros. unfold s8. repeat Z_case; try done; exfalso; zlia. Qed.

Lemma char_at_zero m p : (char_at m p =? 0) = (mget m p =? 0).
Proof. apply s8_zero, mget_range. Qed.

Lemma s8_inj x y : 0 <= x < 256 → 0 <= y < 256 → (s8 x =? s8 y) = (x =? y).
Proof. intros. unfold s8. repeat Z_case; try done; exfalso; zlia. Qed.

Lemma u8_s8 x : u8 (s8 x) = u8 x.
Proof. unfold s8. zlia. Qed.

Lemma mget_store32_byte m d v b :
  d <= b < d + 4 → mget (store32 m d v) b = u8 (v / 256 ^ (b - d)).
Proof.
  intros. unfold store32. rewrite !mget_insert, !u8_u8.
  assert (b = d ∨ b = d + 1 ∨ b = d + 2 ∨ b = d + 3) as Hb by lia.
  destruct Hb as [->|[->|[->| ->]]]; repeat (case_decide; try lia);
    [rewrite Z.sub_diag, Z.pow_0_r, Z.div_1_r; done|..];
    f_equal; f_equal; [replace (d + 1 - d) with 1 by lia|replace (d + 2 - d) with 2 by lia
      |replace (d + 3 - d) with 3 by lia]; done.
Qed.

Lemma load32_byte m s k : 0 <= k < 4 → u8 (load32 m s / 256 ^ k) = mget m (s + k).
Proof.
  intros. unfold load32. pose proof (mget_range m s). pose proof (mget_range m (s + 1)).
  pose proof (mget_range m (s + 2)). pose proof (mget_range m (s + 3)).
  assert (k = 0 ∨ k = 1 ∨ k = 2 ∨ k = 3) as Hk by lia.
  destruct Hk as [->|[->|[->| ->]]]; rewrite ?Z.add_0_r;
    [change (256 ^ 0) with 1|change (256 ^ 1) with 256
    |change (256 ^ 2) with 65536|change (256 ^ 3) with 16777216]; zlia.
Qed.

Lemma mget_copy_word m d s b :
  mget (store32 m d (load32 m s)) b = if decide (d <= b < d + 4) then mget m (s + (b - d)) else mget m b.
Proof.
  case_decide; [|apply mget_store32_ne; lia].
  rewrite mget_store32_byte by lia. apply load32_byte. lia.
Qed.

(** The memory [m'] is [m] with [n] bytes from [s] copied to [d] at once. *)
Definition copied m m' d s n : Prop :=
  ∀ b, mget m' b = if decide (d <= b < d + n) then mget m (s + (b - d)) else mget m b.

(** Copying a first block and then the rest, when the rest of the source does
    not meet the first destination. *)
Lemma copied_then m m1 m2 d s k n :
  0 <= k → 0 <= n → d <= s ∨ s + k + n <= d →
  copied m m1 d s k → copied m1 m2 (d + k) (s + k) n → copied m m2 d s (k + n).
Proof.
  intros Hk Hn Hds H1 H2 b. rewrite H2.
  destruct (decide (d + k <= b < d + k + n)).
  - rewrite decide_True by lia. rewrite H1, decide_False by lia. f_equal. lia.
  - rewrite H1. by repeat case_decide; try lia.
Qed.

(** The same from the high end down. *)
Lemma copied_last m m1 m2 d s k n :
  0 <= k → 0 <= n → s <= d →
  copied m m1 (d + n) (s + n) k → copied m1 m2 d s n → copied m m2 d s (n + k).
Proof.
  intros Hk Hn Hds H1 H2 b. rewrite H2.
  destruct (decide (d <= b < d + n)).
  - rewrite decide_True by lia. rewrite H1, decide_False by lia. done.
  - rewrite H1. destruct (decide (d + n <= b < d + n + k)).
    + rewrite decide_True by lia. f_equal. lia.
    + by rewrite decide_False by lia.
Qed.

Lemma copied_byte m d s : copied m (put_char m d (mget m s)) d s 1.
Proof.
  intros b. rewrite mget_put_char. destruct (decide (d = b)) as [->|].
  - rewrite decide_True, u8_id by (lia || apply mget_range). f_equal. lia.
  - by rewrite decide_False by lia.
Qed.
Lemma copied_word m d s : copied m (store32 m d (load32 m s)) d s 4.
Proof. intros b. apply mget_copy_word. Qed.
Lemma copied_nothing m d s : copied m m d s 0.
Proof. intros b. by rewrite decide_False by lia. Qed.

Lemma movsb_up n m d s :
  0 <= d → 0 <= s → d + Z.of_nat n <= 4294967296 → s + Z.of_nat n <= 4294967296 →
  d <= s ∨ s + Z.of_nat n <= d → copied m (movsb 1 n m d s) d s (Z.of_nat n).
Proof.
  revert m d s. induction n as [|n IH]; intros m d s ????? ; cbn [movsb].
  { apply copied_nothing. }
  replace (Z.of_nat (S n)) with (1 + Z.of_nat n) in * by lia.
  eapply copied_then; [lia..|apply copied_byte|].
  destruct n; [apply copied_nothing|].
  rewrite !u32_id by lia. apply IH; lia.
Qed.

Lemma movsl_up n m d s :
  0 <= d → 0 <= s → d + 4 * Z.of_nat n <= 4294967296 → s + 4 * Z.of_nat n <= 4294967296 →
  d <= s ∨ s + 4 * Z.of_nat n <= d → copied m (movsl 1 n m d s) d s (4 * Z.of_nat n).
Proof.
  revert m d s. induction n as [|n IH]; intros m d s ????? ; cbn [movsl].
  { apply copied_nothing. }
  replace (4 * Z.of_nat (S n)) with (4 + 4 * Z.of_nat n) in * by lia.
  eapply copied_then; [lia..|apply copied_word|].
  destruct n; [apply copied_nothing|].
  rewrite !u32_id by lia. apply IH; lia.
Qed.

Lemma movsb_down n m d s :
  0 <= s <= d → d + Z.of_nat n <= 4294967296 →
  copied m (movsb (-1) n m (u32 (d + Z.of_nat n - 1)) (u32 (s + Z.of_nat n - 1))) d s (Z.of_nat n).
Proof.
  revert m. induction n as [|n IH]; intros m ?? ; cbn [movsb].
  { apply copied_nothing. }
  replace (Z.of_nat (S n)) with (Z.of_nat n + 1) in * by lia.
  rewrite !(u32_id (_ + _ - 1)) by lia.
  replace (d + (Z.of_nat n + 1) - 1) with (d + Z.of_nat n) by lia.
  replace (s + (Z.of_nat n + 1) - 1) with (s + Z.of_nat n) by lia.
  eapply copied_last; [lia..|apply copied_byte|]. apply IH; lia.
Qed.

Lemma movsl_down n m d s :
  0 <= s <= d → d + 4 * Z.of_nat n <= 4294967296 →
  copied m (movsl (-1) n m (u32 (d + 4 * Z.of_nat n - 4)) (u32 (s + 4 * Z.of_nat n - 4)))
    d s (4 * Z.of_nat n).
Proof.
  revert m. induction n as [|n IH]; intros m ?? ; cbn [movsl].
  { apply copied_nothing. }
  replace (4 * Z.of_nat (S n)) with (4 * Z.of_nat n + 4) in * by lia.
  rewrite !(u32_id (_ + _ - 4)) by lia.
  replace (d + (4 * Z.of_nat n + 4) - 4) with (d + 4 * Z.of_nat n) by lia.
  replace (s + (4 * Z.of_nat n + 4) - 4) with (s + 4 * Z.of_nat n) by lia.
  eapply copied_last; [lia..|apply copied_word|]. apply IH; lia.
Qed.

Lemma memmove_copied m dst src n :
  0 <= dst → 0 <= src → 0 <= n → dst + n < 4294967296 → src + n < 4294967296 →
  copied m (memmove m dst src n) dst src n.
Proof.
  intros. unfold memmove. rewrite !(u32_id (_ + n)) by lia.
  assert (n mod 4 = 0 → n = 4 * Z.of_nat (Z.to_nat (n / 4))) as Hw by (intros; zlia).
  assert (n = Z.of_nat (Z.to_nat n)) as Hb by lia.
  destruct ((src <? dst) && (dst <? src + n)) eqn:Eov.
  - apply andb_true_iff in Eov as [?%Z.ltb_lt ?%Z.ltb_lt]. case_match eqn:Ea.
    + apply andb_true_iff in Ea as [_ ?%Z.eqb_eq].
      pose proof (movsl_down (Z.to_nat (n / 4)) m dst src) as Hc.
      rewrite <- Hw in Hc by done. apply Hc; lia.
    + pose proof (movsb_down (Z.to_nat n) m dst src) as Hc.
      rewrite <- Hb in Hc. apply Hc; lia.
  - assert (dst <= src ∨ src + n <= dst).
    { apply andb_false_iff in Eov as [?%Z.ltb_ge|?%Z.ltb_ge]; lia. }
    case_match eqn:Ea.
    + apply andb_true_iff in Ea as [_ ?%Z.eqb_eq].
      pose proof (movsl_up (Z.to_nat (n / 4)) m dst src) as Hc.
      rewrite <- Hw in Hc by done. apply Hc; lia.
    + pose proof (movsb_up (Z.to_nat n) m dst src) as Hc.
      rewrite <- Hb in Hc. apply Hc; lia.
Qed.
End blocks.

Section fills.
Implicit Types (m : memory) (d s b : Z).

Lemma replicate_byte_eq c : replicate_byte c = u8 c * 16843009.
Proof.
  unfold replicate_byte, u8. replace (Z.land c 0xFF) with (c mod 2 ^ 8)
    by (symmetry; apply (Z.land_ones c 8); lia).
  change (2 ^ 8) with 256. pose proof (Z.mod_pos_bound c 256 ltac:(lia)).
  generalize dependent (c mod 256). clear c. by_compute.
Qed.

Lemma replicate_byte_byte c k : 0 <= k < 4 → u8 (replicate_byte c / 256 ^ k) = u8 c.
Proof.
  intros. rewrite replicate_byte_eq. pose proof (u8_range c). generalize dependent (u8 c).
  intros x Hx. assert (k = 0 ∨ k = 1 ∨ k = 2 ∨ k = 3) as Hk by lia.
  destruct Hk as [->|[->|[->| ->]]];
    [change (256 ^ 0) with 1|change (256 ^ 1) with 256
    |change (256 ^ 2) with 65536|change (256 ^ 3) with 16777216]; zlia.
Qed.

Lemma mget_stosb n m d c b :
  0 <= d → d + Z.of_nat n <= 4294967296 →
  mget (stosb n m d c) b = if decide (d <= b < d + Z.of_nat n) then u8 c else mget m b.
Proof.
  revert m d. induction n as [|n IH]; intros m d ??; cbn [stosb].
  { by rewrite decide_False by lia. }
  destruct (decide (n = O)) as [->|]; [cbn [stosb]|rewrite (u32_id (d + 1)), IH by lia];
    rewrite mget_put_char; by repeat case_decide; try lia.
Qed.

Lemma mget_stosl n m d c b :
  0 <= d → d + 4 * Z.of_nat n <= 4294967296 →
  mget (stosl n m d (replicate_byte c)) b =
    if decide (d <= b < d + 4 * Z.of_nat n) then u8 c else mget m b.
Proof.
  revert m d. induction n as [|n IH]; intros m d ??; cbn [stosl].
  { by rewrite decide_False by lia. }
  assert (mget (store32 m d (replicate_byte c)) b =
    if decide (d <= b < d + 4) then u8 c else mget m b) as Hw.
  { case_decide; [|apply mget_store32_ne; lia].
    rewrite mget_store32_byte by lia. apply replicate_byte_byte. lia. }
  destruct (decide (n = O)) as [->|]; [cbn [stosl]|rewrite (u32_id (d + 4)), IH by lia];
    rewrite Hw; by repeat case_decide; try lia.
Qed.

Lemma mget_memset m v c n b :
  0 <= v → 0 <= n → v + n <= 4294967296 →
  mget (memset m v c n) b = if decide (v <= b < v + n) then u8 c else mget m b.
Proof.
  intros. unfold memset. destruct (Z.eqb_spec n 0) as [->|].
  { by rewrite decide_False by lia. }
  case_match eqn:Ea.
  - apply andb_true_iff in Ea as [_ Hm%Z.eqb_eq]. rewrite mget_stosl by zlia.
    replace (4 * Z.of_nat (Z.to_nat (n / 4))) with n by zlia. done.
  - rewrite mget_stosb by lia. by rewrite Z2Nat.id by lia.
Qed.
End fills.

(** C22: memmove has the effect of copying the n source bytes to the destination
    all at once, for every overlap of the two blocks, every alignment and both
    copying directions, and changes no other byte; memset gives each of its n
    bytes the low byte of c, on the word-wise path and on the byte-wise one, and
    changes no other byte. *)
Theorem memmove_memset_correct m dst src c n :
  0 <= dst → 0 <= src → 0 <= n → dst + n < 4294967296 → src + n < 4294967296 →
  copied m (memmove m dst src n) dst src n ∧
  ∀ b, mget (memset m dst c n) b = mget (fill m dst c (Z.to_nat n)) b.
Proof.
  intros. split; [by apply memmove_copied|]. intros b.
  rewrite mget_memset, mget_fill, Z2Nat.id by lia. done.
Qed.

(** An overlapping move upwards by two bytes, and an unaligned fill. *)
Lemma memmove_memset_correct_witness :
  read_bytes (memmove (write_bytes ∅ 100 [1; 2; 3; 4; 5]) 102 100 5) 100 7 = [1; 2; 1; 2; 3; 4; 5] ∧
  copied (write_bytes ∅ 100 [1; 2; 3; 4; 5])
    (memmove (write_bytes ∅ 100 [1; 2; 3; 4; 5]) 102 100 5) 102 100 5.
Proof.
  split; [vm_compute; reflexivity|].
  apply (memmove_memset_correct (write_bytes ∅ 100 [1; 2; 3; 4; 5]) 102 100 7 5); lia.
Defined.

(** ** Strings *)

(** The string at [s] is [l], followed by its terminator, without wrapping
    around the address space. *)
Fixpoint cstr (m : memory) (s : Z) (l : list Z) : Prop :=
  match l with
  | [] => mget m s = 0 ∧ 0 <= s < 4294967296
  | b :: l' => mget m s = b ∧ b ≠ 0 ∧ 0 <= s ∧ cstr m (s + 1) l'
  end.

#[export] Instance cstr_dec m s l : Decision (cstr m s l).
Proof. revert s. induction l; intros; simpl; apply _. Defined.

Section strings.
Implicit Types (m : memory) (l : list Z) (s : Z).

Lemma cstr_end m s l : cstr m s l → 0 <= s ∧ s + Z.of_nat (length l) < 4294967296.
Proof.
  revert s. induction l as [|b l IH]; intros s; cbn [cstr length]; [lia|].
  intros (_ & _ & ? & ?%IH). lia.
Qed.

Lemma cstr_next m s b l : cstr m s (b :: l) → next s = s + 1.
Proof. intros H%cstr_end. cbn [length] in H. apply next_id; lia. Qed.

Lemma cstr_bytes m s l : cstr m s l → Forall (λ b, 0 < b < 256) l.
Proof.
  revert s. induction l as [|b l IH]; intros s; cbn [cstr]; [constructor|].
  intros (<- & ? & _ & ?%IH). constructor; [|done]. pose proof (mget_range m s). lia.
Qed.

Lemma cstr_frame m m' s l :
  (∀ b, s <= b <= s + Z.of_nat (length l) → mget m' b = mget m b) → cstr m s l → cstr m' s l.
Proof.
  revert s. induction l as [|b l IH]; intros s Hf; cbn [cstr length] in *.
  { intros [<- ?]. split; [apply Hf; lia|done]. }
  intros (<- & ? & ? & ?). split_and!; [apply Hf; lia|done..|]. apply IH; [|done].
  intros. apply Hf. lia.
Qed.

Lemma strlen_run m s l n fuel :
  cstr m s l → (length l < fuel)%nat → 0 <= n → n + Z.of_nat (length l) < 2147483648 →
  strlen fuel m s n = Some (n + Z.of_nat (length l)).
Proof.
  revert s n fuel. induction l as [|b l IH]; intros s n [|fuel] Hs Hf ?? ; try (simpl in Hf; lia);
    cbn [strlen length] in *; rewrite char_at_zero.
  { destruct Hs as [-> _]. simpl. f_equal. lia. }
  pose proof (cstr_next _ _ _ _ Hs) as ->. destruct Hs as (-> & Hb & _ & Hs).
  apply Z.eqb_neq in Hb as ->. rewrite s32_id, (IH (s + 1)) by (done || lia). f_equal. lia.
Qed.

(** Lexicographic comparison, as the difference of the first distinct bytes. *)
Fixpoint compare_strings l1 l2 : Z :=
  match l1, l2 with
  | [], [] => 0
  | [], b :: _ => - b
  | a :: _, [] => a
  | a :: l1', b :: l2' => if a =? b then compare_strings l1' l2' else a - b
  end.

Lemma strcmp_run m p q l1 l2 fuel :
  cstr m p l1 → cstr m q l2 → (length l1 < fuel)%nat →
  strcmp fuel m p q = Some (compare_strings l1 l2).
Proof.
  revert p q l2 fuel. induction l1 as [|a l1 IH]; intros p q l2 [|fuel] Hp Hq Hf;
    try (simpl in Hf; lia); cbn [strcmp]; rewrite char_at_zero.
  { destruct Hp as [-> _]. destruct l2 as [|b l2]; cbn [cstr] in Hq; destruct Hq as [-> _];
      simpl; f_equal; lia. }
  pose proof (cstr_next _ _ _ _ Hp) as ->. destruct Hp as (Ha & Ha0 & _ & Hp).
  unfold char_at. rewrite s8_inj by apply mget_range. rewrite Ha.
  apply Z.eqb_neq in Ha0. rewrite Ha0. destruct l2 as [|b l2]; cbn [cstr] in Hq.
  { destruct Hq as [Hb _]. rewrite Hb, Ha0. simpl. f_equal. lia. }
  pose proof (cstr_next m q b l2 ltac:(done)) as ->. destruct Hq as (Hb & _ & _ & Hq). rewrite Hb.
  simpl. destruct (Z.eqb_spec a b) as [<-|]; simpl; [|done].
  apply IH; [done..|simpl in Hf; lia].
Qed.

Lemma compare_strings_zero l1 l2 :
  Forall (λ b, 0 < b < 256) l1 → Forall (λ b, 0 < b < 256) l2 →
  compare_strings l1 l2 = 0 ↔ l1 = l2.
Proof.
  intros H1. revert l2. induction H1 as [|a l1 Ha _ IH]; intros l2 H2; destruct H2 as [|b l2 Hb H2];
    simpl; [done|split; [lia|done]|split; [lia|done]|].
  destruct (Z.eqb_spec a b) as [->|]; [|split; [lia|naive_solver]].
  rewrite (IH l2 H2). naive_solver.
Qed.
End strings.

Section copying.
Implicit Types (m : memory) (l : list Z) (s : Z).

Lemma cstr_lookup m s l i b : cstr m s l → l !! i = Some b → mget m (s + Z.of_nat i) = b ∧ b ≠ 0.
Proof.
  revert s i. induction l as [|a l IH]; intros s i Hs Hi; [done|].
  destruct Hs as (Ha & ? & _ & Hs). destruct i as [|i]; cbn in Hi.
  - injection Hi as ->. by rewrite Z.add_0_r.
  - destruct (IH (s + 1) i Hs Hi) as [<- ?]. split; [|done]. f_equal. lia.
Qed.

Lemma cstr_intro m s l :
  0 <= s → s + Z.of_nat (length l) < 4294967296 → mget m (s + Z.of_nat (length l)) = 0 →
  (∀ i b, l !! i = Some b → mget m (s + Z.of_nat i) = b ∧ b ≠ 0) → cstr m s l.
Proof.
  revert s. induction l as [|a l IH]; intros s ?? Hz Hl; cbn [cstr length] in *.
  { rewrite Z.add_0_r in Hz. lia. }
  destruct (Hl O a eq_refl) as [Ha ?]. rewrite Z.add_0_r in Ha. split_and!; [done..|].
  apply IH; [lia|lia| |].
  - rewrite <- Hz. f_equal. lia.
  - intros i b Hi. destruct (Hl (S i) b Hi) as [<- ?]. split; [|done]. f_equal. lia.
Qed.

Lemma strlcpy_loop_run k m dst src l :
  cstr m src l → 0 <= dst → dst + Z.of_nat k < 4294967296 →
  dst + Z.of_nat k <= src ∨ src + Z.of_nat (length l) < dst →
  ∃ m', strlcpy_loop k m dst src = (m', dst + Z.of_nat (k `min` length l)) ∧
    copied m m' dst src (Z.of_nat (k `min` length l)).
Proof.
  revert m dst src l. induction k as [|k IH]; intros m dst src l Hs ?? Hd; cbn [strlcpy_loop].
  { exists m. rewrite Nat.min_0_l, Z.add_0_r. split; [done|apply copied_nothing]. }
  rewrite char_at_zero. destruct l as [|b l].
  { destruct Hs as [-> _]. exists m. rewrite Nat.min_0_r, Z.add_0_r. split; [done|apply copied_nothing]. }
  pose proof (cstr_next _ _ _ _ Hs) as ->. pose proof (cstr_end _ _ _ Hs) as Hend.
  cbn [length] in *. destruct Hs as (Hb & Hb0 & _ & Hs).
  rewrite (proj2 (Z.eqb_neq (mget m src) 0)) by congruence.
  rewrite next_id by lia.
  assert (put_char m dst (char_at m src) = put_char m dst (mget m src)) as ->.
  { unfold put_char, char_at. by rewrite u8_s8. }
  destruct (IH (put_char m dst (mget m src)) (dst + 1) (src + 1) l) as (m' & -> & Hc);
    [|lia|lia|lia..|].
  { eapply cstr_frame; [|done]. intros. by rewrite mget_put_char, decide_False by lia. }
  exists m'. split; [f_equal; lia|].
  replace (Z.of_nat (S k `min` S (length l))) with (1 + Z.of_nat (k `min` length l)) by lia.
  eapply copied_then; [lia..|apply copied_byte|done].
Qed.

Lemma strlcpy_run m dst src size l :
  cstr m src l → 0 < size → 0 <= dst → dst + size < 4294967296 →
  dst + size <= src ∨ src + Z.of_nat (length l) < dst →
  ∃ m', strlcpy m dst src size = (m', Z.min (Z.of_nat (length l)) (size - 1)) ∧
    cstr m' dst (take (Z.to_nat (size - 1)) l) ∧
    ∀ b, b < dst ∨ dst + size <= b → mget m' b = mget m b.
Proof.
  intros Hs ??? Hd. unfold strlcpy. rewrite (proj2 (Z.ltb_lt 0 size)) by done.
  destruct (strlcpy_loop_run (Z.to_nat (size - 1)) m dst src l) as (m' & -> & Hc); [done|lia..|].
  set (n := (Z.to_nat (size - 1) `min` length l)%nat) in *.
  assert (Z.of_nat n <= size - 1) by lia.
  exists (put_char m' (dst + Z.of_nat n) 0). split; [rewrite u32_id by lia; f_equal; lia|]. split.
  - assert (length (take (Z.to_nat (size - 1)) l) = n) as Hlen by (rewrite length_take; lia).
    apply cstr_intro; [lia|rewrite Hlen; lia|rewrite Hlen|].
    { by rewrite mget_put_char, decide_True. }
    intros i b Hi. assert (i < n)%nat. { apply lookup_lt_Some in Hi. lia. }
    apply lookup_take_Some in Hi as [Hi _].
    rewrite mget_put_char, decide_False, Hc, decide_True by lia.
    replace (src + (dst + Z.of_nat i - dst)) with (src + Z.of_nat i) by lia.
    by eapply cstr_lookup.
  - intros b Hb. rewrite mget_put_char, decide_False, Hc, decide_False by lia. done.
Qed.
End copying.

(** on terminated strings (with fuel for their characters) strlen returns the
    length, strcmp the difference of the first distinct bytes, which is 0 exactly
    for equal strings, and strlcpy into a disjoint buffer of size bytes stores the
    longest prefix that fits, always terminated, writes nothing outside the
    buffer and returns the number of characters stored. *)
Theorem string_routines_correct m s t l k dst size fuel :
  cstr m s l → cstr m t k → (length l < fuel)%nat → Z.of_nat (length l) < 2147483648 →
  0 < size → 0 <= dst → dst + size < 4294967296 →
  dst + size <= s ∨ s + Z.of_nat (length l) < dst →
  strlen fuel m s 0 = Some (Z.of_nat (length l)) ∧
  strcmp fuel m s t = Some (compare_strings l k) ∧ (compare_strings l k = 0 ↔ l = k) ∧
  ∃ m', strlcpy m dst s size = (m', Z.min (Z.of_nat (length l)) (size - 1)) ∧
    cstr m' dst (take (Z.to_nat (size - 1)) l) ∧
    ∀ b, b < dst ∨ dst + size <= b → mget m' b = mget m b.
Proof.
  intros Hs Ht ??????. split_and!.
  - apply (strlen_run m s l 0); [done..|lia|lia].
  - by apply strcmp_run.
  - apply compare_strings_zero; by eapply cstr_bytes.
  - by apply strlcpy_run.
Qed.

Definition ex_strings : memory :=
  write_bytes (write_bytes ∅ 16 [106; 111; 115; 0]) 32 [106; 111; 121; 0].

Lemma string_routines_correct_witness :
  strcmp 4 ex_strings 16 32 = Some (-6) ∧
  ∃ m', strlcpy ex_strings 64 16 3 = (m', 2) ∧ cstr m' 64 [106; 111].
Proof.
  destruct (string_routines_correct ex_strings 16 32 [106; 111; 115] [106; 111; 121] 64 3 4)
    as (_ & H & _ & m' & Hm & Hc & _); [by_compute|by_compute|simpl; lia..|].
  split; [exact H|]. exists m'. split; [exact Hm|exact Hc].
Defined.
