(* ===== verification/Printfmt.v ===== *)
(** * Formatted output: lib/printfmt.c

    [vprintfmt] calls a [putch] function for every character, so the model is
    parameterised by that function, in any state and with any exits; [vsnprintf]
    instantiates it with a bounded buffer.  A format is a string literal, given
    by its bytes; past its end one reads the terminator.  An argument of the
    variable list is a 32-bit word (integers, pointers) or a string literal of
    the program.  Two exits stand for what C leaves undefined ([bad]: a missing
    argument, or one of the wrong kind) and for exhausted fuel ([spin]); the
    strings that pointers designate are read with [sfuel] steps of fuel. *)

From S2P Require Import Prelude Strings.
From stdpp Require Import base numbers list gmap fin_maps strings.

Local Open Scope Z_scope.

Definition bytes_of (s : string) : list Z := Z.of_N ∘ Ascii.N_of_ascii <$> String.list_ascii_of_string s.

Inductive arg : Type := Word (w : Z) | Lit (l : list Z).

#[export] Instance arg_eq_dec : EqDecision arg.
Proof. solve_decision. Defined.

(** The variables of one conversion. *)
Record flags : Type := mkFlags {
  padc : Z; width : Z; precision : Z; lflag : Z; altflag : bool }.
Definition no_flags : flags := mkFlags 32 (-1) (-1) 0 false.
Definition set_padc v f := mkFlags v (width f) (precision f) (lflag f) (altflag f).
Definition set_width v f := mkFlags (padc f) v (precision f) (lflag f) (altflag f).
Definition set_precision v f := mkFlags (padc f) (width f) v (lflag f) (altflag f).
Definition set_lflag v f := mkFlags (padc f) (width f) (precision f) v (altflag f).
Definition set_altflag v f := mkFlags (padc f) (width f) (precision f) (lflag f) v.

Definition MAXERROR : Z := 9.
Definition error_string (e : Z) : option (list Z) :=
  if e <? 1 then None else
  bytes_of <$> (["unspecified error"; "bad environment"; "invalid parameter"; "out of memory";
    "out of environments"; "segmentation fault"; "env is not recving";
    "unexpected end of file"] !! Z.to_nat (e - 1)).

(** [fmt[i]], and the start of the escape sequence that contains position [i]:
    [for (; fmt[-1] != '%'; fmt--)]. *)
Definition fmt_at (fmt : list Z) (i : nat) : Z := default 0 (fmt !! i).
Fixpoint rewind (fmt : list Z) (i : nat) : nat :=
  match i with O => O | S k => if fmt_at fmt k =? 37 then i else rewind fmt k end.

(** A decimal field, read into [precision]; [i] is the position after [ch]. *)
Fixpoint field (fuel : nat) (fmt : list Z) (i : nat) (ch precision : Z) : option (Z * nat) :=
  match fuel with
  | O => None
  | S k =>
      let precision := s32 (precision * 10 + ch - 48) in
      let ch := s8 (fmt_at fmt i) in
      if (ch <? 48) || (57 <? ch) then Some (precision, i) else field k fmt (S i) ch precision
  end.

Definition process_precision (f : flags) : flags :=
  if width f <? 0 then set_precision (-1) (set_width (precision f) f) else f.

Definition digit_char (d : Z) : Z := fmt_at (bytes_of "0123456789abcdef") (Z.to_nat d).

Section printfmt.
Context {S E : Type} (putch : Z → comp S E unit) (rd : Z → comp S E Z) (bad spin : E) (sfuel : nat).

(** [while (width-- > 0) putch (c)] *)
Definition pad (c width : Z) : comp S E unit := for_each (replicate (Z.to_nat width) c) putch.

Fixpoint printnum (fuel : nat) (num base width padc : Z) : comp S E unit :=
  match fuel with
  | O => leave spin
  | Datatypes.S k =>
      (if base <=? num then printnum k (num / base) base (width - 1) padc
       else pad padc (width - 1)) ;;
      putch (digit_char (num mod base))
  end.

(** [va_arg] for a word, and for the two words of a [long long]. *)
Definition va_word (ap : list arg) : comp S E (Z * list arg) :=
  match ap with Word w :: ap' => mret (u32 w, ap') | _ => leave bad end.
Definition va_dword (ap : list arg) : comp S E (Z * list arg) :=
  '(lo, ap) ← va_word ap; '(hi, ap) ← va_word ap; mret (lo + 2 ^ 32 * hi, ap).

Definition getuint (ap : list arg) (lflag : Z) : comp S E (Z * list arg) :=
  if 2 <=? lflag then va_dword ap else va_word ap.
Definition getint (ap : list arg) (lflag : Z) : comp S E (Z * list arg) :=
  if 2 <=? lflag
  then '(x, ap) ← va_dword ap; mret ((x + 2 ^ 63) mod 2 ^ 64 - 2 ^ 63, ap)
  else '(x, ap) ← va_word ap; mret (s32 x, ap).

(** [*p] and [p + 1] *)
Definition str_char (p : arg) : comp S E Z :=
  match p with Word a => c ← rd a; mret (s8 c) | Lit l => mret (s8 (default 0 (head l))) end.
Definition str_next (p : arg) : arg :=
  match p with Word a => Word (next a) | Lit l => Lit (tail l) end.

(** [strnlen (p, size)] *)
Fixpoint str_nlen (fuel : nat) (p : arg) (size n : Z) : comp S E Z :=
  match fuel with
  | O => leave spin
  | Datatypes.S k =>
      if 0 <? size then
        c ← str_char p;
        if c =? 0 then mret n else str_nlen k (str_next p) (size - 1) (n + 1)
      else mret n
  end.

(** The loop that prints the characters of a string; it returns [width]. *)
Fixpoint str_put (fuel : nat) (p : arg) (precision width : Z) (altflag : bool) : comp S E Z :=
  match fuel with
  | O => leave spin
  | Datatypes.S k =>
      ch ← str_char p;
      if ch =? 0 then mret width else
      let precision' := if precision <? 0 then precision else precision - 1 in
      if negb (precision <? 0) && (precision' <? 0) then mret width else
      (if altflag && ((ch <? 32) || (126 <? ch)) then putch 63 else putch ch) ;;
      str_put k (str_next p) precision' (width - 1) altflag
  end.

Definition print_string (f : flags) (p : arg) : comp S E unit :=
  let p := if bool_decide (p = Word 0) then Lit (bytes_of "(null)") else p in
  width ← (if (0 <? width f) && negb (padc f =? 45) then
             n ← str_nlen sfuel p (u32 (precision f)) 0;
             let width := width f - n in
             pad (padc f) width ;; mret (Z.min width 0)
           else mret (width f));
  width ← str_put sfuel p (precision f) width (altflag f);
  pad 32 width.

(** The conversions; [pe] prints an error number. *)
Fixpoint escape (fuel : nat) (pe : Z → comp S E unit) (fmt : list Z) (i : nat) (f : flags)
    (ap : list arg) : comp S E (nat * list arg) :=
  match fuel with
  | O => leave spin
  | Datatypes.S k =>
      let ch := fmt_at fmt i in
      let i := Datatypes.S i in
      let reswitch f ap := escape k pe fmt i f ap in
      let number num base ap := printnum 64 num base (width f) (padc f) ;; mret (i, ap) in
      if ch =? 45 then reswitch (set_padc 45 f) ap else
      if ch =? 48 then reswitch (set_padc 48 f) ap else
      if (49 <=? ch) && (ch <=? 57) then
        match field (length fmt) fmt i ch 0 with
        | None => leave spin
        | Some (precision, i) => escape k pe fmt i (process_precision (set_precision precision f)) ap
        end else
      if ch =? 42 then
        '(w, ap) ← va_word ap; reswitch (process_precision (set_precision (s32 w) f)) ap else
      if ch =? 46 then reswitch (if width f <? 0 then set_width 0 f else f) ap else
      if ch =? 35 then reswitch (set_altflag true f) ap else
      if ch =? 108 then reswitch (set_lflag (lflag f + 1) f) ap else
      if ch =? 99 then '(w, ap) ← va_word ap; putch (s32 w) ;; mret (i, ap) else
      if ch =? 101 then '(w, ap) ← va_word ap; pe (s32 w) ;; mret (i, ap) else
      if ch =? 115 then
        match ap with p :: ap => print_string f p ;; mret (i, ap) | [] => leave bad end else
      if ch =? 100 then
        '(n, ap) ← getint ap (lflag f);
        (if n <? 0 then putch 45 else mret tt) ;; number (Z.abs n) 10 ap else
      if ch =? 117 then '(n, ap) ← getuint ap (lflag f); number n 10 ap else
      if ch =? 111 then '(n, ap) ← getuint ap (lflag f); number n 8 ap else
      if ch =? 112 then
        putch 48 ;; putch 120 ;; '(n, ap) ← va_word ap; number n 16 ap else
      if ch =? 120 then '(n, ap) ← getuint ap (lflag f); number n 16 ap else
      if ch =? 37 then putch ch ;; mret (i, ap) else
      putch 37 ;; mret (rewind fmt (i - 1), ap)
  end.

(** The outer loop, one character or one escape sequence at a time. *)
Fixpoint format (fuel : nat) (pe : Z → comp S E unit) (fmt : list Z) (i : nat) (ap : list arg) :
    comp S E unit :=
  match fuel with
  | O => leave spin
  | Datatypes.S k =>
      let ch := fmt_at fmt i in
      let i := Datatypes.S i in
      if ch =? 37 then
        '(i, ap) ← escape (length fmt + 2) pe fmt i no_flags ap; format k pe fmt i ap
      else if ch =? 0 then mret tt
      else putch ch ;; format k pe fmt i ap
  end.

(** [%e]: its own calls of [printfmt] use no [%e]. *)
Definition print_error (err : Z) : comp S E unit :=
  let call fmt ap := format (length fmt + 1) (λ _, leave bad) fmt 0 ap in
  let err := if err <? 0 then s32 (- err) else err in
  if err <? 0 then leave bad else
  match (if MAXERROR <=? err then None else error_string err) with
  | None => call (bytes_of "error %d") [Word err]
  | Some p => call (bytes_of "%s") [Lit p]
  end.

Definition vprintfmt (fmt : list Z) (ap : list arg) : comp S E unit :=
  format (length fmt + 1) print_error fmt 0 ap.
End printfmt.

(** ** [vsnprintf] *)

(** The memory and the [struct sprintbuf]. *)
Record sprintbuf : Type := mkSprintbuf { sp_mem : memory; buf : Z; ebuf : Z; cnt : Z }.

Inductive sexit : Type := BadArgument | Endless.

Definition sprintputch (ch : Z) : comp sprintbuf sexit unit := modify (λ b,
  let b := mkSprintbuf (sp_mem b) (buf b) (ebuf b) (s32 (cnt b + 1)) in
  if buf b <? ebuf b
  then mkSprintbuf (put_char (sp_mem b) (buf b) ch) (u32 (buf b + 1)) (ebuf b) (cnt b) else b).

Definition sprint_rd (a : Z) : comp sprintbuf sexit Z := gets (λ b, mget (sp_mem b) a).

(** The result and the memory. *)
Definition vsnprintf (sfuel : nat) (m : memory) (dst n : Z) (fmt : list Z) (ap : list arg) :
    option (Z * memory) :=
  if (dst =? 0) || (n <? 1) then Some (-3, m) else
  match vprintfmt sprintputch sprint_rd BadArgument Endless sfuel fmt ap
          (mkSprintbuf m dst (u32 (dst + n - 1)) 0) with
  | Done _ b => Some (cnt b, put_char (sp_mem b) (buf b) 0)
  | Exit _ _ => None
  end.

Definition snprintf := vsnprintf.

#[global] Arguments fmt_at : simpl never.
#[global] Arguments digit_char : simpl never.

(** ** The characters printed do not depend on where they go *)

(** The reference instance collects the characters in a list; [str] gives the
    bytes that pointer arguments may refer to. *)
Definition collect (c : Z) : comp (list Z) sexit unit := modify (λ out, out ++ [c]).
Definition collect_rd (str : Z → option Z) (a : Z) : comp (list Z) sexit Z :=
  match str a with Some c => mret c | None => leave BadArgument end.

(** The output of a format. *)
Definition printed (str : Z → option Z) (sfuel : nat) (fmt : list Z) (ap : list arg) :
    option (list Z) :=
  match vprintfmt collect (collect_rd str) BadArgument Endless sfuel fmt ap [] with
  | Done _ out => Some out
  | Exit _ _ => None
  end.

Section simulation.
Context {S E : Type} (putch : Z → comp S E unit) (rd : Z → comp S E Z) (bad spin : E)
  (sfuel : nat) (I : S → Prop) (str : Z → option Z).
Hypothesis putch_ok : ∀ c s, I s → ∃ s', putch c s = Done tt s' ∧ I s'.
Hypothesis rd_ok : ∀ a c s, I s → str a = Some c → rd a s = Done c s.

(** [g] returns what [w] returns and prints what [w] collects. *)
Definition sim {A} (w : comp (list Z) sexit A) (g : comp S E A) : Prop :=
  ∀ acc r acc', w acc = Done r acc' → ∃ out, acc' = acc ++ out ∧
    ∀ s, I s → ∃ s', g s = Done r s' ∧ for_each out putch s = Done tt s' ∧ I s'.

Lemma sim_ret {A} (a : A) : sim (mret a) (mret a).
Proof.
  intros acc r acc' [= <- <-]. exists []. split; [by rewrite app_nil_r|]. intros s Hs. by exists s.
Qed.
Lemma sim_leave {A} e (g : comp S E A) : sim (leave e) g.
Proof. by intros acc r acc' [=]. Qed.
Lemma sim_bind {A B} (w : comp _ _ A) (g : comp _ _ A) (kw : A → comp _ _ B) kg :
  sim w g → (∀ a, sim (kw a) (kg a)) → sim (w ≫= kw) (g ≫= kg).
Proof.
  intros Hw Hk acc r acc' H. inv_bind H as a acc1 H1.
  destruct (Hw _ _ _ H1) as (o1 & -> & G1). destruct (Hk a _ _ _ H) as (o2 & -> & G2).
  exists (o1 ++ o2). split; [by rewrite app_assoc|]. intros s Hs.
  destruct (G1 s Hs) as (s1 & E1 & F1 & HI1). destruct (G2 s1 HI1) as (s2 & E2 & F2 & HI2).
  exists s2. rewrite (bind_Done _ _ _ _ _ E1), (for_each_app _ _ _ _ _ F1). done.
Qed.
Lemma sim_put c : sim (collect c) (putch c).
Proof.
  intros acc r acc' [= <- <-]. exists [c]. split; [done|]. intros s Hs.
  destruct (putch_ok c s Hs) as (s' & Hc & HI). exists s'. split_and!; [done| |done].
  simpl. by rewrite (bind_Done _ _ _ _ _ Hc).
Qed.
Lemma sim_rd a : sim (collect_rd str a) (rd a).
Proof.
  intros acc r acc'. unfold collect_rd. destruct (str a) eqn:Ea; [|done]. intros [= <- <-].
  exists []. split; [by rewrite app_nil_r|]. intros s Hs. exists s. split_and!; [by apply rd_ok|done..].
Qed.

Ltac sim_step :=
  match goal with
  | |- sim (mret _) (mret _) => apply sim_ret
  | |- sim (leave _) _ => apply sim_leave
  | |- sim (collect _) (putch _) => apply sim_put
  | |- sim (collect_rd _ _) (rd _) => apply sim_rd
  | |- sim (mbind _ _) (mbind _ _) => apply sim_bind; [|intros ?]
  | |- sim (if ?b then _ else _) _ => destruct b
  | |- sim (match ?x with _ => _ end) _ => destruct x
  | H : ∀ _, _ |- sim _ _ => apply H
  end.
Ltac sims := repeat (progress cbv zeta || sim_step).

Lemma sim_pad c n : sim (pad collect c n) (pad putch c n).
Proof. unfold pad. induction (replicate (Z.to_nat n) c); simpl; sims. apply IHl. Qed.

Lemma sim_printnum fuel num base w p :
  sim (printnum collect Endless fuel num base w p) (printnum putch spin fuel num base w p).
Proof. revert num w. induction fuel; intros; simpl; sims. apply sim_pad. Qed.

Lemma sim_va_word ap : sim (va_word BadArgument ap) (va_word bad ap).
Proof. unfold va_word. sims. Qed.
Lemma sim_va_dword ap : sim (va_dword BadArgument ap) (va_dword bad ap).
Proof. unfold va_dword. sims; apply sim_va_word. Qed.
Lemma sim_getuint ap l : sim (getuint BadArgument ap l) (getuint bad ap l).
Proof. unfold getuint. sims; [apply sim_va_dword|apply sim_va_word]. Qed.
Lemma sim_getint ap l : sim (getint BadArgument ap l) (getint bad ap l).
Proof. unfold getint. sims; [apply sim_va_dword|apply sim_va_word]. Qed.

Lemma sim_str_char p : sim (str_char (collect_rd str) p) (str_char rd p).
Proof. unfold str_char. sims. Qed.
Lemma sim_str_nlen fuel p size n :
  sim (str_nlen (collect_rd str) Endless fuel p size n) (str_nlen rd spin fuel p size n).
Proof. revert p size n. induction fuel; intros; simpl; sims. apply sim_str_char. Qed.
Lemma sim_str_put fuel p pr w alt :
  sim (str_put collect (collect_rd str) Endless fuel p pr w alt)
    (str_put putch rd spin fuel p pr w alt).
Proof. revert p pr w. induction fuel; intros; simpl; sims. apply sim_str_char. Qed.

Lemma sim_print_string f p :
  sim (print_string collect (collect_rd str) Endless sfuel f p)
    (print_string putch rd spin sfuel f p).
Proof.
  unfold print_string. cbv zeta. apply sim_bind; [|intros; apply sim_bind; [|intros]];
    [|apply sim_str_put|apply sim_pad].
  sims; [apply sim_str_nlen|apply sim_pad].
Qed.

Lemma sim_escape fuel pw pg fmt i f ap :
  (∀ e, sim (pw e) (pg e)) →
  sim (escape collect (collect_rd str) BadArgument Endless sfuel fuel pw fmt i f ap)
    (escape putch rd bad spin sfuel fuel pg fmt i f ap).
Proof.
  intros Hp. revert i f ap. induction fuel as [|k IH]; intros; cbn [escape]; sims;
    first [apply sim_va_word | apply sim_getint | apply sim_getuint | apply sim_printnum
      | apply sim_print_string].
Qed.

Lemma sim_format fuel pw pg fmt i ap :
  (∀ e, sim (pw e) (pg e)) →
  sim (format collect (collect_rd str) BadArgument Endless sfuel fuel pw fmt i ap)
    (format putch rd bad spin sfuel fuel pg fmt i ap).
Proof.
  intros Hp. revert i ap. induction fuel as [|k IH]; intros; cbn [format]; sims.
  by apply sim_escape.
Qed.

Lemma sim_vprintfmt fmt ap :
  sim (vprintfmt collect (collect_rd str) BadArgument Endless sfuel fmt ap)
    (vprintfmt putch rd bad spin sfuel fmt ap).
Proof.
  apply sim_format. intros e. unfold print_error. cbv zeta.
  sims; apply sim_format; intros; apply sim_leave.
Qed.

(** The instance prints the characters of the reference, in order. *)
Lemma vprintfmt_prints fmt ap out s :
  printed str sfuel fmt ap = Some out → I s →
  ∃ s', vprintfmt putch rd bad spin sfuel fmt ap s = Done tt s' ∧
    for_each out putch s = Done tt s' ∧ I s'.
Proof.
  unfold printed. destruct (vprintfmt collect _ _ _ _ _ _ _) as [[] acc|] eqn:Ew; [|done].
  intros [= ->] Hs. destruct (sim_vprintfmt fmt ap _ _ _ Ew) as (o & Ho & Hg).
  simpl in Ho. subst o. by apply Hg.
Qed.
End simulation.

(** Printing changes nothing but what its output function changes. *)
Section effect.
Context {S E : Type} (putch : Z → comp S E unit) (rd : Z → comp S E Z) (bad spin : E) (sfuel : nat).
Context (R : S → S → Prop) `{!PreOrder R}.
Hypothesis putch_within : ∀ c, within R (putch c).
Hypothesis rd_within : ∀ a, within R (rd a).
#[local] Hint Resolve putch_within rd_within : known.

Lemma within_printnum fuel num base w p : within R (printnum putch spin fuel num base w p).
Proof. revert num w. induction fuel; intros; simpl; unfold pad; within_tac. Qed.
#[local] Hint Resolve within_printnum : known.

Lemma within_va_word ap : within R (va_word bad ap).
Proof. unfold va_word. within_tac. Qed.
#[local] Hint Resolve within_va_word : known.

Lemma within_getuint ap l : within R (getuint bad ap l).
Proof. unfold getuint, va_dword. within_tac. Qed.
Lemma within_getint ap l : within R (getint bad ap l).
Proof. unfold getint, va_dword. within_tac. Qed.

Lemma within_str_char p : within R (str_char rd p).
Proof. unfold str_char. within_tac. Qed.
#[local] Hint Resolve within_getuint within_getint within_str_char : known.

Lemma within_str_nlen fuel p size n : within R (str_nlen rd spin fuel p size n).
Proof. revert p size n. induction fuel; intros; simpl; within_tac. Qed.
Lemma within_str_put fuel p pr w alt : within R (str_put putch rd spin fuel p pr w alt).
Proof. revert p pr w. induction fuel; intros; simpl; within_tac. Qed.
#[local] Hint Resolve within_str_nlen within_str_put : known.

Lemma within_print_string f p : within R (print_string putch rd spin sfuel f p).
Proof. unfold print_string, pad. within_tac. Qed.
#[local] Hint Resolve within_print_string : known.

Lemma within_escape fuel pe fmt i f ap :
  (∀ e, within R (pe e)) → within R (escape putch rd bad spin sfuel fuel pe fmt i f ap).
Proof. intros. revert i f ap. induction fuel; intros; cbn [escape]; within_tac. Qed.
#[local] Hint Resolve within_escape : known.

Lemma within_format fuel pe fmt i ap :
  (∀ e, within R (pe e)) → within R (format putch rd bad spin sfuel fuel pe fmt i ap).
Proof. intros. revert i ap. induction fuel; intros; cbn [format]; within_tac. Qed.

Lemma within_vprintfmt fmt ap : within R (vprintfmt putch rd bad spin sfuel fmt ap).
Proof.
  apply within_format. intros e. unfold print_error. within_tac;
    apply within_format; intros; within_tac.
Qed.
End effect.

(** ** The bounded buffer *)

Section buffer.
Implicit Types (b : sprintbuf) (m : memory) (out : list Z).

Lemma mget_write_cons m a c l x :
  mget (write_bytes m a (c :: l)) x = mget (write_bytes (put_char m a c) (a + 1) l) x.
Proof.
  rewrite !mget_write_bytes, mget_put_char. cbn [length].
  destruct (decide (a = x)) as [<-|].
  - rewrite decide_True, decide_False, Z.sub_diag by lia. done.
  - destruct (decide (a + 1 <= x < a + 1 + Z.of_nat (length l))).
    + rewrite decide_True by lia.
      replace (Z.to_nat (x - a)) with (S (Z.to_nat (x - (a + 1)))) by lia. done.
    + by rewrite decide_False by lia.
Qed.

Lemma sprintputch_all out b :
  0 <= buf b <= ebuf b → ebuf b < 4294967296 →
  0 <= cnt b → cnt b + Z.of_nat (length out) < 2147483648 →
  let k := (length out `min` Z.to_nat (ebuf b - buf b))%nat in
  ∃ b', for_each out sprintputch b = Done tt b' ∧ buf b' = buf b + Z.of_nat k ∧
    ebuf b' = ebuf b ∧ cnt b' = cnt b + Z.of_nat (length out) ∧
    ∀ a, mget (sp_mem b') a = mget (write_bytes (sp_mem b) (buf b) (take k out)) a.
Proof.
  revert b. induction out as [|c out IH]; intros b ????; cbn [length for_each] in *.
  { exists b. rewrite Nat.min_0_l, !Z.add_0_r. done. }
  unfold sprintputch at 2. rewrite run_modify. cbn [buf ebuf sp_mem cnt].
  rewrite s32_id by lia. destruct (Z.ltb_spec (buf b) (ebuf b)).
  - rewrite u32_id by lia.
    destruct (IH (mkSprintbuf (put_char (sp_mem b) (buf b) c) (buf b + 1) (ebuf b) (cnt b + 1)))
      as (b' & Hb & Hbuf & He & Hc & Hm); cbn [buf ebuf sp_mem cnt] in *; [lia..|].
    exists b'. rewrite Hb, Hbuf, He, Hc. split_and!; [done|lia|done|lia|].
    intros a. rewrite Hm.
    replace (S (length out) `min` Z.to_nat (ebuf b - buf b))%nat
      with (S (length out `min` Z.to_nat (ebuf b - (buf b + 1)))) by lia.
    cbn [take]. by rewrite mget_write_cons.
  - destruct (IH (mkSprintbuf (sp_mem b) (buf b) (ebuf b) (cnt b + 1)))
      as (b' & Hb & Hbuf & He & Hc & Hm); cbn [buf ebuf sp_mem cnt] in *; [lia..|].
    exists b'. rewrite Hb, Hbuf, He, Hc.
    replace (Z.to_nat (ebuf b - buf b)) with O in * by lia. rewrite !Nat.min_0_r in *.
    split_and!; [done..|lia|]. intros a. rewrite Hm. done.
Qed.

(** The bytes that arguments may refer to: all but the buffer. *)
Definition outside m (dst n a : Z) : option Z :=
  if (dst <=? a) && (a <? dst + n) then None else Some (mget m a).

Lemma vsnprintf_run sfuel m dst n fmt ap out :
  0 < dst → 1 <= n → dst + n <= 4294967296 → Z.of_nat (length out) < 2147483648 →
  printed (outside m dst n) sfuel fmt ap = Some out →
  ∃ m', vsnprintf sfuel m dst n fmt ap = Some (Z.of_nat (length out), m') ∧
    ∀ a, mget m' a = mget (write_bytes m dst (take (Z.to_nat (n - 1)) out ++ [0])) a.
Proof.
  intros ???? Hout. unfold vsnprintf.
  rewrite (proj2 (Z.eqb_neq dst 0)), (proj2 (Z.ltb_ge n 1)) by lia. simpl.
  rewrite u32_id by lia.
  pose (I := λ b, ebuf b = dst + n - 1 ∧ dst <= buf b <= ebuf b ∧
    ∀ a, outside m dst n a ≠ None → mget (sp_mem b) a = mget m a).
  destruct (vprintfmt_prints sprintputch sprint_rd BadArgument Endless sfuel I
    (outside m dst n)) with (fmt := fmt) (ap := ap) (out := out)
    (s := mkSprintbuf m dst (dst + n - 1) 0) as (b & -> & Hb & _); [| |done| |].
  - intros c b (He & Hb & Hm). eexists. split; [done|]. subst I. cbn [buf ebuf sp_mem cnt].
    destruct (Z.ltb_spec (buf b) (ebuf b)); cbn [buf ebuf sp_mem]; [|done].
    rewrite u32_id by lia. split_and!; [done|lia|lia|]. intros a Ha.
    rewrite mget_put_char, decide_False; [by apply Hm|]. intros <-. apply Ha. unfold outside.
    rewrite (proj2 (Z.leb_le _ _)), (proj2 (Z.ltb_lt _ _)) by lia. done.
  - intros a c b (_ & _ & Hm) Ha. unfold sprint_rd, gets. rewrite Hm by congruence.
    unfold outside in Ha. case_match; by simplify_eq.
  - subst I. cbn. split_and!; [done|lia|lia|done].
  - destruct (sprintputch_all out (mkSprintbuf m dst (dst + n - 1) 0))
      as (b' & Hb' & Hbuf & _ & Hc & Hm); cbn [buf ebuf sp_mem cnt] in *; [lia..|].
    rewrite Hb in Hb'. injection Hb' as <-. rewrite Hc.
    exists (put_char (sp_mem b) (buf b) 0). split; [done|]. intros a.
    rewrite mget_put_char, Hm, Hbuf.
    replace (dst + n - 1 - dst) with (n - 1) by lia.
    assert (take (length out `min` Z.to_nat (n - 1)) out = take (Z.to_nat (n - 1)) out) as ->.
    { destruct (Nat.min_spec (length out) (Z.to_nat (n - 1))) as [[? ->]|[? ->]]; [|done].
      by rewrite !take_ge by lia. }
    rewrite !mget_write_bytes, length_app, length_take. cbn [length].
    replace (Z.to_nat (n - 1) `min` length out)%nat with (length out `min` Z.to_nat (n - 1))%nat by lia.
    set (k := (length out `min` Z.to_nat (n - 1))%nat).
    destruct (decide (dst + Z.of_nat k = a)) as [<-|].
    + rewrite decide_True by lia. rewrite lookup_app_r by (rewrite length_take; lia).
      rewrite length_take. replace (Z.to_nat (dst + Z.of_nat k - dst) - _)%nat with O by lia. done.
    + destruct (decide (dst <= a < dst + Z.of_nat k)).
      * rewrite decide_True by lia. by rewrite lookup_app_l by (rewrite length_take; lia).
      * by rewrite decide_False by lia.
Qed.
End buffer.

(** C23: snprintf into a buffer of n bytes stores the first n - 1 characters of the
    formatted output and a terminator after them, writes no byte outside the
    buffer, and returns the length of the whole output whether or not it fits;
    the arguments may point to any string outside the buffer. *)
Theorem snprintf_bounded sfuel m dst n fmt ap out :
  0 < dst → 1 <= n → dst + n <= 4294967296 → Z.of_nat (length out) < 2147483648 →
  printed (outside m dst n) sfuel fmt ap = Some out →
  ∃ m', snprintf sfuel m dst n fmt ap = Some (Z.of_nat (length out), m') ∧
    (∀ a, a < dst ∨ dst + n <= a → mget m' a = mget m a) ∧
    ∀ a, mget m' a = mget (write_bytes m dst (take (Z.to_nat (n - 1)) out ++ [0])) a.
Proof.
  intros H1 H2 H3 H4 H5. destruct (vsnprintf_run sfuel m dst n fmt ap out H1 H2 H3 H4 H5) as (m' & Hm & Ha).
  exists m'. split_and!; [exact Hm| |exact Ha]. intros a Hout. rewrite Ha, mget_write_bytes, decide_False; [done|].
  rewrite length_app, length_take. simpl. lia.
Qed.

(** A truncated message with a string read from memory. *)
Lemma snprintf_bounded_witness :
  ∃ m', snprintf 10 ex_strings 256 8 (bytes_of "%s: %05x") [Word 16; Word 255] = Some (10, m') ∧
    ∀ a, mget m' a = mget (write_bytes ex_strings 256 (bytes_of "jos: 00" ++ [0])) a.
Proof.
  destruct (snprintf_bounded 10 ex_strings 256 8 (bytes_of "%s: %05x") [Word 16; Word 255]
    (bytes_of "jos: 000ff")) as (m' & Hm & _ & Ha); [lia..|vm_compute; reflexivity|vm_compute; reflexivity|].
  exists m'. split; [exact Hm|exact Ha].
Defined.

(** ** Numbers *)

(** The numeral of [num], most significant digit first. *)
Fixpoint numeral (fuel : nat) (base num : Z) : list Z :=
  match fuel with
  | O => []
  | S k => (if base <=? num then numeral k base (num / base) else []) ++ [digit_char (num mod base)]
  end.

(** The number a list of digit values denotes. *)
Definition value_of (base : Z) (ds : list Z) : Z := foldl (λ v d, v * base + d) 0 ds.

Section numbers.
Implicit Types (num base : Z).

Lemma for_each_collect l acc : for_each l collect acc = Done tt (acc ++ l).
Proof.
  revert acc. induction l as [|c l IH]; intros acc; simpl; [by rewrite app_nil_r|].
  unfold collect at 2. rewrite run_modify, IH. by rewrite <- app_assoc.
Qed.

Lemma printnum_collect fuel num base w p acc :
  2 <= base → 0 <= num < base ^ Z.of_nat fuel → (0 < fuel)%nat →
  printnum collect Endless fuel num base w p acc =
    Done tt (acc ++ replicate (Z.to_nat (w - Z.of_nat (length (numeral fuel base num)))) p
      ++ numeral fuel base num).
Proof.
  intros Hb. revert num w acc. induction fuel as [|k IH]; intros num w acc Hn Hf; [lia|].
  cbn [printnum numeral]. rewrite length_app. cbn [length].
  assert (∀ l acc, (collect l : comp _ _ _) acc = Done tt (acc ++ [l])) as Hc by done.
  destruct (Z.leb_spec base num) as [Hle|].
  - rewrite Nat2Z.inj_succ, Z.pow_succ_r in Hn by lia.
    assert (0 <= num / base < base ^ Z.of_nat k).
    { split; [apply Z.div_pos; lia|]. apply Z.div_lt_upper_bound; lia. }
    destruct k as [|k'].
    { change (Z.of_nat 0) with 0 in *. rewrite Z.pow_0_r in *. nia. }
    rewrite (bind_Done _ _ _ _ _ (IH _ _ _ ltac:(done) ltac:(lia))), Hc.
    rewrite <- !app_assoc. do 5 f_equal. lia.
  - unfold pad. rewrite (bind_Done _ _ _ _ _ (for_each_collect _ _)), Hc.
    cbn [length app]. rewrite <- app_assoc. do 3 f_equal; f_equal; lia.
Qed.

Lemma numeral_value fuel base num :
  2 <= base <= 16 → 0 <= num < base ^ Z.of_nat fuel → (0 < fuel)%nat →
  ∃ ds, numeral fuel base num = digit_char <$> ds ∧ Forall (λ d, 0 <= d < base) ds ∧
    value_of base ds = num ∧ ds ≠ [] ∧ (length ds <= fuel)%nat.
Proof.
  intros Hb. revert num. induction fuel as [|k IH]; intros num Hn Hf; [lia|]. cbn [numeral].
  pose proof (Z.mod_pos_bound num base ltac:(lia)).
  destruct (Z.leb_spec base num) as [Hle|].
  - rewrite Nat2Z.inj_succ, Z.pow_succ_r in Hn by lia.
    assert (0 <= num / base < base ^ Z.of_nat k).
    { split; [apply Z.div_pos; lia|]. apply Z.div_lt_upper_bound; lia. }
    destruct k as [|k'].
    { change (Z.of_nat 0) with 0 in *. rewrite Z.pow_0_r in *. nia. }
    destruct (IH (num / base)) as (ds & -> & Hd & Hv & _ & Hl); [done|lia|].
    exists (ds ++ [num mod base]). rewrite fmap_app. split_and!; [done| | | |].
    + apply Forall_app. split; [done|]. by constructor.
    + unfold value_of in *. rewrite foldl_app. simpl. rewrite Hv.
      pose proof (Z.div_mod num base). lia.
    + by destruct ds.
    + rewrite length_app. simpl. lia.
  - exists [num mod base]. split_and!; [done|constructor; [done|constructor]| |done|simpl; lia].
    cbn. rewrite Z.mod_small; lia.
Qed.

(** One character of a format, when it is a conversion. *)
Lemma format_escape {S E} putch rd bad spin sfuel k pe fmt i ap (s : S) :
  fmt_at fmt i = 37 →
  @format S E putch rd bad spin sfuel (Datatypes.S k) pe fmt i ap s =
    ('(i, ap) ← escape putch rd bad spin sfuel (length fmt + 2) pe fmt (Datatypes.S i) no_flags ap;
     format putch rd bad spin sfuel k pe fmt i ap) s.
Proof. intros H. cbn [format]. by rewrite H. Qed.
Lemma format_end {S E} putch rd bad spin sfuel k pe fmt i ap (s : S) :
  fmt_at fmt i = 0 →
  @format S E putch rd bad spin sfuel (Datatypes.S k) pe fmt i ap s = Done tt s.
Proof. intros H. cbn [format]. by rewrite H. Qed.
(** The conversion [%d] without flags. *)
Lemma escape_d {S E} putch rd bad spin sfuel k pe fmt i f x ap (s : S) :
  fmt_at fmt i = 100 → lflag f = 0 →
  @escape S E putch rd bad spin sfuel (Datatypes.S k) pe fmt i f (Word x :: ap) s =
    ((if s32 (u32 x) <? 0 then putch 45 else mret tt) ;;
     printnum putch spin 64 (Z.abs (s32 (u32 x))) 10 (width f) (padc f) ;; mret (Datatypes.S i, ap)) s.
Proof. intros H Hl. cbn [escape]. rewrite H, Hl. done. Qed.

(** The flags of [%.*s]. *)
Lemma escape_dot {S E} putch rd bad spin sfuel k pe fmt i f ap (s : S) :
  fmt_at fmt i = 46 →
  @escape S E putch rd bad spin sfuel (Datatypes.S k) pe fmt i f ap s =
    escape putch rd bad spin sfuel k pe fmt (Datatypes.S i)
      (if width f <? 0 then set_width 0 f else f) ap s.
Proof. intros H. cbn [escape]. by rewrite H. Qed.
Lemma escape_star {S E} putch rd bad spin sfuel k pe fmt i f w ap (s : S) :
  fmt_at fmt i = 42 →
  @escape S E putch rd bad spin sfuel (Datatypes.S k) pe fmt i f (Word w :: ap) s =
    escape putch rd bad spin sfuel k pe fmt (Datatypes.S i)
      (process_precision (set_precision (s32 (u32 w)) f)) ap s.
Proof. intros H. cbn [escape]. by rewrite H. Qed.
Lemma escape_s {S E} putch rd bad spin sfuel k pe fmt i f p ap (s : S) :
  fmt_at fmt i = 115 →
  @escape S E putch rd bad spin sfuel (Datatypes.S k) pe fmt i f (p :: ap) s =
    (print_string putch rd spin sfuel f p ;; mret (Datatypes.S i, ap)) s.
Proof. intros H. cbn [escape]. by rewrite H. Qed.

Lemma str_put_S {S E} putch rd spin k p prec w alt (s : S) :
  @str_put S E putch rd spin (Datatypes.S k) p prec w alt s =
    (ch ← str_char rd p;
     if ch =? 0 then mret w else
     let prec' := if prec <? 0 then prec else prec - 1 in
     if negb (prec <? 0) && (prec' <? 0) then mret w else
     (if alt && ((ch <? 32) || (126 <? ch)) then putch 63 else putch ch) ;;
     str_put putch rd spin k (str_next p) prec' (w - 1) alt) s.
Proof. done. Qed.

(** [%.*s] prints the string of its second argument. *)
Lemma format_prec_string {S E} putch rd bad spin sfuel pe len a (s : S) :
  0 <= len < 2147483648 → a ≠ 0 →
  @format S E putch rd bad spin sfuel 5 pe (bytes_of "%.*s") 0 [Word len; Word a] s =
    (str_put putch rd spin sfuel (Word a) len 0 false ≫= λ width, pad putch 32 width) s.
Proof.
  intros Hl Ha. change (bytes_of "%.*s") with [37; 46; 42; 115].
  rewrite format_escape by done. change (length [37; 46; 42; 115]%Z + 2)%nat with 6%nat.
  set (k := format _ _ _ _ _ 4 _ _ : nat → list arg → comp S E unit).
  assert (∀ s, escape putch rd bad spin sfuel 6 pe [37; 46; 42; 115] 1 no_flags [Word len; Word a] s =
    ((str_put putch rd spin sfuel (Word a) len 0 false ≫= λ width, pad putch 32 width) ;;
     mret (4%nat, [])) s) as He.
  { intros s'. rewrite escape_dot, escape_star, escape_s by done.
    replace (s32 (u32 len)) with len by (unfold s32, u32; zlia).
    unfold print_string, process_precision. simpl.
    rewrite bool_decide_false by congruence. done. }
  assert (∀ s, k 4%nat [] s = Done tt s) as Hk by (intros; by apply format_end).
  unfold mbind at 1, comp_bind at 1. rewrite He.
  destruct ((str_put putch rd spin sfuel (Word a) len 0 false ≫= _) s) as [[] s'|ex s'] eqn:Er.
  - rewrite (bind_Done _ _ _ _ _ Er). simpl. apply Hk.
  - by rewrite (bind_Exit _ _ _ _ _ Er).
Qed.

Lemma printed_d str sfuel x :
  -2147483648 <= x < 2147483648 →
  printed str sfuel (bytes_of "%d") [Word x] =
    Some ((if x <? 0 then [45] else []) ++ numeral 64 10 (Z.abs x)).
Proof.
  intros Hx. assert (0 <= Z.abs x < 10 ^ Z.of_nat 64).
  { split; [lia|]. transitivity (2 ^ 32); [lia|done]. }
  unfold printed, vprintfmt. change (bytes_of "%d") with [37; 100].
  change (length [37%Z; 100%Z] + 1)%nat with 3%nat.
  rewrite format_escape by done. change (length [37%Z; 100%Z] + 2)%nat with 4%nat.
  assert (s32 (u32 x) = x) as Hw by (unfold s32, u32; zlia).
  set (out := (if x <? 0 then [45] else []) ++ _).
  rewrite (bind_Done _ _ _ (2%nat, []) out); [by rewrite format_end|].
  rewrite escape_d, Hw by done. unfold out. destruct (Z.ltb_spec x 0).
  - rewrite (bind_Done (collect 45) _ [] tt [45] eq_refl).
    rewrite (bind_Done _ _ _ tt ([] ++ [45] ++ numeral 64 10 (Z.abs x))); [done|].
    rewrite printnum_collect by lia. cbn [width no_flags]. by replace (Z.to_nat _) with O by lia.
  - rewrite run_ret. rewrite (bind_Done _ _ _ tt (numeral 64 10 (Z.abs x))); [done|].
    rewrite printnum_collect by lia. cbn [width no_flags]. by replace (Z.to_nat _) with O by lia.
Qed.
End numbers.

(** ** Reading printed numbers back *)

Section read_back.
Implicit Types (m : memory) (l ds : list Z).

Lemma numeral_fuel k fuel base num :
  2 <= base → 0 <= num < base ^ Z.of_nat k → (0 < k <= fuel)%nat →
  numeral fuel base num = numeral k base num.
Proof.
  intros Hb. revert fuel num. induction k as [|k IH]; intros [|fuel] num Hn Hk; try lia.
  cbn [numeral]. destruct (Z.leb_spec base num); [|done].
  rewrite Nat2Z.inj_succ, Z.pow_succ_r in Hn by lia.
  assert (0 <= num / base < base ^ Z.of_nat k).
  { split; [apply Z.div_pos; lia|]. apply Z.div_lt_upper_bound; lia. }
  destruct k as [|k'].
  { change (Z.of_nat 0) with 0 in *. rewrite Z.pow_0_r in *. nia. }
  by rewrite IH by lia.
Qed.

Lemma cstr_written m m' s l :
  Forall (λ b, 0 < b < 256) l → 0 <= s → s + Z.of_nat (length l) < 4294967296 →
  (∀ a, mget m' a = mget (write_bytes m s (l ++ [0])) a) → cstr m' s l.
Proof.
  intros Hl ?? Hm. apply cstr_intro; [done..| |].
  - rewrite Hm, mget_write_bytes, length_app, decide_True by (simpl; lia).
    rewrite lookup_app_r by lia. by replace (Z.to_nat _ - length l)%nat with O by lia.
  - intros i b Hi. pose proof (lookup_lt_Some _ _ _ Hi).
    rewrite Hm, mget_write_bytes, length_app, decide_True by (simpl; lia).
    replace (Z.to_nat _) with i by lia. rewrite lookup_app_l, Hi by lia. simpl.
    pose proof (Forall_lookup_1 _ _ _ _ Hl Hi). rewrite u8_id; simpl in *; lia.
Qed.

Lemma digit_read d : 0 <= d < 16 → digit_of (s8 (digit_char d)) = Some d.
Proof. revert d. by_compute. Qed.
Lemma digit_char_byte d : 0 <= d < 16 → 48 <= digit_char d < 103.
Proof. revert d. by_compute. Qed.

Lemma s32_step a base d : s32 (s32 (s32 a * base) + d) = s32 (a * base + d).
Proof.
  unfold s32. set (M := 2 ^ 32). set (h := 2 ^ 31).
  assert (∀ x, ∃ k, (x + h) mod M - h = x + k * M) as Hmod.
  { intros x. exists (- ((x + h) / M)). pose proof (Z.div_mod (x + h) M). lia. }
  f_equal. destruct (Hmod a) as [k1 ->]. destruct (Hmod ((a + k1 * M) * base)) as [k2 ->].
  replace ((a + k1 * M) * base + k2 * M + d + h) with (a * base + d + h + (k1 * base + k2) * M) by ring.
  apply Z.mod_add. done.
Qed.

Lemma digits_run base m s ds V fuel :
  2 <= base <= 16 → Forall (λ d, 0 <= d < base) ds → cstr m s (digit_char <$> ds) →
  (length ds < fuel)%nat →
  digits fuel m base s (s32 V) =
    Some (s + Z.of_nat (length ds), s32 (foldl (λ v d, v * base + d) V ds)).
Proof.
  intros Hb Hds. revert s V fuel. induction Hds as [|d ds Hd _ IH]; intros s V [|fuel] Hs Hf;
    try (simpl in Hf; lia); cbn [digits length] in *; unfold char_at.
  { destruct Hs as [-> _]. change (digit_of (s8 0)) with (@None Z). rewrite Z.add_0_r. done. }
  cbn [fmap list_fmap] in Hs. rewrite (cstr_next _ _ _ _ Hs). destruct Hs as (-> & _ & _ & Hs).
  rewrite digit_read, (proj2 (Z.leb_gt base d)) by lia.
  rewrite s32_step, (IH (s + 1)) by (done || lia). cbn [foldl]. do 2 f_equal. lia.
Qed.

Lemma s32_neg_s32 x : s32 (- s32 x) = s32 (- x).
Proof. unfold s32. zlia. Qed.

(** [strtol] on an optional minus sign and a numeral. *)
Lemma strtol_run m s ds (neg : bool) fuel :
  Forall (λ d, 0 <= d < 10) ds → ds ≠ [] → (S (length ds) < fuel)%nat →
  cstr m s ((if neg then [45] else []) ++ (digit_char <$> ds)) →
  strtol fuel m s 10 =
    Some (s32 (if neg then - value_of 10 ds else value_of 10 ds),
          s + Z.of_nat (length ((if neg then [45] else []) ++ ds))).
Proof.
  intros Hds Hne Hf Hs. unfold strtol.
  assert (∀ c, mget m s = c → c ≠ 32 → c ≠ 9 → 0 < c < 128 → skip_blanks fuel m s = Some s ∧ char_at m s = c)
    as Hskip.
  { intros c Hc ???. assert (char_at m s = c) as Hch by (unfold char_at, s8; rewrite Hc; zlia).
    split; [|done]. destruct fuel as [|k]; [lia|]. cbn [skip_blanks]. rewrite Hch.
    by rewrite (proj2 (Z.eqb_neq c 32)), (proj2 (Z.eqb_neq c 9)). }
  destruct neg; cbn [app] in Hs.
  - pose proof (cstr_next _ _ _ _ Hs) as Hn. destruct Hs as (Hc & _ & _ & Hs).
    destruct (Hskip 45 Hc) as [-> Hch]; [lia..|]. cbn [mbind option_bind]. rewrite Hch. simpl.
    rewrite Hn. change 0 with (s32 0) at 1. rewrite (digits_run 10 m (s + 1) ds) by (done || lia).
    cbn [mbind option_bind]. unfold value_of. rewrite s32_neg_s32. do 2 f_equal. simpl. lia.
  - destruct ds as [|d ds]; [done|]. inversion Hds as [|?? Hd Hds' ]; subst.
    pose proof Hs as (Hc & _). pose proof (digit_char_byte d ltac:(lia)).
    destruct (Hskip (digit_char d) Hc) as [-> Hch]; [lia..|].
    cbn [mbind option_bind]. rewrite Hch.
    rewrite (proj2 (Z.eqb_neq _ 43)), (proj2 (Z.eqb_neq _ 45)) by lia. simpl.
    change 0 with (s32 0) at 1. rewrite (digits_run 10 m s (d :: ds)) by (done || simpl in *; lia).
    done.
Qed.
End read_back.

(** C35: a number printed with snprintf "%d" into a buffer of at least twelve bytes
    and read with strtol in base 10 gives back the same number, for every int
    (INT_MIN included), and strtol stops at the end of the numeral. *)
Theorem strtol_snprintf_roundtrip sfuel fuel m dst n x :
  0 < dst → 12 <= n → dst + n <= 4294967296 → -2147483648 <= x < 2147483648 → (12 < fuel)%nat →
  ∃ r m', snprintf sfuel m dst n (bytes_of "%d") [Word x] = Some (r, m') ∧
    strtol fuel m' dst 10 = Some (x, dst + r).
Proof.
  intros ??? Hx ?. assert (0 <= Z.abs x < 10 ^ Z.of_nat 10) as Habs.
  { split; [lia|]. transitivity (2 ^ 32); [lia|done]. }
  destruct (numeral_value 10 10 (Z.abs x)) as (ds & Hnum & Hds & Hv & Hne & Hlen); [lia..|].
  set (out := (if x <? 0 then [45] else []) ++ (digit_char <$> ds)).
  assert (length out = length ((if x <? 0 then [45] else []) ++ ds)) as Hl.
  { unfold out. by rewrite !length_app, length_fmap. }
  assert (length out <= 11)%nat by (rewrite Hl, length_app; destruct (x <? 0); simpl; lia).
  destruct (vsnprintf_run sfuel m dst n (bytes_of "%d") [Word x] out) as (m' & Hm & Ha); [lia..| |].
  { rewrite printed_d, (numeral_fuel 10) by lia. by rewrite Hnum. }
  exists (Z.of_nat (length out)), m'. split; [exact Hm|].
  rewrite take_ge in Ha by lia.
  rewrite (strtol_run m' dst ds (x <? 0)); [|done..|lia|].
  - rewrite Hv, Hl. f_equal. f_equal. rewrite s32_id; destruct (Z.ltb_spec x 0); lia.
  - apply (cstr_written m); [|lia|unfold out in *; lia|done].
    apply Forall_app. split; [destruct (x <? 0); [by repeat constructor|constructor]|].
    apply Forall_fmap. eapply Forall_impl; [done|]. intros d Hd. cbn in Hd |- *.
    pose proof (digit_char_byte d ltac:(lia)). lia.
Qed.

Lemma strtol_snprintf_roundtrip_witness :
  ∃ r m', snprintf 0 ∅ 512 16 (bytes_of "%d") [Word (-2147483648)] = Some (r, m') ∧
    strtol 13 m' 512 10 = Some (-2147483648, 512 + r).
Proof. apply (strtol_snprintf_roundtrip 0 13 ∅ 512 16 (-2147483648)); lia. Defined.
