(* ===== verification/Machine.v ===== *)
(** * The machine and the kernel's global state

    The constants of inc/mmu.h, inc/memlayout.h, inc/trap.h, inc/env.h,
    inc/error.h and inc/syscall.h, the C structures of those headers and of
    kern/cpu.h and kern/spinlock.h, and the global variables of the kernel as one
    record [kstate].  A pointer into one of the kernel's arrays ([pages], [envs],
    [cpus]) is the index it designates, [None] being the null pointer; every
    other pointer is the 32-bit number the code computes with. *)

From S2P Require Import Prelude Devices.
From stdpp Require Import base numbers list gmap fin_maps strings.

Local Open Scope Z_scope.

(** ** inc/mmu.h: paging constants and address arithmetic *)

Definition PGSIZE : Z := 4096.
Definition PGSHIFT : Z := 12.
Definition NPDENTRIES : Z := 1024.
Definition NPTENTRIES : Z := 1024.
Definition PTSIZE : Z := PGSIZE * NPTENTRIES.
Definition PTXSHIFT : Z := 12.
Definition PDXSHIFT : Z := 22.

Definition PGNUM (la : Z) : Z := Z.shiftr la PTXSHIFT.
Definition PDX (la : Z) : Z := Z.land (Z.shiftr la PDXSHIFT) 0x3FF.
Definition PTX (la : Z) : Z := Z.land (Z.shiftr la PTXSHIFT) 0x3FF.
Definition PGOFF (la : Z) : Z := Z.land la 0xFFF.
Definition PGADDR (d t o : Z) : Z :=
  u32 (Z.lor (Z.lor (Z.shiftl d PDXSHIFT) (Z.shiftl t PTXSHIFT)) o).

Definition PTE_P : Z := 0x001.
Definition PTE_W : Z := 0x002.
Definition PTE_U : Z := 0x004.
Definition PTE_AVAIL : Z := 0xE00.
Definition PTE_SYSCALL : Z := Z.lor (Z.lor (Z.lor PTE_AVAIL PTE_P) PTE_W) PTE_U.

(** [(physaddr_t) (pte) & ~0xFFF] *)
Definition PTE_ADDR (pte : Z) : Z := Z.land (u32 pte) 0xFFFFF000.

Definition FL_IF : Z := 0x00000200.

(** inc/types.h: rounding. *)
Definition ROUNDDOWN (a n : Z) : Z := u32 a - u32 a mod n.
Definition ROUNDUP (a n : Z) : Z := ROUNDDOWN (u32 (a + n - 1)) n.

(** ** inc/memlayout.h *)

Definition GD_KT : Z := 0x08.
Definition GD_KD : Z := 0x10.
Definition GD_UT : Z := 0x18.
Definition GD_UD : Z := 0x20.
Definition GD_TSS0 : Z := 0x28.

Definition KERNBASE : Z := 0xF0000000.
Definition IOPHYSMEM : Z := 0x0A0000.
Definition EXTPHYSMEM : Z := 0x100000.
Definition KSTACKTOP : Z := KERNBASE - PTSIZE.
Definition KSTKSIZE : Z := 8 * PGSIZE.
Definition KSTKGAP : Z := 8 * PGSIZE.
Definition ULIM : Z := KSTACKTOP - PTSIZE.
Definition UVPT : Z := ULIM - PTSIZE.
Definition UPAGES : Z := UVPT - PTSIZE.
Definition UENVS : Z := UPAGES - PTSIZE.
Definition UTOP : Z := UENVS.
Definition UXSTACKTOP : Z := UTOP.
Definition UXSTACKBASE : Z := UTOP - PGSIZE.
Definition IPC_NO_PAGE : Z := 0xaabbccdd.
Definition USTACKTOP : Z := UTOP - 2 * PGSIZE.
Definition MPENTRY_PADDR : Z := 0x7000.
Definition IOMEM_PADDR : Z := 0xfe000000.
Definition IOMEMBASE : Z := 0xfe000000.

(** ** inc/env.h, inc/error.h, inc/trap.h, inc/syscall.h, kern/cpu.h, kern/pmap.h *)

Definition LOG2NENV : Z := 10.
Definition NENV : Z := 1024.
Definition ENVX (envid : Z) : Z := Z.land envid (NENV - 1).

Definition ENV_FREE : Z := 0.
Definition ENV_DYING : Z := 1.
Definition ENV_RUNNABLE : Z := 2.
Definition ENV_RUNNING : Z := 3.
Definition ENV_NOT_RUNNABLE : Z := 4.

Definition E_UNSPECIFIED : Z := 1.
Definition E_BAD_ENV : Z := 2.
Definition E_INVAL : Z := 3.
Definition E_NO_MEM : Z := 4.
Definition E_NO_FREE_ENV : Z := 5.
Definition E_FAULT : Z := 6.
Definition E_IPC_NOT_RECV : Z := 7.

Definition NCPU : Z := 8.
Definition ALLOC_ZERO : Z := 1.
Definition SIZEOF_PAGE : Z := 12.
Definition SIZEOF_ENV : Z := 124.

(** Unfolds every layout constant, so that [lia] sees literals. *)
Ltac unfold_layout :=
  unfold UXSTACKBASE, UXSTACKTOP, USTACKTOP, UTOP, UENVS, UPAGES, UVPT, ULIM,
    KSTACKTOP, KSTKSIZE, KSTKGAP, KERNBASE, PTSIZE, PGSIZE, NPTENTRIES, NPDENTRIES,
    IOPHYSMEM, EXTPHYSMEM, MPENTRY_PADDR, IOMEMBASE, NENV in *.

Lemma PGNUM_div la : PGNUM la = la / 4096.
Proof. unfold PGNUM, PTXSHIFT. by rewrite Z.shiftr_div_pow2 by lia. Qed.

Lemma PDX_div la : PDX la = la / 4194304 mod 1024.
Proof. unfold PDX, PDXSHIFT. by rewrite Z.shiftr_div_pow2, land_3ff by lia. Qed.

Lemma PTX_div la : PTX la = la / 4096 mod 1024.
Proof. unfold PTX, PTXSHIFT. by rewrite Z.shiftr_div_pow2, land_3ff by lia. Qed.

Lemma PDX_range la : 0 <= PDX la < 1024.
Proof. rewrite PDX_div. apply Z.mod_pos_bound. lia. Qed.

Lemma PTX_range la : 0 <= PTX la < 1024.
Proof. rewrite PTX_div. apply Z.mod_pos_bound. lia. Qed.

Lemma PGNUM_split la : 0 <= la < 4294967296 → PGNUM la = PDX la * 1024 + PTX la.
Proof. intros. rewrite PGNUM_div, PDX_div, PTX_div. Z.div_mod_to_equations. lia. Qed.

Lemma PTE_ADDR_div x : 0 <= x < 4294967296 → PTE_ADDR x = PGNUM x * 4096.
Proof.
  intros. unfold PTE_ADDR. rewrite u32_id, land_page_mask by lia. by rewrite PGNUM_div.
Qed.

#[export] Hint Resolve PDX_range PTX_range : jos.
#[global] Arguments PGNUM : simpl never.
#[global] Arguments PDX : simpl never.
#[global] Arguments PTX : simpl never.
#[global] Arguments PGADDR : simpl never.
#[global] Arguments PTE_ADDR : simpl never.
#[global] Arguments ROUNDDOWN : simpl never.
#[global] Arguments ROUNDUP : simpl never.
#[global] Arguments ENVX : simpl never.

(** ** inc/trap.h: saved registers *)

(** [struct PushRegs] *)
Record PushRegs : Type := mkPushRegs {
  reg_edi : Z;
  reg_esi : Z;
  reg_ebp : Z;
  reg_oesp : Z;
  reg_ebx : Z;
  reg_edx : Z;
  reg_ecx : Z;
  reg_eax : Z
}.

Definition set_reg_edi (v : Z) (r : PushRegs) : PushRegs :=
  mkPushRegs v (reg_esi r) (reg_ebp r) (reg_oesp r) (reg_ebx r) (reg_edx r) (reg_ecx r)
    (reg_eax r).
Definition set_reg_esi (v : Z) (r : PushRegs) : PushRegs :=
  mkPushRegs (reg_edi r) v (reg_ebp r) (reg_oesp r) (reg_ebx r) (reg_edx r) (reg_ecx r)
    (reg_eax r).
Definition set_reg_ebp (v : Z) (r : PushRegs) : PushRegs :=
  mkPushRegs (reg_edi r) (reg_esi r) v (reg_oesp r) (reg_ebx r) (reg_edx r) (reg_ecx r)
    (reg_eax r).
Definition set_reg_oesp (v : Z) (r : PushRegs) : PushRegs :=
  mkPushRegs (reg_edi r) (reg_esi r) (reg_ebp r) v (reg_ebx r) (reg_edx r) (reg_ecx r)
    (reg_eax r).
Definition set_reg_ebx (v : Z) (r : PushRegs) : PushRegs :=
  mkPushRegs (reg_edi r) (reg_esi r) (reg_ebp r) (reg_oesp r) v (reg_edx r) (reg_ecx r)
    (reg_eax r).
Definition set_reg_edx (v : Z) (r : PushRegs) : PushRegs :=
  mkPushRegs (reg_edi r) (reg_esi r) (reg_ebp r) (reg_oesp r) (reg_ebx r) v (reg_ecx r)
    (reg_eax r).
Definition set_reg_ecx (v : Z) (r : PushRegs) : PushRegs :=
  mkPushRegs (reg_edi r) (reg_esi r) (reg_ebp r) (reg_oesp r) (reg_ebx r) (reg_edx r) v
    (reg_eax r).
Definition set_reg_eax (v : Z) (r : PushRegs) : PushRegs :=
  mkPushRegs (reg_edi r) (reg_esi r) (reg_ebp r) (reg_oesp r) (reg_ebx r) (reg_edx r)
    (reg_ecx r) v.

(** [struct Trapframe]; the padding fields are left out *)
Record Trapframe : Type := mkTrapframe {
  tf_regs : PushRegs;
  tf_es : Z;
  tf_ds : Z;
  tf_trapno : Z;
  tf_err : Z;
  tf_eip : Z;
  tf_cs : Z;
  tf_eflags : Z;
  tf_esp : Z;
  tf_ss : Z
}.

Definition set_tf_regs (v : PushRegs) (t : Trapframe) : Trapframe :=
  mkTrapframe v (tf_es t) (tf_ds t) (tf_trapno t) (tf_err t) (tf_eip t) (tf_cs t)
    (tf_eflags t) (tf_esp t) (tf_ss t).
Definition set_tf_es (v : Z) (t : Trapframe) : Trapframe :=
  mkTrapframe (tf_regs t) v (tf_ds t) (tf_trapno t) (tf_err t) (tf_eip t) (tf_cs t)
    (tf_eflags t) (tf_esp t) (tf_ss t).
Definition set_tf_ds (v : Z) (t : Trapframe) : Trapframe :=
  mkTrapframe (tf_regs t) (tf_es t) v (tf_trapno t) (tf_err t) (tf_eip t) (tf_cs t)
    (tf_eflags t) (tf_esp t) (tf_ss t).
Definition set_tf_trapno (v : Z) (t : Trapframe) : Trapframe :=
  mkTrapframe (tf_regs t) (tf_es t) (tf_ds t) v (tf_err t) (tf_eip t) (tf_cs t)
    (tf_eflags t) (tf_esp t) (tf_ss t).
Definition set_tf_err (v : Z) (t : Trapframe) : Trapframe :=
  mkTrapframe (tf_regs t) (tf_es t) (tf_ds t) (tf_trapno t) v (tf_eip t) (tf_cs t)
    (tf_eflags t) (tf_esp t) (tf_ss t).
Definition set_tf_eip (v : Z) (t : Trapframe) : Trapframe :=
  mkTrapframe (tf_regs t) (tf_es t) (tf_ds t) (tf_trapno t) (tf_err t) v (tf_cs t)
    (tf_eflags t) (tf_esp t) (tf_ss t).
Definition set_tf_cs (v : Z) (t : Trapframe) : Trapframe :=
  mkTrapframe (tf_regs t) (tf_es t) (tf_ds t) (tf_trapno t) (tf_err t) (tf_eip t) v
    (tf_eflags t) (tf_esp t) (tf_ss t).
Definition set_tf_eflags (v : Z) (t : Trapframe) : Trapframe :=
  mkTrapframe (tf_regs t) (tf_es t) (tf_ds t) (tf_trapno t) (tf_err t) (tf_eip t) (tf_cs
    t) v (tf_esp t) (tf_ss t).
Definition set_tf_esp (v : Z) (t : Trapframe) : Trapframe :=
  mkTrapframe (tf_regs t) (tf_es t) (tf_ds t) (tf_trapno t) (tf_err t) (tf_eip t) (tf_cs
    t) (tf_eflags t) v (tf_ss t).
Definition set_tf_ss (v : Z) (t : Trapframe) : Trapframe :=
  mkTrapframe (tf_regs t) (tf_es t) (tf_ds t) (tf_trapno t) (tf_err t) (tf_eip t) (tf_cs
    t) (tf_eflags t) (tf_esp t) v.

Definition zero_regs : PushRegs := mkPushRegs 0 0 0 0 0 0 0 0.
Definition zero_tf : Trapframe := mkTrapframe zero_regs 0 0 0 0 0 0 0 0 0.

(** ** inc/env.h *)

Inductive EnvType : Type := ENV_TYPE_USER | ENV_TYPE_IDLE.

#[export] Instance EnvType_eq_dec : EqDecision EnvType.
Proof. solve_decision. Defined.

(** [struct Env] *)
Record Env : Type := mkEnv {
  env_tf : Trapframe;
  env_link : option Z;  (** next free [Env] *)
  env_id : Z;
  env_parent_id : Z;
  env_type : EnvType;
  env_status : Z;
  env_runs : Z;
  env_cpunum : Z;
  env_pgdir : Z;  (** kernel virtual address of the page directory *)
  env_pgfault_upcall : Z;
  env_ipc_recving : bool;
  env_ipc_dstva : Z;
  env_ipc_value : Z;
  env_ipc_from : Z;
  env_ipc_perm : Z
}.

Definition set_env_tf (v : Trapframe) (e : Env) : Env :=
  mkEnv v (env_link e) (env_id e) (env_parent_id e) (env_type e) (env_status e)
    (env_runs e) (env_cpunum e) (env_pgdir e) (env_pgfault_upcall e) (env_ipc_recving e)
    (env_ipc_dstva e) (env_ipc_value e) (env_ipc_from e) (env_ipc_perm e).
Definition set_env_link (v : option Z) (e : Env) : Env :=
  mkEnv (env_tf e) v (env_id e) (env_parent_id e) (env_type e) (env_status e) (env_runs
    e) (env_cpunum e) (env_pgdir e) (env_pgfault_upcall e) (env_ipc_recving e)
    (env_ipc_dstva e) (env_ipc_value e) (env_ipc_from e) (env_ipc_perm e).
Definition set_env_id (v : Z) (e : Env) : Env :=
  mkEnv (env_tf e) (env_link e) v (env_parent_id e) (env_type e) (env_status e)
    (env_runs e) (env_cpunum e) (env_pgdir e) (env_pgfault_upcall e) (env_ipc_recving e)
    (env_ipc_dstva e) (env_ipc_value e) (env_ipc_from e) (env_ipc_perm e).
Definition set_env_parent_id (v : Z) (e : Env) : Env :=
  mkEnv (env_tf e) (env_link e) (env_id e) v (env_type e) (env_status e) (env_runs e)
    (env_cpunum e) (env_pgdir e) (env_pgfault_upcall e) (env_ipc_recving e)
    (env_ipc_dstva e) (env_ipc_value e) (env_ipc_from e) (env_ipc_perm e).
Definition set_env_type (v : EnvType) (e : Env) : Env :=
  mkEnv (env_tf e) (env_link e) (env_id e) (env_parent_id e) v (env_status e) (env_runs
    e) (env_cpunum e) (env_pgdir e) (env_pgfault_upcall e) (env_ipc_recving e)
    (env_ipc_dstva e) (env_ipc_value e) (env_ipc_from e) (env_ipc_perm e).
Definition set_env_status (v : Z) (e : Env) : Env :=
  mkEnv (env_tf e) (env_link e) (env_id e) (env_parent_id e) (env_type e) v (env_runs e)
    (env_cpunum e) (env_pgdir e) (env_pgfault_upcall e) (env_ipc_recving e)
    (env_ipc_dstva e) (env_ipc_value e) (env_ipc_from e) (env_ipc_perm e).
Definition set_env_runs (v : Z) (e : Env) : Env :=
  mkEnv (env_tf e) (env_link e) (env_id e) (env_parent_id e) (env_type e) (env_status e)
    v (env_cpunum e) (env_pgdir e) (env_pgfault_upcall e) (env_ipc_recving e)
    (env_ipc_dstva e) (env_ipc_value e) (env_ipc_from e) (env_ipc_perm e).
Definition set_env_cpunum (v : Z) (e : Env) : Env :=
  mkEnv (env_tf e) (env_link e) (env_id e) (env_parent_id e) (env_type e) (env_status e)
    (env_runs e) v (env_pgdir e) (env_pgfault_upcall e) (env_ipc_recving e)
    (env_ipc_dstva e) (env_ipc_value e) (env_ipc_from e) (env_ipc_perm e).
Definition set_env_pgdir (v : Z) (e : Env) : Env :=
  mkEnv (env_tf e) (env_link e) (env_id e) (env_parent_id e) (env_type e) (env_status e)
    (env_runs e) (env_cpunum e) v (env_pgfault_upcall e) (env_ipc_recving e)
    (env_ipc_dstva e) (env_ipc_value e) (env_ipc_from e) (env_ipc_perm e).
Definition set_env_pgfault_upcall (v : Z) (e : Env) : Env :=
  mkEnv (env_tf e) (env_link e) (env_id e) (env_parent_id e) (env_type e) (env_status e)
    (env_runs e) (env_cpunum e) (env_pgdir e) v (env_ipc_recving e) (env_ipc_dstva e)
    (env_ipc_value e) (env_ipc_from e) (env_ipc_perm e).
Definition set_env_ipc_recving (v : bool) (e : Env) : Env :=
  mkEnv (env_tf e) (env_link e) (env_id e) (env_parent_id e) (env_type e) (env_status e)
    (env_runs e) (env_cpunum e) (env_pgdir e) (env_pgfault_upcall e) v (env_ipc_dstva e)
    (env_ipc_value e) (env_ipc_from e) (env_ipc_perm e).
Definition set_env_ipc_dstva (v : Z) (e : Env) : Env :=
  mkEnv (env_tf e) (env_link e) (env_id e) (env_parent_id e) (env_type e) (env_status e)
    (env_runs e) (env_cpunum e) (env_pgdir e) (env_pgfault_upcall e) (env_ipc_recving e)
    v (env_ipc_value e) (env_ipc_from e) (env_ipc_perm e).
Definition set_env_ipc_value (v : Z) (e : Env) : Env :=
  mkEnv (env_tf e) (env_link e) (env_id e) (env_parent_id e) (env_type e) (env_status e)
    (env_runs e) (env_cpunum e) (env_pgdir e) (env_pgfault_upcall e) (env_ipc_recving e)
    (env_ipc_dstva e) v (env_ipc_from e) (env_ipc_perm e).
Definition set_env_ipc_from (v : Z) (e : Env) : Env :=
  mkEnv (env_tf e) (env_link e) (env_id e) (env_parent_id e) (env_type e) (env_status e)
    (env_runs e) (env_cpunum e) (env_pgdir e) (env_pgfault_upcall e) (env_ipc_recving e)
    (env_ipc_dstva e) (env_ipc_value e) v (env_ipc_perm e).
Definition set_env_ipc_perm (v : Z) (e : Env) : Env :=
  mkEnv (env_tf e) (env_link e) (env_id e) (env_parent_id e) (env_type e) (env_status e)
    (env_runs e) (env_cpunum e) (env_pgdir e) (env_pgfault_upcall e) (env_ipc_recving e)
    (env_ipc_dstva e) (env_ipc_value e) (env_ipc_from e) v.

(** An [Env] with every byte zero. *)
Definition zero_env : Env :=
  mkEnv zero_tf None 0 0 ENV_TYPE_USER 0 0 0 0 0 false 0 0 0 0.

(** ** inc/memlayout.h: [struct Page]; kern/cpu.h; kern/spinlock.h *)

(** [struct Page] *)
Record Page : Type := mkPage {
  pp_link : option Z;  (** next page of the free list *)
  paddr : Z;
  pp_ref : Z  (** [uint16_t] *)
}.

Definition set_pp_link (v : option Z) (p : Page) : Page :=
  mkPage v (paddr p) (pp_ref p).
Definition set_paddr (v : Z) (p : Page) : Page :=
  mkPage (pp_link p) v (pp_ref p).
Definition set_pp_ref (v : Z) (p : Page) : Page :=
  mkPage (pp_link p) (paddr p) v.

(** [struct Cpu]; of its task state segment the fields the kernel sets *)
Record Cpu : Type := mkCpu {
  cpu_id : Z;
  cpu_status : Z;
  cpu_env : option Z;
  ts_esp0 : Z;  (** [cpu_ts.ts_esp0] *)
  ts_ss0 : Z  (** [cpu_ts.ts_ss0] *)
}.

Definition set_cpu_id (v : Z) (c : Cpu) : Cpu :=
  mkCpu v (cpu_status c) (cpu_env c) (ts_esp0 c) (ts_ss0 c).
Definition set_cpu_status (v : Z) (c : Cpu) : Cpu :=
  mkCpu (cpu_id c) v (cpu_env c) (ts_esp0 c) (ts_ss0 c).
Definition set_cpu_env (v : option Z) (c : Cpu) : Cpu :=
  mkCpu (cpu_id c) (cpu_status c) v (ts_esp0 c) (ts_ss0 c).
Definition set_ts_esp0 (v : Z) (c : Cpu) : Cpu :=
  mkCpu (cpu_id c) (cpu_status c) (cpu_env c) v (ts_ss0 c).
Definition set_ts_ss0 (v : Z) (c : Cpu) : Cpu :=
  mkCpu (cpu_id c) (cpu_status c) (cpu_env c) (ts_esp0 c) v.

(** [struct Gatedesc] of inc/mmu.h *)
Record Gatedesc : Type := mkGatedesc {
  gd_off_15_0 : Z;
  gd_sel : Z;
  gd_args : Z;
  gd_rsv1 : Z;
  gd_type : Z;
  gd_s : Z;
  gd_dpl : Z;
  gd_p : Z;
  gd_off_31_16 : Z
}.

Definition set_gd_off_15_0 (v : Z) (g : Gatedesc) : Gatedesc :=
  mkGatedesc v (gd_sel g) (gd_args g) (gd_rsv1 g) (gd_type g) (gd_s g) (gd_dpl g) (gd_p
    g) (gd_off_31_16 g).
Definition set_gd_sel (v : Z) (g : Gatedesc) : Gatedesc :=
  mkGatedesc (gd_off_15_0 g) v (gd_args g) (gd_rsv1 g) (gd_type g) (gd_s g) (gd_dpl g)
    (gd_p g) (gd_off_31_16 g).
Definition set_gd_args (v : Z) (g : Gatedesc) : Gatedesc :=
  mkGatedesc (gd_off_15_0 g) (gd_sel g) v (gd_rsv1 g) (gd_type g) (gd_s g) (gd_dpl g)
    (gd_p g) (gd_off_31_16 g).
Definition set_gd_rsv1 (v : Z) (g : Gatedesc) : Gatedesc :=
  mkGatedesc (gd_off_15_0 g) (gd_sel g) (gd_args g) v (gd_type g) (gd_s g) (gd_dpl g)
    (gd_p g) (gd_off_31_16 g).
Definition set_gd_type (v : Z) (g : Gatedesc) : Gatedesc :=
  mkGatedesc (gd_off_15_0 g) (gd_sel g) (gd_args g) (gd_rsv1 g) v (gd_s g) (gd_dpl g)
    (gd_p g) (gd_off_31_16 g).
Definition set_gd_s (v : Z) (g : Gatedesc) : Gatedesc :=
  mkGatedesc (gd_off_15_0 g) (gd_sel g) (gd_args g) (gd_rsv1 g) (gd_type g) v (gd_dpl g)
    (gd_p g) (gd_off_31_16 g).
Definition set_gd_dpl (v : Z) (g : Gatedesc) : Gatedesc :=
  mkGatedesc (gd_off_15_0 g) (gd_sel g) (gd_args g) (gd_rsv1 g) (gd_type g) (gd_s g) v
    (gd_p g) (gd_off_31_16 g).
Definition set_gd_p (v : Z) (g : Gatedesc) : Gatedesc :=
  mkGatedesc (gd_off_15_0 g) (gd_sel g) (gd_args g) (gd_rsv1 g) (gd_type g) (gd_s g)
    (gd_dpl g) v (gd_off_31_16 g).
Definition set_gd_off_31_16 (v : Z) (g : Gatedesc) : Gatedesc :=
  mkGatedesc (gd_off_15_0 g) (gd_sel g) (gd_args g) (gd_rsv1 g) (gd_type g) (gd_s g)
    (gd_dpl g) (gd_p g) v.

(** [struct Segdesc] of inc/mmu.h *)
Record Segdesc : Type := mkSegdesc {
  sd_lim_15_0 : Z;
  sd_base_15_0 : Z;
  sd_base_23_16 : Z;
  sd_type : Z;
  sd_s : Z;
  sd_dpl : Z;
  sd_p : Z;
  sd_lim_19_16 : Z;
  sd_avl : Z;
  sd_rsv1 : Z;
  sd_db : Z;
  sd_g : Z;
  sd_base_31_24 : Z
}.

Definition set_sd_lim_15_0 (v : Z) (d : Segdesc) : Segdesc :=
  mkSegdesc v (sd_base_15_0 d) (sd_base_23_16 d) (sd_type d) (sd_s d) (sd_dpl d) (sd_p
    d) (sd_lim_19_16 d) (sd_avl d) (sd_rsv1 d) (sd_db d) (sd_g d) (sd_base_31_24 d).
Definition set_sd_base_15_0 (v : Z) (d : Segdesc) : Segdesc :=
  mkSegdesc (sd_lim_15_0 d) v (sd_base_23_16 d) (sd_type d) (sd_s d) (sd_dpl d) (sd_p d)
    (sd_lim_19_16 d) (sd_avl d) (sd_rsv1 d) (sd_db d) (sd_g d) (sd_base_31_24 d).
Definition set_sd_base_23_16 (v : Z) (d : Segdesc) : Segdesc :=
  mkSegdesc (sd_lim_15_0 d) (sd_base_15_0 d) v (sd_type d) (sd_s d) (sd_dpl d) (sd_p d)
    (sd_lim_19_16 d) (sd_avl d) (sd_rsv1 d) (sd_db d) (sd_g d) (sd_base_31_24 d).
Definition set_sd_type (v : Z) (d : Segdesc) : Segdesc :=
  mkSegdesc (sd_lim_15_0 d) (sd_base_15_0 d) (sd_base_23_16 d) v (sd_s d) (sd_dpl d)
    (sd_p d) (sd_lim_19_16 d) (sd_avl d) (sd_rsv1 d) (sd_db d) (sd_g d) (sd_base_31_24
    d).
Definition set_sd_s (v : Z) (d : Segdesc) : Segdesc :=
  mkSegdesc (sd_lim_15_0 d) (sd_base_15_0 d) (sd_base_23_16 d) (sd_type d) v (sd_dpl d)
    (sd_p d) (sd_lim_19_16 d) (sd_avl d) (sd_rsv1 d) (sd_db d) (sd_g d) (sd_base_31_24
    d).
Definition set_sd_dpl (v : Z) (d : Segdesc) : Segdesc :=
  mkSegdesc (sd_lim_15_0 d) (sd_base_15_0 d) (sd_base_23_16 d) (sd_type d) (sd_s d) v
    (sd_p d) (sd_lim_19_16 d) (sd_avl d) (sd_rsv1 d) (sd_db d) (sd_g d) (sd_base_31_24
    d).
Definition set_sd_p (v : Z) (d : Segdesc) : Segdesc :=
  mkSegdesc (sd_lim_15_0 d) (sd_base_15_0 d) (sd_base_23_16 d) (sd_type d) (sd_s d)
    (sd_dpl d) v (sd_lim_19_16 d) (sd_avl d) (sd_rsv1 d) (sd_db d) (sd_g d)
    (sd_base_31_24 d).
Definition set_sd_lim_19_16 (v : Z) (d : Segdesc) : Segdesc :=
  mkSegdesc (sd_lim_15_0 d) (sd_base_15_0 d) (sd_base_23_16 d) (sd_type d) (sd_s d)
    (sd_dpl d) (sd_p d) v (sd_avl d) (sd_rsv1 d) (sd_db d) (sd_g d) (sd_base_31_24 d).
Definition set_sd_avl (v : Z) (d : Segdesc) : Segdesc :=
  mkSegdesc (sd_lim_15_0 d) (sd_base_15_0 d) (sd_base_23_16 d) (sd_type d) (sd_s d)
    (sd_dpl d) (sd_p d) (sd_lim_19_16 d) v (sd_rsv1 d) (sd_db d) (sd_g d) (sd_base_31_24
    d).
Definition set_sd_rsv1 (v : Z) (d : Segdesc) : Segdesc :=
  mkSegdesc (sd_lim_15_0 d) (sd_base_15_0 d) (sd_base_23_16 d) (sd_type d) (sd_s d)
    (sd_dpl d) (sd_p d) (sd_lim_19_16 d) (sd_avl d) v (sd_db d) (sd_g d) (sd_base_31_24
    d).
Definition set_sd_db (v : Z) (d : Segdesc) : Segdesc :=
  mkSegdesc (sd_lim_15_0 d) (sd_base_15_0 d) (sd_base_23_16 d) (sd_type d) (sd_s d)
    (sd_dpl d) (sd_p d) (sd_lim_19_16 d) (sd_avl d) (sd_rsv1 d) v (sd_g d)
    (sd_base_31_24 d).
Definition set_sd_g (v : Z) (d : Segdesc) : Segdesc :=
  mkSegdesc (sd_lim_15_0 d) (sd_base_15_0 d) (sd_base_23_16 d) (sd_type d) (sd_s d)
    (sd_dpl d) (sd_p d) (sd_lim_19_16 d) (sd_avl d) (sd_rsv1 d) (sd_db d) v
    (sd_base_31_24 d).
Definition set_sd_base_31_24 (v : Z) (d : Segdesc) : Segdesc :=
  mkSegdesc (sd_lim_15_0 d) (sd_base_15_0 d) (sd_base_23_16 d) (sd_type d) (sd_s d)
    (sd_dpl d) (sd_p d) (sd_lim_19_16 d) (sd_avl d) (sd_rsv1 d) (sd_db d) (sd_g d) v.

(** [struct Pseudodesc] of inc/mmu.h *)
Record Pseudodesc : Type := mkPseudodesc {
  pd_lim : Z;
  pd_base : Z
}.

Definition set_pd_lim (v : Z) (d : Pseudodesc) : Pseudodesc :=
  mkPseudodesc v (pd_base d).
Definition set_pd_base (v : Z) (d : Pseudodesc) : Pseudodesc :=
  mkPseudodesc (pd_lim d) v.

(** The segment and descriptor-table registers of a CPU *)
Record SegRegs : Type := mkSegRegs {
  seg_gs : Z;
  seg_fs : Z;
  seg_es : Z;
  seg_ds : Z;
  seg_ss : Z;
  seg_cs : Z;
  ldtr : Z;
  tr : Z;
  gdtr : Pseudodesc;
  idtr : Pseudodesc
}.

Definition set_seg_gs (v : Z) (r : SegRegs) : SegRegs :=
  mkSegRegs v (seg_fs r) (seg_es r) (seg_ds r) (seg_ss r) (seg_cs r) (ldtr r) (tr r)
    (gdtr r) (idtr r).
Definition set_seg_fs (v : Z) (r : SegRegs) : SegRegs :=
  mkSegRegs (seg_gs r) v (seg_es r) (seg_ds r) (seg_ss r) (seg_cs r) (ldtr r) (tr r)
    (gdtr r) (idtr r).
Definition set_seg_es (v : Z) (r : SegRegs) : SegRegs :=
  mkSegRegs (seg_gs r) (seg_fs r) v (seg_ds r) (seg_ss r) (seg_cs r) (ldtr r) (tr r)
    (gdtr r) (idtr r).
Definition set_seg_ds (v : Z) (r : SegRegs) : SegRegs :=
  mkSegRegs (seg_gs r) (seg_fs r) (seg_es r) v (seg_ss r) (seg_cs r) (ldtr r) (tr r)
    (gdtr r) (idtr r).
Definition set_seg_ss (v : Z) (r : SegRegs) : SegRegs :=
  mkSegRegs (seg_gs r) (seg_fs r) (seg_es r) (seg_ds r) v (seg_cs r) (ldtr r) (tr r)
    (gdtr r) (idtr r).
Definition set_seg_cs (v : Z) (r : SegRegs) : SegRegs :=
  mkSegRegs (seg_gs r) (seg_fs r) (seg_es r) (seg_ds r) (seg_ss r) v (ldtr r) (tr r)
    (gdtr r) (idtr r).
Definition set_ldtr (v : Z) (r : SegRegs) : SegRegs :=
  mkSegRegs (seg_gs r) (seg_fs r) (seg_es r) (seg_ds r) (seg_ss r) (seg_cs r) v (tr r)
    (gdtr r) (idtr r).
Definition set_tr (v : Z) (r : SegRegs) : SegRegs :=
  mkSegRegs (seg_gs r) (seg_fs r) (seg_es r) (seg_ds r) (seg_ss r) (seg_cs r) (ldtr r) v
    (gdtr r) (idtr r).
Definition set_gdtr (v : Pseudodesc) (r : SegRegs) : SegRegs :=
  mkSegRegs (seg_gs r) (seg_fs r) (seg_es r) (seg_ds r) (seg_ss r) (seg_cs r) (ldtr r)
    (tr r) v (idtr r).
Definition set_idtr (v : Pseudodesc) (r : SegRegs) : SegRegs :=
  mkSegRegs (seg_gs r) (seg_fs r) (seg_es r) (seg_ds r) (seg_ss r) (seg_cs r) (ldtr r)
    (tr r) (gdtr r) v.

Definition zero_segregs : SegRegs :=
  mkSegRegs 0 0 0 0 0 0 0 0 (mkPseudodesc 0 0) (mkPseudodesc 0 0).

(** Where the linker puts the data whose address the kernel loads into the
    processor, and the entry points of kern/trapentry.S. *)
Record image : Type := mkImage {
  vects : Z → Z;
  gdt_addr : Z;
  idt_addr : Z;
  cpus_addr : Z
}.

(** [struct spinlock], without the debugging name and call stack *)
Record spinlock : Type := mkSpinlock {
  locked : Z;
  lk_cpu : option Z  (** the CPU holding the lock *)
}.

Definition set_locked (v : Z) (l : spinlock) : spinlock :=
  mkSpinlock v (lk_cpu l).
Definition set_lk_cpu (v : option Z) (l : spinlock) : spinlock :=
  mkSpinlock (locked l) v.

(** The pointer [lapic] of kern/lapic.c and the device behind it *)
Record lapicdev : Type := mkLapicdev {
  lapic : Z;  (** address of its registers, 0 before they are found *)
  lapic_in : list Z;  (** what reads of its registers will return, next first *)
  lapic_out : list (Z * Z)  (** (register, value) written, newest first *)
}.

Definition set_lapic (v : Z) (a : lapicdev) : lapicdev :=
  mkLapicdev v (lapic_in a) (lapic_out a).
Definition set_lapic_in (v : list Z) (a : lapicdev) : lapicdev :=
  mkLapicdev (lapic a) v (lapic_out a).
Definition set_lapic_out (v : list (Z * Z)) (a : lapicdev) : lapicdev :=
  mkLapicdev (lapic a) (lapic_in a) v.

(** ** The kernel's global variables, and the machine they live on *)

Record kstate : Type := mkKstate {
  mem : memory;  (** physical memory *)
  cr3 : gmap Z Z;  (** per CPU *)
  cr2 : Z;
  invlpgs : list Z;  (** TLB entries flushed, newest first *)
  apic : lapicdev;  (** the local APIC of the running CPU *)
  npages : Z;
  npages_basemem : Z;
  nAvailPages : Z;
  nextfree : Z;  (** static variable of [boot_alloc] *)
  pages : gmap Z Page;
  pages_kva : Z;  (** address of the array [pages] *)
  page_free_list : option Z;
  tail_free_page : option Z;
  kern_pgdir : Z;
  user_mem_check_addr : Z;
  envs : gmap Z Env;
  envs_kva : Z;  (** address of the array [envs] *)
  env_free_list : option Z;
  cpus : gmap Z Cpu;
  this_cpu : Z;  (** [cpunum ()] *)
  kernel_lock : spinlock;
  idt : gmap Z Gatedesc;
  gdt : gmap Z Segdesc;
  segregs : gmap Z SegRegs;  (** per CPU *)
  ncpu : Z;
  ismp : bool;
  bootcpu : option Z;
  dev : devices;  (** the devices behind the I/O ports *)
  panicstr : bool;  (** a CPU has panicked *)
  mpentry_kstack : Z;
  kstack : gmap Z Z  (** per CPU: the stack it was started on *)
}.

Definition set_mem (v : memory) (s : kstate) : kstate :=
  mkKstate v (cr3 s) (cr2 s) (invlpgs s) (apic s) (npages s) (npages_basemem s)
    (nAvailPages s) (nextfree s) (pages s) (pages_kva s) (page_free_list s)
    (tail_free_page s) (kern_pgdir s) (user_mem_check_addr s) (envs s) (envs_kva s)
    (env_free_list s) (cpus s) (this_cpu s) (kernel_lock s) (idt s) (gdt s) (segregs s)
    (ncpu s) (ismp s) (bootcpu s) (dev s) (panicstr s)
    (mpentry_kstack s) (kstack s).
Definition set_cr3 (v : gmap Z Z) (s : kstate) : kstate :=
  mkKstate (mem s) v (cr2 s) (invlpgs s) (apic s) (npages s) (npages_basemem s)
    (nAvailPages s) (nextfree s) (pages s) (pages_kva s) (page_free_list s)
    (tail_free_page s) (kern_pgdir s) (user_mem_check_addr s) (envs s) (envs_kva s)
    (env_free_list s) (cpus s) (this_cpu s) (kernel_lock s) (idt s) (gdt s) (segregs s)
    (ncpu s) (ismp s) (bootcpu s) (dev s) (panicstr s)
    (mpentry_kstack s) (kstack s).
Definition set_cr2 (v : Z) (s : kstate) : kstate :=
  mkKstate (mem s) (cr3 s) v (invlpgs s) (apic s) (npages s) (npages_basemem s)
    (nAvailPages s) (nextfree s) (pages s) (pages_kva s) (page_free_list s)
    (tail_free_page s) (kern_pgdir s) (user_mem_check_addr s) (envs s) (envs_kva s)
    (env_free_list s) (cpus s) (this_cpu s) (kernel_lock s) (idt s) (gdt s) (segregs s)
    (ncpu s) (ismp s) (bootcpu s) (dev s) (panicstr s)
    (mpentry_kstack s) (kstack s).
Definition set_invlpgs (v : list Z) (s : kstate) : kstate :=
  mkKstate (mem s) (cr3 s) (cr2 s) v (apic s) (npages s) (npages_basemem s) (nAvailPages
    s) (nextfree s) (pages s) (pages_kva s) (page_free_list s) (tail_free_page s)
    (kern_pgdir s) (user_mem_check_addr s) (envs s) (envs_kva s) (env_free_list s) (cpus
    s) (this_cpu s) (kernel_lock s) (idt s) (gdt s) (segregs s) (ncpu s) (ismp s)
    (bootcpu s) (dev s) (panicstr s)
    (mpentry_kstack s) (kstack s).
Definition set_apic (v : lapicdev) (s : kstate) : kstate :=
  mkKstate (mem s) (cr3 s) (cr2 s) (invlpgs s) v (npages s) (npages_basemem s)
    (nAvailPages s) (nextfree s) (pages s) (pages_kva s) (page_free_list s)
    (tail_free_page s) (kern_pgdir s) (user_mem_check_addr s) (envs s) (envs_kva s)
    (env_free_list s) (cpus s) (this_cpu s) (kernel_lock s) (idt s) (gdt s) (segregs s)
    (ncpu s) (ismp s) (bootcpu s) (dev s) (panicstr s)
    (mpentry_kstack s) (kstack s).
Definition set_npages (v : Z) (s : kstate) : kstate :=
  mkKstate (mem s) (cr3 s) (cr2 s) (invlpgs s) (apic s) v (npages_basemem s)
    (nAvailPages s) (nextfree s) (pages s) (pages_kva s) (page_free_list s)
    (tail_free_page s) (kern_pgdir s) (user_mem_check_addr s) (envs s) (envs_kva s)
    (env_free_list s) (cpus s) (this_cpu s) (kernel_lock s) (idt s) (gdt s) (segregs s)
    (ncpu s) (ismp s) (bootcpu s) (dev s) (panicstr s)
    (mpentry_kstack s) (kstack s).
Definition set_npages_basemem (v : Z) (s : kstate) : kstate :=
  mkKstate (mem s) (cr3 s) (cr2 s) (invlpgs s) (apic s) (npages s) v (nAvailPages s)
    (nextfree s) (pages s) (pages_kva s) (page_free_list s) (tail_free_page s)
    (kern_pgdir s) (user_mem_check_addr s) (envs s) (envs_kva s) (env_free_list s) (cpus
    s) (this_cpu s) (kernel_lock s) (idt s) (gdt s) (segregs s) (ncpu s) (ismp s)
    (bootcpu s) (dev s) (panicstr s)
    (mpentry_kstack s) (kstack s).
Definition set_nAvailPages (v : Z) (s : kstate) : kstate :=
  mkKstate (mem s) (cr3 s) (cr2 s) (invlpgs s) (apic s) (npages s) (npages_basemem s) v
    (nextfree s) (pages s) (pages_kva s) (page_free_list s) (tail_free_page s)
    (kern_pgdir s) (user_mem_check_addr s) (envs s) (envs_kva s) (env_free_list s) (cpus
    s) (this_cpu s) (kernel_lock s) (idt s) (gdt s) (segregs s) (ncpu s) (ismp s)
    (bootcpu s) (dev s) (panicstr s)
    (mpentry_kstack s) (kstack s).
Definition set_nextfree (v : Z) (s : kstate) : kstate :=
  mkKstate (mem s) (cr3 s) (cr2 s) (invlpgs s) (apic s) (npages s) (npages_basemem s)
    (nAvailPages s) v (pages s) (pages_kva s) (page_free_list s) (tail_free_page s)
    (kern_pgdir s) (user_mem_check_addr s) (envs s) (envs_kva s) (env_free_list s) (cpus
    s) (this_cpu s) (kernel_lock s) (idt s) (gdt s) (segregs s) (ncpu s) (ismp s)
    (bootcpu s) (dev s) (panicstr s)
    (mpentry_kstack s) (kstack s).
Definition set_pages (v : gmap Z Page) (s : kstate) : kstate :=
  mkKstate (mem s) (cr3 s) (cr2 s) (invlpgs s) (apic s) (npages s) (npages_basemem s)
    (nAvailPages s) (nextfree s) v (pages_kva s) (page_free_list s) (tail_free_page s)
    (kern_pgdir s) (user_mem_check_addr s) (envs s) (envs_kva s) (env_free_list s) (cpus
    s) (this_cpu s) (kernel_lock s) (idt s) (gdt s) (segregs s) (ncpu s) (ismp s)
    (bootcpu s) (dev s) (panicstr s)
    (mpentry_kstack s) (kstack s).
Definition set_pages_kva (v : Z) (s : kstate) : kstate :=
  mkKstate (mem s) (cr3 s) (cr2 s) (invlpgs s) (apic s) (npages s) (npages_basemem s)
    (nAvailPages s) (nextfree s) (pages s) v (page_free_list s) (tail_free_page s)
    (kern_pgdir s) (user_mem_check_addr s) (envs s) (envs_kva s) (env_free_list s) (cpus
    s) (this_cpu s) (kernel_lock s) (idt s) (gdt s) (segregs s) (ncpu s) (ismp s)
    (bootcpu s) (dev s) (panicstr s)
    (mpentry_kstack s) (kstack s).
Definition set_page_free_list (v : option Z) (s : kstate) : kstate :=
  mkKstate (mem s) (cr3 s) (cr2 s) (invlpgs s) (apic s) (npages s) (npages_basemem s)
    (nAvailPages s) (nextfree s) (pages s) (pages_kva s) v (tail_free_page s)
    (kern_pgdir s) (user_mem_check_addr s) (envs s) (envs_kva s) (env_free_list s) (cpus
    s) (this_cpu s) (kernel_lock s) (idt s) (gdt s) (segregs s) (ncpu s) (ismp s)
    (bootcpu s) (dev s) (panicstr s)
    (mpentry_kstack s) (kstack s).
Definition set_tail_free_page (v : option Z) (s : kstate) : kstate :=
  mkKstate (mem s) (cr3 s) (cr2 s) (invlpgs s) (apic s) (npages s) (npages_basemem s)
    (nAvailPages s) (nextfree s) (pages s) (pages_kva s) (page_free_list s) v
    (kern_pgdir s) (user_mem_check_addr s) (envs s) (envs_kva s) (env_free_list s) (cpus
    s) (this_cpu s) (kernel_lock s) (idt s) (gdt s) (segregs s) (ncpu s) (ismp s)
    (bootcpu s) (dev s) (panicstr s)
    (mpentry_kstack s) (kstack s).
Definition set_kern_pgdir (v : Z) (s : kstate) : kstate :=
  mkKstate (mem s) (cr3 s) (cr2 s) (invlpgs s) (apic s) (npages s) (npages_basemem s)
    (nAvailPages s) (nextfree s) (pages s) (pages_kva s) (page_free_list s)
    (tail_free_page s) v (user_mem_check_addr s) (envs s) (envs_kva s) (env_free_list s)
    (cpus s) (this_cpu s) (kernel_lock s) (idt s) (gdt s) (segregs s) (ncpu s) (ismp s)
    (bootcpu s) (dev s) (panicstr s)
    (mpentry_kstack s) (kstack s).
Definition set_user_mem_check_addr (v : Z) (s : kstate) : kstate :=
  mkKstate (mem s) (cr3 s) (cr2 s) (invlpgs s) (apic s) (npages s) (npages_basemem s)
    (nAvailPages s) (nextfree s) (pages s) (pages_kva s) (page_free_list s)
    (tail_free_page s) (kern_pgdir s) v (envs s) (envs_kva s) (env_free_list s) (cpus s)
    (this_cpu s) (kernel_lock s) (idt s) (gdt s) (segregs s) (ncpu s) (ismp s) (bootcpu
    s) (dev s) (panicstr s)
    (mpentry_kstack s) (kstack s).
Definition set_envs (v : gmap Z Env) (s : kstate) : kstate :=
  mkKstate (mem s) (cr3 s) (cr2 s) (invlpgs s) (apic s) (npages s) (npages_basemem s)
    (nAvailPages s) (nextfree s) (pages s) (pages_kva s) (page_free_list s)
    (tail_free_page s) (kern_pgdir s) (user_mem_check_addr s) v (envs_kva s)
    (env_free_list s) (cpus s) (this_cpu s) (kernel_lock s) (idt s) (gdt s) (segregs s)
    (ncpu s) (ismp s) (bootcpu s) (dev s) (panicstr s)
    (mpentry_kstack s) (kstack s).
Definition set_envs_kva (v : Z) (s : kstate) : kstate :=
  mkKstate (mem s) (cr3 s) (cr2 s) (invlpgs s) (apic s) (npages s) (npages_basemem s)
    (nAvailPages s) (nextfree s) (pages s) (pages_kva s) (page_free_list s)
    (tail_free_page s) (kern_pgdir s) (user_mem_check_addr s) (envs s) v (env_free_list
    s) (cpus s) (this_cpu s) (kernel_lock s) (idt s) (gdt s) (segregs s) (ncpu s) (ismp
    s) (bootcpu s) (dev s) (panicstr s)
    (mpentry_kstack s) (kstack s).
Definition set_env_free_list (v : option Z) (s : kstate) : kstate :=
  mkKstate (mem s) (cr3 s) (cr2 s) (invlpgs s) (apic s) (npages s) (npages_basemem s)
    (nAvailPages s) (nextfree s) (pages s) (pages_kva s) (page_free_list s)
    (tail_free_page s) (kern_pgdir s) (user_mem_check_addr s) (envs s) (envs_kva s) v
    (cpus s) (this_cpu s) (kernel_lock s) (idt s) (gdt s) (segregs s) (ncpu s) (ismp s)
    (bootcpu s) (dev s) (panicstr s)
    (mpentry_kstack s) (kstack s).
Definition set_cpus (v : gmap Z Cpu) (s : kstate) : kstate :=
  mkKstate (mem s) (cr3 s) (cr2 s) (invlpgs s) (apic s) (npages s) (npages_basemem s)
    (nAvailPages s) (nextfree s) (pages s) (pages_kva s) (page_free_list s)
    (tail_free_page s) (kern_pgdir s) (user_mem_check_addr s) (envs s) (envs_kva s)
    (env_free_list s) v (this_cpu s) (kernel_lock s) (idt s) (gdt s) (segregs s) (ncpu
    s) (ismp s) (bootcpu s) (dev s) (panicstr s)
    (mpentry_kstack s) (kstack s).
Definition set_this_cpu (v : Z) (s : kstate) : kstate :=
  mkKstate (mem s) (cr3 s) (cr2 s) (invlpgs s) (apic s) (npages s) (npages_basemem s)
    (nAvailPages s) (nextfree s) (pages s) (pages_kva s) (page_free_list s)
    (tail_free_page s) (kern_pgdir s) (user_mem_check_addr s) (envs s) (envs_kva s)
    (env_free_list s) (cpus s) v (kernel_lock s) (idt s) (gdt s) (segregs s) (ncpu s)
    (ismp s) (bootcpu s) (dev s) (panicstr s)
    (mpentry_kstack s) (kstack s).
Definition set_kernel_lock (v : spinlock) (s : kstate) : kstate :=
  mkKstate (mem s) (cr3 s) (cr2 s) (invlpgs s) (apic s) (npages s) (npages_basemem s)
    (nAvailPages s) (nextfree s) (pages s) (pages_kva s) (page_free_list s)
    (tail_free_page s) (kern_pgdir s) (user_mem_check_addr s) (envs s) (envs_kva s)
    (env_free_list s) (cpus s) (this_cpu s) v (idt s) (gdt s) (segregs s) (ncpu s) (ismp
    s) (bootcpu s) (dev s) (panicstr s)
    (mpentry_kstack s) (kstack s).
Definition set_idt (v : gmap Z Gatedesc) (s : kstate) : kstate :=
  mkKstate (mem s) (cr3 s) (cr2 s) (invlpgs s) (apic s) (npages s) (npages_basemem s)
    (nAvailPages s) (nextfree s) (pages s) (pages_kva s) (page_free_list s)
    (tail_free_page s) (kern_pgdir s) (user_mem_check_addr s) (envs s) (envs_kva s)
    (env_free_list s) (cpus s) (this_cpu s) (kernel_lock s) v (gdt s) (segregs s) (ncpu
    s) (ismp s) (bootcpu s) (dev s) (panicstr s)
    (mpentry_kstack s) (kstack s).
Definition set_gdt (v : gmap Z Segdesc) (s : kstate) : kstate :=
  mkKstate (mem s) (cr3 s) (cr2 s) (invlpgs s) (apic s) (npages s) (npages_basemem s)
    (nAvailPages s) (nextfree s) (pages s) (pages_kva s) (page_free_list s)
    (tail_free_page s) (kern_pgdir s) (user_mem_check_addr s) (envs s) (envs_kva s)
    (env_free_list s) (cpus s) (this_cpu s) (kernel_lock s) (idt s) v (segregs s) (ncpu
    s) (ismp s) (bootcpu s) (dev s) (panicstr s)
    (mpentry_kstack s) (kstack s).
Definition set_segregs (v : gmap Z SegRegs) (s : kstate) : kstate :=
  mkKstate (mem s) (cr3 s) (cr2 s) (invlpgs s) (apic s) (npages s) (npages_basemem s)
    (nAvailPages s) (nextfree s) (pages s) (pages_kva s) (page_free_list s)
    (tail_free_page s) (kern_pgdir s) (user_mem_check_addr s) (envs s) (envs_kva s)
    (env_free_list s) (cpus s) (this_cpu s) (kernel_lock s) (idt s) (gdt s) v (ncpu s)
    (ismp s) (bootcpu s) (dev s) (panicstr s)
    (mpentry_kstack s) (kstack s).
Definition set_ncpu (v : Z) (s : kstate) : kstate :=
  mkKstate (mem s) (cr3 s) (cr2 s) (invlpgs s) (apic s) (npages s) (npages_basemem s)
    (nAvailPages s) (nextfree s) (pages s) (pages_kva s) (page_free_list s)
    (tail_free_page s) (kern_pgdir s) (user_mem_check_addr s) (envs s) (envs_kva s)
    (env_free_list s) (cpus s) (this_cpu s) (kernel_lock s) (idt s) (gdt s) (segregs s)
    v (ismp s) (bootcpu s) (dev s) (panicstr s)
    (mpentry_kstack s) (kstack s).
Definition set_ismp (v : bool) (s : kstate) : kstate :=
  mkKstate (mem s) (cr3 s) (cr2 s) (invlpgs s) (apic s) (npages s) (npages_basemem s)
    (nAvailPages s) (nextfree s) (pages s) (pages_kva s) (page_free_list s)
    (tail_free_page s) (kern_pgdir s) (user_mem_check_addr s) (envs s) (envs_kva s)
    (env_free_list s) (cpus s) (this_cpu s) (kernel_lock s) (idt s) (gdt s) (segregs s)
    (ncpu s) v (bootcpu s) (dev s) (panicstr s)
    (mpentry_kstack s) (kstack s).
Definition set_bootcpu (v : option Z) (s : kstate) : kstate :=
  mkKstate (mem s) (cr3 s) (cr2 s) (invlpgs s) (apic s) (npages s) (npages_basemem s)
    (nAvailPages s) (nextfree s) (pages s) (pages_kva s) (page_free_list s)
    (tail_free_page s) (kern_pgdir s) (user_mem_check_addr s) (envs s) (envs_kva s)
    (env_free_list s) (cpus s) (this_cpu s) (kernel_lock s) (idt s) (gdt s) (segregs s)
    (ncpu s) (ismp s) v (dev s) (panicstr s)
    (mpentry_kstack s) (kstack s).
Definition set_dev (v : devices) (s : kstate) : kstate :=
  mkKstate (mem s) (cr3 s) (cr2 s) (invlpgs s) (apic s) (npages s) (npages_basemem s)
    (nAvailPages s) (nextfree s) (pages s) (pages_kva s) (page_free_list s)
    (tail_free_page s) (kern_pgdir s) (user_mem_check_addr s) (envs s) (envs_kva s)
    (env_free_list s) (cpus s) (this_cpu s) (kernel_lock s) (idt s) (gdt s) (segregs s)
    (ncpu s) (ismp s) (bootcpu s) v (panicstr s)
    (mpentry_kstack s) (kstack s).
Definition set_panicstr (v : bool) (s : kstate) : kstate :=
  mkKstate (mem s) (cr3 s) (cr2 s) (invlpgs s) (apic s) (npages s) (npages_basemem s)
    (nAvailPages s) (nextfree s) (pages s) (pages_kva s) (page_free_list s)
    (tail_free_page s) (kern_pgdir s) (user_mem_check_addr s) (envs s) (envs_kva s)
    (env_free_list s) (cpus s) (this_cpu s) (kernel_lock s) (idt s) (gdt s) (segregs s)
    (ncpu s) (ismp s) (bootcpu s) (dev s) v
    (mpentry_kstack s) (kstack s).
Definition set_mpentry_kstack (v : Z) (s : kstate) : kstate :=
  mkKstate (mem s) (cr3 s) (cr2 s) (invlpgs s) (apic s) (npages s) (npages_basemem s)
    (nAvailPages s) (nextfree s) (pages s) (pages_kva s) (page_free_list s)
    (tail_free_page s) (kern_pgdir s) (user_mem_check_addr s) (envs s) (envs_kva s)
    (env_free_list s) (cpus s) (this_cpu s) (kernel_lock s) (idt s) (gdt s) (segregs s)
    (ncpu s) (ismp s) (bootcpu s) (dev s)
    (panicstr s) v (kstack s).
Definition set_kstack (v : gmap Z Z) (s : kstate) : kstate :=
  mkKstate (mem s) (cr3 s) (cr2 s) (invlpgs s) (apic s) (npages s) (npages_basemem s)
    (nAvailPages s) (nextfree s) (pages s) (pages_kva s) (page_free_list s)
    (tail_free_page s) (kern_pgdir s) (user_mem_check_addr s) (envs s) (envs_kva s)
    (env_free_list s) (cpus s) (this_cpu s) (kernel_lock s) (idt s) (gdt s) (segregs s)
    (ncpu s) (ismp s) (bootcpu s) (dev s)
    (panicstr s) (mpentry_kstack s) v.

#[export] Instance PushRegs_eq_dec : EqDecision PushRegs.
Proof. solve_decision. Defined.
#[export] Instance Trapframe_eq_dec : EqDecision Trapframe.
Proof. solve_decision. Defined.
#[export] Instance Env_eq_dec : EqDecision Env.
Proof. solve_decision. Defined.
#[export] Instance Page_eq_dec : EqDecision Page.
Proof. solve_decision. Defined.
#[export] Instance Gatedesc_eq_dec : EqDecision Gatedesc.
Proof. solve_decision. Defined.
#[export] Instance Cpu_eq_dec : EqDecision Cpu.
Proof. solve_decision. Defined.

(** All global variables zero, as the kernel image is loaded. *)
Definition zero_kstate : kstate :=
  mkKstate ∅ ∅ 0 [] (mkLapicdev 0 [] []) 0 0 0 0 ∅ 0 None None 0 0 ∅ 0 None ∅ 0 (mkSpinlock 0 None)
    ∅ ∅ ∅ 0 false None (zero_devices []) false 0 ∅.

(** The ways a kernel path ends without returning to its caller. *)
Inductive kexit : Type :=
  | Panic (msg : string)       (** [panic ()]: the monitor, for ever *)
  | UserMode (e : Z)           (** [env_pop_tf ()]: environment [e] runs *)
  | InMonitor                  (** [while (1) monitor (NULL)] *)
  | KernelFault                (** the kernel dereferences a bad pointer *)
  | Halted                     (** [hlt] after a panic of another CPU *)
  | Spinning                   (** [spin_lock ()] waits for another CPU *)
  | NoFuel.                    (** a bounded loop of the model ran out *)

Abbreviation M := (comp kstate kexit).

Definition panic {A} (msg : string) : M A := leave (Panic msg).

(** [assert (b)] *)
Definition assert (b : bool) (msg : string) : M unit :=
  if b then mret tt else panic msg.

(** The kernel's accesses to the memory mapped at [KERNBASE]. *)
Definition rd32 (kva : Z) : M Z :=
  if KERNBASE <=? kva then gets (λ s, load32 (mem s) (kva - KERNBASE))
  else leave KernelFault.
Definition wr32 (kva v : Z) : M unit :=
  if KERNBASE <=? kva then modify (λ s, set_mem (store32 (mem s) (kva - KERNBASE) v) s)
  else leave KernelFault.

(** Array elements; indexing past the end is an error of the caller. *)
Definition get_page (pp : Z) : M Page :=
  s ← get; match pages s !! pp with Some p => mret p | None => leave KernelFault end.
Definition upd_page (f : Page → Page) (pp : Z) : M unit :=
  p ← get_page pp; modify (λ s, set_pages (<[pp := f p]> (pages s)) s).
Definition get_env (e : Z) : M Env :=
  s ← get; match envs s !! e with Some x => mret x | None => leave KernelFault end.
Definition upd_env (f : Env → Env) (e : Z) : M unit :=
  x ← get_env e; modify (λ s, set_envs (<[e := f x]> (envs s)) s).
Definition get_cpu (c : Z) : M Cpu :=
  s ← get; match cpus s !! c with Some x => mret x | None => leave KernelFault end.
Definition upd_cpu (f : Cpu → Cpu) (c : Z) : M unit :=
  x ← get_cpu c; modify (λ s, set_cpus (<[c := f x]> (cpus s)) s).

(** kern/cpu.h and kern/env.h: [cpunum], [thiscpu] and [curenv].  The code reads
    the identifier in the local APIC of the processor it runs on; here that is
    [this_cpu], and 0 on the boot processor, also before [lapic] is set. *)
Definition cpunum : M Z := gets this_cpu.
Definition curenv : M (option Z) := c ← cpunum; x ← get_cpu c; mret (cpu_env x).
Definition set_curenv (e : option Z) : M unit := c ← cpunum; upd_cpu (set_cpu_env e) c.

(** inc/x86.h: loading the page-table base of the running CPU. *)
Definition lcr3 (pa : Z) : M unit :=
  modify (λ s, set_cr3 (<[this_cpu s := pa]> (cr3 s)) s).

(** The segment registers of the running CPU. *)
Definition upd_segregs (f : SegRegs → SegRegs) : M unit :=
  modify (λ s, set_segregs (<[this_cpu s := f (default zero_segregs (segregs s !! this_cpu s))]> (segregs s)) s).

(** inc/x86.h: loading the descriptor-table registers. *)
Definition lgdt (p : Pseudodesc) : M unit := upd_segregs (set_gdtr p).
Definition lidt (p : Pseudodesc) : M unit := upd_segregs (set_idtr p).
Definition lldt (sel : Z) : M unit := upd_segregs (set_ldtr sel).

(** Loading the task register marks the descriptor busy. *)
Definition ltr (sel : Z) : M unit :=
  upd_segregs (set_tr sel) ;;
  modify (λ s, set_gdt (alter (set_sd_type 11) (Z.shiftr sel 3) (gdt s)) s).

(** Device code, run by the kernel. *)
Definition dev_op {A} (m : DM A) : M A := λ s,
  match m (dev s) with
  | Done a d => Done a (set_dev d s)
  | Exit DevNoFuel d => Exit NoFuel (set_dev d s)
  end.

(** Dereferencing an [Env] pointer that may be null. *)
Definition deref (p : option Z) : M Z :=
  match p with Some e => mret e | None => leave KernelFault end.

(** ** Equations for running kernel code *)

Section run.
Context {A : Type}.
Implicit Types (s : kstate) (k : Z → M A).

Lemma run_panic {B} msg (k : B → M A) s : (panic msg ≫= k) s = Exit (Panic msg) s.
Proof. done. Qed.
Lemma run_rd32 p k s :
  KERNBASE <= p → (rd32 p ≫= k) s = k (load32 (mem s) (p - KERNBASE)) s.
Proof. intros H. unfold rd32. apply Z.leb_le in H. by rewrite H. Qed.
Lemma run_wr32 p v (k : unit → M A) s :
  KERNBASE <= p →
  (wr32 p v ≫= k) s = k tt (set_mem (store32 (mem s) (p - KERNBASE) v) s).
Proof. intros H. unfold wr32. apply Z.leb_le in H. by rewrite H. Qed.
Lemma run_get_page pp p (k : Page → M A) s :
  pages s !! pp = Some p → (get_page pp ≫= k) s = k p s.
Proof. intros H. unfold get_page. rewrite run_assoc, run_get, H. done. Qed.
Lemma run_upd_page f pp p (k : unit → M A) s :
  pages s !! pp = Some p →
  (upd_page f pp ≫= k) s = k tt (set_pages (<[pp := f p]> (pages s)) s).
Proof. intros H. unfold upd_page. by rewrite run_assoc, (run_get_page _ p). Qed.
Lemma run_get_env e x (k : Env → M A) s :
  envs s !! e = Some x → (get_env e ≫= k) s = k x s.
Proof. intros H. unfold get_env. rewrite run_assoc, run_get, H. done. Qed.
Lemma run_upd_env f e x (k : unit → M A) s :
  envs s !! e = Some x →
  (upd_env f e ≫= k) s = k tt (set_envs (<[e := f x]> (envs s)) s).
Proof. intros H. unfold upd_env. by rewrite run_assoc, (run_get_env _ x). Qed.
Lemma run_get_cpu c x (k : Cpu → M A) s :
  cpus s !! c = Some x → (get_cpu c ≫= k) s = k x s.
Proof. intros H. unfold get_cpu. rewrite run_assoc, run_get, H. done. Qed.
Lemma run_upd_cpu f c x (k : unit → M A) s :
  cpus s !! c = Some x →
  (upd_cpu f c ≫= k) s = k tt (set_cpus (<[c := f x]> (cpus s)) s).
Proof. intros H. unfold upd_cpu. by rewrite run_assoc, (run_get_cpu _ x). Qed.
Lemma run_curenv x (k : option Z → M A) s :
  cpus s !! this_cpu s = Some x → (curenv ≫= k) s = k (cpu_env x) s.
Proof.
  intros H. unfold curenv, cpunum.
  by rewrite run_assoc, run_gets, run_assoc, (run_get_cpu _ x).
Qed.
Lemma run_set_curenv e x (k : unit → M A) s :
  cpus s !! this_cpu s = Some x →
  (set_curenv e ≫= k) s = k tt (set_cpus (<[this_cpu s := set_cpu_env e x]> (cpus s)) s).
Proof.
  intros H. unfold set_curenv, cpunum.
  by rewrite run_assoc, run_gets, (run_upd_cpu _ _ x).
Qed.
End run.

(** States are equal when their fields are; comparing nested updates field by
    field avoids unfolding them all at once. *)
Lemma kstate_eq s s' :
  mem s = mem s' → cr3 s = cr3 s' → cr2 s = cr2 s' →
  invlpgs s = invlpgs s' → apic s = apic s' → npages s = npages s' →
  npages_basemem s = npages_basemem s' → nAvailPages s = nAvailPages s' → nextfree s = nextfree s' →
  pages s = pages s' → pages_kva s = pages_kva s' → page_free_list s = page_free_list s' →
  tail_free_page s = tail_free_page s' → kern_pgdir s = kern_pgdir s' → user_mem_check_addr s = user_mem_check_addr s' →
  envs s = envs s' → envs_kva s = envs_kva s' → env_free_list s = env_free_list s' →
  cpus s = cpus s' → this_cpu s = this_cpu s' → kernel_lock s = kernel_lock s' →
  idt s = idt s' → gdt s = gdt s' → segregs s = segregs s' → ncpu s = ncpu s' → ismp s = ismp s' →
  bootcpu s = bootcpu s' → dev s = dev s' → panicstr s = panicstr s' →
  mpentry_kstack s = mpentry_kstack s' → kstack s = kstack s' → s = s'.
Proof. destruct s, s'. simpl. intros. f_equal; assumption. Qed.

Lemma ret_state {A} (a : A) s s' : s = s' → (mret a : M A) s = Done a s'.
Proof. by intros ->. Qed.

Ltac state_eq :=
  first [apply ret_state | idtac]; apply kstate_eq; simpl; try reflexivity.

Lemma upd_page_Done f pp p s :
  pages s !! pp = Some p →
  upd_page f pp s = Done tt (set_pages (<[pp := f p]> (pages s)) s).
Proof. intros H. rewrite tail_bind. by rewrite (run_upd_page _ _ p). Qed.

#[global] Arguments get_page : simpl never.
#[global] Arguments upd_page : simpl never.
#[global] Arguments get_env : simpl never.
#[global] Arguments upd_env : simpl never.
#[global] Arguments get_cpu : simpl never.
#[global] Arguments upd_cpu : simpl never.
#[global] Arguments curenv : simpl never.
#[global] Arguments set_curenv : simpl never.
#[global] Arguments rd32 : simpl never.
#[global] Arguments wr32 : simpl never.

(** Executes the administrative steps of a computation, and the array accesses
    whose element is known from a hypothesis or by simplification. *)
Ltac lookup_known := simpl; first [eassumption | by simplify_map_eq].
Ltac run1 :=
  first
  [ rewrite run_assoc | rewrite run_get | rewrite run_gets | rewrite run_modify
  | rewrite run_ret | rewrite run_panic
  | erewrite run_get_page by lookup_known | erewrite run_upd_page by lookup_known
  | erewrite run_get_env by lookup_known | erewrite run_upd_env by lookup_known
  | erewrite run_curenv by lookup_known | erewrite run_set_curenv by lookup_known
  | erewrite run_get_cpu by lookup_known | erewrite run_upd_cpu by lookup_known ].
Ltac run := repeat (run1; simpl).
