(* ===== verification/Segments.v ===== *)
(** * Segments: inc/mmu.h, and the descriptor tables of kern/env.c and kern/trap.c

    Segment and gate descriptors with the bit fields of the C structures, the
    macros that fill them, the global descriptor table and the loading of the
    segment registers.  [seg_base], [seg_limit] and [gd_off] read a descriptor
    the way the processor does. *)

From S2P Require Import Prelude Devices Machine.
From stdpp Require Import base numbers list gmap fin_maps.

Local Open Scope Z_scope.

Definition STA_X : Z := 0x8.
Definition STA_W : Z := 0x2.
Definition STA_R : Z := 0x2.
Definition STS_T32A : Z := 0x9.
Definition STS_T32B : Z := 0xB.
Definition STS_IG32 : Z := 0xE.
Definition STS_TG32 : Z := 0xF.

(** What a bit field of [w] bits keeps of a value. *)
Definition bitfield (w v : Z) : Z := v mod 2 ^ w.

Definition SEG_NULL : Segdesc := mkSegdesc 0 0 0 0 0 0 0 0 0 0 0 0 0.
Definition SEG (type base lim dpl : Z) : Segdesc :=
  mkSegdesc (Z.land (Z.shiftr lim 12) 0xffff) (Z.land base 0xffff) (Z.land (Z.shiftr base 16) 0xff)
    (bitfield 4 type) 1 (bitfield 2 dpl) 1 (bitfield 4 (Z.shiftr (u32 lim) 28)) 0 0 1 1
    (bitfield 8 (Z.shiftr (u32 base) 24)).
Definition SEG16 (type base lim dpl : Z) : Segdesc :=
  mkSegdesc (Z.land lim 0xffff) (Z.land base 0xffff) (Z.land (Z.shiftr base 16) 0xff)
    (bitfield 4 type) 1 (bitfield 2 dpl) 1 (bitfield 4 (Z.shiftr (u32 lim) 16)) 0 0 1 0
    (bitfield 8 (Z.shiftr (u32 base) 24)).

(** The table as kern/env.c initialises it: [NCPU + 5] entries. *)
Definition gdt_init : gmap Z Segdesc :=
  list_to_map (zip (seqZ 0 (NCPU + 5))
    ([SEG_NULL; SEG (Z.lor STA_X STA_R) 0x0 0xffffffff 0; SEG STA_W 0x0 0xffffffff 0;
      SEG (Z.lor STA_X STA_R) 0x0 0xffffffff 3; SEG STA_W 0x0 0xffffffff 3]
     ++ replicate (Z.to_nat NCPU) SEG_NULL)).

Definition gdt_pd (im : image) : Pseudodesc := mkPseudodesc ((NCPU + 5) * 8 - 1) (gdt_addr im).
Definition idt_pd (im : image) : Pseudodesc := mkPseudodesc (256 * 8 - 1) (idt_addr im).

Definition env_init_percpu (im : image) : M unit :=
  lgdt (gdt_pd im) ;;
  upd_segregs (set_seg_gs (Z.lor GD_UD 3)) ;;
  upd_segregs (set_seg_fs (Z.lor GD_UD 3)) ;;
  upd_segregs (set_seg_es GD_KD) ;;
  upd_segregs (set_seg_ds GD_KD) ;;
  upd_segregs (set_seg_ss GD_KD) ;;
  upd_segregs (set_seg_cs GD_KT) ;;
  lldt 0.

Definition SETGATE (i : Z) (istrap : bool) (sel off dpl : Z) : M unit :=
  modify (λ s, set_idt (<[i :=
    mkGatedesc (Z.land (u32 off) 0xffff) (bitfield 16 sel) 0 0
      (if istrap then STS_TG32 else STS_IG32) 0 (bitfield 2 dpl) 1
      (bitfield 16 (Z.shiftr (u32 off) 16))]> (idt s)) s).

(** ** The processor's view *)

Definition seg_base (d : Segdesc) : Z :=
  sd_base_15_0 d + 65536 * sd_base_23_16 d + 16777216 * sd_base_31_24 d.
(** The last offset in the segment. *)
Definition seg_limit (d : Segdesc) : Z :=
  let l := sd_lim_15_0 d + 65536 * sd_lim_19_16 d in
  if sd_g d =? 1 then l * 4096 + 4095 else l.
Definition gd_off (g : Gatedesc) : Z := gd_off_15_0 g + 65536 * gd_off_31_16 g.

Lemma land_ffff v : Z.land v 0xffff = v mod 65536.
Proof. apply (Z.land_ones v 16). lia. Qed.
Lemma land_ff v : Z.land v 0xff = v mod 256.
Proof. apply (Z.land_ones v 8). lia. Qed.

(** Turns the shifts and masks of a descriptor into divisions. *)
Ltac descriptor_arith :=
  unfold bitfield; rewrite ?land_ffff, ?land_ff, ?Z.shiftr_div_pow2 by lia; unfold u32;
  Z.div_mod_to_equations; lia.

Lemma SEG16_base type base lim dpl : 0 <= base < 4294967296 → seg_base (SEG16 type base lim dpl) = base.
Proof. intros. unfold seg_base, SEG16. simpl. descriptor_arith. Qed.
Lemma SEG16_limit type base lim dpl : 0 <= lim < 1048576 → seg_limit (SEG16 type base lim dpl) = lim.
Proof. intros. unfold seg_limit, SEG16. simpl. descriptor_arith. Qed.

Lemma gate_offset lo hi off :
  lo = Z.land (u32 off) 0xffff → hi = bitfield 16 (Z.shiftr (u32 off) 16) → lo + 65536 * hi = u32 off.
Proof. intros -> ->. descriptor_arith. Qed.

Lemma run_upd_segregs {A} f (k : unit → M A) s :
  (upd_segregs f ≫= k) s =
  k tt (set_segregs (<[this_cpu s := f (default zero_segregs (segregs s !! this_cpu s))]> (segregs s)) s).
Proof. unfold upd_segregs. by rewrite run_modify. Qed.

Lemma upd_segregs_fuse {A} f g (k : unit → M A) s :
  (upd_segregs f ;; upd_segregs g ≫= k) s = (upd_segregs (λ r, g (f r)) ≫= k) s.
Proof.
  rewrite !run_upd_segregs. simpl. rewrite lookup_insert_eq. simpl. rewrite insert_insert_eq. f_equal.
Qed.

(** The four flat segments cover the whole address space; the kernel's have
    privilege 0 and the user's 3. *)
Lemma gdt_init_flat i :
  1 <= i <= 4 → ∃ d, gdt_init !! i = Some d ∧ seg_base d = 0 ∧ seg_limit d = 4294967295 ∧
    sd_p d = 1 ∧ sd_s d = 1 ∧ sd_dpl d = if i <=? 2 then 0 else 3.
Proof.
  intros. assert (i = 1 ∨ i = 2 ∨ i = 3 ∨ i = 4) as [->|[->|[->| ->]]] by lia;
    eexists; (split; [vm_compute; reflexivity|]); vm_compute; auto.
Qed.

(** Every selector that [env_init_percpu] loads names a segment of the table with
    the privilege its two low bits ask for. *)
Lemma env_init_percpu_run im s :
  env_init_percpu im s = Done tt (set_segregs (<[this_cpu s :=
    mkSegRegs 0x23 0x23 0x10 0x10 0x10 0x08 0 (tr (default zero_segregs (segregs s !! this_cpu s)))
      (gdt_pd im) (idtr (default zero_segregs (segregs s !! this_cpu s)))]> (segregs s)) s).
Proof.
  unfold env_init_percpu, lgdt, lldt. rewrite !upd_segregs_fuse.
  rewrite run_upd_segregs. unfold upd_segregs, modify. simpl.
  rewrite lookup_insert_eq, insert_insert_eq. reflexivity.
Qed.

#[global] Arguments env_init_percpu : simpl never.
#[global] Arguments upd_segregs : simpl never.
