(* ===== verification/Spinlock.v ===== *)
(** * The big kernel lock: kern/spinlock.c and kern/spinlock.h

    [spin_lock] and [spin_unlock] as the rest of the kernel uses them, and the
    same two routines as interleaved atomic steps of several CPUs, with mutual
    exclusion and the unreachability of their panics.  The debugging fields
    [name] and [pcs] are left out. *)

From S2P Require Import Prelude Machine.
From stdpp Require Import base numbers list gmap fin_maps strings.

Local Open Scope Z_scope.

(** ** The routines, run without interference *)

Definition holding (lk : spinlock) (thiscpu : Z) : bool :=
  negb (locked lk =? 0) && bool_decide (lk_cpu lk = Some thiscpu).

Definition __spin_initlock (lk : spinlock) : spinlock := set_lk_cpu None (set_locked 0 lk).

(** [spin_lock (&kernel_lock)]; a lock held elsewhere is waited for. *)
Definition spin_lock : M unit :=
  lk ← gets kernel_lock;
  c ← cpunum;
  if holding lk c then panic "CPU cannot acquire kernel_lock: already holding" else
  modify (λ s, set_kernel_lock (set_locked 1 (kernel_lock s)) s) ;;
  if negb (locked lk =? 0) then leave Spinning else
  modify (λ s, set_kernel_lock (set_lk_cpu (Some c) (kernel_lock s)) s).

(** [spin_unlock (&kernel_lock)]; its message dereferences [lk->cpu]. *)
Definition spin_unlock : M unit :=
  lk ← gets kernel_lock;
  c ← cpunum;
  if negb (holding lk c) then
    match lk_cpu lk with None => leave KernelFault | Some _ => panic "spin_unlock" end
  else
  modify (λ s, set_kernel_lock (set_lk_cpu None (kernel_lock s)) s) ;;
  modify (λ s, set_kernel_lock (set_locked 0 (kernel_lock s)) s).

Definition lock_kernel : M unit := spin_lock.
Definition unlock_kernel : M unit := spin_unlock.

#[global] Arguments spin_lock : simpl never.
#[global] Arguments spin_unlock : simpl never.
#[global] Arguments lock_kernel : simpl never.
#[global] Arguments unlock_kernel : simpl never.

(** The lock is held by the running CPU. *)
Definition lock_mine (s : kstate) : Prop := kernel_lock s = mkSpinlock 1 (Some (this_cpu s)).

Section sequential.
Implicit Types s : kstate.

Lemma unlock_kernel_run s :
  lock_mine s → unlock_kernel s = Done tt (set_kernel_lock (mkSpinlock 0 None) s).
Proof.
  unfold lock_mine. intros H. unfold unlock_kernel, spin_unlock, cpunum. run. rewrite H.
  unfold holding. simpl. rewrite bool_decide_true by done. simpl. run. by rewrite H.
Qed.

Lemma lock_kernel_run s :
  kernel_lock s = mkSpinlock 0 None →
  lock_kernel s = Done tt (set_kernel_lock (mkSpinlock 1 (Some (this_cpu s))) s).
Proof.
  intros H. unfold lock_kernel, spin_lock, cpunum. run. rewrite H. simpl. run. by rewrite H.
Qed.
End sequential.

(** ** The routines as interleaved steps *)

(** Where a CPU is: outside, before the first or second read of [holding] in
    [spin_lock], before the exchange, before recording itself, in the critical
    section, before the second read of [holding] in [spin_unlock], before
    clearing [lk->cpu], before the releasing exchange, or in a panic. *)
Inductive pc : Type :=
  Outside | ReadLocked | ReadCpu | Exchange | RecordCpu | Critical
  | UnlockReadCpu | ClearCpu | Release | Panicked.

#[export] Instance pc_eq_dec : EqDecision pc.
Proof. solve_decision. Defined.

Record smp : Type := mkSmp { smp_lock : spinlock; smp_pc : Z → pc }.

Definition set_pc (pcs : Z → pc) (c : Z) (p : pc) : Z → pc := λ d, if d =? c then p else pcs d.

(** One atomic memory access of CPU [c]; a CPU in the critical section may stay
    there, and one outside may call [spin_lock]. *)
Definition cpu_step (c : Z) (lk : spinlock) (p : pc) : spinlock * pc :=
  match p with
  | Outside => (lk, ReadLocked)
  | ReadLocked => (lk, if locked lk =? 0 then Exchange else ReadCpu)
  | ReadCpu => (lk, if bool_decide (lk_cpu lk = Some c) then Panicked else Exchange)
  | Exchange => (set_locked 1 lk, if locked lk =? 0 then RecordCpu else Exchange)
  | RecordCpu => (set_lk_cpu (Some c) lk, Critical)
  | Critical => (lk, if locked lk =? 0 then Panicked else UnlockReadCpu)
  | UnlockReadCpu => (lk, if bool_decide (lk_cpu lk = Some c) then ClearCpu else Panicked)
  | ClearCpu => (set_lk_cpu None lk, Release)
  | Release => (set_locked 0 lk, Outside)
  | Panicked => (lk, Panicked)
  end.

Inductive smp_step : smp → smp → Prop :=
  | Step lk pcs c : smp_step (mkSmp lk pcs)
      (mkSmp (cpu_step c lk (pcs c)).1 (set_pc pcs c (cpu_step c lk (pcs c)).2)).

Definition smp_init : smp := mkSmp (__spin_initlock (mkSpinlock 1 None)) (λ _, Outside).
Definition reachable : smp → Prop := rtc smp_step smp_init.

(** The CPU owns the lock; it has recorded itself as the owner. *)
Definition owns (p : pc) : bool :=
  bool_decide (p ∈ [RecordCpu; Critical; UnlockReadCpu; ClearCpu; Release]).
Definition recorded (p : pc) : bool := bool_decide (p ∈ [Critical; UnlockReadCpu; ClearCpu]).

(** Runs CPU [c] alone for [n] steps. *)
Fixpoint solo (n : nat) (c : Z) (lk : spinlock) (p : pc) : spinlock * pc :=
  match n with
  | O => (lk, p)
  | S n => let '(lk, p) := cpu_step c lk p in solo n c lk p
  end.

Record lock_inv (m : smp) : Prop := {
  li_locked : locked (smp_lock m) = 0 ∨ locked (smp_lock m) = 1;
  li_free : locked (smp_lock m) = 0 → ∀ c, owns (smp_pc m c) = false;
  li_unique : ∀ c d, owns (smp_pc m c) = true → owns (smp_pc m d) = true → c = d;
  li_cpu : ∀ c, lk_cpu (smp_lock m) = Some c ↔ recorded (smp_pc m c) = true;
  li_nopanic : ∀ c, smp_pc m c ≠ Panicked;
}.

Section interleaving.
Lemma lock_inv_init : lock_inv smp_init.
Proof. split; try done. by left. Qed.

Lemma recorded_owns p : recorded p = true → owns p = true.
Proof. by destruct p. Qed.

(** A CPU that owns the lock excludes all others from owning it. *)
Lemma owns_others m c d :
  lock_inv m → owns (smp_pc m c) = true → d ≠ c → owns (smp_pc m d) = false.
Proof.
  intros Hi Hc Hne. destruct (owns (smp_pc m d)) eqn:E; [|done].
  exfalso. by apply Hne, (li_unique _ Hi).
Qed.

(** Obligations for changing the lock and the position of one CPU. *)
Lemma lock_inv_update lk lk' pcs c p' :
  lock_inv (mkSmp lk pcs) →
  locked lk' = 0 ∨ locked lk' = 1 →
  (locked lk' = 0 → owns p' = false ∧ ∀ d, d ≠ c → owns (pcs d) = false) →
  (owns p' = true → ∀ d, d ≠ c → owns (pcs d) = false) →
  (lk_cpu lk' = Some c ↔ recorded p' = true) →
  (∀ d, d ≠ c → lk_cpu lk' = Some d ↔ recorded (pcs d) = true) →
  p' ≠ Panicked → lock_inv (mkSmp lk' (set_pc pcs c p')).
Proof.
  intros [_ _ Hu _ Hn] Hl Hf Ho Hc Hd Hp. simpl in *. split; simpl; unfold set_pc.
  - done.
  - intros H d. destruct (Z.eqb_spec d c); [by apply Hf|by apply Hf].
  - intros d e. destruct (Z.eqb_spec d c) as [->|], (Z.eqb_spec e c) as [->|]; auto.
    + intros H1 H2. specialize (Ho H1 e ltac:(done)). congruence.
    + intros H1 H2. specialize (Ho H2 d ltac:(done)). congruence.
  - intros d. destruct (Z.eqb_spec d c) as [->|]; auto.
  - intros d. destruct (Z.eqb_spec d c); auto.
Qed.

Lemma cpu_step_inv c lk pcs :
  lock_inv (mkSmp lk pcs) → lock_inv (mkSmp (cpu_step c lk (pcs c)).1
    (set_pc pcs c (cpu_step c lk (pcs c)).2)).
Proof.
  intros Hi. pose proof Hi as [Hl Hf Hu Hc Hn]. simpl in *.
  assert (owns (pcs c) = true → ∀ d, d ≠ c → owns (pcs d) = false) as Ho.
  { intros Hoc d Hne. exact (owns_others _ c d Hi Hoc Hne). }
  assert (owns (pcs c) = true → ∀ d, d ≠ c → recorded (pcs d) = false) as Hr.
  { intros Hoc d Hne. specialize (Ho Hoc d Hne). destruct (recorded (pcs d)) eqn:E; [|done].
    apply recorded_owns in E. congruence. }
  assert (owns (pcs c) = true → locked lk = 1) as Hlk.
  { intros Hoc. destruct Hl as [E|E]; [|done]. specialize (Hf E c). congruence. }
  assert (owns (pcs c) = false → lk_cpu lk ≠ Some c) as Hnc.
  { intros Hoc H%Hc%recorded_owns. congruence. }
  assert (∀ d, d ≠ c → lk_cpu lk = Some d ↔ recorded (pcs d) = true) as Hd by auto.
  assert (locked lk = 0 → ∀ d, d ≠ c → owns (pcs d) = false) as Hfd by auto.
  pose proof (Hc c) as Hcc. pose proof (Hn c) as Hp.
  clear Hu Hc Hn Hf.
  destruct (pcs c) eqn:Ep; try done; simpl in *;
    repeat match goal with
    | H : ?b = ?b → _ |- _ => specialize (H eq_refl)
    | H : owns ?p = true → _ |- _ => first [specialize (H eq_refl)|clear H]
    | H : owns ?p = false → _ |- _ => first [specialize (H eq_refl)|clear H]
    end;
    try match goal with H : locked lk = 1 |- _ => rewrite !H; simpl end.
  all: try (rewrite bool_decide_false by done). all: try (rewrite bool_decide_true by (by apply Hcc)).
  all: apply (lock_inv_update lk); [exact Hi|..]; clear Hi; simpl; auto; try done.
  all: try (destruct (Z.eqb_spec (locked lk) 0) as [E|E]; simpl); auto; try done.
  all: try (intros d Hne; rewrite (Hr d Hne); split; congruence).
  all: intros; congruence.
Qed.

Lemma reachable_inv m : reachable m → lock_inv m.
Proof.
  unfold reachable. generalize lock_inv_init. generalize smp_init.
  intros m0 H0 Hr. induction Hr as [|x y z Hxy _ IH]; [done|].
  apply IH. destruct Hxy. by apply cpu_step_inv.
Qed.

(** C9: at most one CPU is past the exchange of spin_lock and before the releasing
    exchange of spin_unlock, whatever the interleaving of the memory accesses of
    any number of CPUs; in particular two CPUs are never both in the kernel's
    critical section, and the recorded owner is the CPU that is there. *)
Theorem spin_lock_mutual_exclusion m c d :
  reachable m → owns (smp_pc m c) = true → owns (smp_pc m d) = true →
  c = d ∧ (smp_pc m c = Critical → lk_cpu (smp_lock m) = Some c ∧ locked (smp_lock m) = 1).
Proof.
  intros Hm%reachable_inv Hc Hd. split; [by apply (li_unique _ Hm)|]. intros E. split.
  - apply (li_cpu _ Hm). by rewrite E.
  - destruct (li_locked _ Hm) as [H|H]; [|done]. pose proof (li_free _ Hm H c). congruence.
Qed.

(** neither panic of the lock is reachable: the unsynchronised reads by which
    spin_lock looks for a recursive acquisition and spin_unlock for a foreign
    release never misfire; and a waiting CPU takes the lock at its next exchange
    whenever it is free. *)
Theorem spin_lock_never_panics m c :
  reachable m →
  smp_pc m c ≠ Panicked ∧
  (locked (smp_lock m) = 0 → smp_pc m c = Exchange →
    (cpu_step c (smp_lock m) (smp_pc m c)).2 = RecordCpu) ∧
  (locked (smp_lock m) = 1 → lk_cpu (smp_lock m) = Some c → owns (smp_pc m c) = true).
Proof.
  intros Hm%reachable_inv. split_and!.
  - apply (li_nopanic _ Hm).
  - intros H E. rewrite E. simpl. by rewrite H.
  - intros _ H%(li_cpu _ Hm). by apply recorded_owns.
Qed.

(** run without interference, the interleaved steps are the routines the
    kernel calls: from a free lock, spin_lock ends in the critical section with
    the lock state that [spin_lock] computes, and from there spin_unlock ends
    outside with the state that [spin_unlock] computes. *)
Theorem spinlock_steps_refine s :
  kernel_lock s = mkSpinlock 0 None →
  ∃ s1 s2, lock_kernel s = Done tt s1 ∧ unlock_kernel s1 = Done tt s2 ∧
    solo 4 (this_cpu s) (kernel_lock s) Outside = (kernel_lock s1, Critical) ∧
    solo 4 (this_cpu s) (kernel_lock s1) Critical = (kernel_lock s2, Outside) ∧
    (∀ s', lock_mine s' → this_cpu s' = this_cpu s →
      lock_kernel s' = Exit (Panic "CPU cannot acquire kernel_lock: already holding") s').
Proof.
  intros H. eexists _, _. split; [by apply lock_kernel_run|].
  split; [by apply unlock_kernel_run|]. rewrite H. split_and!; [done| |].
  - simpl. by rewrite bool_decide_true.
  - unfold lock_mine. intros s' Hs' E. unfold lock_kernel, spin_lock, cpunum. run. rewrite Hs'.
    unfold holding. simpl. by rewrite bool_decide_true.
Qed.
End interleaving.

(** ** Concrete instances *)

(** CPU 0 has taken the lock while CPU 1 waits for it. *)
Definition ex_schedule : list Z := [0; 1; 0; 0; 1; 0; 1; 1].
Definition ex_smp : smp :=
  foldl (λ m c, mkSmp (cpu_step c (smp_lock m) (smp_pc m c)).1
    (set_pc (smp_pc m) c (cpu_step c (smp_lock m) (smp_pc m c)).2)) smp_init ex_schedule.

Lemma ex_smp_reachable : reachable ex_smp.
Proof.
  unfold reachable, ex_smp. generalize smp_init.
  induction ex_schedule as [|c cs IH]; intros m; simpl; [done|].
  eapply rtc_l; [|apply IH]. destruct m. apply Step.
Qed.

Lemma spin_lock_mutual_exclusion_witness :
  0 = 0 ∧ (smp_pc ex_smp 0 = Critical → lk_cpu (smp_lock ex_smp) = Some 0 ∧
    locked (smp_lock ex_smp) = 1).
Proof. apply (spin_lock_mutual_exclusion ex_smp 0 0); [apply ex_smp_reachable|done|done]. Defined.

Lemma spin_lock_never_panics_witness :
  smp_pc ex_smp 1 ≠ Panicked ∧
  (locked (smp_lock ex_smp) = 0 → smp_pc ex_smp 1 = Exchange →
    (cpu_step 1 (smp_lock ex_smp) (smp_pc ex_smp 1)).2 = RecordCpu) ∧
  (locked (smp_lock ex_smp) = 1 → lk_cpu (smp_lock ex_smp) = Some 1 →
    owns (smp_pc ex_smp 1) = true).
Proof. apply (spin_lock_never_panics ex_smp 1). apply ex_smp_reachable. Defined.

Lemma spinlock_steps_refine_witness :
  ∃ s1 s2, lock_kernel zero_kstate = Done tt s1 ∧ unlock_kernel s1 = Done tt s2 ∧
    solo 4 0 (kernel_lock zero_kstate) Outside = (kernel_lock s1, Critical) ∧
    solo 4 0 (kernel_lock s1) Critical = (kernel_lock s2, Outside) ∧
    (∀ s', lock_mine s' → this_cpu s' = 0 →
      lock_kernel s' = Exit (Panic "CPU cannot acquire kernel_lock: already holding") s').
Proof. apply (spinlock_steps_refine zero_kstate). reflexivity. Defined.
