(* ===== verification/PageAlloc.v ===== *)
(** * Physical pages: kern/pmap.c, [boot_alloc] to [page_decref]

    The boot-time allocator, the initialisation of the [pages] array and of the
    free list threaded through it, and the page allocator proper, with the
    inline conversions of kern/pmap.h.  The allocator is related to an abstract
    stack of free page numbers. *)

From S2P Require Import Prelude Machine.
From stdpp Require Import base numbers list gmap fin_maps strings.

Local Open Scope Z_scope.

(** ** kern/pmap.h: conversions between the four kinds of address *)

Definition _paddr (kva : Z) : M Z :=
  if kva <? KERNBASE then panic "PADDR called with invalid kva"
  else mret (kva - KERNBASE).
Abbreviation PADDR := _paddr.

Definition _kaddr (pa : Z) : M Z :=
  n ← gets npages;
  if n <=? PGNUM pa then panic "KADDR called with invalid pa"
  else mret (u32 (pa + KERNBASE)).
Abbreviation KADDR := _kaddr.

Definition page2pa (pp : Z) : Z := u32 (Z.shiftl pp PGSHIFT).

Definition pa2page (pa : Z) : M Z :=
  n ← gets npages;
  if n <=? PGNUM pa then panic "pa2page called with invalid pa" else mret (PGNUM pa).

Definition page2kva (pp : Z) : M Z := KADDR (page2pa pp).

(** [memset] on kernel memory. *)
Definition kmemset (kva c n : Z) : M unit :=
  modify (λ s, set_mem (fill (mem s) (kva - KERNBASE) c (Z.to_nat n)) s).

Section boot.
(** The linker symbol [end]: the first address after the kernel image. *)
Variable kend : Z.

Definition boot_alloc (n : Z) : M Z :=
  nf ← gets nextfree;
  (if nf =? 0 then
     modify (λ s, set_nextfree (ROUNDUP kend PGSIZE) (set_nAvailPages (npages s) s))
   else mret tt) ;;
  let amount_pages := if n mod PGSIZE =? 0 then n / PGSIZE else n / PGSIZE + 1 in
  avail ← gets nAvailPages;
  if avail <? amount_pages then panic "We don't have any available pages" else
  result ← gets nextfree;
  (if n =? 0 then mret tt
   else modify (λ s,
     set_nextfree (ROUNDUP (u32 (nextfree s + u32 (amount_pages * PGSIZE))) PGSIZE)
       (set_nAvailPages (u32 (nAvailPages s - amount_pages)) s))) ;;
  mret result.

(** The pages below the I/O hole are freed up to the constant [IOPHYSMEM];
    [npages_basemem] is not read. *)
Definition page_init : M unit :=
  n ← gets npages;
  modify (set_page_free_list (Some 0)) ;;
  for_each (seqZ 1 (n - 1)) (λ i,
    upd_page (λ p, set_paddr (page2pa (i - 1)) (set_pp_link (Some i) (set_pp_ref 0 p)))
      (i - 1)) ;;
  upd_page (λ p, set_paddr (page2pa (n - 1)) (set_pp_link None (set_pp_ref 0 p))) (n - 1) ;;
  modify (set_tail_free_page (Some (n - 1))) ;;
  upd_page (set_pp_ref 1) 0 ;;
  upd_page (set_pp_link None) 0 ;;
  modify (set_page_free_list (Some 1)) ;;
  b ← boot_alloc 0;
  next_boot_free ← PADDR b;
  for_each (seqZ (PGNUM EXTPHYSMEM) (PGNUM next_boot_free - PGNUM EXTPHYSMEM))
    (upd_page (set_pp_ref 1)) ;;
  upd_page (set_pp_link (Some (PGNUM next_boot_free))) (PGNUM IOPHYSMEM - 1) ;;
  upd_page (set_pp_link None) (PGNUM next_boot_free - 1) ;;
  upd_page (set_pp_link (Some (PGNUM IOPHYSMEM))) 0 ;;
  upd_page (set_pp_link (Some (PGNUM MPENTRY_PADDR + 1))) (PGNUM MPENTRY_PADDR - 1) ;;
  upd_page (set_pp_ref 1) (PGNUM MPENTRY_PADDR) ;;
  upd_page (set_pp_link None) (PGNUM MPENTRY_PADDR) ;;
  upd_page (set_pp_link (Some (PGNUM MPENTRY_PADDR))) (PGNUM IOPHYSMEM) ;;
  modify (λ s, set_nAvailPages
    (u32 (nAvailPages s - (1 + (PGNUM EXTPHYSMEM - PGNUM IOPHYSMEM)))) s).
End boot.

Definition page_alloc (alloc_flags : Z) : M (option Z) :=
  hd ← gets page_free_list;
  match hd with
  | None => mret None
  | Some ret_page =>
      p ← get_page ret_page;
      modify (set_page_free_list (pp_link p)) ;;
      upd_page (set_pp_link None) ret_page ;;
      modify (λ s, set_nAvailPages (u32 (nAvailPages s - 1)) s) ;;
      (if has ALLOC_ZERO alloc_flags then
         p ← get_page ret_page; kva ← KADDR (paddr p); kmemset kva 0 PGSIZE
       else mret tt) ;;
      upd_page (set_pp_ref 0) ret_page ;;
      mret (Some ret_page)
  end.

Definition page_free (pp : option Z) : M unit :=
  match pp with
  | None => mret tt
  | Some pp =>
      p ← get_page pp;
      n ← gets npages;
      if n <=? PGNUM (paddr p) then mret tt else
      hd ← gets page_free_list;
      upd_page (set_pp_link hd) pp ;;
      modify (set_page_free_list (Some pp)) ;;
      modify (λ s, set_nAvailPages (u32 (nAvailPages s + 1)) s)
  end.

Definition page_decref (pp : Z) : M unit :=
  upd_page (λ p, set_pp_ref (u16 (pp_ref p - 1)) p) pp ;;
  p ← get_page pp;
  if pp_ref p =? 0 then page_free (Some pp) else mret tt.

#[global] Arguments _paddr : simpl never.
#[global] Arguments _kaddr : simpl never.
#[global] Arguments page2pa : simpl never.
#[global] Arguments pa2page : simpl never.
#[global] Arguments page2kva : simpl never.
#[global] Arguments kmemset : simpl never.
#[global] Arguments boot_alloc : simpl never.
#[global] Arguments page_alloc : simpl never.
#[global] Arguments page_free : simpl never.
#[global] Arguments page_decref : simpl never.

(** ** Address conversions *)

Section conversions.
Implicit Types (s : kstate) (pp pa : Z).

Lemma page2pa_mul pp : 0 <= pp < 1048576 → page2pa pp = pp * 4096.
Proof.
  intros. unfold page2pa, PGSHIFT. rewrite Z.shiftl_mul_pow2 by lia. apply u32_id. lia.
Qed.

Lemma PGNUM_page pp f : 0 <= f < 4096 → PGNUM (pp * 4096 + f) = pp.
Proof. intros. rewrite PGNUM_div. Z.div_mod_to_equations. lia. Qed.

Lemma run_KADDR {A} pa (k : Z → M A) s :
  0 <= pa → PGNUM pa < npages s → npages s <= 65536 →
  (KADDR pa ≫= k) s = k (pa + KERNBASE) s.
Proof.
  intros H0 H1 H2. unfold _kaddr. rewrite run_assoc, run_gets.
  destruct (Z.leb_spec (npages s) (PGNUM pa)); [lia|]. rewrite run_ret.
  rewrite PGNUM_div in *. rewrite u32_id; [done|]. unfold_layout.
  Z.div_mod_to_equations. lia.
Qed.

Lemma run_pa2page {A} pa (k : Z → M A) s :
  PGNUM pa < npages s → (pa2page pa ≫= k) s = k (PGNUM pa) s.
Proof.
  intros H. unfold pa2page. rewrite run_assoc, run_gets.
  destruct (Z.leb_spec (npages s) (PGNUM pa)); [lia|]. done.
Qed.

Lemma run_page2kva {A} pp (k : Z → M A) s :
  0 <= pp < npages s → npages s <= 65536 →
  (page2kva pp ≫= k) s = k (pp * 4096 + KERNBASE) s.
Proof.
  intros. unfold page2kva. rewrite page2pa_mul by lia.
  rewrite run_KADDR; [done|lia| |done].
  replace (pp * 4096) with (pp * 4096 + 0) by lia. rewrite PGNUM_page; lia.
Qed.

Lemma run_PADDR {A} kva (k : Z → M A) s :
  KERNBASE <= kva → (PADDR kva ≫= k) s = k (kva - KERNBASE) s.
Proof. intros. unfold _paddr. destruct (Z.ltb_spec kva KERNBASE); [lia|done]. Qed.
End conversions.

(** ** The allocator's invariant *)

(** The free list as a function from page numbers to their successors. *)
Definition next_page (s : kstate) (pp : Z) : option (option Z) := pp_link <$> pages s !! pp.

(** [pages_wf s fl]: there is one [struct Page] per physical page, carrying that
    page's address, and the free list is the acyclic chain of the pages [fl]. *)
Record pages_wf (s : kstate) (fl : list Z) : Prop := {
  pw_npages : 0 < npages s <= 65536;
  pw_total : ∀ i, 0 <= i < npages s → is_Some (pages s !! i);
  pw_page : map_Forall (λ i p, 0 <= i < npages s ∧ paddr p = i * 4096 ∧ 0 <= pp_ref p < 65536)
    (pages s);
  pw_chain : chain (next_page s) (page_free_list s) fl;
  pw_nodup : NoDup fl;
}.

#[export] Instance pages_wf_dec s fl : Decision (pages_wf s fl).
Proof.
  refine (cast_if (decide ((0 < npages s <= 65536) ∧
    (∀ i, 0 <= i < npages s → is_Some (pages s !! i)) ∧
    map_Forall (λ i p, 0 <= i < npages s ∧ paddr p = i * 4096 ∧ 0 <= pp_ref p < 65536)
      (pages s) ∧ chain (next_page s) (page_free_list s) fl ∧ NoDup fl)));
  abstract (match goal with
            | H : _ ∧ _ |- _ => destruct H as (? & ? & ? & ? & ?); by constructor
            | H : ¬ _ |- _ => intros []; by apply H
            end).
Defined.

Section invariant.
Implicit Types (s : kstate) (fl : list Z).

Lemma pw_in_range s fl pp : pages_wf s fl → pp ∈ fl → 0 <= pp < npages s.
Proof.
  intros Hw Hpp. destruct (chain_bound _ _ _ _ (pw_chain _ _ Hw) Hpp) as [q Hq].
  unfold next_page in Hq. destruct (pages s !! pp) eqn:E; [|done].
  by apply (pw_page _ _ Hw) in E as (? & _).
Qed.

Lemma pw_paddr s fl pp p : pages_wf s fl → pages s !! pp = Some p → paddr p = pp * 4096.
Proof. intros Hw Hp. by apply (pw_page _ _ Hw) in Hp as (_ & ? & _). Qed.

Lemma pw_bound s fl pp p : pages_wf s fl → pages s !! pp = Some p → 0 <= pp < npages s.
Proof. intros Hw Hp. by apply (pw_page _ _ Hw) in Hp as (? & _). Qed.

(** Updating the entry of an allocated page keeps the allocator's invariant. *)
Lemma pages_wf_update s s' fl pp p :
  pages_wf s fl → 0 <= pp < npages s → pp ∉ fl →
  paddr p = pp * 4096 → 0 <= pp_ref p < 65536 →
  npages s' = npages s → page_free_list s' = page_free_list s →
  pages s' = <[pp := p]> (pages s) → pages_wf s' fl.
Proof.
  intros Hw Hpp Hfl Ha Hr Hn Hf Hp. split; rewrite ?Hn, ?Hf, ?Hp.
  - apply Hw.
  - intros i Hi. destruct (decide (i = pp)) as [->|]; simplify_map_eq; [done|].
    by apply (pw_total _ _ Hw).
  - apply map_Forall_insert_2; [done|]. apply Hw.
  - eapply chain_frame; [|apply Hw]. intros q Hq. unfold next_page. rewrite Hp.
    rewrite lookup_insert_ne; [done|]. by intros <-.
  - apply Hw.
Qed.

(** The invariant only depends on the allocator's own variables. *)
Lemma pages_wf_ext s s' fl :
  pages_wf s fl → npages s' = npages s → page_free_list s' = page_free_list s →
  pages s' = pages s → pages_wf s' fl.
Proof.
  intros [] Hn Hf Hp. split; unfold next_page; rewrite ?Hn, ?Hf, ?Hp; done.
Qed.
End invariant.

(** ** Behaviour of [page_alloc], [page_free] and [page_decref] *)

(** The state after [page_alloc] hands out the first page [pp] of the list. *)
Definition alloc_post (flags pp : Z) (p : Page) (s : kstate) : kstate :=
  set_pages (<[pp := mkPage None (paddr p) 0]> (pages s))
    (set_nAvailPages (u32 (nAvailPages s - 1))
      (set_page_free_list (pp_link p)
        (if has ALLOC_ZERO flags then set_mem (fill (mem s) (paddr p) 0 (Z.to_nat PGSIZE)) s else s))).

(** The state after [page_free] puts page [pp] back. *)
Definition free_post (pp : Z) (p : Page) (s : kstate) : kstate :=
  set_nAvailPages (u32 (nAvailPages s + 1))
    (set_page_free_list (Some pp)
      (set_pages (<[pp := set_pp_link (page_free_list s) p]> (pages s)) s)).

Section allocator.
Implicit Types (s : kstate) (fl : list Z) (pp : Z) (p : Page).

Lemma page_alloc_nil s flags : pages_wf s [] → page_alloc flags s = Done None s.
Proof.
  intros Hw. unfold page_alloc. rewrite run_gets.
  by rewrite (pw_chain _ _ Hw : page_free_list s = None).
Qed.

Lemma page_alloc_cons s fl pp flags :
  pages_wf s (pp :: fl) →
  ∃ p, pages s !! pp = Some p ∧ paddr p = pp * 4096 ∧
    page_alloc flags s = Done (Some pp) (alloc_post flags pp p s).
Proof.
  intros Hw. pose proof (pw_in_range _ _ pp Hw ltac:(set_solver)) as Hr.
  destruct (pw_total _ _ Hw pp Hr) as [p Hp].
  pose proof (pw_paddr _ _ _ _ Hw Hp) as Ha. pose proof (pw_npages _ _ Hw).
  exists p. split_and!; [done..|].
  unfold page_alloc, alloc_post. rewrite run_gets, (proj1 (pw_chain _ _ Hw)).
  run. destruct (has ALLOC_ZERO flags); run.
  - rewrite run_KADDR; simpl; try lia.
    2: { replace (paddr p) with (pp * 4096 + 0) by lia. rewrite PGNUM_page; lia. }
    unfold kmemset. run. rewrite insert_insert_eq, Z.add_simpl_r. reflexivity.
  - rewrite insert_insert_eq. reflexivity.
Qed.

Lemma alloc_post_wf s fl pp p flags :
  pages_wf s (pp :: fl) → pages s !! pp = Some p → pages_wf (alloc_post flags pp p s) fl.
Proof.
  intros Hw Hp. pose proof (pw_nodup _ _ Hw) as [Hnd Hnd']%NoDup_cons.
  pose proof (pw_chain _ _ Hw) as [_ Hc]. unfold next_page in Hc at 1.
  rewrite Hp in Hc. simpl in Hc.
  unfold alloc_post. split; destruct (has ALLOC_ZERO flags); simpl.
  1, 2: apply Hw.
  1, 2: intros i Hi; destruct (decide (i = pp)) as [->|]; simplify_map_eq; [done|];
    by apply (pw_total _ _ Hw).
  1, 2: apply map_Forall_insert_2; [|apply Hw]; simpl;
    apply (pw_page _ _ Hw) in Hp as (? & ? & ?); split_and!; lia.
  1, 2: eapply chain_frame; [|exact Hc]; intros q Hq; unfold next_page; simpl;
    rewrite lookup_insert_ne; [done|by intros <-].
  all: done.
Qed.

Lemma page_free_eq s fl pp p :
  pages_wf s fl → pages s !! pp = Some p →
  page_free (Some pp) s = Done tt (free_post pp p s).
Proof.
  intros Hw Hp. pose proof (pw_paddr _ _ _ _ Hw Hp) as Ha.
  pose proof (pw_bound _ _ _ _ Hw Hp).
  unfold page_free. run. destruct (Z.leb_spec (npages s) (PGNUM (paddr p))) as [Hle|].
  { rewrite Ha in Hle. replace (pp * 4096) with (pp * 4096 + 0) in Hle by lia.
    rewrite PGNUM_page in Hle; lia. }
  run. done.
Qed.

Lemma free_post_wf s fl pp p :
  pages_wf s fl → pages s !! pp = Some p → pp ∉ fl →
  pages_wf (free_post pp p s) (pp :: fl).
Proof.
  intros Hw Hp Hfl. unfold free_post. split; simpl.
  - apply Hw.
  - intros i Hi. destruct (decide (i = pp)) as [->|]; simplify_map_eq; [done|].
    by apply (pw_total _ _ Hw).
  - apply map_Forall_insert_2; [|apply Hw]. by apply (pw_page _ _ Hw) in Hp.
  - split; [done|]. unfold next_page at 1. simpl. rewrite lookup_insert_eq. simpl.
    eapply chain_frame; [|apply Hw]. intros q Hq. unfold next_page. simpl.
    rewrite lookup_insert_ne; [done|by intros <-].
  - apply NoDup_cons. split; [done|apply Hw].
Qed.

Lemma page_decref_eq s fl pp p :
  pages_wf s fl → pages s !! pp = Some p →
  page_decref pp s =
    let p' := set_pp_ref (u16 (pp_ref p - 1)) p in
    let s' := set_pages (<[pp := p']> (pages s)) s in
    if pp_ref p =? 1 then Done tt (free_post pp p' s') else Done tt s'.
Proof.
  intros Hw Hp. pose proof (pw_page _ _ Hw _ _ Hp) as (Hb & Ha & Hr).
  unfold page_decref. run.
  destruct (Z.eqb_spec (pp_ref p) 1) as [He|Hne].
  - rewrite He. change (u16 (1 - 1)) with 0. simpl.
    unfold page_free. run. rewrite Ha.
    replace (pp * 4096) with (pp * 4096 + 0) by lia. rewrite PGNUM_page by lia.
    destruct (Z.leb_spec (npages s) pp); [lia|]. run. done.
  - destruct (Z.eqb_spec (u16 (pp_ref p - 1)) 0) as [He|]; [|done].
    exfalso. unfold_widths. Z.div_mod_to_equations. lia.
Qed.
End allocator.

(** ** Initialisation of the free list *)

(** [described s F]: the array [pages] holds [F i] at each index [i]. *)
Definition described (s : kstate) (F : Z → Page) : Prop :=
  ∀ i, pages s !! i = if decide (0 <= i < npages s) then Some (F i) else None.

Lemma described_upd {A} s F f j (k : unit → M A) :
  described s F → 0 <= j < npages s →
  ∃ ps, (upd_page f j ≫= k) s = k tt (set_pages ps s) ∧
    described (set_pages ps s) (λ i, if i =? j then f (F i) else F i).
Proof.
  intros HF Hj. eexists. erewrite run_upd_page.
  2: { rewrite HF, decide_True by done. done. }
  split; [done|]. intros i. simpl. rewrite lookup_insert, (HF i).
  destruct (Z.eqb_spec i j) as [->|]; repeat case_decide; try lia; done.
Qed.

Lemma described_ext s s' F :
  pages s' = pages s → npages s' = npages s → described s F → described s' F.
Proof. intros Hp Hn HF i. by rewrite Hp, Hn, HF. Qed.

(** A loop that updates the entries [i - d], for [i] from [a] on. *)
Lemma described_for {A} s F f a n d (k : unit → M A) :
  described s F → 0 <= n → 0 <= a - d → a - d + n <= npages s →
  ∃ ps, (for_each (seqZ a n) (λ i, upd_page (f i) (i - d)) ≫= k) s = k tt (set_pages ps s) ∧
    described (set_pages ps s)
      (λ j, if (a <=? j + d) && (j + d <? a + n) then f (j + d) (F j) else F j).
Proof.
  remember (Z.to_nat n) as m eqn:Hm. revert s F a n Hm.
  induction m as [|m IH]; intros s F a n Hm HF Hn Ha Hb.
  - rewrite seqZ_nil by lia. exists (pages s). simpl. split; [by destruct s|].
    intros i. simpl. rewrite (HF i). case_decide; [|done].
    destruct (Z.leb_spec a (i + d)), (Z.ltb_spec (i + d) (a + n)); try lia; done.
  - rewrite seqZ_cons by lia. simpl. rewrite run_assoc.
    destruct (described_upd s F (f a) (a - d) (λ _ : (),
      for_each (seqZ (Z.succ a) (Z.pred n)) (λ i, upd_page (f i) (i - d)) ≫= k) HF)
      as (ps & -> & HF'); [lia|].
    edestruct (IH _ _ (Z.succ a) (Z.pred n) ltac:(lia) HF') as (ps' & -> & HF'');
      simpl; try lia.
    exists ps'. split; [by destruct s|]. intros i.
    transitivity (pages (set_pages ps' (set_pages ps s)) !! i); [done|].
    rewrite HF''. simpl. case_decide; [|done]. f_equal.
    destruct (Z.leb_spec (Z.succ a) (i + d)), (Z.ltb_spec (i + d) (Z.succ a + Z.pred n)),
      (Z.leb_spec a (i + d)), (Z.ltb_spec (i + d) (a + n)), (Z.eqb_spec i (a - d));
      simpl; try lia; try done.
    f_equal. lia.
Qed.

Lemma for_each_shift0 l f :
  for_each l (upd_page f) = for_each l (λ i, upd_page f (i - 0)).
Proof. induction l as [|i l IH]; simpl; [done|]. by rewrite IH, Z.sub_0_r. Qed.

(** Runs the next update of the described array. *)
Ltac run_described HF :=
  let HF' := fresh in let ps := fresh "ps" in
  lazymatch goal with
  | |- context [(upd_page ?f ?j ≫= ?k) ?s] =>
      destruct (described_upd s _ f j k HF) as (ps & -> & HF'); [simpl; lia|]
  | |- context [(for_each (seqZ ?a ?n) (λ i, upd_page (@?f i) (i - ?d)) ≫= ?k) ?s] =>
      destruct (described_for s _ f a n d k HF) as (ps & -> & HF'); [simpl; lia..|]
  end; clear HF; rename HF' into HF; simpl.

Lemma chain_seqZ next a n tl rest :
  0 < n → (∀ j, a <= j < a + n - 1 → next j = Some (Some (j + 1))) →
  next (a + n - 1) = Some tl → chain next tl rest →
  chain next (Some a) (seqZ a n ++ rest).
Proof.
  intros Hn. remember (Z.to_nat (n - 1)) as k eqn:Hk. revert a n Hn Hk.
  induction k as [|k IH]; intros a n Hn Hk Hnx Hlast Hc;
    rewrite seqZ_cons by lia; simpl; split; try done.
  - replace (a + n - 1) with a in Hlast by lia. rewrite Hlast.
    rewrite seqZ_nil by lia. done.
  - rewrite Hnx by lia. change (Z.succ a) with (a + 1). apply IH; try lia; try done.
    + intros j Hj. apply Hnx. lia.
    + by replace (a + 1 + Z.pred n - 1) with (a + n - 1) by lia.
Qed.

(** Page [i] after [page_init], when the kernel and its boot-time data end
    before page [nb]. *)
Definition init_page (nb n i : Z) : Page :=
  mkPage
    (if i =? 0 then Some 160 else if i =? 6 then Some 8 else if i =? 7 then None
     else if i =? 159 then Some nb else if i =? 160 then Some 7
     else if i =? nb - 1 then None else if i =? n - 1 then None else Some (i + 1))
    (i * 4096)
    (if (i =? 0) || (i =? 7) || ((256 <=? i) && (i <? nb)) then 1 else 0).

(** The pages that [page_init] leaves free, in list order. *)
Definition init_free (nb n : Z) : list Z := seqZ 1 6 ++ seqZ 8 152 ++ seqZ nb (n - nb).

Section init.
Variable kend : Z.
Implicit Types s : kstate.

Lemma boot_alloc_0 s :
  nextfree s ≠ 0 → 0 <= nAvailPages s → boot_alloc kend 0 s = Done (nextfree s) s.
Proof.
  intros Hn Ha. unfold boot_alloc. run.
  destruct (Z.eqb_spec (nextfree s) 0); [done|]. run.
  change (0 mod PGSIZE) with 0. change (0 / PGSIZE) with 0. simpl.
  destruct (Z.ltb_spec (nAvailPages s) 0); [lia|]. run. done.
Qed.

(** The state [page_init] expects: the array is allocated, and the boot-time
    allocator has passed the I/O hole. *)
Definition before_page_init s (nb : Z) : Prop :=
  nb = PGNUM (nextfree s - KERNBASE) ∧ KERNBASE <= nextfree s ∧ 256 < nb < npages s ∧
  npages s <= 65536 ∧ 0 <= nAvailPages s ∧
  (∀ i, 0 <= i < npages s → is_Some (pages s !! i)) ∧
  map_Forall (λ i _, 0 <= i < npages s) (pages s).

Lemma page_init_run s nb :
  before_page_init s nb →
  ∃ s', page_init kend s = Done tt s' ∧ npages s' = npages s ∧
    page_free_list s' = Some 1 ∧ mem s' = mem s ∧ nextfree s' = nextfree s ∧
    nAvailPages s' = u32 (nAvailPages s - 97) ∧ described s' (init_page nb (npages s)).
Proof.
  intros (Hnb & Hkb & Hr & Hn & Hav & Htot & Hdom). unfold page_init. run.
  assert (described (set_page_free_list (Some 0) s)
    (λ i, default (mkPage None 0 0) (pages s !! i))) as HF.
  { intros i. simpl. case_decide as Hi; [by destruct (Htot i Hi) as [p ->]|].
    destruct (pages s !! i) eqn:E; [|done]. by apply Hdom in E. }
  run_described HF. run_described HF. run.
  eapply (described_ext _ (set_tail_free_page (Some (npages s - 1)) _)) in HF; [|done..].
  run_described HF. run_described HF. run.
  eapply (described_ext _ (set_page_free_list (Some 1) _)) in HF; [|done..].
  erewrite (bind_Done (boot_alloc kend 0)).
  2: { apply boot_alloc_0; simpl; [unfold KERNBASE in *; lia|done]. }
  simpl. rewrite run_PADDR by done. rewrite <- Hnb.
  change (PGNUM EXTPHYSMEM) with 256. change (PGNUM IOPHYSMEM) with 160.
  change (PGNUM MPENTRY_PADDR) with 7.
  rewrite for_each_shift0. do 8 run_described HF.
  eexists. split; [reflexivity|]. simpl. do 5 (split; [reflexivity|]).
  intros i. specialize (HF i). simpl in *. rewrite HF.
  case_decide as Hi; [|done]. f_equal. clear HF Htot.
  unfold init_page. rewrite !page2pa_mul by lia. repeat Z_case.
  all: unfold set_paddr, set_pp_link, set_pp_ref; simpl; f_equal; try lia; try done.
  all: f_equal; lia.
Qed.

Lemma elem_of_init_free nb n i :
  256 < nb < n → i ∈ init_free nb n ↔ (1 <= i < 160 ∧ i ≠ 7) ∨ nb <= i < n.
Proof. intros. unfold init_free. rewrite !elem_of_app, !elem_of_seqZ. lia. Qed.

Lemma init_free_chain s nb :
  256 < nb < npages s → described s (init_page nb (npages s)) →
  chain (next_page s) (Some 1) (init_free nb (npages s)).
Proof.
  intros Hr HF.
  assert (∀ i, 0 <= i < npages s →
    next_page s i = Some (pp_link (init_page nb (npages s) i))) as Hnx.
  { intros i Hi. unfold next_page. by rewrite HF, decide_True. }
  unfold init_free. eapply (chain_seqZ _ 1 6 (Some 8)); [lia|..].
  { intros j Hj. rewrite Hnx by lia. unfold init_page. repeat Z_case. done. }
  { rewrite Hnx by lia. done. }
  eapply (chain_seqZ _ 8 152 (Some nb)); [lia|..].
  { intros j Hj. rewrite Hnx by lia. unfold init_page. repeat Z_case. done. }
  { rewrite Hnx by lia. done. }
  rewrite <- (app_nil_r (seqZ nb (npages s - nb))). eapply (chain_seqZ _ _ _ None); [lia|..|done].
  { intros j Hj. rewrite Hnx by lia. unfold init_page. repeat Z_case. done. }
  { rewrite Hnx by lia. unfold init_page. repeat Z_case. done. }
Qed.

Lemma init_free_NoDup nb n : 256 < nb < n → NoDup (init_free nb n).
Proof.
  intros. unfold init_free. rewrite !NoDup_app. split_and!; try apply NoDup_seqZ;
    intros x; rewrite ?elem_of_app, !elem_of_seqZ; lia.
Qed.

Lemma described_init_wf s nb :
  256 < nb < npages s → npages s <= 65536 → page_free_list s = Some 1 →
  described s (init_page nb (npages s)) → pages_wf s (init_free nb (npages s)).
Proof.
  intros Hr Hn Hfl HF. split.
  - lia.
  - intros i Hi. by rewrite HF, decide_True.
  - intros i p Hp. rewrite HF in Hp. case_decide; [|done]. injection Hp as <-.
    unfold init_page. simpl. split_and!; try lia; destruct (_ || _); lia.
  - rewrite Hfl. by apply init_free_chain.
  - by apply init_free_NoDup.
Qed.
End init.

(** ** The boot-time allocator *)

Definition pages_for (n : Z) : Z := if n mod PGSIZE =? 0 then n / PGSIZE else n / PGSIZE + 1.

Section boot_alloc.
Variable kend : Z.
Implicit Types s : kstate.

Lemma pages_for_bound n : 0 <= n → n <= pages_for n * 4096 < n + 4096.
Proof.
  intros. unfold pages_for, PGSIZE. destruct (Z.eqb_spec (n mod 4096) 0);
    Z.div_mod_to_equations; lia.
Qed.

Lemma ROUNDUP_aligned a : 0 <= a < 4294963200 → a mod 4096 = 0 → ROUNDUP a PGSIZE = a.
Proof.
  intros Ha Hm. unfold ROUNDUP, ROUNDDOWN, PGSIZE.
  rewrite (u32_id (a + 4096 - 1)), u32_id by lia. Z.div_mod_to_equations. lia.
Qed.

Lemma ROUNDUP_bounds a :
  0 <= a < 4294963200 → a <= ROUNDUP a PGSIZE < a + 4096 ∧ ROUNDUP a PGSIZE mod 4096 = 0.
Proof.
  intros Ha. unfold ROUNDUP, ROUNDDOWN, PGSIZE.
  rewrite (u32_id (a + 4096 - 1)), u32_id by lia. Z.div_mod_to_equations. lia.
Qed.

(** The allocator after its first call: an aligned frontier inside the window of
    kernel addresses, and an accurate page budget. *)
Definition boot_ready s : Prop :=
  KERNBASE <= nextfree s ∧ nextfree s mod 4096 = 0 ∧
  0 <= nAvailPages s ∧ nextfree s + nAvailPages s * 4096 < 4294963200.

Lemma boot_alloc_run s n :
  boot_ready s → 0 <= n →
  boot_alloc kend n s =
    if nAvailPages s <? pages_for n then Exit (Panic "We don't have any available pages") s
    else Done (nextfree s)
      (set_nextfree (nextfree s + pages_for n * 4096)
        (set_nAvailPages (nAvailPages s - pages_for n) s)).
Proof.
  intros (Hk & Hal & Hav & Hb) Hn. pose proof (pages_for_bound n Hn) as Hp.
  unfold boot_alloc. run. fold (pages_for n).
  destruct (Z.eqb_spec (nextfree s) 0) as [E|_]; [unfold KERNBASE in *; lia|]. run.
  destruct (Z.ltb_spec (nAvailPages s) (pages_for n)); [done|]. run.
  assert (nextfree s + pages_for n * 4096 < 4294963200) by nia.
  unfold KERNBASE in *.
  destruct (Z.eqb_spec n 0) as [->|]; run.
  - change (pages_for 0) with 0. rewrite Z.add_0_r, Z.sub_0_r. by destruct s.
  - unfold PGSIZE at 1. rewrite (u32_id (pages_for n * 4096)) by nia.
    rewrite (u32_id (nextfree s + _)), (u32_id (nAvailPages s - _)) by nia.
    rewrite ROUNDUP_aligned; [done|nia|].
    rewrite Z.mod_add; lia.
Qed.
End boot_alloc.

(** ** The allocator as an abstract stack of page numbers *)

Inductive alloc_op : Type := OpAlloc (flags : Z) | OpFree (pp : Z).

(** What the kernel does for a sequence of requests. *)
Fixpoint run_ops (ops : list alloc_op) : M (list (option Z)) :=
  match ops with
  | [] => mret []
  | OpAlloc flags :: ops' => r ← page_alloc flags; rs ← run_ops ops'; mret (r :: rs)
  | OpFree pp :: ops' => page_free (Some pp) ;; rs ← run_ops ops'; mret (None :: rs)
  end.

(** What a stack of [n] page numbers does for them; freeing a page twice, or a
    page that does not exist, is outside the contract. *)
Fixpoint abs_ops (n : Z) (ops : list alloc_op) (fl : list Z) :
    option (list (option Z) * list Z) :=
  match ops with
  | [] => Some ([], fl)
  | OpAlloc _ :: ops' =>
      '(rs, fl') ← abs_ops n ops' (tail fl); Some (head fl :: rs, fl')
  | OpFree pp :: ops' =>
      if bool_decide (pp ∉ fl ∧ 0 <= pp < n)
      then '(rs, fl') ← abs_ops n ops' (pp :: fl); Some (None :: rs, fl') else None
  end.

Section properties.
Variable kend : Z.
Implicit Types (s : kstate) (fl : list Z).

(** C21: page_init leaves the allocator well formed: the free list is exactly the
    pages below the I/O hole, 1 to 159, without the AP boot page 7, followed by
    everything from the end of the boot-time data to the end of memory.  The
    bound 160 is the constant IOPHYSMEM: the size of base memory that the NVRAM
    reports, npages_basemem, plays no part, although the comment in the code
    names it.  Page 0, page 7, the I/O hole and the kernel are not on the list,
    every free page has reference count 0, and physical memory is not touched. *)
Theorem page_init_establishes_wf s nb :
  before_page_init s nb →
  ∃ s', page_init kend s = Done tt s' ∧ mem s' = mem s ∧
    pages_wf s' (init_free nb (npages s)) ∧
    (∀ i, i ∈ init_free nb (npages s) ↔ (1 <= i < 160 ∧ i ≠ 7) ∨ nb <= i < npages s) ∧
    (∀ i, i ∈ init_free nb (npages s) → pp_ref <$> pages s' !! i = Some 0).
Proof.
  intros Hb. destruct (page_init_run kend s nb Hb) as (s' & Hrun & Hn & Hfl & Hm & _ & _ & HF).
  destruct Hb as (_ & _ & Hr & Hn' & _). rewrite <- Hn in *.
  exists s'. split_and!; [done|done|by apply described_init_wf| |].
  - intros i. by apply elem_of_init_free.
  - intros i Hi%elem_of_init_free; [|lia]. rewrite HF, decide_True by lia.
    simpl. do 2 f_equal. repeat Z_case; done.
Qed.

(** C3: page_alloc and page_free implement a stack of free page numbers: for
    every sequence of requests the stack accepts, the kernel code returns without
    leaving through an error exit, its answers are those of the stack (the null
    pointer exactly when the stack is empty), and the resulting free list is the
    resulting stack. *)
Theorem allocator_refines_stack ops s fl rs fl' :
  pages_wf s fl → abs_ops (npages s) ops fl = Some (rs, fl') →
  ∃ s', run_ops ops s = Done rs s' ∧ pages_wf s' fl' ∧ npages s' = npages s.
Proof.
  revert s fl rs fl'. induction ops as [|[flags|pp] ops IH]; intros s fl rs fl' Hw Ha; simpl in *.
  - simplify_eq. eauto.
  - apply bind_Some in Ha as ([rs' fl''] & Ha & ?); simplify_eq.
    destruct fl as [|pp fl].
    + step_with (page_alloc_nil s flags Hw). destruct (IH s [] rs' fl' Hw Ha) as (s' & Heq & ? & ?).
      step_with Heq. eauto.
    + destruct (page_alloc_cons s fl pp flags Hw) as (p & Hp & _ & Hrun).
      step_with Hrun. pose proof (alloc_post_wf s fl pp p flags Hw Hp) as Hw'.
      assert (npages (alloc_post flags pp p s) = npages s) as En
        by (unfold alloc_post; by destruct (has ALLOC_ZERO flags)).
      destruct (IH _ fl rs' fl' Hw') as (s' & Heq & ? & ?); [by rewrite En|].
      step_with Heq. eexists. split_and!; [done|done|congruence].
  - case_bool_decide as Hb; [|done]. destruct Hb as [Hni Hr].
    apply bind_Some in Ha as ([rs' fl''] & Ha & ?); simplify_eq.
    destruct (pw_total _ _ Hw pp Hr) as [p Hp].
    step_with (page_free_eq s fl pp p Hw Hp).
    destruct (IH (free_post pp p s) (pp :: fl) rs' fl') as (s' & Heq & ? & ?);
      [by apply free_post_wf|done|].
    step_with Heq. eauto.
Qed.

(** [page_alloc] with ALLOC_ZERO zeroes the 4096 bytes of the page it returns
    and changes no other byte of memory; without the flag memory is untouched. *)
Theorem page_alloc_zeroes s fl pp flags :
  pages_wf s (pp :: fl) →
  ∃ s', page_alloc flags s = Done (Some pp) s' ∧ pages_wf s' fl ∧
    pp_ref <$> pages s' !! pp = Some 0 ∧
    ∀ a, mget (mem s') a =
      if has ALLOC_ZERO flags && (pp * 4096 <=? a) && (a <? pp * 4096 + 4096)
      then 0 else mget (mem s) a.
Proof.
  intros Hw. destruct (page_alloc_cons s fl pp flags Hw) as (p & Hp & Hpa & ->).
  eexists. split; [done|]. split; [by apply alloc_post_wf|]. unfold alloc_post.
  destruct (has ALLOC_ZERO flags); simpl; rewrite lookup_insert_eq; split; try done.
  intros a. rewrite mget_fill, Hpa. change (Z.of_nat (Z.to_nat PGSIZE)) with 4096.
  repeat Z_case; case_decide; try lia; done.
Qed.

(** Freeing a page and allocating again hands out that same page and leaves
    the free list, the page count and memory as they were before the free. *)
Theorem page_free_alloc_roundtrip s fl pp p :
  pages_wf s fl → pages s !! pp = Some p → pp ∉ fl → 0 <= nAvailPages s < 4294967295 →
  ∃ s', (page_free (Some pp) ;; page_alloc 0) s = Done (Some pp) s' ∧ pages_wf s' fl ∧
    page_free_list s' = page_free_list s ∧ nAvailPages s' = nAvailPages s ∧
    mem s' = mem s ∧ pages s' = <[pp := mkPage None (pp * 4096) 0]> (pages s).
Proof.
  intros Hw Hp Hni Hav. step_with (page_free_eq s fl pp p Hw Hp).
  pose proof (free_post_wf s fl pp p Hw Hp Hni) as Hw'.
  destruct (page_alloc_cons _ _ _ 0 Hw') as (p' & Hp' & Hpa' & ->).
  eexists. split; [done|]. split; [by eapply alloc_post_wf|].
  unfold free_post in Hp'. simpl in Hp'. rewrite lookup_insert_eq in Hp'. simplify_eq.
  unfold alloc_post, free_post. simpl in *. rewrite Hpa', insert_insert_eq.
  change (has ALLOC_ZERO 0) with false. simpl. split_and!; try done.
  rewrite (u32_id (_ + 1)), u32_id by lia. lia.
Qed.

(** once initialised, boot_alloc panics exactly when the request exceeds the
    page budget; otherwise it returns a page-aligned block that starts at the old
    frontier, contains the n requested bytes and ends at the new frontier, so
    that blocks of successive calls never overlap. *)
Theorem boot_alloc_blocks s n :
  boot_ready s → 0 <= n →
  match boot_alloc kend n s with
  | Done r s' =>
      r = nextfree s ∧ r mod 4096 = 0 ∧ r + n <= nextfree s' < r + n + 4096 ∧
      boot_ready s' ∧ pages_for n <= nAvailPages s
  | Exit e s' => e = Panic "We don't have any available pages" ∧ s' = s ∧
      nAvailPages s < pages_for n
  end.
Proof.
  intros Hb Hn. rewrite (boot_alloc_run kend s n Hb Hn).
  destruct (Z.ltb_spec (nAvailPages s) (pages_for n)); [done|].
  destruct Hb as (? & ? & ? & ?). pose proof (pages_for_bound n Hn).
  unfold boot_ready. simpl. split_and!; try lia. rewrite Z.mod_add; lia.
Qed.

(** The counter of available pages is too high after page_init: it exceeds
    the length of the free list by the number of pages of the kernel image plus
    one (the AP boot page), since only boot_alloc'd pages, page 0 and the I/O
    hole are ever subtracted.  [k0] is the first page after the kernel image. *)
Theorem nAvailPages_overcounts s nb k0 :
  before_page_init s nb → 256 <= k0 <= nb → nAvailPages s = npages s - (nb - k0) →
  ∃ s', page_init kend s = Done tt s' ∧
    nAvailPages s' = Z.of_nat (length (init_free nb (npages s))) + (k0 - 256) + 1.
Proof.
  intros Hb Hk Hav. destruct (page_init_run kend s nb Hb) as (s' & Hrun & _ & _ & _ & _ & Hn & _).
  destruct Hb as (_ & _ & Hr & Hn' & _). exists s'. split; [done|].
  rewrite Hn, Hav, u32_id by lia. unfold init_free.
  rewrite !length_app, !length_seqZ. lia.
Qed.
End properties.

(** ** Concrete instances *)

(** Sixteen pages of which 3, 5 and 4 are free, in that order. *)
Definition ex_pages : gmap Z Page := list_to_map (
  (λ i, (i, mkPage (if i =? 3 then Some 5 else if i =? 5 then Some 4 else None)
    (i * 4096) (if (3 <=? i) && (i <=? 5) then 0 else 1))) <$> seqZ 0 16).
Definition ex_alloc : kstate :=
  set_mem (store32 ∅ 12300 0xDEADBEEF)
    (set_npages 16 (set_nAvailPages 3 (set_page_free_list (Some 3) (set_pages ex_pages zero_kstate)))).

(** A machine with 300 pages whose kernel and boot-time data end at page 260. *)
Definition ex_boot : kstate :=
  set_npages 300 (set_nAvailPages 298 (set_nextfree (KERNBASE + 260 * 4096)
    (set_pages (list_to_map ((λ i, (i, mkPage (Some 77) 5 9)) <$> seqZ 0 300)) zero_kstate))).

Lemma page_init_establishes_wf_witness :
  ∃ s', page_init 0 ex_boot = Done tt s' ∧ mem s' = mem ex_boot ∧
    pages_wf s' (init_free 260 (npages ex_boot)) ∧
    (∀ i, i ∈ init_free 260 (npages ex_boot) ↔ (1 <= i < 160 ∧ i ≠ 7) ∨ 260 <= i < npages ex_boot) ∧
    (∀ i, i ∈ init_free 260 (npages ex_boot) → pp_ref <$> pages s' !! i = Some 0).
Proof. apply (page_init_establishes_wf 0 ex_boot 260). unfold before_page_init. by_compute. Defined.

Lemma allocator_refines_stack_witness :
  ∃ s', run_ops [OpAlloc 1; OpAlloc 0; OpFree 7; OpAlloc 0; OpAlloc 0; OpAlloc 0] ex_alloc
      = Done [Some 3; Some 5; None; Some 7; Some 4; None] s' ∧
    pages_wf s' [] ∧ npages s' = npages ex_alloc.
Proof. apply (allocator_refines_stack _ ex_alloc [3; 5; 4]); [by_compute|done]. Defined.

Lemma page_alloc_zeroes_witness :
  ∃ s', page_alloc 1 ex_alloc = Done (Some 3) s' ∧ pages_wf s' [5; 4] ∧
    pp_ref <$> pages s' !! 3 = Some 0 ∧
    ∀ a, mget (mem s') a =
      if has ALLOC_ZERO 1 && (3 * 4096 <=? a) && (a <? 3 * 4096 + 4096)
      then 0 else mget (mem ex_alloc) a.
Proof. apply page_alloc_zeroes. by_compute. Defined.

Lemma page_free_alloc_roundtrip_witness :
  ∃ s', (page_free (Some 9) ;; page_alloc 0) ex_alloc = Done (Some 9) s' ∧
    pages_wf s' [3; 5; 4] ∧
    page_free_list s' = page_free_list ex_alloc ∧ nAvailPages s' = nAvailPages ex_alloc ∧
    mem s' = mem ex_alloc ∧ pages s' = <[9 := mkPage None (9 * 4096) 0]> (pages ex_alloc).
Proof.
  apply (page_free_alloc_roundtrip ex_alloc [3; 5; 4] 9 (mkPage None (9 * 4096) 1));
    by_compute.
Defined.

Lemma boot_alloc_blocks_witness :
  match boot_alloc 0 5000 ex_boot with
  | Done r s' =>
      r = nextfree ex_boot ∧ r mod 4096 = 0 ∧ r + 5000 <= nextfree s' < r + 5000 + 4096 ∧
      boot_ready s' ∧ pages_for 5000 <= nAvailPages ex_boot
  | Exit e s' => e = Panic "We don't have any available pages" ∧ s' = ex_boot ∧
      nAvailPages ex_boot < pages_for 5000
  end.
Proof. apply (boot_alloc_blocks 0 ex_boot 5000); [unfold boot_ready; by_compute|done]. Defined.

Lemma nAvailPages_overcounts_witness :
  ∃ s', page_init 0 ex_boot = Done tt s' ∧
    nAvailPages s' = Z.of_nat (length (init_free 260 (npages ex_boot))) + (258 - 256) + 1.
Proof.
  apply (nAvailPages_overcounts 0 ex_boot 260 258); [unfold before_page_init|..]; by_compute.
Defined.
