(* ===== verification/Lapic.v ===== *)
(** * The local APIC: kern/lapic.c

    Writes to its memory-mapped registers are logged; what reads return is an
    arbitrary stream (0 once it is used up: no delivery pending).  [cpunum] is the
    variable [this_cpu] of the model. *)

From S2P Require Import Prelude Devices Machine PageAlloc.
From stdpp Require Import base numbers list gmap fin_maps strings.

Local Open Scope Z_scope.

(** Register indices and values. *)
Definition APIC_ID : Z := 0x0020 / 4.
Definition VER : Z := 0x0030 / 4.
Definition TPR : Z := 0x0080 / 4.
Definition EOI : Z := 0x00B0 / 4.
Definition SVR : Z := 0x00F0 / 4.
Definition ENABLE : Z := 0x00000100.
Definition ESR : Z := 0x0280 / 4.
Definition ICRLO : Z := 0x0300 / 4.
Definition INIT : Z := 0x00000500.
Definition STARTUP : Z := 0x00000600.
Definition DELIVS : Z := 0x00001000.
Definition ASSERT : Z := 0x00004000.
Definition LEVEL : Z := 0x00008000.
Definition BCAST : Z := 0x00080000.
Definition OTHERS : Z := 0x000C0000.
Definition FIXED : Z := 0x00000000.
Definition ICRHI : Z := 0x0310 / 4.
Definition TIMER : Z := 0x0320 / 4.
Definition X1 : Z := 0x0000000B.
Definition PERIODIC : Z := 0x00020000.
Definition PCINT : Z := 0x0340 / 4.
Definition LINT0 : Z := 0x0350 / 4.
Definition LINT1 : Z := 0x0360 / 4.
Definition ERROR : Z := 0x0370 / 4.
Definition MASKED : Z := 0x00010000.
Definition TICR : Z := 0x0380 / 4.
Definition TDCR : Z := 0x03E0 / 4.

Definition IRQ_TIMER : Z := 0.
Definition IRQ_SPURIOUS : Z := 7.
Definition IRQ_ERROR : Z := 19.

(** [lapic[index]] *)
Definition lapic_rd (index : Z) : M Z :=
  s ← get;
  match lapic_in (apic s) with
  | [] => mret 0
  | v :: l => modify (λ s, set_apic (set_lapic_in l (apic s)) s) ;; mret (u32 v)
  end.

(** The read of [lapic[ID]] that follows the write only waits. *)
Definition lapicw (index value : Z) : M unit :=
  modify (λ s, set_apic (set_lapic_out ((index, u32 value) :: lapic_out (apic s)) (apic s)) s).

(** [while (lapic[ICRLO] & DELIVS) ;] *)
Definition wait_delivery : M unit :=
  s ← get;
  loop (S (length (lapic_in (apic s)))) NoFuel (λ _ : unit,
    v ← lapic_rd ICRLO; if has DELIVS v then mret (inl tt) else mret (inr tt)) tt.

Definition lapic_init : M unit :=
  s ← get;
  if lapic (apic s) =? 0 then mret tt else
  lapicw SVR (Z.lor ENABLE (IRQ_OFFSET + IRQ_SPURIOUS)) ;;
  lapicw TDCR X1 ;;
  lapicw TIMER (Z.lor PERIODIC (IRQ_OFFSET + IRQ_TIMER)) ;;
  lapicw TICR 10000000 ;;
  (if bool_decide (bootcpu s = Some (this_cpu s)) then mret tt else lapicw LINT0 MASKED) ;;
  lapicw LINT1 MASKED ;;
  v ← lapic_rd VER;
  (if 4 <=? Z.land (Z.shiftr v 16) 0xFF then lapicw PCINT MASKED else mret tt) ;;
  lapicw ERROR (IRQ_OFFSET + IRQ_ERROR) ;;
  lapicw ESR 0 ;;
  lapicw ESR 0 ;;
  lapicw EOI 0 ;;
  lapicw ICRHI 0 ;;
  lapicw ICRLO (Z.lor (Z.lor BCAST INIT) LEVEL) ;;
  wait_delivery ;;
  lapicw TPR 0.

Definition lapic_eoi : M unit :=
  s ← get; if lapic (apic s) =? 0 then mret tt else lapicw EOI 0.

(** A [uint16_t] store through a kernel address. *)
Definition wr16 (kva v : Z) : M unit :=
  if KERNBASE <=? kva
  then modify (λ s, set_mem (<[kva - KERNBASE := u8 v]>
         (<[kva - KERNBASE + 1 := u8 (v / 256)]> (mem s))) s)
  else leave KernelFault.

Definition lapic_startap (apicid addr : Z) : M unit :=
  dev_op (outb IO_RTC 0xF) ;;
  dev_op (outb (IO_RTC + 1) 0x0A) ;;
  wrv ← KADDR (Z.lor (Z.shiftl 0x40 4) 0x67);
  wr16 wrv 0 ;;
  wr16 (wrv + 2) (Z.shiftr addr 4) ;;
  lapicw ICRHI (Z.shiftl apicid 24) ;;
  lapicw ICRLO (Z.lor (Z.lor INIT LEVEL) ASSERT) ;;
  lapicw ICRLO (Z.lor INIT LEVEL) ;;
  for_each [0; 1] (λ _,
    lapicw ICRHI (Z.shiftl apicid 24) ;;
    lapicw ICRLO (Z.lor STARTUP (Z.shiftr addr 12))).

Definition lapic_ipi (vector : Z) : M unit :=
  lapicw ICRLO (Z.lor (Z.lor OTHERS FIXED) vector) ;; wait_delivery.

(** ** Waiting ends *)

Section waiting.
Implicit Types s : kstate.

Lemma wait_delivery_run s :
  ∃ l, wait_delivery s = Done tt (set_apic (set_lapic_in l (apic s)) s).
Proof.
  unfold wait_delivery. rewrite run_get.
  assert (∀ l a fuel, (length l < fuel)%nat → lapic_in a = l →
    ∃ l', loop fuel NoFuel (λ _ : unit,
      v ← lapic_rd ICRLO; if has DELIVS v then mret (inl tt) else mret (inr tt)) tt (set_apic a s)
      = Done tt (set_apic (set_lapic_in l' a) s)) as H.
  { induction l as [|v l IH]; intros a [|fuel] Hf Hl; try lia; rewrite loop_S;
      unfold lapic_rd; run; rewrite Hl; run.
    - change (has DELIVS 0) with false. run. exists []. rewrite ret_eq. f_equal.
      apply kstate_eq; try reflexivity. destruct a. simpl in *. by subst.
    - destruct (has DELIVS (u32 v)); run.
      + destruct (IH (set_lapic_in l a) fuel) as [l' Hl']; [simpl in Hf; lia|done|].
        exists l'. exact Hl'.
      + exists l. reflexivity. }
  destruct (H (lapic_in (apic s)) (apic s) (S (length (lapic_in (apic s))))) as [l Hl]; [lia|done|].
  exists l. rewrite <- Hl. by destruct s.
Qed.
End waiting.
