(* ===== verification/Pmap.v ===== *)
(** * Page tables: kern/pmap.c, [pgdir_walk] to [tlb_invalidate]

    The two-level page tables live in physical memory, in pages handed out by
    the page allocator; a page directory is designated by its kernel virtual
    address [KERNBASE + pd * 4096].  The properties speak about [pte_of s pd va],
    the entry that maps [va], whatever the tables that store it. *)

From S2P Require Import Prelude Machine PageAlloc.
From stdpp Require Import base numbers list gmap fin_maps strings.

Local Open Scope Z_scope.

Definition CREATE : bool := true.
Definition NO_CREATE : bool := false.

(** [&pgdir[PDX (va)]] *)
Definition pde_ptr (pgdir va : Z) : Z := u32 (pgdir + 4 * PDX va).

Definition pgdir_walk (pgdir va : Z) (create : bool) : M (option Z) :=
  let finish pde_pg := pgtable ← page2kva pde_pg; mret (Some (u32 (pgtable + 4 * PTX va))) in
  pde ← rd32 (pde_ptr pgdir va);
  if has PTE_P pde then pde_pg ← pa2page pde; finish pde_pg
  else if negb create then mret None
  else
    r ← page_alloc ALLOC_ZERO;
    match r with
    | None => mret None
    | Some pde_pg =>
        upd_page (λ p, set_pp_ref (u16 (pp_ref p + 1)) p) pde_pg ;;
        wr32 (pde_ptr pgdir va) (Z.lor (Z.lor (page2pa pde_pg) PTE_P) PTE_W) ;;
        finish pde_pg
    end.

Definition compare_MAX (v max units : Z) : Z :=
  if existsb (λ i, u32 (v + i) =? max) (seqZ 0 units) then -1 else 0.

(** The loop body of [boot_map_region] at one address. *)
Definition map_one (pgdir va pa perm : Z) : M unit :=
  ptep ← pgdir_walk pgdir va CREATE;
  match ptep with
  | None => panic "assertion failed: NIL != ptep"
  | Some ptep =>
      wr32 ptep (Z.lor (Z.lor (PTE_ADDR pa) perm) PTE_P) ;;
      pde ← rd32 (pde_ptr pgdir va);
      if has PTE_U perm && negb (has PTE_U pde)
      then wr32 (pde_ptr pgdir va) (Z.lor pde PTE_U) else mret tt
  end.

Definition boot_map_region (pgdir va size pa perm : Z) : M unit :=
  let size := ROUNDUP size PGSIZE in
  loop (S (Z.to_nat (size / PGSIZE))) NoFuel (λ i,
    if (i <? size) && (compare_MAX va 0xFFFFFFFF 4 =? 0) && (compare_MAX pa 0xFFFFFFFF 4 =? 0)
    then
      map_one pgdir (u32 (va + i)) (u32 (pa + i)) perm ;;
      mret (inl (u32 (i + PGSIZE)))
    else mret (inr tt)) 0.

(** The page mapped at [va], with the value stored through [pte_store]. *)
Definition page_lookup (pgdir va : Z) : M (option (Z * Z)) :=
  tmp_pte ← pgdir_walk pgdir va NO_CREATE;
  match tmp_pte with
  | None => mret None
  | Some tmp_pte =>
      pte ← rd32 tmp_pte;
      if negb (has PTE_P pte) then mret None
      else pg ← pa2page (PTE_ADDR pte); mret (Some (pg, tmp_pte))
  end.

(** Flush the entry only if we're modifying the current address space. *)
Definition tlb_invalidate (pgdir va : Z) : M unit :=
  c ← curenv;
  here ← (match c with None => mret true
          | Some e => x ← get_env e; mret (env_pgdir x =? pgdir) end);
  if here : bool then modify (λ s, set_invlpgs (va :: invlpgs s) s) else mret tt.

Definition page_remove (pgdir va : Z) : M unit :=
  r ← page_lookup pgdir va;
  match r with
  | None => mret tt
  | Some (rm_page, rm_pte) =>
      page_decref rm_page ;;
      p ← get_page rm_page;
      (if pp_ref p =? 0 then tlb_invalidate pgdir va else mret tt) ;;
      wr32 rm_pte 0
  end.

Definition page_insert (pgdir : Z) (pp : option Z) (va perm : Z) : M Z :=
  ptep ← pgdir_walk pgdir va CREATE;
  match ptep, pp with
  | None, _ => mret (- E_NO_MEM)
  | Some _, None => mret (- E_UNSPECIFIED)
  | Some ptep, Some pp =>
      pde ← rd32 (pde_ptr pgdir va);
      wr32 (pde_ptr pgdir va) (Z.lor pde (Z.lor perm PTE_P)) ;;
      p ← get_page pp;
      pte ← rd32 ptep;
      (if negb (paddr p =? PTE_ADDR pte) then
         upd_page (λ p, set_pp_ref (u16 (pp_ref p + 1)) p) pp ;;
         pte ← rd32 ptep;
         if has PTE_P pte then page_remove pgdir va else mret tt
       else mret tt) ;;
      wr32 ptep (Z.lor (Z.lor (page2pa pp) perm) PTE_P) ;;
      mret 0
  end.

Definition check_va2pa (pgdir va : Z) : M Z :=
  pde ← rd32 (pde_ptr pgdir va);
  if negb (has PTE_P pde) then mret 0xFFFFFFFF else
  p ← KADDR (PTE_ADDR pde);
  pte ← rd32 (u32 (p + 4 * PTX va));
  if negb (has PTE_P pte) then mret 0xFFFFFFFF else mret (PTE_ADDR pte).

#[global] Arguments pde_ptr : simpl never.
#[global] Arguments pgdir_walk : simpl never.
#[global] Arguments map_one : simpl never.
#[global] Arguments boot_map_region : simpl never.
#[global] Arguments page_lookup : simpl never.
#[global] Arguments tlb_invalidate : simpl never.
#[global] Arguments page_remove : simpl never.
#[global] Arguments page_insert : simpl never.
#[global] Arguments check_va2pa : simpl never.

(** ** Entry arithmetic *)

Section entries.
Implicit Types (x y f g : Z).

Lemma PGNUM_lor x f : 0 <= f < 4096 → PGNUM (Z.lor x f) = PGNUM x.
Proof.
  intros Hf. unfold PGNUM, PTXSHIFT. rewrite Z.shiftr_lor.
  rewrite (Z.shiftr_div_pow2 f) by lia. rewrite Z.div_small by lia. apply Z.lor_0_r.
Qed.

Lemma has_lor f x y : has f (Z.lor x y) = has f x || has f y.
Proof.
  unfold has. rewrite Z.land_lor_distr_l.
  destruct (Z.eqb_spec (Z.lor (Z.land x f) (Z.land y f)) 0) as [E|E].
  - apply Z.lor_eq_0_iff in E as [-> ->]. done.
  - destruct (Z.eqb_spec (Z.land x f) 0) as [E1|]; [|done].
    destruct (Z.eqb_spec (Z.land y f) 0) as [E2|]; [|done].
    rewrite E1, E2 in E. done.
Qed.

Lemma has_page y f : 0 <= f < 4096 → has f (y * 4096) = false.
Proof. intros. unfold has. by rewrite page_land_low. Qed.

Lemma lor_u32 x y :
  0 <= x < 4294967296 → 0 <= y < 4294967296 → 0 <= Z.lor x y < 4294967296.
Proof. intros. apply (lor_range 32); lia. Qed.

(** The entry [page2pa pp | perm | PTE_P] that the code stores. *)
Lemma entry_range q perm :
  0 <= q < 65536 → 0 <= perm < 4096 →
  0 <= Z.lor (Z.lor (page2pa q) perm) PTE_P < 4294967296.
Proof. intros. rewrite page2pa_mul by lia. unfold PTE_P. repeat apply lor_u32; lia. Qed.

Lemma entry_PGNUM q perm :
  0 <= q < 65536 → 0 <= perm < 4096 → PGNUM (Z.lor (Z.lor (page2pa q) perm) PTE_P) = q.
Proof.
  intros. rewrite !PGNUM_lor, page2pa_mul, PGNUM_div by (unfold PTE_P; lia).
  apply Z.div_mul. lia.
Qed.

Lemma entry_present q perm : has PTE_P (Z.lor (Z.lor (page2pa q) perm) PTE_P) = true.
Proof. rewrite has_lor. apply orb_true_r. Qed.

Lemma PTE_ADDR_PGNUM x : 0 <= x < 4294967296 → PGNUM (PTE_ADDR x) = PGNUM x.
Proof.
  intros. rewrite PTE_ADDR_div, PGNUM_div by done. apply Z.div_mul. lia.
Qed.
End entries.

(** ** The page tables as a map from virtual addresses to entries *)

Section views.
Implicit Types (s : kstate) (pd i va q : Z) (fl : list Z).

(** Entry [i] of the directory stored in page [pd], and the page table it
    designates, if any. *)
Definition pde_of s pd i : Z := load32 (mem s) (pd * 4096 + 4 * i).
Definition pt_of s pd i : option Z :=
  if has PTE_P (pde_of s pd i) then Some (PGNUM (pde_of s pd i)) else None.

(** Where the entry for [va] is stored, and its value; 0 without a page table. *)
Definition pte_loc s pd va : option Z := (λ q, q * 4096 + 4 * PTX va) <$> pt_of s pd (PDX va).
Definition pte_of s pd va : Z := default 0 (load32 (mem s) <$> pte_loc s pd va).

(** The directory index through which a directory maps itself. *)
Definition self_index : Z := PDX UVPT.

(** [pd_wf s fl pd]: the directory and its page tables are allocated pages, all
    different (apart from the entry that maps the directory into itself). *)
Record pd_wf s fl pd : Prop := {
  pd_dir : 0 <= pd < npages s ∧ pd ∉ fl;
  pd_table : ∀ i, 0 <= i < 1024 → ∀ q, i ≠ self_index → pt_of s pd i = Some q →
    0 <= q < npages s ∧ q ∉ fl ∧ q ≠ pd;
  pd_inj : ∀ i, 0 <= i < 1024 → ∀ j, 0 <= j < 1024 → ∀ q, i ≠ self_index → j ≠ self_index →
    pt_of s pd i = Some q → pt_of s pd j = Some q → i = j;
}.

(** The page that [va] maps is an ordinary allocated page. *)
Definition leaf_ok s fl pd q : Prop :=
  0 <= q < npages s ∧ q ∉ fl ∧ q ≠ pd ∧
  ∀ i, 0 <= i < 1024 → i ≠ self_index → pt_of s pd i ≠ Some q.

Lemma pde_of_range s pd i : 0 <= pde_of s pd i < 4294967296.
Proof. apply load32_range. Qed.

Lemma pte_of_range s pd va : 0 <= pte_of s pd va < 4294967296.
Proof. unfold pte_of. destruct (pte_loc s pd va); simpl; [apply load32_range|lia]. Qed.

Lemma pde_ptr_eq pd va : 0 <= pd < 65536 → pde_ptr (pd * 4096 + KERNBASE) va =
  pd * 4096 + 4 * PDX va + KERNBASE.
Proof.
  intros. pose proof (PDX_range va). unfold pde_ptr. rewrite u32_id; unfold KERNBASE; lia.
Qed.

(** A write outside the directory and its tables changes no entry; a write into
    table [q] at slot [t] changes only the entries stored there. *)
Lemma pt_of_store s m pd :
  (∀ i, 0 <= i < 1024 → load32 m (pd * 4096 + 4 * i) = pde_of s pd i) →
  ∀ i, 0 <= i < 1024 → pt_of (set_mem m s) pd i = pt_of s pd i.
Proof. intros H i Hi. unfold pt_of. unfold pde_of at 1 2. simpl. by rewrite H. Qed.

(** Two 4-byte slots of page-aligned arrays overlap only if they are the same. *)
Lemma slots_disjoint p i q j :
  0 <= i < 1024 → 0 <= j < 1024 → (p ≠ q ∨ i ≠ j) →
  p * 4096 + 4 * i + 4 <= q * 4096 + 4 * j ∨ q * 4096 + 4 * j + 4 <= p * 4096 + 4 * i.
Proof. intros. destruct (decide (p = q)) as [->|]; lia. Qed.

Lemma pd_wf_update s s' fl fl' pd :
  pd_wf s fl pd → npages s' = npages s →
  (∀ i, 0 <= i < 1024 → i ≠ self_index → pt_of s' pd i = pt_of s pd i) →
  (∀ q, q ∈ fl' → q ∈ fl) → pd_wf s' fl' pd.
Proof.
  intros [[? ?] H2 H3] Hn Hpt Hfl. split; rewrite ?Hn.
  - split; [done|]. intros ?; auto.
  - intros i Hi q Hs Hq. rewrite Hpt in Hq by done.
    destruct (H2 i Hi q Hs Hq) as (? & ? & ?). split_and!; auto; lia.
  - intros i Hi j Hj q Hs Hs' Hq Hq'. rewrite Hpt in Hq, Hq' by done. eauto.
Qed.

(** Growing the free list by a page that is neither directory nor table. *)
Lemma pd_wf_freed s s' fl pd q :
  pd_wf s fl pd → npages s' = npages s →
  (∀ i, 0 <= i < 1024 → i ≠ self_index → pt_of s' pd i = pt_of s pd i) →
  leaf_ok s fl pd q → pd_wf s' (q :: fl) pd.
Proof.
  intros [[? ?] H2 H3] Hn Hpt (? & ? & Hne & Hnt). split; rewrite ?Hn.
  - split; [done|]. set_solver.
  - intros i Hi q' Hs Hq. rewrite Hpt in Hq by done.
    destruct (H2 i Hi q' Hs Hq) as (? & ? & ?).
    assert (q' ≠ q) by (intros ->; by apply (Hnt i)). split_and!; [lia|lia|set_solver|done].
  - intros i Hi j Hj q' Hs Hs' Hq Hq'. rewrite Hpt in Hq, Hq' by done. eauto.
Qed.
End views.

(** ** Frames: which pages an operation may write *)

Section frames.
Implicit Types (s : kstate) (m : memory) (p i va q : Z).

(** Page [p] holds the same bytes in both memories. *)
Definition page_same p m m' : Prop :=
  ∀ a, p * 4096 <= a < (p + 1) * 4096 → mget m' a = mget m a.

#[global] Instance page_same_refl p : Reflexive (page_same p).
Proof. intros m a _. done. Qed.

#[global] Instance page_same_trans p : Transitive (page_same p).
Proof. intros m1 m2 m3 H1 H2 a Ha. by rewrite H2, H1. Qed.

Lemma page_same_slot m m' p i :
  page_same p m m' → 0 <= i < 1024 → load32 m' (p * 4096 + 4 * i) = load32 m (p * 4096 + 4 * i).
Proof. intros H Hi. apply load32_ext. intros. apply H. lia. Qed.

Lemma store_page_same m p i v p' :
  0 <= i < 1024 → p' ≠ p → page_same p' m (store32 m (p * 4096 + 4 * i) v).
Proof. intros Hi Hp a Ha. apply mget_store32_ne. lia. Qed.

Lemma fill_page_same m p p' :
  p' ≠ p → page_same p' m (fill m (p * 4096) 0 (Z.to_nat PGSIZE)).
Proof. intros Hp a Ha. rewrite mget_fill, decide_False; [done|]. unfold PGSIZE. lia. Qed.

Lemma store_slot_ne m p i v j :
  0 <= i < 1024 → 0 <= j < 1024 → i ≠ j →
  load32 (store32 m (p * 4096 + 4 * i) v) (p * 4096 + 4 * j) = load32 m (p * 4096 + 4 * j).
Proof. intros. apply load32_store32_ne. lia. Qed.

Lemma pt_frame s s' pd i :
  page_same pd (mem s) (mem s') → 0 <= i < 1024 → pt_of s' pd i = pt_of s pd i.
Proof. intros H Hi. unfold pt_of, pde_of. by rewrite (page_same_slot _ _ _ _ H Hi). Qed.

Lemma pte_frame s s' pd va :
  pt_of s' pd (PDX va) = pt_of s pd (PDX va) →
  (∀ q, pt_of s pd (PDX va) = Some q → page_same q (mem s) (mem s')) →
  pte_of s' pd va = pte_of s pd va.
Proof.
  intros Hpt H. unfold pte_of, pte_loc. rewrite Hpt.
  destruct (pt_of s pd (PDX va)) as [q|]; [|done]. simpl.
  apply page_same_slot; [by apply H|apply PTX_range].
Qed.

Lemma pte_of_eq s pd va q :
  pt_of s pd (PDX va) = Some q → pte_of s pd va = load32 (mem s) (q * 4096 + 4 * PTX va).
Proof. intros H. unfold pte_of, pte_loc. by rewrite H. Qed.

Lemma pte_of_none s pd va : pt_of s pd (PDX va) = None → pte_of s pd va = 0.
Proof. intros H. unfold pte_of, pte_loc. by rewrite H. Qed.

(** Two addresses share an entry exactly when they are on the same page. *)
Lemma same_slot va va' :
  0 <= va < 4294967296 → 0 <= va' < 4294967296 →
  PDX va = PDX va' → PTX va = PTX va' → PGNUM va = PGNUM va'.
Proof. intros. rewrite !PGNUM_split by done. lia. Qed.

Lemma page_slots va va' :
  0 <= va < 4294967296 → 0 <= va' < 4294967296 →
  PGNUM va = PGNUM va' → PDX va = PDX va' ∧ PTX va = PTX va'.
Proof.
  intros H H' E. rewrite !PGNUM_split in E by done.
  pose proof (PTX_range va). pose proof (PTX_range va'). lia.
Qed.
End frames.

(** ** Writing one entry *)

Section stores.
Implicit Types (s : kstate) (fl : list Z) (pd i j va q v : Z).

(** [s] with entry [i] of page [p] overwritten. *)
Definition put s (p i v : Z) : kstate := set_mem (store32 (mem s) (p * 4096 + 4 * i) v) s.

(** Overwriting a page-table entry. *)
Lemma put_pte_pt s fl pd va q v i :
  pd_wf s fl pd → PDX va ≠ self_index → pt_of s pd (PDX va) = Some q → 0 <= i < 1024 →
  pt_of (put s q (PTX va) v) pd i = pt_of s pd i.
Proof.
  intros Hw Hs Hq Hi. apply pt_frame; [|done]. apply store_page_same; [apply PTX_range|].
  destruct (pd_table _ _ _ Hw (PDX va) (PDX_range va) q Hs Hq) as (_ & _ & Hne).
  by intros <-.
Qed.

Lemma put_pte_same s fl pd va q v :
  pd_wf s fl pd → PDX va ≠ self_index → pt_of s pd (PDX va) = Some q →
  0 <= v < 4294967296 → pte_of (put s q (PTX va) v) pd va = v.
Proof.
  intros Hw Hs Hq Hv. erewrite pte_of_eq.
  2: { erewrite put_pte_pt by (done || apply PDX_range). done. }
  simpl. rewrite load32_store32_eq. by apply u32_id.
Qed.

Lemma put_pte_other s fl pd va q v va' :
  pd_wf s fl pd → PDX va ≠ self_index → pt_of s pd (PDX va) = Some q →
  0 <= va < 4294967296 → 0 <= va' < 4294967296 →
  PDX va' ≠ self_index → PGNUM va' ≠ PGNUM va →
  pte_of (put s q (PTX va) v) pd va' = pte_of s pd va'.
Proof.
  intros Hw Hs Hq Hva Hva' Hs' Hne.
  assert (pt_of (put s q (PTX va) v) pd (PDX va') = pt_of s pd (PDX va')) as Hpt.
  { eapply put_pte_pt; try done. apply PDX_range. }
  destruct (pt_of s pd (PDX va')) as [q'|] eqn:Hq'.
  2: { by rewrite !pte_of_none by congruence. }
  destruct (decide (q' = q)) as [->|Hqq].
  - assert (PDX va' = PDX va) as E.
    { eapply (pd_inj _ _ _ Hw); try done; apply PDX_range. }
    rewrite !(pte_of_eq _ _ _ q) by congruence. simpl.
    apply store_slot_ne; try apply PTX_range. intros E'. apply Hne.
    by apply same_slot.
  - apply pte_frame; [congruence|]. intros q0 Hq0.
    apply store_page_same; [apply PTX_range|congruence].
Qed.

(** Overwriting a directory entry with one for the same table. *)
Lemma put_pde_pt s pd i v j :
  0 <= i < 1024 → 0 <= j < 1024 → 0 <= v < 4294967296 →
  pt_of (put s pd i v) pd j =
    if decide (j = i) then if has PTE_P v then Some (PGNUM v) else None else pt_of s pd j.
Proof.
  intros Hi Hj Hv. unfold pt_of, pde_of. simpl. case_decide as E.
  - subst j. by rewrite load32_store32_eq, u32_id.
  - by rewrite store_slot_ne.
Qed.

Lemma put_pde_pte s fl pd i v va :
  pd_wf s fl pd → 0 <= i < 1024 → PDX va ≠ self_index →
  pt_of (put s pd i v) pd (PDX va) = pt_of s pd (PDX va) →
  pte_of (put s pd i v) pd va = pte_of s pd va.
Proof.
  intros Hw Hi Hs Hpt. apply pte_frame; [done|]. intros q Hq.
  apply store_page_same; [done|].
  destruct (pd_table _ _ _ Hw (PDX va) (PDX_range va) q Hs Hq) as (_ & _ & ?). done.
Qed.
End stores.

(** ** [pgdir_walk] *)

(** The kernel virtual address of the directory stored in page [pd]. *)
Definition pgdir_kva (pd : Z) : Z := pd * 4096 + KERNBASE.

Section walk.
Implicit Types (s : kstate) (fl : list Z) (pd va q : Z).

(** The address of entry [i] of the array stored in page [p]. *)
Definition slot_kva (p i : Z) : Z := p * 4096 + 4 * i + KERNBASE.

Lemma rd_slot s p i {A} (k : Z → M A) :
  0 <= p → 0 <= i < 1024 →
  (rd32 (slot_kva p i) ≫= k) s = k (load32 (mem s) (p * 4096 + 4 * i)) s.
Proof.
  intros. unfold slot_kva. rewrite run_rd32 by lia. by rewrite Z.add_simpl_r.
Qed.

Lemma wr_slot s p i v {A} (k : unit → M A) :
  0 <= p → 0 <= i < 1024 → (wr32 (slot_kva p i) v ≫= k) s = k tt (put s p i v).
Proof.
  intros. unfold slot_kva, put. rewrite run_wr32 by lia. by rewrite Z.add_simpl_r.
Qed.

Lemma pde_slot pd va : 0 <= pd < 65536 → pde_ptr (pgdir_kva pd) va = slot_kva pd (PDX va).
Proof. intros. unfold pgdir_kva, slot_kva. by apply pde_ptr_eq. Qed.

Lemma pte_slot q va : 0 <= q < 65536 →
  u32 (q * 4096 + KERNBASE + 4 * PTX va) = slot_kva q (PTX va).
Proof.
  intros. pose proof (PTX_range va). unfold slot_kva. rewrite u32_id; unfold KERNBASE; lia.
Qed.

Lemma pt_of_inv s pd i :
  pt_of s pd i = (if has PTE_P (pde_of s pd i) then Some (PGNUM (pde_of s pd i)) else None).
Proof. done. Qed.

Lemma walk_present s fl pd va create q :
  pages_wf s fl → 0 <= pd < npages s → pt_of s pd (PDX va) = Some q → q < npages s →
  pgdir_walk (pgdir_kva pd) va create s = Done (Some (slot_kva q (PTX va))) s.
Proof.
  intros Hw Hpd Hq Hr. pose proof (pw_npages _ _ Hw). unfold pgdir_walk.
  rewrite pde_slot, rd_slot by (lia || apply PDX_range).
  rewrite pt_of_inv in Hq. fold (pde_of s pd (PDX va)).
  destruct (has PTE_P (pde_of s pd (PDX va))); [|done].
  assert (q = PGNUM (pde_of s pd (PDX va))) as -> by congruence.
  assert (0 <= PGNUM (pde_of s pd (PDX va))).
  { rewrite PGNUM_div. pose proof (pde_of_range s pd (PDX va)). apply Z.div_pos; lia. }
  rewrite run_pa2page by done. rewrite run_page2kva by lia. by rewrite pte_slot by lia.
Qed.

Lemma walk_absent s fl pd va :
  pages_wf s fl → 0 <= pd < npages s → pt_of s pd (PDX va) = None →
  pgdir_walk (pgdir_kva pd) va NO_CREATE s = Done None s.
Proof.
  intros Hw Hpd Hq. pose proof (pw_npages _ _ Hw). unfold pgdir_walk.
  rewrite pde_slot, rd_slot by (lia || apply PDX_range).
  rewrite pt_of_inv in Hq. fold (pde_of s pd (PDX va)).
  by destruct (has PTE_P (pde_of s pd (PDX va))).
Qed.

(** The directory entry for a fresh page table, and the state in which page [q]
    has become the table for [va]. *)
Definition table_entry (q : Z) : Z := Z.lor (Z.lor (page2pa q) PTE_P) PTE_W.
Definition table_post (pd va q : Z) (p : Page) s : kstate :=
  let s1 := alloc_post ALLOC_ZERO q p s in
  put (set_pages (<[q := mkPage None (paddr p) 1]> (pages s)) s1) pd (PDX va) (table_entry q).

Lemma walk_create s fl pd va q :
  pages_wf s (q :: fl) → 0 <= pd < npages s → pt_of s pd (PDX va) = None → q ≠ pd →
  ∃ p, pages s !! q = Some p ∧ paddr p = q * 4096 ∧
    pgdir_walk (pgdir_kva pd) va CREATE s =
      Done (Some (slot_kva q (PTX va))) (table_post pd va q p s).
Proof.
  intros Hw Hpd Hpt Hne. pose proof (pw_npages _ _ Hw).
  pose proof (pw_in_range _ _ q Hw ltac:(set_solver)) as Hr.
  destruct (page_alloc_cons _ _ _ ALLOC_ZERO Hw) as (p & Hp & Ha & Hal).
  exists p. split_and!; [done..|]. unfold pgdir_walk.
  rewrite pde_slot, rd_slot by (lia || apply PDX_range).
  rewrite pt_of_inv in Hpt. fold (pde_of s pd (PDX va)).
  destruct (has PTE_P (pde_of s pd (PDX va))); [done|]. simpl. step_with Hal.
  erewrite run_upd_page by (unfold alloc_post; simpl; apply lookup_insert_eq).
  rewrite wr_slot by (lia || apply PDX_range).
  rewrite run_page2kva by (simpl; lia). rewrite pte_slot by lia.
  unfold table_post. do 2 f_equal. unfold alloc_post. simpl.
  by rewrite insert_insert_eq.
Qed.

Lemma walk_create_nil s pd va :
  pages_wf s [] → 0 <= pd < npages s → pt_of s pd (PDX va) = None →
  pgdir_walk (pgdir_kva pd) va CREATE s = Done None s.
Proof.
  intros Hw Hpd Hpt. pose proof (pw_npages _ _ Hw). unfold pgdir_walk.
  rewrite pde_slot, rd_slot by (lia || apply PDX_range).
  rewrite pt_of_inv in Hpt. fold (pde_of s pd (PDX va)).
  destruct (has PTE_P (pde_of s pd (PDX va))); [done|]. simpl.
  by step_with (page_alloc_nil s ALLOC_ZERO Hw).
Qed.
End walk.

#[global] Arguments pgdir_kva : simpl never.
#[global] Arguments slot_kva : simpl never.
#[global] Arguments table_entry : simpl never.

(** ** What page-table code may change *)

(** Only physical memory, the allocator's variables and the TLB differ. *)
Record vm_frame (s s' : kstate) : Prop := {
  vm_cr3 : cr3 s' = cr3 s;
  vm_cr2 : cr2 s' = cr2 s;
  vm_apic : apic s' = apic s;
  vm_npages : npages s' = npages s;
  vm_npages_basemem : npages_basemem s' = npages_basemem s;
  vm_nextfree : nextfree s' = nextfree s;
  vm_pages_kva : pages_kva s' = pages_kva s;
  vm_tail_free_page : tail_free_page s' = tail_free_page s;
  vm_kern_pgdir : kern_pgdir s' = kern_pgdir s;
  vm_user_mem_check_addr : user_mem_check_addr s' = user_mem_check_addr s;
  vm_envs : envs s' = envs s;
  vm_envs_kva : envs_kva s' = envs_kva s;
  vm_env_free_list : env_free_list s' = env_free_list s;
  vm_cpus : cpus s' = cpus s;
  vm_this_cpu : this_cpu s' = this_cpu s;
  vm_kernel_lock : kernel_lock s' = kernel_lock s;
  vm_idt : idt s' = idt s;
  vm_gdt : gdt s' = gdt s;
  vm_segregs : segregs s' = segregs s;
  vm_ncpu : ncpu s' = ncpu s;
  vm_ismp : ismp s' = ismp s;
  vm_bootcpu : bootcpu s' = bootcpu s;
  vm_dev : dev s' = dev s;
  vm_panicstr : panicstr s' = panicstr s;
}.

Section vm_frame.
Implicit Types s : kstate.

#[global] Instance vm_frame_refl : Reflexive vm_frame.
Proof. intros s. by split. Qed.

#[global] Instance vm_frame_trans : Transitive vm_frame.
Proof. intros s1 s2 s3 [] []. split; congruence. Qed.

Lemma vm_frame_put s p i v : vm_frame s (put s p i v).
Proof. by split. Qed.
Lemma vm_frame_alloc s flags q p : vm_frame s (alloc_post flags q p s).
Proof. unfold alloc_post. destruct (has ALLOC_ZERO flags); by split. Qed.
Lemma vm_frame_free s q p : vm_frame s (free_post q p s).
Proof. by split. Qed.
Lemma vm_frame_pages s ps : vm_frame s (set_pages ps s).
Proof. by split. Qed.
Lemma vm_frame_table s pd va q p : vm_frame s (table_post pd va q p s).
Proof. by split. Qed.
End vm_frame.

#[export] Hint Resolve vm_frame_put vm_frame_alloc vm_frame_free vm_frame_pages
  vm_frame_table : jos.

(** [walked s s' fl fl' pd va q]: from [s], a table [q] for [va] was found, or
    taken from the free list; no mapping changed. *)
Record walked (s s' : kstate) (fl fl' : list Z) (pd va q : Z) : Prop := {
  wk_pages : pages_wf s' fl';
  wk_pd : pd_wf s' fl' pd;
  wk_pt : pt_of s' pd (PDX va) = Some q;
  wk_pte : ∀ va', PDX va' ≠ self_index → pte_of s' pd va' = pte_of s pd va';
  wk_free : fl = fl' ∧ pt_of s pd (PDX va) = Some q ∨ fl = q :: fl' ∧ pt_of s pd (PDX va) = None;
  wk_tables : ∀ i, 0 <= i < 1024 → pt_of s' pd i = if decide (i = PDX va) then Some q else pt_of s pd i;
  wk_same_page : ∀ p, p ∉ fl → pages s' !! p = pages s !! p;
  wk_same_mem : ∀ p, p ∉ fl → p ≠ pd → page_same p (mem s) (mem s');
  wk_frame : vm_frame s s';
  wk_dir : ∀ i, 0 <= i < 1024 → i ≠ PDX va → pde_of s' pd i = pde_of s pd i;
  wk_flags : ∀ f, pt_of s pd (PDX va) ≠ None → has f (pde_of s pd (PDX va)) = true →
    has f (pde_of s' pd (PDX va)) = true;
  wk_fresh : pt_of s pd (PDX va) = None → pp_ref <$> pages s' !! q = Some 1;
  wk_writable : pt_of s pd (PDX va) = None → has PTE_W (pde_of s' pd (PDX va)) = true;
  wk_page_ne : ∀ p, p ≠ q → pages s' !! p = pages s !! p;
  wk_mem_ne : ∀ p, p ≠ q → p ≠ pd → page_same p (mem s) (mem s');
}.

Section walked.
Implicit Types (s : kstate) (fl : list Z) (pd va q : Z).

Lemma table_entry_facts q :
  0 <= q < 65536 →
  0 <= table_entry q < 4294967296 ∧ PGNUM (table_entry q) = q ∧ has PTE_P (table_entry q) = true.
Proof.
  intros. unfold table_entry. split; [|split].
  - rewrite page2pa_mul by lia. unfold PTE_P, PTE_W. repeat apply lor_u32; lia.
  - rewrite !PGNUM_lor, page2pa_mul, PGNUM_div by (unfold PTE_P, PTE_W; lia).
    apply Z.div_mul. lia.
  - rewrite !has_lor. change (has PTE_P PTE_P) with true. by rewrite orb_true_r.
Qed.

(** The tables after a fresh one was installed. *)
Lemma table_post_pt s fl pd va q p i :
  pages_wf s (q :: fl) → q ≠ pd → paddr p = q * 4096 → 0 <= i < 1024 →
  pt_of (table_post pd va q p s) pd i = if decide (i = PDX va) then Some q else pt_of s pd i.
Proof.
  intros Hw Hne Hp Hi. pose proof (pw_npages _ _ Hw).
  pose proof (pw_in_range _ _ q Hw ltac:(set_solver)) as Hr.
  destruct (table_entry_facts q ltac:(lia)) as (He & Hn & Hpr).
  unfold table_post. rewrite put_pde_pt by (done || apply PDX_range).
  rewrite Hn, Hpr. case_decide; [done|]. apply pt_frame; [|done].
  simpl. rewrite Hp. by apply fill_page_same.
Qed.

Lemma table_post_same_mem s pd va q p t :
  paddr p = q * 4096 → t ≠ q → t ≠ pd →
  page_same t (mem s) (mem (table_post pd va q p s)).
Proof.
  intros Hp Hq Hpd. unfold table_post, alloc_post. simpl. rewrite Hp.
  etrans; [by apply (fill_page_same _ q)|]. apply store_page_same; [apply PDX_range|done].
Qed.

Lemma table_post_pte s fl pd va q p va' :
  pages_wf s (q :: fl) → pd_wf s (q :: fl) pd → pt_of s pd (PDX va) = None →
  paddr p = q * 4096 → PDX va' ≠ self_index →
  pte_of (table_post pd va q p s) pd va' = pte_of s pd va'.
Proof.
  intros Hw Hd Hpt Hp Hs. assert (q ≠ pd) as Hne.
  { intros ->. destruct (pd_dir _ _ _ Hd). set_solver. }
  pose proof (table_post_pt s fl pd va q p (PDX va') Hw Hne Hp (PDX_range va')) as Hpt'.
  case_decide as E.
  - rewrite (pte_of_none s) by congruence. rewrite (pte_of_eq _ _ _ _ Hpt').
    unfold table_post, alloc_post. simpl. rewrite Hp.
    rewrite load32_store32_ne.
    + pose proof (PTX_range va'). apply load32_fill_zero; unfold PGSIZE; lia.
    + apply slots_disjoint; [apply PTX_range|apply PDX_range|by left].
  - apply pte_frame; [done|]. intros t Ht.
    destruct (pd_table _ _ _ Hd _ (PDX_range va') t Hs Ht) as (_ & [? _]%not_elem_of_cons & ?).
    by apply table_post_same_mem.
Qed.

Lemma table_post_walked s fl pd va q p :
  pages_wf s (q :: fl) → pd_wf s (q :: fl) pd → PDX va ≠ self_index →
  pt_of s pd (PDX va) = None → pages s !! q = Some p → paddr p = q * 4096 →
  walked s (table_post pd va q p s) (q :: fl) fl pd va q.
Proof.
  intros Hw Hd Hs Hpt Hq Hp. assert (q ≠ pd) as Hne.
  { intros ->. destruct (pd_dir _ _ _ Hd). set_solver. }
  assert (∀ i, 0 <= i < 1024 → pt_of (table_post pd va q p s) pd i =
    if decide (i = PDX va) then Some q else pt_of s pd i) as Hpt'
    by (intros; by eapply table_post_pt).
  pose proof (pw_nodup _ _ Hw) as [Hnd _]%NoDup_cons.
  pose proof (pw_in_range _ _ q Hw ltac:(set_solver)) as Hr.
  assert (∀ i, 0 <= i < 1024 → i ≠ self_index → pt_of s pd i ≠ Some q) as Hnq.
  { intros i Hi Hsi Ht. destruct (pd_table _ _ _ Hd i Hi q Hsi Ht) as (_ & ? & _). set_solver. }
  split.
  - eapply pages_wf_update; [by eapply (alloc_post_wf s fl q p ALLOC_ZERO)|exact Hr|done|..].
    all: unfold table_post, alloc_post; simpl; try reflexivity.
    all: try (by rewrite insert_insert_eq). all: simpl; lia || done.
  - split; simpl.
    + destruct (pd_dir _ _ _ Hd). split; [done|set_solver].
    + intros i Hi t Hsi. rewrite Hpt' by done. case_decide; intros Ht.
      * simplify_eq. done.
      * destruct (pd_table _ _ _ Hd i Hi t Hsi Ht) as (? & ? & ?). set_solver.
    + intros i Hi j Hj t Hsi Hsj. rewrite !Hpt' by done.
      repeat case_decide; intros; simplify_eq; try done.
      * exfalso. by eapply Hnq, H2.
      * exfalso. by eapply Hnq, H1.
      * by eapply (pd_inj _ _ _ Hd).
  - rewrite Hpt' by apply PDX_range. by rewrite decide_True.
  - intros. by eapply table_post_pte.
  - by right.
  - done.
  - intros t Ht. unfold table_post, alloc_post. simpl. rewrite lookup_insert_ne; [done|set_solver].
  - intros t [? _]%not_elem_of_cons Hn. by apply table_post_same_mem.
  - auto with jos.
  - intros i Hi Hne'. unfold pde_of, table_post, alloc_post. simpl. rewrite Hp.
    rewrite store_slot_ne by (done || apply PDX_range).
    apply page_same_slot; [by apply fill_page_same|done].
  - intros f Hn. by rewrite Hpt in Hn.
  - intros _. unfold table_post. simpl. by rewrite lookup_insert_eq.
  - intros _. destruct (table_entry_facts q) as (He & _); [pose proof (pw_npages _ _ Hw); lia|].
    unfold table_post, pde_of. simpl. rewrite load32_store32_eq, u32_id by done.
    unfold table_entry. rewrite !has_lor. by rewrite orb_true_r.
  - intros t Ht. unfold table_post, alloc_post. simpl. by rewrite lookup_insert_ne.
  - intros t Ht Hn. by apply table_post_same_mem.
Qed.

(** [pgdir_walk] with [CREATE]: an entry is always produced, unless a table is
    missing and no page is free. *)
Lemma walk_spec s fl pd va :
  pages_wf s fl → pd_wf s fl pd → PDX va ≠ self_index →
  (pt_of s pd (PDX va) = None ∧ fl = [] ∧
     pgdir_walk (pgdir_kva pd) va CREATE s = Done None s) ∨
  ∃ s' fl' q, pgdir_walk (pgdir_kva pd) va CREATE s = Done (Some (slot_kva q (PTX va))) s' ∧
    walked s s' fl fl' pd va q.
Proof.
  intros Hw Hd Hs. destruct (pd_dir _ _ _ Hd) as [Hr Hnf].
  destruct (pt_of s pd (PDX va)) as [q|] eqn:Hpt.
  - right. exists s, fl, q.
    destruct (pd_table _ _ _ Hd _ (PDX_range va) q Hs Hpt) as (? & ? & ?).
    split; [eapply walk_present; eauto; lia|].
    split; auto; try done.
    + intros i Hi. case_decide; [by subst|done].
    + congruence.
    + congruence.
  - destruct fl as [|q fl]; [left|right].
    + split_and!; [done..|]. by apply walk_create_nil.
    + destruct (walk_create s fl pd va q Hw Hr Hpt ltac:(set_solver)) as (p & Hp & Ha & Hwalk).
      exists (table_post pd va q p s), fl, q. split; [done|]. by apply table_post_walked.
Qed.
End walked.

(** ** [page_lookup], [page_remove] *)

(** The page mapped at [va]. *)
Definition mapped (s : kstate) (pd va : Z) : option Z :=
  if has PTE_P (pte_of s pd va) then Some (PGNUM (pte_of s pd va)) else None.

(** The running CPU is known, and so is its environment, if it has one. *)
Definition cpu_ok (s : kstate) : Prop :=
  match cpus s !! this_cpu s with
  | Some c => match cpu_env c with Some e => is_Some (envs s !! e) | None => True end
  | None => False
  end.

#[export] Instance cpu_ok_dec s : Decision (cpu_ok s).
Proof. unfold cpu_ok. repeat case_match; apply _. Defined.

(** [pgdir] is the address space in use: the condition of [tlb_invalidate]. *)
Definition in_use (pgdir : Z) (s : kstate) : bool :=
  match cpus s !! this_cpu s with
  | Some c => match cpu_env c with
              | Some e => match envs s !! e with Some x => env_pgdir x =? pgdir | None => false end
              | None => true end
  | None => false
  end.

Definition flush (pgdir va : Z) (s : kstate) : kstate :=
  if in_use pgdir s then set_invlpgs (va :: invlpgs s) s else s.

Section remove.
Implicit Types (s : kstate) (fl : list Z) (pd va q t : Z) (p : Page).

Lemma cpu_ok_frame s s' : vm_frame s s' → cpu_ok s → cpu_ok s'.
Proof. intros H. unfold cpu_ok. by rewrite !(vm_cpus _ _ H), (vm_this_cpu _ _ H), (vm_envs _ _ H). Qed.

Lemma in_use_frame pgdir s s' : vm_frame s s' → in_use pgdir s' = in_use pgdir s.
Proof. intros H. unfold in_use. by rewrite !(vm_cpus _ _ H), (vm_this_cpu _ _ H), (vm_envs _ _ H). Qed.

Lemma tlb_invalidate_eq pgdir va s :
  cpu_ok s → tlb_invalidate pgdir va s = Done tt (flush pgdir va s).
Proof.
  unfold cpu_ok, tlb_invalidate, flush, in_use. intros H.
  destruct (cpus s !! this_cpu s) as [c|] eqn:Ec; [|done]. rewrite (run_curenv c) by done.
  destruct (cpu_env c) as [e|]; [|done].
  destruct H as [x Hx]. rewrite Hx. run. by destruct (env_pgdir x =? pgdir).
Qed.

Lemma lookup_none s fl pd va :
  pages_wf s fl → pd_wf s fl pd → PDX va ≠ self_index → mapped s pd va = None →
  page_lookup (pgdir_kva pd) va s = Done None s.
Proof.
  intros Hw Hd Hs Hm. pose proof (pw_npages _ _ Hw). destruct (pd_dir _ _ _ Hd) as [Hr _].
  unfold page_lookup, mapped in *. destruct (pt_of s pd (PDX va)) as [t|] eqn:Ht.
  - destruct (pd_table _ _ _ Hd _ (PDX_range va) t Hs Ht) as (? & _).
    step_with (walk_present s fl pd va NO_CREATE t Hw Hr Ht ltac:(lia)).
    rewrite rd_slot by (lia || apply PTX_range). rewrite <- (pte_of_eq _ _ _ _ Ht).
    by destruct (has PTE_P (pte_of s pd va)).
  - by step_with (walk_absent s fl pd va Hw Hr Ht).
Qed.

Lemma mapped_table s pd va q : mapped s pd va = Some q → ∃ t, pt_of s pd (PDX va) = Some t.
Proof.
  unfold mapped. destruct (pt_of s pd (PDX va)) as [t|] eqn:Ht; [eauto|].
  by rewrite pte_of_none.
Qed.

Lemma lookup_some s fl pd va q t :
  pages_wf s fl → pd_wf s fl pd → PDX va ≠ self_index →
  mapped s pd va = Some q → q < npages s → pt_of s pd (PDX va) = Some t →
  page_lookup (pgdir_kva pd) va s = Done (Some (q, slot_kva t (PTX va))) s.
Proof.
  intros Hw Hd Hs Hm Hq Ht. pose proof (pw_npages _ _ Hw).
  destruct (pd_dir _ _ _ Hd) as [Hr _].
  destruct (pd_table _ _ _ Hd _ (PDX_range va) t Hs Ht) as (? & _).
  unfold page_lookup, mapped in *.
  step_with (walk_present s fl pd va NO_CREATE t Hw Hr Ht ltac:(lia)).
  rewrite rd_slot by (lia || apply PTX_range). rewrite <- (pte_of_eq _ _ _ _ Ht).
  destruct (has PTE_P (pte_of s pd va)); [|done]. simplify_eq. simpl.
  pose proof (pte_of_range s pd va).
  rewrite run_pa2page by (by rewrite PTE_ADDR_PGNUM). by rewrite PTE_ADDR_PGNUM.
Qed.

(** The state after the mapping of page [q] through entry [PTX va] of table [t]
    was removed. *)
Definition remove_post (pd va q t : Z) p s : kstate :=
  let p' := set_pp_ref (u16 (pp_ref p - 1)) p in
  let s1 := set_pages (<[q := p']> (pages s)) s in
  put (if pp_ref p =? 1 then flush (pgdir_kva pd) va (free_post q p' s1) else s1)
    t (PTX va) 0.

Lemma remove_some s fl pd va q t p :
  pages_wf s fl → pd_wf s fl pd → PDX va ≠ self_index → cpu_ok s →
  mapped s pd va = Some q → pages s !! q = Some p → pt_of s pd (PDX va) = Some t →
  page_remove (pgdir_kva pd) va s = Done tt (remove_post pd va q t p s).
Proof.
  intros Hw Hd Hs Hc Hm Hp Ht. destruct (pw_page _ _ Hw _ _ Hp) as (Hb & Ha & Hrf).
  destruct (pd_table _ _ _ Hd _ (PDX_range va) t Hs Ht) as (? & _).
  unfold page_remove, remove_post.
  step_with (lookup_some s fl pd va q t Hw Hd Hs Hm ltac:(lia) Ht).
  pose proof (page_decref_eq s fl q p Hw Hp) as Hdec. simpl in Hdec.
  assert (u16 (pp_ref p - 1) = 0 ↔ pp_ref p = 1) as Hz by (unfold u16; zlia).
  destruct (Z.eqb_spec (pp_ref p) 1) as [E|E]; step_with Hdec.
  - erewrite run_get_page by (simpl; apply lookup_insert_eq). simpl.
    destruct (Z.eqb_spec (u16 (pp_ref p - 1)) 0) as [_|]; [|tauto].
    erewrite (bind_Done (tlb_invalidate _ _)) by (by apply tlb_invalidate_eq).
    rewrite tail_bind, wr_slot by (lia || apply PTX_range). done.
  - erewrite run_get_page by (simpl; apply lookup_insert_eq). simpl.
    destruct (Z.eqb_spec (u16 (pp_ref p - 1)) 0) as [|_]; [tauto|].
    run. rewrite tail_bind, wr_slot by (lia || apply PTX_range). done.
Qed.

Lemma remove_none s fl pd va :
  pages_wf s fl → pd_wf s fl pd → PDX va ≠ self_index → mapped s pd va = None →
  page_remove (pgdir_kva pd) va s = Done tt s.
Proof.
  intros Hw Hd Hs Hm. unfold page_remove. by step_with (lookup_none s fl pd va Hw Hd Hs Hm).
Qed.
End remove.

#[global] Arguments flush : simpl never.

(** [removed s s' fl fl' pd va q p]: the mapping of page [q], described by [p],
    at [va] is gone, and nothing else changed. *)
Record removed (s s' : kstate) (fl fl' : list Z) (pd va q : Z) (p : Page) : Prop := {
  rm_pages : pages_wf s' fl';
  rm_pd : pd_wf s' fl' pd;
  rm_free : fl' = if pp_ref p =? 1 then q :: fl else fl;
  rm_pte : pte_of s' pd va = 0;
  rm_pte_other : ∀ va', 0 <= va' < 4294967296 → PDX va' ≠ self_index →
    PGNUM va' ≠ PGNUM va → pte_of s' pd va' = pte_of s pd va';
  rm_ref : pp_ref <$> pages s' !! q = Some (u16 (pp_ref p - 1));
  rm_other : ∀ j, j ≠ q → pages s' !! j = pages s !! j;
  rm_tables : ∀ i, 0 <= i < 1024 → pt_of s' pd i = pt_of s pd i;
  rm_same_mem : ∀ j, pt_of s pd (PDX va) ≠ Some j → page_same j (mem s) (mem s');
  rm_tlb : invlpgs s' = if (pp_ref p =? 1) && in_use (pgdir_kva pd) s
                        then va :: invlpgs s else invlpgs s;
  rm_frame : vm_frame s s';
}.

Section removed.
Implicit Types (s : kstate) (fl : list Z) (pd va q t : Z) (p : Page).

Lemma flush_eq pgdir va s : flush pgdir va s = s ∨
  flush pgdir va s = set_invlpgs (va :: invlpgs s) s.
Proof. unfold flush. destruct (in_use pgdir s); auto. Qed.

Lemma mem_flush pgdir va s : mem (flush pgdir va s) = mem s.
Proof. by destruct (flush_eq pgdir va s) as [-> | ->]. Qed.

Lemma pages_flush pgdir va s : pages (flush pgdir va s) = pages s.
Proof. by destruct (flush_eq pgdir va s) as [-> | ->]. Qed.

Lemma vm_frame_flush pgdir va s : vm_frame s (flush pgdir va s).
Proof. destruct (flush_eq pgdir va s) as [-> | ->]; by split. Qed.

Lemma pages_wf_flush pgdir va s fl : pages_wf s fl → pages_wf (flush pgdir va s) fl.
Proof. intros H. destruct (flush_eq pgdir va s) as [-> | ->]; [done|]. by eapply pages_wf_ext. Qed.

(** Everything [page_remove] does before it clears the entry. *)
Definition unref_post (pd va q : Z) p s : kstate :=
  let p' := set_pp_ref (u16 (pp_ref p - 1)) p in
  let s1 := set_pages (<[q := p']> (pages s)) s in
  if pp_ref p =? 1 then flush (pgdir_kva pd) va (free_post q p' s1) else s1.

Lemma unref_mem pd va q p s : mem (unref_post pd va q p s) = mem s.
Proof. unfold unref_post. destruct (pp_ref p =? 1); [|done]. by rewrite mem_flush. Qed.

Lemma unref_frame pd va q p s : vm_frame s (unref_post pd va q p s).
Proof.
  unfold unref_post. destruct (pp_ref p =? 1); [|auto with jos].
  etrans; [|apply vm_frame_flush]. by split.
Qed.

Lemma unref_pages pd va q p s :
  ∃ l, pages (unref_post pd va q p s) =
    <[q := mkPage l (paddr p) (u16 (pp_ref p - 1))]> (pages s).
Proof.
  unfold unref_post. destruct (pp_ref p =? 1); [|by eexists].
  rewrite pages_flush. simpl. rewrite insert_insert_eq. by eexists.
Qed.

Lemma unref_wf pd va q p s fl :
  pages_wf s fl → pages s !! q = Some p → q ∉ fl →
  pages_wf (unref_post pd va q p s) (if pp_ref p =? 1 then q :: fl else fl).
Proof.
  intros Hw Hp Hq. destruct (pw_page _ _ Hw _ _ Hp) as (Hb & Ha & Hrf).
  assert (pages_wf (set_pages (<[q := set_pp_ref (u16 (pp_ref p - 1)) p]> (pages s)) s) fl).
  { eapply (pages_wf_update s _ fl q (set_pp_ref (u16 (pp_ref p - 1)) p)); try done.
    simpl. apply u16_range. }
  unfold unref_post. destruct (pp_ref p =? 1); [|done].
  apply pages_wf_flush, free_post_wf; [done| |done]. simpl. apply lookup_insert_eq.
Qed.

Lemma remove_post_removed s fl pd va q t p :
  pages_wf s fl → pd_wf s fl pd → 0 <= va < 4294967296 → PDX va ≠ self_index →
  leaf_ok s fl pd q → pages s !! q = Some p → pt_of s pd (PDX va) = Some t →
  removed s (remove_post pd va q t p s) fl (if pp_ref p =? 1 then q :: fl else fl) pd va q p.
Proof.
  intros Hw Hd Hva Hs Hl Hp Ht. change (remove_post pd va q t p s) with
    (put (unref_post pd va q p s) t (PTX va) 0).
  set (s1 := unref_post pd va q p s).
  assert (mem s1 = mem s) as Hm by apply unref_mem.
  assert (∀ i, 0 <= i < 1024 → pt_of s1 pd i = pt_of s pd i) as Hpt1.
  { intros i Hi. apply pt_frame; [by rewrite Hm|done]. }
  assert (pd_wf s1 (if pp_ref p =? 1 then q :: fl else fl) pd) as Hd1.
  { pose proof (vm_npages _ _ (unref_frame pd va q p s)).
    destruct (pp_ref p =? 1); [by eapply pd_wf_freed; eauto|].
    eapply pd_wf_update; eauto. }
  assert (pt_of s1 pd (PDX va) = Some t) as Ht1 by (rewrite Hpt1; [done|apply PDX_range]).
  destruct (unref_pages pd va q p s) as [l Hps]. fold s1 in Hps.
  split; try done.
  - by eapply pages_wf_ext; [apply (unref_wf pd va q p s fl); apply Hl || done|..].
  - eapply pd_wf_update; try done. intros i Hi _. by eapply put_pte_pt.
  - by eapply put_pte_same.
  - intros va' Hva' Hs' Hne. rewrite (put_pte_other s1 _ pd va t 0 va' Hd1) by done.
    apply pte_frame; [apply Hpt1, PDX_range|]. intros ? _. by rewrite Hm.
  - simpl. rewrite Hps, lookup_insert_eq. done.
  - intros j Hj. simpl. by rewrite Hps, lookup_insert_ne.
  - intros i Hi. etrans; [by eapply put_pte_pt|]. by apply Hpt1.
  - intros j Hj. simpl. rewrite Hm. apply store_page_same; [apply PTX_range|congruence].
  - simpl. unfold s1, unref_post. destruct (pp_ref p =? 1); [|done]. simpl.
    unfold flush. erewrite (in_use_frame _ s) by by split. by destruct (in_use _ s).
  - etrans; [apply unref_frame|]. apply vm_frame_put.
Qed.

(** [page_remove] on a mapped address. *)
Lemma remove_spec s fl pd va q p :
  pages_wf s fl → pd_wf s fl pd → cpu_ok s → 0 <= va < 4294967296 → PDX va ≠ self_index →
  mapped s pd va = Some q → leaf_ok s fl pd q → pages s !! q = Some p →
  ∃ s' fl', page_remove (pgdir_kva pd) va s = Done tt s' ∧ removed s s' fl fl' pd va q p.
Proof.
  intros Hw Hd Hc Hva Hs Hm Hl Hp. destruct (mapped_table _ _ _ _ Hm) as [t Ht].
  eexists _, _. split; [by eapply remove_some|]. by apply remove_post_removed.
Qed.
End removed.

(** ** [page_insert] *)

(** [inserted s s' fl fl' pd va pp p perm]: page [pp], described by [p] before,
    is now mapped at [va] with permissions [perm], and nothing else changed. *)
Record inserted (s s' : kstate) (fl fl' : list Z) (pd va pp : Z) (p : Page) (perm : Z) : Prop := {
  in_pages : pages_wf s' fl';
  in_pd : pd_wf s' fl' pd;
  in_pte : pte_of s' pd va = Z.lor (Z.lor (page2pa pp) perm) PTE_P;
  in_pte_other : ∀ va', 0 <= va' < 4294967296 → PDX va' ≠ self_index →
    PGNUM va' ≠ PGNUM va → pte_of s' pd va' = pte_of s pd va';
  in_ref : pp_ref <$> pages s' !! pp =
    Some (if decide (mapped s pd va = Some pp) then pp_ref p else u16 (pp_ref p + 1));
  in_old : ∀ q p0, mapped s pd va = Some q → q ≠ pp → pages s !! q = Some p0 →
    pp_ref <$> pages s' !! q = Some (u16 (pp_ref p0 - 1)) ∧ (pp_ref p0 = 1 ↔ q ∈ fl');
  in_free : ∀ j, j ∈ fl' → j ∈ fl ∨ mapped s pd va = Some j;
  in_other : ∀ j, j ∉ fl → j ≠ pp → mapped s pd va ≠ Some j → pages s' !! j = pages s !! j;
  in_same_mem : ∀ j, j ∉ fl → j ≠ pd → pt_of s pd (PDX va) ≠ Some j →
    page_same j (mem s) (mem s');
  in_tables : ∀ i, 0 <= i < 1024 → ∀ t, pt_of s' pd i = Some t → pt_of s pd i = Some t ∨ t ∈ fl;
  in_frame : vm_frame s s';
  in_kept : pp ∉ fl';
  in_dir : ∀ i, 0 <= i < 1024 → i ≠ PDX va → pde_of s' pd i = pde_of s pd i;
  in_flags : ∀ f, has f perm = true ∨
      pt_of s pd (PDX va) ≠ None ∧ has f (pde_of s pd (PDX va)) = true →
    has f (pde_of s' pd (PDX va)) = true;
  in_fresh : pt_of s pd (PDX va) = None → ∀ t, pt_of s' pd (PDX va) = Some t →
    pp_ref <$> pages s' !! t = Some 1;
  in_page_ne : ∀ j, pt_of s' pd (PDX va) ≠ Some j → j ≠ pp → mapped s pd va ≠ Some j →
    pages s' !! j = pages s !! j;
  in_mem_ne : ∀ j, pt_of s' pd (PDX va) ≠ Some j → j ≠ pd → page_same j (mem s) (mem s');
  in_list : ∃ fl1, (fl = fl1 ∧ pt_of s' pd (PDX va) = pt_of s pd (PDX va) ∨
      ∃ t, fl = t :: fl1 ∧ pt_of s pd (PDX va) = None ∧ pt_of s' pd (PDX va) = Some t) ∧
    (fl' = fl1 ∨ ∃ q, mapped s pd va = Some q ∧ q ≠ pp ∧ fl' = q :: fl1);
}.

Section insert.
Implicit Types (s : kstate) (fl : list Z) (pd va q t : Z) (p : Page).

Lemma put_pde_same s pd i v : 0 <= v < 4294967296 → pde_of (put s pd i v) pd i = v.
Proof. intros Hv. unfold pde_of, put. simpl. by rewrite load32_store32_eq, u32_id. Qed.

(** Writing a table leaves the directory alone. *)
Lemma put_pte_pde s fl pd t i v j :
  pd_wf s fl pd → pt_of s pd i = Some t → 0 <= i < 1024 → i ≠ self_index → 0 <= j < 1024 →
  ∀ k, 0 <= k < 1024 → pde_of (put s t j v) pd k = pde_of s pd k.
Proof.
  intros Hd Ht Hi Hs Hj k Hk. destruct (pd_table _ _ _ Hd i Hi t Hs Ht) as (_ & _ & Hne).
  unfold pde_of. simpl. apply page_same_slot; [|done]. by apply store_page_same.
Qed.

(** Adding flags to the directory entry keeps the table it designates. *)
Lemma walked_pde s s1 fl fl' pd va q perm :
  walked s s1 fl fl' pd va q → PDX va ≠ self_index → 0 <= perm < 4096 →
  walked s (put s1 pd (PDX va) (Z.lor (pde_of s1 pd (PDX va)) perm)) fl fl' pd va q.
Proof.
  intros Hk Hs Hperm. set (v := Z.lor (pde_of s1 pd (PDX va)) perm).
  assert (0 <= v < 4294967296) as Hv by (apply lor_u32; [apply pde_of_range|lia]).
  assert (has PTE_P v = true ∧ PGNUM v = q) as [Hv1 Hv2].
  { pose proof (wk_pt _ _ _ _ _ _ _ Hk) as Hpt. rewrite pt_of_inv in Hpt.
    unfold v. rewrite has_lor, PGNUM_lor by done.
    destruct (has PTE_P (pde_of s1 pd (PDX va))); simplify_eq. done. }
  assert (∀ i, 0 <= i < 1024 → pt_of (put s1 pd (PDX va) v) pd i = pt_of s1 pd i) as Hpt.
  { intros i Hi. rewrite put_pde_pt by (done || apply PDX_range).
    rewrite Hv1, Hv2. case_decide; [|done]. subst i. by rewrite (wk_pt _ _ _ _ _ _ _ Hk). }
  destruct Hk as [H1 H2 H3 H4 H5 H6 H7 H8 H9 H10 H11 H12 H13 H14 H15]. split; try done.
  - by eapply pages_wf_ext.
  - eapply pd_wf_update; eauto.
  - by rewrite Hpt by apply PDX_range.
  - intros va' Hs'. rewrite <- H4 by done. eapply put_pde_pte; eauto with jos.
  - intros i Hi. rewrite Hpt by done. by apply H6.
  - intros j Hj Hne. etrans; [by apply H8|]. apply store_page_same; [apply PDX_range|done].
  - etrans; [done|]. apply vm_frame_put.
  - intros i Hi Hne. rewrite <- H10 by done. unfold pde_of. simpl.
    by rewrite store_slot_ne by (done || apply PDX_range).
  - intros f Hn Hf. rewrite put_pde_same by done. unfold v. by rewrite has_lor, (H11 f) by done.
  - intros Hn. rewrite put_pde_same by done. unfold v. by rewrite has_lor, (H13 Hn).
  - intros j Hj Hne. etrans; [by apply H15|]. apply store_page_same; [apply PDX_range|done].
Qed.

(** The free list after a walk. *)
Lemma walked_list s s1 fl fl' pd va q :
  walked s s1 fl fl' pd va q →
  fl = fl' ∧ pt_of s1 pd (PDX va) = pt_of s pd (PDX va) ∨
  ∃ t, fl = t :: fl' ∧ pt_of s pd (PDX va) = None ∧ pt_of s1 pd (PDX va) = Some t.
Proof.
  intros Hk. pose proof (wk_pt _ _ _ _ _ _ _ Hk) as Ht.
  destruct (wk_free _ _ _ _ _ _ _ Hk) as [[-> Hn]|[-> Hn]]; [left|right; exists q; done].
  split; [done|]. by rewrite Ht, Hn.
Qed.

(** A table of the walked directory is an old one or was free before. *)
Lemma walked_new_table s s1 fl fl' pd va q :
  walked s s1 fl fl' pd va q →
  ∀ i, 0 <= i < 1024 → ∀ t, pt_of s1 pd i = Some t → pt_of s pd i = Some t ∨ t ∈ fl.
Proof.
  intros Hk i Hi t. rewrite (wk_tables _ _ _ _ _ _ _ Hk) by done.
  case_decide as E; [|auto]. intros [= <-]. subst i.
  destruct (wk_free _ _ _ _ _ _ _ Hk) as [[-> Hn]|[-> _]]; [by left|right; set_solver].
Qed.

Lemma walked_leaf s s1 fl fl' pd va t q :
  walked s s1 fl fl' pd va t → leaf_ok s fl pd q → leaf_ok s1 fl' pd q.
Proof.
  intros Hk (Hr & Hf & Hp & Ht). unfold leaf_ok.
  rewrite (vm_npages _ _ (wk_frame _ _ _ _ _ _ _ Hk)). split_and!; try lia.
  - destruct (wk_free _ _ _ _ _ _ _ Hk) as [[<- _]|[E _]]; [done|]. rewrite E in Hf. set_solver.
  - intros i Hi Hs E. destruct (walked_new_table _ _ _ _ _ _ _ Hk i Hi _ E); [|done]. by apply (Ht i).
Qed.

Lemma walked_table s s1 fl fl' pd va t j :
  walked s s1 fl fl' pd va t → j ∉ fl → pt_of s pd (PDX va) ≠ Some j → t ≠ j.
Proof.
  intros Hk Hj Hne ->.
  by destruct (walked_new_table _ _ _ _ _ _ _ Hk _ (PDX_range va) _ (wk_pt _ _ _ _ _ _ _ Hk)).
Qed.

Lemma walked_mapped s s1 fl fl' pd va t :
  walked s s1 fl fl' pd va t → PDX va ≠ self_index → mapped s1 pd va = mapped s pd va.
Proof. intros Hk Hs. unfold mapped. by rewrite (wk_pte _ _ _ _ _ _ _ Hk). Qed.

(** Updating the description of an ordinary page, and then writing the entry. *)
Lemma put_leaf s fl pd va t v :
  pages_wf s fl → pd_wf s fl pd → 0 <= va < 4294967296 → PDX va ≠ self_index →
  pt_of s pd (PDX va) = Some t → 0 <= v < 4294967296 →
  pages_wf (put s t (PTX va) v) fl ∧ pd_wf (put s t (PTX va) v) fl pd ∧
  pte_of (put s t (PTX va) v) pd va = v ∧
  (∀ va', 0 <= va' < 4294967296 → PDX va' ≠ self_index →
    PGNUM va' ≠ PGNUM va → pte_of (put s t (PTX va) v) pd va' = pte_of s pd va') ∧
  (∀ i, 0 <= i < 1024 → pt_of (put s t (PTX va) v) pd i = pt_of s pd i).
Proof.
  intros Hw Hd Hva Hs Ht Hv. split_and!.
  - by eapply pages_wf_ext.
  - eapply pd_wf_update; try done. intros i Hi _. by eapply put_pte_pt.
  - by eapply put_pte_same.
  - intros. by eapply put_pte_other.
  - intros. by eapply put_pte_pt.
Qed.

(** The tail of [page_insert] once the entry is free or already right: from the
    walked state [s2], with [pages] updated to [ps], the entry is written. *)
Lemma insert_write s s2 ps fl fl' pd va pp p t perm ref :
  walked s s2 fl fl' pd va t → pages_wf s fl → PDX va ≠ self_index →
  0 <= va < 4294967296 → 0 <= perm < 4096 →
  pages s !! pp = Some p → leaf_ok s fl pd pp →
  ps = <[pp := set_pp_ref ref p]> (pages s2) → 0 <= ref < 65536 →
  ref = (if decide (mapped s pd va = Some pp) then pp_ref p else u16 (pp_ref p + 1)) →
  mapped s pd va = None ∨ mapped s pd va = Some pp →
  (∀ f, has f perm = true → has f (pde_of s2 pd (PDX va)) = true) →
  inserted s (put (set_pages ps s2) t (PTX va) (Z.lor (Z.lor (page2pa pp) perm) PTE_P))
    fl fl' pd va pp p perm.
Proof.
  intros Hk Hw Hs Hva Hperm Hp Hl Hps Href Href' Hm Hfl.
  pose proof (walked_leaf _ _ _ _ _ _ _ _ Hk Hl) as (Hr2 & Hf2 & _).
  destruct Hl as (Hr & Hf & Hpd & Hnt). pose proof (pw_npages _ _ Hw).
  assert (pages_wf (set_pages ps s2) fl') as Hw3.
  { eapply (pages_wf_update s2 _ fl' pp (set_pp_ref ref p)); try done; [apply Hk|].
    by apply (pw_paddr _ _ _ _ Hw) in Hp. }
  assert (pd_wf (set_pages ps s2) fl' pd) as Hd3.
  { apply (pd_wf_update s2 _ fl'); try done. apply Hk. }
  destruct (put_leaf (set_pages ps s2) fl' pd va t (Z.lor (Z.lor (page2pa pp) perm) PTE_P)
    Hw3 Hd3 Hva Hs (wk_pt _ _ _ _ _ _ _ Hk)) as (Hw4 & Hd4 & Hpte & Hoth & Hpt);
    [apply entry_range; lia|].
  assert (∀ k v, 0 <= k < 1024 → pde_of (put (set_pages ps s2) t (PTX va) v) pd k = pde_of s2 pd k) as Hdir.
  { intros k v. apply (put_pte_pde (set_pages ps s2) fl' pd t (PDX va)); try done;
      [apply Hk|apply PDX_range|apply PTX_range]. }
  split; try done.
  - intros. rewrite Hoth by done. by apply Hk.
  - simpl. rewrite Hps, lookup_insert_eq. simpl. by rewrite Href'.
  - intros q p0 Hq. destruct Hm; congruence.
  - intros j Hj. left. destruct (wk_free _ _ _ _ _ _ _ Hk) as [[-> _] | [-> _]]; [done|].
    apply elem_of_cons. by right.
  - intros j Hj Hne _. simpl. rewrite Hps, lookup_insert_ne by done. by apply Hk.
  - intros j Hj Hne Hnt'. etrans; [by apply Hk|]. apply store_page_same; [apply PTX_range|].
    intros ->. by eapply walked_table.
  - intros i Hi u. rewrite Hpt by done. by apply (walked_new_table _ _ _ _ _ _ _ Hk).
  - etrans; [apply Hk|]. by split.
  - intros i Hi Hne. rewrite <- (wk_dir _ _ _ _ _ _ _ Hk i Hi Hne). by apply Hdir.
  - intros f Hff. rewrite Hdir by apply PDX_range.
    destruct Hff as [Hff|[Hn Hff]]; [by apply Hfl|by apply (wk_flags _ _ _ _ _ _ _ Hk)].
  - intros Hn u. rewrite Hpt by apply PDX_range.
    change (pt_of s2 pd (PDX va) = Some u → pp_ref <$> ps !! u = Some 1). rewrite (wk_pt _ _ _ _ _ _ _ Hk).
    intros [= <-]. rewrite Hps, lookup_insert_ne; [by apply (wk_fresh _ _ _ _ _ _ _ Hk)|].
    intros ->. destruct (wk_free _ _ _ _ _ _ _ Hk) as [[_ E]|[E _]]; [by rewrite Hn in E|].
    apply Hf. rewrite E. apply elem_of_cons. by left.
  - intros j Hj Hne _. rewrite Hpt in Hj by apply PDX_range. simpl. rewrite Hps, lookup_insert_ne by done.
    apply (wk_page_ne _ _ _ _ _ _ _ Hk). intros ->. by apply Hj, (wk_pt _ _ _ _ _ _ _ Hk).
  - intros j Hj Hne. rewrite Hpt in Hj by apply PDX_range. assert (j ≠ t) as Htj.
    { intros ->. by apply Hj, (wk_pt _ _ _ _ _ _ _ Hk). }
    etrans; [by apply (wk_mem_ne _ _ _ _ _ _ _ Hk)|]. apply store_page_same; [apply PTX_range|done].
  - exists fl'. split; [|by left]. rewrite Hpt by apply PDX_range. by apply (walked_list _ _ _ _ _ _ _ Hk).
Qed.

(** The same when another page [q] had to be removed first: [s3] is the walked
    state with the count of [pp] incremented, [s4] the state after the removal. *)
Lemma insert_replace s s2 s4 fl fl' fl4 pd va pp p q p0 t perm :
  let s3 := set_pages (<[pp := set_pp_ref (u16 (pp_ref p + 1)) p]> (pages s2)) s2 in
  walked s s2 fl fl' pd va t → pages_wf s fl → PDX va ≠ self_index →
  0 <= va < 4294967296 → 0 <= perm < 4096 →
  pages s !! pp = Some p → leaf_ok s fl pd pp → leaf_ok s fl pd q →
  mapped s pd va = Some q → q ≠ pp → pages s !! q = Some p0 →
  removed s3 s4 fl' fl4 pd va q p0 →
  (∀ f, has f perm = true → has f (pde_of s2 pd (PDX va)) = true) →
  inserted s (put s4 t (PTX va) (Z.lor (Z.lor (page2pa pp) perm) PTE_P)) fl fl4 pd va pp p perm.
Proof.
  intros s3 Hk Hw Hs Hva Hperm Hp Hl Hlq Hm Hne Hp0 Hrm Hfl.
  pose proof (walked_leaf _ _ _ _ _ _ _ _ Hk Hl) as (_ & Hfp & _).
  destruct Hl as (Hr & Hf & Hpd & Hnt). pose proof (pw_npages _ _ Hw).
  pose proof (walked_leaf _ _ _ _ _ _ _ _ Hk Hlq) as (Hrq & Hfq & _).
  assert (pt_of s4 pd (PDX va) = Some t) as Ht4.
  { rewrite (rm_tables _ _ _ _ _ _ _ _ Hrm) by apply PDX_range. apply Hk. }
  destruct (put_leaf s4 fl4 pd va t (Z.lor (Z.lor (page2pa pp) perm) PTE_P)
    (rm_pages _ _ _ _ _ _ _ _ Hrm) (rm_pd _ _ _ _ _ _ _ _ Hrm) Hva Hs Ht4)
    as (Hw5 & Hd5 & Hpte & Hoth & Hpt); [apply entry_range; lia|].
  pose proof (rm_free _ _ _ _ _ _ _ _ Hrm) as Hfree.
  assert (∀ i v, 0 <= i < 1024 → pde_of (put s4 t (PTX va) v) pd i = pde_of s2 pd i) as Hdir.
  { intros i v Hi. etrans; [apply (put_pte_pde s4 fl4 pd t (PDX va)); try done;
      [apply Hrm|apply PDX_range|apply PTX_range]|].
    unfold pde_of. apply page_same_slot; [|done]. apply (rm_same_mem _ _ _ _ _ _ _ _ Hrm).
    intros E. destruct (pd_table _ _ _ (wk_pd _ _ _ _ _ _ _ Hk) _ (PDX_range va) pd Hs E) as (_ & _ & ?). done. }
  assert (∀ j, j ∈ fl' → j ∈ fl) as Hsub.
  { intros j Hj. destruct (wk_free _ _ _ _ _ _ _ Hk) as [[-> _] | [-> _]]; [done|].
    apply elem_of_cons. by right. }
  split; try done.
  - intros va' H1 H2 H3. rewrite Hoth by done.
    rewrite (rm_pte_other _ _ _ _ _ _ _ _ Hrm) by done. by apply (wk_pte _ _ _ _ _ _ _ Hk).
  - rewrite decide_False by congruence. simpl.
    rewrite (rm_other _ _ _ _ _ _ _ _ Hrm) by done. simpl. by rewrite lookup_insert_eq.
  - intros q' p0' Hq' _ Hp0'. assert (q' = q) as -> by congruence.
    assert (p0' = p0) as -> by congruence. split; [apply (rm_ref _ _ _ _ _ _ _ _ Hrm)|].
    rewrite Hfree. destruct (Z.eqb_spec (pp_ref p0) 1); [|tauto].
    rewrite elem_of_cons. tauto.
  - intros j. rewrite Hfree. destruct (pp_ref p0 =? 1); [|auto].
    intros [-> | ?]%elem_of_cons; auto.
  - intros j Hj Hjp Hjm. simpl. rewrite (rm_other _ _ _ _ _ _ _ _ Hrm) by congruence.
    simpl. rewrite lookup_insert_ne by done. by apply Hk.
  - intros j Hj Hjd Hjt. pose proof (walked_table _ _ _ _ _ _ _ _ Hk Hj Hjt) as Htj.
    etrans; [by apply Hk|]. etrans; [apply (rm_same_mem _ _ _ _ _ _ _ _ Hrm)|].
    + intros E. apply Htj. change (pt_of s2 pd (PDX va) = Some j) in E.
      rewrite (wk_pt _ _ _ _ _ _ _ Hk) in E. congruence.
    + by apply store_page_same; [apply PTX_range|].
  - intros i Hi u. rewrite Hpt by done. rewrite (rm_tables _ _ _ _ _ _ _ _ Hrm) by done.
    by apply (walked_new_table _ _ _ _ _ _ _ Hk).
  - etrans; [apply Hk|]. etrans; [|apply vm_frame_put].
    etrans; [|apply (rm_frame _ _ _ _ _ _ _ _ Hrm)]. apply vm_frame_pages.
  - rewrite Hfree. destruct (pp_ref p0 =? 1); [|done]. apply not_elem_of_cons. split; [lia|done].
  - intros i Hi Hi'. by rewrite Hdir, (wk_dir _ _ _ _ _ _ _ Hk).
  - intros f Hff. rewrite Hdir by apply PDX_range.
    destruct Hff as [Hff|[Hn Hff]]; [by apply Hfl|by apply (wk_flags _ _ _ _ _ _ _ Hk)].
  - intros Hn. destruct (mapped_table _ _ _ _ Hm) as [? E]. by rewrite Hn in E.
  - intros j Hj Hjp Hjm. rewrite Hpt, Ht4 in Hj by apply PDX_range. simpl.
    rewrite (rm_other _ _ _ _ _ _ _ _ Hrm) by congruence. simpl. rewrite lookup_insert_ne by done.
    apply (wk_page_ne _ _ _ _ _ _ _ Hk). congruence.
  - intros j Hj Hjd. rewrite Hpt, Ht4 in Hj by apply PDX_range. assert (j ≠ t) as Htj by congruence.
    etrans; [by apply (wk_mem_ne _ _ _ _ _ _ _ Hk)|]. etrans; [apply (rm_same_mem _ _ _ _ _ _ _ _ Hrm)|].
    + change (pt_of s2 pd (PDX va) ≠ Some j). by rewrite (wk_pt _ _ _ _ _ _ _ Hk).
    + by apply store_page_same; [apply PTX_range|].
  - exists fl'. split.
    + rewrite Hpt by apply PDX_range. rewrite Ht4, <- (wk_pt _ _ _ _ _ _ _ Hk). by apply (walked_list _ _ _ _ _ _ _ Hk).
    + rewrite Hfree. destruct (pp_ref p0 =? 1); [right; by exists q|by left].
Qed.

(** What [page_insert] needs of the page it maps and of the mapping it replaces. *)
Record insertable s fl pd va pp p : Prop := {
  ia_cpu : cpu_ok s;
  ia_va : 0 <= va < 4294967296;
  ia_self : PDX va ≠ self_index;
  ia_page : pages s !! pp = Some p;
  ia_leaf : leaf_ok s fl pd pp;
  ia_old : ∀ q, mapped s pd va = Some q → leaf_ok s fl pd q;
  ia_present : PGNUM (pte_of s pd va) = pp → mapped s pd va = Some pp;
}.

Lemma insert_spec s fl pd va pp p perm :
  pages_wf s fl → pd_wf s fl pd → insertable s fl pd va pp p → 0 <= perm < 4096 →
  (pt_of s pd (PDX va) = None ∧ fl = [] ∧
     page_insert (pgdir_kva pd) (Some pp) va perm s = Done (- E_NO_MEM) s) ∨
  ∃ s' fl', page_insert (pgdir_kva pd) (Some pp) va perm s = Done 0 s' ∧
    inserted s s' fl fl' pd va pp p perm.
Proof.
  intros Hw Hd [Hc Hva Hs Hp Hl Hold Hpres] Hperm. unfold page_insert.
  pose proof (pw_npages _ _ Hw). destruct (pd_dir _ _ _ Hd) as [Hr _].
  destruct (walk_spec s fl pd va Hw Hd Hs) as [(Ht & -> & Hwalk)|(s1 & fl' & t & Hwalk & Hk)].
  { left. split_and!; [done..|]. by step_with Hwalk. }
  right. step_with Hwalk. rewrite pde_slot by lia.
  rewrite rd_slot by (lia || apply PDX_range). rewrite wr_slot by (lia || apply PDX_range).
  fold (pde_of s1 pd (PDX va)).
  assert (0 <= Z.lor perm PTE_P < 4096) by (apply (lor_range 12); unfold PTE_P; lia).
  apply (walked_pde _ _ _ _ _ _ _ (Z.lor perm PTE_P)) in Hk; [|done..].
  set (s2 := put s1 pd (PDX va) _) in *.
  assert (∀ f, has f perm = true → has f (pde_of s2 pd (PDX va)) = true) as Hfl.
  { intros f Hf. unfold s2. rewrite put_pde_same by (apply lor_u32; [apply pde_of_range|lia]).
    by rewrite !has_lor, Hf, orb_true_r. }
  clearbody s2. clear Hwalk s1.
  assert (pages s2 !! pp = Some p) as Hp2.
  { rewrite (wk_same_page _ _ _ _ _ _ _ Hk); [done|]. apply Hl. }
  pose proof (pd_table _ _ _ (wk_pd _ _ _ _ _ _ _ Hk) _ (PDX_range va) t Hs
    (wk_pt _ _ _ _ _ _ _ Hk)) as (Hrt & _).
  rewrite (run_get_page _ p) by done. rewrite rd_slot by (lia || apply PTX_range).
  rewrite <- (pte_of_eq _ _ _ _ (wk_pt _ _ _ _ _ _ _ Hk)).
  rewrite (wk_pte _ _ _ _ _ _ _ Hk) by done.
  rewrite (pw_paddr _ _ _ _ Hw Hp), PTE_ADDR_div by apply pte_of_range.
  pose proof (pw_page _ _ Hw _ _ Hp) as (_ & _ & Href).
  destruct (Z.eqb_spec (pp * 4096) (PGNUM (pte_of s pd va) * 4096)) as [E|E]; simpl; run.
  - assert (mapped s pd va = Some pp) as Hm by (apply Hpres; lia).
    rewrite wr_slot by (lia || apply PTX_range). eexists _, fl'. split; [reflexivity|].
    assert (s2 = set_pages (<[pp := set_pp_ref (pp_ref p) p]> (pages s2)) s2) as ->.
    { rewrite insert_id; [by destruct s2|]. rewrite Hp2. by destruct p. }
    eapply insert_write; try done; [by rewrite decide_True|by right].
  - rewrite (rd_slot (set_pages _ s2)) by (lia || apply PTX_range). simpl.
    rewrite <- (pte_of_eq _ _ _ _ (wk_pt _ _ _ _ _ _ _ Hk)).
    rewrite (wk_pte _ _ _ _ _ _ _ Hk) by done.
    destruct (has PTE_P (pte_of s pd va)) eqn:HP; run.
    + assert (mapped s pd va = Some (PGNUM (pte_of s pd va))) as Hm by (unfold mapped; by rewrite HP).
      set (q := PGNUM (pte_of s pd va)) in *. pose proof (Hold _ Hm) as Hlq.
      assert (is_Some (pages s !! q)) as [p0 Hp0] by (apply (pw_total _ _ Hw), Hlq).
      set (s3 := set_pages _ s2).
      assert (pages_wf s3 fl') as Hw3.
      { eapply (pages_wf_update s2 _ fl' pp _ (wk_pages _ _ _ _ _ _ _ Hk)); try reflexivity.
        - by eapply walked_leaf.
        - by eapply walked_leaf.
        - by apply (pw_paddr _ _ _ _ Hw Hp).
        - apply u16_range. }
      destruct (remove_spec s3 fl' pd va q p0) as (s4 & fl4 & Hrun & Hrm); try done.
      * apply (pd_wf_update s2 _ fl'); try done. apply Hk.
      * eapply cpu_ok_frame; [|exact Hc]. etrans; [apply Hk|]. apply vm_frame_pages.
      * etrans; [by eapply (walked_mapped _ _ _ _ _ _ _ Hk)|done].
      * eapply (walked_leaf _ _ _ _ _ _ _ _ Hk Hlq).
      * simpl. rewrite lookup_insert_ne by lia. rewrite (wk_same_page _ _ _ _ _ _ _ Hk); [done|].
        apply Hlq.
      * step_with Hrun. rewrite wr_slot by (lia || apply PTX_range). eexists _, fl4.
        split; [reflexivity|]. eapply insert_replace; try done. lia.
    + assert (mapped s pd va = None) as Hm by (unfold mapped; by rewrite HP).
      rewrite wr_slot by (lia || apply PTX_range). eexists _, fl'. split; [reflexivity|].
      eapply insert_write; try done; [apply u16_range|by rewrite Hm|by left].
Qed.
End insert.

(** ** [boot_map_region] *)

(** Page tables that are still missing among the directory indices [L]. *)
Definition missing (s : kstate) (pd : Z) (L : list Z) : nat :=
  length (filter (λ i, pt_of s pd i = None) L).

(** The page tables that were made were taken off the front of the free list. *)
Definition paid (s s' : kstate) (fl fl' : list Z) (pd : Z) (L : list Z) : Prop :=
  ∃ used, fl = used ++ fl' ∧ (length used + missing s' pd L <= missing s pd L)%nat.

(** Every page table of the directory may be written through. *)
Definition writable_tables (s : kstate) (pd : Z) : Prop :=
  ∀ i, 0 <= i < 1024 → i ≠ self_index → pt_of s pd i ≠ None → has PTE_W (pde_of s pd i) = true.

(** [region s s' fl fl' pd va n pa perm]: the [n] pages from [va] on map the
    physical pages from [pa] on, and no other mapping changed. *)
(** The pages a directory may use: itself, its tables and the free pages. *)
Definition owned (s : kstate) (fl : list Z) (pd j : Z) : Prop :=
  j ∈ fl ∨ j = pd ∨ ∃ i, 0 <= i < 1024 ∧ pt_of s pd i = Some j.

Record region (s s' : kstate) (fl fl' : list Z) (pd va n pa perm : Z) : Prop := {
  rg_pages : pages_wf s' fl';
  rg_pd : pd_wf s' fl' pd;
  rg_pte : ∀ k, 0 <= k < n →
    pte_of s' pd (va + k * 4096) = Z.lor (Z.lor (pa + k * 4096) perm) PTE_P;
  rg_other : ∀ va', 0 <= va' < 4294967296 → PDX va' ≠ self_index →
    ¬ (va <= va' < va + n * 4096) → pte_of s' pd va' = pte_of s pd va';
  rg_ref : ∀ j, j ∉ fl → pages s' !! j = pages s !! j;
  rg_sub : ∀ j, j ∈ fl' → j ∈ fl;
  rg_frame : vm_frame s s';
  rg_dir : ∀ i, 0 <= i < 1024 → (∀ a, va <= a < va + n * 4096 → PDX a ≠ i) →
    pde_of s' pd i = pde_of s pd i;
  rg_writable : writable_tables s pd → writable_tables s' pd;
  rg_mem : ∀ j, ¬ owned s fl pd j → page_same j (mem s) (mem s') ∧ ¬ owned s' fl' pd j;
}.

Section region.
Implicit Types (s : kstate) (fl L : list Z) (pd va q t : Z).

Lemma missing_ext s s' pd L :
  Forall (λ i, 0 <= i < 1024) L → (∀ i, 0 <= i < 1024 → pt_of s' pd i = pt_of s pd i) →
  missing s pd L = missing s' pd L.
Proof.
  intros HL H. unfold missing. induction HL as [|i L Hi HL IH]; [done|].
  rewrite !filter_cons, H by done. case_decide; simpl; congruence.
Qed.

Lemma missing_walked s s' fl fl' pd va t L :
  walked s s' fl fl' pd va t → Forall (λ i, 0 <= i < 1024) L → PDX va ∈ L →
  paid s s' fl fl' pd L.
Proof.
  intros Hk HL Hin.
  assert (∀ L', Forall (λ i, 0 <= i < 1024) L' →
    (missing s' pd L' <= missing s pd L')%nat ∧
    (pt_of s pd (PDX va) = None → PDX va ∈ L' → (missing s' pd L' < missing s pd L')%nat))
    as Hmono.
  { intros L'. unfold missing. induction 1 as [|i L' Hi _ [IH1 IH2]]; [split; [done|set_solver]|].
    rewrite !filter_cons, (wk_tables _ _ _ _ _ _ _ Hk) by done.
    destruct (decide (i = PDX va)) as [->|Hne].
    - rewrite decide_False by done. case_decide; simpl; split; try lia; congruence.
    - case_decide; simpl; (split; [lia|]); intros Hn; rewrite elem_of_cons;
        intros [?|?]; [congruence|specialize (IH2 Hn); naive_solver lia..|congruence|auto]. }
  destruct (Hmono L HL) as [H1 H2].
  destruct (wk_free _ _ _ _ _ _ _ Hk) as [[<- _]|[-> Hn]]; [by exists []|].
  exists [t]. split; [done|]. specialize (H2 Hn Hin). simpl. lia.
Qed.

Lemma paid_trans s s1 s2 fl fl1 fl2 pd L :
  paid s s1 fl fl1 pd L → paid s1 s2 fl1 fl2 pd L → paid s s2 fl fl2 pd L.
Proof.
  intros (u1 & -> & H1) (u2 & -> & H2). exists (u1 ++ u2). rewrite length_app, (assoc_L (++)). split; [done|lia].
Qed.

Lemma paid_left s s' fl fl' pd L :
  paid s s' fl fl' pd L → (missing s pd L <= length fl)%nat → (missing s' pd L <= length fl')%nat.
Proof. intros (u & -> & H). rewrite length_app. lia. Qed.

Lemma walked_writable s s' fl fl' pd va t :
  walked s s' fl fl' pd va t → writable_tables s pd → writable_tables s' pd.
Proof.
  intros Hk H i Hi Hs. rewrite (wk_tables _ _ _ _ _ _ _ Hk) by done. case_decide as E.
  - subst i. intros _. destruct (pt_of s pd (PDX va)) as [t'|] eqn:Ht; [|by apply (wk_writable _ _ _ _ _ _ _ Hk)].
    apply (wk_flags _ _ _ _ _ _ _ Hk); [by rewrite Ht|]. apply H; [done|done|by rewrite Ht].
  - intros Hn. rewrite (wk_dir _ _ _ _ _ _ _ Hk) by done. by apply H.
Qed.

Lemma walked_refl s fl pd va q :
  pages_wf s fl → pd_wf s fl pd → pt_of s pd (PDX va) = Some q → walked s s fl fl pd va q.
Proof.
  intros Hw Hd Hpt. split; auto; try done; [|congruence..]. intros i Hi. case_decide; [by subst|done].
Qed.

Lemma region_cons s s1 s2 fl fl1 fl2 pd va n pa perm :
  0 <= va < 4294967296 → PDX va ≠ self_index → 0 <= n →
  region s s1 fl fl1 pd va 1 pa perm →
  region s1 s2 fl1 fl2 pd (va + 4096) n (pa + 4096) perm →
  region s s2 fl fl2 pd va (n + 1) pa perm.
Proof.
  intros Hva Hs Hn [A1 A2 A3 A4 A5 A6 A7 A8 A9 A10] [B1 B2 B3 B4 B5 B6 B7 B8 B9 B10]. split; auto.
  - intros k Hk. destruct (decide (k = 0)) as [->|].
    + rewrite Z.mul_0_l, !Z.add_0_r. rewrite B4 by (done || lia).
      specialize (A3 0 ltac:(lia)). by rewrite Z.mul_0_l, !Z.add_0_r in A3.
    + specialize (B3 (k - 1) ltac:(lia)).
      replace (va + 4096 + (k - 1) * 4096) with (va + k * 4096) in B3 by lia.
      replace (pa + 4096 + (k - 1) * 4096) with (pa + k * 4096) in B3 by lia. done.
  - intros va' Hva' Hs' Hne. rewrite B4, A4 by (done || lia). done.
  - intros j Hj. rewrite B5, A5; [done|done|]. intros ?. by apply Hj, A6.
  - by etrans.
  - intros i Hi Hne. rewrite B8, A8; [done|done| |done|]; intros a Ha; apply Hne; lia.
  - intros j Hj. destruct (A10 j Hj) as [M1 N1]. destruct (B10 j N1) as [M2 N2]. split; [by etrans|done].
Qed.

(** The table that a walk returns belonged to the directory or was free. *)
Lemma walked_owned s s' fl fl' pd va t j :
  walked s s' fl fl' pd va t → ¬ owned s fl pd j → j ≠ t ∧ ¬ owned s' fl' pd j.
Proof.
  intros Hk Hj. assert (j ≠ t) as Hne.
  { intros ->. apply Hj. destruct (wk_free _ _ _ _ _ _ _ Hk) as [[_ Ht]|[-> _]]; [|left; by left].
    right; right. exists (PDX va). split; [apply PDX_range|done]. }
  split; [done|]. intros [Hin|[->|(i & Hi & Ht)]].
  - apply Hj. left. destruct (wk_free _ _ _ _ _ _ _ Hk) as [[-> _]|[-> _]]; [done|by right].
  - apply Hj. by right; left.
  - rewrite (wk_tables _ _ _ _ _ _ _ Hk) in Ht by done. case_decide; [by simplify_eq|].
    apply Hj. right; right. by exists i.
Qed.

Lemma map_one_spec s fl pd va pa perm L :
  pages_wf s fl → pd_wf s fl pd → 0 <= va < 4294967296 → PDX va ≠ self_index →
  va mod 4096 = 0 → 0 <= pa < 4294967296 → pa mod 4096 = 0 → 0 <= perm < 4096 →
  Forall (λ i, 0 <= i < 1024) L → PDX va ∈ L → (missing s pd L <= length fl)%nat →
  ∃ s' fl', map_one (pgdir_kva pd) va pa perm s = Done tt s' ∧
    region s s' fl fl' pd va 1 pa perm ∧ paid s s' fl fl' pd L.
Proof.
  intros Hw Hd Hva Hs Hal Hpa Hpal Hperm HL Hin Hmiss.
  pose proof (pw_npages _ _ Hw). destruct (pd_dir _ _ _ Hd) as [Hr _].
  unfold map_one.
  destruct (walk_spec s fl pd va Hw Hd Hs) as [(Ht & -> & _)|(s1 & fl' & t & Hwalk & Hk)].
  { exfalso. simpl in Hmiss.
    assert (PDX va ∈ filter (λ i, pt_of s pd i = None) L) as Hf by (by apply list_elem_of_filter).
    unfold missing in Hmiss. destruct (filter _ L); [set_solver|simpl in Hmiss; lia]. }
  step_with Hwalk. pose proof Hk as [Hw1 Hd1 Ht1 Hpte1 Hfr1 Htb1 Hpg1 Hm1 Hfm1].
  pose proof (pd_table _ _ _ Hd1 _ (PDX_range va) t Hs Ht1) as (Hrt & _).
  rewrite PTE_ADDR_div by done. replace (PGNUM pa * 4096) with pa
    by (rewrite PGNUM_div; zlia).
  set (v := Z.lor (Z.lor pa perm) PTE_P).
  assert (0 <= v < 4294967296) as Hv
    by (unfold v, PTE_P; repeat apply lor_u32; lia).
  rewrite wr_slot by (lia || apply PTX_range).
  destruct (put_leaf s1 fl' pd va t v Hw1 Hd1 Hva Hs Ht1 Hv) as (Hw2 & Hd2 & Hpte2 & Ho2 & Htb2).
  assert (∀ i, 0 <= i < 1024 → pde_of (put s1 t (PTX va) v) pd i = pde_of s1 pd i) as Hpde2.
  { apply (put_pte_pde s1 fl' pd t (PDX va)); try done; [apply PDX_range|apply PTX_range]. }
  set (s2 := put s1 t (PTX va) v) in *.
  assert (∀ s', walked s2 s' fl' fl' pd va t → region s s' fl fl' pd va 1 pa perm ∧
    paid s s' fl fl' pd L) as Hfin.
  { intros s' Hk3. pose proof Hk3 as [Hw3 Hd3 Ht3 Hpte3 _ Htb3 Hpg3 _ Hfm3 Hdr3 _ _ _ _]. split; [split; try done|].
    - intros k ?. replace k with 0 by lia. rewrite Z.mul_0_l, !Z.add_0_r.
      rewrite Hpte3 by done. exact Hpte2.
    - intros va' Hva' Hs' Hne. rewrite Hpte3, Ho2, Hpte1; try done.
      intros E. apply Hne. rewrite !PGNUM_div in E. zlia.
    - intros j Hj. rewrite Hpg3; [by apply Hpg1|].
      destruct Hfr1 as [[-> _]|[-> _]]; [done|]. by apply not_elem_of_cons in Hj as [_ ?].
    - intros j Hj. destruct Hfr1 as [[-> _]|[-> _]]; [done|]. apply elem_of_cons; by right.
    - etrans; [done|]. etrans; [apply vm_frame_put|]. done.
    - intros i Hi Hne. assert (i ≠ PDX va) by (intros ->; by apply (Hne va); [lia|]).
      rewrite Hdr3, <- (wk_dir _ _ _ _ _ _ _ Hk) by done. by apply (Hpde2 i).
    - intros Hwr. eapply walked_writable; [exact Hk3|]. intros i Hi Hsi. rewrite Htb2, Hpde2 by done.
      by apply (walked_writable _ _ _ _ _ _ _ Hk).
    - intros j Hj. destruct (walked_owned _ _ _ _ _ _ _ j Hk Hj) as [Hjt Hj1].
      assert (¬ owned s2 fl' pd j) as Hj2.
      { intros [?|[?|(i & Hi & Hti)]]; apply Hj1; [by left|by right; left|]. right; right. exists i. by rewrite <- Htb2. }
      destruct (walked_owned _ _ _ _ _ _ _ j Hk3 Hj2) as [_ Hj3]. split; [|done].
      assert (j ≠ pd) as Hjp by (intros ->; apply Hj; by right; left).
      etrans; [by apply (wk_mem_ne _ _ _ _ _ _ _ Hk)|]. etrans; [|by apply (wk_mem_ne _ _ _ _ _ _ _ Hk3)].
      apply store_page_same; [apply PTX_range|done].
    - destruct (missing_walked _ _ _ _ _ _ _ L Hk HL Hin) as (used & Hu & Hmu). exists used. split; [done|].
      erewrite <- (missing_ext s1 s'); [done|done|].
      intros i Hi. rewrite Htb3, Htb2 by done. case_decide; [by subst|done]. }
  rewrite pde_slot, rd_slot by (lia || apply PDX_range). fold (pde_of s2 pd (PDX va)).
  assert (walked s2 s2 fl' fl' pd va t) as Hk2.
  { apply walked_refl; [done|done|]. rewrite Htb2; [done|apply PDX_range]. }
  destruct (has PTE_U perm && _).
  - rewrite tail_bind, wr_slot by (lia || apply PDX_range). eexists _, fl'.
    split; [reflexivity|]. apply Hfin. by apply walked_pde.
  - exists s2, fl'. split; [done|]. by apply Hfin.
Qed.

Lemma compare_MAX_aligned v : 0 <= v < 4294967296 → v mod 4096 = 0 → compare_MAX v 0xFFFFFFFF 4 = 0.
Proof.
  intros Hv Hal. unfold compare_MAX. change (seqZ 0 4) with [0; 1; 2; 3]. simpl.
  assert (v <= 4294963200) by (Z.div_mod_to_equations; lia).
  rewrite !u32_id by lia. by repeat Z_case.
Qed.

Lemma ROUNDUP_multiple n : 0 <= n < 1048575 → ROUNDUP (n * 4096) PGSIZE = n * 4096.
Proof. intros. apply ROUNDUP_aligned; [lia|]. apply Z.mod_mul. lia. Qed.

(** The loop from offset [i] on, with [n] pages to go. *)
Lemma boot_map_loop s fl pd va pa perm L i size n :
  pages_wf s fl → pd_wf s fl pd → va mod 4096 = 0 → pa mod 4096 = 0 →
  0 <= va → 0 <= pa → 0 <= i → i mod 4096 = 0 → i + Z.of_nat n * 4096 = size →
  va + size <= 4294967296 → pa + size <= 4294967296 → size < 4294967296 → 0 <= perm < 4096 →
  Forall (λ i, 0 <= i < 1024) L → (missing s pd L <= length fl)%nat →
  (∀ a, va <= a < va + size → PDX a ∈ L ∧ PDX a ≠ self_index) →
  va < 4294967296 → pa < 4294967296 →
  ∃ s' fl', loop (S n) NoFuel (λ i,
    if (i <? size) && (compare_MAX va 0xFFFFFFFF 4 =? 0) && (compare_MAX pa 0xFFFFFFFF 4 =? 0)
    then map_one (pgdir_kva pd) (u32 (va + i)) (u32 (pa + i)) perm ;;
         mret (inl (u32 (i + PGSIZE)))
    else mret (inr tt)) i s = Done tt s' ∧
    region s s' fl fl' pd (va + i) (Z.of_nat n) (pa + i) perm ∧ paid s s' fl fl' pd L.
Proof.
  intros Hw Hd Hva Hpa Hva0 Hpa0 Hi Hial Hsize Hvs Hps Hs32 Hperm HL Hmiss Hin Hva1 Hpa1.
  rewrite !compare_MAX_aligned by (done || lia). change (0 =? 0) with true.
  revert s fl i Hw Hd Hi Hial Hsize Hmiss.
  induction n as [|n IH]; intros s fl i Hw Hd Hi Hial Hsize Hmiss.
  - exists s, fl. rewrite loop_S. destruct (Z.ltb_spec i size); [lia|]. simpl. split; [done|].
    split; [|by exists []]. split; try done. lia.
  - rewrite loop_S. destruct (Z.ltb_spec i size); [|lia].
    simpl. rewrite (u32_id (va + i)), (u32_id (pa + i)) by lia.
    destruct (Hin (va + i) ltac:(lia)) as [HiL His].
    destruct (map_one_spec s fl pd (va + i) (pa + i) perm L) as (s1 & fl1 & Hrun & Hreg & Hm1);
      try done; try lia; [zlia..|].
    rewrite run_assoc. step_with Hrun. run. rewrite (u32_id (i + PGSIZE)) by (unfold PGSIZE; lia).
    destruct (IH s1 fl1 (i + PGSIZE)) as (s2 & fl2 & Hrun2 & Hreg2 & Hm2); try apply Hreg;
      try done; try (unfold PGSIZE; lia).
    { unfold PGSIZE. zlia. }
    { by eapply paid_left. }
    exists s2, fl2. split; [exact Hrun2|]. split; [|by eapply paid_trans].
    replace (Z.of_nat (S n)) with (Z.of_nat n + 1) by lia.
    eapply region_cons; [lia|done|lia|exact Hreg|].
    unfold PGSIZE in Hreg2. by rewrite !Z.add_assoc in Hreg2.
Qed.

(** [size] need not be a multiple of the page size; the tables that are still
    missing can be paid for from the pages that are left. *)
Lemma boot_map_region_run s fl pd va pa n size perm L :
  pages_wf s fl → pd_wf s fl pd → va mod 4096 = 0 → pa mod 4096 = 0 →
  0 <= va < 4294967296 → 0 <= pa < 4294967296 → 0 <= n < 1048575 → ROUNDUP size PGSIZE = n * 4096 →
  va + n * 4096 <= 4294967296 → pa + n * 4096 <= 4294967296 → 0 <= perm < 4096 →
  Forall (λ i, 0 <= i < 1024) L → (missing s pd L <= length fl)%nat →
  (∀ a, va <= a < va + n * 4096 → PDX a ∈ L ∧ PDX a ≠ self_index) →
  ∃ s' fl', boot_map_region (pgdir_kva pd) va size pa perm s = Done tt s' ∧
    region s s' fl fl' pd va n pa perm ∧ paid s s' fl fl' pd L.
Proof.
  intros Hw Hd Hva Hpa Hv Hp Hn Hsize Hvn Hpn Hperm HL Hmiss Hin.
  unfold boot_map_region. rewrite Hsize. unfold PGSIZE at 1. rewrite Z.div_mul by lia.
  destruct (boot_map_loop s fl pd va pa perm L 0 (n * 4096) (Z.to_nat n))
    as (s' & fl' & Hrun & Hreg & Hm); try done; try lia.
  rewrite !Z.add_0_r, Z2Nat.id in Hreg by lia. eauto.
Qed.
End region.

(** ** Checking [pd_wf] on concrete states *)

Definition tables (s : kstate) (pd : Z) : list Z :=
  omap (pt_of s pd) (filter (λ i, i ≠ self_index) (seqZ 0 1024)).

Section decide.
Lemma omap_NoDup_inj {A B} (f : A → option B) (l : list A) i j q :
  NoDup (omap f l) → i ∈ l → j ∈ l → f i = Some q → f j = Some q → i = j.
Proof.
  induction l as [|a l IH]; simpl; [set_solver|]. intros Hnd Hi Hj Hfi Hfj.
  assert (∀ k, k ∈ l → f k = Some q → q ∈ omap f l) as Hin
    by (intros; apply list_elem_of_omap; eauto).
  destruct (f a) eqn:Ha.
  - apply NoDup_cons in Hnd as [Hni Hnd].
    apply elem_of_cons in Hi as [->|Hi]; apply elem_of_cons in Hj as [->|Hj]; try done.
    + exfalso. simplify_eq. eauto.
    + exfalso. simplify_eq. eauto.
    + auto.
  - apply elem_of_cons in Hi as [->|Hi]; apply elem_of_cons in Hj as [->|Hj]; auto; congruence.
Qed.

Lemma pt_in_tables s pd i t :
  0 <= i < 1024 → i ≠ self_index → pt_of s pd i = Some t → t ∈ tables s pd.
Proof.
  intros Hi Hs Ht. apply list_elem_of_omap. exists i. split; [|done].
  apply list_elem_of_filter. split; [done|]. apply elem_of_seqZ. lia.
Qed.

Lemma pd_wf_check s fl pd :
  0 <= pd < npages s ∧ pd ∉ fl →
  Forall (λ q, 0 <= q < npages s ∧ q ∉ fl ∧ q ≠ pd) (tables s pd) → NoDup (tables s pd) →
  pd_wf s fl pd.
Proof.
  intros Hd Hf Hn. split; [done| |].
  - intros i Hi q Hs Hq. rewrite Forall_forall in Hf. apply Hf. by eapply pt_in_tables.
  - intros i Hi j Hj q Hs Hs' Hq Hq'. eapply omap_NoDup_inj; try done.
    all: apply list_elem_of_filter; (split; [done|]); apply elem_of_seqZ; lia.
Qed.

#[global] Instance leaf_ok_dec s fl pd q : Decision (leaf_ok s fl pd q).
Proof. unfold leaf_ok. apply _. Defined.
End decide.

(** ** Properties *)

Section properties.
Implicit Types (s : kstate) (fl : list Z) (pd va : Z).

(** C4: page_insert on a well-formed directory fails only with -E_NO_MEM, only
    when a page table is missing and no page is free, and then leaves the whole
    state unchanged; otherwise it returns 0, page_lookup then finds the page at
    that address with exactly the requested permissions, every other mapping of
    the directory is untouched, the page's count goes up by one unless it was
    already mapped there, the count of a page it replaces goes down by one (and
    that page is freed exactly when it was the last mapping), and no other page
    description changes. *)
Theorem page_insert_maps s fl pd va pp p perm :
  pages_wf s fl → pd_wf s fl pd → insertable s fl pd va pp p → 0 <= perm < 4096 →
  (pt_of s pd (PDX va) = None ∧ fl = [] ∧
     page_insert (pgdir_kva pd) (Some pp) va perm s = Done (- E_NO_MEM) s) ∨
  ∃ s' fl' ptep, page_insert (pgdir_kva pd) (Some pp) va perm s = Done 0 s' ∧
    inserted s s' fl fl' pd va pp p perm ∧
    page_lookup (pgdir_kva pd) va s' = Done (Some (pp, ptep)) s' ∧
    rd32 ptep s' = Done (Z.lor (Z.lor (page2pa pp) perm) PTE_P) s'.
Proof.
  intros Hw Hd Hi Hperm. pose proof (pw_npages _ _ Hw). destruct (ia_leaf _ _ _ _ _ _ Hi) as (Hr & _).
  destruct (insert_spec s fl pd va pp p perm Hw Hd Hi Hperm) as [?|(s' & fl' & Hrun & Hin)];
    [by left|right].
  pose proof (ia_self _ _ _ _ _ _ Hi) as Hs.
  assert (mapped s' pd va = Some pp) as Hm.
  { unfold mapped. rewrite (in_pte _ _ _ _ _ _ _ _ _ Hin), entry_present, entry_PGNUM by lia. done. }
  destruct (mapped_table _ _ _ _ Hm) as [t Ht]. pose proof (in_pd _ _ _ _ _ _ _ _ _ Hin) as Hd'.
  pose proof (pd_table _ _ _ Hd' _ (PDX_range va) t Hs Ht) as (Hrt & _).
  exists s', fl', (slot_kva t (PTX va)). split_and!; [done|done| |].
  - eapply lookup_some; eauto using in_pages.
    rewrite (vm_npages _ _ (in_frame _ _ _ _ _ _ _ _ _ Hin)). lia.
  - rewrite tail_bind, rd_slot by (lia || apply PTX_range).
    rewrite <- (pte_of_eq _ _ _ _ Ht), (in_pte _ _ _ _ _ _ _ _ _ Hin). done.
Qed.

(** mapping a page in one address space changes no mapping of another one:
    page_insert on directory pd leaves every entry of a directory pd' that does
    not share the page table used for this address. *)
Theorem page_insert_isolated s fl pd pd' va pp p perm :
  pages_wf s fl → pd_wf s fl pd → pd_wf s fl pd' → insertable s fl pd va pp p →
  0 <= perm < 4096 → pd' ≠ pd → pt_of s pd (PDX va) ≠ Some pd' →
  (∀ i, 0 <= i < 1024 → i ≠ self_index → ∀ t, pt_of s pd' i = Some t →
    t ≠ pd ∧ pt_of s pd (PDX va) ≠ Some t) →
  ∃ r s', page_insert (pgdir_kva pd) (Some pp) va perm s = Done r s' ∧
    ∀ va', PDX va' ≠ self_index → pte_of s' pd' va' = pte_of s pd' va'.
Proof.
  intros Hw Hd Hd' Hi Hperm Hne Hnt Hsh.
  destruct (insert_spec s fl pd va pp p perm Hw Hd Hi Hperm)
    as [(_ & _ & ->)|(s' & fl' & -> & Hin)]; eexists _, _; (split; [done|]); [done|].
  pose proof (in_same_mem _ _ _ _ _ _ _ _ _ Hin) as Hm.
  intros va' Hs. apply pte_frame.
  - apply pt_frame; [|apply PDX_range]. apply Hm; [apply Hd'|done|done].
  - intros t Ht. destruct (Hsh _ (PDX_range va') Hs t Ht) as [? ?].
    apply Hm; [|done|done]. by eapply (pd_table _ _ _ Hd' _ (PDX_range va') t Hs).
Qed.

(** C16: page_remove does nothing at an unmapped address; at a mapped one it clears
    the entry, leaves every other mapping alone, lowers the page's count by one
    and puts the page on the free list exactly when that was its last mapping. *)
Theorem page_remove_unmaps s fl pd va :
  pages_wf s fl → pd_wf s fl pd → cpu_ok s → 0 <= va < 4294967296 → PDX va ≠ self_index →
  (∀ q, mapped s pd va = Some q → leaf_ok s fl pd q) →
  match mapped s pd va with
  | None => page_remove (pgdir_kva pd) va s = Done tt s
  | Some q => ∃ p s' fl', pages s !! q = Some p ∧
      page_remove (pgdir_kva pd) va s = Done tt s' ∧ removed s s' fl fl' pd va q p ∧
      page_lookup (pgdir_kva pd) va s' = Done None s'
  end.
Proof.
  intros Hw Hd Hc Hva Hs Hl. destruct (mapped s pd va) as [q|] eqn:Hm.
  - destruct (pw_total _ _ Hw q) as [p Hp]; [apply (Hl q), eq_refl|].
    destruct (remove_spec s fl pd va q p Hw Hd Hc Hva Hs Hm (Hl q eq_refl) Hp)
      as (s' & fl' & Hrun & Hrm).
    exists p, s', fl'. split_and!; [done..|].
    apply (lookup_none s' fl'); try apply Hrm; [done|].
    unfold mapped. by rewrite (rm_pte _ _ _ _ _ _ _ _ Hrm).
  - by eapply remove_none.
Qed.

(** boot_map_region makes the n pages from va on map the n physical pages from
    pa on, with the requested permissions, and changes no other mapping and no
    reference count, provided the free pages suffice for the missing tables. *)
Theorem boot_map_region_maps s fl pd va pa n perm L :
  pages_wf s fl → pd_wf s fl pd → va mod 4096 = 0 → pa mod 4096 = 0 →
  0 <= va < 4294967296 → 0 <= pa < 4294967296 → 0 <= n < 1048575 →
  va + n * 4096 <= 4294967296 → pa + n * 4096 <= 4294967296 → 0 <= perm < 4096 →
  Forall (λ i, 0 <= i < 1024) L → (missing s pd L <= length fl)%nat →
  (∀ a, va <= a < va + n * 4096 → PDX a ∈ L ∧ PDX a ≠ self_index) →
  ∃ s' fl', boot_map_region (pgdir_kva pd) va (n * 4096) pa perm s = Done tt s' ∧
    region s s' fl fl' pd va n pa perm.
Proof.
  intros Hw Hd Hva Hpa Hv Hp Hn Hvn Hpn Hperm HL Hmiss Hin.
  destruct (boot_map_region_run s fl pd va pa n (n * 4096) perm L) as (s' & fl' & Hrun & Hreg & _);
    try done; [by apply ROUNDUP_multiple|]. eauto.
Qed.

(** page_remove flushes the TLB entry of the address only when the page's
    count drops to zero: while another mapping keeps the page alive, the removed
    translation is never invalidated. *)
Theorem page_remove_stale_tlb s fl pd va q p :
  pages_wf s fl → pd_wf s fl pd → cpu_ok s → 0 <= va < 4294967296 → PDX va ≠ self_index →
  mapped s pd va = Some q → leaf_ok s fl pd q → pages s !! q = Some p → 1 < pp_ref p →
  ∃ s', page_remove (pgdir_kva pd) va s = Done tt s' ∧ mapped s' pd va = None ∧
    invlpgs s' = invlpgs s.
Proof.
  intros Hw Hd Hc Hva Hs Hm Hl Hp Href.
  destruct (remove_spec s fl pd va q p Hw Hd Hc Hva Hs Hm Hl Hp) as (s' & fl' & Hrun & Hrm).
  exists s'. split_and!; [done| |].
  - unfold mapped. by rewrite (rm_pte _ _ _ _ _ _ _ _ Hrm).
  - rewrite (rm_tlb _ _ _ _ _ _ _ _ Hrm). destruct (Z.eqb_spec (pp_ref p) 1); [lia|done].
Qed.

(** The self-check's independent walker check_va2pa returns the physical
    address that the entry found by pgdir_walk designates, and ~0 where nothing
    is mapped. *)
Theorem check_va2pa_agrees s fl pd va :
  pages_wf s fl → pd_wf s fl pd → PDX va ≠ self_index →
  check_va2pa (pgdir_kva pd) va s =
    Done (match mapped s pd va with Some q => q * 4096 | None => 0xFFFFFFFF end) s.
Proof.
  intros Hw Hd Hs. pose proof (pw_npages _ _ Hw). destruct (pd_dir _ _ _ Hd) as [Hr _].
  unfold check_va2pa. rewrite pde_slot, rd_slot by (lia || apply PDX_range).
  fold (pde_of s pd (PDX va)). pose proof (pt_of_inv s pd (PDX va)) as Ht.
  unfold mapped. destruct (has PTE_P (pde_of s pd (PDX va))); simpl.
  - pose proof (pd_table _ _ _ Hd _ (PDX_range va) _ Hs Ht) as (Hrt & _).
    pose proof (pde_of_range s pd (PDX va)). rewrite PTE_ADDR_div by done.
    rewrite run_KADDR; [|lia| |lia].
    2: { rewrite PGNUM_div, Z.div_mul by lia. lia. }
    rewrite pte_slot, rd_slot by (lia || apply PTX_range). rewrite <- (pte_of_eq _ _ _ _ Ht).
    destruct (has PTE_P (pte_of s pd va)); [|done]. simpl.
    by rewrite PTE_ADDR_div by apply pte_of_range.
  - by rewrite pte_of_none.
Qed.
End properties.

(** ** Concrete instances *)

(** Pages 2 and 10 are directories with the tables 6 and 11; the first maps
    page 7 at 0x1000 and page 8 at 0x2000, the second page 9 at 0x1000; page 7
    has a second reference. *)
Definition ex_vm : kstate :=
  let m := store32 ∅ (2 * 4096) (6 * 4096 + 7) in
  let m := store32 m (6 * 4096 + 4) (7 * 4096 + 7) in
  let m := store32 m (6 * 4096 + 8) (8 * 4096 + 5) in
  let m := store32 m (10 * 4096) (11 * 4096 + 7) in
  let m := store32 m (11 * 4096 + 4) (9 * 4096 + 7) in
  set_mem m (set_pages (<[7 := mkPage None (7 * 4096) 2]> ex_pages)
    (set_cpus {[ 0 := mkCpu 0 1 None 0 0 ]} ex_alloc)).

Lemma ex_vm_pages : pages_wf ex_vm [3; 5; 4].
Proof. by_compute. Qed.

Lemma ex_vm_pd pd : pd = 2 ∨ pd = 10 → pd_wf ex_vm [3; 5; 4] pd.
Proof. intros [-> | ->]; apply pd_wf_check; by_compute. Qed.

Lemma ex_vm_mapped :
  mapped ex_vm 2 0x1000 = Some 7 ∧ mapped ex_vm 2 0x2000 = Some 8 ∧ mapped ex_vm 2 0x400000 = None.
Proof. by_compute. Qed.

Lemma ex_vm_insertable va :
  va = 0x400000 ∨ va = 0x1000 → insertable ex_vm [3; 5; 4] 2 va 9 (mkPage None (9 * 4096) 1).
Proof.
  destruct ex_vm_mapped as (E1 & _ & E2).
  intros [-> | ->]; (split; [by_compute|lia|by_compute|by_compute|by_compute| |]).
  - rewrite E2. discriminate.
  - intros E. exfalso. revert E. by vm_compute.
  - rewrite E1. intros q [= <-]. by_compute.
  - intros E. exfalso. revert E. by vm_compute.
Qed.

Lemma page_insert_maps_witness :
  (pt_of ex_vm 2 (PDX 0x1000) = None ∧ [3; 5; 4] = [] ∧
     page_insert (pgdir_kva 2) (Some 9) 0x1000 7 ex_vm = Done (- E_NO_MEM) ex_vm) ∨
  ∃ s' fl' ptep, page_insert (pgdir_kva 2) (Some 9) 0x1000 7 ex_vm = Done 0 s' ∧
    inserted ex_vm s' [3; 5; 4] fl' 2 0x1000 9 (mkPage None (9 * 4096) 1) 7 ∧
    page_lookup (pgdir_kva 2) 0x1000 s' = Done (Some (9, ptep)) s' ∧
    rd32 ptep s' = Done (Z.lor (Z.lor (page2pa 9) 7) PTE_P) s'.
Proof.
  apply (page_insert_maps ex_vm [3; 5; 4] 2 0x1000 9 (mkPage None (9 * 4096) 1) 7);
    [apply ex_vm_pages|apply ex_vm_pd; auto|apply ex_vm_insertable; auto|lia].
Defined.

Lemma page_insert_isolated_witness :
  ∃ r s', page_insert (pgdir_kva 2) (Some 9) 0x400000 7 ex_vm = Done r s' ∧
    ∀ va', PDX va' ≠ self_index → pte_of s' 10 va' = pte_of ex_vm 10 va'.
Proof.
  apply (page_insert_isolated ex_vm [3; 5; 4] 2 10 0x400000 9 (mkPage None (9 * 4096) 1) 7);
    [apply ex_vm_pages|apply ex_vm_pd; auto|apply ex_vm_pd; auto|apply ex_vm_insertable; auto
    |lia|lia|vm_compute; discriminate|].
  intros i Hi Hs t Ht%pt_in_tables; [|done..].
  assert (Forall (λ t, t ≠ 2 ∧ pt_of ex_vm 2 (PDX 0x400000) ≠ Some t) (tables ex_vm 10)) as H
    by by_compute.
  rewrite Forall_forall in H. by apply H.
Defined.

Lemma page_remove_unmaps_witness :
  match mapped ex_vm 2 0x2000 with
  | None => page_remove (pgdir_kva 2) 0x2000 ex_vm = Done tt ex_vm
  | Some q => ∃ p s' fl', pages ex_vm !! q = Some p ∧
      page_remove (pgdir_kva 2) 0x2000 ex_vm = Done tt s' ∧
      removed ex_vm s' [3; 5; 4] fl' 2 0x2000 q p ∧
      page_lookup (pgdir_kva 2) 0x2000 s' = Done None s'
  end.
Proof.
  apply (page_remove_unmaps ex_vm [3; 5; 4] 2 0x2000);
    [apply ex_vm_pages|apply ex_vm_pd; auto|by_compute|lia|by_compute|].
  destruct ex_vm_mapped as (_ & -> & _). intros q [= <-]. by_compute.
Defined.

Lemma boot_map_region_maps_witness :
  ∃ s' fl', boot_map_region (pgdir_kva 2) 0xF03FF000 (2 * 4096) 0x3000 2 ex_vm = Done tt s' ∧
    region ex_vm s' [3; 5; 4] fl' 2 0xF03FF000 2 0x3000 2.
Proof.
  apply (boot_map_region_maps ex_vm [3; 5; 4] 2 0xF03FF000 0x3000 2 2 [960; 961]);
    [apply ex_vm_pages|apply ex_vm_pd; auto|reflexivity|reflexivity|lia..|by_compute|by_compute|].
  intros a Ha. assert (PDX a = 960 ∨ PDX a = 961) as [-> | ->].
  { rewrite PDX_div. zlia. }
  all: by_compute.
Defined.

Lemma page_remove_stale_tlb_witness :
  ∃ s', page_remove (pgdir_kva 2) 0x1000 ex_vm = Done tt s' ∧ mapped s' 2 0x1000 = None ∧
    invlpgs s' = invlpgs ex_vm.
Proof.
  apply (page_remove_stale_tlb ex_vm [3; 5; 4] 2 0x1000 7 (mkPage None (7 * 4096) 2));
    [apply ex_vm_pages|apply ex_vm_pd; auto|by_compute|lia|by_compute..].
Defined.

Lemma check_va2pa_agrees_witness :
  check_va2pa (pgdir_kva 2) 0x1000 ex_vm = Done 28672 ex_vm.
Proof.
  apply (check_va2pa_agrees ex_vm [3; 5; 4] 2 0x1000);
    [apply ex_vm_pages|apply ex_vm_pd; auto|by_compute].
Defined.
