(* ===== verification/UserMem.v ===== *)
(** * Checking user pointers: kern/pmap.c, [user_mem_check]

    The loop that validates a user range against the page tables, the pages it
    really looks at, and the two cases in which those are not all the pages of
    the range. *)

From S2P Require Import Prelude Machine PageAlloc Pmap.
From stdpp Require Import base numbers list gmap fin_maps strings.

Local Open Scope Z_scope.

Definition JUDGE_CHECK_PERM (slot perm : Z) : bool := perm =? Z.land perm slot.

Definition user_mem_check (env va len perm : Z) : M Z :=
  let check_perm := Z.lor perm PTE_P in
  let error_ret va_cnt iterate_len :=
    modify (set_user_mem_check_addr
      (if iterate_len =? len then va else ROUNDDOWN va_cnt PGSIZE)) ;;
    mret (inr (- E_FAULT)) in
  loop (S (Z.to_nat (len / PGSIZE))) NoFuel (λ '(va_cnt, iterate_len),
    if ULIM <=? va_cnt then error_ret va_cnt iterate_len else
    e ← get_env env;
    pte_p ← pgdir_walk (env_pgdir e) va_cnt NO_CREATE;
    match pte_p with
    | None => error_ret va_cnt iterate_len
    | Some pte_p =>
        pte ← rd32 pte_p;
        if negb (JUDGE_CHECK_PERM pte check_perm) then error_ret va_cnt iterate_len else
        let '(va_cnt, iterate_len) :=
          if iterate_len <? PGSIZE then (u32 (va_cnt + iterate_len), iterate_len)
          else (u32 (va_cnt + PGSIZE), iterate_len - PGSIZE) in
        if va_cnt <? u32 (va + len) then mret (inl (va_cnt, iterate_len)) else mret (inr 0)
    end) (va, len).

#[global] Arguments user_mem_check : simpl never.

(** ** The addresses the loop probes *)

(** The probe at [va] succeeds. *)
Definition access_ok (s : kstate) (pd perm va : Z) : bool :=
  (va <? ULIM) && bool_decide (is_Some (pt_of s pd (PDX va))) &&
  JUDGE_CHECK_PERM (pte_of s pd va) (Z.lor perm PTE_P).

(** The number of probes: one per started page of length, and at least one. *)
Definition probes (len : Z) : Z := Z.max 1 ((len + 4095) / 4096).

(** The first of the pages [ks] of the range whose probe fails. *)
Definition first_bad (s : kstate) (pd perm va : Z) (ks : list Z) : option Z :=
  head (filter (λ k, access_ok s pd perm (va + k * 4096) = false) ks).

Section check.
Implicit Types (s : kstate) (fl : list Z) (pd va len perm e : Z).

(** The environment [e] has its page directory in page [pd]. *)
Record env_space s fl e pd : Prop := {
  es_pages : pages_wf s fl;
  es_pd : 0 <= pd < npages s;
  es_tables : ∀ i, 0 <= i < 1024 → ∀ q, pt_of s pd i = Some q → q < npages s;
  es_env : ∃ x, envs s !! e = Some x ∧ env_pgdir x = pgdir_kva pd;
}.

Lemma probe_run s fl e pd va perm {A} (bad : M A) (good : M A) :
  env_space s fl e pd → 
  (if ULIM <=? va then bad else
    x ← get_env e;
    pte_p ← pgdir_walk (env_pgdir x) va NO_CREATE;
    match pte_p with
    | None => bad
    | Some pte_p =>
        pte ← rd32 pte_p;
        if negb (JUDGE_CHECK_PERM pte (Z.lor perm PTE_P)) then bad else good
    end) s = (if access_ok s pd perm va then good else bad) s.
Proof.
  intros [Hw Hpd Ht (x & Hx & Hdir)]. pose proof (pw_npages _ _ Hw). unfold access_ok.
  destruct (Z.leb_spec ULIM va), (Z.ltb_spec va ULIM); try lia; [done|]. simpl.
  rewrite (run_get_env _ x) by done. rewrite Hdir.
  destruct (pt_of s pd (PDX va)) as [q|] eqn:Hq.
  - assert (0 <= q < npages s) as Hqr.
    { split; [|by eapply (Ht (PDX va)); [apply PDX_range|]]. rewrite pt_of_inv in Hq.
      destruct (has PTE_P _); simplify_eq. rewrite PGNUM_div.
      pose proof (pde_of_range s pd (PDX va)). apply Z.div_pos; lia. }
    step_with (walk_present s fl pd va NO_CREATE q Hw Hpd Hq ltac:(lia)).
    rewrite rd_slot by (lia || apply PTX_range). rewrite <- (pte_of_eq _ _ _ _ Hq).
    rewrite bool_decide_true by done. simpl.
    by destruct (JUDGE_CHECK_PERM (pte_of s pd va) (Z.lor perm PTE_P)).
  - step_with (walk_absent s fl pd va Hw Hpd Hq).
    rewrite bool_decide_false; [done|]. by intros [? ?].
Qed.

(** The step of the loop, and the state reported for a failing probe. *)
Definition check_step e va len perm : Z * Z → M (Z * Z + Z) := λ '(va_cnt, iterate_len),
  let error_ret :=
    modify (set_user_mem_check_addr
      (if iterate_len =? len then va else ROUNDDOWN va_cnt PGSIZE)) ;;
    mret (inr (- E_FAULT)) in
  if ULIM <=? va_cnt then error_ret else
  x ← get_env e;
  pte_p ← pgdir_walk (env_pgdir x) va_cnt NO_CREATE;
  match pte_p with
  | None => error_ret
  | Some pte_p =>
      pte ← rd32 pte_p;
      if negb (JUDGE_CHECK_PERM pte (Z.lor perm PTE_P)) then error_ret else
      let '(va_cnt, iterate_len) :=
        if iterate_len <? PGSIZE then (u32 (va_cnt + iterate_len), iterate_len)
        else (u32 (va_cnt + PGSIZE), iterate_len - PGSIZE) in
      if va_cnt <? u32 (va + len) then mret (inl (va_cnt, iterate_len)) else mret (inr 0)
  end.

Lemma check_step_run s fl e pd va len perm a l :
  env_space s fl e pd →
  check_step e va len perm (a, l) s =
    if access_ok s pd perm a then
      let '(a, l) := if l <? PGSIZE then (u32 (a + l), l) else (u32 (a + PGSIZE), l - PGSIZE) in
      Done (if a <? u32 (va + len) then inl (a, l) else inr 0) s
    else Done (inr (- E_FAULT))
           (set_user_mem_check_addr (if l =? len then va else ROUNDDOWN a PGSIZE) s).
Proof.
  intros H. etrans; [exact (probe_run s fl e pd a perm _ _ H)|].
  destruct (access_ok s pd perm a); [|done].
  destruct (l <? PGSIZE); by destruct (_ <? _).
Qed.

Definition fault_at va k s : kstate :=
  set_user_mem_check_addr (if k =? 0 then va else ROUNDDOWN (va + k * 4096) PGSIZE) s.

Lemma check_loop s fl e pd va len perm n k :
  env_space s fl e pd → 0 <= va → 0 <= len → va + len < 4294967296 →
  0 <= k < probes len → probes len - k <= Z.of_nat n →
  loop n NoFuel (check_step e va len perm) (va + k * 4096, len - k * 4096) s =
    match first_bad s pd perm va (seqZ k (probes len - k)) with
    | None => Done 0 s
    | Some j => Done (- E_FAULT) (fault_at va j s)
    end.
Proof.
  intros Hes Hva Hlen Hvl. revert k. induction n as [|n IH]; intros k Hk Hn; [lia|].
  assert (∀ j, (j = k ∨ j = k + 1) → j < probes len → j * 4096 <= len) as Hb.
  { intros j [-> | ->]; unfold probes in *; zlia. }
  rewrite loop_S. rewrite seqZ_cons by lia. unfold first_bad. rewrite filter_cons.
  pose proof (check_step_run s fl e pd va len perm (va + k * 4096) (len - k * 4096) Hes) as Hst.
  destruct (access_ok s pd perm (va + k * 4096)) eqn:Hok.
  - rewrite decide_False by done. unfold PGSIZE in Hst.
    destruct (Z.ltb_spec (len - k * 4096) 4096) as [Hlt|Hge].
    + rewrite !(u32_id (_ + _)) in Hst by lia.
      destruct (Z.ltb_spec (va + k * 4096 + (len - k * 4096)) (va + len)); [lia|].
      step_with Hst.
      replace (Z.pred (probes len - k)) with 0 by (unfold probes in *; zlia). done.
    + rewrite (u32_id (va + len)), (u32_id (va + k * 4096 + 4096)) in Hst by lia.
      destruct (Z.ltb_spec (va + k * 4096 + 4096) (va + len)) as [Hm|Hm]; step_with Hst.
      * replace (va + k * 4096 + 4096) with (va + (k + 1) * 4096) by lia.
        replace (len - k * 4096 - 4096) with (len - (k + 1) * 4096) by lia.
        assert (k + 1 < probes len) by (unfold probes in *; zlia).
        rewrite IH by lia. unfold first_bad.
        by replace (Z.pred (probes len - k)) with (probes len - (k + 1)) by lia.
      * replace (Z.pred (probes len - k)) with 0 by (unfold probes in *; zlia). done.
  - rewrite decide_True by done. step_with Hst. simpl. unfold fault_at.
    destruct (Z.eqb_spec (len - k * 4096) len), (Z.eqb_spec k 0); try lia; done.
Qed.

Lemma user_mem_check_eq e va len perm s :
  user_mem_check e va len perm s =
    loop (S (Z.to_nat (len / PGSIZE))) NoFuel (check_step e va len perm) (va, len) s.
Proof. reflexivity. Qed.

(** The result of the check, without wrap-around of [va + len]. *)
Lemma user_mem_check_run s fl e pd va len perm :
  env_space s fl e pd → 0 <= va → 0 <= len → va + len < 4294967296 →
  user_mem_check e va len perm s =
    match first_bad s pd perm va (seqZ 0 (probes len)) with
    | None => Done 0 s
    | Some j => Done (- E_FAULT) (fault_at va j s)
    end.
Proof.
  intros Hes Hva Hlen Hvl. rewrite user_mem_check_eq.
  pose proof (check_loop s fl e pd va len perm (S (Z.to_nat (len / PGSIZE))) 0 Hes Hva Hlen Hvl) as H.
  rewrite Z.mul_0_l, Z.add_0_r, !Z.sub_0_r in H. apply H.
  - unfold probes. lia.
  - unfold probes, PGSIZE. zlia.
Qed.
End check.

(** ** Which bytes the probes speak for *)

Section access.
Implicit Types (s : kstate) (fl : list Z) (pd va len perm e : Z).

(** All bytes of a page have the same rights, as ULIM is a page boundary. *)
Lemma access_page s pd perm a b :
  0 <= a < 4294967296 → 0 <= b < 4294967296 → PGNUM a = PGNUM b →
  access_ok s pd perm a = access_ok s pd perm b.
Proof.
  intros Ha Hb E. destruct (page_slots a b Ha Hb E) as [E1 E2].
  unfold access_ok, pte_of, pte_loc. rewrite E1, E2. f_equal. f_equal.
  rewrite !PGNUM_div in E. unfold_layout.
  destruct (Z.ltb_spec a (4026531840 - 4096 * 1024 - 4096 * 1024)),
    (Z.ltb_spec b (4026531840 - 4096 * 1024 - 4096 * 1024)); try done; exfalso; zlia.
Qed.

Lemma first_bad_none s pd perm va ks :
  first_bad s pd perm va ks = None → ∀ k, k ∈ ks → access_ok s pd perm (va + k * 4096) = true.
Proof.
  unfold first_bad. intros H k Hk.
  destruct (access_ok s pd perm (va + k * 4096)) eqn:E; [done|].
  assert (k ∈ filter (λ k, access_ok s pd perm (va + k * 4096) = false) ks) as Hin
    by (by apply list_elem_of_filter).
  destruct (filter _ ks); [set_solver|done].
Qed.

Lemma first_bad_seqZ s pd perm va a n k :
  first_bad s pd perm va (seqZ a n) = Some k →
  a <= k < a + n ∧ access_ok s pd perm (va + k * 4096) = false ∧
  ∀ j, a <= j < k → access_ok s pd perm (va + j * 4096) = true.
Proof.
  remember (Z.to_nat n) as m eqn:Hm. revert a n Hm. induction m as [|m IH]; intros a n Hm.
  { rewrite seqZ_nil by lia. done. }
  rewrite seqZ_cons by lia. unfold first_bad. rewrite filter_cons.
  destruct (access_ok s pd perm (va + a * 4096)) eqn:E.
  - rewrite decide_False by done. intros H. destruct (IH (Z.succ a) (Z.pred n)) as (H1 & H2 & H3);
      [lia|exact H|]. split_and!; [lia|lia|done|]. intros j Hj.
    destruct (decide (j = a)) as [->|]; [done|]. apply H3. lia.
  - rewrite decide_True by done. intros [= <-]. split_and!; [lia|lia|done|lia].
Qed.
End access.

(** ** Properties *)

Section properties.
Implicit Types (s : kstate) (fl : list Z) (pd va len perm e : Z).

(** C19: for a page-aligned range that is not empty and does not wrap around,
    user_mem_check always returns; it returns 0 and changes nothing exactly when every byte of the
    range lies below ULIM and is mapped with at least the requested rights, and
    otherwise it returns -E_FAULT with the first inaccessible address stored in
    user_mem_check_addr. *)
Theorem user_mem_check_sound_complete s fl e pd va len perm :
  env_space s fl e pd → 0 <= va → va mod 4096 = 0 → 0 < len → va + len < 4294967296 →
  (user_mem_check e va len perm s = Done 0 s ∧
     ∀ a, va <= a < va + len → access_ok s pd perm a = true) ∨
  ∃ bad, va <= bad < va + len ∧ access_ok s pd perm bad = false ∧
    (∀ a, va <= a < bad → access_ok s pd perm a = true) ∧
    user_mem_check e va len perm s = Done (- E_FAULT) (set_user_mem_check_addr bad s).
Proof.
  intros Hes Hva Hal Hlen Hvl. rewrite (user_mem_check_run s fl e pd) by (done || lia).
  assert (∀ a, va <= a < va + len →
    access_ok s pd perm a = access_ok s pd perm (va + (a - va) / 4096 * 4096) ∧
    0 <= (a - va) / 4096 < probes len) as Hpg.
  { intros a Ha. split; [apply access_page; rewrite ?PGNUM_div; zlia|unfold probes; zlia]. }
  destruct (first_bad s pd perm va (seqZ 0 (probes len))) as [k|] eqn:Hf; [right|left].
  - apply first_bad_seqZ in Hf as (Hk & Hbad & Hok). exists (va + k * 4096).
    assert (k * 4096 < len) by (unfold probes in Hk; zlia). split_and!; [lia|lia|done| |].
    + intros a Ha. destruct (Hpg a ltac:(lia)) as [-> ?]. apply Hok. zlia.
    + unfold fault_at. f_equal. f_equal. destruct (Z.eqb_spec k 0) as [->|]; [lia|].
      unfold ROUNDDOWN, PGSIZE. rewrite u32_id by lia. zlia.
  - split; [done|]. intros a Ha. destruct (Hpg a Ha) as [-> ?].
    eapply first_bad_none; [done|]. apply elem_of_seqZ. lia.
Qed.

(** a range that straddles a page boundary is not checked to its end: a length
    of at most one page costs a single probe, at va, so user_mem_check accepts
    the range although its last byte, on the next page, is not accessible. *)
Theorem user_mem_check_misses_last_page s fl e pd va len perm :
  env_space s fl e pd → 0 <= va → 0 < len <= 4096 → va + len < 4294967296 →
  access_ok s pd perm va = true → access_ok s pd perm (va + len - 1) = false →
  user_mem_check e va len perm s = Done 0 s.
Proof.
  intros Hes Hva Hlen Hvl Hok _. rewrite (user_mem_check_run s fl e pd) by (done || lia).
  replace (probes len) with 1 by (unfold probes; zlia).
  change (seqZ 0 1) with [0]. unfold first_bad. rewrite filter_cons, Z.mul_0_l, Z.add_0_r.
  by rewrite Hok, decide_False.
Qed.

(** when va + len wraps around 2^32, the loop condition is false after the
    first probe: user_mem_check accepts the range on the strength of its first
    page alone, although the range contains kernel addresses. *)
Theorem user_mem_check_wraps s fl e pd va len perm :
  env_space s fl e pd → 0 <= va < 4294967296 → 0 < len < 4294967296 →
  4294967296 <= va + len → access_ok s pd perm va = true →
  user_mem_check e va len perm s = Done 0 s ∧
  ∃ a, va <= a < va + len ∧ a < 4294967296 ∧ access_ok s pd perm a = false.
Proof.
  intros Hes Hva Hlen Hw Hok.
  assert (va < ULIM) as Hul.
  { unfold access_ok in Hok. destruct (Z.ltb_spec va ULIM); [done|discriminate]. }
  split.
  - rewrite user_mem_check_eq, loop_S.
    pose proof (check_step_run s fl e pd va len perm va len Hes) as Hst. rewrite Hok in Hst.
    assert (u32 (va + len) = va + len - 4294967296) as Hu by zlia.
    unfold PGSIZE in Hst. unfold_layout. destruct (Z.ltb_spec len 4096) as [|].
    + exfalso. lia.
    + rewrite Hu, u32_id in Hst by lia.
      destruct (Z.ltb_spec (va + 4096) (va + len - 4294967296)); [lia|]. by step_with Hst.
  - exists ULIM. split_and!; [lia|unfold_layout; lia|done|done].
Qed.
End properties.

(** ** Concrete instances *)

(** Environment 0 in the address space of directory 2 of [ex_vm]. *)
Definition ex_user : kstate :=
  set_envs {[ 0 := set_env_pgdir (pgdir_kva 2) zero_env ]} ex_vm.

Lemma ex_user_space : env_space ex_user [3; 5; 4] 0 2.
Proof.
  split; [by_compute|by_compute| |].
  - intros i Hi q Hq.
    assert (∀ i, 0 <= i < 1024 → default 0 (pt_of ex_user 2 i) < npages ex_user) as H by by_compute.
    specialize (H i Hi). by rewrite Hq in H.
  - exists (set_env_pgdir (pgdir_kva 2) zero_env). by_compute.
Qed.

Lemma user_mem_check_sound_complete_witness :
  (user_mem_check 0 0x1000 8000 PTE_W ex_user = Done 0 ex_user ∧
     ∀ a, 0x1000 <= a < 0x1000 + 8000 → access_ok ex_user 2 PTE_W a = true) ∨
  ∃ bad, 0x1000 <= bad < 0x1000 + 8000 ∧ access_ok ex_user 2 PTE_W bad = false ∧
    (∀ a, 0x1000 <= a < bad → access_ok ex_user 2 PTE_W a = true) ∧
    user_mem_check 0 0x1000 8000 PTE_W ex_user = Done (- E_FAULT) (set_user_mem_check_addr bad ex_user).
Proof.
  apply (user_mem_check_sound_complete ex_user [3; 5; 4]);
    [apply ex_user_space|lia|reflexivity|lia|lia].
Defined.

Lemma user_mem_check_misses_last_page_witness :
  user_mem_check 0 0x2FFF 2 PTE_U ex_user = Done 0 ex_user.
Proof.
  apply (user_mem_check_misses_last_page ex_user [3; 5; 4] 0 2);
    [apply ex_user_space|lia|lia|lia|by_compute..].
Defined.

Lemma user_mem_check_wraps_witness :
  user_mem_check 0 0x1000 0xFFFFF800 PTE_U ex_user = Done 0 ex_user ∧
  ∃ a, 0x1000 <= a < 0x1000 + 0xFFFFF800 ∧ a < 4294967296 ∧ access_ok ex_user 2 PTE_U a = false.
Proof.
  apply (user_mem_check_wraps ex_user [3; 5; 4] 0 2);
    [apply ex_user_space|lia|lia|lia|by_compute].
Defined.
