(* ===== verification/Env.v ===== *)
(** * Environments: kern/env.c

    Environment ids, the list of free environments, the creation of an address
    space, the ELF loader, and the release and the start of an environment.
    [env_destroy], which may reschedule, is in Sched.v, and [env_init_percpu] in
    Segments.v.  The assembly of [env_pop_tf] is the exit to user mode. *)

From S2P Require Import Prelude Machine Segments Spinlock PageAlloc Pmap.
From stdpp Require Import base numbers list gmap fin_maps strings.

Local Open Scope Z_scope.

(** ** The kernel's accesses to user addresses *)

(** The translation the MMU performs for a supervisor access of the running CPU
    with [CR0_WP] set; [w] says that the access writes. *)
Definition mmu (s : kstate) (va : Z) (w : bool) : option Z :=
  pa ← cr3 s !! this_cpu s;
  let pd := PGNUM pa in
  let pde := pde_of s pd (PDX va) in
  let pte := pte_of s pd va in
  if has PTE_P pde && has PTE_P pte && (negb w || has PTE_W pde && has PTE_W pte)
  then Some (PGNUM pte * 4096 + PGOFF va) else None.

Definition vrd8 (va : Z) : M Z :=
  s ← get;
  match mmu s va false with Some pa => mret (mget (mem s) pa) | None => leave KernelFault end.
Definition vrd16 (va : Z) : M Z :=
  b0 ← vrd8 va; b1 ← vrd8 (u32 (va + 1)); mret (b0 + 256 * b1).
Definition vrd32 (va : Z) : M Z :=
  h0 ← vrd16 va; h1 ← vrd16 (u32 (va + 2)); mret (h0 + 65536 * h1).
Definition vwr8 (va v : Z) : M unit :=
  s ← get;
  match mmu s va true with
  | Some pa => modify (set_mem (<[pa := u8 v]> (mem s)))
  | None => leave KernelFault
  end.

Fixpoint vwrite (va : Z) (l : list Z) : M unit :=
  match l with [] => mret tt | b :: l' => vwr8 va b ;; vwrite (u32 (va + 1)) l' end.

(** Reads of kernel memory, where the binaries are linked in. *)
Definition rd16 (kva : Z) : M Z :=
  if KERNBASE <=? kva
  then gets (λ s, mget (mem s) (kva - KERNBASE) + 256 * mget (mem s) (kva - KERNBASE + 1))
  else leave KernelFault.
Definition kread (kva n : Z) : M (list Z) :=
  if KERNBASE <=? kva then gets (λ s, read_bytes (mem s) (kva - KERNBASE) (Z.to_nat n))
  else leave KernelFault.

(** ** Ids and the free list *)

(** The result and the new value of [*env_store]. *)
Definition envid2env (envid : Z) (env_store : option Z) (checkperm : bool) : M (Z * option Z) :=
  if envid <? 0 then mret (- E_BAD_ENV, env_store) else
  if envid =? 0 then c ← curenv; mret (0, c) else
  let e := ENVX envid in
  x ← get_env e;
  if (env_status x =? ENV_FREE) || negb (env_id x =? envid) then mret (- E_BAD_ENV, None) else
  c ← curenv;
  if checkperm && negb (bool_decide (c = Some e)) then
    ci ← deref c; y ← get_env ci;
    if negb (env_parent_id x =? env_id y) then mret (- E_BAD_ENV, None) else mret (0, Some e)
  else mret (0, Some e).

Definition env_init (im : image) : M unit :=
  modify (set_envs (list_to_map ((λ i, (i, zero_env)) <$> seqZ 0 NENV))) ;;
  modify (set_env_free_list (Some 0)) ;;
  for_each (seqZ 1 (NENV - 1)) (λ i,
    upd_env (λ e, set_env_link (Some i) (set_env_type ENV_TYPE_IDLE e)) (i - 1)) ;;
  upd_env (set_env_link None) (NENV - 1) ;;
  env_init_percpu im.

(** ** Address spaces *)

Definition get_kernpgdir : M Z := gets kern_pgdir.

Definition kmemmove (dst src n : Z) : M unit :=
  modify (λ s, set_mem (write_bytes (mem s) (dst - KERNBASE)
    (read_bytes (mem s) (src - KERNBASE) (Z.to_nat n))) s).

Definition env_setup_vm (e : Z) : M Z :=
  p ← page_alloc ALLOC_ZERO;
  match p with
  | None => mret (- E_NO_MEM)
  | Some p =>
      kva ← page2kva p;
      upd_env (set_env_pgdir kva) e ;;
      kern_pgdir ← get_kernpgdir;
      x ← get_env e;
      kmemmove (env_pgdir x) kern_pgdir PGSIZE ;;
      upd_page (λ p, set_pp_ref (u16 (pp_ref p + 1)) p) p ;;
      pg ← get_page p;
      assert (pp_ref pg =? 1) "assertion failed: p->pp_ref == 1" ;;
      x ← get_env e;
      pa ← PADDR (env_pgdir x);
      wr32 (pde_ptr (env_pgdir x) UVPT) (Z.lor (Z.lor pa PTE_P) PTE_U) ;;
      mret 0
  end.

Definition ENVGENSHIFT : Z := 12.

(** The id given to slot [e] after the id [old]. *)
Definition new_env_id (old e : Z) : Z :=
  let generation := Z.land (s32 (old + Z.shiftl 1 ENVGENSHIFT)) (Z.lnot (NENV - 1)) in
  let generation := if generation <=? 0 then Z.shiftl 1 ENVGENSHIFT else generation in
  Z.lor generation e.

(** The trap frame of a new environment. *)
Definition new_tf : Trapframe :=
  let tf := zero_tf in
  let tf := set_tf_ds (Z.lor GD_UD 3) tf in
  let tf := set_tf_es (Z.lor GD_UD 3) tf in
  let tf := set_tf_ss (Z.lor GD_UD 3) tf in
  let tf := set_tf_esp USTACKTOP tf in
  let tf := set_tf_cs (Z.lor GD_UT 3) tf in
  set_tf_eflags (Z.lor (tf_eflags tf) FL_IF) tf.

Definition env_alloc (parent_id : Z) : M (Z * option Z) :=
  hd ← gets env_free_list;
  match hd with
  | None => mret (- E_NO_FREE_ENV, None)
  | Some e =>
      r ← env_setup_vm e;
      if r <? 0 then mret (r, None) else
      upd_env (λ x, set_env_id (new_env_id (env_id x) e) x) e ;;
      upd_env (λ x, set_env_runs 0 (set_env_status ENV_RUNNABLE
        (set_env_type ENV_TYPE_USER (set_env_parent_id parent_id x)))) e ;;
      upd_env (set_env_tf new_tf) e ;;
      upd_env (λ x, set_env_ipc_recving false (set_env_pgfault_upcall 0 x)) e ;;
      x ← get_env e;
      modify (set_env_free_list (env_link x)) ;;
      mret (0, Some e)
  end.

(** ** The ELF loader *)

Definition region_alloc (e va len : Z) : M (option Z) :=
  let dstoft := ROUNDUP (u32 (va + len)) PGSIZE in
  if UTOP <=? dstoft then panic "Fatal UTOP <= ROUNUP( ((uint32_t)(va)) + len)" else
  loop (S (Z.to_nat (dstoft / PGSIZE))) NoFuel (λ rdown_va,
    if rdown_va <? dstoft then
      p ← page_alloc 0;
      match p with
      | None => panic "region_alloc: failed at page_alloc"
      | Some p =>
          x ← get_env e;
          page_insert (env_pgdir x) (Some p) rdown_va (Z.lor (Z.lor PTE_U PTE_P) PTE_W) ;;
          mret (inl (u32 (rdown_va + PGSIZE)))
      end
    else mret (inr tt)) (ROUNDDOWN va PGSIZE) ;;
  x ← get_env e;
  pgdir_walk (env_pgdir x) va NO_CREATE.

Definition ELF_MAGIC : Z := 0x464C457F.
Definition ELF_PROG_LOAD : Z := 1.

(** Fields of [struct Elf] and [struct Proghdr] by their offsets. *)
Definition e_magic (elf : Z) : M Z := rd32 elf.
Definition e_entry (elf : Z) : M Z := rd32 (elf + 24).
Definition e_phoff (elf : Z) : M Z := rd32 (elf + 28).
Definition e_phnum (elf : Z) : M Z := rd16 (elf + 44).
Definition SIZEOF_PROGHDR : Z := 32.
Definition p_type (ph : Z) : M Z := rd32 ph.
Definition p_offset (ph : Z) : M Z := rd32 (ph + 4).
Definition p_va (ph : Z) : M Z := rd32 (ph + 8).
Definition p_filesz (ph : Z) : M Z := rd32 (ph + 16).
Definition p_memsz (ph : Z) : M Z := rd32 (ph + 20).

Definition load_segment (e binary ph : Z) : M unit :=
  ty ← p_type ph;
  if negb (ty =? ELF_PROG_LOAD) then mret tt else
  filesz ← p_filesz ph;
  memsz ← p_memsz ph;
  if memsz <? filesz then panic "ph->p_filesz > ph->p_memsz" else
  va ← p_va ph;
  region_alloc e va memsz ;;
  off ← p_offset ph;
  bytes ← kread (u32 (binary + off)) filesz;
  vwrite va bytes ;;
  vwrite (u32 (va + filesz)) (replicate (Z.to_nat (memsz - filesz)) 0).

Definition load_icode (e binary size : Z) : M unit :=
  magic ← e_magic binary;
  if negb (ELF_MAGIC =? magic) then mret tt else
  phoff ← e_phoff binary;
  x ← get_env e;
  pa ← PADDR (env_pgdir x);
  lcr3 pa ;;
  phnum ← e_phnum binary;
  for_each (seqZ 0 phnum) (λ i,
    load_segment e binary (u32 (binary + phoff + i * SIZEOF_PROGHDR))) ;;
  r ← region_alloc e (USTACKTOP - PGSIZE) PGSIZE;
  match r with
  | None => panic "Not Found!?"
  | Some _ =>
      x ← get_env e;
      vwrite (u32 (tf_esp (env_tf x) - PGSIZE)) (replicate (Z.to_nat PGSIZE) 0) ;;
      entry ← e_entry binary;
      upd_env (λ x, set_env_tf (set_tf_eip entry (env_tf x)) x) e ;;
      k ← get_kernpgdir;
      pa ← PADDR k;
      lcr3 pa
  end.

Definition env_create (binary size : Z) (type : EnvType) : M unit :=
  r ← env_alloc 0;
  if fst r <? 0 then panic "env creation is failed!" else
  e ← deref (snd r);
  load_icode e binary size ;;
  upd_env (set_env_type type) e ;;
  upd_env (set_env_parent_id 0) e.

(** ** Release and start *)

Definition env_free (e : Z) : M unit :=
  c ← curenv;
  (if bool_decide (c = Some e) then k ← gets kern_pgdir; pa ← PADDR k; lcr3 pa else mret tt) ;;
  for_each (seqZ 0 (PDX UTOP)) (λ pdeno,
    x ← get_env e;
    pde ← rd32 (u32 (env_pgdir x + 4 * pdeno));
    if negb (has PTE_P pde) then mret tt else
    let pa := PTE_ADDR pde in
    pt ← KADDR pa;
    for_each (seqZ 0 (PTX 0xFFFFFFFF + 1)) (λ pteno,
      pte ← rd32 (u32 (pt + 4 * pteno));
      if has PTE_P pte
      then x ← get_env e; page_remove (env_pgdir x) (PGADDR pdeno pteno 0)
      else mret tt) ;;
    x ← get_env e;
    wr32 (u32 (env_pgdir x + 4 * pdeno)) 0 ;;
    pg ← pa2page pa;
    page_decref pg) ;;
  x ← get_env e;
  pa ← PADDR (env_pgdir x);
  upd_env (set_env_pgdir 0) e ;;
  pg ← pa2page pa;
  page_decref pg ;;
  upd_env (set_env_status ENV_FREE) e ;;
  hd ← gets env_free_list;
  upd_env (set_env_link hd) e ;;
  modify (set_env_free_list (Some e)).

Definition env_pop_tf {A} (tf : Trapframe) : M A :=
  c ← curenv;
  e ← deref c;
  n ← cpunum;
  upd_env (set_env_cpunum n) e ;;
  leave (UserMode e).

Definition env_run {A} (e : Z) : M A :=
  c ← curenv;
  (match c with
   | None => mret tt
   | Some ce =>
       x ← get_env ce;
       if env_status x =? ENV_RUNNING then upd_env (set_env_status ENV_RUNNABLE) ce else mret tt
   end) ;;
  set_curenv (Some e) ;;
  upd_env (set_env_status ENV_RUNNING) e ;;
  upd_env (λ x, set_env_runs (u32 (env_runs x + 1)) x) e ;;
  unlock_kernel ;;
  x ← get_env e;
  pa ← PADDR (env_pgdir x);
  lcr3 pa ;;
  x ← get_env e;
  env_pop_tf (env_tf x).

#[global] Arguments mmu : simpl never.
#[global] Arguments vrd8 : simpl never.
#[global] Arguments vrd16 : simpl never.
#[global] Arguments vrd32 : simpl never.
#[global] Arguments vwr8 : simpl never.
#[global] Arguments vwrite : simpl never.
#[global] Arguments envid2env : simpl never.
#[global] Arguments env_init : simpl never.
#[global] Arguments kmemmove : simpl never.
#[global] Arguments env_setup_vm : simpl never.
#[global] Arguments new_env_id : simpl never.
#[global] Arguments env_alloc : simpl never.
#[global] Arguments region_alloc : simpl never.
#[global] Arguments load_segment : simpl never.
#[global] Arguments load_icode : simpl never.
#[global] Arguments env_create : simpl never.
#[global] Arguments env_free : simpl never.
#[global] Arguments env_pop_tf : simpl never.
#[global] Arguments env_run : simpl never.

(** ** Environment ids *)

Section ids.
Implicit Types (old e x : Z).

Lemma land_env_mask x : Z.land x (Z.lnot (NENV - 1)) = x / 1024 * 1024.
Proof.
  change (NENV - 1) with (Z.ones 10). rewrite <- Z.ldiff_land, Z.ldiff_ones_r by lia.
  by rewrite Z.shiftl_mul_pow2, Z.shiftr_div_pow2 by lia.
Qed.

Lemma ENVX_mod x : ENVX x = x mod 1024.
Proof. unfold ENVX. change (NENV - 1) with 0x3FF. apply land_3ff. Qed.

Lemma lor_slot g e : 0 <= e < 1024 → Z.lor (g * 1024) e = g * 1024 + e.
Proof.
  intros He. rewrite Z.add_nocarry_lor; [done|].
  rewrite <- (Z.mod_small e (2 ^ 10)) by lia.
  rewrite <- Z.land_ones, (Z.land_comm e), Z.land_assoc, Z.land_ones by lia.
  change (2 ^ 10) with 1024. rewrite Z.mod_mul by lia. apply Z.land_0_l.
Qed.

(** The next generation, or the first one again when the ids run out. *)
Lemma new_env_id_eq old e :
  0 <= old < 2147483648 → 0 <= e < 1024 →
  new_env_id old e =
    (if decide (old + 4096 < 2147483648) then old / 1024 * 1024 + 4096 else 4096) + e.
Proof.
  intros Ho He. unfold new_env_id. change (Z.shiftl 1 ENVGENSHIFT) with 4096.
  rewrite land_env_mask. case_decide as Hc.
  - rewrite s32_id by lia. destruct (Z.leb_spec ((old + 4096) / 1024 * 1024) 0); [zlia|].
    rewrite lor_slot by done. zlia.
  - assert (s32 (old + 4096) < 0) by zlia.
    destruct (Z.leb_spec (s32 (old + 4096) / 1024 * 1024) 0) as [_|Hgt].
    + change 4096 with (4 * 1024). by rewrite lor_slot.
    + exfalso. assert (s32 (old + 4096) / 1024 < 0) by (apply Z.div_lt_upper_bound; lia). lia.
Qed.

Lemma new_env_id_facts old e :
  0 <= old < 2147483648 → 0 <= e < 1024 →
  0 < new_env_id old e < 2147483648 ∧ ENVX (new_env_id old e) = e ∧ new_env_id old e ≠ old.
Proof.
  intros Ho He. rewrite new_env_id_eq, ENVX_mod by done.
  case_decide; split_and!; zlia.
Qed.
End ids.

(** ** The table of environments *)

Definition next_env (s : kstate) (e : Z) : option (option Z) := env_link <$> envs s !! e.

(** [envs_wf s efl]: every slot is present, its id names it, and the free list is
    the acyclic chain of the slots [efl], which are exactly the free ones. *)
Record envs_wf (s : kstate) (efl : list Z) : Prop := {
  ew_total : ∀ i, 0 <= i < 1024 → is_Some (envs s !! i);
  ew_env : map_Forall (λ i x, 0 <= i < 1024 ∧ 0 <= env_id x < 2147483648 ∧
    (env_id x = 0 ∨ ENVX (env_id x) = i) ∧ (env_status x = ENV_FREE ↔ i ∈ efl)) (envs s);
  ew_chain : chain (next_env s) (env_free_list s) efl;
  ew_nodup : NoDup efl;
}.

#[export] Instance envs_wf_dec s efl : Decision (envs_wf s efl).
Proof.
  refine (cast_if (decide ((∀ i, 0 <= i < 1024 → is_Some (envs s !! i)) ∧
    map_Forall (λ i x, 0 <= i < 1024 ∧ 0 <= env_id x < 2147483648 ∧
      (env_id x = 0 ∨ ENVX (env_id x) = i) ∧ (env_status x = ENV_FREE ↔ i ∈ efl)) (envs s) ∧
    chain (next_env s) (env_free_list s) efl ∧ NoDup efl)));
  abstract (match goal with
            | H : _ ∧ _ |- _ => destruct H as (? & ? & ? & ?); by constructor
            | H : ¬ _ |- _ => intros []; by apply H
            end).
Defined.

Section table.
Implicit Types (s : kstate) (efl : list Z) (e : Z) (x : Env).

(** Changing a slot that is not on the free list. *)
Lemma envs_wf_update s s' efl e x :
  envs_wf s efl → 0 <= e < 1024 → e ∉ efl → 0 <= env_id x < 2147483648 →
  env_id x = 0 ∨ ENVX (env_id x) = e → env_status x ≠ ENV_FREE →
  envs s' = <[e := x]> (envs s) → env_free_list s' = env_free_list s → envs_wf s' efl.
Proof.
  intros Hw He Hfl Hid Hx Hst Hen Hf. split; rewrite ?Hen, ?Hf.
  - intros i Hi. destruct (decide (i = e)) as [->|]; simplify_map_eq; [done|]. by apply Hw.
  - apply map_Forall_insert_2; [|apply Hw]. split_and!; try lia; [done|by intros ?..].
  - eapply chain_frame; [|apply Hw]. intros q Hq. unfold next_env. rewrite Hen.
    rewrite lookup_insert_ne; [done|]. by intros <-.
  - apply Hw.
Qed.

Lemma envs_wf_ext s s' efl :
  envs_wf s efl → envs s' = envs s → env_free_list s' = env_free_list s → envs_wf s' efl.
Proof. intros [] He Hf. split; unfold next_env; rewrite ?He, ?Hf; done. Qed.

Lemma ew_in_range s efl e : envs_wf s efl → e ∈ efl → 0 <= e < 1024.
Proof.
  intros Hw He. destruct (chain_bound _ _ _ _ (ew_chain _ _ Hw) He) as [q Hq].
  unfold next_env in Hq. destruct (envs s !! e) eqn:E; [|done].
  by apply (ew_env _ _ Hw) in E as (? & _).
Qed.
End table.

(** ** [env_init] *)

(** Slot [i] of the initial table. *)
Definition init_env (i : Z) : Env :=
  set_env_link (if i =? 1023 then None else Some (i + 1))
    (set_env_type (if i =? 1023 then ENV_TYPE_USER else ENV_TYPE_IDLE) zero_env).

Section init.
Implicit Types (s : kstate) (E : gmap Z Env).

(** A loop that updates slot [i - 1], for [i] from [a] on. *)
Lemma env_for s f a n :
  (∀ j, a <= j + 1 < a + n → is_Some (envs s !! j)) →
  ∃ E, for_each (seqZ a n) (λ i, upd_env (f i) (i - 1)) s = Done tt (set_envs E s) ∧
    ∀ j, E !! j = if (a <=? j + 1) && (j + 1 <? a + n)
                  then f (j + 1) <$> envs s !! j else envs s !! j.
Proof.
  remember (Z.to_nat n) as m eqn:Hm. revert s a n Hm.
  induction m as [|m IH]; intros s a n Hm Hs.
  - rewrite seqZ_nil by lia. exists (envs s). split; [by destruct s|]. intros j.
    destruct (Z.leb_spec a (j + 1)), (Z.ltb_spec (j + 1) (a + n)); simpl; done || lia.
  - rewrite seqZ_cons by lia. simpl. destruct (Hs (a - 1) ltac:(lia)) as [x Hx].
    rewrite (run_upd_env _ _ x) by done.
    edestruct (IH (set_envs (<[a - 1 := f a x]> (envs s)) s) (Z.succ a) (Z.pred n))
      as (E & Hrun & HE); [lia| |].
    { intros j Hj. simpl. rewrite lookup_insert_ne by lia. apply Hs. lia. }
    exists E. split; [exact Hrun|]. intros j. rewrite HE. simpl. rewrite lookup_insert.
    case_decide as Ej.
    + subst j. rewrite Z.sub_simpl_r, Hx.
      destruct (Z.leb_spec (Z.succ a) a), (Z.leb_spec a a), (Z.ltb_spec a (a + n));
        simpl; done || lia.
    + destruct (Z.leb_spec (Z.succ a) (j + 1)), (Z.ltb_spec (j + 1) (Z.succ a + Z.pred n)),
        (Z.leb_spec a (j + 1)), (Z.ltb_spec (j + 1) (a + n)); simpl; done || lia.
Qed.

Lemma keys_of_pairs {A} (a : A) (l : list Z) : ((λ i, (i, a)) <$> l).*1 = l.
Proof. induction l as [|i l IH]; [done|]. rewrite !fmap_cons. by rewrite IH. Qed.

Lemma env_init_run im s :
  let old := default zero_segregs (segregs s !! this_cpu s) in
  let R := <[this_cpu s := mkSegRegs 0x23 0x23 0x10 0x10 0x10 0x08 0 (tr old) (gdt_pd im) (idtr old)]> (segregs s) in
  ∃ E, env_init im s = Done tt (set_segregs R (set_env_free_list (Some 0) (set_envs E s))) ∧
    ∀ i, E !! i = if decide (0 <= i < 1024) then Some (init_env i) else None.
Proof.
  intros old R. unfold env_init. rewrite !run_modify. set (Z0 := list_to_map _ : gmap Z Env).
  assert (∀ i, Z0 !! i = if decide (0 <= i < 1024) then Some zero_env else None) as HZ.
  { intros i. unfold Z0, NENV. case_decide as Hi.
    - apply elem_of_list_to_map.
      + rewrite keys_of_pairs. apply NoDup_seqZ.
      + apply list_elem_of_fmap. exists i. split; [done|]. apply elem_of_seqZ. lia.
    - apply not_elem_of_list_to_map. rewrite keys_of_pairs, elem_of_seqZ. lia. }
  clearbody Z0. set (s1 := set_env_free_list (Some 0) (set_envs Z0 s)).
  destruct (env_for s1 (λ i e, set_env_link (Some i) (set_env_type ENV_TYPE_IDLE e)) 1 (NENV - 1))
    as (E & Hrun & HE).
  { intros j Hj. unfold s1. simpl. rewrite HZ, decide_True by (unfold NENV in *; lia). done. }
  step_with Hrun. assert (E !! (NENV - 1) = Some zero_env) as Hl.
  { rewrite HE. unfold s1. simpl. by rewrite HZ. }
  rewrite (run_upd_env _ _ zero_env) by done. rewrite env_init_percpu_run.
  exists (<[NENV - 1 := set_env_link None zero_env]> E). split; [reflexivity|].
  intros i. rewrite lookup_insert, HE. unfold s1, NENV, init_env. simpl. rewrite HZ.
  repeat case_decide; repeat Z_case; try done; lia.
Qed.
End init.

(** ** [env_setup_vm] *)

Section setup.
Implicit Types (s : kstate) (fl : list Z) (e q kd : Z) (x : Env) (p : Page).

(** The directory entry that maps the directory itself, read-only for users. *)
Definition self_entry q : Z := Z.lor (Z.lor (q * 4096) PTE_P) PTE_U.

Definition copy_page (m : memory) (dst src : Z) : memory :=
  write_bytes m (dst * 4096) (read_bytes m (src * 4096) (Z.to_nat PGSIZE)).

Definition setup_post e q kd x p s : kstate :=
  let s1 := alloc_post ALLOC_ZERO q p s in
  put (set_pages (<[q := mkPage None (q * 4096) 1]> (pages s))
    (set_mem (copy_page (mem s1) q kd)
      (set_envs (<[e := set_env_pgdir (pgdir_kva q) x]> (envs s)) s1)))
    q self_index (self_entry q).

Lemma setup_run s fl e q kd x :
  pages_wf s (q :: fl) → kern_pgdir s = pgdir_kva kd → envs s !! e = Some x →
  ∃ p, pages s !! q = Some p ∧ paddr p = q * 4096 ∧
    env_setup_vm e s = Done 0 (setup_post e q kd x p s).
Proof.
  intros Hw Hk Hx. pose proof (pw_npages _ _ Hw).
  pose proof (pw_in_range _ _ q Hw ltac:(set_solver)) as Hr.
  destruct (page_alloc_cons _ _ _ ALLOC_ZERO Hw) as (p & Hp & Ha & Hal).
  exists p. split_and!; [done..|]. unfold env_setup_vm. step_with Hal.
  rewrite run_page2kva by (simpl; lia). fold (pgdir_kva q).
  rewrite (run_upd_env _ _ x) by done. unfold get_kernpgdir. rewrite run_gets.
  erewrite run_get_env by (simpl; apply lookup_insert_eq).
  unfold kmemmove. rewrite run_modify.
  erewrite run_upd_page by (simpl; apply lookup_insert_eq).
  erewrite run_get_page by (simpl; apply lookup_insert_eq). simpl.
  unfold assert. change (u16 (0 + 1) =? 1) with true. run.
  rewrite run_PADDR by (unfold pgdir_kva; lia).
  rewrite pde_slot, wr_slot by (lia || apply PDX_range).
  rewrite Hk. unfold pgdir_kva at 1 2 3 4. rewrite !Z.add_simpl_r.
  rewrite !insert_insert_eq, Ha.
  unfold setup_post, put, copy_page, alloc_post. state_eq; by rewrite ?Ha.
Qed.

Lemma setup_none s e : pages_wf s [] → env_setup_vm e s = Done (- E_NO_MEM) s.
Proof. intros Hw. unfold env_setup_vm. by step_with (page_alloc_nil s ALLOC_ZERO Hw). Qed.

(** What the new directory [q] contains, and what did not change. *)
Record vm_ready s s' fl e q kd x : Prop := {
  vr_pages : pages_wf s' fl;
  vr_pd : pd_wf s' fl q;
  vr_pte : ∀ va, PDX va ≠ self_index → pte_of s' q va = pte_of s kd va;
  vr_self : pde_of s' q self_index = self_entry q ∧ pt_of s' q self_index = Some q;
  vr_ref : pp_ref <$> pages s' !! q = Some 1;
  vr_other : ∀ j, j ≠ q → pages s' !! j = pages s !! j;
  vr_mem : ∀ j, j ≠ q → page_same j (mem s) (mem s');
  vr_envs : envs s' = <[e := set_env_pgdir (pgdir_kva q) x]> (envs s);
  vr_efl : env_free_list s' = env_free_list s;
  vr_cpus : cpus s' = cpus s;
  vr_npages : npages s' = npages s;
  vr_pt : ∀ i, 0 <= i < 1024 → i ≠ self_index → pt_of s' q i = pt_of s kd i;
}.

Lemma self_entry_facts q :
  0 <= q < 65536 →
  0 <= self_entry q < 4294967296 ∧ PGNUM (self_entry q) = q ∧ has PTE_P (self_entry q) = true.
Proof.
  intros. unfold self_entry. split; [|split].
  - unfold PTE_P, PTE_U. repeat apply lor_u32; lia.
  - rewrite !PGNUM_lor, PGNUM_div by (unfold PTE_P, PTE_U; lia). apply Z.div_mul. lia.
  - rewrite !has_lor. change (has PTE_P PTE_P) with true. by rewrite orb_true_r.
Qed.

Lemma setup_post_ready s fl e q kd x p :
  pages_wf s (q :: fl) → pd_wf s (q :: fl) kd → pages s !! q = Some p → paddr p = q * 4096 →
  vm_ready s (setup_post e q kd x p s) fl e q kd x.
Proof.
  intros Hw Hd Hp Ha. pose proof (pw_npages _ _ Hw).
  pose proof (pw_in_range _ _ q Hw ltac:(set_solver)) as Hr.
  pose proof (pw_nodup _ _ Hw) as [Hnd _]%NoDup_cons.
  destruct (pd_dir _ _ _ Hd) as [Hkr [Hkq Hkf]%not_elem_of_cons].
  destruct (self_entry_facts q ltac:(lia)) as (Hs1 & Hs2 & Hs3).
  set (s' := setup_post e q kd x p s).
  assert (∀ j, j ≠ q → page_same j (mem s) (mem s')) as Hm.
  { intros j Hj a Haa. unfold s', setup_post, put, copy_page, alloc_post. simpl.
    rewrite (store_page_same _ q self_index _ j) by (done || by vm_compute).
    rewrite mget_copy, decide_False by (unfold PGSIZE; lia). rewrite Ha.
    by apply (fill_page_same (mem s) q j Hj). }
  assert (∀ i, 0 <= i < 1024 → i ≠ self_index → pde_of s' q i = pde_of s kd i) as Hpde.
  { intros i Hi Hi'. unfold pde_of at 1. unfold s', setup_post, put, copy_page, alloc_post. simpl.
    rewrite store_slot_ne by (done || by vm_compute).
    rewrite load32_copy_in by (unfold PGSIZE; lia).
    replace (kd * 4096 + (q * 4096 + 4 * i - q * 4096)) with (kd * 4096 + 4 * i) by lia.
    rewrite Ha. rewrite load32_fill_out; [done|]. unfold PGSIZE. lia. }
  assert (pde_of s' q self_index = self_entry q) as Hself.
  { unfold pde_of. unfold s', setup_post, put. simpl. rewrite load32_store32_eq. by apply u32_id. }
  assert (∀ i, 0 <= i < 1024 → i ≠ self_index → pt_of s' q i = pt_of s kd i) as Hpt.
  { intros i Hi Hi'. unfold pt_of. by rewrite Hpde. }
  split.
  - eapply (pages_wf_update (alloc_post ALLOC_ZERO q p s) _ fl q (mkPage None (q * 4096) 1));
      [by apply alloc_post_wf|done|done|done|simpl; lia|done|done|].
    unfold s', setup_post, alloc_post. simpl. by rewrite insert_insert_eq.
  - split.
    + split; [exact Hr|exact Hnd].
    + intros i Hi t Hi' Ht. rewrite Hpt in Ht by assumption.
      destruct (pd_table _ _ _ Hd i Hi t Hi' Ht) as (? & [? ?]%not_elem_of_cons & _).
      split; [assumption|split; assumption].
    + intros i Hi j Hj t Hi' Hj' Ht Ht'. rewrite Hpt in Ht, Ht' by done.
      by eapply (pd_inj _ _ _ Hd).
  - intros va Hva. pose proof (PDX_range va). unfold pte_of, pte_loc. rewrite Hpt by done.
    destruct (pt_of s kd (PDX va)) as [t|] eqn:Ht; [|done]. simpl.
    apply page_same_slot; [|apply PTX_range]. apply Hm.
    destruct (pd_table _ _ _ Hd _ (PDX_range va) t Hva Ht) as (_ & [? _]%not_elem_of_cons & _). done.
  - split; [done|]. unfold pt_of. rewrite Hself, Hs2, Hs3. done.
  - unfold s', setup_post. simpl. by rewrite lookup_insert_eq.
  - intros j Hj. unfold s', setup_post. simpl. by rewrite lookup_insert_ne.
  - exact Hm.
  - reflexivity.
  - reflexivity.
  - reflexivity.
  - reflexivity.
  - exact Hpt.
Qed.
End setup.

(** ** [env_alloc] *)

Section alloc.
Implicit Types (s : kstate) (fl efl : list Z) (e q kd parent : Z) (x : Env) (p : Page).

(** The new contents of slot [e], which held [x] before. *)
Definition new_env e x parent q : Env :=
  mkEnv new_tf (env_link x) (new_env_id (env_id x) e) parent ENV_TYPE_USER ENV_RUNNABLE 0
    (env_cpunum x) (pgdir_kva q) 0 false (env_ipc_dstva x) (env_ipc_value x) (env_ipc_from x)
    (env_ipc_perm x).

Lemma setup_envs e q kd x p s :
  envs (setup_post e q kd x p s) = <[e := set_env_pgdir (pgdir_kva q) x]> (envs s).
Proof. reflexivity. Qed.

Definition env_alloc_post e q kd x p parent s : kstate :=
  set_env_free_list (env_link x) (set_envs (<[e := new_env e x parent q]> (envs s))
    (setup_post e q kd x p s)).

Lemma env_alloc_run s efl fl e q kd x parent :
  envs_wf s (e :: efl) → envs s !! e = Some x → pages_wf s (q :: fl) →
  kern_pgdir s = pgdir_kva kd →
  ∃ p, pages s !! q = Some p ∧ paddr p = q * 4096 ∧
    env_alloc parent s = Done (0, Some e) (env_alloc_post e q kd x p parent s).
Proof.
  intros He Hx Hw Hk. destruct (setup_run s fl e q kd x Hw Hk Hx) as (p & Hp & Ha & Hrun).
  exists p. split_and!; [done..|]. unfold env_alloc.
  rewrite run_gets, (proj1 (ew_chain _ _ He)). step_with Hrun.
  change (0 <? 0) with false. cbv iota.
  erewrite run_upd_env by (rewrite setup_envs; apply lookup_insert_eq).
  do 3 erewrite run_upd_env by (simpl; apply lookup_insert_eq).
  erewrite run_get_env by (simpl; apply lookup_insert_eq). rewrite run_modify.
  unfold env_alloc_post. rewrite setup_envs. generalize (setup_post e q kd x p s). intros s0.
  apply ret_state, kstate_eq; simpl; try reflexivity. by rewrite !insert_insert_eq.
Qed.

Lemma env_alloc_envs_wf s efl e x parent q s' :
  envs_wf s (e :: efl) → envs s !! e = Some x →
  envs s' = <[e := new_env e x parent q]> (envs s) → env_free_list s' = env_link x →
  envs_wf s' efl.
Proof.
  intros Hw Hx He Hf. pose proof (ew_in_range _ _ e Hw ltac:(set_solver)) as Hr.
  pose proof (ew_nodup _ _ Hw) as [Hnd Hnd']%NoDup_cons.
  pose proof (ew_chain _ _ Hw) as [_ Hc]. unfold next_env in Hc at 1. rewrite Hx in Hc. simpl in Hc.
  destruct (ew_env _ _ Hw _ _ Hx) as (_ & Hid & _).
  destruct (new_env_id_facts (env_id x) e Hid Hr) as (Hi1 & Hi2 & _).
  split; rewrite ?He, ?Hf.
  - intros i Hi. destruct (decide (i = e)) as [->|]; simplify_map_eq; [done|]. by apply Hw.
  - intros i y. rewrite lookup_insert. case_decide as Ei.
    + intros [= <-]. subst i. simpl. split_and!; first [lia|by right|split; [by intros [=]|by intros ?]].
    + intros Hy. destruct (ew_env _ _ Hw _ _ Hy) as (? & ? & ? & Hst).
      rewrite Hst, elem_of_cons. naive_solver.
  - eapply chain_frame; [|exact Hc]. intros i Hi. unfold next_env. rewrite He.
    rewrite lookup_insert_ne; [done|]. by intros <-.
  - done.
Qed.
End alloc.

(** ** [envid2env] and [env_run] *)

Section run_env.
Implicit Types (s : kstate) (e envid : Z) (x : Env).

(** The environment an id names, for a caller that must be allowed to manage it
    when [checkperm] is set. *)
Definition names_env s (cur : option Z) (envid : Z) (checkperm : bool) (e : Z) : Prop :=
  ∃ x, envs s !! e = Some x ∧ e = ENVX envid ∧ env_id x = envid ∧ env_status x ≠ ENV_FREE ∧
    (checkperm = true → cur ≠ Some e →
      ∃ ce y, cur = Some ce ∧ envs s !! ce = Some y ∧ env_parent_id x = env_id y).

Lemma envid2env_run s efl c envid st checkperm :
  envs_wf s efl → cpus s !! this_cpu s = Some c → cpu_ok s →
  (checkperm = true → cpu_env c ≠ None) →
  ∃ r o, envid2env envid st checkperm s = Done (r, o) s ∧
    (r = 0 ∨ r = - E_BAD_ENV) ∧ (0 < envid → r ≠ 0 → o = None) ∧
    (envid < 0 → r = - E_BAD_ENV ∧ o = st) ∧ (envid = 0 → r = 0 ∧ o = cpu_env c) ∧
    (0 < envid → ∀ i, (r = 0 ∧ o = Some i) ↔ names_env s (cpu_env c) envid checkperm i).
Proof.
  intros Hw Hc Hok Hcur. unfold envid2env.
  destruct (Z.ltb_spec envid 0).
  { eexists _, _. split; [done|]. split_and!; auto; lia. }
  destruct (Z.eqb_spec envid 0) as [->|].
  { rewrite (run_curenv c) by done. eexists _, _. split; [done|]. split_and!; auto; lia. }
  assert (0 <= ENVX envid < 1024) as Hr by (rewrite ENVX_mod; zlia).
  destruct (ew_total _ _ Hw _ Hr) as [x Hx]. rewrite (run_get_env _ x) by done.
  assert (∀ r o, (r = 0 ∨ r = - E_BAD_ENV) → (r ≠ 0 → o = None) →
    (∀ i, (r = 0 ∧ o = Some i) ↔ names_env s (cpu_env c) envid checkperm i) →
    (r = 0 ∨ r = - E_BAD_ENV) ∧ (0 < envid → r ≠ 0 → o = None) ∧
    (envid < 0 → r = - E_BAD_ENV ∧ o = st) ∧ (envid = 0 → r = 0 ∧ o = cpu_env c) ∧
    (0 < envid → ∀ i, (r = 0 ∧ o = Some i) ↔ names_env s (cpu_env c) envid checkperm i)) as Hfin
    by (intros; split_and!; auto; lia).
  assert (∀ i, names_env s (cpu_env c) envid checkperm i →
    i = ENVX envid ∧ env_id x = envid ∧ env_status x ≠ ENV_FREE) as Hnm.
  { intros i (y & Hy & -> & ? & ? & _). simplify_eq. done. }
  destruct (Z.eqb_spec (env_status x) ENV_FREE); simpl.
  { eexists _, _. split; [done|]. apply Hfin; auto. intros i. split; [intros [? ?]; done|].
    intros (_ & _ & ?)%Hnm. done. }
  destruct (Z.eqb_spec (env_id x) envid) as [Eid|]; simpl.
  2: { eexists _, _. split; [done|]. apply Hfin; auto. intros i. split; [intros [? ?]; done|].
    intros (_ & ? & _)%Hnm. done. }
  rewrite (run_curenv c) by done.
  destruct (checkperm && negb (bool_decide (cpu_env c = Some (ENVX envid)))) eqn:Ecp.
  - apply andb_true_iff in Ecp as [-> Hne%negb_true_iff%bool_decide_eq_false].
    unfold cpu_ok in Hok. rewrite Hc in Hok.
    destruct (cpu_env c) as [ce|] eqn:Ece; [|by destruct Hcur]. destruct Hok as [y Hy].
    simpl. rewrite run_ret, (run_get_env _ y) by done.
    destruct (Z.eqb_spec (env_parent_id x) (env_id y)); simpl; eexists _, _; (split; [done|]);
      apply Hfin; auto; try done.
    + intros i. split.
      * intros [_ [= <-]]. exists x. split_and!; try done. eauto 10.
      * by intros (-> & _)%Hnm.
    + intros i. split; [by intros [? ?]|]. intros (x' & Hx' & -> & _ & _ & Hp). simplify_eq.
      destruct (Hp eq_refl Hne) as (ce' & y' & ? & ? & ?). simplify_eq.
  - eexists _, _. split; [done|]. apply Hfin; auto; try done. intros i. split.
    + intros [_ [= <-]]. exists x. split_and!; try done. intros -> Hne.
      apply andb_false_iff in Ecp as [?|Ecp%negb_false_iff%bool_decide_eq_true]; done.
    + by intros (-> & _)%Hnm.
Qed.
End run_env.

(** ** What [env_run] does before it leaves for user mode *)

Section dispatch.
Implicit Types (s : kstate) (e : Z) (x : Env) (c : Cpu).

(** The environment [cur] gives up the CPU, if it was running. *)
Definition preempt (cur : option Z) (E : gmap Z Env) : gmap Z Env :=
  match cur with
  | None => E
  | Some ce => match E !! ce with
               | Some y => if env_status y =? ENV_RUNNING
                           then <[ce := set_env_status ENV_RUNNABLE y]> E else E
               | None => E
               end
  end.

(** [x] starts running on CPU [n]. *)
Definition dispatched (n : Z) x : Env :=
  set_env_cpunum n (set_env_runs (u32 (env_runs x + 1)) (set_env_status ENV_RUNNING x)).

Definition run_post e x c s : kstate :=
  set_cr3 (<[this_cpu s := env_pgdir x - KERNBASE]> (cr3 s))
    (set_kernel_lock (mkSpinlock 0 None)
      (set_envs (<[e := dispatched (this_cpu s) x]> (preempt (cpu_env c) (envs s)))
        (set_cpus (<[this_cpu s := set_cpu_env (Some e) c]> (cpus s)) s))).

Lemma preempt_lookup cur E e x :
  E !! e = Some x →
  ∃ st, preempt cur E !! e = Some (set_env_status st x).
Proof.
  intros Hx. assert (x = set_env_status (env_status x) x) as Ex by by destruct x.
  unfold preempt. destruct cur as [ce|]; [|rewrite Hx; eexists; by f_equal].
  destruct (E !! ce) as [y|] eqn:Ey; [|rewrite Hx; eexists; by f_equal].
  destruct (env_status y =? ENV_RUNNING); [|rewrite Hx; eexists; by f_equal].
  rewrite lookup_insert. case_decide as Hd; [|rewrite Hx; eexists; by f_equal].
  subst ce. simplify_eq. by eexists.
Qed.

Lemma env_run_exit {A} s e x c :
  cpus s !! this_cpu s = Some c → cpu_ok s → envs s !! e = Some x → lock_mine s →
  KERNBASE <= env_pgdir x →
  (env_run e : M A) s = Exit (UserMode e) (run_post e x c s).
Proof.
  intros Hc Hok Hx Hl Hp. unfold env_run. rewrite (run_curenv c) by done.
  set (s1 := set_envs (preempt (cpu_env c) (envs s)) s).
  assert (∀ (k : unit → M A), ((match cpu_env c with
    | None => mret tt
    | Some ce => y ← get_env ce;
        if env_status y =? ENV_RUNNING then upd_env (set_env_status ENV_RUNNABLE) ce else mret tt
    end) ≫= k) s = k tt s1) as Hpre.
  { intros k. unfold s1, preempt, cpu_ok in *. rewrite Hc in Hok.
    destruct (cpu_env c) as [ce|]; [|by destruct s]. destruct Hok as [y Hy]. rewrite Hy. run.
    destruct (env_status y =? ENV_RUNNING); run; [done|by destruct s]. }
  rewrite Hpre. destruct (preempt_lookup (cpu_env c) (envs s) e x Hx) as [st Hst].
  rewrite (run_set_curenv _ c) by done.
  rewrite (run_upd_env _ _ (set_env_status st x)) by done.
  erewrite run_upd_env by (simpl; apply lookup_insert_eq).
  erewrite (bind_Done unlock_kernel) by (by apply unlock_kernel_run).
  erewrite run_get_env by (simpl; apply lookup_insert_eq).
  rewrite run_PADDR by done. unfold lcr3. rewrite run_modify.
  erewrite run_get_env by (simpl; apply lookup_insert_eq). unfold env_pop_tf.
  erewrite run_curenv by (simpl; apply lookup_insert_eq). simpl. rewrite run_ret.
  unfold cpunum. rewrite run_gets. erewrite run_upd_env by (simpl; apply lookup_insert_eq).
  unfold leave. f_equal. unfold run_post. state_eq. by rewrite !insert_insert_eq.
Qed.
End dispatch.

(** ** Properties *)

Section properties.
Implicit Types (s : kstate) (fl efl : list Z) (e kd parent : Z).

Lemma init_envs_wf s :
  (∀ i, envs s !! i = if decide (0 <= i < 1024) then Some (init_env i) else None) → env_free_list s = Some 0 →
  envs_wf s (seqZ 0 1024).
Proof.
  intros HE Hfl. pose proof (chain_seqZ (next_env s) 0 1024 None [] ltac:(lia)) as Hch.
  rewrite app_nil_r in Hch. split.
  - intros i Hi. rewrite HE, decide_True by done. done.
  - intros i x. rewrite HE. case_decide; [|done]. intros [= <-]. split_and!; try (simpl; lia).
    rewrite elem_of_seqZ. split; [lia|done].
  - rewrite Hfl. apply Hch; [| |done]; unfold next_env.
    + intros j Hj. rewrite HE, decide_True by lia. unfold init_env. simpl.
      destruct (Z.eqb_spec j 1023); [lia|done].
    + by rewrite HE.
  - apply NoDup_seqZ.
Qed.

(** env_init leaves a well-formed table in which every environment is free and
    the free list holds the slots in array order, so that the first env_alloc
    returns envs[0]; besides the table it changes only segment registers. *)
Theorem env_init_in_order im s :
  ∃ s', env_init im s = Done tt s' ∧ envs_wf s' (seqZ 0 1024) ∧
    (∀ i x, envs s' !! i = Some x → env_status x = ENV_FREE ∧ env_id x = 0) ∧
    mem s' = mem s ∧ pages s' = pages s.
Proof.
  destruct (env_init_run im s) as (E & -> & HE). eexists. split; [done|].
  split; [by apply init_envs_wf|]. split_and!; try done.
  intros i x. simpl. rewrite HE. case_decide; [|done]. by intros [= <-].
Qed.

(** C25: envid2env never changes the state.  A negative id is rejected (and the
    caller's pointer is then left as it was, not cleared); id 0 is the current
    environment; a positive id succeeds exactly for the environment in the slot
    named by its low bits that is in use and carries that very id, and, when
    permission is to be checked, that is the current environment or one of its
    immediate children. *)
Theorem envid2env_correct s efl c envid st checkperm :
  envs_wf s efl → cpus s !! this_cpu s = Some c → cpu_ok s →
  (checkperm = true → cpu_env c ≠ None) →
  ∃ r o, envid2env envid st checkperm s = Done (r, o) s ∧
    (r = 0 ∨ r = - E_BAD_ENV) ∧ (0 < envid → r ≠ 0 → o = None) ∧
    (envid < 0 → r = - E_BAD_ENV ∧ o = st) ∧ (envid = 0 → r = 0 ∧ o = cpu_env c) ∧
    (0 < envid → ∀ i, (r = 0 ∧ o = Some i) ↔ names_env s (cpu_env c) envid checkperm i).
Proof. apply envid2env_run. Qed.

(** C17: env_alloc fails with -E_NO_FREE_ENV when the table is full and with
    -E_NO_MEM when no page is free, leaving the state unchanged in both cases.
    Otherwise it takes the first free slot, gives it a positive id that encodes
    the slot and differs from the slot's previous id, user-mode segments with
    interrupts enabled and no fault handler, and a fresh page directory that maps
    exactly what the kernel directory maps, apart from the read-only self map;
    the table and the allocator stay well formed and no other page changes. *)
Theorem env_alloc_correct s fl efl kd parent :
  pages_wf s fl → envs_wf s efl → kern_pgdir s = pgdir_kva kd → pd_wf s fl kd →
  match efl, fl with
  | [], _ => env_alloc parent s = Done (- E_NO_FREE_ENV, None) s
  | _, [] => env_alloc parent s = Done (- E_NO_MEM, None) s
  | e :: efl', q :: fl' => ∃ x y s', envs s !! e = Some x ∧
      env_alloc parent s = Done (0, Some e) s' ∧ envs s' = <[e := y]> (envs s) ∧
      0 < env_id y < 2147483648 ∧ ENVX (env_id y) = e ∧ env_id y ≠ env_id x ∧
      env_parent_id y = parent ∧ env_status y = ENV_RUNNABLE ∧ env_type y = ENV_TYPE_USER ∧
      env_tf y = mkTrapframe zero_regs 0x23 0x23 0 0 0 0x1B 0x200 0xEEBFE000 0x23 ∧ env_pgfault_upcall y = 0 ∧ env_ipc_recving y = false ∧
      env_pgdir y = pgdir_kva q ∧ envs_wf s' efl' ∧ pages_wf s' fl' ∧ pd_wf s' fl' q ∧
      (∀ va, PDX va ≠ self_index → pte_of s' q va = pte_of s kd va) ∧
      pde_of s' q self_index = self_entry q ∧
      ∀ j, j ≠ q → page_same j (mem s) (mem s') ∧ pages s' !! j = pages s !! j
  end.
Proof.
  intros Hw He Hk Hd. destruct efl as [|e efl].
  { unfold env_alloc. rewrite run_gets. by rewrite (ew_chain _ _ He : env_free_list s = None). }
  destruct fl as [|q fl].
  { unfold env_alloc. rewrite run_gets, (proj1 (ew_chain _ _ He)).
    by step_with (setup_none s e Hw). }
  pose proof (ew_in_range _ _ e He ltac:(set_solver)) as Her.
  destruct (ew_total _ _ He e Her) as [x Hx].
  destruct (ew_env _ _ He _ _ Hx) as (_ & Hid & _).
  destruct (new_env_id_facts (env_id x) e Hid Her) as (Hi1 & Hi2 & Hi3).
  destruct (env_alloc_run s efl fl e q kd x parent He Hx Hw Hk) as (p & Hp & Ha & Hrun).
  pose proof (setup_post_ready s fl e q kd x p Hw Hd Hp Ha) as [V1 V2 V3 [V4 _] _ V6 V7 _ _ _ _ _].
  unfold env_alloc_post in Hrun. revert Hrun V1 V2 V3 V4 V6 V7.
  generalize (setup_post e q kd x p s). intros s0 Hrun V1 V2 V3 V4 V6 V7.
  exists x, (new_env e x parent q). eexists. split; [exact Hx|]. split; [exact Hrun|].
  split; [reflexivity|]. do 3 (split; [assumption|]). do 7 (split; [reflexivity|]).
  split; [by eapply env_alloc_envs_wf|]. split; [by apply (pages_wf_ext s0)|].
  split; [by apply (pd_wf_update s0 _ fl fl)|]. split; [exact V3|]. split; [exact V4|].
  intros j Hj. split; [by apply V7|by apply V6].
Qed.

(** C26: env_run, called with the kernel lock held, marks the previous environment
    of this CPU runnable if it was running, makes the new one current, running
    on this CPU and counted once more, releases the kernel lock, loads its page
    directory and enters user mode; it never returns, and changes nothing else:
    the state differs in this CPU's CR3 and current environment, in the kernel
    lock, and in those fields of those two environments only. *)
Theorem env_run_switches s e x c :
  cpus s !! this_cpu s = Some c → cpu_ok s → envs s !! e = Some x → lock_mine s →
  KERNBASE <= env_pgdir x →
  ∃ E', (env_run e : M unit) s = Exit (UserMode e)
      (set_cr3 (<[this_cpu s := env_pgdir x - KERNBASE]> (cr3 s))
        (set_kernel_lock (mkSpinlock 0 None)
          (set_envs E' (set_cpus (<[this_cpu s := set_cpu_env (Some e) c]> (cpus s)) s)))) ∧
    E' !! e = Some (set_env_cpunum (this_cpu s) (set_env_runs (u32 (env_runs x + 1))
                (set_env_status ENV_RUNNING x))) ∧
    ∀ j, j ≠ e → E' !! j =
      (λ y, if bool_decide (cpu_env c = Some j) && (env_status y =? ENV_RUNNING)
            then set_env_status ENV_RUNNABLE y else y) <$> envs s !! j.
Proof.
  intros Hc Hok Hx Hl Hp. eexists. split; [by apply (env_run_exit s e x c)|].
  rewrite lookup_insert_eq. split; [done|].
  intros j Hj. rewrite lookup_insert_ne by done. unfold preempt.
  destruct (cpu_env c) as [ce|]; [|destruct (envs s !! j); simpl; by rewrite ?bool_decide_false].
  destruct (decide (ce = j)) as [->|Hne].
  - destruct (envs s !! j) as [y|] eqn:Hy; [|by rewrite Hy]. simpl. rewrite bool_decide_true by done. simpl.
    destruct (env_status y =? ENV_RUNNING); [by rewrite lookup_insert_eq|done].
  - transitivity (envs s !! j); [|destruct (envs s !! j); simpl; [by rewrite bool_decide_false by congruence|done]].
    destruct (envs s !! ce) as [z|]; [|done].
    destruct (env_status z =? ENV_RUNNING); [by rewrite lookup_insert_ne|done].
Qed.
End properties.

(** ** Concrete instances *)

(** The machine of [ex_vm] with directory 2 as the kernel's and an initialised
    table in which slots 0 to 2 are in use: 0 is idle, 1 runs on CPU 0 and 2 is
    its child. *)
Definition ex_env (i : Z) : Env :=
  let x := set_env_link (if i =? 1023 then None else Some (i + 1)) zero_env in
  let used st ty := set_env_status st (set_env_type ty
    (set_env_id (4096 + i) (set_env_pgdir (pgdir_kva 2) x))) in
  if i =? 0 then used ENV_RUNNABLE ENV_TYPE_IDLE
  else if i =? 1 then used ENV_RUNNING ENV_TYPE_USER
  else if i =? 2 then set_env_parent_id 4097 (used ENV_RUNNABLE ENV_TYPE_USER)
  else x.
Definition ex_kernel : kstate :=
  set_kern_pgdir (pgdir_kva 2)
    (set_envs (list_to_map ((λ i, (i, ex_env i)) <$> seqZ 0 1024))
      (set_env_free_list (Some 3) (set_cpus {[ 0 := mkCpu 0 1 (Some 1) 0 0 ]}
        (set_kernel_lock (mkSpinlock 1 (Some 0)) ex_vm)))).

Lemma ex_kernel_envs : envs_wf ex_kernel (seqZ 3 1021).
Proof. by_compute. Qed.

Lemma ex_kernel_pages : pages_wf ex_kernel [3; 5; 4].
Proof. by_compute. Qed.

Lemma ex_kernel_pd : pd_wf ex_kernel [3; 5; 4] 2.
Proof. apply pd_wf_check; by_compute. Qed.

Lemma envid2env_correct_witness :
  ∃ r o, envid2env 4098 None true ex_kernel = Done (r, o) ex_kernel ∧
    (r = 0 ∨ r = - E_BAD_ENV) ∧ (0 < 4098 → r ≠ 0 → o = None) ∧
    (4098 < 0 → r = - E_BAD_ENV ∧ o = None) ∧ (4098 = 0 → r = 0 ∧ o = Some 1) ∧
    (0 < 4098 → ∀ i, (r = 0 ∧ o = Some i) ↔ names_env ex_kernel (Some 1) 4098 true i).
Proof.
  apply (envid2env_correct ex_kernel (seqZ 3 1021) (mkCpu 0 1 (Some 1) 0 0) 4098 None true);
    [apply ex_kernel_envs|by_compute|by_compute|done].
Defined.

Lemma env_alloc_correct_witness :
  ∃ x y s', envs ex_kernel !! 3 = Some x ∧
      env_alloc 4097 ex_kernel = Done (0, Some 3) s' ∧ envs s' = <[3 := y]> (envs ex_kernel) ∧
      0 < env_id y < 2147483648 ∧ ENVX (env_id y) = 3 ∧ env_id y ≠ env_id x ∧
      env_parent_id y = 4097 ∧ env_status y = ENV_RUNNABLE ∧ env_type y = ENV_TYPE_USER ∧
      env_tf y = mkTrapframe zero_regs 0x23 0x23 0 0 0 0x1B 0x200 0xEEBFE000 0x23 ∧ env_pgfault_upcall y = 0 ∧ env_ipc_recving y = false ∧
      env_pgdir y = pgdir_kva 3 ∧ envs_wf s' (seqZ 4 1020) ∧ pages_wf s' [5; 4] ∧
      pd_wf s' [5; 4] 3 ∧ (∀ va, PDX va ≠ self_index → pte_of s' 3 va = pte_of ex_kernel 2 va) ∧
      pde_of s' 3 self_index = self_entry 3 ∧
      ∀ j, j ≠ 3 → page_same j (mem ex_kernel) (mem s') ∧ pages s' !! j = pages ex_kernel !! j.
Proof.
  apply (env_alloc_correct ex_kernel [3; 5; 4] (3 :: seqZ 4 1020) 2 4097);
    [apply ex_kernel_pages|apply ex_kernel_envs|reflexivity|apply ex_kernel_pd].
Defined.

Lemma env_run_switches_witness :
  ∃ E', (env_run 2 : M unit) ex_kernel = Exit (UserMode 2)
      (set_cr3 (<[0 := env_pgdir (ex_env 2) - KERNBASE]> (cr3 ex_kernel))
        (set_kernel_lock (mkSpinlock 0 None)
          (set_envs E' (set_cpus (<[0 := mkCpu 0 1 (Some 2) 0 0]> (cpus ex_kernel)) ex_kernel)))) ∧
    E' !! 2 = Some (set_env_cpunum 0 (set_env_runs 1 (set_env_status ENV_RUNNING (ex_env 2)))) ∧
    ∀ j, j ≠ 2 → E' !! j =
      (λ y, if bool_decide (Some 1 = Some j) && (env_status y =? ENV_RUNNING)
            then set_env_status ENV_RUNNABLE y else y) <$> envs ex_kernel !! j.
Proof.
  apply (env_run_switches ex_kernel 2 (ex_env 2) (mkCpu 0 1 (Some 1) 0 0));
    [by_compute|by_compute|by_compute|reflexivity|by_compute].
Defined.
