(* ===== verification/Sched.v ===== *)
(** * The scheduler: kern/sched.c, with [env_destroy] and [user_mem_assert]

    Round-robin selection over the table of environments, the fall back to the
    idle environment of the CPU or to the monitor, and the two routines of
    kern/env.c and kern/pmap.c that reschedule. *)

From S2P Require Import Prelude Machine Spinlock PageAlloc Pmap UserMem Env.
From stdpp Require Import base numbers list gmap fin_maps strings.

Local Open Scope Z_scope.

(** A non-idle environment that waits for a CPU; one that waits or runs. *)
Definition is_runnable (x : Env) : bool :=
  negb (bool_decide (env_type x = ENV_TYPE_IDLE)) && (env_status x =? ENV_RUNNABLE).
Definition is_live (x : Env) : bool :=
  negb (bool_decide (env_type x = ENV_TYPE_IDLE)) &&
  ((env_status x =? ENV_RUNNABLE) || (env_status x =? ENV_RUNNING)).

(** The index at which the search starts. *)
Definition sched_start : M Z :=
  c ← curenv;
  match c with
  | None => mret 0
  | Some e =>
      x ← get_env e;
      if env_status x =? ENV_RUNNING
      then upd_env (set_env_status ENV_RUNNABLE) e ;; mret (e + 1)
      else mret e
  end.

(** The search; the number of slots visited without finding one to run. *)
Definition sched_search (i : Z) : M Z :=
  loop (S (Z.to_nat NENV)) NoFuel (λ '(i, cnt),
    if cnt <? NENV then
      let i := if NENV <=? i then i mod NENV else i in
      x ← get_env i;
      if is_runnable x then env_run i else mret (inl (i + 1, cnt + 1))
    else mret (inr cnt)) (i, 0).

(** The first index of a waiting or running environment, or NENV. *)
Definition first_live : M Z :=
  loop (S (Z.to_nat NENV)) NoFuel (λ i,
    if i <? NENV then
      x ← get_env i; if is_live x then mret (inr i) else mret (inl (i + 1))
    else mret (inr i)) 0.

Definition sched_yield : M unit :=
  i ← sched_start;
  cnt ← sched_search i;
  i ← first_live;
  if i =? NENV then leave InMonitor else
  if cnt =? NENV then
    idle ← cpunum;
    x ← get_env idle;
    if negb ((env_status x =? ENV_RUNNABLE) || (env_status x =? ENV_RUNNING))
    then panic "CPU: No idle environment!" else env_run idle
  else mret tt.

Definition env_destroy (e : Z) : M unit :=
  x ← get_env e;
  c ← curenv;
  if (env_status x =? ENV_RUNNING) && negb (bool_decide (c = Some e))
  then upd_env (set_env_status ENV_DYING) e
  else
    env_free e ;;
    c ← curenv;
    if bool_decide (c = Some e) then set_curenv None ;; sched_yield else mret tt.

Definition user_mem_assert (env va len perm : Z) : M unit :=
  r ← user_mem_check env va len (Z.lor perm PTE_U);
  if r <? 0 then env_destroy env else mret tt.

#[global] Arguments sched_start : simpl never.
#[global] Arguments sched_search : simpl never.
#[global] Arguments first_live : simpl never.
#[global] Arguments sched_yield : simpl never.
#[global] Arguments env_destroy : simpl never.
#[global] Arguments user_mem_assert : simpl never.

(** ** The order of the search *)

Section order.
Implicit Types (s : kstate) (E : gmap Z Env) (i k : Z).

(** The [k]th slot visited from [i] on. *)
Definition visit i k : Z := (i + k) mod NENV.

(** The environments the scheduler may choose, and those that keep the system
    alive. *)
Definition eligible (x : Env) : Prop := env_type x ≠ ENV_TYPE_IDLE ∧ env_status x = ENV_RUNNABLE.
Definition awake (x : Env) : Prop :=
  env_type x ≠ ENV_TYPE_IDLE ∧ (env_status x = ENV_RUNNABLE ∨ env_status x = ENV_RUNNING).

#[export] Instance eligible_dec x : Decision (eligible x).
Proof. unfold eligible. apply _. Defined.

Lemma is_runnable_spec x : is_runnable x = bool_decide (eligible x).
Proof.
  unfold is_runnable, eligible. repeat case_bool_decide; destruct (Z.eqb_spec (env_status x) ENV_RUNNABLE);
    naive_solver.
Qed.

Lemma is_live_spec x : is_live x = true ↔ awake x.
Proof.
  unfold is_live, awake. rewrite andb_true_iff, orb_true_iff, negb_true_iff, bool_decide_eq_false, !Z.eqb_eq.
  done.
Qed.

Definition runnable_at E i : bool :=
  match E !! i with Some x => bool_decide (eligible x) | None => false end.

(** The slot that a search from [i] finds, among the visits [ks]. *)
Definition next_runnable E i (ks : list Z) : option Z :=
  head (filter (λ j, runnable_at E j = true) (visit i <$> ks)).

Definition all_envs E : Prop := ∀ i, 0 <= i < 1024 → is_Some (E !! i).

Lemma visit_range i k : 0 <= visit i k < 1024.
Proof. unfold visit, NENV. apply Z.mod_pos_bound. lia. Qed.

(** [env_run] never returns to its caller. *)
Lemma bind_absorbs {A B C} (m : M A) (f : A → M B) (g : A → M C) (k : B → M C) s :
  (∀ a s', (f a ≫= k) s' = g a s') → ((m ≫= f) ≫= k) s = (m ≫= g) s.
Proof. intros H. rewrite run_assoc. unfold mbind at 1 3, comp_bind. destruct (m s); auto. Qed.

Lemma env_run_absorbs {A B} e (k : A → M B) s : (env_run e ≫= k) s = (env_run e : M B) s.
Proof.
  unfold env_run. repeat (apply bind_absorbs; intros ? ?). done.
Qed.

(** The loop of the search, after [cnt] slots. *)
Lemma search_loop i0 n cnt j s :
  all_envs (envs s) → 0 <= j → 0 <= cnt <= NENV → j mod NENV = visit i0 cnt →
  Z.of_nat n = NENV - cnt + 1 →
  loop n NoFuel (λ '(i, cnt),
    if cnt <? NENV then
      let i := if NENV <=? i then i mod NENV else i in
      x ← get_env i;
      if is_runnable x then env_run i else mret (inl (i + 1, cnt + 1))
    else mret (inr cnt)) (j, cnt) s =
  match next_runnable (envs s) i0 (seqZ cnt (NENV - cnt)) with
  | Some r => (env_run r : M Z) s
  | None => Done NENV s
  end.
Proof.
  intros Hall. revert cnt j. induction n as [|n IH]; intros cnt j Hj Hc Hv Hn.
  - lia.
  - rewrite loop_S. destruct (Z.ltb_spec cnt NENV) as [Hlt|].
    2: { rewrite seqZ_nil by lia. rewrite run_ret, ret_eq. simpl. f_equal. lia. }
    assert ((if NENV <=? j then j mod NENV else j) = visit i0 cnt) as ->.
    { rewrite <- Hv. destruct (Z.leb_spec NENV j); [done|]. rewrite Z.mod_small; lia. }
    pose proof (visit_range i0 cnt) as Hr. destruct (Hall _ Hr) as [x Hx].
    rewrite run_assoc, (run_get_env _ x) by done.
    rewrite seqZ_cons by lia. unfold next_runnable. rewrite fmap_cons, filter_cons.
    assert (runnable_at (envs s) (visit i0 cnt) = is_runnable x) as Hrx
      by (unfold runnable_at; by rewrite Hx, is_runnable_spec).
    destruct (is_runnable x).
    + rewrite decide_True by done. apply env_run_absorbs.
    + rewrite decide_False by (by rewrite Hrx). rewrite run_ret, IH; try lia.
      * unfold next_runnable.
        by replace (Z.pred (NENV - cnt)) with (NENV - (cnt + 1)) by lia.
      * unfold visit, NENV in *. zlia.
Qed.

Lemma first_live_run s :
  all_envs (envs s) →
  ∃ i, first_live s = Done i s ∧
    (i = NENV ∧ (∀ j x, 0 <= j < 1024 → envs s !! j = Some x → ¬ awake x) ∨
     0 <= i < NENV ∧ ∃ x, envs s !! i = Some x ∧ awake x).
Proof.
  intros Hall. unfold first_live.
  assert (∀ n i, Z.of_nat n = NENV - i + 1 → 0 <= i <= NENV →
    (∀ j x, 0 <= j < i → envs s !! j = Some x → ¬ awake x) →
    ∃ r, loop n NoFuel (λ i,
      if i <? NENV then
        x ← get_env i; if is_live x then mret (inr i) else mret (inl (i + 1))
      else mret (inr i)) i s = Done r s ∧
      (r = NENV ∧ (∀ j x, 0 <= j < 1024 → envs s !! j = Some x → ¬ awake x) ∨
       0 <= r < NENV ∧ ∃ x, envs s !! r = Some x ∧ awake x)) as H.
  2: { apply H; unfold NENV; lia. }
  induction n as [|n IH]; intros i Hn Hi Hpre; [lia|]. rewrite loop_S.
  destruct (Z.ltb_spec i NENV) as [Hlt|].
  - destruct (Hall i ltac:(unfold NENV in *; lia)) as [x Hx].
    rewrite run_assoc, (run_get_env _ x) by done.
    pose proof (is_live_spec x) as Hls. destruct (is_live x); rewrite run_ret.
    + apply proj1 in Hls. specialize (Hls eq_refl). exists i. split; [done|]. right. split; [lia|]. eauto.
    + apply IH; try lia. intros j y Hj Hy. destruct (decide (j = i)) as [->|].
      * simplify_eq. by rewrite <- Hls.
      * apply (Hpre j); [lia|done].
  - rewrite run_ret. exists i. split; [done|]. left. split; [lia|].
    intros j y Hj. apply Hpre. unfold NENV in *. lia.
Qed.

Lemma next_runnable_some E i ks r :
  next_runnable E i ks = Some r → runnable_at E r = true.
Proof.
  unfold next_runnable. intros H. apply head_Some_elem_of in H.
  by apply list_elem_of_filter in H as [? _].
Qed.

(** The slot found is the closest one. *)
Lemma next_runnable_min E i a n r :
  next_runnable E i (seqZ a n) = Some r →
  ∃ k, a <= k < a + n ∧ r = visit i k ∧ ∀ k', a <= k' < k → runnable_at E (visit i k') = false.
Proof.
  remember (Z.to_nat n) as m eqn:Hm. revert a n Hm. induction m as [|m IH]; intros a n Hm.
  { rewrite seqZ_nil by lia. done. }
  rewrite seqZ_cons by lia. unfold next_runnable. rewrite fmap_cons, filter_cons.
  destruct (runnable_at E (visit i a)) eqn:Hr.
  - rewrite decide_True by done. intros [= <-]. exists a. split_and!; [lia|lia|done|lia].
  - rewrite decide_False by done. intros H.
    destruct (IH (Z.succ a) (Z.pred n)) as (k & Hk & -> & Hmin); [lia|exact H|].
    exists k. split_and!; [lia|lia|done|]. intros k' Hk'.
    destruct (decide (k' = a)) as [->|]; [done|]. apply Hmin. lia.
Qed.

Lemma next_runnable_none E i j :
  next_runnable E i (seqZ 0 NENV) = None → 0 <= j < 1024 → runnable_at E j = false.
Proof.
  unfold next_runnable. intros H Hj. destruct (runnable_at E j) eqn:Hr; [|done].
  assert (j ∈ filter (λ j, runnable_at E j = true) (visit i <$> seqZ 0 NENV)) as Hin.
  { apply list_elem_of_filter. split; [done|]. apply list_elem_of_fmap.
    exists ((j - i) mod 1024). split; [unfold visit, NENV; zlia|].
    apply elem_of_seqZ. unfold NENV. zlia. }
  destruct (filter _ _); [by apply not_elem_of_nil in Hin|done].
Qed.
End order.

(** ** One call of the scheduler *)

Section yield.
Implicit Types (s : kstate) (c : Cpu).

(** Where the search starts when [cur] gives up the CPU. *)
Definition start_index (E : gmap Z Env) (cur : option Z) : Z :=
  match cur with
  | None => 0
  | Some e => match E !! e with
              | Some x => if env_status x =? ENV_RUNNING then e + 1 else e
              | None => e
              end
  end.

Lemma sched_start_run s c :
  cpus s !! this_cpu s = Some c → cpu_ok s →
  sched_start s = Done (start_index (envs s) (cpu_env c)) (set_envs (preempt (cpu_env c) (envs s)) s).
Proof.
  intros Hc Hok. unfold sched_start, start_index, preempt. rewrite (run_curenv c) by done.
  unfold cpu_ok in Hok. rewrite Hc in Hok.
  destruct (cpu_env c) as [e|]; [|by destruct s]. destruct Hok as [x Hx]. rewrite Hx.
  rewrite (run_get_env _ x) by done. destruct (env_status x =? ENV_RUNNING).
  - by rewrite (run_upd_env _ _ x).
  - by destruct s.
Qed.

Lemma preempt_all E cur : all_envs E → all_envs (preempt cur E).
Proof.
  intros H i Hi. destruct (H i Hi) as [x Hx].
  destruct (preempt_lookup cur E i x Hx) as [st ->]. done.
Qed.

(** The environments that may be chosen have an address space. *)
Definition has_pgdir (E : gmap Z Env) : Prop :=
  map_Forall (λ _ x, eligible x → KERNBASE <= env_pgdir x) E.

(** The states in which the kernel calls the scheduler. *)
Record sched_ready s c : Prop := {
  sr_envs : all_envs (envs s);
  sr_pgdir : has_pgdir (preempt (cpu_env c) (envs s));
  sr_cpu : cpus s !! this_cpu s = Some c;
  sr_cur : ∀ e, cpu_env c = Some e → 0 <= e < 1024;
  sr_this : 0 <= this_cpu s < 8;
  sr_idle : ∀ x, envs s !! this_cpu s = Some x → KERNBASE <= env_pgdir x;
  sr_lock : lock_mine s;
}.

Lemma sched_ready_ok s c : sched_ready s c → cpu_ok s.
Proof.
  intros []. unfold cpu_ok. rewrite sr_cpu0. destruct (cpu_env c) as [e|]; [|done].
  by apply sr_envs0, sr_cur0.
Qed.

Lemma start_index_range s c : sched_ready s c → 0 <= start_index (envs s) (cpu_env c).
Proof.
  intros []. unfold start_index. destruct (cpu_env c) as [e|]; [|lia].
  specialize (sr_cur0 e eq_refl). repeat case_match; lia.
Qed.

(** What the scheduler does when the search from [i] in the table [E] finds
    nothing: the monitor, or this CPU's idle environment. *)
Definition nothing_runnable s c (r : outcome kstate kexit unit) : Prop :=
  let s1 := set_envs (preempt (cpu_env c) (envs s)) s in
  ((∀ j x, 0 <= j < 1024 → envs s1 !! j = Some x → ¬ awake x) ∧ r = Exit InMonitor s1) ∨
  (∃ j x idle, 0 <= j < 1024 ∧ envs s1 !! j = Some x ∧ awake x ∧
    envs s1 !! this_cpu s = Some idle ∧
    r = if (env_status idle =? ENV_RUNNABLE) || (env_status idle =? ENV_RUNNING)
        then Exit (UserMode (this_cpu s)) (run_post (this_cpu s) idle c s1)
        else Exit (Panic "CPU: No idle environment!") s1).

Lemma sched_yield_run s c :
  sched_ready s c →
  let s1 := set_envs (preempt (cpu_env c) (envs s)) s in
  match next_runnable (envs s1) (start_index (envs s) (cpu_env c)) (seqZ 0 NENV) with
  | Some r => ∃ x, envs s1 !! r = Some x ∧ eligible x ∧
      sched_yield s = Exit (UserMode r) (run_post r x c s1)
  | None => nothing_runnable s c (sched_yield s)
  end.
Proof.
  intros Hr s1. pose proof (sched_ready_ok s c Hr) as Hok.
  pose proof (start_index_range s c Hr) as Hi0.
  assert (all_envs (envs s1)) as Hall by (apply preempt_all, Hr).
  assert (cpu_ok s1) as Hok1.
  { unfold cpu_ok. simpl. rewrite (sr_cpu _ _ Hr). destruct (cpu_env c) as [e|] eqn:Ec; [|done].
    apply (Hall e), (sr_cur _ _ Hr), Ec. }
  unfold sched_yield. step_with (sched_start_run s c (sr_cpu _ _ Hr) Hok). fold s1.
  set (i0 := start_index (envs s) (cpu_env c)) in *.
  assert (sched_search i0 s1 =
    match next_runnable (envs s1) i0 (seqZ 0 NENV) with
    | Some r => (env_run r : M Z) s1 | None => Done NENV s1 end) as Hs.
  { etrans; [apply (search_loop i0); [done|lia|unfold NENV; lia|by rewrite <- (Z.add_0_r i0) at 1|]|done].
    unfold NENV. lia. }
  destruct (next_runnable (envs s1) i0 (seqZ 0 NENV)) as [r|] eqn:Hn.
  - pose proof (next_runnable_some _ _ _ _ Hn) as Hra. unfold runnable_at in Hra.
    destruct (envs s1 !! r) as [x|] eqn:Hx; [|done].
    apply bool_decide_eq_true in Hra. exists x. split_and!; [done..|].
    assert (KERNBASE <= env_pgdir x) as Hp by (by apply (sr_pgdir _ _ Hr r x)).
    rewrite (env_run_exit s1 r x c) in Hs by (done || apply Hr).
    by rewrite (bind_Exit _ _ _ _ _ Hs).
  - step_with Hs. unfold nothing_runnable. fold s1.
    destruct (first_live_run s1 Hall) as (i & Hfl & [[-> Hno]|(Hi & x & Hx & Hl)]);
      step_with Hfl; [by left|].
    destruct (Z.eqb_spec i NENV); [lia|]. change (NENV =? NENV) with true. cbv iota.
    pose proof (sr_this _ _ Hr) as Ht. right.
    destruct (Hall (this_cpu s) ltac:(lia)) as [idle Hidle].
    exists i, x, idle. split_and!; [lia|unfold NENV in *; lia|done..|].
    unfold cpunum. rewrite run_gets. rewrite (run_get_env _ idle) by done.
    destruct (_ || _) eqn:Est; simpl; [|done].
    rewrite (env_run_exit s1 _ idle c); [done|apply (sr_cpu _ _ Hr)|done|done|apply (sr_lock _ _ Hr)|].
    destruct (sr_envs _ _ Hr (this_cpu s) ltac:(lia)) as [y Hy].
    destruct (preempt_lookup (cpu_env c) _ _ _ Hy) as [st Hst].
    change (envs s1) with (preempt (cpu_env c) (envs s)) in Hidle. simplify_eq. simpl.
    by apply (sr_idle _ _ Hr y).
Qed.
End yield.

(** ** Bounded waiting *)

(** Successive calls of the scheduler on one CPU.  When a call is made, the
    environment that the previous one chose is either still the CPU's current
    one, and then running or blocked ([trap] after a clock interrupt,
    [sys_yield], [sys_ipc_recv]), or gone ([env_destroy], which leaves the CPU
    without an environment).  Anything may have happened to the others. *)
Record schedule (run : nat → kstate * Cpu) : Prop := {
  sd_ready : ∀ n, sched_ready (run n).1 (run n).2;
  sd_next : ∀ n r s', sched_yield (run n).1 = Exit (UserMode r) s' →
    cpu_env (run (S n)).2 = None ∨
    (cpu_env (run (S n)).2 = Some r ∧
     ∃ x, envs (run (S n)).1 !! r = Some x ∧ env_status x ≠ ENV_RUNNABLE);
}.

(** The calls, among the [N] that follow call [n], made after the CPU's
    environment was destroyed; the search of such a call starts at slot 0. *)
Definition restarts (run : nat → kstate * Cpu) (n N : nat) : list nat :=
  filter (λ m, cpu_env (run m).2 = None) (seq (S n) N).

Definition chooses (s : kstate) (j : Z) : Prop := ∃ s', sched_yield s = Exit (UserMode j) s'.

Section fairness.
Implicit Types (E : gmap Z Env) (i j : Z).

(** How many slots a search from [i] passes before it reaches [j]. *)
Definition distance i j : Z := (j - i) mod 1024.

Lemma next_runnable_closer E i j :
  runnable_at E j = true → 0 <= j < 1024 →
  ∃ r, next_runnable E i (seqZ 0 NENV) = Some r ∧
    (r = j ∨ distance (r + 1) j < distance i j).
Proof.
  intros Hj Hr. destruct (next_runnable E i (seqZ 0 NENV)) as [r|] eqn:Hn.
  - exists r. split; [done|]. destruct (next_runnable_min _ _ _ _ _ Hn) as (k & Hk & -> & Hmin).
    destruct (decide (k <= distance i j)) as [Hle|Hgt].
    + unfold distance, visit, NENV in *. zlia.
    + exfalso. specialize (Hmin (distance i j)). unfold distance in Hmin, Hgt.
      assert (visit i ((j - i) mod 1024) = j) as Hv by (unfold visit, NENV; zlia).
      rewrite Hv in Hmin. rewrite Hmin in Hj; [done|]. zlia.
  - by rewrite (next_runnable_none _ _ _ Hn Hr) in Hj.
Qed.

(** A search that starts at a slot that is not runnable finds what a search from
    the next slot finds. *)
Lemma next_runnable_skip E i :
  runnable_at E (visit i 0) = false →
  next_runnable E i (seqZ 0 NENV) = next_runnable E (i + 1) (seqZ 0 NENV).
Proof.
  intros Hi. unfold next_runnable. f_equal.
  change NENV with (1023 + 1) at 2. rewrite (seqZ_app 0 1023 1) by lia. change (seqZ (0 + 1023) 1) with [1023].
  unfold NENV. rewrite (seqZ_cons 0 1024), fmap_cons, filter_cons_False by (done || by rewrite Hi).
  rewrite fmap_app, filter_app. change (visit (i + 1) <$> [1023]) with [visit (i + 1) 1023].
  rewrite (filter_cons_False _ (visit (i + 1) 1023)), filter_nil, app_nil_r.
  - f_equal. change (Z.succ 0) with 1. change (Z.pred 1024) with 1023.
    change (seqZ 1 1023) with (seqZ (1 + 0) 1023). rewrite <- (fmap_add_seqZ 1 0 1023), <- list_fmap_compose. apply list_fmap_ext. intros _ k _.
    unfold visit. simpl. f_equal. lia.
  - assert (visit (i + 1) 1023 = visit i 0) as -> by (unfold visit, NENV; zlia). by rewrite Hi.
Qed.

(** Where the search starts in effect. *)
Definition search_from E (cur : option Z) : Z :=
  match cur with
  | None => 0
  | Some e => match E !! e with
              | Some x => if env_status x =? ENV_RUNNABLE then e else e + 1
              | None => e + 1
              end
  end.

Lemma search_from_start E cur :
  (∀ e, cur = Some e → 0 <= e < 1024) →
  next_runnable (preempt cur E) (start_index E cur) (seqZ 0 NENV) =
  next_runnable (preempt cur E) (search_from E cur) (seqZ 0 NENV).
Proof.
  intros Hb. destruct cur as [e|]; [|done]. specialize (Hb e eq_refl). unfold start_index, search_from, preempt.
  assert (visit e 0 = e) as He by (unfold visit, NENV; zlia).
  destruct (E !! e) as [x|] eqn:Hx.
  - destruct (Z.eqb_spec (env_status x) ENV_RUNNING) as [E1|E1]; destruct (Z.eqb_spec (env_status x) ENV_RUNNABLE) as [E2|E2];
      [by rewrite E1 in E2|done|done|].
    apply next_runnable_skip. rewrite He. unfold runnable_at. rewrite Hx. apply bool_decide_eq_false. by intros [].
  - apply next_runnable_skip. rewrite He. unfold runnable_at. by rewrite Hx.
Qed.

Lemma preempt_runnable E cur j : runnable_at E j = true → runnable_at (preempt cur E) j = true.
Proof.
  unfold runnable_at. destruct (E !! j) as [x|] eqn:Hx; [|done].
  intros [Ht Hs]%bool_decide_eq_true. unfold preempt.
  destruct cur as [e|]; [|rewrite Hx; by apply bool_decide_eq_true].
  destruct (E !! e) as [y|] eqn:He; [|rewrite Hx; by apply bool_decide_eq_true].
  destruct (Z.eqb_spec (env_status y) ENV_RUNNING) as [Hr|]; [|rewrite Hx; by apply bool_decide_eq_true].
  rewrite lookup_insert_ne; [rewrite Hx; by apply bool_decide_eq_true|].
  intros ->. simplify_eq. rewrite Hs in Hr. discriminate.
Qed.

(** The call chooses [j], or an environment after which the next search has
    fewer slots to pass before [j]. *)
Lemma chooses_closer s c j :
  sched_ready s c → runnable_at (envs s) j = true → 0 <= j < 1024 →
  chooses s j ∨ ∃ r, chooses s r ∧ distance (r + 1) j < distance (search_from (envs s) (cpu_env c)) j.
Proof.
  intros Hr Hj Hb. pose proof (sched_yield_run s c Hr) as H. cbv zeta in H. simpl in H.
  destruct (next_runnable_closer (preempt (cpu_env c) (envs s))
    (search_from (envs s) (cpu_env c)) j) as (r & Hn & Hd); [by apply preempt_runnable|done|].
  rewrite search_from_start, Hn in H by apply Hr. destruct H as (x & _ & _ & Hy).
  destruct Hd as [->|Hd]; [left; by eexists|]. right. exists r. split; [by eexists|done].
Qed.

Lemma restarts_next run n k :
  (∀ N, (length (restarts run n N) <= k)%nat) →
  (∀ N, (length (restarts run (S n) N) <= k)%nat) ∧
  (cpu_env (run (S n)).2 = None → ∃ k', k = S k' ∧ ∀ N, (length (restarts run (S n) N) <= k')%nat).
Proof.
  intros H. unfold restarts in *. split.
  - intros N. specialize (H (S N)). cbn [seq] in H. rewrite filter_cons in H.
    case_decide; cbn [length] in H; lia.
  - intros Hno. assert (∀ N, (S (length (restarts run (S n) N)) <= k)%nat) as H'.
    { intros N. specialize (H (S N)). cbn [seq] in H. by rewrite filter_cons_True in H. }
    destruct k as [|k]; [specialize (H' 0%nat); lia|]. exists k. split; [done|]. intros N. specialize (H' N). unfold restarts in H'. lia.
Qed.

Lemma chosen_within run j (k : nat) d n :
  schedule run → 0 <= j < 1024 →
  (∀ n, (∀ m, (m < n)%nat → ¬ chooses (run m).1 j) → runnable_at (envs (run n).1) j = true) →
  (∀ m, (m < n)%nat → ¬ chooses (run m).1 j) →
  (∀ N, (length (restarts run n N) <= k)%nat) → (d <= Z.to_nat 1023)%nat →
  distance (search_from (envs (run n).1) (cpu_env (run n).2)) j <= Z.of_nat d →
  ∃ m, (m <= n + d + Z.to_nat 1024 * k)%nat ∧ chooses (run m).1 j.
Proof.
  intros Hs Hj Hrun. revert d n. induction k as [k IHk] using lt_wf_ind. intros d. induction d as [|d IH];
    intros n Hno Hk Hd1 Hd;
    destruct (chooses_closer (run n).1 (run n).2 j (sd_ready _ Hs n) (Hrun n Hno) Hj) as [H|(r & H & Hlt)].
  1, 3: exists n; split; [lia|done].
  { unfold distance in *. exfalso. zlia. }
  destruct (decide (r = j)) as [->|Hne]; [exists n; split; [lia|done]|].
  assert (∀ m, (m < S n)%nat → ¬ chooses (run m).1 j) as Hno'.
  { intros m Hm [s' Hc]. destruct (decide (m = n)) as [->|]; [|apply (Hno m); [lia|by exists s']].
    destruct H as [s'' H]. rewrite H in Hc. congruence. }
  destruct (restarts_next run n k Hk) as [Hk1 Hk2]. destruct H as [s' H].
  destruct (sd_next _ Hs _ _ _ H) as [Hcur|(Hcur & x & Hx & Hst)].
  - destruct (Hk2 Hcur) as (k' & -> & Hk').
    destruct (IHk k' ltac:(lia) (Z.to_nat 1023) (S n) Hno' Hk') as (m & Hm & Hc); [lia|unfold distance; zlia|].
    exists m. split; [lia|done].
  - destruct (IH (S n) Hno' Hk1) as (m & Hm & Hc); [lia| |exists m; split; [lia|done]].
    unfold search_from at 1. rewrite Hcur, Hx, (proj2 (Z.eqb_neq _ _) Hst). lia.
Qed.

(** C18: no environment starves, as long as the CPU does not lose its environment
    again and again.  Take successive calls of sched_yield on a CPU, where each
    call finds the environment that the previous call chose either running, or
    blocked, or destroyed, and anything may have happened to the others.  If at
    most k of the calls come after a destruction, an environment that stays
    runnable until it is chosen is chosen by one of the first 1024 * (k + 1)
    calls: by one of the first 1024 when environments only run and block.  The
    bound needs k because the search restarts at slot 0 when the CPU has no
    current environment; a call made while the current environment is itself
    marked runnable, which chooses that one again, is not covered. *)
Theorem sched_no_starvation run j k :
  schedule run → 0 <= j < 1024 → (∀ N, (length (restarts run 0 N) <= k)%nat) →
  (∀ n, (∀ m, (m < n)%nat → ¬ chooses (run m).1 j) → runnable_at (envs (run n).1) j = true) →
  ∃ n, (n < Z.to_nat 1024 * (k + 1))%nat ∧ chooses (run n).1 j.
Proof.
  intros Hs Hj Hk Hrun.
  destruct (chosen_within run j k (Z.to_nat 1023) 0 Hs Hj Hrun) as (m & Hm & Hc); [lia|done|lia|unfold distance; zlia|].
  exists m. split; [lia|done].
Qed.

(** C5: sched_yield hands the CPU to the first runnable non-idle environment in
    circular order after the one that was running (starting with the CPU's current
    environment itself if that is not running, and with slot 0 if there is none),
    releasing the kernel lock; an
    environment that runs on another CPU is never chosen.  If there is none, it
    enters the monitor when no environment is left anywhere, and otherwise runs
    this CPU's idle environment, or panics if that one is neither runnable nor
    running.  It never returns. *)
Theorem sched_yield_round_robin s c :
  sched_ready s c →
  let s1 := set_envs (preempt (cpu_env c) (envs s)) s in
  match next_runnable (envs s1) (start_index (envs s) (cpu_env c)) (seqZ 0 NENV) with
  | Some r => ∃ x, envs s1 !! r = Some x ∧ eligible x ∧
      sched_yield s = Exit (UserMode r) (run_post r x c s1)
  | None => nothing_runnable s c (sched_yield s)
  end.
Proof. apply sched_yield_run. Qed.
End fairness.

(** ** Concrete instances *)

#[export] Instance has_pgdir_dec E : Decision (has_pgdir E).
Proof. unfold has_pgdir. apply _. Defined.

Lemma ex_kernel_ready : sched_ready ex_kernel (mkCpu 0 1 (Some 1) 0 0).
Proof.
  split; [unfold all_envs; by_compute|by_compute|by_compute| |vm_compute; done| |reflexivity].
  - simpl. intros e [= <-]. lia.
  - assert (default 0 (env_pgdir <$> envs ex_kernel !! this_cpu ex_kernel) = pgdir_kva 2) as H
      by by_compute.
    intros x Hx. rewrite Hx in H. simpl in H. rewrite H. vm_compute. discriminate.
Qed.

(** Environments 1 and 2 take turns: [ex_kernel], where 1 runs and 2 waits, and
    the state with the two exchanged. *)
Definition ex_turn2 : kstate :=
  set_cpus (<[0 := mkCpu 0 1 (Some 2) 0 0]> (cpus ex_kernel))
    (set_envs (alter (set_env_status ENV_RUNNABLE) 1 (alter (set_env_status ENV_RUNNING) 2 (envs ex_kernel)))
       ex_kernel).
Definition ex_turns (n : nat) : kstate * Cpu :=
  if Nat.even n then (ex_kernel, mkCpu 0 1 (Some 1) 0 0) else (ex_turn2, mkCpu 0 1 (Some 2) 0 0).

Lemma ex_turn2_ready : sched_ready ex_turn2 (mkCpu 0 1 (Some 2) 0 0).
Proof.
  split; [unfold all_envs; by_compute|by_compute|by_compute| |vm_compute; done| |reflexivity].
  - simpl. intros e [= <-]. lia.
  - assert (default 0 (env_pgdir <$> envs ex_turn2 !! this_cpu ex_turn2) = pgdir_kva 2) as H
      by by_compute.
    intros x Hx. rewrite Hx in H. simpl in H. rewrite H. vm_compute. discriminate.
Qed.

Lemma ex_chosen s c r r' s' :
  sched_ready s c →
  next_runnable (preempt (cpu_env c) (envs s)) (start_index (envs s) (cpu_env c)) (seqZ 0 NENV) = Some r →
  sched_yield s = Exit (UserMode r') s' → r' = r.
Proof.
  intros Hr Hn Hy. pose proof (sched_yield_run s c Hr) as H. cbv zeta in H. simpl in H.
  rewrite Hn in H. destruct H as (x & _ & _ & H). rewrite H in Hy. congruence.
Qed.

Lemma ex_turns_schedule : schedule ex_turns.
Proof.
  split.
  - intros n. unfold ex_turns. destruct (Nat.even n); [apply ex_kernel_ready|apply ex_turn2_ready].
  - intros n r s'. unfold ex_turns. rewrite Nat.even_succ, <- Nat.negb_even.
    destruct (Nat.even n); cbn [negb fst snd]; intros Hy.
    + assert (r = 2) as -> by (eapply ex_chosen; [apply ex_kernel_ready| |exact Hy]; by_compute).
      right. split; [reflexivity|]. exists (set_env_status ENV_RUNNING (ex_env 2)). split; [by_compute|done].
    + assert (r = 1) as -> by (eapply ex_chosen; [apply ex_turn2_ready| |exact Hy]; by_compute).
      right. split; [reflexivity|]. exists (ex_env 1). split; [by_compute|done].
Qed.

Lemma ex_turns_restarts n N : restarts ex_turns n N = [].
Proof.
  unfold restarts. revert n. induction N as [|N IH]; intros n; [done|]. cbn [seq].
  rewrite filter_cons_False; [apply IH|]. unfold ex_turns. by destruct (Nat.even (S n)).
Qed.

Lemma sched_no_starvation_witness : ∃ n, (n < Z.to_nat 1024 * (0 + 1))%nat ∧ chooses (ex_turns n).1 2.
Proof.
  apply (sched_no_starvation ex_turns 2); [apply ex_turns_schedule|lia|by intros; rewrite ex_turns_restarts|].
  intros [|n] H; [by_compute|]. exfalso. apply (H 0%nat); [lia|].
  destruct (chooses_closer ex_kernel _ 2 ex_kernel_ready) as [Hc|(r & [s' Hc] & Hd)]; [by_compute|lia|done|].
  assert (r = 2) as -> by (eapply ex_chosen; [apply ex_kernel_ready| |exact Hc]; by_compute).
  by exists s'.
Defined.

Lemma sched_yield_round_robin_witness :
  ∃ x, preempt (Some 1) (envs ex_kernel) !! 2 = Some x ∧ eligible x ∧
    sched_yield ex_kernel = Exit (UserMode 2)
      (run_post 2 x (mkCpu 0 1 (Some 1) 0 0) (set_envs (preempt (Some 1) (envs ex_kernel)) ex_kernel)).
Proof.
  pose proof (sched_yield_round_robin ex_kernel _ ex_kernel_ready) as H.
  assert (next_runnable (preempt (Some 1) (envs ex_kernel))
    (start_index (envs ex_kernel) (Some 1)) (seqZ 0 NENV) = Some 2) as E by by_compute.
  cbv zeta in H. change (envs (set_envs ?E _)) with E in H. 
  change (cpu_env (mkCpu 0 1 (Some 1) 0 0)) with (Some 1) in H. rewrite E in H. exact H.
Defined.
