(* ===== verification/Kprintf.v ===== *)
(** * Kernel output: kern/printf.c

    [cprintf] formats with [vprintfmt] and prints on the console; pointers to
    strings are dereferenced by the kernel, through the page tables in use. *)

From S2P Require Import Prelude Devices Console Strings Printfmt Machine Spinlock PageAlloc Pmap Env.
From stdpp Require Import base numbers list gmap fin_maps strings.

Local Open Scope Z_scope.

(** [*cnt++] advances the pointer, which is a local variable, and leaves the
    counter alone. *)
Definition putch (ch : Z) : M unit := dev_op (cputchar ch).

(** The counter, still 0. *)
Definition vcprintf (sfuel : nat) (fmt : list Z) (ap : list arg) : M Z :=
  vprintfmt putch vrd8 KernelFault NoFuel sfuel fmt ap ;; mret 0.

Definition cprintf (sfuel : nat) (fmt : list Z) (ap : list arg) : M Z := vcprintf sfuel fmt ap.

#[global] Arguments putch : simpl never.

Section output.
Implicit Types s : kstate.

(** The cursor is on the screen. *)
Definition screen_ok s : Prop := 0 <= crt_pos (dev s) < CRT_SIZE.

Lemma putch_run c s :
  screen_ok s → ∃ d, putch c s = Done tt (set_dev d s) ∧ 0 <= crt_pos d < CRT_SIZE.
Proof.
  intros Hs. unfold putch, dev_op, cputchar.
  destruct (cons_putc_run c (dev s) Hs) as (d & -> & Hd & _). by exists d.
Qed.

Lemma vrd8_Done va pa s : mmu s va false = Some pa → vrd8 va s = Done (mget (mem s) pa) s.
Proof. intros H. unfold vrd8. by rewrite run_get, H. Qed.
Lemma vrd8_Exit va s : mmu s va false = None → vrd8 va s = Exit KernelFault s.
Proof. intros H. unfold vrd8. by rewrite run_get, H. Qed.

Lemma vrd8_dev d va s a s' : vrd8 va s = Done a s' → vrd8 va (set_dev d s) = Done a (set_dev d s').
Proof.
  unfold vrd8. rewrite !run_get. unfold mmu. simpl.
  change (pde_of (set_dev d s)) with (pde_of s). change (pte_of (set_dev d s)) with (pte_of s).
  case_match; [|done]. by intros [= <- <-].
Qed.
Lemma vrd8_dev_fault d va s ex s' :
  vrd8 va s = Exit ex s' → vrd8 va (set_dev d s) = Exit ex (set_dev d s').
Proof.
  unfold vrd8. rewrite !run_get. unfold mmu. simpl.
  change (pde_of (set_dev d s)) with (pde_of s). change (pte_of (set_dev d s)) with (pte_of s).
  case_match; [done|]. by intros [= <- <-].
Qed.

(** A string whose characters can be read but not the byte after them: the loop
    reads that byte before it looks at the precision. *)
Lemma str_put_fault n a w s d :
  0 <= a → a + Z.of_nat n < 4294967296 → 0 <= crt_pos d < CRT_SIZE →
  (∀ i, 0 <= i < Z.of_nat n → ∃ c, vrd8 (a + i) s = Done c s ∧ 0 < c < 256) →
  vrd8 (a + Z.of_nat n) s = Exit KernelFault s →
  ∃ s', str_put putch vrd8 NoFuel (S n) (Word a) (Z.of_nat n) w false (set_dev d s) =
    Exit KernelFault s'.
Proof.
  revert a w d. induction n as [|n IH]; intros a w d Ha Hb Hd Hc Hf;
    rewrite str_put_S; cbn [str_char].
  { rewrite run_assoc. rewrite Z.add_0_r in Hf. eexists.
    by rewrite (bind_Exit _ _ _ _ _ (vrd8_dev_fault d _ _ _ _ Hf)). }
  destruct (Hc 0) as (c & Hr & Hcr); [lia|]. rewrite Z.add_0_r in Hr.
  rewrite run_assoc, (bind_Done _ _ _ _ _ (vrd8_dev d _ _ _ _ Hr)), run_ret.
  rewrite s8_zero, (proj2 (Z.eqb_neq c 0)) by lia.
  rewrite (proj2 (Z.ltb_ge (Z.of_nat (S n)) 0)), (proj2 (Z.ltb_ge (Z.of_nat (S n) - 1) 0)) by lia.
  cbn [negb andb]. destruct (putch_run (s8 c) (set_dev d s)) as (d' & Hp & Hd'); [done|].
  rewrite (bind_Done _ _ _ _ _ Hp). cbn [str_next]. rewrite next_id by lia.
  replace (Z.of_nat (S n) - 1) with (Z.of_nat n) by lia.
  apply (IH (a + 1) (w - 1) d'); [lia|lia|done| |].
  - intros i Hi. replace (a + 1 + i) with (a + (i + 1)) by lia. apply Hc. lia.
  - replace (a + 1 + Z.of_nat n) with (a + Z.of_nat (S n)) by lia. done.
Qed.

(** Whatever is printed, the result is 0, and nothing but the devices changes. *)
Lemma cprintf_prints str sfuel fmt ap out s :
  screen_ok s → (∀ a c, str a = Some c → vrd8 a s = Done c s) →
  printed str sfuel fmt ap = Some out →
  ∃ d, cprintf sfuel fmt ap s = Done 0 (set_dev d s) ∧ 0 <= crt_pos d < CRT_SIZE ∧
    for_each out putch s = Done tt (set_dev d s).
Proof.
  intros Hs Hrd Hout. unfold cprintf, vcprintf.
  pose (I := λ s', ∃ d, s' = set_dev d s ∧ 0 <= crt_pos d < CRT_SIZE).
  destruct (vprintfmt_prints putch vrd8 KernelFault NoFuel sfuel I str) with
    (fmt := fmt) (ap := ap) (out := out) (s := s) as (s' & H1 & H2 & d & -> & Hd); [| |done| |].
  - intros c s' (d & -> & Hd). destruct (putch_run c (set_dev d s)) as (d' & Hp & Hd'); [done|].
    exists (set_dev d' s). split; [exact Hp|]. by exists d'.
  - intros a c s' (d & -> & Hd) Ha. by apply (vrd8_dev d), Hrd.
  - exists (dev s). split; [by destruct s|done].
  - exists d. rewrite (bind_Done _ _ _ _ _ H1). done.
Qed.

(** However it ends, printing changes nothing but the devices. *)
Definition only_dev s s' : Prop := ∃ d, s' = set_dev d s.
#[export] Instance only_dev_preorder : PreOrder only_dev.
Proof.
  split; [intros s; exists (dev s); by destruct s|]. intros s1 s2 s3 [d ->] [d' ->]. by exists d'.
Qed.

Lemma within_dev_op {A} (m : DM A) : within only_dev (dev_op m).
Proof. intros s. unfold dev_op. destruct (m (dev s)) as [|[]]; by eexists. Qed.
Lemma within_vrd8 R `{!PreOrder R} va : within R (vrd8 va).
Proof. unfold vrd8. within_tac. Qed.

Lemma within_cprintf sfuel fmt ap : within only_dev (cprintf sfuel fmt ap).
Proof.
  unfold cprintf, vcprintf. apply (within_bind _); [|intros; within_tac].
  apply (within_vprintfmt _ _ _ _ _ _); [intros; apply within_dev_op|intros; apply (within_vrd8 _)].
Qed.
End output.
