(* ===== verification/Syscall.v ===== *)
(** * System calls: kern/syscall.c

    One definition per system call, with its guards in the order of the code, and
    the dispatcher.  The messages that report errors are not modelled; the output
    of [sys_cputs] is. *)

From S2P Require Import Prelude Devices Console Strings Printfmt Machine Spinlock PageAlloc Pmap.
From S2P Require Import UserMem Env Sched Kprintf.
From stdpp Require Import base numbers list gmap fin_maps strings.

Local Open Scope Z_scope.

(** inc/syscall.h *)
Definition SYS_cputs : Z := 0.
Definition SYS_cgetc : Z := 1.
Definition SYS_getenvid : Z := 2.
Definition SYS_env_destroy : Z := 3.
Definition SYS_page_alloc : Z := 4.
Definition SYS_page_map : Z := 5.
Definition SYS_page_unmap : Z := 6.
Definition SYS_exofork : Z := 7.
Definition SYS_env_set_status : Z := 8.
Definition SYS_env_set_pgfault_upcall : Z := 9.
Definition SYS_yield : Z := 10.
Definition SYS_ipc_try_send : Z := 11.
Definition SYS_ipc_recv : Z := 12.

(** The current environment, dereferenced. *)
Definition curenv_ptr : M Z := c ← curenv; deref c.

(** A string of [len] characters needs [len + 1] reads; a negative precision
    prints up to the terminator. *)
Definition cputs_fuel (len : Z) : nat :=
  if s32 len <? 0 then Z.to_nat 4294967296 else S (Z.to_nat len).

Definition sys_cputs (s len : Z) : M unit :=
  e ← curenv_ptr;
  user_mem_assert e s len (Z.lor PTE_U PTE_P) ;;
  cprintf (cputs_fuel len) (bytes_of "%.*s") [Word len; Word s] ;;
  mret tt.

Definition sys_cgetc : M Z := dev_op cons_getc.

Definition sys_getenvid : M Z := e ← curenv_ptr; x ← get_env e; mret (env_id x).

Definition sys_env_destroy (envid : Z) : M Z :=
  '(r, e) ← envid2env envid None true;
  if r <? 0 then mret r else
  e ← deref e;
  env_destroy e ;;
  mret 0.

Definition sys_yield : M unit := sched_yield.

Definition check_addr_scale (val min max : Z) : Z :=
  if (min <=? val) && (val <? max) && (PGOFF val =? 0) then 0 else - E_INVAL.

Definition sys_exofork : M Z :=
  cur ← curenv_ptr;
  x ← get_env cur;
  '(ret_value, child_env) ← env_alloc (env_id x);
  if negb (ret_value =? 0) then mret ret_value else
  child ← deref child_env;
  cur ← curenv_ptr;
  x ← get_env cur;
  upd_env (set_env_tf (env_tf x)) child ;;
  upd_env (set_env_status ENV_NOT_RUNNABLE) child ;;
  upd_env (λ e, set_env_tf (set_tf_regs (set_reg_eax 0 (tf_regs (env_tf e))) (env_tf e)) e) child ;;
  y ← get_env child;
  x ← get_env cur;
  if env_id y =? env_id x then mret 0 else mret (env_id y).

Definition sys_env_set_status (envid status : Z) : M Z :=
  '(r, e) ← envid2env envid None true;
  if negb (r =? 0) then mret (- E_BAD_ENV) else
  e ← deref e;
  x ← get_env e;
  if negb (env_status x =? ENV_RUNNABLE) && negb (env_status x =? ENV_NOT_RUNNABLE)
  then mret (- E_INVAL) else
  upd_env (set_env_status (u32 status)) e ;;
  mret 0.

Definition sys_env_set_pgfault_upcall (envid func : Z) : M Z :=
  '(r, e) ← envid2env envid None true;
  if negb (r =? 0) then mret (- E_BAD_ENV) else
  e ← deref e;
  upd_env (set_env_pgfault_upcall func) e ;;
  mret 0.

Definition sys_page_alloc (envid va perm : Z) : M Z :=
  '(r, e) ← envid2env envid None true;
  if negb (r =? 0) then mret (- E_BAD_ENV) else
  if (UTOP <=? va) || negb (Z.land perm (Z.lnot PTE_SYSCALL) =? 0) then mret (- E_INVAL) else
  page_need ← page_alloc ALLOC_ZERO;
  match page_need with
  | None => mret (- E_NO_MEM)
  | Some pp =>
      e ← deref e;
      x ← get_env e;
      r ← page_insert (env_pgdir x) (Some pp) va perm;
      if negb (r =? 0) then page_free (Some pp) ;; mret (- E_NO_MEM) else mret 0
  end.

Definition sys_page_map (srcenvid srcva dstenvid dstva perm : Z) : M Z :=
  '(r, src_e) ← envid2env srcenvid None true;
  '(r, dst_e) ← (if negb (r =? 0) then mret (r, None) else envid2env dstenvid None false);
  if negb (r =? 0) then mret (- E_BAD_ENV) else
  if negb (check_addr_scale srcva 0 UTOP =? 0) || negb (check_addr_scale dstva 0 UTOP =? 0) ||
     negb (PGOFF srcva =? 0) || negb (PGOFF dstva =? 0)
  then mret (- E_INVAL) else
  src_e ← deref src_e;
  x ← get_env src_e;
  src ← page_lookup (env_pgdir x) srcva;
  match src with
  | None => mret (- E_INVAL)
  | Some (src_page, src_pte) =>
      pte ← rd32 src_pte;
      if negb (has PTE_W pte) && has PTE_W perm then mret (- E_INVAL) else
      dst_e ← deref dst_e;
      y ← get_env dst_e;
      page_insert (env_pgdir y) (Some src_page) dstva perm
  end.

Definition sys_page_unmap (envid va : Z) : M Z :=
  '(r, e) ← envid2env envid None true;
  if negb (r =? 0) then mret (- E_BAD_ENV) else
  if negb (check_addr_scale va 0 UTOP =? 0) then mret (- E_INVAL) else
  e ← deref e;
  x ← get_env e;
  page_remove (env_pgdir x) va ;;
  mret 0.

(** The checks of the sender's page: the error to return, or none. *)
Definition ipc_check_src (srcva perm : Z) : M (option Z) :=
  if (UTOP <=? srcva) || negb (srcva mod PGSIZE =? 0) then mret (Some (- E_INVAL)) else
  if negb (Z.land perm (Z.lnot PTE_SYSCALL) =? 0) then mret (Some (- E_INVAL)) else
  cur ← curenv_ptr;
  x ← get_env cur;
  src ← page_lookup (env_pgdir x) srcva;
  match src with
  | None => mret (Some (- E_INVAL))
  | Some (_, src_pte_store) =>
      pte ← rd32 src_pte_store;
      if negb (has PTE_W pte) && has PTE_W perm then mret (Some (- E_INVAL)) else mret None
  end.

(** The transfer of the page: the error to return, or none. *)
Definition ipc_transfer (envid uenv srcva perm : Z) : M (option Z) :=
  y ← get_env uenv;
  if (srcva =? IPC_NO_PAGE) || (env_ipc_dstva y =? IPC_NO_PAGE) then mret None else
  old ← page_lookup (env_pgdir y) (env_ipc_dstva y);
  match old with
  | Some _ => mret (Some (- E_NO_MEM))
  | None =>
      cur ← curenv_ptr;
      x ← get_env cur;
      sys_page_map (env_id x) srcva envid (env_ipc_dstva y) (s32 perm) ;;
      y ← get_env uenv;
      new ← page_lookup (env_pgdir y) (env_ipc_dstva y);
      match new with
      | None => panic "!!! sys_try_send: error map mapge!!!"
      | Some _ => upd_env (set_env_ipc_perm perm) uenv ;; mret None
      end
  end.

Definition sys_ipc_try_send (envid value srcva perm : Z) : M Z :=
  '(r, uenv) ← envid2env envid None false;
  if r <? 0 then mret (- E_BAD_ENV) else
  uenv ← deref uenv;
  y ← get_env uenv;
  if negb (env_ipc_recving y) then mret (- E_IPC_NOT_RECV) else
  err ← (if srcva =? IPC_NO_PAGE then mret None else ipc_check_src srcva perm);
  match err with
  | Some err => mret err
  | None =>
      upd_env (set_env_ipc_perm 0) uenv ;;
      err ← ipc_transfer envid uenv srcva perm;
      match err with
      | Some err => mret err
      | None =>
          cur ← curenv_ptr;
          x ← get_env cur;
          upd_env (set_env_ipc_from (env_id x)) uenv ;;
          upd_env (set_env_ipc_value value) uenv ;;
          upd_env (λ e, set_env_tf (set_tf_regs (set_reg_eax 0 (tf_regs (env_tf e))) (env_tf e)) e)
            uenv ;;
          upd_env (set_env_ipc_recving false) uenv ;;
          upd_env (set_env_status ENV_RUNNABLE) uenv ;;
          mret 0
      end
  end.

(** [sched_yield] does not return, so the loop has one iteration. *)
Definition sys_ipc_recv (dstva : Z) : M Z :=
  if negb (dstva =? IPC_NO_PAGE) && ((UTOP <=? dstva) || negb (s32 dstva mod PGSIZE =? 0))
  then mret (- E_INVAL) else
  cur ← curenv_ptr;
  upd_env (set_env_ipc_recving true) cur ;;
  upd_env (set_env_ipc_dstva dstva) cur ;;
  upd_env (set_env_status ENV_NOT_RUNNABLE) cur ;;
  loop 2 NoFuel (λ _ : unit,
    cur ← curenv_ptr;
    x ← get_env cur;
    if env_ipc_recving x then sys_yield ;; mret (inl tt) else mret (inr 0)) tt.

Definition syscall (syscallno a1 a2 a3 a4 a5 : Z) : M Z :=
  if syscallno =? SYS_cputs then sys_cputs a1 a2 ;; mret 0
  else if syscallno =? SYS_cgetc then sys_cgetc
  else if syscallno =? SYS_getenvid then sys_getenvid
  else if syscallno =? SYS_env_destroy then sys_env_destroy (s32 a1)
  else if syscallno =? SYS_yield then sys_yield ;; mret 0
  else if syscallno =? SYS_exofork then sys_exofork
  else if syscallno =? SYS_page_alloc then sys_page_alloc (s32 a1) a2 (s32 a3)
  else if syscallno =? SYS_page_map then sys_page_map (s32 a1) a2 (s32 a3) a4 (s32 a5)
  else if syscallno =? SYS_page_unmap then sys_page_unmap (s32 a1) a2
  else if syscallno =? SYS_env_set_status then sys_env_set_status (s32 a1) (s32 a2)
  else if syscallno =? SYS_env_set_pgfault_upcall then sys_env_set_pgfault_upcall (s32 a1) a2
  else if syscallno =? SYS_ipc_try_send then sys_ipc_try_send (s32 a1) a2 a3 a4
  else if syscallno =? SYS_ipc_recv then sys_ipc_recv a1
  else mret (- E_INVAL).

#[global] Arguments sys_page_map : simpl never.
#[global] Arguments ipc_check_src : simpl never.
#[global] Arguments ipc_transfer : simpl never.

(** ** The caller and the environments it names *)

Section names.
Implicit Types (s : kstate) (c : Cpu) (x y : Env) (e cur envid : Z).

(** A system call of environment [cur], described by [x]. *)
Record in_call s c cur x : Prop := {
  ic_cpu : cpus s !! this_cpu s = Some c;
  ic_cur : cpu_env c = Some cur;
  ic_env : envs s !! cur = Some x;
  ic_all : all_envs (envs s);
}.

(** The environment that [envid] names for [cur], with the permission check. *)
Definition resolve s cur envid (checkperm : bool) : option Z :=
  if envid <? 0 then None else
  if envid =? 0 then Some cur else
  x ← envs s !! ENVX envid;
  if (env_status x =? ENV_FREE) || negb (env_id x =? envid) then None else
  if checkperm && negb (bool_decide (Some cur = Some (ENVX envid))) then
    y ← envs s !! cur; if env_parent_id x =? env_id y then Some (ENVX envid) else None
  else Some (ENVX envid).

Lemma in_call_ok s c cur x : in_call s c cur x → cpu_ok s.
Proof. intros []. unfold cpu_ok. by rewrite ic_cpu0, ic_cur0, ic_env0. Qed.

Lemma run_curenv_ptr {A} s c cur x (k : Z → M A) :
  in_call s c cur x → (curenv_ptr ≫= k) s = k cur s.
Proof.
  intros []. unfold curenv_ptr. rewrite run_assoc, (run_curenv c) by done.
  rewrite ic_cur0. done.
Qed.

Lemma envid2env_resolve s c cur x envid checkperm :
  in_call s c cur x →
  envid2env envid None checkperm s =
    Done (match resolve s cur envid checkperm with
          | Some e => (0, Some e) | None => (- E_BAD_ENV, None) end) s.
Proof.
  intros [Hc Hcur Hx Hall]. unfold envid2env, resolve.
  destruct (envid <? 0); [done|]. destruct (envid =? 0).
  { rewrite (run_curenv c) by done. by rewrite Hcur. }
  assert (0 <= ENVX envid < 1024) as Hr by (rewrite ENVX_mod; zlia).
  destruct (Hall _ Hr) as [y Hy]. rewrite Hy. rewrite (run_get_env _ y) by done.
  cbn [mbind option_bind]. destruct ((env_status y =? ENV_FREE) || _); [done|].
  rewrite (run_curenv c) by done. rewrite Hcur.
  destruct (checkperm && _); [|done]. simpl. rewrite run_ret, (run_get_env _ x) by done.
  rewrite Hx. cbn [mbind option_bind]. by destruct (env_parent_id y =? env_id x).
Qed.

Lemma resolve_present s c cur x envid checkperm e :
  in_call s c cur x → resolve s cur envid checkperm = Some e → ∃ y, envs s !! e = Some y.
Proof.
  intros [Hc Hcur Hx Hall]. unfold resolve.
  destruct (envid <? 0); [done|]. destruct (envid =? 0); [by intros [= <-]; eauto|].
  destruct (envs s !! ENVX envid) as [y|] eqn:Hy; [|done]. cbn [mbind option_bind].
  destruct ((env_status y =? ENV_FREE) || _); [done|].
  destruct (checkperm && _); [|by intros [= <-]; eauto].
  rewrite Hx. cbn [mbind option_bind]. destruct (env_parent_id y =? env_id x); [|done].
  intros [= <-]; eauto.
Qed.

Lemma sys_env_set_status_run s c cur x envid status :
  in_call s c cur x →
  match resolve s cur envid true with
  | None => sys_env_set_status envid status s = Done (- E_BAD_ENV) s
  | Some e => ∃ y, envs s !! e = Some y ∧ sys_env_set_status envid status s =
      if bool_decide (env_status y ∈ [ENV_RUNNABLE; ENV_NOT_RUNNABLE])
      then Done 0 (set_envs (<[e := set_env_status (u32 status) y]> (envs s)) s)
      else Done (- E_INVAL) s
  end.
Proof.
  intros Hic. unfold sys_env_set_status.
  rewrite (bind_Done _ _ _ _ _ (envid2env_resolve s c cur x envid true Hic)).
  destruct (resolve s cur envid true) as [e|] eqn:Er; [|done].
  destruct (resolve_present _ _ _ _ _ _ _ Hic Er) as [y Hy]. exists y. split; [done|].
  change (negb (0 =? 0)) with false. cbv iota. simpl. rewrite run_ret, (run_get_env _ y) by done.
  destruct (Z.eqb_spec (env_status y) ENV_RUNNABLE) as [E1|E1];
    [|destruct (Z.eqb_spec (env_status y) ENV_NOT_RUNNABLE) as [E2|E2]]; simpl.
  - rewrite (run_upd_env _ _ y) by done. rewrite bool_decide_true; [done|set_solver].
  - rewrite (run_upd_env _ _ y) by done. rewrite bool_decide_true; [done|set_solver].
  - rewrite bool_decide_false; [done|set_solver].
Qed.

(** A slot marked free without being put on the free list breaks the table. *)
Lemma freed_off_list s efl e y :
  envs_wf s efl → envs s !! e = Some y → env_status y ≠ ENV_FREE →
  ∀ efl', ¬ envs_wf (set_envs (<[e := set_env_status ENV_FREE y]> (envs s)) s) efl'.
Proof.
  intros Hw Hy Hst efl' Hw'.
  assert (e ∉ efl) as He. { intros He. apply Hst. by apply (ew_env _ _ Hw _ _ Hy). }
  assert (efl' = efl) as ->.
  { eapply chain_fun; [apply Hw'|]. simpl. eapply chain_frame; [|apply Hw].
    intros q Hq. unfold next_env. simpl. rewrite lookup_insert_ne; [done|by intros <-]. }
  apply He. apply (ew_env _ _ Hw' e (set_env_status ENV_FREE y)); [|done].
  simpl. apply lookup_insert_eq.
Qed.
End names.

(** ** [sys_exofork] *)

Section exofork.
Implicit Types (s : kstate) (c : Cpu) (x y : Env) (fl efl : list Z) (e cur q kd : Z).

(** The registers of a child that sees [sys_exofork] return 0. *)
Definition child_tf x : Trapframe :=
  set_tf_regs (set_reg_eax 0 (tf_regs (env_tf x))) (env_tf x).

(** The child, from the environment that [env_alloc] made. *)
Definition child_of x y : Env := set_env_tf (child_tf x) (set_env_status ENV_NOT_RUNNABLE y).

Lemma exofork_body s0 c cur x e y id :
  in_call s0 c cur x → envs s0 !! e = Some y → e ≠ cur → env_id y = id → id ≠ env_id x →
  (cur ← curenv_ptr;
   x ← get_env cur;
   upd_env (set_env_tf (env_tf x)) e ;;
   upd_env (set_env_status ENV_NOT_RUNNABLE) e ;;
   upd_env (λ v, set_env_tf (set_tf_regs (set_reg_eax 0 (tf_regs (env_tf v))) (env_tf v)) v) e ;;
   y ← get_env e;
   x ← get_env cur;
   if env_id y =? env_id x then mret 0 else mret (env_id y)) s0 =
  Done id (set_envs (<[e := child_of x y]> (envs s0)) s0).
Proof.
  intros Hic Hy Hne Hid Hids. rewrite (run_curenv_ptr s0 c cur x) by done.
  rewrite (run_get_env _ x) by apply Hic. rewrite (run_upd_env _ _ y) by done.
  do 2 erewrite run_upd_env by (simpl; apply lookup_insert_eq).
  erewrite run_get_env by (simpl; apply lookup_insert_eq).
  rewrite (run_get_env _ x) by (simpl; rewrite !lookup_insert_ne by done; apply Hic).
  simpl. rewrite Hid, (proj2 (Z.eqb_neq id (env_id x))) by done.
  apply ret_state, kstate_eq; simpl; try reflexivity. by rewrite !insert_insert_eq.
Qed.

Lemma sys_exofork_run s c cur x fl efl kd e q :
  in_call s c cur x → env_status x ≠ ENV_FREE → pages_wf s (q :: fl) → envs_wf s (e :: efl) →
  kern_pgdir s = pgdir_kva kd → pd_wf s (q :: fl) kd →
  ∃ y z s', envs s !! e = Some z ∧ y = child_of x (new_env e z (env_id x) q) ∧
    sys_exofork s = Done (env_id y) s' ∧ envs s' = <[e := y]> (envs s) ∧
    envs_wf s' efl ∧ pages_wf s' fl ∧ pd_wf s' fl q ∧
    (∀ va, PDX va ≠ self_index → pte_of s' q va = pte_of s kd va).
Proof.
  intros Hic Hst Hw He Hk Hd. pose proof (ew_in_range _ _ e He ltac:(set_solver)) as Her.
  destruct (ew_total _ _ He e Her) as [z Hz].
  destruct (ew_env _ _ He _ _ Hz) as (_ & Hid & _).
  destruct (new_env_id_facts (env_id z) e Hid Her) as (Hi1 & Hi2 & Hi3).
  destruct (env_alloc_run s efl fl e q kd z (env_id x) He Hz Hw Hk) as (p & Hp & Ha & Hrun).
  pose proof (setup_post_ready s fl e q kd z p Hw Hd Hp Ha) as [V1 V2 V3 _ _ _ _ _ _ _ _ _].
  assert (e ≠ cur) as Hne.
  { intros ->. apply Hst. apply (ew_env _ _ He cur x); [apply Hic|set_solver]. }
  destruct (ew_env _ _ He _ _ (ic_env _ _ _ _ Hic)) as (Hcr & _ & Hidx & _).
  assert (env_id (new_env e z (env_id x) q) ≠ env_id x) as Hids.
  { simpl. intros Heq. destruct Hidx as [H0|H0]; rewrite <- Heq in H0; [lia|congruence]. }
  assert (cpus (setup_post e q kd z p s) = cpus s ∧ this_cpu (setup_post e q kd z p s) = this_cpu s)
    as [Hcp Hth] by done.
  unfold env_alloc_post in Hrun. revert Hrun V1 V2 V3 Hcp Hth.
  generalize (setup_post e q kd z p s). intros s0 Hrun V1 V2 V3 Hcp Hth.
  eexists _, z, _. split; [exact Hz|]. split; [reflexivity|]. split.
  { unfold sys_exofork. rewrite (run_curenv_ptr s c cur x), (run_get_env _ x) by apply Hic || done.
    rewrite (bind_Done _ _ _ _ _ Hrun). change (negb (0 =? 0)) with false. cbv iota.
    simpl. rewrite run_ret.
    apply (exofork_body _ c cur x e (new_env e z (env_id x) q)); [|simpl; apply lookup_insert_eq|done..].
    destruct Hic as [I1 I2 I3 I4]. split; simpl; [congruence|done| |].
    - by rewrite lookup_insert_ne.
    - intros i Hi. destruct (decide (i = e)) as [->|]; simplify_map_eq; [done|]. by apply I4. }
  split; [simpl; by rewrite insert_insert_eq|].
  split; [|split; [by apply (pages_wf_ext s0)|split; [by apply (pd_wf_update s0 _ fl fl)|exact V3]]].
  eapply (envs_wf_update (set_env_free_list (env_link z)
    (set_envs (<[e := new_env e z (env_id x) q]> (envs s)) s0)) _ efl e
    (child_of x (new_env e z (env_id x) q))); [by eapply env_alloc_envs_wf|done| |simpl; lia
    |by right|done|reflexivity|reflexivity].
  by pose proof (ew_nodup _ _ He) as [? _]%NoDup_cons.
Qed.
End exofork.

(** ** [sys_page_alloc] *)

Section page_alloc.
Implicit Types (s : kstate) (c : Cpu) (x y : Env) (p : Page) (fl : list Z) (e cur q pd va : Z).

(** A directory whose entry for [va] is clear or maps an ordinary page; page 0 is
    never free. *)
Record space_ok s fl pd va : Prop := {
  so_pd : pd_wf s fl pd;
  so_old : ∀ q, mapped s pd va = Some q → leaf_ok s fl pd q;
  so_clear : mapped s pd va = None → pte_of s pd va = 0;
  so_zero : 0 ∉ fl;
}.

(** Taking a page from the free list leaves the directory as it was. *)
Lemma alloc_tables s fl pd q p :
  pages_wf s (q :: fl) → pd_wf s (q :: fl) pd → paddr p = q * 4096 →
  let s1 := alloc_post ALLOC_ZERO q p s in
  (∀ j, j ≠ q → page_same j (mem s) (mem s1)) ∧
  (∀ i, 0 <= i < 1024 → pt_of s1 pd i = pt_of s pd i) ∧
  (∀ va, PDX va ≠ self_index → pte_of s1 pd va = pte_of s pd va) ∧
  pd_wf s1 fl pd ∧ leaf_ok s1 fl pd q.
Proof.
  intros Hw Hd Hp s1. destruct (pd_dir _ _ _ Hd) as [Hr [Hne Hnf]%not_elem_of_cons].
  assert (∀ j, j ≠ q → page_same j (mem s) (mem s1)) as Hm.
  { intros j Hj. unfold s1, alloc_post. simpl. rewrite Hp. by apply fill_page_same. }
  assert (∀ i, 0 <= i < 1024 → pt_of s1 pd i = pt_of s pd i) as Ht.
  { intros i Hi. apply pt_frame; [|done]. by apply Hm. }
  split_and!; [done..| | |].
  - intros va Hs. apply pte_frame; [apply Ht, PDX_range|]. intros t Hpt. apply Hm.
    destruct (pd_table _ _ _ Hd _ (PDX_range va) t Hs Hpt) as (_ & [? _]%not_elem_of_cons & _). done.
  - eapply pd_wf_update; [done|done| |by constructor]. intros. by apply Ht.
  - pose proof (pw_in_range _ _ q Hw ltac:(set_solver)).
    pose proof (pw_nodup _ _ Hw) as [? _]%NoDup_cons. do 2 (split; [assumption|]). split; [congruence|].
    intros i Hi Hs Hq. rewrite Ht in Hq by done.
    destruct (pd_table _ _ _ Hd i Hi q Hs Hq) as (_ & ? & _). set_solver.
Qed.

(** What a successful call leaves: page [q], zeroed, mapped once, at [va]. *)
Record page_allocated s s' fl' pd va q perm : Prop := {
  pa_pages : pages_wf s' fl';
  pa_pd : pd_wf s' fl' pd;
  pa_pte : pte_of s' pd va = Z.lor (Z.lor (page2pa q) perm) PTE_P;
  pa_zero : ∀ a, q * 4096 <= a < (q + 1) * 4096 → mget (mem s') a = 0;
  pa_ref : pp_ref <$> pages s' !! q = Some 1;
  pa_other : ∀ va', 0 <= va' < 4294967296 → PDX va' ≠ self_index → PGNUM va' ≠ PGNUM va →
    pte_of s' pd va' = pte_of s pd va';
  pa_envs : envs s' = envs s;
}.

Lemma syscall_perm_range perm : Z.land perm (Z.lnot PTE_SYSCALL) = 0 → 0 <= perm < 4096.
Proof.
  intros H. rewrite <- Z.ldiff_land in H. pose proof (Z.lor_ldiff_and perm PTE_SYSCALL) as E.
  rewrite H, Z.lor_0_l in E. rewrite <- E.
  change PTE_SYSCALL with (Z.land 0xE07 (Z.ones 12)).
  rewrite Z.land_assoc, Z.land_ones by lia. apply Z.mod_pos_bound. lia.
Qed.

Lemma UTOP_self va : 0 <= va < UTOP → PDX va ≠ self_index.
Proof.
  intros H. unfold self_index, PDX. rewrite !Z.shiftr_div_pow2, !land_3ff by (unfold PDXSHIFT; lia).
  unfold UTOP, UENVS, UPAGES, UVPT, ULIM, KSTACKTOP, KERNBASE, PTSIZE, PGSIZE, NPTENTRIES, PDXSHIFT in *.
  zlia.
Qed.

Lemma alloc_insertable s fl pd va q p :
  pages_wf s (q :: fl) → space_ok s (q :: fl) pd va → cpu_ok s → 0 <= va < UTOP →
  pages s !! q = Some p → paddr p = q * 4096 →
  let s1 := alloc_post ALLOC_ZERO q p s in
  insertable s1 fl pd va q (mkPage None (paddr p) 0) ∧ mapped s1 pd va = mapped s pd va ∧
  mapped s pd va ≠ Some q.
Proof.
  intros Hw [Hd Hold Hclear Hz] Hok Hva Hq Hp s1. pose proof (UTOP_self va Hva) as Hs.
  destruct (alloc_tables s fl pd q p Hw Hd Hp) as (Hm & Ht & Hpte & Hd1 & Hl).
  assert (mapped s1 pd va = mapped s pd va) as Hmap by (unfold mapped; by rewrite Hpte).
  assert (mapped s pd va ≠ Some q) as Hnq.
  { intros (_ & Hf & _)%Hold. apply Hf. left. }
  split; [|split; assumption]. split; [| |done| |done| |].
  - eapply cpu_ok_frame; [apply vm_frame_alloc|done].
  - change UTOP with 4005560320 in Hva. lia.
  - unfold s1, alloc_post. simpl. apply lookup_insert_eq.
  - rewrite Hmap. intros q' Hq'. destruct (Hold q' Hq') as (? & ? & ? & Hnt).
    split; [assumption|split; [intros ?; by apply H0; right|split; [assumption|]]]. intros i Hi Hsi. rewrite Ht by done. by apply Hnt.
  - rewrite Hpte, Hmap by done. intros Heq. unfold mapped in *.
    destruct (has PTE_P (pte_of s pd va)); [congruence|]. rewrite Hclear in Heq by done.
    change (PGNUM 0) with 0 in Heq. exfalso. apply Hz. rewrite Heq. left.
Qed.

Lemma sys_page_alloc_run s c cur x fl pd e y envid va perm q p :
  in_call s c cur x → resolve s cur envid true = Some e → envs s !! e = Some y →
  env_pgdir y = pgdir_kva pd → pages_wf s (q :: fl) → space_ok s (q :: fl) pd va →
  0 <= va < UTOP → Z.land perm (Z.lnot PTE_SYSCALL) = 0 → 0 <= perm < 4096 →
  pages s !! q = Some p →
  (∃ s', pt_of s pd (PDX va) = None ∧ fl = [] ∧
     sys_page_alloc envid va perm s = Done (- E_NO_MEM) s' ∧ pages_wf s' [q] ∧ envs s' = envs s ∧
     ∀ j, j ≠ q → page_same j (mem s) (mem s')) ∨
  (∃ s' fl', sys_page_alloc envid va perm s = Done 0 s' ∧ page_allocated s s' fl' pd va q perm).
Proof.
  intros Hic Her Hy Hdir Hw Hsp Hva Hperm Hr Hq. pose proof (pw_paddr _ _ _ _ Hw Hq) as Hp.
  pose proof (in_call_ok _ _ _ _ Hic) as Hok.
  destruct (alloc_insertable s fl pd va q p Hw Hsp Hok Hva Hq Hp) as (Hins & Hmap & Hnq).
  destruct (alloc_tables s fl pd q p Hw (so_pd _ _ _ _ Hsp) Hp) as (Hm & Ht & Hpte & Hd1 & Hl).
  pose proof (alloc_post_wf s fl q p ALLOC_ZERO Hw Hq) as Hw1.
  assert (page_alloc ALLOC_ZERO s = Done (Some q) (alloc_post ALLOC_ZERO q p s)) as Ha.
  { destruct (page_alloc_cons s fl q ALLOC_ZERO Hw) as (p' & Hp' & _ & Ha). congruence. }
  assert (∀ a, q * 4096 <= a < (q + 1) * 4096 → mget (mem (alloc_post ALLOC_ZERO q p s)) a = 0) as Hz.
  { intros a Hra. unfold alloc_post. simpl. rewrite Hp, mget_fill, decide_True; [done|].
    unfold PGSIZE. lia. }
  assert (pages (alloc_post ALLOC_ZERO q p s) !! q = Some (mkPage None (paddr p) 0)) as Hq1
    by (unfold alloc_post; simpl; apply lookup_insert_eq).
  assert (envs (alloc_post ALLOC_ZERO q p s) = envs s) as Hen by done.
  unfold sys_page_alloc. rewrite (bind_Done _ _ _ _ _ (envid2env_resolve s c cur x envid true Hic)), Her.
  change (negb (0 =? 0)) with false. cbv iota.
  rewrite (proj2 (Z.leb_gt UTOP va)), Hperm by lia. change (false || negb (0 =? 0)) with false. cbv iota.
  rewrite (bind_Done _ _ _ _ _ Ha). revert Hins Hmap Hm Ht Hpte Hd1 Hl Hw1 Hz Hq1 Hen.
  generalize (alloc_post ALLOC_ZERO q p s). intros s1 Hins Hmap Hm Ht Hpte Hd1 Hl Hw1 Hz Hq1 Hen.
  cbv iota. simpl. rewrite run_ret, (run_get_env _ y) by congruence. rewrite Hdir.
  destruct (insert_spec s1 fl pd va q (mkPage None (paddr p) 0) perm Hw1 Hd1 Hins Hr)
    as [(Hn & -> & Hrun)|(s' & fl' & Hrun & Hin)].
  - left. exists (free_post q (mkPage None (paddr p) 0) s1). rewrite Ht in Hn by apply PDX_range.
    split_and!; [done..| |apply free_post_wf; [done..|set_solver]|done|done].
    rewrite (bind_Done _ _ _ _ _ Hrun). change (negb (- E_NO_MEM =? 0)) with true. cbv iota.
    by rewrite (bind_Done _ _ _ _ _ (page_free_eq s1 [] q _ Hw1 Hq1)).
  - right. exists s', fl'. split; [by rewrite (bind_Done _ _ _ _ _ Hrun)|].
    destruct Hin as [I1 I2 I3 I4 I5 _ _ _ I9 _ I11]. split; [done..| | | |].
    + intros a Hra. rewrite <- (Hz a Hra). destruct Hl as (_ & Hl2 & Hl3 & Hl4).
      refine (I9 q Hl2 Hl3 _ a Hra). apply Hl4; [apply PDX_range|by apply UTOP_self].
    + rewrite I5, decide_False by congruence. done.
    + intros va' ? Hs' ?. rewrite I4 by done. by apply Hpte.
    + rewrite (vm_envs _ _ I11). done.
Qed.
End page_alloc.

(** ** Messages *)

Section ipc.
Implicit Types (s : kstate) (c : Cpu) (x y : Env) (u cur envid value : Z).

(** The receiver [y] after a message without a page from environment [from]. *)
Definition delivered from value y : Env :=
  mkEnv (child_tf y) (env_link y) (env_id y) (env_parent_id y) (env_type y) ENV_RUNNABLE
    (env_runs y) (env_cpunum y) (env_pgdir y) (env_pgfault_upcall y) false (env_ipc_dstva y)
    value from 0.

Lemma in_call_upd s c cur x u y y' :
  in_call s c cur x → envs s !! u = Some y → (u = cur → env_id y' = env_id x) →
  ∃ x', in_call (set_envs (<[u := y']> (envs s)) s) c cur x' ∧ env_id x' = env_id x.
Proof.
  intros [H1 H2 H3 H4] Hy Hid. destruct (decide (u = cur)) as [->|Hne].
  - exists y'. split; [|auto]. split; simpl; [done|done|apply lookup_insert_eq|].
    intros i Hi. destruct (decide (i = cur)) as [->|]; simplify_map_eq; [done|]. by apply H4.
  - exists x. split; [|done]. split; simpl; [done|done|by rewrite lookup_insert_ne|].
    intros i Hi. destruct (decide (i = u)) as [->|]; simplify_map_eq; [done|]. by apply H4.
Qed.

Lemma sys_ipc_try_send_run s c cur x u y envid value perm :
  in_call s c cur x → resolve s cur envid false = Some u → envs s !! u = Some y →
  sys_ipc_try_send envid value IPC_NO_PAGE perm s =
    if env_ipc_recving y
    then Done 0 (set_envs (<[u := delivered (env_id x) value y]> (envs s)) s)
    else Done (- E_IPC_NOT_RECV) s.
Proof.
  intros Hic Her Hy. unfold sys_ipc_try_send.
  rewrite (bind_Done _ _ _ _ _ (envid2env_resolve s c cur x envid false Hic)), Her.
  change (0 <? 0) with false. cbv iota. simpl. rewrite run_ret, (run_get_env _ y) by done.
  destruct (env_ipc_recving y); simpl; [|done]. rewrite run_ret.
  rewrite (run_upd_env _ _ y) by done.
  destruct (in_call_upd s c cur x u y (set_env_ipc_perm 0 y) Hic Hy) as (x' & Hic' & Hid).
  { intros ->. destruct Hic. simpl. congruence. }
  unfold ipc_transfer. rewrite run_assoc. erewrite run_get_env by (simpl; apply lookup_insert_eq).
  rewrite Z.eqb_refl. cbn [orb]. rewrite run_ret.
  rewrite (run_curenv_ptr _ _ _ _ _ Hic'), (run_get_env _ x') by apply Hic'.
  do 5 erewrite run_upd_env by (simpl; apply lookup_insert_eq).
  apply ret_state, kstate_eq; simpl; try reflexivity. by rewrite !insert_insert_eq, Hid.
Qed.

(** The receiver [x] while it waits for a message. *)
Definition waiting dstva x : Env :=
  set_env_status ENV_NOT_RUNNABLE (set_env_ipc_dstva dstva (set_env_ipc_recving true x)).

(** A send to an environment that is not receiving, whatever is sent. *)
Lemma sys_ipc_try_send_refused s c cur x u y envid value srcva perm :
  in_call s c cur x → resolve s cur envid false = Some u → envs s !! u = Some y → env_ipc_recving y = false →
  sys_ipc_try_send envid value srcva perm s = Done (- E_IPC_NOT_RECV) s.
Proof.
  intros Hic Her Hy Hno. unfold sys_ipc_try_send.
  rewrite (bind_Done _ _ _ _ _ (envid2env_resolve s c cur x envid false Hic)), Her.
  change (0 <? 0) with false. cbv iota. simpl. rewrite run_ret, (run_get_env _ y) by done. by rewrite Hno.
Qed.

Lemma sys_ipc_recv_run s c cur x dstva :
  in_call s c cur x →
  dstva = IPC_NO_PAGE ∨ 0 <= dstva < UTOP ∧ dstva mod 4096 = 0 →
  let s1 := set_envs (<[cur := waiting dstva x]> (envs s)) s in
  (∀ a s2, sched_yield s1 ≠ Done a s2) →
  ∃ ex s2, sys_ipc_recv dstva s = Exit ex s2 ∧ sched_yield s1 = Exit ex s2.
Proof.
  intros Hic Hva s1 Hy. unfold sys_ipc_recv.
  assert (negb (dstva =? IPC_NO_PAGE) &&
    ((UTOP <=? dstva) || negb (s32 dstva mod PGSIZE =? 0)) = false) as ->.
  { destruct Hva as [->|[Hr Hm]]; [done|]. rewrite (proj2 (Z.leb_gt UTOP dstva)) by lia.
    replace (s32 dstva mod PGSIZE) with 0; [apply andb_false_r|]. unfold PGSIZE. zlia. }
  rewrite (run_curenv_ptr s c cur x) by done.
  rewrite (run_upd_env _ _ x) by apply Hic.
  do 2 erewrite run_upd_env by (simpl; apply lookup_insert_eq).
  assert (∀ s', s' = s1 → ∃ ex s2, loop 2 NoFuel (λ _ : unit,
    cur ← curenv_ptr; x ← get_env cur;
    if env_ipc_recving x then sys_yield ;; mret (inl tt) else mret (inr 0)) tt s' = Exit ex s2 ∧
    sched_yield s1 = Exit ex s2) as H.
  { intros s' ->. destruct (in_call_upd s c cur x cur x (waiting dstva x)) as (x' & Hic' & _);
      [done|apply Hic|done|].
    assert (x' = waiting dstva x) as ->.
    { pose proof (ic_env _ _ _ _ Hic') as E. simpl in E. rewrite lookup_insert_eq in E. congruence. }
    rewrite loop_S, run_assoc, (run_curenv_ptr _ _ _ _ _ Hic'). rewrite run_assoc.
    rewrite (run_get_env _ (waiting dstva x)) by apply Hic'. simpl. unfold sys_yield.
    destruct (sched_yield s1) as [a s2|ex s2] eqn:Ey; [by destruct (Hy a s2)|].
    exists ex, s2. split; [|done]. rewrite run_assoc. by apply bind_Exit. }
  apply H. apply kstate_eq; simpl; try reflexivity. by rewrite !insert_insert_eq.
Qed.
End ipc.

(** ** [sys_cputs] *)

Section cputs.
Implicit Types (s : kstate) (c : Cpu) (x : Env).

Lemma sys_cputs_fault s c cur x va len :
  in_call s c cur x → screen_ok s → 0 < va → 0 <= len < 2147483648 → va + len < 4294967296 →
  user_mem_check cur va len (Z.lor PTE_U PTE_P) s = Done 0 s →
  (∀ i, 0 <= i < len → ∃ ch, vrd8 (va + i) s = Done ch s ∧ 0 < ch < 256) →
  vrd8 (va + len) s = Exit KernelFault s →
  ∃ s', sys_cputs va len s = Exit KernelFault s'.
Proof.
  intros Hic Hscr Hva Hlen Hend Hchk Hch Hf. unfold sys_cputs.
  rewrite (run_curenv_ptr s c cur x) by done. unfold user_mem_assert. rewrite run_assoc.
  change (Z.lor (Z.lor PTE_U PTE_P) PTE_U) with (Z.lor PTE_U PTE_P).
  rewrite (bind_Done _ _ _ _ _ Hchk). change (0 <? 0) with false. cbv iota. rewrite run_ret.
  destruct (str_put_fault (Z.to_nat len) va 0 s (dev s)) as [s' Hs]; [lia|lia|done| | |].
  { intros i Hi. apply Hch. lia. }
  { by rewrite Z2Nat.id by lia. }
  exists s'. rewrite Z2Nat.id in Hs by lia. assert (set_dev (dev s) s = s) as E by by destruct s.
  rewrite E in Hs. unfold cprintf, vcprintf, vprintfmt, cputs_fuel.
  rewrite s32_id, (proj2 (Z.ltb_ge len 0)) by lia. rewrite run_assoc.
  change (length (bytes_of "%.*s") + 1)%nat with 5%nat. apply bind_Exit.
  rewrite format_prec_string by lia. by apply bind_Exit.
Qed.
End cputs.

(** ** A receiver waits, and is woken by the first sender *)

Section rendezvous.
Implicit Types (s : kstate) (c : Cpu) (x y : Env) (u cur envid value : Z).

Lemma waiting_preempt s cur x dstva :
  preempt (Some cur) (<[cur := waiting dstva x]> (envs s)) = <[cur := waiting dstva x]> (envs s).
Proof. unfold preempt. by rewrite lookup_insert_eq. Qed.

Lemma waiting_ready s c cur x dstva :
  in_call s c cur x → sched_ready s c →
  sched_ready (set_envs (<[cur := waiting dstva x]> (envs s)) s) c.
Proof.
  intros [I1 I2 I3 I4] [S1 S2 S3 S4 S5 S6 S7]. split; simpl; [| |done|done|done| |done].
  - intros i Hi. destruct (decide (i = cur)) as [->|]; simplify_map_eq; [done|]. by apply S1.
  - rewrite I2, waiting_preempt. intros i y. rewrite lookup_insert.
    case_decide as Ei; [intros [= <-] [_ Hs]; discriminate Hs|].
    intros Hy. apply (S2 i). rewrite I2. unfold preempt. rewrite I3.
    destruct (env_status x =? ENV_RUNNING); [|done]. by rewrite lookup_insert_ne.
  - intros y. rewrite lookup_insert. case_decide as Ei; [|apply S6].
    intros [= <-]. simpl. apply S6. by rewrite <- Ei.
Qed.

Lemma sys_ipc_recv_blocks s c cur x dstva :
  in_call s c cur x → sched_ready s c →
  dstva = IPC_NO_PAGE ∨ 0 <= dstva < UTOP ∧ dstva mod 4096 = 0 →
  ∃ ex s1, sys_ipc_recv dstva s = Exit ex s1 ∧ ex ≠ NoFuel ∧ ex ≠ UserMode cur ∧
    envs s1 !! cur = Some (waiting dstva x).
Proof.
  intros Hic Hr Hva. pose proof (ic_cur _ _ _ _ Hic) as Hcur.
  set (s1 := set_envs (<[cur := waiting dstva x]> (envs s)) s).
  assert (set_envs (preempt (cpu_env c) (envs s1)) s1 = s1) as Hp.
  { rewrite Hcur. change (envs s1) with (<[cur := waiting dstva x]> (envs s)).
    rewrite waiting_preempt. apply kstate_eq; reflexivity. }
  assert (envs s1 !! cur = Some (waiting dstva x)) as Hx by (simpl; apply lookup_insert_eq).
  assert (preempt (cpu_env c) (envs s1) = envs s1) as Hpe by (rewrite Hcur; apply waiting_preempt).
  assert (∃ ex s2, sched_yield s1 = Exit ex s2 ∧ ex ≠ NoFuel ∧ ex ≠ UserMode cur ∧
    envs s2 !! cur = Some (waiting dstva x)) as (ex & s2 & Hy & Hex & Hne & Hw).
  { pose proof (sched_yield_run s1 c (waiting_ready s c cur x dstva Hic Hr)) as H. cbv zeta in H.
    rewrite Hp in H. destruct (next_runnable _ _ _) as [r|] eqn:En.
    - destruct H as (y & Hry & Hrun & ->). eexists _, _. split; [reflexivity|].
      assert (r ≠ cur).
      { intros ->. rewrite Hx in Hry. injection Hry as <-. destruct Hrun as [_ Hs]. discriminate Hs. }
      split; [done|]. split; [congruence|].
      change (envs (run_post r y c s1)) with
        (<[r := dispatched (this_cpu s1) y]> (preempt (cpu_env c) (envs s1))).
      by rewrite Hpe, lookup_insert_ne.
    - destruct H as [(_ & ->)|(j & z & idle & _ & _ & _ & Hidle & ->)]; rewrite ?Hp.
      + eexists _, _. split; [reflexivity|]. done.
      + rewrite Hp in Hidle. destruct ((env_status idle =? _) || _) eqn:Es.
        * eexists _, _. split; [reflexivity|]. assert (this_cpu s1 ≠ cur).
          { intros Heq. rewrite Heq, Hx in Hidle. by injection Hidle as <-. }
          split; [done|]. split; [intros [= Heq]; by apply H|].
          change (envs (run_post (this_cpu s1) idle c s1)) with
            (<[this_cpu s1 := dispatched (this_cpu s1) idle]> (preempt (cpu_env c) (envs s1))).
          by rewrite Hpe, lookup_insert_ne.
        * eexists _, _. split; [reflexivity|]. done. }
  destruct (sys_ipc_recv_run s c cur x dstva Hic Hva) as (ex' & s2' & H1 & H2).
  { intros a s3. fold s1. by rewrite Hy. }
  fold s1 in H2. rewrite Hy in H2. injection H2 as <- <-. by exists ex, s2.
Qed.

Lemma resolve_upd s cur envid u y y' :
  resolve s cur envid false = Some u → envs s !! u = Some y → env_id y' = env_id y →
  env_status y' ≠ ENV_FREE →
  resolve (set_envs (<[u := y']> (envs s)) s) cur envid false = Some u.
Proof.
  unfold resolve. intros H Hy Hid Hst. destruct (envid <? 0); [done|]. destruct (envid =? 0); [done|].
  destruct (envs s !! ENVX envid) as [z|] eqn:Hz; [|done]. cbn [mbind option_bind andb] in *.
  destruct (env_status z =? ENV_FREE); [done|].
  destruct (Z.eqb_spec (env_id z) envid) as [Ez|]; [|done]. cbn [orb negb] in H.
  injection H as <-. simplify_eq. simpl. rewrite lookup_insert_eq. cbn [mbind option_bind].
  rewrite (proj2 (Z.eqb_neq _ _) Hst). cbn [orb]. match goal with |- context [?a =? ?b] => destruct (Z.eqb_spec a b) end; [done|congruence].
Qed.
End rendezvous.

(** ** Properties *)

Section properties.
Implicit Types (s : kstate) (c : Cpu) (x y : Env) (fl efl : list Z).

(** sys_env_set_status checks the status the target has and never the one that
    is requested: for a target that is runnable or not runnable every status is
    stored, while no status is accepted for a running target.  Asking for
    ENV_FREE marks the slot free without putting it on the free list, after which
    no free list describes the table any more. *)
Theorem sys_env_set_status_unchecked s c cur x efl envid e y :
  in_call s c cur x → envs_wf s efl → resolve s cur envid true = Some e → envs s !! e = Some y →
  env_status y ∈ [ENV_RUNNABLE; ENV_NOT_RUNNABLE] →
  (∀ status, sys_env_set_status envid status s =
    Done 0 (set_envs (<[e := set_env_status (u32 status) y]> (envs s)) s)) ∧
  ∃ s', sys_env_set_status envid ENV_FREE s = Done 0 s' ∧ ∀ efl', ¬ envs_wf s' efl'.
Proof.
  intros Hic Hw Her Hy Hst.
  assert (∀ status, sys_env_set_status envid status s =
    Done 0 (set_envs (<[e := set_env_status (u32 status) y]> (envs s)) s)) as H.
  { intros status. pose proof (sys_env_set_status_run s c cur x envid status Hic) as H.
    rewrite Her in H. destruct H as (y' & Hy' & ->). simplify_eq. by rewrite bool_decide_true. }
  split; [exact H|]. eexists. split; [apply H|]. apply (freed_off_list s efl e y Hw Hy).
  intros E. rewrite E in Hst. by repeat apply elem_of_cons in Hst as [?|Hst]; [..|apply elem_of_nil in Hst].
Qed.

(** C20: sys_exofork fails with -E_NO_FREE_ENV or -E_NO_MEM and then changes
    nothing; otherwise it returns the positive id of a new environment that has
    the caller's registers except that it will see 0 returned, the caller as its
    parent, an address space with only the kernel's mappings, and that is not
    runnable, so the scheduler cannot pick it yet; the caller may manage it
    through that id, and the table and the allocator stay well formed. *)
Theorem sys_exofork_child s c cur x fl efl kd :
  in_call s c cur x → env_status x ≠ ENV_FREE → pages_wf s fl → envs_wf s efl →
  kern_pgdir s = pgdir_kva kd → pd_wf s fl kd →
  match efl, fl with
  | [], _ => sys_exofork s = Done (- E_NO_FREE_ENV) s
  | _, [] => sys_exofork s = Done (- E_NO_MEM) s
  | e :: efl', q :: fl' => ∃ y s', sys_exofork s = Done (env_id y) s' ∧ 0 < env_id y ∧
      envs s' = <[e := y]> (envs s) ∧ env_tf y = child_tf x ∧ env_parent_id y = env_id x ∧
      ¬ eligible y ∧ env_pgdir y = pgdir_kva q ∧ pd_wf s' fl' q ∧
      (∀ va, PDX va ≠ self_index → pte_of s' q va = pte_of s kd va) ∧
      resolve s' cur (env_id y) true = Some e ∧ envs_wf s' efl' ∧ pages_wf s' fl'
  end.
Proof.
  intros Hic Hst Hw He Hk Hd.
  destruct efl as [|e efl]; [|destruct fl as [|q fl]].
  - unfold sys_exofork. rewrite (run_curenv_ptr s c cur x), (run_get_env _ x) by apply Hic || done.
    unfold env_alloc. rewrite run_assoc, run_gets. by rewrite (ew_chain _ _ He : env_free_list s = None).
  - unfold sys_exofork. rewrite (run_curenv_ptr s c cur x), (run_get_env _ x) by apply Hic || done.
    unfold env_alloc. rewrite run_assoc, run_gets, (proj1 (ew_chain _ _ He)).
    rewrite run_assoc. by step_with (setup_none s e Hw).
  - destruct (sys_exofork_run s c cur x fl efl kd e q) as (y & z & s' & Hz & -> & Hrun & Hen & Hw' & Hp & Hpd & Hpte);
      [done..|].
    pose proof (ew_in_range _ _ e He ltac:(by left)) as Her.
    destruct (ew_env _ _ He _ _ Hz) as (_ & Hid & _).
    destruct (new_env_id_facts (env_id z) e Hid Her) as (Hi1 & Hi2 & Hi3).
    assert (e ≠ cur) as Hne.
    { intros ->. apply Hst. apply (ew_env _ _ He cur x); [apply Hic|by left]. }
    exists (child_of x (new_env e z (env_id x) q)), s'.
    split; [exact Hrun|]. split; [simpl; lia|]. split; [exact Hen|].
    do 2 (split; [reflexivity|]). split; [intros [_ Hs]; discriminate Hs|]. split; [reflexivity|].
    split; [done|]. split; [done|]. split; [|done].
    unfold resolve. simpl. rewrite (proj2 (Z.ltb_ge _ 0)), (proj2 (Z.eqb_neq _ 0)) by lia.
    rewrite Hi2, Hen, lookup_insert_eq, lookup_insert_ne, (ic_env _ _ _ _ Hic) by done.
    cbn [mbind option_bind]. simpl. rewrite Z.eqb_refl. simpl.
    rewrite bool_decide_false by congruence. simpl. by rewrite Z.eqb_refl.
Qed.

(** C8: sys_page_alloc reports -E_BAD_ENV, -E_INVAL (only for an address from UTOP
    on or a permission bit outside PTE_SYSCALL) and -E_NO_MEM without changing a
    mapping or losing a page; otherwise a zeroed page, referenced once, is mapped
    at the address with the permissions given, replacing what was mapped there,
    and every other mapping stays.  An unaligned address or permissions without
    PTE_U are accepted. *)
Theorem sys_page_alloc_correct s c cur x fl pd envid va perm :
  in_call s c cur x → pages_wf s fl → 0 <= va → 
  (∀ e y, resolve s cur envid true = Some e → envs s !! e = Some y →
    env_pgdir y = pgdir_kva pd ∧ space_ok s fl pd va) →
  match resolve s cur envid true with
  | None => sys_page_alloc envid va perm s = Done (- E_BAD_ENV) s
  | Some e =>
      if (UTOP <=? va) || negb (Z.land perm (Z.lnot PTE_SYSCALL) =? 0)
      then sys_page_alloc envid va perm s = Done (- E_INVAL) s
      else match fl with
           | [] => sys_page_alloc envid va perm s = Done (- E_NO_MEM) s
           | q :: fl1 =>
               (∃ s', pt_of s pd (PDX va) = None ∧ fl1 = [] ∧
                  sys_page_alloc envid va perm s = Done (- E_NO_MEM) s' ∧ pages_wf s' [q] ∧
                  envs s' = envs s ∧ ∀ j, j ≠ q → page_same j (mem s) (mem s')) ∨
               (∃ s' fl', sys_page_alloc envid va perm s = Done 0 s' ∧
                  page_allocated s s' fl' pd va q perm)
           end
  end.
Proof.
  intros Hic Hw Hva Hsp.
  destruct (resolve s cur envid true) as [e|] eqn:Er; [|unfold sys_page_alloc;
    by rewrite (bind_Done _ _ _ _ _ (envid2env_resolve s c cur x envid true Hic)), Er].
  destruct ((UTOP <=? va) || negb (Z.land perm (Z.lnot PTE_SYSCALL) =? 0)) eqn:Eb.
  { unfold sys_page_alloc. rewrite (bind_Done _ _ _ _ _ (envid2env_resolve s c cur x envid true Hic)), Er.
    change (negb (0 =? 0)) with false. cbv iota. by rewrite Eb. }
  destruct (resolve_present _ _ _ _ _ _ _ Hic Er) as [y Hy].
  destruct fl as [|q fl].
  { unfold sys_page_alloc. rewrite (bind_Done _ _ _ _ _ (envid2env_resolve s c cur x envid true Hic)), Er.
    change (negb (0 =? 0)) with false. cbv iota. rewrite Eb.
    by rewrite (bind_Done _ _ _ _ _ (page_alloc_nil s ALLOC_ZERO Hw)). }
  destruct (Hsp e y eq_refl Hy) as [Hdir Hspc].
  apply orb_false_iff in Eb as [Hu%Z.leb_gt Hperm%negb_false_iff%Z.eqb_eq].
  destruct (pw_total _ _ Hw q) as [p Hp]; [by eapply pw_in_range; [done|left]|].
  apply (sys_page_alloc_run s c cur x fl pd e y envid va perm q p); try done.
  by apply syscall_perm_range.
Qed.

(** C14: message passing without a page.  An environment that calls sys_ipc_recv,
    with IPC_NO_PAGE or an aligned address below UTOP, gives up the CPU and cannot
    be scheduled again by itself: it is not runnable and marked as receiving, and
    the call never returns.  Then whoever names it in a sys_ipc_try_send with
    srcva = IPC_NO_PAGE, whatever the permission, succeeds: the receiver gets the
    value, the sender's id, permission 0 and the result 0, is runnable again and
    no longer receiving, and nothing else changes.  As long as it is not
    receiving, every send to it, by any sender and with any arguments, fails with
    -E_IPC_NOT_RECV and changes nothing. *)
Theorem ipc_rendezvous s c cur x dstva :
  in_call s c cur x → sched_ready s c →
  dstva = IPC_NO_PAGE ∨ 0 <= dstva < UTOP ∧ dstva mod 4096 = 0 →
  (∃ ex s1, sys_ipc_recv dstva s = Exit ex s1 ∧ ex ≠ NoFuel ∧ ex ≠ UserMode cur ∧
    envs s1 !! cur = Some (waiting dstva x)) ∧
  (∀ s2 c2 snd x2 envid value perm,
    in_call s2 c2 snd x2 → resolve s2 snd envid false = Some cur →
    envs s2 !! cur = Some (waiting dstva x) →
    sys_ipc_try_send envid value IPC_NO_PAGE perm s2 =
      Done 0 (set_envs (<[cur := delivered (env_id x2) value (waiting dstva x)]> (envs s2)) s2) ∧
    env_ipc_recving (delivered (env_id x2) value (waiting dstva x)) = false) ∧
  (∀ s4 c4 snd x4 y envid value srcva perm,
    in_call s4 c4 snd x4 → resolve s4 snd envid false = Some cur →
    envs s4 !! cur = Some y → env_ipc_recving y = false →
    sys_ipc_try_send envid value srcva perm s4 = Done (- E_IPC_NOT_RECV) s4).
Proof.
  intros Hic Hr Hva. split; [by apply (sys_ipc_recv_blocks s c cur x dstva Hic Hr Hva)|]. split.
  - intros s2 c2 snd x2 envid value perm Hic2 Her Hw. split; [|done].
    by rewrite (sys_ipc_try_send_run s2 c2 snd x2 cur (waiting dstva x)).
  - intros s4 c4 snd x4 y envid value srcva perm Hic4 Her Hy Hno. by eapply sys_ipc_try_send_refused.
Qed.

(** sys_cputs reads the byte after the string before it looks at the length,
    and only the string itself was checked: printing a string that ends at the
    end of a page that is followed by an unmapped one makes the kernel itself
    fault, which is fatal, although every byte the user named is accessible. *)
Theorem sys_cputs_overreads s c cur x va len :
  in_call s c cur x → screen_ok s → 0 < va → 0 <= len < 2147483648 → va + len < 4294967296 →
  user_mem_check cur va len (Z.lor PTE_U PTE_P) s = Done 0 s →
  (∀ i, 0 <= i < len → ∃ ch, vrd8 (va + i) s = Done ch s ∧ 0 < ch < 256) →
  vrd8 (va + len) s = Exit KernelFault s →
  ∃ s', sys_cputs va len s = Exit KernelFault s'.
Proof. apply sys_cputs_fault. Qed.
End properties.

(** ** Concrete instances *)

Lemma ex_kernel_call : in_call ex_kernel (mkCpu 0 1 (Some 1) 0 0) 1 (ex_env 1).
Proof. split; [by_compute|reflexivity|by_compute|]. unfold all_envs. by_compute. Qed.

Lemma sys_env_set_status_unchecked_witness :
  (∀ status, sys_env_set_status 4098 status ex_kernel =
    Done 0 (set_envs (<[2 := set_env_status (u32 status) (ex_env 2)]> (envs ex_kernel)) ex_kernel)) ∧
  ∃ s', sys_env_set_status 4098 ENV_FREE ex_kernel = Done 0 s' ∧ ∀ efl', ¬ envs_wf s' efl'.
Proof.
  apply (sys_env_set_status_unchecked ex_kernel (mkCpu 0 1 (Some 1) 0 0) 1 (ex_env 1) (seqZ 3 1021) 4098 2);
    [apply ex_kernel_call|apply ex_kernel_envs|by_compute|by_compute|by_compute].
Defined.

Lemma sys_exofork_child_witness :
  ∃ y s', sys_exofork ex_kernel = Done (env_id y) s' ∧ 0 < env_id y ∧
      envs s' = <[3 := y]> (envs ex_kernel) ∧ env_tf y = child_tf (ex_env 1) ∧
      env_parent_id y = env_id (ex_env 1) ∧
      ¬ eligible y ∧ env_pgdir y = pgdir_kva 3 ∧ pd_wf s' [5; 4] 3 ∧
      (∀ va, PDX va ≠ self_index → pte_of s' 3 va = pte_of ex_kernel 2 va) ∧
      resolve s' 1 (env_id y) true = Some 3 ∧ envs_wf s' (seqZ 4 1020) ∧ pages_wf s' [5; 4].
Proof.
  apply (sys_exofork_child ex_kernel (mkCpu 0 1 (Some 1) 0 0) 1 (ex_env 1) [3; 5; 4] (3 :: seqZ 4 1020) 2);
    [apply ex_kernel_call|discriminate|apply ex_kernel_pages|apply ex_kernel_envs|reflexivity
    |apply ex_kernel_pd].
Defined.

(** Replacing the page at an address that is not page-aligned. *)
Lemma sys_page_alloc_correct_witness :
  (∃ s', pt_of ex_kernel 2 (PDX 0x2008) = None ∧ [5; 4] = [] ∧
     sys_page_alloc 0 0x2008 3 ex_kernel = Done (- E_NO_MEM) s' ∧ pages_wf s' [3] ∧
     envs s' = envs ex_kernel ∧ ∀ j, j ≠ 3 → page_same j (mem ex_kernel) (mem s')) ∨
  (∃ s' fl', sys_page_alloc 0 0x2008 3 ex_kernel = Done 0 s' ∧
     page_allocated ex_kernel s' fl' 2 0x2008 3 3).
Proof.
  apply (sys_page_alloc_correct ex_kernel (mkCpu 0 1 (Some 1) 0 0) 1 (ex_env 1) [3; 5; 4] 2 0 0x2008 3);
    [apply ex_kernel_call|apply ex_kernel_pages|lia|].
  intros e y He Hy. assert (e = 1) as -> by (vm_compute in He; congruence).
  assert (y = ex_env 1) as -> by (apply (inj Some); rewrite <- Hy; by_compute).
  split; [reflexivity|]. assert (mapped ex_kernel 2 0x2008 = Some 8) as Hm by by_compute.
  split; [apply ex_kernel_pd| |by rewrite Hm|by_compute]. rewrite Hm. intros q [= <-]. by_compute.
Defined.

(** Environment 1 waits and environment 2 runs; then environment 2 has sent 42 and
    environment 0 runs. *)
Definition ex_waiting : kstate := set_envs (<[1 := waiting IPC_NO_PAGE (ex_env 1)]> (envs ex_turn2)) ex_turn2.
Definition ex_sent : kstate :=
  set_cpus (<[0 := mkCpu 0 1 (Some 0) 0 0]> (cpus ex_waiting))
    (set_envs (<[1 := delivered 4098 42 (waiting IPC_NO_PAGE (ex_env 1))]> (envs ex_waiting)) ex_waiting).

Lemma ipc_rendezvous_witness :
  (∃ ex s1, sys_ipc_recv IPC_NO_PAGE ex_kernel = Exit ex s1 ∧ ex ≠ NoFuel ∧ ex ≠ UserMode 1 ∧
    envs s1 !! 1 = Some (waiting IPC_NO_PAGE (ex_env 1))) ∧
  sys_ipc_try_send 4097 42 IPC_NO_PAGE 0 ex_waiting =
    Done 0 (set_envs (<[1 := delivered 4098 42 (waiting IPC_NO_PAGE (ex_env 1))]> (envs ex_waiting)) ex_waiting) ∧
  sys_ipc_try_send 4097 43 0x1000 7 ex_sent = Done (- E_IPC_NOT_RECV) ex_sent.
Proof.
  destruct (ipc_rendezvous ex_kernel (mkCpu 0 1 (Some 1) 0 0) 1 (ex_env 1) IPC_NO_PAGE) as (H1 & H2 & H3);
    [apply ex_kernel_call|apply ex_kernel_ready|by left|].
  split; [exact H1|]. split.
  - apply (H2 ex_waiting (mkCpu 0 1 (Some 2) 0 0) 2 (set_env_status ENV_RUNNING (ex_env 2)));
      [split; [by_compute|reflexivity|by_compute|unfold all_envs; by_compute]|by_compute|by_compute].
  - apply (H3 ex_sent (mkCpu 0 1 (Some 0) 0 0) 0 (ex_env 0) (delivered 4098 42 (waiting IPC_NO_PAGE (ex_env 1))));
      [split; [by_compute|reflexivity|by_compute|unfold all_envs; by_compute]|by_compute|by_compute|reflexivity].
Defined.

(** The string of the last two bytes of page 0x2000 of environment 1. *)
Definition ex_cputs : kstate :=
  set_mem (write_bytes (mem ex_kernel) (9 * 4096 - 2) [104; 105])
    (set_cr3 {[ 0 := 2 * 4096 ]} ex_kernel).

Lemma ex_cputs_call : in_call ex_cputs (mkCpu 0 1 (Some 1) 0 0) 1 (ex_env 1).
Proof. split; [by_compute|reflexivity|by_compute|]. unfold all_envs. by_compute. Qed.

Lemma ex_cputs_space : env_space ex_cputs [3; 5; 4] 1 2.
Proof.
  split; [by_compute|by_compute| |].
  - intros i Hi q Hq.
    assert (∀ i, 0 <= i < 1024 → default 0 (pt_of ex_cputs 2 i) < npages ex_cputs) as H by by_compute.
    specialize (H i Hi). by rewrite Hq in H.
  - exists (ex_env 1). split; [by_compute|reflexivity].
Qed.

Lemma ex_cputs_checked : user_mem_check 1 0x2FFE 2 (Z.lor PTE_U PTE_P) ex_cputs = Done 0 ex_cputs.
Proof.
  rewrite (user_mem_check_run ex_cputs [3; 5; 4] 1 2) by (apply ex_cputs_space || lia).
  assert (first_bad ex_cputs 2 (Z.lor PTE_U PTE_P) 0x2FFE (seqZ 0 (probes 2)) = None) as -> by by_compute.
  reflexivity.
Qed.

Lemma sys_cputs_overreads_witness : ∃ s', sys_cputs 0x2FFE 2 ex_cputs = Exit KernelFault s'.
Proof.
  apply (sys_cputs_overreads ex_cputs (mkCpu 0 1 (Some 1) 0 0) 1 (ex_env 1) 0x2FFE 2);
    [apply ex_cputs_call|by_compute|lia|lia|lia|apply ex_cputs_checked| |].
  - intros i Hi. exists (104 + i). split; [|lia]. assert (i = 0 ∨ i = 1) as [-> | ->] by lia;
      [rewrite (vrd8_Done _ (9 * 4096 - 2))|rewrite (vrd8_Done _ (9 * 4096 - 1))];
      by_compute || (f_equal; by_compute).
  - apply vrd8_Exit. by_compute.
Defined.
