(* ===== verification/PageMap.v ===== *)
(** * Mapping pages between environments: [sys_page_map] of kern/syscall.c

    What reaches the page tables from the arguments of the call. *)

From S2P Require Import Prelude Devices Console Strings Printfmt Machine Spinlock PageAlloc Pmap.
From S2P Require Import UserMem Env Sched Kprintf Syscall.
From stdpp Require Import base numbers list gmap fin_maps strings.

Local Open Scope Z_scope.

Section map.
Implicit Types (s : kstate) (fl : list Z).

(** The checks of [sys_page_map] between two pages of the caller. *)
Lemma sys_page_map_self s c cur x fl pd srcva dstva q perm :
  in_call s c cur x → env_pgdir x = pgdir_kva pd → pages_wf s fl → pd_wf s fl pd →
  0 <= srcva < UTOP → srcva mod 4096 = 0 → 0 <= dstva < UTOP → dstva mod 4096 = 0 →
  mapped s pd srcva = Some q → q < npages s →
  (has PTE_W perm = true → has PTE_W (pte_of s pd srcva) = true) →
  sys_page_map 0 srcva 0 dstva perm s = page_insert (pgdir_kva pd) (Some q) dstva perm s.
Proof.
  intros Hic Hpd Hw Hd Hs Hsa Ht Hta Hm Hq Hwr. pose proof (pw_npages _ _ Hw) as Hn. unfold sys_page_map.
  rewrite (bind_Done _ _ _ _ _ (envid2env_resolve s c cur x 0 true Hic)).
  change (resolve s cur 0 true) with (Some cur). cbv beta iota. change (negb (0 =? 0)) with false. cbv iota.
  rewrite (bind_Done _ _ _ _ _ (envid2env_resolve s c cur x 0 false Hic)).
  change (resolve s cur 0 false) with (Some cur). cbv beta iota. change (negb (0 =? 0)) with false. cbv iota.
  assert (∀ v, v mod 4096 = 0 → PGOFF v = 0) as Hoff.
  { intros v Hv. unfold PGOFF. change 0xFFF with (Z.ones 12). rewrite Z.land_ones by lia. exact Hv. }
  assert (∀ v, 0 <= v < UTOP → v mod 4096 = 0 → check_addr_scale v 0 UTOP = 0) as Hsc.
  { intros v Hv Hal. unfold check_addr_scale. rewrite Hoff by done.
    rewrite (proj2 (Z.leb_le 0 v)), (proj2 (Z.ltb_lt v UTOP)) by lia. done. }
  rewrite !Hsc, !Hoff by done. cbn [Z.eqb negb orb deref]. rewrite run_ret, (run_get_env _ x) by apply Hic.
  rewrite Hpd. destruct (mapped_table _ _ _ _ Hm) as [t Htab].
  assert (PDX srcva ≠ self_index) as Hself by (by apply UTOP_self).
  pose proof (pd_table _ _ _ Hd _ (PDX_range srcva) t Hself Htab) as (Hrt & _).
  step_with (lookup_some s fl pd srcva q t Hw Hd Hself Hm Hq Htab).
  rewrite rd_slot by (lia || apply PTX_range). rewrite <- (pte_of_eq s pd srcva t Htab).
  destruct (has PTE_W perm) eqn:Ew; [rewrite Hwr by done|rewrite andb_false_r]; cbn [negb andb];
    by rewrite run_ret, (run_get_env _ x), Hpd by apply Hic.
Qed.

(** Bits of the frame number in [perm] end up in the entry. *)
Lemma insert_escapes s fl pd va q p t f perm :
  pages_wf s fl → pd_wf s fl pd → PDX va ≠ self_index → pt_of s pd (PDX va) = Some t →
  pte_of s pd va = 0 → pages s !! q = Some p → 0 < q < npages s → 0 <= f → Z.land f t = f → 0 <= perm < 4096 →
  ∃ s', page_insert (pgdir_kva pd) (Some q) va (f * 4096 + perm) s = Done 0 s' ∧
    pte_of s' pd va = Z.lor q f * 4096 + Z.lor perm 1 ∧
    pages s' = <[q := set_pp_ref (u16 (pp_ref p + 1)) p]> (pages s).
Proof.
  intros Hw Hd Hs Ht Hpte Hp Hq Hf Hft Hperm. pose proof (pw_npages _ _ Hw) as Hn.
  destruct (pd_dir _ _ _ Hd) as [Hr _]. pose proof (pd_table _ _ _ Hd _ (PDX_range va) t Hs Ht) as (Hrt & _ & Htp).
  assert (Z.lor t f = t) as Htf by (apply Z.bits_inj'; intros i Hi; apply (f_equal (λ z, Z.testbit z i)) in Hft;
    rewrite Z.land_spec in Hft; rewrite Z.lor_spec; destruct (Z.testbit t i), (Z.testbit f i); done).
  assert (f <= t) as Hle.
  { rewrite <- Htf, <- (Z.lor_ldiff_and t f), Z.land_comm, Hft, <- Z.lor_assoc, Z.lor_diag.
    rewrite Z.lor_comm, <- Z.add_nocarry_lor by (rewrite Z.land_comm; apply Z.land_ldiff).
    assert (0 <= Z.ldiff t f) by (apply Z.ldiff_nonneg; lia). lia. }
  assert (∀ y, Z.lor (y * 4096) (f * 4096) = Z.lor y f * 4096) as Hshift.
  { intros y. change 4096 with (2 ^ 12). rewrite <- !Z.shiftl_mul_pow2 by lia. by rewrite Z.shiftl_lor. }
  assert (0 <= Z.lor perm 1 < 4096) as Hp1 by (apply (lor_range 12); lia).
  unfold page_insert. step_with (walk_present s fl pd va CREATE t Hw Hr Ht ltac:(lia)).
  rewrite pde_slot, rd_slot, wr_slot by (lia || apply PDX_range).
  fold (pde_of s pd (PDX va)). rewrite <- lor_page_flags by done.
  set (v := Z.lor (pde_of s pd (PDX va)) _). set (s1 := put s pd (PDX va) v).
  assert (0 <= f * 4096 < 4294967296) as Hf32 by lia.
  assert (0 <= Z.lor (f * 4096) perm < 4294967296) as Hfp by (apply lor_u32; lia).
  assert (0 <= v < 4294967296) as Hv.
  { apply lor_u32; [apply pde_of_range|]. apply lor_u32; [done|unfold PTE_P; lia]. }
  assert (pt_of s1 pd (PDX va) = Some t) as Ht1.
  { unfold s1. rewrite put_pde_pt, decide_True by (done || apply PDX_range).
    unfold v. rewrite !has_lor. change (has PTE_P PTE_P) with true. rewrite !orb_true_r. f_equal.
    rewrite pt_of_inv in Ht. destruct (has PTE_P (pde_of s pd (PDX va))); [|done]. injection Ht as Ht.
    unfold PGNUM, PTXSHIFT in *. rewrite !Z.shiftr_lor, Ht.
    rewrite !Z.shiftr_div_pow2 by lia. change (2 ^ 12) with 4096. change (PTE_P / 4096) with 0.
    rewrite Z.div_mul, (Z.div_small perm), !Z.lor_0_r by lia. exact Htf. }
  assert (pte_of s1 pd va = 0) as Hpte1.
  { unfold s1. erewrite put_pde_pte; [exact Hpte|exact Hd|apply PDX_range|done|]. fold s1. by rewrite Ht1, Ht. }
  rewrite (run_get_page _ p) by done. rewrite rd_slot by (lia || apply PTX_range).
  rewrite <- (pte_of_eq s1 pd va t Ht1), Hpte1. rewrite (pw_paddr _ _ _ _ Hw Hp).
  change (PTE_ADDR 0) with 0. rewrite (proj2 (Z.eqb_neq _ _)) by lia. cbn [negb].
  rewrite !run_assoc, (run_upd_page _ _ p) by done. rewrite run_assoc, rd_slot by (lia || apply PTX_range).
  set (s2 := set_pages _ s1).
  change (load32 (mem s2)) with (load32 (mem s1)). rewrite <- (pte_of_eq s1 pd va t Ht1), Hpte1.
  change (has PTE_P 0) with false. cbv iota. rewrite run_ret, wr_slot by (lia || apply PTX_range).
  eexists. split; [reflexivity|].
  assert (pd_wf s2 fl pd) as Hd2.
  { apply (pd_wf_update s _ fl fl); [done|reflexivity| |done]. intros i Hi Hsi.
    change (pt_of s2 pd i) with (pt_of s1 pd i). destruct (decide (i = PDX va)) as [->|Hne]; [by rewrite Ht1, Ht|].
    unfold s1. by rewrite put_pde_pt, decide_False by (done || apply PDX_range). }
  split; [|reflexivity]. rewrite page2pa_mul by lia.
  rewrite (put_pte_same s2 fl pd va t _ Hd2 Hs Ht1).
  - rewrite Z.lor_assoc, Hshift, <- Z.lor_assoc. apply lor_page_flags. exact Hp1.
  - repeat apply lor_u32; unfold PTE_P; lia.
Qed.
End map.

(** C6: sys_page_map does not check its permission argument, and page_insert stores
    it in the entry and in the directory as it is.  A user can put the number of
    a physical page there: for every set f of bits of the number of the page table
    that serves the destination, the call maps, instead of the page q at the
    source, the physical page whose number has the bits of q and of f, with the
    permissions asked for; only the reference count of q changes. *)
Theorem sys_page_map_escapes s c cur x fl pd srcva dstva q p t f perm :
  in_call s c cur x → env_pgdir x = pgdir_kva pd → pages_wf s fl → pd_wf s fl pd →
  0 <= srcva < UTOP → srcva mod 4096 = 0 → 0 <= dstva < UTOP → dstva mod 4096 = 0 →
  mapped s pd srcva = Some q → 0 < q < npages s → pages s !! q = Some p →
  pt_of s pd (PDX dstva) = Some t → pte_of s pd dstva = 0 →
  0 <= f → Z.land f t = f → 0 <= perm < 4096 →
  (has PTE_W perm = true → has PTE_W (pte_of s pd srcva) = true) →
  ∃ s', sys_page_map 0 srcva 0 dstva (f * 4096 + perm) s = Done 0 s' ∧
    mapped s' pd dstva = Some (Z.lor q f) ∧
    Z.land (pte_of s' pd dstva) 0xFFF = Z.lor perm PTE_P ∧
    pages s' = <[q := set_pp_ref (u16 (pp_ref p + 1)) p]> (pages s).
Proof.
  intros Hic Hpd Hw Hd Hs Hsa Ht Hta Hm Hq Hp Htab Hpte Hf Hft Hperm Hwr.
  destruct (insert_escapes s fl pd dstva q p t f perm) as (s' & Hrun & Hpte' & Hpages);
    try done; [by apply UTOP_self|].
  assert (0 <= Z.lor perm 1 < 4096) as Hp1 by (apply (lor_range 12); lia).
  exists s'. split; [|split; [|split; [|exact Hpages]]].
  - rewrite (sys_page_map_self s c cur x fl pd srcva dstva q); try done; [lia|].
    rewrite <- lor_page_flags, has_lor by done. unfold PTE_W at 1. rewrite has_page by lia. done.
  - unfold mapped. rewrite Hpte', <- lor_page_flags by done. rewrite has_lor.
    unfold PTE_P at 1. rewrite has_page by lia. rewrite has_lor. change (has PTE_P 1) with true.
    rewrite orb_true_r. f_equal. rewrite lor_page_flags by done. by apply PGNUM_page.
  - rewrite Hpte', land_page_flags by lia. change 0xFFF with (Z.ones 12). rewrite Z.land_ones by lia.
    by apply Z.mod_small.
Qed.

(** Environment 1 asks for a second mapping of its page 8 with bit 1 of the page
    number in the permissions, and gets page 10, the page directory of another
    address space. *)
Lemma sys_page_map_escapes_witness :
  ∃ s', sys_page_map 0 0x2000 0 0x3000 0x2005 ex_kernel = Done 0 s' ∧ mapped s' 2 0x3000 = Some 10.
Proof.
  destruct (sys_page_map_escapes ex_kernel (mkCpu 0 1 (Some 1) 0 0) 1 (ex_env 1) [3; 5; 4] 2 0x2000 0x3000 8
    (default (mkPage None 0 0) (pages ex_kernel !! 8)) 6 2 5) as (s' & H1 & H2 & _).
  - apply ex_kernel_call.
  - reflexivity.
  - apply ex_kernel_pages.
  - apply ex_kernel_pd.
  - by_compute.
  - reflexivity.
  - by_compute.
  - reflexivity.
  - by_compute.
  - by_compute.
  - by_compute.
  - by_compute.
  - by_compute.
  - lia.
  - reflexivity.
  - lia.
  - discriminate.
  - exists s'. split; [exact H1|exact H2].
Defined.
