(* ===== verification/Spaces.v ===== *)
(** * Address spaces

    All the address spaces of the system at once: which pages each directory maps
    below [UTOP], and the invariant that ties the page tables to the reference
    counts and to the free list.  The system calls that change mappings act on
    this abstract state as the update of a finite map, and preserve the
    invariant, so no page is on the free list while it is mapped anywhere. *)

From S2P Require Import Prelude Machine PageAlloc Pmap UserMem Env Syscall PageMap.
From stdpp Require Import base numbers list gmap fin_maps sets.

Local Open Scope Z_scope.

(** ** The mappings of a directory *)

(** The present entries below [UTOP], with their page numbers. *)
Definition entries (s : kstate) (pd : Z) : list (Z * Z) :=
  i ← seqZ 0 (PDX UTOP);
  match pt_of s pd i with
  | None => []
  | Some _ => omap (λ j,
      let n := i * 1024 + j in
      let e := pte_of s pd (n * 4096) in
      if has PTE_P e then Some (n, e) else None) (seqZ 0 1024)
  end.
Definition view (s : kstate) (pd : Z) : gmap Z Z := list_to_map (entries s pd).

(** How often the mappings [V] use page [q], and how often all directories do. *)
Definition uses (V : gmap Z Z) (q : Z) : Z := Z.of_nat (size (filter (λ x, PGNUM x.2 = q) V)).
Fixpoint refs (s : kstate) (pds : list Z) (q : Z) : Z :=
  match pds with [] => 0 | pd :: pds' => uses (view s pd) q + refs s pds' q end.

Section view.
Implicit Types (s : kstate) (pd n e : Z).

Lemma page_index n : 0 <= n < 1048576 → PDX (n * 4096) = n / 1024 ∧ PTX (n * 4096) = n mod 1024.
Proof. intros. rewrite PDX_div, PTX_div. split; zlia. Qed.

Lemma elem_of_entries s pd n e :
  (n, e) ∈ entries s pd ↔
  0 <= n < PGNUM UTOP ∧ has PTE_P (pte_of s pd (n * 4096)) = true ∧ e = pte_of s pd (n * 4096).
Proof.
  change (PGNUM UTOP) with 977920. unfold entries. rewrite list_elem_of_bind. change (PDX UTOP) with 955. split.
  - intros (i & Hin & Hi%elem_of_seqZ). destruct (pt_of s pd i); [|by apply elem_of_nil in Hin].
    apply list_elem_of_omap in Hin as (j & Hj%elem_of_seqZ & H). cbv zeta in H.
    destruct (has PTE_P _) eqn:E; [|done]. simplify_eq. split; [lia|done].
  - intros (Hn & Hp & ->). assert (0 <= n < 1048576) as Hn' by lia. destruct (page_index n Hn') as [Hd _].
    exists (n / 1024). split; [|apply elem_of_seqZ; zlia].
    destruct (pt_of s pd (n / 1024)) as [t|] eqn:Ht.
    + apply list_elem_of_omap. exists (n mod 1024). split; [apply elem_of_seqZ; zlia|].
      cbv zeta. replace (n / 1024 * 1024 + n mod 1024) with n by zlia. by rewrite Hp.
    + rewrite <- Hd in Ht. by rewrite (pte_of_none _ _ _ Ht) in Hp.
Qed.

Lemma lookup_view s pd n :
  view s pd !! n = if decide (0 <= n < PGNUM UTOP ∧ has PTE_P (pte_of s pd (n * 4096)) = true)
                   then Some (pte_of s pd (n * 4096)) else None.
Proof.
  unfold view. case_decide as H.
  - apply elem_of_list_to_map_1'; [|by apply elem_of_entries; naive_solver].
    intros y Hy. apply elem_of_entries in Hy. naive_solver.
  - apply not_elem_of_list_to_map_1. intros (x & -> & Hx)%list_elem_of_fmap.
    destruct x as [n e]. apply elem_of_entries in Hx. naive_solver.
Qed.

Lemma lookup_view_Some s pd n e :
  view s pd !! n = Some e ↔
  0 <= n < PGNUM UTOP ∧ has PTE_P (pte_of s pd (n * 4096)) = true ∧ e = pte_of s pd (n * 4096).
Proof. rewrite lookup_view. case_decide; naive_solver. Qed.

Lemma pte_same_page s pd va va' :
  0 <= va < 4294967296 → 0 <= va' < 4294967296 → PGNUM va' = PGNUM va → pte_of s pd va' = pte_of s pd va.
Proof.
  intros H1 H2 E. destruct (page_slots va' va H2 H1 E) as [Ed Et]. unfold pte_of, pte_loc. by rewrite Ed, Et.
Qed.

(** An address and its page number. *)
Lemma page_va s pd va : 0 <= va < UTOP →
  pte_of s pd (PGNUM va * 4096) = pte_of s pd va ∧ 0 <= PGNUM va < PGNUM UTOP.
Proof.
  change (PGNUM UTOP) with 977920. change UTOP with 4005560320. rewrite PGNUM_div. intros.
  split; [|zlia]. apply pte_same_page; [lia|zlia|]. by rewrite !PGNUM_div, Z.div_mul.
Qed.

Lemma view_mapped s pd va :
  0 <= va < UTOP →
  view s pd !! PGNUM va = if has PTE_P (pte_of s pd va) then Some (pte_of s pd va) else None.
Proof.
  intros H1. destruct (page_va s pd va H1) as [E R]. rewrite lookup_view, E.
  destruct (has PTE_P (pte_of s pd va)); [by rewrite decide_True|rewrite decide_False; naive_solver].
Qed.

(** Entries that agree give the same view. *)
Lemma view_ext s s' pd pd' :
  (∀ n, 0 <= n < PGNUM UTOP → pte_of s' pd' (n * 4096) = pte_of s pd (n * 4096)) →
  view s' pd' = view s pd.
Proof.
  intros H. apply map_eq. intros n. rewrite !lookup_view.
  destruct (decide (0 <= n < PGNUM UTOP)) as [Hn|Hn]; [by rewrite H|].
  rewrite !decide_False by naive_solver. done.
Qed.

Lemma PGNUM_page_ne n va : 0 <= n → n ≠ PGNUM va → PGNUM (n * 4096) ≠ PGNUM va.
Proof. rewrite !PGNUM_div. intros. by rewrite Z.div_mul by lia. Qed.

(** The entry for one page was written. *)
Lemma view_insert s s' pd va e :
  0 <= va < UTOP → has PTE_P e = true → pte_of s' pd va = e →
  (∀ va', 0 <= va' < 4294967296 → PDX va' ≠ self_index → PGNUM va' ≠ PGNUM va →
    pte_of s' pd va' = pte_of s pd va') →
  view s' pd = <[PGNUM va := e]> (view s pd).
Proof.
  intros Hva Hp He Ho. apply map_eq. intros n.
  rewrite lookup_insert. case_decide as Hn.
  - subst n. rewrite view_mapped by done. by rewrite He, Hp.
  - rewrite !lookup_view. destruct (decide (0 <= n < PGNUM UTOP)) as [Hr|Hr].
    2: { rewrite !decide_False by naive_solver. done. }
    change (PGNUM UTOP) with 977920 in Hr.
    rewrite Ho; [done|lia|apply UTOP_self; change UTOP with 4005560320; lia|].
    apply PGNUM_page_ne; [lia|done].
Qed.

(** The entry for one page was cleared. *)
Lemma view_delete s s' pd va :
  0 <= va < UTOP → pte_of s' pd va = 0 →
  (∀ va', 0 <= va' < 4294967296 → PDX va' ≠ self_index → PGNUM va' ≠ PGNUM va →
    pte_of s' pd va' = pte_of s pd va') →
  view s' pd = delete (PGNUM va) (view s pd).
Proof.
  intros Hva He Ho. apply map_eq. intros n.
  rewrite lookup_delete. case_decide as Hn.
  - subst n. rewrite view_mapped by done. by rewrite He.
  - rewrite !lookup_view. destruct (decide (0 <= n < PGNUM UTOP)) as [Hr|Hr].
    2: { rewrite !decide_False by naive_solver. done. }
    change (PGNUM UTOP) with 977920 in Hr.
    rewrite Ho; [done|lia|apply UTOP_self; change UTOP with 4005560320; lia|].
    apply PGNUM_page_ne; [lia|done].
Qed.
End view.

(** ** Counting *)

Section counting.
Implicit Types (V : gmap Z Z) (n e q : Z).

Lemma uses_nonneg V q : 0 <= uses V q.
Proof. unfold uses. lia. Qed.

Lemma uses_delete V n q :
  uses V q = uses (delete n V) q +
    match V !! n with Some e => if decide (PGNUM e = q) then 1 else 0 | None => 0 end.
Proof.
  unfold uses. destruct (V !! n) as [e|] eqn:He.
  - rewrite <- (insert_delete_id V n e) at 1 by done. case_decide as Hq.
    + rewrite map_filter_insert_True by done. rewrite map_size_insert_None; [lia|].
      apply map_lookup_filter_None. left. apply lookup_delete_eq.
    + rewrite map_filter_insert_False by done. rewrite delete_delete_eq. lia.
  - rewrite delete_id by done. lia.
Qed.

Lemma uses_insert V n e q :
  uses (<[n := e]> V) q = uses (delete n V) q + if decide (PGNUM e = q) then 1 else 0.
Proof. rewrite (uses_delete (<[n := e]> V) n), delete_insert_eq, lookup_insert_eq. done. Qed.

(** A page that is mapped is counted. *)
Lemma uses_pos V n e : V !! n = Some e → 0 < uses V (PGNUM e).
Proof.
  intros H. rewrite (uses_delete V n), H, decide_True by done.
  pose proof (uses_nonneg (delete n V) (PGNUM e)). lia.
Qed.

Lemma refs_nonneg s pds q : 0 <= refs s pds q.
Proof. induction pds as [|pd pds IH]; simpl; [lia|]. pose proof (uses_nonneg (view s pd) q). lia. Qed.

Lemma refs_pos s pds pd n e : pd ∈ pds → view s pd !! n = Some e → 0 < refs s pds (PGNUM e).
Proof.
  intros Hpd He. induction pds as [|pd' pds IH]; [by apply elem_of_nil in Hpd|]. simpl.
  pose proof (uses_nonneg (view s pd') (PGNUM e)). pose proof (refs_nonneg s pds (PGNUM e)).
  apply elem_of_cons in Hpd as [->|Hpd]; [pose proof (uses_pos _ _ _ He)|specialize (IH Hpd)]; lia.
Qed.

(** One directory of the list changed. *)
Lemma refs_update s s' pds pd q :
  NoDup pds → pd ∈ pds → (∀ pd', pd' ∈ pds → pd' ≠ pd → view s' pd' = view s pd') →
  refs s' pds q = refs s pds q - uses (view s pd) q + uses (view s' pd) q.
Proof.
  intros Hn Hpd Ho. induction Hn as [|pd' pds Hni Hn IH]; [by apply elem_of_nil in Hpd|]. simpl.
  apply elem_of_cons in Hpd as [<-|Hpd].
  - assert (refs s' pds q = refs s pds q) as ->; [|lia].
    clear IH Hn. assert (∀ pd', pd' ∈ pds → view s' pd' = view s pd') as Ho'.
    { intros pd' H. apply Ho; [by right|]. intros ->. done. }
    clear Ho Hni. induction pds as [|a pds IH]; [done|]. simpl.
    rewrite Ho' by by left. rewrite IH; [done|]. intros. apply Ho'. by right.
  - rewrite IH; [|done|intros; apply Ho; [by right|done]].
    rewrite Ho; [lia|by left|]. intros ->. done.
Qed.
End counting.

(** ** The invariant *)

(** Page [q] is one of the directories [pds] or of their page tables. *)
Definition structural (s : kstate) (pds : list Z) (q : Z) : Prop :=
  q ∈ pds ∨ ∃ pd i, pd ∈ pds ∧ 0 <= i < 1024 ∧ i ≠ self_index ∧ pt_of s pd i = Some q.

(** Page [q] may be mapped by user environments. *)
Record user_page (s : kstate) (fl pds : list Z) (q : Z) : Prop := {
  up_range : 0 < q < npages s;
  up_used : q ∉ fl;
  up_plain : ¬ structural s pds q
}.

(** [spaces s fl pds]: the directories [pds] are well formed; the page tables
    below [UTOP] belong to one directory each; what they map are ordinary
    allocated pages; no page is mapped more often than its count says; entries
    that are not present are zero. *)
Record spaces (s : kstate) (fl pds : list Z) : Prop := {
  sp_pages : pages_wf s fl;
  sp_zero : 0 ∉ fl;
  sp_nodup : NoDup pds;
  sp_pd pd : pd ∈ pds → pd_wf s fl pd;
  sp_tables pd i t : pd ∈ pds → 0 <= i < 1024 → i ≠ self_index → pt_of s pd i = Some t → t ∉ pds;
  sp_private pd pd' i j t : pd ∈ pds → pd' ∈ pds → pd ≠ pd' → 0 <= i < PDX UTOP →
    0 <= j < 1024 → j ≠ self_index → pt_of s pd i = Some t → pt_of s pd' j ≠ Some t;
  sp_leaf pd n e : pd ∈ pds → view s pd !! n = Some e → user_page s fl pds (PGNUM e);
  sp_clear pd va : pd ∈ pds → 0 <= va < UTOP → mapped s pd va = None → pte_of s pd va = 0;
  sp_refs q p : pages s !! q = Some p → refs s pds q <= pp_ref p
}.

Section invariant.
Implicit Types (s : kstate) (fl pds : list Z) (pd va q : Z) (p : Page).

Lemma user_page_leaf s fl pds pd q : pd ∈ pds → user_page s fl pds q → leaf_ok s fl pd q.
Proof.
  intros Hpd [Hr Hf Hs]. split; [lia|]. split; [done|]. split.
  - intros ->. apply Hs. by left.
  - intros i Hi Hsi Ht. apply Hs. right. eauto 10.
Qed.

Lemma mapped_user s fl pds pd va q :
  spaces s fl pds → pd ∈ pds → 0 <= va < UTOP → mapped s pd va = Some q →
  user_page s fl pds q ∧ view s pd !! PGNUM va = Some (pte_of s pd va) ∧ PGNUM (pte_of s pd va) = q.
Proof.
  intros Hs Hpd Hva Hm. unfold mapped in Hm. destruct (has PTE_P (pte_of s pd va)) eqn:Hp; [|done].
  injection Hm as <-. assert (view s pd !! PGNUM va = Some (pte_of s pd va)) as Hv.
  { rewrite view_mapped by done. by rewrite Hp. }
  split_and!; [|done..]. by eapply sp_leaf.
Qed.

(** What a mapping operation needs of [page_insert]. *)
Lemma spaces_insertable s fl pds pd va pp p :
  spaces s fl pds → pd ∈ pds → cpu_ok s → 0 <= va < UTOP →
  user_page s fl pds pp → pages s !! pp = Some p → insertable s fl pd va pp p.
Proof.
  intros Hs Hpd Hc Hva Hu Hp. split; [done| |by apply UTOP_self|done|by eapply user_page_leaf| |].
  - change UTOP with 4005560320 in Hva. lia.
  - intros q Hm. eapply user_page_leaf; [done|]. by eapply mapped_user.
  - intros E. destruct (mapped s pd va) as [q|] eqn:Hm.
    + unfold mapped in Hm. destruct (has PTE_P _); congruence.
    + rewrite (sp_clear _ _ _ Hs pd va Hpd Hva Hm) in E. change (PGNUM 0) with 0 in E.
      pose proof (up_range _ _ _ _ Hu). lia.
Qed.

Lemma PDX_user va : 0 <= va < UTOP → 0 <= PDX va < PDX UTOP.
Proof. change UTOP with 4005560320. change (PDX 4005560320) with 955. rewrite PDX_div. intros. zlia. Qed.

(** A change that writes only the directory [pd], the table for [va] and free
    pages leaves the other directories alone. *)
Lemma other_space s s' fl pds pd pd' va :
  spaces s fl pds → pd ∈ pds → pd' ∈ pds → pd' ≠ pd → 0 <= va < UTOP →
  (∀ j, j ∉ fl → j ≠ pd → pt_of s pd (PDX va) ≠ Some j → page_same j (mem s) (mem s')) →
  (∀ i, 0 <= i < 1024 → pde_of s' pd' i = pde_of s pd' i) ∧
  (∀ i, 0 <= i < 1024 → pt_of s' pd' i = pt_of s pd' i) ∧
  (∀ va', PDX va' ≠ self_index → pte_of s' pd' va' = pte_of s pd' va').
Proof.
  intros Hs Hpd Hpd' Hne Hva Hm. pose proof (PDX_range va) as Hr. pose proof (PDX_user va Hva) as Hu.
  assert (page_same pd' (mem s) (mem s')) as Hd.
  { apply Hm; [by apply (sp_pd _ _ _ Hs)|done|]. intros Ht.
    eapply (sp_tables _ _ _ Hs pd (PDX va) pd'); [done|done|by apply UTOP_self|done|done]. }
  split; [|split].
  - intros i Hi. unfold pde_of. by apply page_same_slot.
  - intros i Hi. by apply pt_frame.
  - intros va' Hs'. apply pte_frame; [apply pt_frame; [done|apply PDX_range]|].
    intros t Ht. apply Hm.
    + by eapply (pd_table _ _ _ (sp_pd _ _ _ Hs pd' Hpd') _ (PDX_range va') t Hs' Ht).
    + intros ->. by eapply (sp_tables _ _ _ Hs pd' (PDX va') pd); [..|done]; try done; apply PDX_range.
    + intros Ht'. by eapply (sp_private _ _ _ Hs pd pd' (PDX va) (PDX va') t); try done; apply PDX_range.
Qed.

Lemma pd_wf_other s s' fl fl' pds pd pd' va :
  spaces s fl pds → pd ∈ pds → pd' ∈ pds → pd' ≠ pd →
  (∀ i, 0 <= i < 1024 → pt_of s' pd' i = pt_of s pd' i) → npages s' = npages s →
  0 <= va < UTOP →
  (∀ j, j ∈ fl' → j ∈ fl ∨ mapped s pd va = Some j) → pd_wf s' fl' pd'.
Proof.
  intros Hs Hpd Hpd' Hne Hpt Hn Hva Hfl. pose proof (sp_pd _ _ _ Hs pd' Hpd') as [[H1 H1'] H2 H3].
  assert (∀ q, structural s pds q → q ∉ fl → q ∉ fl') as Hnot.
  { intros q Hq Hqf Hqf'. destruct (Hfl q Hqf') as [?|Hm]; [done|].
    destruct (mapped_user s fl pds pd va q Hs Hpd Hva Hm) as [[_ _ Hu] _]. done. }
  split; rewrite ?Hn.
  - split; [done|]. apply Hnot; [by left|done].
  - intros i Hi q Hsi Hq. rewrite Hpt in Hq by done. destruct (H2 i Hi q Hsi Hq) as (? & ? & ?).
    split_and!; [lia|lia| |done]. apply Hnot; [right; eauto 10|done].
  - intros i Hi j Hj q Hsi Hsj Hq Hq'. rewrite Hpt in Hq, Hq' by done. eauto.
Qed.
End invariant.

(** ** Changing one entry *)

Definition points (oe : option Z) (q : Z) : Z :=
  match oe with Some e => if decide (PGNUM e = q) then 1 else 0 | None => 0 end.

(** [changed s s' fl fl' pds pd va oe]: the entry for [va] in [pd] became [oe],
    with the bookkeeping that this needs. *)
Record changed (s s' : kstate) (fl fl' pds : list Z) (pd va : Z) (oe : option Z) : Prop := {
  ch_pages : pages_wf s' fl';
  ch_pd : pd_wf s' fl' pd;
  ch_view : view s' pd = partial_alter (λ _, oe) (PGNUM va) (view s pd);
  ch_clear va' : 0 <= va' < UTOP → mapped s' pd va' = None → pte_of s' pd va' = 0;
  ch_mem j : j ∉ fl → j ≠ pd → pt_of s pd (PDX va) ≠ Some j → page_same j (mem s) (mem s');
  ch_free j : j ∈ fl' → j ∈ fl ∨ mapped s pd va = Some j;
  ch_tables i t : 0 <= i < 1024 → pt_of s' pd i = Some t → pt_of s pd i = Some t ∨ t ∈ fl;
  ch_npages : npages s' = npages s;
  ch_new e : oe = Some e → user_page s fl pds (PGNUM e) ∧ PGNUM e ∉ fl';
  ch_refs q p' : pages s' !! q = Some p' →
    refs s pds q - points (view s pd !! PGNUM va) q + points oe q <= pp_ref p';
  ch_freed q : mapped s pd va = Some q → q ∈ fl' → refs s pds q <= 1
}.

Section changed.
Implicit Types (s : kstate) (fl pds : list Z) (pd va q : Z) (p : Page).

Lemma changed_refs s s' fl fl' pds pd va oe q :
  spaces s fl pds → pd ∈ pds → changed s s' fl fl' pds pd va oe →
  (∀ pd', pd' ∈ pds → pd' ≠ pd → view s' pd' = view s pd') →
  refs s' pds q = refs s pds q - points (view s pd !! PGNUM va) q + points oe q.
Proof.
  intros Hs Hpd Hc Ho. rewrite (refs_update s s' pds pd q (sp_nodup _ _ _ Hs) Hpd Ho).
  rewrite (ch_view _ _ _ _ _ _ _ _ Hc), (uses_delete (view s pd) (PGNUM va)).
  fold (points (view s pd !! PGNUM va) q). destruct oe as [e|]; cbn [points].
  - change (partial_alter (λ _, Some e) (PGNUM va) (view s pd)) with (<[PGNUM va := e]> (view s pd)).
    rewrite uses_insert. lia.
  - change (partial_alter (λ _, None) (PGNUM va) (view s pd)) with (delete (PGNUM va) (view s pd)). lia.
Qed.

Lemma changed_spaces s s' fl fl' pds pd va oe :
  spaces s fl pds → pd ∈ pds → 0 <= va < UTOP → changed s s' fl fl' pds pd va oe →
  spaces s' fl' pds ∧ (∀ pd', pd' ∈ pds → pd' ≠ pd → view s' pd' = view s pd') ∧
  (∀ q, q ∉ fl → structural s' pds q → structural s pds q).
Proof.
  intros Hs Hpd Hva Hc. pose proof Hc as [C1 C2 C3 C4 C5 C6 C7 C8 C9 C10 C11].
  assert (∀ pd', pd' ∈ pds → pd' ≠ pd → (∀ i, 0 <= i < 1024 → pt_of s' pd' i = pt_of s pd' i) ∧
    (∀ va', PDX va' ≠ self_index → pte_of s' pd' va' = pte_of s pd' va')) as Hoth.
  { intros pd' Hpd' Hne. by destruct (other_space s s' fl pds pd pd' va) as (_ & ? & ?). }
  assert (∀ pd', pd' ∈ pds → pd' ≠ pd → view s' pd' = view s pd') as Hview.
  { intros pd' Hpd' Hne. apply view_ext. intros n Hn. apply (Hoth pd' Hpd' Hne), UTOP_self.
    change (PGNUM UTOP) with 977920 in Hn. change UTOP with 4005560320. lia. }
  assert (∀ pd' i t, pd' ∈ pds → 0 <= i < 1024 → pt_of s' pd' i = Some t →
    pt_of s pd' i = Some t ∨ t ∈ fl ∧ pd' = pd) as Hpt.
  { intros pd' i t Hpd' Hi Ht. destruct (decide (pd' = pd)) as [->|Hne].
    - destruct (C7 i t Hi Ht); [by left|by right].
    - left. by rewrite <- (proj1 (Hoth pd' Hpd' Hne)). }
  assert (∀ q, q ∉ fl → structural s' pds q → structural s pds q) as Hstr.
  { intros q Hq [?|(pd' & i & H1 & H2 & H3 & H4)]; [by left|].
    destruct (Hpt pd' i q H1 H2 H4) as [?|[? _]]; [right; eauto 10|done]. }
  assert (∀ pd' i t, pd' ∈ pds → 0 <= i < 1024 → i ≠ self_index → pt_of s pd' i = Some t → t ∉ fl) as Htf.
  { intros pd' i t H1 H2 H3 H4. by eapply (pd_table _ _ _ (sp_pd _ _ _ Hs pd' H1) i H2 t). }
  split; [|by split]. split.
  - done.
  - intros H0. destruct (C6 0 H0) as [?|Hm]; [by apply (sp_zero _ _ _ Hs)|].
    destruct (mapped_user s fl pds pd va 0 Hs Hpd Hva Hm) as [[? _ _] _]. lia.
  - apply Hs.
  - intros pd' Hpd'. destruct (decide (pd' = pd)) as [->|Hne]; [done|].
    eapply (pd_wf_other s s' fl fl' pds pd pd' va); try done. by apply Hoth.
  - intros pd' i t H1 H2 H3 H4 H5. destruct (Hpt pd' i t H1 H2 H4) as [?|[Hf ->]].
    + by eapply (sp_tables _ _ _ Hs pd' i t).
    + by apply (pd_dir _ _ _ (sp_pd _ _ _ Hs t H5)).
  - intros pd1 pd2 i j t H1 H2 Hne Hi Hj Hsj Ht1 Ht2. change (PDX UTOP) with 955 in Hi.
    assert (i ≠ self_index) as Hsi by (change self_index with 957; lia).
    destruct (Hpt pd1 i t H1 ltac:(lia) Ht1) as [O1|[F1 ->]], (Hpt pd2 j t H2 Hj Ht2) as [O2|[F2 ->]].
    + by eapply (sp_private _ _ _ Hs pd1 pd2 i j t).
    + by eapply Htf; [..|exact O1|]; try done; lia.
    + by eapply Htf; [..|exact O2|].
    + done.
  - intros pd' n e Hpd' He.
    assert (user_page s fl pds (PGNUM e) ∧ PGNUM e ∉ fl') as [[U1 U2 U3] U4].
    { destruct (decide (pd' = pd ∧ n = PGNUM va)) as [[-> ->]|Hne].
      - rewrite C3, lookup_partial_alter_eq in He. by apply C9.
      - assert (view s pd' !! n = Some e) as He'.
        { destruct (decide (pd' = pd)) as [->|]; [|by rewrite Hview in He].
          rewrite C3, lookup_partial_alter_ne in He; [done|]. intros <-. tauto. }
        pose proof (sp_leaf _ _ _ Hs pd' n e Hpd' He') as Hu. split; [done|].
        intros Hin. destruct (C6 _ Hin) as [?|Hm]; [by apply Hu|].
        specialize (C11 _ Hm Hin).
        destruct (mapped_user s fl pds pd va (PGNUM e) Hs Hpd Hva Hm) as (_ & Hv & Hq).
        pose proof (changed_refs s s' fl fl' pds pd va oe (PGNUM e) Hs Hpd Hc Hview) as Hr.
        pose proof (refs_pos s' pds pd' n e Hpd' He) as Hpos. rewrite Hr, Hv in Hpos.
        cbn [points] in Hpos. rewrite decide_True in Hpos by done.
        destruct oe as [e'|]; cbn [points] in Hpos; [|lia]. case_decide as E; [|lia].
        destruct (C9 e' eq_refl) as [_ C9']. by rewrite E in C9'. }
    split; [by rewrite C8|done|]. intros Hst. by apply U3, Hstr.
  - intros pd' va' Hpd' Hva' Hm. destruct (decide (pd' = pd)) as [->|Hne]; [by apply C4|].
    destruct (Hoth pd' Hpd' Hne) as [_ Hp]. unfold mapped in Hm. rewrite Hp in Hm |- * by by apply UTOP_self.
    by apply (sp_clear _ _ _ Hs).
  - intros q p' Hp'. rewrite (changed_refs s s' fl fl' pds pd va oe q Hs Hpd Hc Hview). by apply C10.
Qed.
End changed.

(** ** [page_insert] and [page_remove] on the invariant *)

(** The entry that [page_insert] writes. *)
Definition pte_entry (q perm : Z) : Z := Z.lor (Z.lor (page2pa q) perm) PTE_P.

Section operations.
Implicit Types (s : kstate) (fl pds : list Z) (pd va q : Z) (p : Page).

Lemma uses_zero V q : (∀ n e, V !! n = Some e → PGNUM e ≠ q) → uses V q = 0.
Proof.
  intros H. unfold uses. rewrite map_empty_filter_2; [done|]. intros n e He. simpl. by eapply H.
Qed.

Lemma refs_zero s pds q :
  (∀ pd n e, pd ∈ pds → view s pd !! n = Some e → PGNUM e ≠ q) → refs s pds q = 0.
Proof.
  intros H. induction pds as [|pd pds IH]; simpl; [done|].
  rewrite uses_zero, IH; [done| |].
  - intros pd' n e Hpd'. apply H. by right.
  - intros n e. apply H. by left.
Qed.

Lemma free_unmapped s fl pds q : spaces s fl pds → q ∈ fl → refs s pds q = 0.
Proof.
  intros Hs Hq. apply refs_zero. intros pd n e Hpd He <-. by apply (sp_leaf _ _ _ Hs pd n e Hpd He).
Qed.

Lemma points_mapped s fl pds pd va q :
  spaces s fl pds → pd ∈ pds → 0 <= va < UTOP →
  points (view s pd !! PGNUM va) q = if decide (mapped s pd va = Some q) then 1 else 0.
Proof.
  intros Hs Hpd Hva. rewrite view_mapped by done. unfold mapped.
  destruct (has PTE_P (pte_of s pd va)); cbn [points]; [|by rewrite decide_False].
  destruct (decide (PGNUM (pte_of s pd va) = q)) as [->|Hne]; [by rewrite decide_True|].
  rewrite decide_False; [done|]. congruence.
Qed.

Lemma inserted_changed s s' fl fl' pds pd va pp p perm :
  spaces s fl pds → pd ∈ pds → 0 <= va < UTOP → user_page s fl pds pp →
  pages s !! pp = Some p → pp_ref p < 65535 → 0 <= perm < 4096 →
  inserted s s' fl fl' pd va pp p perm →
  changed s s' fl fl' pds pd va (Some (pte_entry pp perm)).
Proof.
  intros Hs Hpd Hva Hu Hp Hlt Hperm Hin. destruct Hin as [I1 I2 I3 I4 I5 I6 I7 I8 I9 I10 I11 I12 I13 I14].
  pose proof (pw_npages _ _ (sp_pages _ _ _ Hs)) as Hn. pose proof (up_range _ _ _ _ Hu) as Hr.
  assert (PGNUM (pte_entry pp perm) = pp) as HPG by (apply entry_PGNUM; lia).
  assert (0 <= va < 4294967296) as Hva' by (change UTOP with 4005560320 in Hva; lia).
  split; try done.
  - change (partial_alter (λ _, Some ?e) ?n ?V) with (<[n := e]> V).
    apply view_insert; [done|apply entry_present|done|done].
  - intros va1 H1 Hm. assert (0 <= va1 < 4294967296) by (change UTOP with 4005560320 in H1; lia).
    destruct (decide (PGNUM va1 = PGNUM va)) as [E|E].
    + unfold mapped in Hm. rewrite (pte_same_page s' pd va va1), I3 in Hm by done. by rewrite entry_present in Hm.
    + unfold mapped in Hm. rewrite I4 in Hm |- * by (done || by apply UTOP_self).
      by apply (sp_clear _ _ _ Hs).
  - intros i t Hi Ht. by apply (I10 i Hi).
  - apply (vm_npages _ _ I11).
  - intros e [= <-]. by rewrite HPG.
  - intros q p' Hp'. rewrite (points_mapped s fl pds) by done. cbn [points]. rewrite HPG.
    destruct (decide (pp = q)) as [<-|Hne].
    + rewrite Hp' in I5. cbn [fmap option_fmap option_map] in I5. injection I5 as I5.
      pose proof (sp_refs _ _ _ Hs pp p Hp). pose proof (pw_page _ _ (sp_pages _ _ _ Hs) _ _ Hp) as (_ & _ & ?).
      case_decide; [lia|]. rewrite u16_id in I5 by lia. lia.
    + destruct (decide (mapped s pd va = Some q)) as [Hm|Hm].
      * destruct (mapped_user s fl pds pd va q Hs Hpd Hva Hm) as (Hq & Hv & Hvq).
        destruct (pw_total _ _ (sp_pages _ _ _ Hs) q) as [p0 Hp0]; [destruct (up_range _ _ _ _ Hq); lia|].
        destruct (I6 q p0 Hm ltac:(done) Hp0) as [I6a _]. rewrite Hp' in I6a.
        cbn [fmap option_fmap option_map] in I6a. injection I6a as I6a.
        pose proof (sp_refs _ _ _ Hs q p0 Hp0). pose proof (refs_pos s pds pd _ _ Hpd Hv) as Hpos.
        rewrite Hvq in Hpos. pose proof (pw_page _ _ (sp_pages _ _ _ Hs) _ _ Hp0) as (_ & _ & ?).
        rewrite u16_id in I6a by lia. lia.
      * destruct (decide (q ∈ fl)) as [Hf|Hf].
        -- rewrite (free_unmapped s fl pds q Hs Hf). pose proof (pw_page _ _ I1 _ _ Hp') as (_ & _ & ?). lia.
        -- rewrite I8 in Hp' by done. pose proof (sp_refs _ _ _ Hs q p' Hp'). lia.
  - intros q Hm Hq. assert (q ≠ pp) as Hne by (intros ->; done).
    destruct (mapped_user s fl pds pd va q Hs Hpd Hva Hm) as (Hqu & _).
    destruct (pw_total _ _ (sp_pages _ _ _ Hs) q) as [p0 Hp0]; [destruct (up_range _ _ _ _ Hqu); lia|].
    destruct (I6 q p0 Hm Hne Hp0) as [_ I6b]. pose proof (sp_refs _ _ _ Hs q p0 Hp0).
    apply I6b in Hq. lia.
Qed.

Lemma removed_changed s s' fl fl' pds pd va q p :
  spaces s fl pds → pd ∈ pds → 0 <= va < UTOP →
  mapped s pd va = Some q → pages s !! q = Some p → removed s s' fl fl' pd va q p →
  changed s s' fl fl' pds pd va None.
Proof.
  intros Hs Hpd Hva Hm Hp Hrm. destruct Hrm as [R1 R2 R3 R4 R5 R6 R7 R8 R9 _ R11].
  assert (0 <= va < 4294967296) as Hva' by (change UTOP with 4005560320 in Hva; lia).
  pose proof (sp_refs _ _ _ Hs q p Hp) as Hrf.
  destruct (mapped_user s fl pds pd va q Hs Hpd Hva Hm) as (Hqu & Hv & Hvq).
  split; try done.
  - change (partial_alter (λ _, None) ?n ?V) with (delete n V). by apply view_delete.
  - intros va1 H1 Hm1. assert (0 <= va1 < 4294967296) by (change UTOP with 4005560320 in H1; lia).
    destruct (decide (PGNUM va1 = PGNUM va)) as [E|E]; [by rewrite (pte_same_page s' pd va va1)|].
    unfold mapped in Hm1. rewrite R5 in Hm1 |- * by (done || by apply UTOP_self).
    by apply (sp_clear _ _ _ Hs).
  - intros j Hj Hne Ht. by apply R9.
  - intros j. rewrite R3. destruct (pp_ref p =? 1); [|by left].
    intros [->|?]%elem_of_cons; [by right|by left].
  - intros i t Hi. rewrite R8 by done. by left.
  - apply (vm_npages _ _ R11).
  - intros j p' Hp'. rewrite (points_mapped s fl pds) by done. cbn [points].
    destruct (decide (mapped s pd va = Some j)) as [E|E].
    + assert (j = q) as -> by congruence. rewrite Hp' in R6. cbn [fmap option_fmap option_map] in R6.
      injection R6 as R6. pose proof (refs_pos s pds pd _ _ Hpd Hv) as Hpos. rewrite Hvq in Hpos.
      pose proof (pw_page _ _ (sp_pages _ _ _ Hs) _ _ Hp) as (_ & _ & ?).
      rewrite u16_id in R6 by lia. lia.
    + rewrite R7 in Hp' by congruence. pose proof (sp_refs _ _ _ Hs j p' Hp'). lia.
  - intros j Hm'. assert (j = q) as -> by congruence. rewrite R3.
    destruct (Z.eqb_spec (pp_ref p) 1); [lia|]. intros Hf. by destruct (up_used _ _ _ _ Hqu).
Qed.
End operations.

(** ** Steps of the virtual memory system *)

(** [vm_step s s' fl fl' pds pd va oe]: the entry for [va] in [pd] became [oe];
    every other mapping and the contents of every page that may be mapped are as
    before, and no flag of a directory entry was lost. *)
Record vm_step (s s' : kstate) (fl fl' pds : list Z) (pd va : Z) (oe : option Z) : Prop := {
  vs_spaces : spaces s' fl' pds;
  vs_view : view s' pd = partial_alter (λ _, oe) (PGNUM va) (view s pd);
  vs_others pd' : pd' ∈ pds → pd' ≠ pd → view s' pd' = view s pd';
  vs_mem j : user_page s fl pds j → page_same j (mem s) (mem s');
  vs_frame : vm_frame s s';
  vs_flags pd' i f : pd' ∈ pds → 0 <= i < 1024 → pt_of s pd' i ≠ None →
    has f (pde_of s pd' i) = true → has f (pde_of s' pd' i) = true;
  vs_high pd' i : pd' ∈ pds → PDX UTOP <= i < 1024 → pde_of s' pd' i = pde_of s pd' i;
  vs_user j : user_page s fl pds j → (∀ e, view s pd !! PGNUM va = Some e → PGNUM e ≠ j) → user_page s' fl' pds j;
  vs_dirs pd' i : pd' ∈ pds → pd' ≠ pd → 0 <= i < 1024 → pde_of s' pd' i = pde_of s pd' i
}.

Section steps.
Implicit Types (s : kstate) (fl pds : list Z) (pd va q : Z) (p : Page).

Lemma changed_step s s' fl fl' pds pd va oe :
  spaces s fl pds → pd ∈ pds → 0 <= va < UTOP →
  changed s s' fl fl' pds pd va oe → vm_frame s s' →
  (∀ i f, 0 <= i < 1024 → pt_of s pd i ≠ None → has f (pde_of s pd i) = true →
    has f (pde_of s' pd i) = true) →
  (∀ i, 0 <= i < 1024 → i ≠ PDX va → pde_of s' pd i = pde_of s pd i) →
  vm_step s s' fl fl' pds pd va oe.
Proof.
  intros Hs Hpd Hva Hc Hf Hfl Hdir.
  destruct (changed_spaces s s' fl fl' pds pd va oe Hs Hpd Hva Hc) as (Hs' & Ho & Hstr).
  split; [done|apply Hc|done| |done| | | |].
  - intros j [_ Hj Hst]. apply (ch_mem _ _ _ _ _ _ _ _ Hc); [done|intros ->; apply Hst; by left|].
    intros Ht. apply Hst. right. exists pd, (PDX va).
    split_and!; [done|apply PDX_range|apply PDX_range|by apply UTOP_self|done].
  - intros pd' i f Hpd' Hi Ht Hh. destruct (decide (pd' = pd)) as [->|Hne]; [by apply Hfl|].
    destruct (other_space s s' fl pds pd pd' va) as (-> & _); try done. apply Hc.
  - intros pd' i Hpd' Hi. pose proof (PDX_user va Hva) as Hu. change (PDX UTOP) with 955 in *.
    destruct (decide (pd' = pd)) as [->|Hne]; [apply Hdir; lia|].
    destruct (other_space s s' fl pds pd pd' va) as (H & _); try done; [apply Hc|]. apply H. lia.
  - intros j [U1 U2 U3] Hv. split; [by rewrite (ch_npages _ _ _ _ _ _ _ _ Hc)| |by intros ?%Hstr].
    intros Hin. destruct (ch_free _ _ _ _ _ _ _ _ Hc j Hin) as [?|Hm]; [done|].
    destruct (mapped_user s fl pds pd va j Hs Hpd Hva Hm) as (_ & Hv' & E). by apply (Hv _ Hv').
  - intros pd' i Hpd' Hne Hi. destruct (other_space s s' fl pds pd pd' va) as (H & _); try done; [apply Hc|]. by apply H.
Qed.

Lemma insert_step s fl pds pd va pp p perm :
  spaces s fl pds → pd ∈ pds → cpu_ok s → 0 <= va < UTOP →
  user_page s fl pds pp → pages s !! pp = Some p → pp_ref p < 65535 → 0 <= perm < 4096 →
  (pt_of s pd (PDX va) = None ∧ fl = [] ∧
     page_insert (pgdir_kva pd) (Some pp) va perm s = Done (- E_NO_MEM) s) ∨
  ∃ s' fl', page_insert (pgdir_kva pd) (Some pp) va perm s = Done 0 s' ∧
    vm_step s s' fl fl' pds pd va (Some (pte_entry pp perm)) ∧
    (∀ f, has f perm = true → has f (pde_of s' pd (PDX va)) = true) ∧
    (∃ p', pages s' !! pp = Some p' ∧ pp_ref p' <= pp_ref p + 1) ∧ (length fl <= S (length fl'))%nat.
Proof.
  intros Hs Hpd Hc Hva Hu Hp Hlt Hperm.
  pose proof (spaces_insertable s fl pds pd va pp p Hs Hpd Hc Hva Hu Hp) as Hins.
  destruct (insert_spec s fl pd va pp p perm (sp_pages _ _ _ Hs) (sp_pd _ _ _ Hs pd Hpd) Hins Hperm)
    as [?|(s' & fl' & Hrun & Hin)]; [by left|right].
  exists s', fl'. split; [done|]. split; [|split; [|split]].
  - apply changed_step; try done; [by eapply inserted_changed|apply Hin| |apply Hin].
    intros i f Hi Ht Hf. destruct (decide (i = PDX va)) as [->|Hne].
    + apply (in_flags _ _ _ _ _ _ _ _ _ Hin). by right.
    + by rewrite (in_dir _ _ _ _ _ _ _ _ _ Hin).
  - intros f Hf. apply (in_flags _ _ _ _ _ _ _ _ _ Hin). by left.
  - pose proof (in_ref _ _ _ _ _ _ _ _ _ Hin) as Hr. destruct (pages s' !! pp) as [p'|]; [|done].
    exists p'. split; [done|]. injection Hr as ->.
    pose proof (pw_page _ _ (sp_pages _ _ _ Hs) _ _ Hp) as (_ & _ & ?).
    case_decide; [lia|]. rewrite u16_id by lia. lia.
  - destruct (in_list _ _ _ _ _ _ _ _ _ Hin) as (fl1 & [[-> _]|(t & -> & _)] & [->|(q & _ & _ & ->)]); simpl; lia.
Qed.

Lemma remove_step s fl pds pd va :
  spaces s fl pds → pd ∈ pds → cpu_ok s → 0 <= va < UTOP →
  ∃ s' fl', page_remove (pgdir_kva pd) va s = Done tt s' ∧ vm_step s s' fl fl' pds pd va None.
Proof.
  intros Hs Hpd Hc Hva. assert (0 <= va < 4294967296) as Hva' by (change UTOP with 4005560320 in Hva; lia).
  pose proof (UTOP_self va Hva) as Hself.
  destruct (mapped s pd va) as [q|] eqn:Hm.
  - destruct (mapped_user s fl pds pd va q Hs Hpd Hva Hm) as (Hq & _).
    destruct (pw_total _ _ (sp_pages _ _ _ Hs) q) as [p Hp]; [destruct (up_range _ _ _ _ Hq); lia|].
    destruct (remove_spec s fl pd va q p (sp_pages _ _ _ Hs) (sp_pd _ _ _ Hs pd Hpd) Hc Hva' Hself Hm
      (user_page_leaf s fl pds pd q Hpd Hq) Hp) as (s' & fl' & Hrun & Hrm).
    assert (∀ i, 0 <= i < 1024 → pde_of s' pd i = pde_of s pd i) as Hdir.
    { intros i Hi. unfold pde_of. apply page_same_slot; [|done].
      apply (rm_same_mem _ _ _ _ _ _ _ _ Hrm). intros Ht.
      by destruct (pd_table _ _ _ (sp_pd _ _ _ Hs pd Hpd) _ (PDX_range va) pd Hself Ht) as (_ & _ & ?). }
    exists s', fl'. split; [done|]. apply changed_step; try done; [by eapply removed_changed|apply Hrm| |].
    + intros i f Hi _ Hf. by rewrite Hdir.
    + intros i Hi _. by apply Hdir.
  - exists s, fl. split; [by eapply remove_none; try apply Hs|]. split; try done.
    assert (view s pd !! PGNUM va = None) as Hv.
    { rewrite view_mapped by done. unfold mapped in Hm. by destruct (has PTE_P _). }
    change (partial_alter (λ _, None) ?n ?V) with (delete n V). by rewrite delete_id.
Qed.
End steps.

(** ** Taking and giving back a page *)

Section allocation.
Implicit Types (s : kstate) (fl pds : list Z) (pd va q : Z) (p : Page).

(** A change that leaves all directories and tables alone. *)
Lemma spaces_frame s s' fl fl' pds :
  spaces s fl pds → pages_wf s' fl' → 0 ∉ fl' → npages s' = npages s →
  (∀ q, structural s pds q → page_same q (mem s) (mem s')) →
  (∀ j, j ∈ fl' → j ∈ fl ∨ ¬ structural s pds j ∧ refs s pds j = 0) →
  (∀ q p', pages s' !! q = Some p' → refs s pds q <= pp_ref p') →
  spaces s' fl' pds ∧
  (∀ pd, pd ∈ pds → view s' pd = view s pd ∧ (∀ i, 0 <= i < 1024 → pde_of s' pd i = pde_of s pd i)).
Proof.
  intros Hs Hw Hz Hn Hm Hfl Hr.
  assert (∀ pd i, pd ∈ pds → 0 <= i < 1024 → pde_of s' pd i = pde_of s pd i) as Hpde.
  { intros pd i Hpd Hi. unfold pde_of. apply page_same_slot; [|done]. apply Hm. by left. }
  assert (∀ pd i, pd ∈ pds → 0 <= i < 1024 → pt_of s' pd i = pt_of s pd i) as Hpt.
  { intros pd i Hpd Hi. unfold pt_of. by rewrite Hpde. }
  assert (∀ pd va, pd ∈ pds → 0 <= va < UTOP → pte_of s' pd va = pte_of s pd va) as Hpte.
  { intros pd va Hpd Hva. apply pte_frame; [apply Hpt; [done|apply PDX_range]|].
    intros t Ht. apply Hm. right. exists pd, (PDX va).
    split_and!; [done|apply PDX_range|apply PDX_range|by apply UTOP_self|done]. }
  assert (∀ pd, pd ∈ pds → view s' pd = view s pd) as Hv.
  { intros pd Hpd. apply view_ext. intros n H. apply Hpte; [done|].
    change (PGNUM UTOP) with 977920 in H. change UTOP with 4005560320. lia. }
  assert (∀ q, structural s' pds q ↔ structural s pds q) as Hst.
  { intros q. unfold structural. split; intros [?|(pd & i & H1 & H2 & H3 & H4)]; [by left| |by left|];
      right; exists pd, i; split_and!; try done; try lia; [by rewrite <- Hpt|by rewrite Hpt]. }
  assert (∀ q, structural s pds q → q ∉ fl → q ∉ fl') as Hnf.
  { intros q H1 H2 H3. destruct (Hfl q H3) as [?|[? _]]; done. }
  assert (∀ q, refs s' pds q = refs s pds q) as Hrefs.
  { intros q. clear -Hv. induction pds as [|pd pds IH]; simpl; [done|].
    rewrite Hv by by left. rewrite IH; [done|]. intros. apply Hv. by right. }
  split; [|by split; [apply Hv|intros; apply Hpde]].
  split; [done|done|apply Hs| | | | | |].
  - intros pd Hpd. destruct (sp_pd _ _ _ Hs pd Hpd) as [[H1 H1'] H2 H3]. split; rewrite ?Hn.
    + split; [done|]. apply Hnf; [by left|done].
    + intros i Hi q Hsi Hq. rewrite Hpt in Hq by done. destruct (H2 i Hi q Hsi Hq) as (? & ? & ?).
      split_and!; [lia|lia| |done]. apply Hnf; [right; eauto 10|done].
    + intros i Hi j Hj q Hsi Hsj Hq Hq'. rewrite Hpt in Hq, Hq' by done. eauto.
  - intros pd i t Hpd Hi Hsi. rewrite Hpt by done. by apply (sp_tables _ _ _ Hs).
  - intros pd pd' i j t H1 H2 Hne Hi Hj Hsj. change (PDX UTOP) with 955 in Hi.
    rewrite !Hpt by (done || lia). apply (sp_private _ _ _ Hs); done.
  - intros pd n e Hpd. rewrite Hv by done. intros He.
    pose proof (refs_pos s pds pd n e Hpd He) as Hpos.
    destruct (sp_leaf _ _ _ Hs pd n e Hpd He) as [U1 U2 U3]. split; [by rewrite Hn| |by rewrite Hst].
    intros Hin. destruct (Hfl _ Hin) as [?|[_ ?]]; [done|lia].
  - intros pd va Hpd Hva. unfold mapped. rewrite Hpte by done. by apply (sp_clear _ _ _ Hs).
  - intros q p' Hp'. rewrite Hrefs. by apply Hr.
Qed.

Lemma alloc_spaces flags s fl pds q p :
  spaces s (q :: fl) pds → pages s !! q = Some p →
  let s1 := alloc_post flags q p s in
  page_alloc flags s = Done (Some q) s1 ∧ spaces s1 fl pds ∧ user_page s1 fl pds q ∧
  pages s1 !! q = Some (mkPage None (paddr p) 0) ∧ refs s1 pds q = 0 ∧
  (∀ j, j ≠ q → page_same j (mem s) (mem s1)) ∧
  (has ALLOC_ZERO flags = true → ∀ a, q * 4096 <= a < (q + 1) * 4096 → mget (mem s1) a = 0) ∧
  (∀ pd, pd ∈ pds → view s1 pd = view s pd ∧ (∀ i, 0 <= i < 1024 → pde_of s1 pd i = pde_of s pd i)).
Proof.
  intros Hs Hq s1. pose proof (sp_pages _ _ _ Hs) as Hw. pose proof (pw_paddr _ _ _ _ Hw Hq) as Hp.
  pose proof (pw_nodup _ _ Hw) as [Hnf _]%NoDup_cons. pose proof (pw_in_range _ _ q Hw ltac:(by left)) as Hr.
  pose proof (free_unmapped s _ pds q Hs ltac:(by left)) as Href.
  assert (¬ structural s pds q) as Hst.
  { intros [H|(pd & i & H1 & H2 & H3 & H4)].
    - destruct (pd_dir _ _ _ (sp_pd _ _ _ Hs q H)) as [_ H']. apply H'. by left.
    - destruct (pd_table _ _ _ (sp_pd _ _ _ Hs pd H1) i H2 q H3 H4) as (_ & H' & _). apply H'. by left. }
  assert (∀ j, j ≠ q → page_same j (mem s) (mem s1)) as Hm.
  { intros j Hj. unfold s1, alloc_post. simpl. destruct (has ALLOC_ZERO flags); [|done]. simpl. rewrite Hp. by apply fill_page_same. }
  assert (npages s1 = npages s) as Hn1 by (unfold s1, alloc_post; by destruct (has ALLOC_ZERO flags)).
  destruct (spaces_frame s s1 (q :: fl) fl pds Hs) as [Hs1 Hv].
  - by apply alloc_post_wf.
  - intros H. apply (sp_zero _ _ _ Hs). by right.
  - done.
  - intros j Hj. apply Hm. intros ->. done.
  - intros j Hj. left. by right.
  - intros j p'. unfold s1, alloc_post. simpl. rewrite lookup_insert. case_decide as E.
    + intros [= <-]. subst j. simpl. lia.
    + apply (sp_refs _ _ _ Hs).
  - assert (user_page s1 fl pds q) as Hu.
    { split; [|done|].
      - assert (q ≠ 0) by (intros ->; apply (sp_zero _ _ _ Hs); by left). rewrite Hn1. lia.
      - intros Hst'. apply Hst. destruct Hst' as [?|(pd & i & H1 & H2 & H3 & H4)]; [by left|right].
        exists pd, i. split_and!; [done|apply H2|apply H2|done|]. revert H4. unfold pt_of. by rewrite (proj2 (Hv pd H1)). }
    split_and!; try done.
    + destruct (page_alloc_cons s fl q flags Hw) as (p' & Hp' & _ & Ha). assert (p' = p) as -> by congruence. done.
    + unfold s1, alloc_post. simpl. apply lookup_insert_eq.
    + apply refs_zero. intros pd n e Hpd He E. rewrite (proj1 (Hv pd Hpd)) in He.
      pose proof (refs_pos s pds pd n e Hpd He). rewrite E in *. lia.
    + intros Hz a Hra. unfold s1, alloc_post. rewrite Hz. simpl. rewrite Hp, mget_fill, decide_True; [done|]. unfold PGSIZE. lia.
Qed.

Lemma free_spaces s fl pds q p :
  spaces s fl pds → user_page s fl pds q → refs s pds q = 0 → pages s !! q = Some p → pp_ref p = 0 →
  let s1 := free_post q p s in
  spaces s1 (q :: fl) pds ∧
  (∀ pd, pd ∈ pds → view s1 pd = view s pd ∧ (∀ i, 0 <= i < 1024 → pde_of s1 pd i = pde_of s pd i)).
Proof.
  intros Hs [Hr Hf Hst] Href Hq Hrf s1. apply (spaces_frame s s1 fl (q :: fl) pds Hs).
  - apply free_post_wf; [apply Hs|done|done].
  - intros [?|?]%elem_of_cons; [lia|by apply (sp_zero _ _ _ Hs)].
  - done.
  - intros j _. done.
  - intros j [->|?]%elem_of_cons; [by right|by left].
  - intros j p'. unfold s1, free_post. simpl. rewrite lookup_insert. case_decide as E.
    + intros [= <-]. subst j. simpl. lia.
    + apply (sp_refs _ _ _ Hs).
Qed.
End allocation.

(** ** System calls *)

(** No mapping and no page that may be mapped changed. *)
Record vm_same (s s' : kstate) (fl pds : list Z) : Prop := {
  sm_spaces : spaces s' fl pds;
  sm_view pd : pd ∈ pds → view s' pd = view s pd;
  sm_mem j : user_page s fl pds j → page_same j (mem s) (mem s');
  sm_frame : vm_frame s s';
  sm_dir pd i : pd ∈ pds → 0 <= i < 1024 → pde_of s' pd i = pde_of s pd i
}.

Section syscalls.
Implicit Types (s : kstate) (c : Cpu) (x y : Env) (fl pds : list Z) (pd va q cur : Z) (p : Page).

Lemma vm_same_refl s fl pds : spaces s fl pds → vm_same s s fl pds.
Proof. by split. Qed.

(** The caller names environment [e], described by [y], in the space [pd]. *)
Record names (s : kstate) (cur envid : Z) (check : bool) (pds : list Z) (e pd : Z) : Prop := {
  nm_resolve : resolve s cur envid check = Some e;
  nm_env : ∃ y, envs s !! e = Some y ∧ env_pgdir y = pgdir_kva pd;
  nm_space : pd ∈ pds
}.

Lemma alloc_insert_step flags s fl pds pd va q p perm :
  spaces s (q :: fl) pds → pages s !! q = Some p → cpu_ok s → pd ∈ pds →
  0 <= va < UTOP → 0 <= perm < 4096 →
  let s1 := alloc_post flags q p s in
  (pt_of s pd (PDX va) = None ∧ fl = [] ∧
     page_insert (pgdir_kva pd) (Some q) va perm s1 = Done (- E_NO_MEM) s1 ∧
     page_free (Some q) s1 = Done tt (free_post q (mkPage None (paddr p) 0) s1) ∧
     vm_same s (free_post q (mkPage None (paddr p) 0) s1) [q] pds) ∨
  (∃ s' fl', page_insert (pgdir_kva pd) (Some q) va perm s1 = Done 0 s' ∧
     vm_step s s' (q :: fl) fl' pds pd va (Some (pte_entry q perm)) ∧
     (∀ f, has f perm = true → has f (pde_of s' pd (PDX va)) = true) ∧
     (has ALLOC_ZERO flags = true → ∀ a, q * 4096 <= a < (q + 1) * 4096 → mget (mem s') a = 0) ∧
     (∃ p', pages s' !! q = Some p' ∧ pp_ref p' <= 1) ∧ (length fl <= S (length fl'))%nat).
Proof.
  intros Hs Hq Hc Hpd Hva Hperm s1.
  destruct (alloc_spaces flags s fl pds q p Hs Hq) as (_ & Hs1 & Hu & Hq1 & Hr & Hm & Hz & Hv). fold s1 in Hs1, Hu, Hq1, Hr, Hm, Hz, Hv.
  assert (vm_frame s s1) as Hf by apply vm_frame_alloc.
  assert (∀ j, user_page s (q :: fl) pds j → j ≠ q ∧ user_page s1 fl pds j) as Hup.
  { intros j [U1 U2 U3]. apply not_elem_of_cons in U2 as [Hne U2]. split; [done|]. split; [by rewrite (vm_npages _ _ Hf)|done|].
    intros [?|(pd' & i & H1 & H2 & H3 & H4)]; apply U3; [by left|right]. exists pd', i.
    split_and!; [done|apply H2|apply H2|done|]. revert H4. unfold pt_of. by rewrite (proj2 (Hv pd' H1)). }
  assert (∀ pd' i, pd' ∈ pds → 0 <= i < 1024 → pt_of s1 pd' i = pt_of s pd' i) as Hpt.
  { intros pd' i H1 H2. unfold pt_of. by rewrite (proj2 (Hv pd' H1)). }
  assert (cpu_ok s1) as Hc1 by (by eapply cpu_ok_frame).
  clearbody s1.
  destruct (insert_step s1 fl pds pd va q (mkPage None (paddr p) 0) perm Hs1 Hpd Hc1 Hva Hu Hq1)
    as [(Hn & -> & Hrun)|(s' & fl' & Hrun & Hst & Hfl & (p' & Hp' & Hle) & Hlen)]; [simpl; lia|done|left|right].
  - destruct (free_spaces s1 [] pds q _ Hs1 Hu Hr Hq1 eq_refl) as [Hs2 Hv2].
    split_and!; [by rewrite <- Hpt by (done || apply PDX_range)|done|done| |].
    + apply (page_free_eq s1 []); [apply Hs1|done].
    + split; [done| | |etrans; [done|apply vm_frame_free]|].
      * intros pd' H. by rewrite (proj1 (Hv2 pd' H)), (proj1 (Hv pd' H)).
      * intros j Hj. apply Hup in Hj as [Hne _]. by apply Hm.
      * intros pd' i H Hi. by rewrite (proj2 (Hv2 pd' H)), (proj2 (Hv pd' H)).
  - exists s', fl'. split; [done|]. split; [|split; [done|split; [|split; [|done]]]].
    + destruct Hst as [V1 V2 V3 V4 V5 V6 V7 V8 V9]. split; [done| | | |by etrans| | | |].
      * by rewrite V2, (proj1 (Hv pd Hpd)).
      * intros pd' H Hne. by rewrite V3, (proj1 (Hv pd' H)).
      * intros j Hj. apply Hup in Hj as [Hne Hj]. etrans; [by apply Hm|by apply V4].
      * intros pd' i f H Hi Ht Hh. apply V6; [done|done|by rewrite Hpt|by rewrite (proj2 (Hv pd' H))].
      * intros pd' i H Hi. rewrite V7 by done. apply (proj2 (Hv pd' H)). change (PDX UTOP) with 955 in Hi. lia.
      * intros j Hj Hv'. apply Hup in Hj as [Hne Hj]. apply V8; [done|]. by rewrite (proj1 (Hv pd Hpd)).
      * intros pd' i H Hne Hi. rewrite V9 by done. by apply (proj2 (Hv pd' H)).
    + intros Hz0 a Ha. rewrite <- (Hz Hz0 a Ha). by apply (vs_mem _ _ _ _ _ _ _ _ Hst q Hu).
    + exists p'. split; [done|]. simpl in Hle. lia.
Qed.

(** [sys_page_alloc] with acceptable arguments. *)
Lemma sys_page_alloc_step s c cur x fl pds envid e pd va perm :
  in_call s c cur x → names s cur envid true pds e pd → spaces s fl pds →
  0 <= va < UTOP → Z.land perm (Z.lnot PTE_SYSCALL) = 0 →
  (∃ s', sys_page_alloc envid va perm s = Done (- E_NO_MEM) s' ∧ vm_same s s' fl pds ∧
     (fl = [] ∨ pt_of s pd (PDX va) = None ∧ length fl = 1%nat)) ∨
  (∃ q s' fl', sys_page_alloc envid va perm s = Done 0 s' ∧ q ∈ fl ∧
     vm_step s s' fl fl' pds pd va (Some (pte_entry q perm)) ∧
     (∀ f, has f perm = true → has f (pde_of s' pd (PDX va)) = true) ∧
     (∀ a, q * 4096 <= a < (q + 1) * 4096 → mget (mem s') a = 0) ∧
     (∃ p', pages s' !! q = Some p' ∧ pp_ref p' <= 1)).
Proof.
  intros Hic [Her (y & Hy & Hdir) Hpd] Hs Hva Hperm.
  pose proof (syscall_perm_range perm Hperm) as Hr. pose proof (in_call_ok _ _ _ _ Hic) as Hok.
  unfold sys_page_alloc. rewrite (bind_Done _ _ _ _ _ (envid2env_resolve s c cur x envid true Hic)), Her.
  change (negb (0 =? 0)) with false. cbv iota.
  rewrite (proj2 (Z.leb_gt UTOP va)), Hperm by lia. change (false || negb (0 =? 0)) with false. cbv iota.
  destruct fl as [|q fl].
  { left. exists s. split; [|split; [by apply vm_same_refl|by left]].
    rewrite (bind_Done _ _ _ None s); [done|]. apply page_alloc_nil, Hs. }
  destruct (pw_total _ _ (sp_pages _ _ _ Hs) q) as [p Hq]; [apply (pw_in_range _ _ _ (sp_pages _ _ _ Hs)); by left|].
  destruct (alloc_spaces ALLOC_ZERO s fl pds q p Hs Hq) as (Ha & _). rewrite (bind_Done _ _ _ _ _ Ha).
  destruct (alloc_insert_step ALLOC_ZERO s fl pds pd va q p perm Hs Hq Hok Hpd Hva Hr)
    as [(Hn & -> & Hrun & Hfree & Hsame)|(s' & fl' & Hrun & Hst)].
  all: assert (envs (alloc_post ALLOC_ZERO q p s) = envs s) as Hen by done.
  all: revert Hrun Hen; try revert Hfree Hsame; generalize (alloc_post ALLOC_ZERO q p s); intros s1; intros.
  all: cbn [deref]; rewrite run_ret, (run_get_env _ y) by congruence; rewrite Hdir, (bind_Done _ _ _ _ _ Hrun).
  - left. change (negb (- E_NO_MEM =? 0)) with true. cbv iota. rewrite (bind_Done _ _ _ _ _ Hfree).
    eexists. split; [reflexivity|]. split; [exact Hsame|]. by right.
  - right. exists q, s', fl'. split; [done|]. split; [by left|].
    destruct Hst as (H1 & H2 & H3 & H4 & _). split; [done|]. split; [done|]. split; [exact (H3 eq_refl)|done].
Qed.

Lemma check_addr_ok va : 0 <= va < UTOP → va mod 4096 = 0 → check_addr_scale va 0 UTOP = 0 ∧ PGOFF va = 0.
Proof.
  intros Hva Hal. assert (PGOFF va = 0) as Ho by (unfold PGOFF; by rewrite land_low_mod). split; [|done].
  unfold check_addr_scale. rewrite Ho, (proj2 (Z.leb_le 0 va)), (proj2 (Z.ltb_lt va UTOP)) by lia. done.
Qed.

(** [sys_page_map] between two environments, with page-aligned addresses. *)
Lemma sys_page_map_run s c cur x fl pds srcid dstid e1 e2 pd1 pd2 srcva dstva perm :
  in_call s c cur x → names s cur srcid true pds e1 pd1 → names s cur dstid false pds e2 pd2 →
  spaces s fl pds → 0 <= srcva < UTOP → srcva mod 4096 = 0 → 0 <= dstva < UTOP → dstva mod 4096 = 0 →
  sys_page_map srcid srcva dstid dstva perm s =
    match view s pd1 !! PGNUM srcva with
    | None => Done (- E_INVAL) s
    | Some e => if negb (has PTE_W e) && has PTE_W perm then Done (- E_INVAL) s
                else page_insert (pgdir_kva pd2) (Some (PGNUM e)) dstva perm s
    end.
Proof.
  intros Hic [R1 (y1 & Y1 & D1) P1] [R2 (y2 & Y2 & D2) P2] Hs Hv1 Ha1 Hv2 Ha2.
  pose proof (sp_pages _ _ _ Hs) as Hw. pose proof (pw_npages _ _ Hw) as Hn.
  unfold sys_page_map. rewrite (bind_Done _ _ _ _ _ (envid2env_resolve s c cur x srcid true Hic)), R1.
  cbv beta iota. change (negb (0 =? 0)) with false. cbv iota.
  rewrite (bind_Done _ _ _ _ _ (envid2env_resolve s c cur x dstid false Hic)), R2.
  cbv beta iota. change (negb (0 =? 0)) with false. cbv iota.
  destruct (check_addr_ok srcva Hv1 Ha1) as [-> ->]. destruct (check_addr_ok dstva Hv2 Ha2) as [-> ->].
  cbn [Z.eqb negb orb deref]. rewrite run_ret, (run_get_env _ y1), D1 by done.
  pose proof (UTOP_self srcva Hv1) as Hself. rewrite view_mapped by done.
  destruct (has PTE_P (pte_of s pd1 srcva)) eqn:Hp.
  - assert (mapped s pd1 srcva = Some (PGNUM (pte_of s pd1 srcva))) as Hm by (unfold mapped; by rewrite Hp).
    destruct (mapped_user s fl pds pd1 srcva _ Hs P1 Hv1 Hm) as ([Hq _ _] & _).
    destruct (mapped_table _ _ _ _ Hm) as [t Ht].
    pose proof (pd_table _ _ _ (sp_pd _ _ _ Hs pd1 P1) _ (PDX_range srcva) t Hself Ht) as (Hrt & _).
    step_with (lookup_some s fl pd1 srcva _ t Hw (sp_pd _ _ _ Hs pd1 P1) Hself Hm ltac:(lia) Ht).
    rewrite rd_slot by (lia || apply PTX_range). rewrite <- (pte_of_eq s pd1 srcva t Ht).
    destruct (negb _ && _); [done|]. by rewrite run_ret, (run_get_env _ y2), D2 by done.
  - assert (mapped s pd1 srcva = None) as Hm by (unfold mapped; by rewrite Hp).
    by step_with (lookup_none s fl pd1 srcva Hw (sp_pd _ _ _ Hs pd1 P1) Hself Hm).
Qed.

(** The same as a step: the page at [srcva] is now also mapped at [dstva]. *)
Lemma sys_page_map_step s c cur x fl pds srcid dstid e1 e2 pd1 pd2 srcva dstva perm e p :
  in_call s c cur x → names s cur srcid true pds e1 pd1 → names s cur dstid false pds e2 pd2 →
  spaces s fl pds → 0 <= srcva < UTOP → srcva mod 4096 = 0 → 0 <= dstva < UTOP → dstva mod 4096 = 0 →
  0 <= perm < 4096 → view s pd1 !! PGNUM srcva = Some e → (has PTE_W perm = true → has PTE_W e = true) →
  pages s !! PGNUM e = Some p → pp_ref p < 65535 →
  (pt_of s pd2 (PDX dstva) = None ∧ fl = [] ∧
     sys_page_map srcid srcva dstid dstva perm s = Done (- E_NO_MEM) s) ∨
  (∃ s' fl', sys_page_map srcid srcva dstid dstva perm s = Done 0 s' ∧
     vm_step s s' fl fl' pds pd2 dstva (Some (pte_entry (PGNUM e) perm)) ∧
     (∀ f, has f perm = true → has f (pde_of s' pd2 (PDX dstva)) = true) ∧
     (∃ p', pages s' !! PGNUM e = Some p' ∧ pp_ref p' <= pp_ref p + 1) ∧ (length fl <= S (length fl'))%nat).
Proof.
  intros Hic N1 N2 Hs Hv1 Ha1 Hv2 Ha2 Hperm He Hwr Hp Hlt.
  rewrite (sys_page_map_run s c cur x fl pds srcid dstid e1 e2 pd1 pd2) by done. rewrite He.
  assert (negb (has PTE_W e) && has PTE_W perm = false) as ->.
  { destruct (has PTE_W perm); [by rewrite Hwr|by rewrite andb_false_r]. }
  apply (insert_step s fl pds pd2 dstva (PGNUM e) p perm Hs (nm_space _ _ _ _ _ _ _ N2)
    (in_call_ok _ _ _ _ Hic) Hv2); try done.
  eapply (sp_leaf _ _ _ Hs pd1); [apply N1|done].
Qed.

Lemma sys_page_unmap_step s c cur x fl pds envid e pd va :
  in_call s c cur x → names s cur envid true pds e pd → spaces s fl pds →
  0 <= va < UTOP → va mod 4096 = 0 →
  ∃ s' fl', sys_page_unmap envid va s = Done 0 s' ∧ vm_step s s' fl fl' pds pd va None.
Proof.
  intros Hic [R (y & Y & D) P] Hs Hva Hal. unfold sys_page_unmap.
  rewrite (bind_Done _ _ _ _ _ (envid2env_resolve s c cur x envid true Hic)), R.
  cbv beta iota. change (negb (0 =? 0)) with false. cbv iota.
  destruct (check_addr_ok va Hva Hal) as [-> _]. change (negb (0 =? 0)) with false. cbn [deref]. cbv iota.
  rewrite run_ret, (run_get_env _ y), D by done.
  destruct (remove_step s fl pds pd va Hs P (in_call_ok _ _ _ _ Hic) Hva) as (s' & fl' & Hrun & Hst).
  exists s', fl'. split; [|done]. by rewrite (bind_Done _ _ _ _ _ Hrun).
Qed.
End syscalls.

(** ** Checking the invariant on a concrete state *)

Section check.
Context (s : kstate) (fl pds : list Z).

Definition low_tables (pd : Z) : list Z := omap (pt_of s pd) (seqZ 0 (PDX UTOP)).

Record spaces_checked : Prop := {
  sk_dirs : Forall (λ pd, (0 <= pd < npages s ∧ pd ∉ fl) ∧
    Forall (λ q, 0 <= q < npages s ∧ q ∉ fl ∧ q ≠ pd ∧ q ∉ pds) (tables s pd) ∧ NoDup (tables s pd)) pds;
  sk_private : Forall (λ pd, Forall (λ pd', pd = pd' ∨
    Forall (λ t, t ∉ tables s pd') (low_tables pd)) pds) pds;
  sk_leaf : Forall (λ pd, Forall (λ x, 0 < PGNUM x.2 < npages s ∧ PGNUM x.2 ∉ fl ∧ PGNUM x.2 ∉ pds ∧
    Forall (λ pd', PGNUM x.2 ∉ tables s pd') pds) (entries s pd)) pds;
  sk_clear : Forall (λ pd, Forall (λ t, Forall (λ j,
    has PTE_P (load32 (mem s) (t * 4096 + 4 * j)) = true ∨ load32 (mem s) (t * 4096 + 4 * j) = 0)
    (seqZ 0 1024)) (low_tables pd)) pds;
  sk_refs : map_Forall (λ q p, refs s pds q <= pp_ref p) (pages s)
}.

Lemma pt_in_low pd i t : 0 <= i < PDX UTOP → pt_of s pd i = Some t → t ∈ low_tables pd.
Proof. intros Hi Ht. apply list_elem_of_omap. exists i. split; [apply elem_of_seqZ; lia|done]. Qed.

Lemma spaces_check : pages_wf s fl → 0 ∉ fl → NoDup pds → spaces_checked → spaces s fl pds.
Proof.
  intros Hw Hz Hn [K1 K2 K3 K4 K5]. rewrite !Forall_forall in K1, K2, K3, K4.
  split; [done|done|done| | | | | |done].
  - intros pd Hpd. destruct (K1 pd Hpd) as (H1 & H2 & H3). apply pd_wf_check; [done| |done].
    eapply Forall_impl; [done|]. naive_solver.
  - intros pd i t Hpd Hi Hs Ht. destruct (K1 pd Hpd) as (_ & H2 & _). rewrite Forall_forall in H2.
    apply (H2 t). by eapply pt_in_tables.
  - intros pd pd' i j t Hpd Hpd' Hne Hi Hj Hs Ht Ht'. specialize (K2 pd Hpd). rewrite Forall_forall in K2.
    destruct (K2 pd' Hpd') as [?|H]; [done|]. rewrite Forall_forall in H.
    apply (H t); [by eapply pt_in_low|by eapply pt_in_tables].
  - intros pd n e Hpd He. specialize (K3 pd Hpd). rewrite Forall_forall in K3.
    apply lookup_view_Some, elem_of_entries in He. destruct (K3 _ He) as (H1 & H2 & H3 & H4). simpl in *.
    split; [done|done|]. intros [?|(pd' & i & Hpd' & Hi & Hs & Ht)]; [done|].
    rewrite Forall_forall in H4. apply (H4 pd' Hpd'). by eapply pt_in_tables.
  - intros pd va Hpd Hva Hm. destruct (pt_of s pd (PDX va)) as [t|] eqn:Ht; [|by apply pte_of_none].
    unfold mapped in Hm. rewrite (pte_of_eq s pd va t Ht) in Hm |- *.
    specialize (K4 pd Hpd). rewrite Forall_forall in K4.
    specialize (K4 t (pt_in_low pd (PDX va) t (PDX_user va Hva) Ht)). rewrite Forall_forall in K4.
    destruct (K4 (PTX va)) as [E|E]; [apply elem_of_seqZ; pose proof (PTX_range va); lia|by rewrite E in Hm|done].
Qed.
End check.

Lemma ex_kernel_spaces : spaces ex_kernel [3; 5; 4] [2; 10].
Proof.
  apply spaces_check; [apply ex_kernel_pages|by_compute|by_compute|].
  split; by_compute.
Qed.
