(* ===== verification/Loader.v ===== *)
(** * Loading a program: [region_alloc] and [load_icode] of kern/env.c

    The loader works through the page directory of the new environment, which it
    has put into [%cr3]: [region_alloc] maps fresh pages, and the segments of the
    ELF binary are copied to user addresses.  [user_byte] reads an address the way
    the environment will. *)

From S2P Require Import Prelude Machine PageAlloc Pmap UserMem Env Syscall Spaces.
From stdpp Require Import base numbers list gmap fin_maps sets strings.

Local Open Scope Z_scope.

(** The byte at a user address, if its page is mapped. *)
Definition user_byte (s : kstate) (pd va : Z) : option Z :=
  match view s pd !! PGNUM va with
  | Some e => Some (mget (mem s) (PGNUM e * 4096 + PGOFF va))
  | None => None
  end.

(** No entry of the directory leads to page [j]. *)
Definition unmapped (s : kstate) (pd j : Z) : Prop := ∀ n e, view s pd !! n = Some e → PGNUM e ≠ j.

(** The kernel and the user can write a page through this entry. *)
Definition writable (s : kstate) (pd n e : Z) : Prop :=
  ∀ f, f ∈ [PTE_P; PTE_W; PTE_U] → has f e = true ∧ has f (pde_of s pd (PDX (n * 4096))) = true.

(** The directory [pd] is being filled: it is in use, all its pages are different
    and can be written. *)
Record loading (s : kstate) (fl pds : list Z) (pd : Z) : Prop := {
  ld_spaces : spaces s fl pds;
  ld_dir : pd ∈ pds;
  ld_cpu : cpu_ok s;
  ld_cr3 : cr3 s !! this_cpu s = Some (pd * 4096);
  ld_inj n n' e e' : view s pd !! n = Some e → view s pd !! n' = Some e' → PGNUM e = PGNUM e' → n = n';
  ld_write n e : view s pd !! n = Some e → writable s pd n e;
}.

(** Only pages of [pd] and free pages have changed. *)
Record filled (s s' : kstate) (fl fl' pds : list Z) (pd : Z) : Prop := {
  fi_loading : loading s' fl' pds pd;
  fi_frame : vm_frame s s';
  fi_user j : user_page s fl pds j → user_page s' fl' pds j;
  fi_mem j : user_page s fl pds j → unmapped s pd j → page_same j (mem s) (mem s') ∧ unmapped s' pd j;
  fi_others pd' : pd' ∈ pds → pd' ≠ pd → view s' pd' = view s pd';
  fi_dirs pd' i : pd' ∈ pds → pd' ≠ pd → 0 <= i < 1024 → pde_of s' pd' i = pde_of s pd' i;
}.

Section loader.
Implicit Types (s : kstate) (fl pds : list Z) (pd va n e : Z).

Lemma filled_refl s fl pds pd : loading s fl pds pd → filled s s fl fl pds pd.
Proof. by split. Qed.

Lemma filled_trans s s1 s2 fl fl1 fl2 pds pd :
  filled s s1 fl fl1 pds pd → filled s1 s2 fl1 fl2 pds pd → filled s s2 fl fl2 pds pd.
Proof.
  intros [A1 A2 A3 A4 A5 A6] [B1 B2 B3 B4 B5 B6]. split; [done|by etrans|by auto| | |].
  - intros j Hj Hu. destruct (A4 j Hj Hu) as [M1 U1]. destruct (B4 j (A3 j Hj) U1) as [M2 U2]. split; [by etrans|done].
  - intros pd' H Hne. by rewrite B5, A5.
  - intros pd' i H Hne Hi. by rewrite B6, A6.
Qed.

Lemma view_range s pd n e : view s pd !! n = Some e → 0 <= n < 977920.
Proof. intros [H _]%lookup_view_Some. exact H. Qed.

Lemma user_page_num va : 0 <= va < UTOP → 0 <= PGNUM va < 977920 ∧ PDX (PGNUM va * 4096) = PDX va.
Proof. change UTOP with 4005560320. intros H. rewrite PDX_div, PDX_div, PGNUM_div. split; zlia. Qed.

(** An address whose page is mapped can be written. *)
Lemma user_write s fl pds pd va e :
  loading s fl pds pd → 0 <= va < UTOP → view s pd !! PGNUM va = Some e →
  mmu s va true = Some (PGNUM e * 4096 + PGOFF va).
Proof.
  intros Hl Hva He. destruct (user_page_num va Hva) as [Hn Hx].
  destruct (ld_write _ _ _ _ Hl _ _ He PTE_P) as [_ W2]; [by left|].
  destruct (ld_write _ _ _ _ Hl _ _ He PTE_W) as [W1 W3]; [by right; left|]. rewrite Hx in W2, W3.
  apply lookup_view_Some in He as (_ & Hp & ->). unfold mmu. rewrite (ld_cr3 _ _ _ _ Hl). simpl.
  change UTOP with 4005560320 in Hva. rewrite PGNUM_div, Z.div_mul by lia. rewrite (pte_same_page s pd (PGNUM va * 4096) va) in *.
  - by rewrite W2, Hp, W3, W1.
  - lia.
  - lia.
  - rewrite !PGNUM_div. zlia.
Qed.

(** ** Writing to the environment *)

Lemma PGOFF_mod va : PGOFF va = va mod 4096.
Proof. apply (Z.land_ones va 12). lia. Qed.

Lemma user_pa e va : 0 <= PGOFF va < 4096 ∧ (PGNUM e * 4096 + PGOFF va) / 4096 = PGNUM e.
Proof.
  assert (0 <= PGOFF va < 4096) as H by (rewrite PGOFF_mod; apply Z.mod_pos_bound; lia).
  split; [done|]. zlia.
Qed.

Lemma set_user_mem s fl pds pd va e b :
  loading s fl pds pd → view s pd !! PGNUM va = Some e →
  let s' := set_mem (<[PGNUM e * 4096 + PGOFF va := u8 b]> (mem s)) s in
  filled s s' fl fl pds pd ∧ view s' pd = view s pd ∧
  (∀ a, mget (mem s') a = if decide (a = PGNUM e * 4096 + PGOFF va) then u8 b else mget (mem s) a).
Proof.
  intros Hl He s'. destruct (user_pa e va) as [Ho Hq]. pose proof (ld_spaces _ _ _ _ Hl) as Hs.
  pose proof (sp_leaf _ _ _ Hs pd _ _ (ld_dir _ _ _ _ Hl) He) as Hu.
  assert (∀ a, mget (mem s') a = if decide (a = PGNUM e * 4096 + PGOFF va) then u8 b else mget (mem s) a) as Hm.
  { intros a. unfold s'. simpl. rewrite mget_insert. repeat case_decide; try congruence. apply u8_u8. }
  assert (∀ j, j ≠ PGNUM e → page_same j (mem s) (mem s')) as Hsame.
  { intros j Hj a Ha. rewrite Hm, decide_False; [done|]. intros ->. apply Hj. rewrite <- Hq. zlia. }
  destruct (spaces_frame s s' fl fl pds Hs) as [Hs' Hv].
  { by apply (pages_wf_ext s); try apply Hs. }
  { apply Hs. }
  { done. }
  { intros q Hst. apply Hsame. intros ->. by destruct Hu. }
  { by left. }
  { apply Hs. }
  destruct (Hv pd (ld_dir _ _ _ _ Hl)) as [Hview Hpde]. split; [|split; [done|done]].
  assert (∀ j, user_page s fl pds j → user_page s' fl pds j) as Huser.
  { intros j [U1 U2 U3]. split; [done|done|]. intros [?|(pd' & i & H1 & H2 & H3 & H4)]; apply U3; [by left|right].
    exists pd', i. split_and!; try done; try lia. revert H4. unfold pt_of. by rewrite (proj2 (Hv pd' H1)). }
  split; [|by split|done| | |].
  - destruct Hl as [L1 L2 L3 L4 L5 L6]. split; [done|done|done|done|by rewrite Hview|].
    intros n e' He'. rewrite Hview in He'. intros f Hf'. rewrite Hpde by apply PDX_range. by apply L6.
  - intros j Hj Hun. split; [apply Hsame; intros ->; by apply (Hun _ _ He)|]. unfold unmapped. by rewrite Hview.
  - intros pd' H _. by apply Hv.
  - intros pd' i H _. by apply Hv.
Qed.

Lemma vwr8_run s fl pds pd va b :
  loading s fl pds pd → 0 <= va < UTOP → is_Some (view s pd !! PGNUM va) →
  ∃ s', vwr8 va b s = Done tt s' ∧ filled s s' fl fl pds pd ∧ view s' pd = view s pd ∧
    (∀ va', 0 <= va' < UTOP → user_byte s' pd va' = if decide (va' = va) then Some (u8 b) else user_byte s pd va').
Proof.
  intros Hl Hva [e He]. destruct (set_user_mem s fl pds pd va e b Hl He) as (Hf & Hv & Hm).
  eexists. split; [|split; [exact Hf|split; [exact Hv|]]].
  { unfold vwr8. rewrite run_get, (user_write s fl pds pd va e) by done. reflexivity. }
  intros va' Hva'. unfold user_byte. rewrite Hv. case_decide as E.
  { subst va'. rewrite He. by rewrite Hm, decide_True. }
  destruct (view s pd !! PGNUM va') as [e'|] eqn:He'; [|done]. rewrite Hm, decide_False; [done|].
  intros Eq. destruct (user_pa e va) as [Ho Hq], (user_pa e' va') as [Ho' Hq'].
  assert (PGNUM e' = PGNUM e) as Ep by congruence. pose proof (ld_inj _ _ _ _ Hl _ _ _ _ He' He Ep) as En.
  apply E. change UTOP with 4005560320 in *. revert En Eq. rewrite Ep, !PGOFF_mod, !PGNUM_div.
  intros. zlia.
Qed.

(** A run of bytes. *)
Lemma vwrite_run l s fl pds pd va :
  loading s fl pds pd → 0 <= va → va + Z.of_nat (length l) <= UTOP →
  (∀ va', va <= va' < va + Z.of_nat (length l) → is_Some (view s pd !! PGNUM va')) →
  ∃ s', vwrite va l s = Done tt s' ∧ filled s s' fl fl pds pd ∧ view s' pd = view s pd ∧
    (∀ va', 0 <= va' < UTOP → user_byte s' pd va' =
      if decide (va <= va' < va + Z.of_nat (length l)) then u8 <$> l !! Z.to_nat (va' - va) else user_byte s pd va').
Proof.
  revert s va. induction l as [|b l IH]; intros s va Hl H0 Hle Hm; simpl length in *.
  { exists s. split; [done|]. split; [by apply filled_refl|]. split; [done|]. intros. by rewrite decide_False by lia. }
  destruct (vwr8_run s fl pds pd va b Hl ltac:(lia) (Hm va ltac:(lia))) as (s1 & R1 & F1 & V1 & B1).
  assert (va + 1 < 4294967296) as Hva32 by (change UTOP with 4005560320 in Hle; lia).
  destruct (IH s1 (va + 1) (fi_loading _ _ _ _ _ _ F1) ltac:(lia) ltac:(lia)) as (s2 & R2 & F2 & V2 & B2).
  { intros va' H. rewrite V1. apply Hm. lia. }
  exists s2. split; [|split; [by eapply filled_trans|split; [by rewrite V2|]]].
  { change (vwrite va (b :: l)) with (vwr8 va b ;; vwrite (u32 (va + 1)) l). step_with R1. by rewrite u32_id by lia. }
  intros va' Hva'. rewrite B2, B1 by done. destruct (decide (va' = va)) as [->|Hne].
  - rewrite decide_False, decide_True by lia. by rewrite Z.sub_diag.
  - destruct (decide (va + 1 <= va' < va + 1 + Z.of_nat (length l))).
    + rewrite decide_True by lia. replace (Z.to_nat (va' - va)) with (S (Z.to_nat (va' - (va + 1)))) by lia. done.
    + by rewrite decide_False by lia.
Qed.

(** ** Mapping fresh pages *)

Lemma region_page s fl pds pd e x va :
  loading s fl pds pd → envs s !! e = Some x → env_pgdir x = pgdir_kva pd → 0 <= va < UTOP → va mod 4096 = 0 →
  view s pd !! PGNUM va = None → (2 <= length fl)%nat →
  ∃ s' fl' e', (p ← page_alloc 0;
      match p with
      | None => panic "region_alloc: failed at page_alloc"
      | Some p =>
          x ← get_env e;
          page_insert (env_pgdir x) (Some p) va (Z.lor (Z.lor PTE_U PTE_P) PTE_W) ;;
          mret (inl (u32 (va + PGSIZE)) : Z + unit)
      end) s = Done (inl (u32 (va + PGSIZE))) s' ∧
    filled s s' fl fl' pds pd ∧ view s' pd = <[PGNUM va := e']> (view s pd) ∧
    (∀ va', 0 <= va' < UTOP → PGNUM va' ≠ PGNUM va → user_byte s' pd va' = user_byte s pd va') ∧
    (length fl <= 2 + length fl')%nat.
Proof.
  intros Hl Hx Hdir Hva Hal Hn Hlen. pose proof Hl as [Hs Hpd Hc Hcr Hinj Hwr].
  destruct fl as [|q fl]; [simpl in Hlen; lia|]. pose proof (sp_pages _ _ _ Hs) as Hw.
  pose proof (pw_in_range _ _ q Hw ltac:(by left)) as Hq. destruct (pw_total _ _ Hw q ltac:(lia)) as [p Hp].
  destruct (alloc_spaces 0 s fl pds q p Hs Hp) as (Ha & _). rewrite (bind_Done _ _ _ _ _ Ha). clear Ha.
  destruct (alloc_insert_step 0 s fl pds pd va q p 7 Hs Hp Hc Hpd Hva ltac:(lia))
    as [(_ & -> & _)|(s' & fl' & Hrun & Hst & Hfl & _ & _ & Hlen')]; [simpl in Hlen; lia|].
  change (Z.lor (Z.lor PTE_U PTE_P) PTE_W) with 7.
  assert (envs (alloc_post 0 q p s) = envs s) as Hen by done. revert Hrun Hen. generalize (alloc_post 0 q p s). intros s1 Hrun Hen.
  rewrite (run_get_env _ x) by congruence. rewrite Hdir, (bind_Done _ _ _ _ _ Hrun).
  destruct Hst as [V1 V2 V3 V4 V5 V6 V7 V8 V9].
  change (partial_alter (λ _, Some (pte_entry q 7)) (PGNUM va) (view s pd)) with (<[PGNUM va := pte_entry q 7]> (view s pd)) in V2.
  assert (PGNUM (pte_entry q 7) = q) as Eq by (apply entry_PGNUM; [pose proof (pw_npages _ _ Hw)|]; lia).
  assert (∀ n e', view s pd !! n = Some e' → user_page s (q :: fl) pds (PGNUM e')) as Huse by (intros n e'; by apply (sp_leaf _ _ _ Hs)).
  assert (∀ n e', view s pd !! n = Some e' → PGNUM e' ≠ q) as Hne by (intros n e' H E; destruct (Huse n e' H) as [_ U _]; apply U; rewrite E; by left).
  exists s', fl', (pte_entry q 7). split; [done|]. split; [|split; [done|split; [|simpl; lia]]].
  - split; [|done|intros j Hj; apply V8; [done|by rewrite Hn]| |done|done].
    + split; [done|done|by eapply cpu_ok_frame|by rewrite (vm_cr3 _ _ V5), (vm_this_cpu _ _ V5)| |].
      * intros n n' e1 e2. rewrite V2, !lookup_insert. repeat case_decide; intros; simplify_eq; try done; try congruence.
        -- exfalso. eapply Hne; [eassumption|congruence].
        -- exfalso. eapply Hne; [eassumption|congruence].
        -- by eapply Hinj.
      * intros n e'. rewrite V2, lookup_insert. case_decide as En.
        -- intros [= <-]. subst n. destruct (user_page_num va Hva) as [_ Ex]. intros f Hf. rewrite Ex.
           assert (has f 7 = true) as Hf7 by (rewrite !elem_of_cons, elem_of_nil in Hf; by destruct Hf as [->|[->|[->|[]]]]).
           split; [|by apply Hfl]. unfold pte_entry. by rewrite !has_lor, Hf7, orb_true_r.
        -- intros He' f Hf. destruct (Hwr _ _ He' f Hf) as [W1 W2]. pose proof He' as (_ & Hpr & _)%lookup_view_Some.
           assert (pt_of s pd (PDX (n * 4096)) ≠ None) as Hpt by (intros E; by rewrite (pte_of_none _ _ _ E) in Hpr).
           split; [done|]. apply V6; try done. apply PDX_range.
    + intros j Hj Hun. split; [by apply V4|]. intros n e'. rewrite V2, lookup_insert. case_decide.
      * intros [= <-]. rewrite Eq. intros ->. destruct Hj as [_ Hj _]. apply Hj. by left.
      * apply Hun.
  - intros va' Hva' Hnv. unfold user_byte. rewrite V2, lookup_insert_ne by done.
    destruct (view s pd !! PGNUM va') as [e'|] eqn:He'; [|done]. f_equal. destruct (user_pa e' va') as [Ho Hq'].
    apply (V4 _ (Huse _ _ He')). lia.
Qed.

Lemma region_loop k s fl pds pd e x a dst :
  loading s fl pds pd → envs s !! e = Some x → env_pgdir x = pgdir_kva pd →
  0 <= a → a mod 4096 = 0 → dst = a + Z.of_nat k * 4096 → dst <= UTOP →
  (∀ n, a / 4096 <= n < dst / 4096 → view s pd !! n = None) → (2 * k <= length fl)%nat →
  ∀ fuel, (k <= fuel)%nat →
  ∃ s' fl', loop (S fuel) NoFuel (λ rdown_va,
      if rdown_va <? dst then
        p ← page_alloc 0;
        match p with
        | None => panic "region_alloc: failed at page_alloc"
        | Some p =>
            x ← get_env e;
            page_insert (env_pgdir x) (Some p) rdown_va (Z.lor (Z.lor PTE_U PTE_P) PTE_W) ;;
            mret (inl (u32 (rdown_va + PGSIZE)))
        end
      else mret (inr tt)) a s = Done tt s' ∧
    filled s s' fl fl' pds pd ∧ (∀ n, a / 4096 <= n < dst / 4096 → is_Some (view s' pd !! n)) ∧
    (∀ n, ¬ a / 4096 <= n < dst / 4096 → view s' pd !! n = view s pd !! n) ∧
    (∀ va', 0 <= va' < UTOP → ¬ a <= va' < dst → user_byte s' pd va' = user_byte s pd va') ∧
    (length fl <= 2 * k + length fl')%nat.
Proof.
  revert s fl a. induction k as [|k IH]; intros s fl a Hl Hx Hdir Ha Hal Hdst Hle Hnone Hlen fuel Hf; rewrite loop_S.
  { rewrite (proj2 (Z.ltb_ge a dst)) by lia. exists s, fl. split; [done|]. split; [by apply filled_refl|].
    replace dst with a by lia. split; [intros; lia|]. split; [done|]. split; [done|lia]. }
  destruct fuel as [|fuel]; [lia|]. rewrite (proj2 (Z.ltb_lt a dst)) by lia.
  assert (PGNUM a = a / 4096) as Ea by apply PGNUM_div. change UTOP with 4005560320 in Hle.
  destruct (region_page s fl pds pd e x a) as (s1 & fl1 & e1 & R1 & F1 & V1 & B1 & L1); try done.
  { change UTOP with 4005560320. lia. }
  { rewrite Ea. apply Hnone. zlia. }
  { lia. }
  rewrite (bind_Done _ _ _ _ _ R1). unfold PGSIZE. rewrite u32_id by lia.
  destruct (IH s1 fl1 (a + 4096)) with (fuel := fuel) as (s2 & fl2 & R2 & F2 & V2 & N2 & B2 & L2).
  { apply F1. }
  { by rewrite (vm_envs _ _ (fi_frame _ _ _ _ _ _ F1)). }
  { done. }
  { lia. }
  { zlia. }
  { lia. }
  { change UTOP with 4005560320. lia. }
  { intros n Hn. rewrite V1, lookup_insert_ne by (rewrite Ea; zlia). apply Hnone. zlia. }
  { lia. }
  { lia. }
  exists s2, fl2. split; [exact R2|]. split; [by eapply filled_trans|]. split; [|split; [|split; [|lia]]].
  - intros n Hn. destruct (decide (n = a / 4096)) as [->|]; [|apply V2; zlia].
    rewrite N2 by zlia. rewrite V1, Ea, lookup_insert_eq. done.
  - intros n Hn. rewrite N2 by zlia. rewrite V1, lookup_insert_ne; [done|]. rewrite Ea. zlia.
  - intros va' Hva' Hn. rewrite B2, B1; [done|done| |done|]; [|lia]. rewrite Ea, PGNUM_div. zlia.
Qed.

(** The first page of a range of addresses, and the first page behind it. *)
Definition first_page (va : Z) : Z := va / 4096.
Definition end_page (va len : Z) : Z := (va + len + 4095) / 4096.

Lemma walk_reads s fl pd va :
  pages_wf s fl → pd_wf s fl pd → PDX va ≠ self_index →
  ∃ r, pgdir_walk (pgdir_kva pd) va NO_CREATE s = Done r s ∧ (pt_of s pd (PDX va) ≠ None → r ≠ None).
Proof.
  intros Hw Hd Hs. destruct (pd_dir _ _ _ Hd) as [Hr _]. destruct (pt_of s pd (PDX va)) as [t|] eqn:Ht.
  - destruct (pd_table _ _ _ Hd _ (PDX_range va) t Hs Ht) as (Hrt & _).
    eexists. split; [by apply (walk_present s fl pd va NO_CREATE t); [..|lia]|done].
  - exists None. split; [by apply (walk_absent s fl)|done].
Qed.

Lemma region_alloc_run s fl pds pd e x va len :
  loading s fl pds pd → envs s !! e = Some x → env_pgdir x = pgdir_kva pd →
  0 <= va → 0 <= len → va + len <= UTOP - PGSIZE →
  (∀ n, first_page va <= n < end_page va len → view s pd !! n = None) →
  (2 * Z.to_nat (end_page va len - first_page va) <= length fl)%nat →
  ∃ r s' fl', region_alloc e va len s = Done r s' ∧ filled s s' fl fl' pds pd ∧
    (∀ n, first_page va <= n < end_page va len → is_Some (view s' pd !! n)) ∧
    (∀ n, ¬ first_page va <= n < end_page va len → view s' pd !! n = view s pd !! n) ∧
    (∀ va', 0 <= va' < UTOP → ¬ first_page va <= va' / 4096 < end_page va len → user_byte s' pd va' = user_byte s pd va') ∧
    (length fl <= 2 * Z.to_nat (end_page va len - first_page va) + length fl')%nat ∧ (0 < len → r ≠ None).
Proof.
  unfold first_page, end_page, PGSIZE. change UTOP with 4005560320. intros Hl Hx Hdir H0 Hlen Hle Hnone Hfl.
  unfold region_alloc. rewrite u32_id by lia. set (dst := ROUNDUP (va + len) PGSIZE).
  assert (dst = (va + len + 4095) / 4096 * 4096) as Edst.
  { destruct (ROUNDUP_bounds (va + len)) as [B1 B2]; [lia|]. fold dst in B1, B2. zlia. }
  assert (ROUNDDOWN va PGSIZE = va / 4096 * 4096) as Erd by (unfold ROUNDDOWN, PGSIZE; rewrite u32_id; zlia).
  rewrite (proj2 (Z.leb_gt UTOP dst)) by (change UTOP with 4005560320; zlia). rewrite Erd.
  set (k := Z.to_nat ((va + len + 4095) / 4096 - va / 4096)).
  destruct (region_loop k s fl pds pd e x (va / 4096 * 4096) dst) with (fuel := Z.to_nat (dst / PGSIZE))
    as (s1 & fl1 & R1 & F1 & V1 & N1 & B1 & L1); try done.
  { zlia. }
  { zlia. }
  { unfold k. zlia. }
  { change UTOP with 4005560320. zlia. }
  { intros n Hn. apply Hnone. zlia. }
  { unfold k, PGSIZE. zlia. }
  rewrite (bind_Done _ _ _ _ _ R1). clear R1. pose proof (fi_frame _ _ _ _ _ _ F1) as Fr.
  rewrite (run_get_env _ x) by (by rewrite (vm_envs _ _ Fr)). rewrite Hdir.
  destruct (fi_loading _ _ _ _ _ _ F1) as [Hs1 Hpd _ _ _ _].
  assert (PDX va ≠ self_index) as Hself by (apply UTOP_self; change UTOP with 4005560320; lia).
  destruct (walk_reads s1 fl1 pd va (sp_pages _ _ _ Hs1) (sp_pd _ _ _ Hs1 pd Hpd) Hself) as (r & Rw & Hr).
  exists r, s1, fl1. split; [exact Rw|]. split; [exact F1|].
  split; [intros n Hn; apply V1; zlia|]. split; [intros n Hn; apply N1; zlia|].
  split; [intros va' Hva' Hn; apply B1; [done|]; zlia|]. split; [done|]. intros Hpos. apply Hr.
  destruct (V1 (va / 4096)) as [e' He']; [zlia|]. apply lookup_view_Some in He' as (_ & Hp & _).
  intros E. rewrite (pte_of_none s1 pd (va / 4096 * 4096)) in Hp; [done|]. rewrite <- E. f_equal. rewrite !PDX_div. zlia.
Qed.

(** ** The binary *)

(** The physical memory that holds the binary, at [binary] in the kernel's window,
    belongs to no address space, is not free, and reads as [m0]. *)
Definition held (m0 : memory) s fl pds pd (binary size : Z) : Prop :=
  ∀ a, binary - KERNBASE <= a < binary - KERNBASE + size →
    user_page s fl pds (a / 4096) ∧ unmapped s pd (a / 4096) ∧ mget (mem s) a = mget m0 a.

Lemma held_filled m0 s s' fl fl' pds pd binary size :
  held m0 s fl pds pd binary size → filled s s' fl fl' pds pd → held m0 s' fl' pds pd binary size.
Proof.
  intros Hh Hf a Ha. destruct (Hh a Ha) as (H1 & H2 & H3). destruct (fi_mem _ _ _ _ _ _ Hf _ H1 H2) as [M U].
  split; [by apply (fi_user _ _ _ _ _ _ Hf)|]. split; [done|]. rewrite M; [done|]. zlia.
Qed.

Lemma held_load32 m0 s fl pds pd binary size o :
  held m0 s fl pds pd binary size → 0 <= o → o + 4 <= size →
  load32 (mem s) (binary - KERNBASE + o) = load32 m0 (binary - KERNBASE + o).
Proof.
  intros Hh H0 H1. assert (∀ d, 0 <= d < 4 → mget (mem s) (binary - KERNBASE + o + d) = mget m0 (binary - KERNBASE + o + d)) as H.
  { intros d Hd. apply (Hh (binary - KERNBASE + o + d)). lia. }
  unfold load32. rewrite (H 1), (H 2), (H 3) by lia. specialize (H 0 ltac:(lia)). rewrite Z.add_0_r in H. by rewrite H.
Qed.

Lemma held_read m0 s fl pds pd binary size o (k : nat) :
  held m0 s fl pds pd binary size → 0 <= o → o + Z.of_nat k <= size →
  read_bytes (mem s) (binary - KERNBASE + o) k = read_bytes m0 (binary - KERNBASE + o) k.
Proof.
  intros Hh H0 H1. apply list_eq. intros i. destruct (decide (i < k)%nat) as [Hi|Hi].
  - rewrite !lookup_read_bytes by done. f_equal. apply (Hh (binary - KERNBASE + o + Z.of_nat i)). lia.
  - rewrite !lookup_ge_None_2; [done|rewrite length_read_bytes; lia..].
Qed.

(** [struct Proghdr], as far as the loader reads it. *)
Record segment : Type := mkSegment {
  sg_type : Z; sg_offset : Z; sg_va : Z; sg_filesz : Z; sg_memsz : Z
}.

Definition segment_at (m : memory) (a : Z) : segment :=
  mkSegment (load32 m a) (load32 m (a + 4)) (load32 m (a + 8)) (load32 m (a + 16)) (load32 m (a + 20)).

Definition is_load (g : segment) : Prop := sg_type g = ELF_PROG_LOAD.
#[local] Instance is_load_dec g : Decision (is_load g) := decide_rel (=) _ _.

(** Page [n] belongs to the segment. *)
Definition in_segment (g : segment) n : Prop :=
  is_load g ∧ first_page (sg_va g) <= n < end_page (sg_va g) (sg_memsz g).

Definition segment_pages (g : segment) : nat :=
  if decide (is_load g) then Z.to_nat (end_page (sg_va g) (sg_memsz g) - first_page (sg_va g)) else 0%nat.

(** The byte at offset [k] of a loaded segment. *)
Definition segment_byte (m : memory) (binary : Z) (g : segment) (k : Z) : Z :=
  if decide (k < sg_filesz g) then mget m (binary - KERNBASE + sg_offset g + k) else 0.

(** What the loader relies on for one segment. *)
Record segment_ok (size : Z) (g : segment) : Prop := {
  so_size : sg_filesz g <= sg_memsz g;
  so_file : sg_offset g + sg_filesz g <= size;
  so_va : sg_va g + sg_memsz g <= USTACKTOP - PGSIZE;
}.

Lemma segment_at_range m a :
  0 <= sg_offset (segment_at m a) ∧ 0 <= sg_va (segment_at m a) ∧ 0 <= sg_filesz (segment_at m a) ∧ 0 <= sg_memsz (segment_at m a).
Proof. unfold segment_at. simpl. pose proof (load32_range m (a + 4)). pose proof (load32_range m (a + 8)).
  pose proof (load32_range m (a + 16)). pose proof (load32_range m (a + 20)). lia. Qed.

(** One segment is placed. *)
Record placed (m0 : memory) (binary : Z) s s' pd (gs : list segment) : Prop := {
  pl_byte g k : g ∈ gs → is_load g → 0 <= k < sg_memsz g → user_byte s' pd (sg_va g + k) = Some (segment_byte m0 binary g k);
  pl_view n : is_Some (view s' pd !! n) ↔ is_Some (view s pd !! n) ∨ ∃ g, g ∈ gs ∧ in_segment g n;
  pl_same va : 0 <= va < UTOP → (∀ g, g ∈ gs → ¬ in_segment g (va / 4096)) → user_byte s' pd va = user_byte s pd va;
}.

(** Copying the file's bytes and clearing the rest. *)
Lemma copy_segment m0 s fl pds pd binary size g :
  loading s fl pds pd → held m0 s fl pds pd binary size → KERNBASE <= binary → binary + size < 4294967296 →
  0 <= sg_offset g → 0 <= sg_va g → 0 <= sg_filesz g → segment_ok size g →
  (∀ n, first_page (sg_va g) <= n < end_page (sg_va g) (sg_memsz g) → is_Some (view s pd !! n)) →
  ∃ s', (bytes ← kread (u32 (binary + sg_offset g)) (sg_filesz g);
      vwrite (sg_va g) bytes ;;
      vwrite (u32 (sg_va g + sg_filesz g)) (replicate (Z.to_nat (sg_memsz g - sg_filesz g)) 0)) s = Done tt s' ∧
    filled s s' fl fl pds pd ∧ view s' pd = view s pd ∧
    (∀ va, 0 <= va < UTOP → user_byte s' pd va =
      if decide (sg_va g <= va < sg_va g + sg_memsz g) then Some (segment_byte m0 binary g (va - sg_va g)) else user_byte s pd va).
Proof.
  intros Hl Hh Hk Hsz G1 G2 G3 [K1 K2 K3] Hmap. change USTACKTOP with 4005552128 in K3. unfold PGSIZE in K3.
  assert (0 <= binary) by (unfold KERNBASE in Hk; lia). rewrite (u32_id (binary + sg_offset g)) by lia. unfold kread. rewrite (proj2 (Z.leb_le KERNBASE (binary + sg_offset g))), run_gets by lia.
  replace (binary + sg_offset g - KERNBASE) with (binary - KERNBASE + sg_offset g) by lia.
  rewrite (held_read m0 s fl pds pd binary size) by (done || lia).
  set (bs := read_bytes m0 _ _). assert (length bs = Z.to_nat (sg_filesz g)) as Hlen by apply length_read_bytes.
  assert (∀ va', sg_va g <= va' < sg_va g + sg_memsz g → is_Some (view s pd !! PGNUM va')) as Hm.
  { intros va' Hva'. apply Hmap. unfold first_page, end_page. rewrite PGNUM_div. zlia. }
  change UTOP with 4005560320. destruct (vwrite_run bs s fl pds pd (sg_va g) Hl) as (s1 & R1 & F1 & V1 & B1).
  { lia. } { change UTOP with 4005560320. lia. } { intros va' Hva'. apply Hm. lia. }
  rewrite (bind_Done _ _ _ _ _ R1), u32_id by lia. clear R1. set (z := Z.to_nat (sg_memsz g - sg_filesz g)).
  assert (length (replicate z 0) = z) as Hz by apply length_replicate.
  destruct (vwrite_run (replicate z 0) s1 fl pds pd (sg_va g + sg_filesz g) (fi_loading _ _ _ _ _ _ F1)) as (s2 & R2 & F2 & V2 & B2).
  { lia. } { change UTOP with 4005560320. lia. } { intros va' Hva'. rewrite V1. apply Hm. lia. }
  exists s2. split; [exact R2|]. split; [by eapply filled_trans|]. split; [by rewrite V2|].
  intros va Hva. rewrite B2, B1 by done. rewrite Hlen, Hz. unfold segment_byte.
  destruct (decide (sg_va g <= va < sg_va g + sg_memsz g)).
  - destruct (decide (va - sg_va g < sg_filesz g)).
    + rewrite decide_False, decide_True by lia. unfold bs. rewrite lookup_read_bytes by lia. simpl. f_equal.
      unfold mget at 1. rewrite u8_u8. unfold mget. do 3 f_equal. lia.
    + rewrite decide_True by lia. rewrite lookup_replicate_2 by lia. done.
  - by rewrite !decide_False by lia.
Qed.

Lemma load_segment_run m0 s fl pds pd e x binary size o :
  loading s fl pds pd → envs s !! e = Some x → env_pgdir x = pgdir_kva pd →
  held m0 s fl pds pd binary size → KERNBASE <= binary → binary + size < 4294967296 →
  0 <= o → o + SIZEOF_PROGHDR <= size →
  let g := segment_at m0 (binary - KERNBASE + o) in
  (is_load g → segment_ok size g) → (∀ n, in_segment g n → view s pd !! n = None) →
  (2 * segment_pages g <= length fl)%nat →
  ∃ s' fl', load_segment e binary (binary + o) s = Done tt s' ∧ filled s s' fl fl' pds pd ∧
    placed m0 binary s s' pd [g] ∧ (length fl <= 2 * segment_pages g + length fl')%nat.
Proof.
  intros Hl Hx Hdir Hh Hk Hsz H0 Ho g Hok Hnone Hfl. unfold SIZEOF_PROGHDR in Ho.
  assert (∀ s' fl' d, held m0 s' fl' pds pd binary size → 0 <= d <= 28 →
    ∀ A (k : Z → M A), (rd32 (binary + o + d) ≫= k) s' = k (load32 m0 (binary - KERNBASE + o + d)) s') as Hrd.
  { intros s' fl' d Hh' Hd A k. rewrite run_rd32 by lia.
    replace (binary + o + d - KERNBASE) with (binary - KERNBASE + (o + d)) by lia.
    rewrite (held_load32 m0 s' fl' pds pd binary size) by (done || lia). do 2 f_equal. lia. }
  unfold load_segment, p_type, p_filesz, p_memsz, p_va, p_offset.
  pose proof (Hrd s fl 0 Hh ltac:(lia)) as Hrd0. rewrite !Z.add_0_r in Hrd0. rewrite Hrd0. clear Hrd0.
  change (load32 m0 (binary - KERNBASE + o)) with (sg_type g).
  destruct (Z.eqb_spec (sg_type g) ELF_PROG_LOAD) as [Hld|Hld]; cbn [negb].
  2: { assert (¬ is_load g) as Hn by done. exists s, fl. split; [done|]. split; [by apply filled_refl|]. split; [|lia].
    split; [|intros n|done].
    - intros g' k Hg'. apply list_elem_of_singleton in Hg' as ->. done.
    - split; [by left|]. intros [?|(g' & Hg' & [? _])]; [done|]. by apply list_elem_of_singleton in Hg' as ->. }
  destruct (Hok Hld) as [K1 K2 K3]. destruct (segment_at_range m0 (binary - KERNBASE + o)) as (G1 & G2 & G3 & G4). fold g in G1, G2, G3, G4.
  assert (∀ n, first_page (sg_va g) <= n < end_page (sg_va g) (sg_memsz g) → in_segment g n) as Hin by done.
  assert (segment_pages g = Z.to_nat (end_page (sg_va g) (sg_memsz g) - first_page (sg_va g))) as Ep by (unfold segment_pages; by rewrite decide_True).
  rewrite (Hrd s fl 16 Hh ltac:(lia)), (Hrd s fl 20 Hh ltac:(lia)).
  change (load32 m0 (binary - KERNBASE + o + 16)) with (sg_filesz g). change (load32 m0 (binary - KERNBASE + o + 20)) with (sg_memsz g).
  rewrite (proj2 (Z.ltb_ge (sg_memsz g) (sg_filesz g))) by lia.
  rewrite (Hrd s fl 8 Hh ltac:(lia)). change (load32 m0 (binary - KERNBASE + o + 8)) with (sg_va g).
  change USTACKTOP with 4005552128 in K3. unfold PGSIZE in K3.
  destruct (region_alloc_run s fl pds pd e x (sg_va g) (sg_memsz g)) as (r & s1 & fl1 & R1 & F1 & V1 & N1 & B1 & L1 & _); try done; try lia.
  { change UTOP with 4005560320. unfold PGSIZE. lia. }
  { intros n Hn. by apply Hnone, Hin. }
  rewrite (bind_Done _ _ _ _ _ R1). clear R1. pose proof (held_filled _ _ _ _ _ _ _ _ _ Hh F1) as Hh1.
  rewrite (Hrd s1 fl1 4 Hh1 ltac:(lia)). change (load32 m0 (binary - KERNBASE + o + 4)) with (sg_offset g).
  destruct (copy_segment m0 s1 fl1 pds pd binary size g (fi_loading _ _ _ _ _ _ F1) Hh1 Hk Hsz G1 G2 G3 (Hok Hld) V1)
    as (s2 & R2 & F2 & V2 & B2).
  exists s2, fl1. split; [exact R2|]. split; [by eapply filled_trans|]. split; [|lia].
  assert (∀ n, in_segment g n ↔ first_page (sg_va g) <= n < end_page (sg_va g) (sg_memsz g)) as Hiff by (intros n; unfold in_segment; tauto).
  change UTOP with 4005560320 in *. split.
  - intros g' k Hg' _ Hkk. apply list_elem_of_singleton in Hg' as ->. rewrite B2, decide_True by lia. do 2 f_equal. lia.
  - intros n. rewrite V2. destruct (decide (in_segment g n)) as [Hn|Hn].
    + split; [intros _; right; exists g; split; [by left|done]|intros _; apply V1, Hiff, Hn].
    + rewrite N1 by (by rewrite <- Hiff). split; [by left|]. intros [?|(g' & Hg' & ?)]; [done|]. by apply list_elem_of_singleton in Hg' as ->.
  - intros va Hva Hn. specialize (Hn g ltac:(by left)). rewrite B2 by done. rewrite decide_False.
    + apply B1; [done|]. by rewrite <- Hiff.
    + intros Hr. apply Hn, Hiff. unfold first_page, end_page. zlia.
Qed.

(** ** All segments *)

(** No two segments touch the same page. *)
Fixpoint disjoint_segments (gs : list segment) : Prop :=
  match gs with
  | [] => True
  | g :: gs' => (∀ h n, h ∈ gs' → in_segment g n → ¬ in_segment h n) ∧ disjoint_segments gs'
  end.

Definition total_pages (gs : list segment) : nat := sum_list (segment_pages <$> gs).

Lemma placed_cons m0 binary size s s1 s2 pd g gs :
  (is_load g → segment_ok size g) → 0 <= sg_va g → (∀ h n, h ∈ gs → in_segment g n → ¬ in_segment h n) →
  placed m0 binary s s1 pd [g] → placed m0 binary s1 s2 pd gs → placed m0 binary s s2 pd (g :: gs).
Proof.
  intros Hok H0 Hdis [A1 A2 A3] [B1 B2 B3]. split.
  - intros h k [->|Hin]%elem_of_cons Hld Hk; [|by apply B1]. destruct (Hok Hld) as [_ _ K3].
    change USTACKTOP with 4005552128 in K3. unfold PGSIZE in K3.
    assert (in_segment g ((sg_va g + k) / 4096)) as Hin by (split; [done|]; unfold first_page, end_page; zlia).
    rewrite B3; [apply A1; [by left|done..]|change UTOP with 4005560320; lia|]. intros h Hh. by apply Hdis.
  - intros n. rewrite B2, A2. split.
    + intros [[?|(h & Hh & ?)]|(h & Hh & ?)]; [by left| |]; right; exists h; (split; [|done]);
        [apply list_elem_of_singleton in Hh as ->; by left|by right].
    + intros [?|(h & [->|Hh]%elem_of_cons & ?)]; [by left; left|left; right; exists g; split; [by left|done]|right; by exists h].
  - intros va Hva Hn. rewrite B3, A3; [done|done| |done|].
    + intros h ->%list_elem_of_singleton. apply Hn. by left.
    + intros h Hh. apply Hn. by right.
Qed.

Lemma load_segments_run m0 s fl pds pd e x binary size phoff ixs :
  loading s fl pds pd → envs s !! e = Some x → env_pgdir x = pgdir_kva pd →
  held m0 s fl pds pd binary size → KERNBASE <= binary → binary + size < 4294967296 →
  let gs := (λ i, segment_at m0 (binary - KERNBASE + (phoff + i * SIZEOF_PROGHDR))) <$> ixs in
  (∀ i, i ∈ ixs → 0 <= phoff + i * SIZEOF_PROGHDR ∧ phoff + i * SIZEOF_PROGHDR + SIZEOF_PROGHDR <= size) →
  (∀ g, g ∈ gs → is_load g → segment_ok size g) → disjoint_segments gs →
  (∀ g n, g ∈ gs → in_segment g n → view s pd !! n = None) → (2 * total_pages gs <= length fl)%nat →
  ∃ s' fl', for_each ixs (λ i, load_segment e binary (u32 (binary + phoff + i * SIZEOF_PROGHDR))) s = Done tt s' ∧
    filled s s' fl fl' pds pd ∧ placed m0 binary s s' pd gs ∧ (length fl <= 2 * total_pages gs + length fl')%nat.
Proof.
  intros Hl Hx Hdir Hh Hk Hsz gs. subst gs. revert s fl Hl Hx Hh.
  induction ixs as [|i ixs IH]; intros s fl Hl Hx Hh Hr Hok Hdis Hnone Hfl.
  { exists s, fl. split; [done|]. split; [by apply filled_refl|]. split; [|simpl; lia]. split; [|intros n|done].
    - intros g k Hg. by apply elem_of_nil in Hg.
    - split; [by left|]. intros [?|(g & Hg & _)]; [done|]. by apply elem_of_nil in Hg. }
  rewrite fmap_cons in *. set (g := segment_at m0 (binary - KERNBASE + (phoff + i * SIZEOF_PROGHDR))) in *.
  set (gs := (λ i, segment_at m0 (binary - KERNBASE + (phoff + i * SIZEOF_PROGHDR))) <$> ixs) in *.
  cbn [disjoint_segments] in Hdis. destruct Hdis as [Hd1 Hd2]. change (total_pages (g :: gs)) with (segment_pages g + total_pages gs)%nat in *.
  destruct (Hr i ltac:(by left)) as [Hr1 Hr2]. unfold KERNBASE in Hk.
  destruct (load_segment_run m0 s fl pds pd e x binary size (phoff + i * SIZEOF_PROGHDR)) as (s1 & fl1 & R1 & F1 & P1 & L1); try done.
  { apply Hok. by left. } { intros n. apply Hnone. by left. } { fold g. lia. }
  fold g in P1, L1. destruct (IH s1 fl1) as (s2 & fl2 & R2 & F2 & P2 & L2).
  { apply F1. } { by rewrite (vm_envs _ _ (fi_frame _ _ _ _ _ _ F1)). } { by eapply held_filled. }
  { intros j Hj. apply Hr. by right. } { intros h Hh'. apply Hok. by right. } { done. }
  { intros h n Hh' Hn. apply eq_None_not_Some. rewrite (pl_view _ _ _ _ _ _ P1). intros [[y Hy]|(g' & ->%list_elem_of_singleton & Hg)].
    - by rewrite (Hnone h n) in Hy by (done || by right).
    - by apply (Hd1 h n). }
  { lia. }
  exists s2, fl2. split; [|split; [by eapply filled_trans|split; [|lia]]].
  - cbn [for_each]. rewrite (u32_id (binary + phoff + i * SIZEOF_PROGHDR)) by (unfold SIZEOF_PROGHDR in *; lia).
    rewrite <- (Z.add_assoc binary phoff). by step_with R1.
  - eapply (placed_cons m0 binary size s s1); [apply Hok; by left|apply segment_at_range|done|done|done].
Qed.

(** ** The whole binary *)

(** A well-formed binary of [size] bytes at [binary], with the program headers
    [gs] and the entry point [entry]; no two of its segments touch the same page,
    and they end below the stack. *)
Record elf (m0 : memory) (binary size : Z) (gs : list segment) (entry : Z) : Prop := {
  el_room : KERNBASE <= binary ∧ 52 <= size ∧ binary + size < 4294967296;
  el_magic : load32 m0 (binary - KERNBASE) = ELF_MAGIC;
  el_entry : load32 m0 (binary - KERNBASE + 24) = entry;
  el_headers : let phoff := load32 m0 (binary - KERNBASE + 28) in
    let phnum := mget m0 (binary - KERNBASE + 44) + 256 * mget m0 (binary - KERNBASE + 45) in
    phoff + phnum * SIZEOF_PROGHDR <= size ∧
    gs = (λ i, segment_at m0 (binary - KERNBASE + (phoff + i * SIZEOF_PROGHDR))) <$> seqZ 0 phnum;
  el_ok g : g ∈ gs → is_load g → segment_ok size g;
  el_disjoint : disjoint_segments gs;
}.

Definition stack_page : Z := (USTACKTOP - PGSIZE) / 4096.

(** The stack: one page of zeros. *)
Lemma load_stack s fl pds pd e x :
  loading s fl pds pd → envs s !! e = Some x → env_pgdir x = pgdir_kva pd → tf_esp (env_tf x) = USTACKTOP →
  view s pd !! stack_page = None → (2 <= length fl)%nat →
  ∃ s' fl', (r ← region_alloc e (USTACKTOP - PGSIZE) PGSIZE;
      match r with
      | None => panic "Not Found!?"
      | Some _ => x ← get_env e; vwrite (u32 (tf_esp (env_tf x) - PGSIZE)) (replicate (Z.to_nat PGSIZE) 0)
      end) s = Done tt s' ∧
    filled s s' fl fl' pds pd ∧
    (∀ va, USTACKTOP - PGSIZE <= va < USTACKTOP → user_byte s' pd va = Some 0) ∧
    (∀ n, is_Some (view s' pd !! n) ↔ n = stack_page ∨ is_Some (view s pd !! n)) ∧
    (∀ va, 0 <= va < UTOP → va / 4096 ≠ stack_page → user_byte s' pd va = user_byte s pd va) ∧
    (length fl <= 2 + length fl')%nat.
Proof.
  intros Hl Hx Hdir Hesp Hn Hfl.
  assert (∀ n, first_page (USTACKTOP - PGSIZE) <= n < end_page (USTACKTOP - PGSIZE) PGSIZE ↔ n = stack_page) as Hpg.
  { change (first_page (USTACKTOP - PGSIZE)) with 977917. change (end_page (USTACKTOP - PGSIZE) PGSIZE) with 977918. change stack_page with 977917. lia. }
  destruct (region_alloc_run s fl pds pd e x (USTACKTOP - PGSIZE) PGSIZE) as (r & s1 & fl1 & R1 & F1 & V1 & N1 & B1 & Hroom & Hr); try done.
  { intros n ->%Hpg. done. }
  rewrite (bind_Done _ _ _ _ _ R1). clear R1. destruct r as [r|]; [|by destruct (Hr ltac:(done))].
  rewrite (run_get_env _ x) by (by rewrite (vm_envs _ _ (fi_frame _ _ _ _ _ _ F1))). rewrite Hesp.
  change (u32 (USTACKTOP - PGSIZE)) with (USTACKTOP - PGSIZE).
  assert (Z.of_nat (length (replicate (Z.to_nat PGSIZE) 0)) = 4096) as Hlen by (rewrite length_replicate; done).
  assert (∀ va, USTACKTOP - PGSIZE <= va < USTACKTOP ↔ va / 4096 = stack_page) as Hva.
  { change USTACKTOP with 4005552128. change stack_page with 977917. unfold PGSIZE. intros va. zlia. }
  destruct (vwrite_run (replicate (Z.to_nat PGSIZE) 0) s1 fl1 pds pd (USTACKTOP - PGSIZE) (fi_loading _ _ _ _ _ _ F1)) as (s2 & R2 & F2 & V2 & B2).
  { done. } { by rewrite Hlen. }
  { intros va. rewrite Hlen. change (USTACKTOP - PGSIZE + 4096) with USTACKTOP. intros H%Hva. apply V1, Hpg. by rewrite PGNUM_div. }
  exists s2, fl1. split; [exact R2|]. split; [by eapply filled_trans|]. rewrite Hlen in B2. change (USTACKTOP - PGSIZE + 4096) with USTACKTOP in B2.
  split; [|split; [|split; [|exact Hroom]]].
  - intros va H. rewrite B2 by (change USTACKTOP with 4005552128 in H; change UTOP with 4005560320; unfold PGSIZE in H; lia).
    rewrite decide_True by done. rewrite lookup_replicate_2; [done|]. unfold PGSIZE in *. lia.
  - intros n. rewrite V2. destruct (decide (n = stack_page)) as [->|Hne].
    + split; [by left|]. intros _. by apply V1, Hpg.
    + rewrite N1 by (by rewrite Hpg). tauto.
  - intros va H Hne. rewrite B2 by done. rewrite decide_False by (by rewrite Hva). apply B1; [done|]. by rewrite Hpg.
Qed.

(** What [load_icode] leaves behind. *)
Record loaded_image s s' fl' pds pd e x (binary : Z) (gs : list segment) (entry : Z) : Prop := {
  li_spaces : spaces s' fl' pds;
  li_byte g k : g ∈ gs → is_load g → 0 <= k < sg_memsz g →
    user_byte s' pd (sg_va g + k) = Some (segment_byte (mem s) binary g k);
  li_stack va : USTACKTOP - PGSIZE <= va < USTACKTOP → user_byte s' pd va = Some 0;
  li_pages n : is_Some (view s' pd !! n) ↔ n = stack_page ∨ ∃ g, g ∈ gs ∧ in_segment g n;
  li_write n en : view s' pd !! n = Some en → writable s' pd n en;
  li_envs : envs s' = <[e := set_env_tf (set_tf_eip entry (env_tf x)) x]> (envs s);
  li_cr3 : cr3 s' !! this_cpu s' = Some (kern_pgdir s - KERNBASE);
  li_others pd' : pd' ∈ pds → pd' ≠ pd → view s' pd' = view s pd';
  li_dirs pd' i : pd' ∈ pds → pd' ≠ pd → 0 <= i < 1024 → pde_of s' pd' i = pde_of s pd' i;
  li_free : env_free_list s' = env_free_list s;
  li_cpus : cpus s' = cpus s ∧ this_cpu s' = this_cpu s ∧ kern_pgdir s' = kern_pgdir s ∧ kernel_lock s' = kernel_lock s ∧ npages s' = npages s;
}.

(** The new environment: its directory maps nothing yet. *)
Record fresh_env s fl pds pd e x : Prop := {
  fe_spaces : spaces s fl pds;
  fe_dir : pd ∈ pds ∧ env_pgdir x = pgdir_kva pd;
  fe_cpu : cpu_ok s;
  fe_env : envs s !! e = Some x ∧ tf_esp (env_tf x) = USTACKTOP;
  fe_view : view s pd = ∅;
  fe_kern : KERNBASE <= kern_pgdir s;
}.

Lemma same_mem_spaces s s' fl pds pd :
  spaces s fl pds → mem s' = mem s → pages s' = pages s → npages s' = npages s → page_free_list s' = page_free_list s →
  spaces s' fl pds ∧ view s' pd = view s pd.
Proof.
  intros Hs Hm Hp Hn Hf. destruct (spaces_frame s s' fl fl pds Hs) as [Hs' _].
  - apply (pages_wf_ext s); try done. apply Hs.
  - apply Hs.
  - done.
  - intros q _. by rewrite Hm.
  - by left.
  - rewrite Hp. apply Hs.
  - split; [done|]. apply view_ext. intros n _. unfold pte_of, pte_loc, pt_of, pde_of. by rewrite Hm.
Qed.

Lemma same_mem_user s s' fl pds j :
  mem s' = mem s → npages s' = npages s → user_page s fl pds j → user_page s' fl pds j.
Proof.
  intros Hm Hn [U1 U2 U3]. split; [by rewrite Hn|done|]. intros [?|(pd & i & H1 & H2 & H3 & H4)]; apply U3; [by left|right].
  exists pd, i. split_and!; try done; try lia. revert H4. unfold pt_of, pde_of. by rewrite Hm.
Qed.

Lemma fresh_loading s fl pds pd e x :
  fresh_env s fl pds pd e x → let s1 := set_cr3 (<[this_cpu s := pd * 4096]> (cr3 s)) s in
  loading s1 fl pds pd ∧ view s1 pd = ∅.
Proof.
  intros [F1 [F2 F2'] F3 [F4 F4'] F5 F6] s1. destruct (same_mem_spaces s s1 fl pds pd F1) as [Hs Hv]; try done.
  rewrite F5 in Hv. split; [|done]. split; try done.
  - apply lookup_insert_eq.
  - intros n n' e1 e2. by rewrite Hv, lookup_empty.
  - intros n e1. by rewrite Hv, lookup_empty.
Qed.

(** The segments and the stack, in the new address space. *)
Lemma load_body s fl pds pd e x binary size gs entry :
  fresh_env s fl pds pd e x →
  (∀ a, binary - KERNBASE <= a < binary - KERNBASE + size → user_page s fl pds (a / 4096)) →
  elf (mem s) binary size gs entry → (2 * S (total_pages gs) <= length fl)%nat →
  let s1 := set_cr3 (<[this_cpu s := pd * 4096]> (cr3 s)) s in
  ∃ s3 fl3, (∀ A (k : unit → M A), (phnum ← e_phnum binary;
      for_each (seqZ 0 phnum) (λ i, load_segment e binary
        (u32 (binary + load32 (mem s) (binary - KERNBASE + 28) + i * SIZEOF_PROGHDR))) ;;
      r ← region_alloc e (USTACKTOP - PGSIZE) PGSIZE;
      match r with
      | None => panic "Not Found!?"
      | Some _ => x ← get_env e; vwrite (u32 (tf_esp (env_tf x) - PGSIZE)) (replicate (Z.to_nat PGSIZE) 0) ;; k tt
      end) s1 = k tt s3) ∧
    filled s1 s3 fl fl3 pds pd ∧ held (mem s) s3 fl3 pds pd binary size ∧
    (∀ g k, g ∈ gs → is_load g → 0 <= k < sg_memsz g → user_byte s3 pd (sg_va g + k) = Some (segment_byte (mem s) binary g k)) ∧
    (∀ va, USTACKTOP - PGSIZE <= va < USTACKTOP → user_byte s3 pd va = Some 0) ∧
    (∀ n, is_Some (view s3 pd !! n) ↔ n = stack_page ∨ ∃ g, g ∈ gs ∧ in_segment g n) ∧
    (length fl <= 2 * S (total_pages gs) + length fl3)%nat.
Proof.
  intros Hf Hus [(E1 & E2 & E3) E4 E5 E6 E7 E8] Hfl s1. cbv zeta in E6. destruct E6 as [E6 Egs].
  destruct (fresh_loading s fl pds pd e x Hf) as [Hl Hv0]. destruct Hf as [F1 [F2 F2'] F3 [F4 F4'] F5 F6]. fold s1 in Hl, Hv0.
  assert (∀ j, unmapped s1 pd j) as Hun by (intros j n y; by rewrite Hv0, lookup_empty).
  assert (held (mem s) s1 fl pds pd binary size) as Hh by (intros a Ha; split; [apply (same_mem_user s); try done; by apply Hus|done]).
  set (phoff := load32 (mem s) (binary - KERNBASE + 28)) in *.
  set (phnum := mget (mem s) (binary - KERNBASE + 44) + 256 * mget (mem s) (binary - KERNBASE + 45)) in *.
  pose proof (load32_range (mem s) (binary - KERNBASE + 28)) as Hph. fold phoff in Hph.
  destruct (load_segments_run (mem s) s1 fl pds pd e x binary size phoff (seqZ 0 phnum)) as (s2 & fl2 & R2 & G2 & P2 & L2); try done.
  { intros i [Hi1 Hi2]%elem_of_seqZ. unfold SIZEOF_PROGHDR in *. lia. }
  { by rewrite <- Egs. } { by rewrite <- Egs. } { intros g n _ _. by rewrite Hv0, lookup_empty. } { rewrite <- Egs. lia. }
  rewrite <- Egs in P2, L2. pose proof (fi_frame _ _ _ _ _ _ G2) as Fr2.
  assert (∀ g n, g ∈ gs → in_segment g n → n ≠ stack_page) as Hst.
  { intros g n Hg [Hld Hn] ->. destruct (E7 g Hg Hld) as [_ _ K]. change USTACKTOP with 4005552128 in K.
    change stack_page with 977917 in Hn. unfold end_page, PGSIZE in *. zlia. }
  destruct (load_stack s2 fl2 pds pd e x) as (s3 & fl3 & R3 & G3 & B3 & V3 & O3 & L3); try done.
  { apply G2. } { by rewrite (vm_envs _ _ Fr2). }
  { apply eq_None_not_Some. rewrite (pl_view _ _ _ _ _ _ P2). intros [[y Hy]|(g & Hg & Hn)]; [by rewrite Hv0, lookup_empty in Hy|].
    by apply (Hst g stack_page). }
  { lia. }
  exists s3, fl3. split; [|split; [by eapply filled_trans|split; [exact (held_filled _ _ _ _ _ _ _ _ _ (held_filled _ _ _ _ _ _ _ _ _ Hh G2) G3)|split; [|split; [done|split; [|lia]]]]]].
  - intros A k. unfold e_phnum, rd16. rewrite (proj2 (Z.leb_le KERNBASE (binary + 44))), run_gets by lia. cbn [mem set_cr3 s1].
    replace (binary + 44 - KERNBASE) with (binary - KERNBASE + 44) by lia. replace (binary - KERNBASE + 44 + 1) with (binary - KERNBASE + 45) by lia.
    fold phnum. rewrite (bind_Done _ _ _ _ _ R2). apply bind_inv in R3 as (r & t & Ra & Rb). rewrite (bind_Done _ _ _ _ _ Ra).
    destruct r as [r|]; [|discriminate Rb]. apply bind_inv in Rb as (y & t' & Rg & Rv). rewrite (bind_Done _ _ _ _ _ Rg). by rewrite (bind_Done _ _ _ _ _ Rv).
  - intros g k Hg Hld Hk. destruct (E7 g Hg Hld) as [_ _ K]. change USTACKTOP with 4005552128 in K. unfold PGSIZE in K.
    assert (0 <= sg_va g) as H0 by (rewrite Egs in Hg; apply list_elem_of_fmap in Hg as (i & -> & _); apply segment_at_range).
    rewrite O3; [by apply (pl_byte _ _ _ _ _ _ P2)|change UTOP with 4005560320; lia|].
    change stack_page with 977917. zlia.
  - intros n. rewrite V3, (pl_view _ _ _ _ _ _ P2), Hv0, lookup_empty. split; [|tauto].
    intros [?|[[? ?]|?]]; [by left|done|by right].
Qed.

Lemma load_icode_run s fl pds pd e x binary size gs entry :
  fresh_env s fl pds pd e x →
  (∀ a, binary - KERNBASE <= a < binary - KERNBASE + size → user_page s fl pds (a / 4096)) →
  elf (mem s) binary size gs entry → (2 * S (total_pages gs) <= length fl)%nat →
  ∃ s' fl', load_icode e binary size s = Done tt s' ∧ loaded_image s s' fl' pds pd e x binary gs entry ∧
    (∀ j, user_page s fl pds j → page_same j (mem s) (mem s') ∧ user_page s' fl' pds j) ∧
    (length fl <= 2 * S (total_pages gs) + length fl')%nat.
Proof.
  intros Hf Hus He Hfl. destruct (load_body s fl pds pd e x binary size gs entry Hf Hus He Hfl) as (s3 & fl3 & R & G & Hh & Hb & Hst & Hv & Hroom).
  destruct (fresh_loading s fl pds pd e x Hf) as [_ Hv0]. destruct Hf as [F1 [F2 F2'] F3 [F4 F4'] F5 F6]. destruct He as [(E1 & E2 & E3) E4 E5 _ _ _].
  set (s1 := set_cr3 _ s) in *. pose proof (fi_frame _ _ _ _ _ _ G) as Fr. destruct (fi_loading _ _ _ _ _ _ G) as [L1 L2 L3 L4 L5 L6].
  set (s' := set_cr3 (<[this_cpu s := kern_pgdir s - KERNBASE]> (cr3 s3)) (set_envs (<[e := set_env_tf (set_tf_eip entry (env_tf x)) x]> (envs s)) s3)).
  destruct (same_mem_spaces s3 s' fl3 pds pd L1) as [Hs' Hv']; try done.
  exists s', fl3. split; [|split; [|split; [|exact Hroom]]].
  - unfold load_icode, e_magic, e_phoff, e_entry, get_kernpgdir, lcr3. rewrite run_rd32, E4 by lia. change (ELF_MAGIC =? ELF_MAGIC) with true. cbn [negb].
    rewrite run_rd32 by lia. replace (binary + 28 - KERNBASE) with (binary - KERNBASE + 28) by lia.
    rewrite (run_get_env _ x) by done. rewrite F2', run_PADDR by (unfold pgdir_kva; pose proof (pd_dir _ _ _ (sp_pd _ _ _ F1 pd F2)); lia).
    rewrite run_modify. replace (pgdir_kva pd - KERNBASE) with (pd * 4096) by (unfold pgdir_kva; lia). fold s1.
    rewrite (R unit (λ _, entry ← rd32 (binary + 24);
      upd_env (λ x, set_env_tf (set_tf_eip entry (env_tf x)) x) e ;;
      k ← gets kern_pgdir; pa ← PADDR k; modify (λ s, set_cr3 (<[this_cpu s:=pa]> (cr3 s)) s))).
    rewrite run_rd32 by lia. replace (binary + 24 - KERNBASE) with (binary - KERNBASE + 24) by lia.
    rewrite (held_load32 (mem s) s3 fl3 pds pd binary size), E5 by (done || lia).
    assert (envs s3 = envs s) as Ee by (by rewrite (vm_envs _ _ Fr)). assert (this_cpu s3 = this_cpu s) as Ec by (by rewrite (vm_this_cpu _ _ Fr)).
    assert (kern_pgdir s3 = kern_pgdir s) as Ek by (by rewrite (vm_kern_pgdir _ _ Fr)).
    rewrite (run_upd_env _ _ x) by (by rewrite Ee). rewrite run_gets. cbn [kern_pgdir set_envs]. rewrite Ek, run_PADDR by lia.
    unfold modify. cbn [this_cpu cr3 set_envs]. by rewrite Ec, Ee.
  - assert (this_cpu s3 = this_cpu s) as Ec by (by rewrite (vm_this_cpu _ _ Fr)).
    assert (∀ va, user_byte s' pd va = user_byte s3 pd va) as Hub by (intros va; unfold user_byte; by rewrite Hv').
    clear R. split; [exact Hs'|..|reflexivity| | | | |].
    + intros g k. rewrite Hub. apply Hb.
    + intros va. rewrite Hub. apply Hst.
    + by rewrite Hv'.
    + rewrite Hv'. apply L6.
    + cbn [cr3 this_cpu set_cr3 set_envs s']. rewrite Ec. apply lookup_insert_eq.
    + intros pd' Hp Hne. transitivity (view s3 pd'); [|by apply (fi_others _ _ _ _ _ _ G)].
      by destruct (same_mem_spaces s3 s' fl3 pds pd' L1).
    + exact (fi_dirs _ _ _ _ _ _ G).
    + exact (vm_env_free_list _ _ Fr).
    + destruct Fr. by split_and!.
  - intros j Hj. assert (user_page s1 fl pds j) as Hj1 by (by apply (same_mem_user s)). split.
    + apply (fi_mem _ _ _ _ _ _ G); [done|]. intros n y. by rewrite Hv0, lookup_empty.
    + apply (same_mem_user s3); [done..|]. by apply (fi_user _ _ _ _ _ _ G).
Qed.

(** ** Creating an environment *)

(** A directory without page tables below [UTOP] maps nothing there. *)
Lemma empty_directory s q :
  (∀ i, 0 <= i < PDX UTOP → pt_of s q i = None) → (∀ va, 0 <= va < UTOP → pte_of s q va = 0) ∧ view s q = ∅.
Proof.
  intros Hlq. assert (∀ va, 0 <= va < UTOP → pte_of s q va = 0) as Hpte by (intros va Hva; apply pte_of_none, Hlq, PDX_user, Hva).
  split; [done|]. apply map_empty. intros n. apply eq_None_not_Some. intros [y Hy]. pose proof (view_range _ _ _ _ Hy).
  apply lookup_view_Some in Hy as (_ & Hp & ->). rewrite Hpte in Hp; [done|]. change UTOP with 4005560320. lia.
Qed.

(** A new directory has the kernel's part of [kd] and maps nothing below [UTOP]. *)
Lemma new_space s s' fl pds kd e q x :
  spaces s (q :: fl) pds → kd ∈ pds → (∀ i, 0 <= i < PDX UTOP → pt_of s kd i = None) → vm_ready s s' fl e q kd x →
  spaces s' fl (q :: pds) ∧ view s' q = ∅ ∧ (∀ pd, pd ∈ pds → view s' pd = view s pd ∧ ∀ i, 0 <= i < 1024 → pde_of s' pd i = pde_of s pd i) ∧
  (∀ j, user_page s (q :: fl) pds j → user_page s' fl (q :: pds) j).
Proof.
  intros Hs Hkd Hlow [V1 V2 V3 [V4 V4'] V5 V6 V7 V8 V9 V10 V11 V12].
  pose proof (pw_nodup _ _ (sp_pages _ _ _ Hs)) as [Hnd _]%NoDup_cons.
  assert (∀ pd i t, pd ∈ pds → 0 <= i < 1024 → i ≠ self_index → pt_of s pd i = Some t → t ≠ q) as Htq.
  { intros pd i t Hpd Hi Hi' Ht ->. destruct (pd_table _ _ _ (sp_pd _ _ _ Hs pd Hpd) i Hi q Hi' Ht) as (_ & Hn & _). apply Hn. by left. }
  assert (∀ pd, pd ∈ pds → pd ≠ q) as Hpq.
  { intros pd Hpd ->. destruct (pd_dir _ _ _ (sp_pd _ _ _ Hs q Hpd)) as [_ Hn]. apply Hn. by left. }
  assert (∀ j, user_page s (q :: fl) pds j → j ≠ q) as Huq by (intros j [_ U _] ->; apply U; by left).
  destruct (spaces_frame s s' (q :: fl) fl pds Hs) as [Hs' Hv]; try done.
  { intros Hz. apply (sp_zero _ _ _ Hs). by right. }
  { intros j [?|(pd & i & ? & ? & ? & ?)]; apply V7; [by apply Hpq|by eapply Htq]. }
  { intros j Hj. left. by right. }
  { intros j p' Hp. destruct (decide (j = q)) as [->|Hne]; [|apply (sp_refs _ _ _ Hs); by rewrite <- V6].
    rewrite refs_zero; [rewrite Hp in V5; injection V5; lia|]. intros pd n y Hpd Hy. apply Huq. by eapply (sp_leaf _ _ _ Hs). }
  assert (∀ i, 0 <= i < PDX UTOP → pt_of s' q i = None) as Hlq.
  { intros i Hi. change (PDX UTOP) with 955 in *. rewrite V12 by (change self_index with 957; lia). by apply Hlow. }
  destruct (empty_directory s' q Hlq) as [Hpte Hve].
  assert (∀ pd i, pd ∈ pds → 0 <= i < 1024 → pt_of s' pd i = pt_of s pd i) as Hpt by (intros pd i Hpd Hi; unfold pt_of; by rewrite (proj2 (Hv pd Hpd))).
  assert (∀ j, user_page s (q :: fl) pds j → user_page s' fl (q :: pds) j) as Huser.
  { intros j Hu. pose proof (Huq j Hu) as Hne. destruct Hu as [U1 U2 U3]. split; [by rewrite V11|intros ?; apply U2; by right|].
    intros [[?|?]%elem_of_cons|(pd & i & [->|Hpd]%elem_of_cons & Hi & Hi' & Ht)]; [done|by apply U3; left| |]; apply U3; right.
    - exists kd, i. by rewrite <- V12.
    - exists pd, i. by rewrite <- Hpt. }
  split; [|split; [done|split; [by intros; apply Hv|done]]].
  split.
  - done.
  - apply (sp_zero _ _ _ Hs').
  - apply NoDup_cons. split; [intros H; by apply (Hpq q)|apply Hs].
  - intros pd [->|Hpd]%elem_of_cons; [done|by apply Hs'].
  - intros pd i t [->|Hpd]%elem_of_cons Hi Hi' Ht [->|Ht']%elem_of_cons.
    + by destruct (pd_table _ _ _ V2 i Hi q Hi' Ht) as (_ & _ & []).
    + rewrite V12 in Ht by done. by apply (sp_tables _ _ _ Hs kd i t).
    + rewrite Hpt in Ht by done. by apply (Htq pd i q).
    + by apply (sp_tables _ _ _ Hs' pd i t).
  - intros pd pd' i j t [->|Hpd]%elem_of_cons [->|Hpd']%elem_of_cons Hne Hi Hj Hj' Ht; [done|by rewrite Hlq in Ht| |by apply (sp_private _ _ _ Hs' pd pd' i j t)].
    assert (0 <= i < 1024) as Hi1 by (change (PDX UTOP) with 955 in Hi; lia). rewrite V12 by done. rewrite Hpt in Ht by done.
    destruct (decide (pd = kd)) as [->|Hk]; [by rewrite Hlow in Ht|]. by apply (sp_private _ _ _ Hs pd kd i j t).
  - intros pd n y [->|Hpd]%elem_of_cons Hy; [by rewrite Hve, lookup_empty in Hy|]. apply Huser.
    rewrite (proj1 (Hv pd Hpd)) in Hy. by eapply (sp_leaf _ _ _ Hs).
  - intros pd va [->|Hpd]%elem_of_cons Hva Hm; [by apply Hpte|by apply (sp_clear _ _ _ Hs')].
  - intros j p Hp. cbn [refs]. rewrite Hve, uses_zero by done. by apply (sp_refs _ _ _ Hs').
Qed.

Definition same_binary (m m' : memory) (binary size : Z) : Prop :=
  ∀ a, binary - KERNBASE <= a < binary - KERNBASE + size → mget m' a = mget m a.

Lemma same_load32 m m' binary size o :
  same_binary m m' binary size → 0 <= o → o + 4 <= size →
  load32 m' (binary - KERNBASE + o) = load32 m (binary - KERNBASE + o).
Proof. intros H H0 H1. unfold load32. by rewrite !H by lia. Qed.

Lemma elf_same m m' binary size gs entry :
  same_binary m m' binary size → elf m binary size gs entry → elf m' binary size gs entry.
Proof.
  intros Hm [(E1 & E2 & E3) E4 E5 E6 E7 E8]. pose proof (same_load32 m m' binary size) as Hw.
  split; [done| | | |done|done].
  - specialize (Hw 0 Hm). rewrite Z.add_0_r in Hw. by rewrite Hw by lia.
  - by rewrite Hw by (done || lia).
  - cbv zeta in E6 |- *. rewrite Hw by (done || lia). rewrite !Hm by lia. destruct E6 as [E6 ->]. split; [done|].
    set (phnum := mget m _ + _) in *. pose proof (load32_range m (binary - KERNBASE + 28)) as Hph.
    apply list_fmap_ext. intros i z Hz%list_elem_of_lookup_2%elem_of_seqZ. unfold SIZEOF_PROGHDR in *. unfold segment_at.
    pose proof (λ d, Hw (load32 m (binary - KERNBASE + 28) + z * 32 + d) Hm) as Hg.
    assert (∀ d, 0 <= d <= 28 → load32 m' (binary - KERNBASE + (load32 m (binary - KERNBASE + 28) + z * 32) + d) =
      load32 m (binary - KERNBASE + (load32 m (binary - KERNBASE + 28) + z * 32) + d)) as Hd.
    { intros d Hd. specialize (Hg d). rewrite (Z.add_assoc (binary - KERNBASE)) in Hg. apply Hg; lia. }
    pose proof (Hd 0 ltac:(lia)) as H0. rewrite !Z.add_0_r in H0. by rewrite H0, !Hd by lia.
Qed.

Lemma same_segment m m' binary size gs entry g k :
  same_binary m m' binary size → elf m binary size gs entry → g ∈ gs → is_load g → 0 <= k →
  segment_byte m' binary g k = segment_byte m binary g k.
Proof.
  intros Hm He Hg Hld Hk. destruct (el_ok _ _ _ _ _ He g Hg Hld) as [_ K _].
  destruct (el_headers _ _ _ _ _ He) as [_ Egs]. unfold segment_byte. case_decide; [|done].
  assert (0 <= sg_offset g) by (rewrite Egs in Hg; apply list_elem_of_fmap in Hg as (i & -> & _); apply segment_at_range).
  apply Hm. lia.
Qed.

(** The new environment [y] of slot [e], with the page directory [q], after
    [env_create]. *)
Record created s s' fl' pds efl e q y (binary : Z) (gs : list segment) : Prop := {
  cr_spaces : spaces s' fl' (q :: pds);
  cr_envs : envs s' = <[e := y]> (envs s) ∧ envs_wf s' efl;
  cr_byte g k : g ∈ gs → is_load g → 0 <= k < sg_memsz g →
    user_byte s' q (sg_va g + k) = Some (segment_byte (mem s) binary g k);
  cr_stack va : USTACKTOP - PGSIZE <= va < USTACKTOP → user_byte s' q va = Some 0;
  cr_pages n : is_Some (view s' q !! n) ↔ n = stack_page ∨ ∃ g, g ∈ gs ∧ in_segment g n;
  cr_write n en : view s' q !! n = Some en → writable s' q n en;
  cr_cr3 : cr3 s' !! this_cpu s' = Some (kern_pgdir s - KERNBASE);
  cr_others pd : pd ∈ pds → view s' pd = view s pd;
  cr_dirs pd i : pd ∈ pds → 0 <= i < 1024 → pde_of s' pd i = pde_of s pd i;
  cr_same : cpus s' = cpus s ∧ this_cpu s' = this_cpu s ∧ kern_pgdir s' = kern_pgdir s ∧ kernel_lock s' = kernel_lock s ∧ npages s' = npages s;
}.

(** Slot [e], which held [x], after [env_create]. *)
Definition program_env e x q entry type : Env :=
  set_env_parent_id 0 (set_env_type type (set_env_tf (set_tf_eip entry new_tf) (new_env e x 0 q))).

Lemma alloc_fresh s fl efl pds kd q e x :
  spaces s (q :: fl) pds → cpu_ok s → kern_pgdir s = pgdir_kva kd → kd ∈ pds →
  (∀ i, 0 <= i < PDX UTOP → pt_of s kd i = None) → envs_wf s (e :: efl) → envs s !! e = Some x →
  ∃ s1, env_alloc 0 s = Done (0, Some e) s1 ∧ fresh_env s1 fl (q :: pds) q e (new_env e x 0 q) ∧
    envs s1 = <[e := new_env e x 0 q]> (envs s) ∧ envs_wf s1 efl ∧ kern_pgdir s1 = kern_pgdir s ∧
    (∀ pd, pd ∈ pds → view s1 pd = view s pd ∧ ∀ i, 0 <= i < 1024 → pde_of s1 pd i = pde_of s pd i) ∧ (∀ j, j ≠ q → page_same j (mem s) (mem s1)) ∧
    (∀ j, user_page s (q :: fl) pds j → j ≠ q ∧ user_page s1 fl (q :: pds) j) ∧
    (cpus s1 = cpus s ∧ this_cpu s1 = this_cpu s ∧ kernel_lock s1 = kernel_lock s ∧ npages s1 = npages s).
Proof.
  intros Hs Hc Hk Hkd Hlow He Hx.
  destruct (env_alloc_run s efl fl e q kd x 0 He Hx (sp_pages _ _ _ Hs) Hk) as (p & Hp & Ha & Hrun).
  pose proof (setup_post_ready s fl e q kd x p (sp_pages _ _ _ Hs) (sp_pd _ _ _ Hs kd Hkd) Hp Ha) as Hr.
  assert (kern_pgdir (setup_post e q kd x p s) = kern_pgdir s ∧ this_cpu (setup_post e q kd x p s) = this_cpu s ∧
    cpus (setup_post e q kd x p s) = cpus s ∧ kernel_lock (setup_post e q kd x p s) = kernel_lock s ∧
    npages (setup_post e q kd x p s) = npages s) as (K1 & K2 & K3 & K4 & K5) by done.
  unfold env_alloc_post in Hrun. revert Hrun Hr K1 K2 K3 K4 K5. generalize (setup_post e q kd x p s). intros s0 Hrun Hr K1 K2 K3 K4 K5.
  destruct (new_space s s0 fl pds kd e q x Hs Hkd Hlow Hr) as (Hs0 & Hv0 & Ho & Hu).
  set (s1 := set_env_free_list (env_link x) (set_envs (<[e := new_env e x 0 q]> (envs s)) s0)) in *.
  assert (∀ pd, spaces s1 fl (q :: pds) ∧ view s1 pd = view s0 pd) as Hsv by (intros pd; by apply same_mem_spaces).
  exists s1. split; [exact Hrun|].
  split; [|split; [done|split; [by eapply env_alloc_envs_wf|split; [exact K1|split; [|split; [exact (vr_mem _ _ _ _ _ _ _ Hr)|split; [|done]]]]]]].
  - split; [apply (Hsv q)|split; [by left|done]| |split; [apply lookup_insert_eq|done]|by rewrite (proj2 (Hsv q))|].
    + unfold cpu_ok in *. cbn [cpus this_cpu envs set_env_free_list set_envs s1]. rewrite K2, K3.
      destruct (cpus s !! this_cpu s) as [c|]; [|done]. destruct (cpu_env c) as [i|]; [|done].
      rewrite lookup_insert. by case_decide.
    + cbn [kern_pgdir set_env_free_list set_envs s1]. rewrite K1, Hk. destruct (pd_dir _ _ _ (sp_pd _ _ _ Hs kd Hkd)).
      unfold pgdir_kva. lia.
  - intros pd Hpd. rewrite (proj2 (Hsv pd)). by apply Ho.
  - intros j Hj. split; [intros ->; apply (up_used _ _ _ _ Hj); by left|]. apply (same_mem_user s0); [done..|by apply Hu].
Qed.

Lemma env_create_run s fl efl pds kd q e x binary size gs entry type :
  spaces s (q :: fl) pds → cpu_ok s → kern_pgdir s = pgdir_kva kd → kd ∈ pds →
  (∀ i, 0 <= i < PDX UTOP → pt_of s kd i = None) → envs_wf s (e :: efl) → envs s !! e = Some x →
  (∀ a, binary - KERNBASE <= a < binary - KERNBASE + size → user_page s (q :: fl) pds (a / 4096)) →
  elf (mem s) binary size gs entry → (2 * S (total_pages gs) <= length fl)%nat →
  ∃ s' fl', env_create binary size type s = Done tt s' ∧
    created s s' fl' pds efl e q (program_env e x q entry type) binary gs ∧
    (∀ j, user_page s (q :: fl) pds j → page_same j (mem s) (mem s') ∧ user_page s' fl' (q :: pds) j) ∧
    (length fl <= 2 * S (total_pages gs) + length fl')%nat.
Proof.
  intros Hs Hc Hk Hkd Hlow He Hx Hb Helf Hfl.
  destruct (alloc_fresh s fl efl pds kd q e x) as (s1 & R1 & Hf & He1 & Hw1 & Hk1 & Ho1 & Hm1 & Hu1 & Hc1); try done.
  assert (same_binary (mem s) (mem s1) binary size) as Hsame by (intros a Ha; apply (Hm1 (a / 4096)); [apply Hu1, Hb, Ha|zlia]).
  assert (∀ a, binary - KERNBASE <= a < binary - KERNBASE + size → user_page s1 fl (q :: pds) (a / 4096)) as Hb1 by (intros a Ha; apply Hu1, Hb, Ha).
  destruct (load_icode_run s1 fl (q :: pds) q e _ binary size gs entry Hf Hb1 (elf_same _ _ _ _ _ _ Hsame Helf) Hfl)
    as (s2 & fl2 & R2 & [L1 L2 L3 L4 L5 L6 L7 L8 L8' L9 L10] & Hm2 & Hroom).
  pose proof (pw_nodup _ _ (sp_pages _ _ _ Hs)) as [Hnd _]%NoDup_cons.
  set (y := program_env e x q entry type).
  set (s' := set_envs (<[e := y]> (envs s2)) s2).
  assert (∀ pd, spaces s' fl2 (q :: pds) ∧ view s' pd = view s2 pd) as Hsv by (intros pd; by apply same_mem_spaces).
  assert (∀ va, user_byte s' q va = user_byte s2 q va) as Hub by (intros va; unfold user_byte; by rewrite (proj2 (Hsv q))).
  exists s', fl2. split; [|split; [|split; [|exact Hroom]]].
  - unfold env_create. rewrite (bind_Done _ _ _ _ _ R1). change (fst (0, Some e) <? 0) with false. cbn [snd deref]. cbv iota.
    rewrite run_ret, (bind_Done _ _ _ _ _ R2). rewrite (run_upd_env _ _ (set_env_tf (set_tf_eip entry (env_tf (new_env e x 0 q))) (new_env e x 0 q))) by (rewrite L6; apply lookup_insert_eq).
    unfold upd_env. erewrite run_get_env by (cbn [envs set_envs]; apply lookup_insert_eq). unfold modify. cbn [envs set_envs].
    rewrite insert_insert_eq. reflexivity.
  - assert (envs s' = <[e := y]> (envs s)) as Ee by (cbn [envs set_envs s']; by rewrite L6, He1, !insert_insert_eq).
    split; [apply (Hsv q)|split; [exact Ee|]| | |by rewrite (proj2 (Hsv q))| |cbn [cr3 this_cpu set_envs s']; by rewrite L7, Hk1| | |].
    + pose proof (ew_in_range _ _ e He ltac:(by left)) as Her. destruct (ew_env _ _ He _ _ Hx) as (_ & Hid & _).
      destruct (new_env_id_facts (env_id x) e Hid Her) as (Hi1 & Hi2 & _). pose proof (ew_nodup _ _ He) as [Hne _]%NoDup_cons.
      apply (envs_wf_update s1 s' efl e y); [exact Hw1|exact Her|exact Hne|simpl; lia|by right|done| |exact L9].
      by rewrite Ee, He1, insert_insert_eq.
    + intros g k Hg Hld Hk'. rewrite Hub, L2 by done. f_equal. apply (same_segment (mem s) _ _ size gs entry); try done. lia.
    + intros va Hva. by rewrite Hub, L3.
    + intros n en. rewrite (proj2 (Hsv q)). apply L5.
    + intros pd Hpd. rewrite (proj2 (Hsv pd)), L8, (proj1 (Ho1 pd Hpd)); [done|by right|]. intros ->.
      destruct (pd_dir _ _ _ (sp_pd _ _ _ Hs q Hpd)) as [_ Hn]. apply Hn. by left.
    + intros pd i Hpd Hi. destruct (Ho1 pd Hpd) as [_ Hd1]. rewrite <- Hd1 by done. apply L8'; [by right| |done]. intros ->.
      destruct (pd_dir _ _ _ (sp_pd _ _ _ Hs q Hpd)) as [_ Hn]. apply Hn. by left.
    + destruct Hc1 as (H1 & H2 & H3 & H4), L10 as (H5 & H6 & H7 & H8 & H9). cbn [cpus this_cpu kern_pgdir kernel_lock npages set_envs s'].
      by rewrite H5, H6, H7, H8, H9, H1, H2, H3, H4, Hk1.
  - intros j Hj. destruct (Hu1 j Hj) as [Hne Hj1]. destruct (Hm2 j Hj1) as [Hm3 Hu3].
    split; [etrans; [by apply Hm1|exact Hm3]|by apply (same_mem_user s2)].
Qed.

(** C12: [env_create], at start-up, for a well-formed ELF binary with enough free
    pages: it returns; the first free slot holds a runnable environment of the
    given type, without parent, that will start at the entry point of the binary;
    its address space has exactly the pages of the loadable segments and one stack
    page, all writable by the user; every byte of a segment is the file's byte, or
    zero beyond the file's part, and the stack is zero.  All other address spaces
    and the contents of all pages in use are unchanged, and the kernel's own page
    directory is loaded again. *)
Theorem env_create_loads s fl efl pds kd q e x binary size gs entry type :
  spaces s (q :: fl) pds → cpu_ok s → kern_pgdir s = pgdir_kva kd → kd ∈ pds →
  (∀ i, 0 <= i < PDX UTOP → pt_of s kd i = None) → envs_wf s (e :: efl) → envs s !! e = Some x →
  (∀ a, binary - KERNBASE <= a < binary - KERNBASE + size → user_page s (q :: fl) pds (a / 4096)) →
  elf (mem s) binary size gs entry → (2 * S (total_pages gs) <= length fl)%nat →
  ∃ s' fl', env_create binary size type s = Done tt s' ∧
    created s s' fl' pds efl e q (program_env e x q entry type) binary gs ∧
    ∀ j, user_page s (q :: fl) pds j → page_same j (mem s) (mem s').
Proof.
  intros Hs Hc Hk Hkd Hlow He Hx Hb Helf Hfl.
  destruct (env_create_run s fl efl pds kd q e x binary size gs entry type) as (s' & fl' & R & H & Hm & _); try done.
  exists s', fl'. split; [done|]. split; [done|]. intros j Hj. by apply Hm.
Qed.
End loader.

(** ** Concrete instances *)

(** An ELF binary of 87 bytes with one loadable segment: three bytes from the file
    and five zeros, at 0x800020. *)
Definition ex_word (w : Z) : list Z := [u8 w; u8 (w / 256); u8 (w / 65536); u8 (w / 16777216)].
Definition ex_segment : segment := mkSegment ELF_PROG_LOAD 84 0x800020 3 8.
Definition ex_binary : list Z :=
  ex_word ELF_MAGIC ++ replicate 20 0 ++ ex_word 0x800020 ++ ex_word 52 ++ replicate 12 0 ++ [1; 0] ++ replicate 6 0 ++
  ex_word ELF_PROG_LOAD ++ ex_word 84 ++ ex_word 0x800020 ++ ex_word 0 ++ ex_word 3 ++ ex_word 8 ++ ex_word 0 ++ ex_word 0 ++
  [0x90; 0xEB; 0xFD].

(** The kernel of [ex_kernel], whose directory 2 maps nothing, with the binary in
    page 8; the pages of [fl] are free. *)
Definition ex_free_pages (fl : list Z) : gmap Z Page := list_to_map (
  (λ i, (i, mkPage (snd <$> find (λ x, bool_decide (x.1 = i)) (zip fl (drop 1 fl))) (i * 4096)
    (if bool_decide (i ∈ fl) then 0 else 1))) <$> seqZ 0 16).
Definition ex_loader (fl : list Z) : kstate :=
  set_mem (write_bytes ∅ (8 * 4096) ex_binary)
    (set_page_free_list (head fl) (set_nAvailPages (Z.of_nat (length fl)) (set_pages (ex_free_pages fl) ex_kernel))).

Lemma ex_loader_spaces : spaces (ex_loader [3; 5; 4; 6; 9]) [3; 5; 4; 6; 9] [2].
Proof. apply spaces_check; [by_compute|by_compute|by_compute|]. split; by_compute. Qed.

Lemma ex_loader_elf : elf (mem (ex_loader [3; 5; 4; 6; 9])) (KERNBASE + 8 * 4096) 87 [ex_segment] 0x800020.
Proof.
  split; [by_compute|by_compute|by_compute|vm_compute; split; [discriminate|reflexivity]| |by split; [intros h n Hh; apply elem_of_nil in Hh|]].
  intros g ->%list_elem_of_singleton _. split; by_compute.
Qed.

Lemma env_create_loads_witness :
  ∃ s' fl', env_create (KERNBASE + 8 * 4096) 87 ENV_TYPE_USER (ex_loader [3; 5; 4; 6; 9]) = Done tt s' ∧
    created (ex_loader [3; 5; 4; 6; 9]) s' fl' [2] (seqZ 4 1020) 3 3 (program_env 3 (ex_env 3) 3 0x800020 ENV_TYPE_USER)
      (KERNBASE + 8 * 4096) [ex_segment] ∧
    ∀ j, user_page (ex_loader [3; 5; 4; 6; 9]) [3; 5; 4; 6; 9] [2] j → page_same j (mem (ex_loader [3; 5; 4; 6; 9])) (mem s').
Proof.
  apply (env_create_loads (ex_loader [3; 5; 4; 6; 9]) [5; 4; 6; 9] (seqZ 4 1020) [2] 2 3 3 (ex_env 3) (KERNBASE + 8 * 4096) 87 [ex_segment]).
  - exact ex_loader_spaces.
  - by_compute.
  - by_compute.
  - by left.
  - intros i Hi. assert (Forall (λ i, pt_of (ex_loader [3; 5; 4; 6; 9]) 2 i = None) (seqZ 0 (PDX UTOP))) as H by by_compute.
    rewrite Forall_forall in H. apply H, elem_of_seqZ. lia.
  - by_compute.
  - by_compute.
  - intros a Ha. assert (a / 4096 = 8) as -> by (unfold KERNBASE in Ha; zlia). split; [by_compute|by_compute|].
    intros [H|(pd & i & H & Hi & _ & Ht)]; apply list_elem_of_singleton in H; [done|subst pd].
    assert (Forall (λ i, pt_of (ex_loader [3; 5; 4; 6; 9]) 2 i = None) (seqZ 0 1024)) as Hn by by_compute.
    rewrite Forall_forall in Hn. rewrite Hn in Ht; [done|]. apply elem_of_seqZ. lia.
  - exact ex_loader_elf.
  - by_compute.
Defined.

(** With one page left, [region_alloc] takes it, finds no page for the page table,
    and returns without having mapped anything: the result of [page_insert] is not
    looked at. *)
Example region_alloc_maps_nothing :
  match region_alloc 1 0x800000 4096 (ex_loader [3]) with
  | Done r s' => Some (r, page_free_list s', pp_ref <$> pages s' !! 3, mapped s' 2 0x800000)
  | _ => None
  end = Some (None, None, Some 0, None).
Proof. vm_compute. reflexivity. Qed.
