(* ===== verification/VmCalls.v ===== *)
(** * The virtual memory system calls against an abstract map

    kern/syscall.c: [sys_page_alloc], [sys_page_map] and [sys_page_unmap] change
    the page tables of several environments.  The specification knows nothing of
    page tables: the state is a finite map from address spaces to finite maps
    from page numbers to entries, and a call updates at most one entry of it. *)

From S2P Require Import Prelude Machine PageAlloc Pmap UserMem Env Syscall PageMap Spaces.
From stdpp Require Import base numbers list gmap fin_maps sets.

Local Open Scope Z_scope.

(** ** Specification *)

Inductive vcall : Type :=
  | Alloc (envid va perm : Z)
  | Map (srcenvid srcva dstenvid dstva perm : Z)
  | Unmap (envid va : Z).

(** Address spaces, named by their directories. *)
Abbreviation aspaces := (gmap Z (gmap Z Z)).

Definition valid_va (va : Z) : Prop := 0 <= va < UTOP ∧ va mod 4096 = 0.
Definition set_entry (pd va : Z) (oe : option Z) (A : aspaces) : aspaces :=
  alter (partial_alter (λ _, oe) (PGNUM va)) pd A.
Definition unused (A : aspaces) (q : Z) : Prop :=
  ∀ pd V n e, A !! pd = Some V → V !! n = Some e → PGNUM e ≠ q.

(** [vm_spec who A call r A']: the call returns [r] and leads from [A] to [A'];
    [who envid check] is the space of the environment that [envid] names, with
    or without the check that the caller may modify it. *)
Inductive vm_spec (who : Z → bool → option Z) (A : aspaces) : vcall → Z → aspaces → Prop :=
  | spec_alloc envid va perm pd q :
      who envid true = Some pd → 0 <= va < UTOP → Z.land perm (Z.lnot PTE_SYSCALL) = 0 → unused A q →
      vm_spec who A (Alloc envid va perm) 0 (set_entry pd va (Some (pte_entry q perm)) A)
  | spec_map srcid srcva dstid dstva perm pd pd' V e :
      who srcid true = Some pd → who dstid false = Some pd' → valid_va srcva → valid_va dstva →
      A !! pd = Some V → V !! PGNUM srcva = Some e → (has PTE_W perm = true → has PTE_W e = true) →
      vm_spec who A (Map srcid srcva dstid dstva perm) 0
        (set_entry pd' dstva (Some (pte_entry (PGNUM e) perm)) A)
  | spec_unmap envid va pd :
      who envid true = Some pd → valid_va va →
      vm_spec who A (Unmap envid va) 0 (set_entry pd va None A)
  | spec_no_memory call : (∀ envid va, call ≠ Unmap envid va) → vm_spec who A call (- E_NO_MEM) A
  | spec_alloc_env envid va perm :
      who envid true = None → vm_spec who A (Alloc envid va perm) (- E_BAD_ENV) A
  | spec_map_env srcid srcva dstid dstva perm :
      who srcid true = None ∨ who dstid false = None →
      vm_spec who A (Map srcid srcva dstid dstva perm) (- E_BAD_ENV) A
  | spec_unmap_env envid va : who envid true = None → vm_spec who A (Unmap envid va) (- E_BAD_ENV) A
  | spec_alloc_inval envid va perm :
      UTOP <= va ∨ Z.land perm (Z.lnot PTE_SYSCALL) ≠ 0 →
      vm_spec who A (Alloc envid va perm) (- E_INVAL) A
  | spec_map_inval srcid srcva dstid dstva perm :
      ¬ (valid_va srcva ∧ valid_va dstva) ∨
      (∃ pd V, who srcid true = Some pd ∧ A !! pd = Some V ∧
        match V !! PGNUM srcva with
        | None => True
        | Some e => has PTE_W perm = true ∧ has PTE_W e = false
        end) →
      vm_spec who A (Map srcid srcva dstid dstva perm) (- E_INVAL) A
  | spec_unmap_inval envid va : ¬ valid_va va → vm_spec who A (Unmap envid va) (- E_INVAL) A.

(** ** Implementation *)

Definition do_call (call : vcall) : M Z :=
  match call with
  | Alloc envid va perm => sys_page_alloc envid va perm
  | Map srcid srcva dstid dstva perm => sys_page_map srcid srcva dstid dstva perm
  | Unmap envid va => sys_page_unmap envid va
  end.

(** The abstract state of a kernel state. *)
Definition abstract (s : kstate) (pds : list Z) : aspaces :=
  list_to_map ((λ pd, (pd, view s pd)) <$> pds).
Definition who_of (s : kstate) (cur : Z) (envid : Z) (check : bool) : option Z :=
  e ← resolve s cur envid check; y ← envs s !! e; Some ((env_pgdir y - KERNBASE) / 4096).

(** Arguments as they come from a 32-bit register, with permissions that fit
    their field for [sys_page_map], which does not check them. *)
Definition call_ok (call : vcall) : Prop :=
  match call with
  | Alloc _ va _ => 0 <= va < 4294967296
  | Map _ srcva _ dstva perm =>
      0 <= srcva < 4294967296 ∧ 0 <= dstva < 4294967296 ∧ 0 <= perm < 4096
  | Unmap _ va => 0 <= va < 4294967296
  end.

Section refinement.
Implicit Types (s : kstate) (c : Cpu) (x y : Env) (fl pds : list Z) (pd va q cur : Z) (p : Page).

Lemma lookup_abstract s pds pd :
  abstract s pds !! pd = if decide (pd ∈ pds) then Some (view s pd) else None.
Proof.
  induction pds as [|pd' pds IH]; [done|].
  change (abstract s (pd' :: pds)) with (<[pd' := view s pd']> (abstract s pds)).
  rewrite lookup_insert. destruct (decide (pd' = pd)) as [->|Hne].
  - by rewrite decide_True by by left.
  - rewrite IH. destruct (decide (pd ∈ pds)); [by rewrite decide_True by by right|].
    rewrite decide_False; [done|]. by intros [?|?]%elem_of_cons.
Qed.

Lemma abstract_ext s s' pds : (∀ pd, pd ∈ pds → view s' pd = view s pd) → abstract s' pds = abstract s pds.
Proof.
  intros H. apply map_eq. intros pd. rewrite !lookup_abstract. case_decide; [|done]. by rewrite H.
Qed.

Lemma abstract_step s s' fl fl' pds pd va oe :
  vm_step s s' fl fl' pds pd va oe → pd ∈ pds → abstract s' pds = set_entry pd va oe (abstract s pds).
Proof.
  intros Hst Hpd. apply map_eq. intros pd'. unfold set_entry. rewrite lookup_alter, !lookup_abstract.
  destruct (decide (pd = pd')) as [<-|Hne].
  - rewrite !decide_True by done. simpl. by rewrite (vs_view _ _ _ _ _ _ _ _ Hst).
  - case_decide; [|done]. by rewrite (vs_others _ _ _ _ _ _ _ _ Hst).
Qed.

Lemma free_unused s fl pds q : spaces s fl pds → q ∈ fl → unused (abstract s pds) q.
Proof.
  intros Hs Hq pd V n e. rewrite lookup_abstract. case_decide as Hpd; [|done]. intros [= <-] He <-.
  by destruct (sp_leaf _ _ _ Hs pd n e Hpd He) as [_ ? _].
Qed.

(** Every environment in use has one of the spaces [pds]. *)
Definition housed s pds : Prop :=
  ∀ e y, envs s !! e = Some y → env_status y ≠ ENV_FREE → ∃ pd, pd ∈ pds ∧ env_pgdir y = pgdir_kva pd.

Lemma resolve_used s c cur x envid check e y :
  in_call s c cur x → env_status x ≠ ENV_FREE → resolve s cur envid check = Some e →
  envs s !! e = Some y → env_status y ≠ ENV_FREE.
Proof.
  intros Hic Hx Hr Hy. unfold resolve in Hr. destruct (envid <? 0); [done|].
  destruct (envid =? 0). { injection Hr as <-. rewrite (ic_env _ _ _ _ Hic) in Hy. by injection Hy as <-. }
  destruct (envs s !! ENVX envid) as [z|] eqn:Hz; [|done]. cbn [mbind option_bind] in Hr.
  destruct (Z.eqb_spec (env_status z) ENV_FREE) as [|Hne]; [done|]. cbn [orb] in Hr.
  destruct (negb (env_id z =? envid)); [done|].
  assert (ENVX envid = e) as <-; [|by rewrite Hz in Hy; injection Hy as <-].
  destruct (check && _); [|by injection Hr]. destruct (envs s !! cur) as [w|]; [|done].
  cbn [mbind option_bind] in Hr. destruct (env_parent_id z =? env_id w); [by injection Hr|done].
Qed.

(** Either nobody is named, or somebody whose space is known. *)
Lemma who_names s c cur x envid check pds :
  in_call s c cur x → env_status x ≠ ENV_FREE → housed s pds →
  resolve s cur envid check = None ∧ who_of s cur envid check = None ∨
  ∃ e pd, names s cur envid check pds e pd ∧ who_of s cur envid check = Some pd.
Proof.
  intros Hic Hx Hh. unfold who_of. destruct (resolve s cur envid check) as [e|] eqn:Hr; [|by left].
  destruct (resolve_present s c cur x envid check e Hic Hr) as [y Hy].
  destruct (Hh e y Hy) as (pd & Hpd & Hdir); [by eapply resolve_used|].
  right. exists e, pd. split; [by split; eauto|]. cbn [mbind option_bind]. rewrite Hy. cbn [mbind option_bind].
  rewrite Hdir. unfold pgdir_kva. f_equal. rewrite Z.add_simpl_r. by apply Z.div_mul.
Qed.

(** ** Each call *)

(** The outcome of a call, as the specification sees it. *)
Definition refines s fl pds cur call : Prop :=
  ∃ r s' fl', do_call call s = Done r s' ∧ spaces s' fl' pds ∧ vm_frame s s' ∧
    vm_spec (who_of s cur) (abstract s pds) call r (abstract s' pds) ∧
    (r = - E_NO_MEM → (length fl <= 1)%nat).

Lemma refines_same s fl pds cur call r :
  spaces s fl pds → do_call call s = Done r s →
  vm_spec (who_of s cur) (abstract s pds) call r (abstract s pds) →
  (r = - E_NO_MEM → (length fl <= 1)%nat) → refines s fl pds cur call.
Proof. intros. exists r, s, fl. by split_and!. Qed.

Lemma refines_step s s' fl fl' pds pd va oe cur call :
  vm_step s s' fl fl' pds pd va oe → pd ∈ pds → do_call call s = Done 0 s' →
  vm_spec (who_of s cur) (abstract s pds) call 0 (set_entry pd va oe (abstract s pds)) →
  refines s fl pds cur call.
Proof.
  intros Hst Hpd Hrun Hsp. exists 0, s', fl'. split; [done|]. split; [apply Hst|]. split; [apply Hst|].
  split; [by rewrite (abstract_step _ _ _ _ _ _ _ _ Hst)|done].
Qed.

Section calls.
Context s c cur x fl pds
  (Hic : in_call s c cur x) (Hx : env_status x ≠ ENV_FREE) (Hs : spaces s fl pds) (Hh : housed s pds).

Lemma alloc_refines envid va perm :
  0 <= va < 4294967296 → refines s fl pds cur (Alloc envid va perm).
Proof.
  intros Hva. destruct (who_names s c cur x envid true pds Hic Hx Hh) as [[Hr Hw]|(e & pd & Hn & Hw)].
  { apply (refines_same _ _ _ _ _ (- E_BAD_ENV)); [done| |by apply spec_alloc_env|done].
    simpl. unfold sys_page_alloc. by rewrite (bind_Done _ _ _ _ _ (envid2env_resolve s c cur x envid true Hic)), Hr. }
  destruct (decide (UTOP <= va ∨ Z.land perm (Z.lnot PTE_SYSCALL) ≠ 0)) as [Hbad|Hok].
  { apply (refines_same _ _ _ _ _ (- E_INVAL)); [done| |by apply spec_alloc_inval|done].
    simpl. unfold sys_page_alloc.
    rewrite (bind_Done _ _ _ _ _ (envid2env_resolve s c cur x envid true Hic)), (nm_resolve _ _ _ _ _ _ _ Hn).
    change (negb (0 =? 0)) with false. cbv iota.
    assert ((UTOP <=? va) || negb (Z.land perm (Z.lnot PTE_SYSCALL) =? 0) = true) as ->; [|done].
    destruct Hbad as [Hb|Hb]; [by rewrite (proj2 (Z.leb_le _ _))|].
    rewrite (proj2 (Z.eqb_neq _ _) Hb). apply orb_true_r. }
  assert (0 <= va < UTOP) as Hv by lia. assert (Z.land perm (Z.lnot PTE_SYSCALL) = 0) as Hp by lia.
  destruct (sys_page_alloc_step s c cur x fl pds envid e pd va perm Hic Hn Hs Hv Hp)
    as [(s' & Hrun & Hsame & Hlen)|(q & s' & fl' & Hrun & Hq & Hst & _)].
  - exists (- E_NO_MEM), s', fl. split; [done|]. split; [apply Hsame|]. split; [apply Hsame|].
    rewrite (abstract_ext s s') by apply Hsame. split; [by apply spec_no_memory|].
    intros _. destruct Hlen as [->|[_ ->]]; simpl; lia.
  - eapply refines_step; [done|apply Hn|done|]. apply spec_alloc; [done|done|done|by eapply free_unused].
Qed.

Lemma valid_check va : 0 <= va < 4294967296 →
  check_addr_scale va 0 UTOP = 0 ∧ valid_va va ∨ check_addr_scale va 0 UTOP = - E_INVAL ∧ ¬ valid_va va.
Proof.
  intros Hva. unfold valid_va. destruct (decide (0 <= va < UTOP ∧ va mod 4096 = 0)) as [[H1 H2]|H].
  - left. split; [by apply check_addr_ok|done].
  - right. split; [|done]. unfold check_addr_scale, PGOFF. change 0xFFF with (Z.ones 12).
    rewrite Z.land_ones by lia. change (2 ^ 12) with 4096.
    destruct (Z.leb_spec 0 va), (Z.ltb_spec va UTOP), (Z.eqb_spec (va mod 4096) 0); done || (exfalso; apply H; lia).
Qed.

Lemma unmap_refines envid va : 0 <= va < 4294967296 → refines s fl pds cur (Unmap envid va).
Proof.
  intros Hva. destruct (who_names s c cur x envid true pds Hic Hx Hh) as [[Hr Hw]|(e & pd & Hn & Hw)].
  { apply (refines_same _ _ _ _ _ (- E_BAD_ENV)); [done| |by apply spec_unmap_env|done].
    simpl. unfold sys_page_unmap. by rewrite (bind_Done _ _ _ _ _ (envid2env_resolve s c cur x envid true Hic)), Hr. }
  destruct (valid_check va Hva) as [[Hc Hv]|[Hc Hv]].
  - destruct (sys_page_unmap_step s c cur x fl pds envid e pd va Hic Hn Hs) as (s' & fl' & Hrun & Hst); [apply Hv..|].
    eapply refines_step; [done|apply Hn|done|]. by apply spec_unmap.
  - apply (refines_same _ _ _ _ _ (- E_INVAL)); [done| |by apply spec_unmap_inval|done].
    simpl. unfold sys_page_unmap.
    rewrite (bind_Done _ _ _ _ _ (envid2env_resolve s c cur x envid true Hic)), (nm_resolve _ _ _ _ _ _ _ Hn).
    change (negb (0 =? 0)) with false. cbv iota. by rewrite Hc.
Qed.

(** The arguments that [sys_page_map] rejects before it looks at a page table. *)
Lemma map_rejects srcid srcva dstid dstva perm :
  0 <= srcva < 4294967296 → 0 <= dstva < 4294967296 →
  resolve s cur srcid true = None ∨ resolve s cur dstid false = None →
  sys_page_map srcid srcva dstid dstva perm s = Done (- E_BAD_ENV) s.
Proof.
  intros H1 H2 Hr. unfold sys_page_map. rewrite (bind_Done _ _ _ _ _ (envid2env_resolve s c cur x srcid true Hic)).
  destruct (resolve s cur srcid true) as [e|]; [|done]. change (negb (0 =? 0)) with false. cbv iota.
  rewrite (bind_Done _ _ _ _ _ (envid2env_resolve s c cur x dstid false Hic)).
  destruct (resolve s cur dstid false); [naive_solver|done].
Qed.

Lemma map_bad_va srcid srcva dstid dstva perm e e' :
  0 <= srcva < 4294967296 → 0 <= dstva < 4294967296 →
  resolve s cur srcid true = Some e → resolve s cur dstid false = Some e' →
  ¬ (valid_va srcva ∧ valid_va dstva) →
  sys_page_map srcid srcva dstid dstva perm s = Done (- E_INVAL) s.
Proof.
  intros H1 H2 R1 R2 Hb. unfold sys_page_map.
  rewrite (bind_Done _ _ _ _ _ (envid2env_resolve s c cur x srcid true Hic)), R1.
  cbv beta iota. change (negb (0 =? 0)) with false. cbv iota.
  rewrite (bind_Done _ _ _ _ _ (envid2env_resolve s c cur x dstid false Hic)), R2.
  cbv beta iota. change (negb (0 =? 0)) with false. cbv iota.
  destruct (valid_check srcva H1) as [[-> V1]|[-> V1]], (valid_check dstva H2) as [[-> V2]|[-> V2]]; done || naive_solver.
Qed.

Lemma map_refines srcid srcva dstid dstva perm :
  0 <= srcva < 4294967296 → 0 <= dstva < 4294967296 → 0 <= perm < 4096 →
  map_Forall (λ _ p, pp_ref p < 65535) (pages s) →
  refines s fl pds cur (Map srcid srcva dstid dstva perm).
Proof.
  intros H1 H2 Hperm Hroom.
  destruct (who_names s c cur x srcid true pds Hic Hx Hh) as [[R1 W1]|(e1 & pd1 & N1 & W1)].
  { apply (refines_same _ _ _ _ _ (- E_BAD_ENV)); [done|apply map_rejects; auto|apply spec_map_env; auto|done]. }
  destruct (who_names s c cur x dstid false pds Hic Hx Hh) as [[R2 W2]|(e2 & pd2 & N2 & W2)].
  { apply (refines_same _ _ _ _ _ (- E_BAD_ENV)); [done|apply map_rejects; auto|apply spec_map_env; auto|done]. }
  destruct (valid_check srcva H1) as [[_ V1]|[_ V1]], (valid_check dstva H2) as [[_ V2]|[_ V2]].
  2-4: apply (refines_same _ _ _ _ _ (- E_INVAL));
    [done|eapply map_bad_va; try done; [apply N1|apply N2|naive_solver]|apply spec_map_inval; naive_solver|done].
  assert (abstract s pds !! pd1 = Some (view s pd1)) as HA.
  { rewrite lookup_abstract, decide_True; [done|apply N1]. }
  pose proof (sys_page_map_run s c cur x fl pds srcid dstid e1 e2 pd1 pd2 srcva dstva perm Hic N1 N2 Hs
    (proj1 V1) (proj2 V1) (proj1 V2) (proj2 V2)) as Hrun.
  destruct (view s pd1 !! PGNUM srcva) as [e|] eqn:He.
  2: { apply (refines_same _ _ _ _ _ (- E_INVAL)); [done|done| |done].
       apply spec_map_inval. right. exists pd1, (view s pd1). by rewrite He. }
  destruct (negb (has PTE_W e) && has PTE_W perm) eqn:Hwr.
  { apply andb_true_iff in Hwr as [Hwr Hwp]. apply negb_true_iff in Hwr.
    apply (refines_same _ _ _ _ _ (- E_INVAL)); [done|done| |done].
    apply spec_map_inval. right. exists pd1, (view s pd1). by rewrite He. }
  assert (has PTE_W perm = true → has PTE_W e = true) as Hwr'.
  { intros E. rewrite E, andb_true_r in Hwr. by apply negb_false_iff. }
  pose proof (sp_leaf _ _ _ Hs pd1 _ _ (nm_space _ _ _ _ _ _ _ N1) He) as Hu.
  destruct (pw_total _ _ (sp_pages _ _ _ Hs) (PGNUM e)) as [p Hp]; [destruct (up_range _ _ _ _ Hu); lia|].
  destruct (sys_page_map_step s c cur x fl pds srcid dstid e1 e2 pd1 pd2 srcva dstva perm e p Hic N1 N2 Hs
    (proj1 V1) (proj2 V1) (proj1 V2) (proj2 V2) Hperm He Hwr' Hp (Hroom _ _ Hp))
    as [(_ & Hfl & Hrun')|(s' & fl' & Hrun' & Hst & _)].
  - apply (refines_same _ _ _ _ _ (- E_NO_MEM)); [done|done|by apply spec_no_memory|].
    intros _. rewrite Hfl. simpl. lia.
  - eapply refines_step; [done|apply N2|done|]. by eapply spec_map.
Qed.
End calls.
End refinement.

(** C1: the system calls that change mappings refine the update of a finite map.
    In every state in which the address spaces are consistent - well-formed
    directories, private tables, counts that cover the mappings, free pages mapped
    nowhere - and no page has 65535 references, sys_page_alloc, sys_page_map and
    sys_page_unmap return, for every environment id, every 32-bit address (aligned
    or not) and every permission argument; for sys_page_map the permission argument
    has to fit the twelve low bits, which the call does not check.  Their result is
    one that the specification allows for the caller, the arguments and the
    mappings of all the environments; they update in the map from spaces to page
    numbers to entries exactly the entry that the specification says, and nothing
    when they fail; memory is reported exhausted only when at most one page is free;
    and the address spaces stay consistent. *)
Theorem vm_calls_refine s c cur x fl pds call :
  in_call s c cur x → env_status x ≠ ENV_FREE → spaces s fl pds → housed s pds →
  map_Forall (λ _ p, pp_ref p < 65535) (pages s) → call_ok call →
  ∃ r s' fl', do_call call s = Done r s' ∧ spaces s' fl' pds ∧ vm_frame s s' ∧
    vm_spec (who_of s cur) (abstract s pds) call r (abstract s' pds) ∧
    (r = - E_NO_MEM → (length fl <= 1)%nat).
Proof.
  intros Hic Hx Hs Hh Hroom Hok. destruct call as [envid va perm|srcid srcva dstid dstva perm|envid va].
  - by eapply alloc_refines.
  - by eapply map_refines; [..|apply Hok|apply Hok|apply Hok|].
  - by eapply unmap_refines.
Qed.

(** ** Concrete instances *)

Lemma ex_kernel_housed : housed ex_kernel [2; 10].
Proof.
  intros e y Hy Hst. exists 2. split; [by left|].
  assert (map_Forall (λ _ y, env_status y ≠ ENV_FREE → env_pgdir y = pgdir_kva 2) (envs ex_kernel)) as H by by_compute.
  by eapply H.
Qed.

(** Environment 1 maps its page 8 into its child at an address without a table. *)
Lemma vm_calls_refine_witness :
  ∃ r s' fl', do_call (Map 0 0x2000 4098 0x400000 5) ex_kernel = Done r s' ∧
    spaces s' fl' [2; 10] ∧ vm_frame ex_kernel s' ∧
    vm_spec (who_of ex_kernel 1) (abstract ex_kernel [2; 10]) (Map 0 0x2000 4098 0x400000 5) r
      (abstract s' [2; 10]) ∧ (r = - E_NO_MEM → (3 <= 1)%nat).
Proof.
  apply (vm_calls_refine ex_kernel (mkCpu 0 1 (Some 1) 0 0) 1 (ex_env 1) [3; 5; 4] [2; 10]);
    [apply ex_kernel_call|discriminate|apply ex_kernel_spaces|apply ex_kernel_housed|by_compute|].
  split; [lia|]. split; lia.
Defined.
