(* ===== verification/Trap.v ===== *)
(** * Traps: kern/trap.c

    The interrupt descriptor table, the entry from user and kernel mode, the
    dispatch on the trap number and the reflection of page faults to the user.
    The table of entry points of kern/trapentry.S and the addresses of the GDT,
    the IDT and the CPU structures are link-time parameters ([image]).  The
    messages and the printed trap frames are left out; [monitor] never returns,
    as no command of its table does. *)

From S2P Require Import Prelude Devices Console Strings Printfmt Machine Segments Spinlock PageAlloc.
From S2P Require Import Lapic Pmap UserMem Env Sched Kprintf Syscall.
From stdpp Require Import base numbers list gmap fin_maps strings.

Local Open Scope Z_scope.

Definition T_BRKPT : Z := 3.
Definition T_PGFLT : Z := 14.
Definition T_SYSCALL : Z := 48.
Definition IRQ_HANDLE_SIZE : Z := 16.
Definition IRQ_OFFSET_HANDLE_MAX : Z := IRQ_OFFSET + IRQ_HANDLE_SIZE - 1.
Definition IRQ_KBD : Z := 1.
Definition IRQ_SERIAL : Z := 4.
Definition IRQ_IDE : Z := 14.

Definition IDT_ENTRIES : Z := 256.
Definition DPL_KERN : Z := 1.
Definition DPL_USER : Z := 3.
Definition TRAP_N : bool := false.

(** ** Initialisation *)

(** [sizeof (struct Cpu)], the offset of [cpu_ts] in it and the size of
    [struct Taskstate]. *)
Definition SIZEOF_CPU : Z := 116.
Definition OFFSET_CPU_TS : Z := 12.
Definition SIZEOF_TASKSTATE : Z := 104.
Definition cpu_ts_addr (im : image) (i : Z) : Z := cpus_addr im + SIZEOF_CPU * i + OFFSET_CPU_TS.

Definition trap_init_percpu (im : image) : M unit :=
  n ← cpunum;
  c ← get_cpu n;
  assert (cpu_id c =? n) "assertion failed: thiscpu->cpu_id == cpunum()" ;;
  if ts_ss0 c =? 0 then
    upd_cpu (λ c, set_ts_esp0 (KSTACKTOP - (KSTKSIZE + KSTKGAP) * cpu_id c) c) n ;;
    upd_cpu (set_ts_ss0 GD_KD) n ;;
    let slot := Z.shiftr GD_TSS0 3 + cpu_id c in
    modify (λ s, set_gdt (<[slot := SEG16 STS_T32A (cpu_ts_addr im n) SIZEOF_TASKSTATE 0]> (gdt s)) s) ;;
    modify (λ s, set_gdt (alter (set_sd_s 0) slot (gdt s)) s) ;;
    ltr (Z.shiftl slot 3) ;;
    lidt (idt_pd im)
  else mret tt.

Definition trap_init (im : image) : M unit :=
  for_each (seqZ 0 IDT_ENTRIES) (λ i, SETGATE i TRAP_N GD_KT (vects im i) DPL_KERN) ;;
  SETGATE T_SYSCALL TRAP_N GD_KT (vects im T_SYSCALL) DPL_USER ;;
  SETGATE T_BRKPT TRAP_N GD_KT (vects im T_BRKPT) DPL_USER ;;
  trap_init_percpu im.

Definition excnames : list string :=
  ["Divide error"; "Debug"; "Non-Maskable Interrupt"; "Breakpoint"; "Overflow";
   "BOUND Range Exceeded"; "Invalid Opcode"; "Device Not Available"; "Double Fault";
   "Coprocessor Segment Overrun"; "Invalid TSS"; "Segment Not Present"; "Stack Fault";
   "General Protection"; "Page Fault"; "(unknown trap)"; "x87 FPU Floating-Point Error";
   "Alignment Check"; "Machine-Check"; "SIMD Floating-Point Exception"].

(** The comparison with [sizeof] is unsigned. *)
Definition trapname (trapno : Z) : string :=
  if u32 trapno <? 20 then default ""%string (excnames !! Z.to_nat (u32 trapno))
  else if trapno =? T_SYSCALL then "System call"
  else if (IRQ_OFFSET <=? trapno) && (trapno <? IRQ_OFFSET + 16) then "Hardware Interrupt"
  else "(unknown trap)".

(** ** Page faults *)

(** The trap frame that [tf] points to: on the kernel stack, or in [envs]. *)
Inductive tfptr : Type := OnStack (tf : Trapframe) | InEnv (e : Z).
Definition get_tf (p : tfptr) : M Trapframe :=
  match p with OnStack tf => mret tf | InEnv e => x ← get_env e; mret (env_tf x) end.

(** The bytes of a word in memory. *)
Definition bytes32 (v : Z) : list Z :=
  [u8 v; u8 (v / 256); u8 (v / 65536); u8 (v / 16777216)].

(** The new value of [*esp]. *)
Definition push (esp element : Z) : M Z :=
  let esp := u32 (esp - 4) in
  vwrite esp (bytes32 element) ;; mret esp.

(** The value read and the new value of [*esp], which moves down here too. *)
Definition pop (esp : Z) : M (Z * Z) :=
  element ← vrd32 esp; mret (element, u32 (esp - 4)).

Definition SIZEOF_UTRAPFRAME : Z := 52.
Definition SIZEOF_PUSHREGS : Z := 32.
Definition RCSV_UTRAP_SIZE : Z := SIZEOF_UTRAPFRAME + 4.

Definition regs_bytes (r : PushRegs) : list Z :=
  concat (bytes32 <$> [reg_edi r; reg_esi r; reg_ebp r; reg_oesp r; reg_ebx r; reg_edx r;
                       reg_ecx r; reg_eax r]).

(** Where the frame is pushed: the value of [esp] before the first field. *)
Definition exception_esp (tf_esp : Z) : M Z :=
  if (tf_esp <? UXSTACKTOP) && (UXSTACKBASE <=? tf_esp) then
    if u32 (tf_esp - RCSV_UTRAP_SIZE) <? UXSTACKBASE then panic "It will underflow !!!" else
    push tf_esp 0
  else mret UXSTACKTOP.

Definition page_fault_handler (p : tfptr) : M unit :=
  fault_va ← gets cr2;
  tf ← get_tf p;
  if Z.land (tf_cs tf) 3 =? 0 then panic "=== Page fault at kernel ===" else
  cur ← curenv_ptr;
  x ← get_env cur;
  pgdir_walk (env_pgdir x) fault_va NO_CREATE ;;
  if env_pgfault_upcall x =? 0 then env_destroy cur else
  user_mem_assert cur (env_pgfault_upcall x) PGSIZE (Z.lor PTE_U PTE_P) ;;
  user_mem_assert cur (UXSTACKTOP - SIZEOF_UTRAPFRAME) SIZEOF_UTRAPFRAME
    (Z.lor (Z.lor PTE_U PTE_P) PTE_W) ;;
  tf ← get_tf p;
  esp ← exception_esp (tf_esp tf);
  esp ← push esp (tf_esp tf);
  esp ← push esp (tf_eflags tf);
  esp ← push esp (tf_eip tf);
  let esp := u32 (esp - SIZEOF_PUSHREGS) in
  vwrite esp (regs_bytes (tf_regs tf)) ;;
  esp ← push esp (tf_err tf);
  esp ← push esp fault_va;
  cur ← curenv_ptr;
  upd_env (λ e, set_env_tf (set_tf_esp esp (env_tf e)) e) cur ;;
  upd_env (λ e, set_env_tf (set_tf_eip (env_pgfault_upcall e) (env_tf e)) e) cur ;;
  env_run cur.

(** ** Dispatch *)

(** [monitor] reads commands for ever. *)
Definition breakpoint_handler (p : tfptr) : M unit := leave InMonitor.

Definition trap_dispatch (p : tfptr) : M unit :=
  tf ← get_tf p;
  let n := tf_trapno tf in
  if (IRQ_OFFSET + IRQ_TIMER <=? n) && (n <=? IRQ_OFFSET_HANDLE_MAX) then
    let irq := n - IRQ_OFFSET in
    if irq =? IRQ_TIMER then lapic_eoi ;; sched_yield
    else if bool_decide (irq ∈ [IRQ_KBD; IRQ_SERIAL; IRQ_SPURIOUS; IRQ_IDE; IRQ_ERROR]) then mret tt
    else if tf_cs tf =? GD_KT then panic "unhandled trap in kernel"
    else panic "unhandled trap in user"
  else if n =? T_PGFLT then page_fault_handler p
  else if n =? T_BRKPT then breakpoint_handler p
  else if n =? T_SYSCALL then
    let r := tf_regs tf in
    v ← syscall (reg_eax r) (reg_edx r) (reg_ecx r) (reg_ebx r) (reg_edi r) (reg_esi r);
    match p with
    | OnStack _ => mret tt (* the frame on the stack is not used again *)
    | InEnv e =>
        upd_env (λ x, set_env_tf (set_tf_regs (set_reg_eax (u32 v) (tf_regs (env_tf x))) (env_tf x)) x) e
    end
  else if tf_cs tf =? GD_KT then panic "unhandled trap in kernel"
  else cur ← curenv_ptr; env_destroy cur.

(** Interrupts are off in the kernel, as every gate is an interrupt gate. *)
Definition trap (tf : Trapframe) : M unit :=
  halted ← gets panicstr;
  if halted : bool then leave Halted else
  p ← (if Z.land (tf_cs tf) 3 =? 3 then
         lock_kernel ;;
         c ← curenv;
         assert (bool_decide (c ≠ None)) "assertion failed: curenv" ;;
         cur ← deref c;
         x ← get_env cur;
         (if env_status x =? ENV_DYING
          then env_free cur ;; set_curenv None ;; sched_yield else mret tt) ;;
         cur ← curenv_ptr;
         upd_env (set_env_tf tf) cur ;;
         mret (InEnv cur)
       else mret (OnStack tf));
  trap_dispatch p ;;
  c ← curenv;
  match c with
  | Some cur => x ← get_env cur;
                if env_status x =? ENV_RUNNING then env_run cur else sched_yield
  | None => sched_yield
  end.

#[global] Arguments page_fault_handler : simpl never.
#[global] Arguments trap_dispatch : simpl never.
#[global] Arguments push : simpl never.
#[global] Arguments vwrite : simpl never.

(** ** The descriptor table *)

Section gates.
Implicit Types (s : kstate) (c : Cpu).

Definition kern_gate (vects : Z → Z) (i : Z) : Gatedesc :=
  mkGatedesc (Z.land (u32 (vects i)) 0xffff) GD_KT 0 0 STS_IG32 0 DPL_KERN 1
    (bitfield 16 (Z.shiftr (u32 (vects i)) 16)).

Lemma setgate_all vects l s :
  for_each l (λ i, SETGATE i TRAP_N GD_KT (vects i) DPL_KERN) s =
    Done tt (set_idt (foldl (λ m i, <[i := kern_gate vects i]> m) (idt s) l) s).
Proof.
  revert s. induction l as [|i l IH]; intros s; [by destruct s|].
  cbn [for_each foldl]. unfold SETGATE at 2. rewrite run_modify. cbv beta. rewrite IH. done.
Qed.

Lemma gates_lookup vects l (m : gmap Z Gatedesc) i :
  i ∈ l → foldl (λ m i, <[i := kern_gate vects i]> m) m l !! i = Some (kern_gate vects i).
Proof.
  revert m. induction l as [|j l IH]; intros m Hi; [by apply elem_of_nil in Hi|]. simpl.
  destruct (decide (i ∈ l)); [by apply IH|].
  assert (i = j) as -> by (apply elem_of_cons in Hi as [?|?]; done).
  assert (∀ m' : gmap Z Gatedesc, foldl (λ m i, <[i := kern_gate vects i]> m) m' l !! j = m' !! j) as ->;
    [|apply lookup_insert_eq].
  clear -n. induction l as [|k l IH]; intros m'; [done|]. simpl.
  apply not_elem_of_cons in n as [??]. rewrite IH by done. by apply lookup_insert_ne.
Qed.

(** The state after [trap_init_percpu] on a CPU whose task state is not set up. *)
Lemma trap_init_percpu_state im s c :
  cpus s !! this_cpu s = Some c → cpu_id c = this_cpu s → ts_ss0 c = 0 →
  let i := this_cpu s in
  let d := set_sd_type 11 (set_sd_s 0 (SEG16 STS_T32A (cpu_ts_addr im i) SIZEOF_TASKSTATE 0)) in
  trap_init_percpu im s = Done tt
    (set_segregs (<[i := set_idtr (idt_pd im) (set_tr (8 * (5 + i)) (default zero_segregs (segregs s !! i)))]> (segregs s))
      (set_gdt (<[5 + i := d]> (gdt s))
        (set_cpus (<[i := set_ts_ss0 GD_KD (set_ts_esp0 (KSTACKTOP - 65536 * i) c)]> (cpus s)) s))).
Proof.
  intros Hc Hid Hss i d. unfold trap_init_percpu, cpunum, ltr, lidt.
  rewrite run_gets. run. rewrite Hid, Z.eqb_refl. simpl. rewrite run_ret, Hss. simpl. run.
  rewrite run_upd_segregs, run_modify. unfold upd_segregs, modify. f_equal. apply kstate_eq; try reflexivity; simpl.
  - by rewrite insert_insert_eq, Hid.
  - change (Z.shiftr GD_TSS0 3) with 5. rewrite Z.shiftl_mul_pow2, Z.shiftr_div_pow2, Z.div_mul by lia.
    by rewrite !alter_insert_eq.
  - rewrite lookup_insert_eq, insert_insert_eq. change (Z.shiftr GD_TSS0 3) with 5. rewrite Z.shiftl_mul_pow2 by lia.
    simpl. do 3 f_equal. lia.
Qed.

Lemma trap_init_percpu_run im s c :
  cpus s !! this_cpu s = Some c → cpu_id c = this_cpu s → ts_ss0 c = 0 → 0 <= this_cpu s < NCPU →
  let slot := 5 + this_cpu s in
  ∃ s' c' d r, trap_init_percpu im s = Done tt s' ∧ idt s' = idt s ∧
    (0 <= cpu_ts_addr im (this_cpu s) < 4294967296 →
    cpus s' !! this_cpu s = Some c' ∧ ts_ss0 c' = GD_KD ∧
    ts_esp0 c' = KSTACKTOP - 65536 * this_cpu s ∧ KSTACKTOP - PTSIZE <= ts_esp0 c' - KSTKSIZE ∧
    gdt s' = <[slot := d]> (gdt s) ∧ seg_base d = cpu_ts_addr im (this_cpu s) ∧ seg_limit d = 104 ∧
    sd_s d = 0 ∧ sd_type d = STS_T32B ∧
    segregs s' !! this_cpu s = Some r ∧ tr r = 8 * slot ∧ idtr r = idt_pd im).
Proof.
  intros Hc Hid Hss Hn slot. eexists _, _, _, _. split; [by apply trap_init_percpu_state|].
  split; [reflexivity|]. intros Ha. simpl.
  split; [apply lookup_insert_eq|]. split; [reflexivity|].
  split; [reflexivity|]. split; [unfold KSTKSIZE, KSTKGAP, PTSIZE, PGSIZE, NPTENTRIES, NCPU in *; simpl; lia|].
  split; [reflexivity|].
  pose proof (SEG16_base STS_T32A (cpu_ts_addr im (this_cpu s)) SIZEOF_TASKSTATE 0 Ha) as Hb.
  pose proof (SEG16_limit STS_T32A (cpu_ts_addr im (this_cpu s)) SIZEOF_TASKSTATE 0 ltac:(done)) as Hl.
  do 4 (split; [done|]). split; [apply lookup_insert_eq|]. done.
Qed.
(** All 256 gates lead to the kernel's entry points. *)
Definition gates_set (im : image) (I : gmap Z Gatedesc) : Prop :=
  ∀ i, 0 <= i < 256 → ∃ g, I !! i = Some g ∧ gd_off g = u32 (vects im i) ∧ gd_sel g = GD_KT ∧
    gd_type g = STS_IG32 ∧ gd_p g = 1 ∧ (gd_dpl g = DPL_USER ↔ i = T_SYSCALL ∨ i = T_BRKPT).

Lemma trap_init_run im s : ∃ I, trap_init im s = trap_init_percpu im (set_idt I s) ∧ gates_set im I.
Proof.
  unfold trap_init. rewrite (bind_Done _ _ _ _ _ (setgate_all _ _ _)).
  unfold SETGATE. rewrite !run_modify. set (G := foldl _ _ _). eexists. split; [reflexivity|].
  intros i Hi. assert (G !! i = Some (kern_gate (vects im) i)) as HG.
  { apply gates_lookup, elem_of_seqZ. unfold IDT_ENTRIES. lia. }
  simpl. rewrite !lookup_insert. repeat case_decide; subst; eexists; (split; [first [reflexivity|exact HG]|]);
    (split; [by apply gate_offset|]);
    (do 3 (split; [reflexivity|])); unfold T_SYSCALL, T_BRKPT in *; simpl;
    change (bitfield 2 DPL_USER) with 3; unfold DPL_USER, DPL_KERN; lia.
Qed.
End gates.

(** ** Frames on the exception stack *)

Section frames.
Implicit Types (s : kstate) (l : list Z).

Local Transparent write_bytes.

Lemma write_bytes_cons m a b l : write_bytes m a (b :: l) = <[a := u8 b]> (write_bytes m (a + 1) l).
Proof. done. Qed.

Lemma write_bytes_app m a l1 l2 :
  write_bytes (write_bytes m (a + Z.of_nat (length l1)) l2) a l1 = write_bytes m a (l1 ++ l2).
Proof.
  revert a. induction l1 as [|b l1 IH]; intros a; cbn [length app]; [by rewrite Z.add_0_r|].
  rewrite !write_bytes_cons, <- IH. do 3 f_equal. lia.
Qed.

Lemma write_bytes_insert m a b c l :
  b < a → write_bytes (<[b := c]> m) a l = <[b := c]> (write_bytes m a l).
Proof.
  revert a. induction l as [|x l IH]; intros a Hb; [done|].
  rewrite !write_bytes_cons, IH by lia. apply insert_insert_ne. lia.
Qed.

(** The exception stack of the running environment is physical page [q], which is
    neither its page directory nor the page table for it. *)
Record uxstack s q : Prop := {
  ux_mmu : ∀ o, 0 <= o < 4096 → mmu s (UXSTACKBASE + o) true = Some (q * 4096 + o);
  ux_pd : ∀ pa, cr3 s !! this_cpu s = Some pa → PGNUM pa ≠ q;
  ux_pt : ∀ pa, cr3 s !! this_cpu s = Some pa → pt_of s (PGNUM pa) (PDX UXSTACKBASE) ≠ Some q;
}.

Lemma PDX_ux o : 0 <= o < 4096 → PDX (UXSTACKBASE + o) = PDX UXSTACKBASE.
Proof.
  intros. unfold PDX. rewrite !Z.shiftr_div_pow2, !land_3ff by (unfold PDXSHIFT; lia).
  change UXSTACKBASE with 4005556224. unfold PDXSHIFT. zlia.
Qed.

Lemma uxstack_write s q m :
  uxstack s q → (∀ j, j ≠ q → page_same j (mem s) m) → uxstack (set_mem m s) q.
Proof.
  intros [H1 H2 H3] Hm.
  assert (∀ pa i, cr3 s !! this_cpu s = Some pa → 0 <= i < 1024 →
    pt_of (set_mem m s) (PGNUM pa) i = pt_of s (PGNUM pa) i) as Hpt.
  { intros pa i Hpa Hi. apply pt_frame; [|done]. simpl. apply Hm. by apply H2. }
  split; simpl.
  - intros o Ho. rewrite <- (H1 o Ho). unfold mmu. simpl.
    destruct (cr3 s !! this_cpu s) as [pa|] eqn:Hpa; [|done]. cbn [mbind option_bind].
    assert (pde_of (set_mem m s) (PGNUM pa) (PDX (UXSTACKBASE + o)) =
      pde_of s (PGNUM pa) (PDX (UXSTACKBASE + o))) as ->.
    { unfold pde_of. simpl. apply page_same_slot; [|apply PDX_range]. apply Hm. by apply H2. }
    assert (pte_of (set_mem m s) (PGNUM pa) (UXSTACKBASE + o) = pte_of s (PGNUM pa) (UXSTACKBASE + o)) as ->;
      [|done].
    apply pte_frame; [apply Hpt; [done|apply PDX_range]|].
    intros t Ht. apply Hm. intros ->. apply (H3 pa eq_refl). by rewrite <- (PDX_ux o).
  - done.
  - intros pa Hpa. rewrite Hpt; [by apply H3|done|apply PDX_range].
Qed.

Lemma insert_page_same m q o v j : 0 <= o < 4096 → j ≠ q → page_same j m (<[q * 4096 + o := v]> m).
Proof. intros Ho Hj a Ha. rewrite mget_insert, decide_False; [done|lia]. Qed.

Lemma vwrite_ux l s q o :
  uxstack s q → 0 <= o → o + Z.of_nat (length l) <= 4096 →
  vwrite (UXSTACKBASE + o) l s = Done tt (set_mem (write_bytes (mem s) (q * 4096 + o) l) s) ∧
  uxstack (set_mem (write_bytes (mem s) (q * 4096 + o) l) s) q.
Proof.
  revert s o. induction l as [|b l IH]; intros s o Hux Ho Hl; cbn [length] in Hl.
  { split; [by destruct s|]. by destruct s. }
  set (s1 := set_mem (<[q * 4096 + o := u8 b]> (mem s)) s).
  assert (uxstack s1 q) as Hux1.
  { apply uxstack_write; [done|]. intros j Hj. apply insert_page_same; lia. }
  destruct (IH s1 (o + 1) Hux1) as [H1 H2]; [lia|lia|].
  replace (q * 4096 + (o + 1)) with (q * 4096 + o + 1) in H1, H2 by lia.
  assert (set_mem (write_bytes (mem s1) (q * 4096 + o + 1) l) s1 =
    set_mem (write_bytes (mem s) (q * 4096 + o) (b :: l)) s) as E.
  { unfold s1. simpl. rewrite write_bytes_insert by lia. done. }
  rewrite E in H1, H2. split; [|done]. rewrite <- H1.
  change (vwrite (UXSTACKBASE + o) (b :: l)) with
    (vwr8 (UXSTACKBASE + o) b ;; vwrite (u32 (UXSTACKBASE + o + 1)) l).
  unfold vwr8. rewrite run_assoc, run_get, (ux_mmu _ _ Hux) by lia. rewrite run_modify. fold s1.
  f_equal. change UXSTACKBASE with 4005556224. rewrite u32_id by lia. lia.
Qed.

Lemma push_ux s q o v :
  uxstack s q → 4 <= o <= 4096 →
  push (UXSTACKBASE + o) v s =
    Done (UXSTACKBASE + (o - 4)) (set_mem (write_bytes (mem s) (q * 4096 + (o - 4)) (bytes32 v)) s) ∧
  uxstack (set_mem (write_bytes (mem s) (q * 4096 + (o - 4)) (bytes32 v)) s) q.
Proof.
  intros Hux Ho. destruct (vwrite_ux (bytes32 v) s q (o - 4) Hux) as [H1 H2]; [lia|simpl; lia|].
  split; [|done]. unfold push.
  replace (u32 (UXSTACKBASE + o - 4)) with (UXSTACKBASE + (o - 4))
    by (change UXSTACKBASE with 4005556224; rewrite u32_id; lia).
  by rewrite (bind_Done _ _ _ _ _ H1).
Qed.
End frames.

Section upcall.
Implicit Types (s : kstate) (c : Cpu) (x : Env).

(** [struct UTrapframe] in memory. *)
Definition utf_bytes (fault_va : Z) (tf : Trapframe) : list Z :=
  bytes32 fault_va ++ bytes32 (tf_err tf) ++ regs_bytes (tf_regs tf) ++ bytes32 (tf_eip tf) ++
  bytes32 (tf_eflags tf) ++ bytes32 (tf_esp tf).

(** The fault happened on the exception stack. *)
Definition nested (tf_esp : Z) : bool := (UXSTACKBASE <=? tf_esp) && (tf_esp <? UXSTACKTOP).

(** The offset of the end of the new frame, and the scratch word after it. *)
Definition frame_end (tf_esp : Z) : Z := if nested tf_esp then tf_esp - UXSTACKBASE - 4 else 4096.
Definition scratch (tf_esp : Z) : list Z := if nested tf_esp then bytes32 0 else [].

(** Pushing [v] below a block [l] already written at [o]. *)
Lemma push_below s0 q o l v :
  uxstack (set_mem (write_bytes (mem s0) (q * 4096 + o) l) s0) q → 4 <= o <= 4096 →
  let s' := set_mem (write_bytes (mem s0) (q * 4096 + (o - 4)) (bytes32 v ++ l)) s0 in
  push (UXSTACKBASE + o) v (set_mem (write_bytes (mem s0) (q * 4096 + o) l) s0) =
    Done (UXSTACKBASE + (o - 4)) s' ∧ uxstack s' q.
Proof.
  intros Hux Ho s'. destruct (push_ux _ q o v Hux Ho) as [H1 H2].
  assert (set_mem (write_bytes (mem (set_mem (write_bytes (mem s0) (q * 4096 + o) l) s0))
    (q * 4096 + (o - 4)) (bytes32 v)) (set_mem (write_bytes (mem s0) (q * 4096 + o) l) s0) = s') as E.
  { unfold s'. rewrite <- write_bytes_app. simpl mem. cbn [length bytes32].
    replace (q * 4096 + (o - 4) + Z.of_nat 4) with (q * 4096 + o) by lia. done. }
  rewrite E in H1, H2. done.
Qed.

Lemma exception_esp_run s q esp :
  uxstack s q → (nested esp = true → 56 <= esp - UXSTACKBASE) →
  let s' := set_mem (write_bytes (mem s) (q * 4096 + frame_end esp) (scratch esp)) s in
  exception_esp esp s = Done (UXSTACKBASE + frame_end esp) s' ∧ uxstack s' q ∧
  52 <= frame_end esp <= 4096.
Proof.
  intros Hux Hn. unfold exception_esp, frame_end, scratch. unfold nested in *.
  rewrite andb_comm. destruct ((UXSTACKBASE <=? esp) && (esp <? UXSTACKTOP)) eqn:En.
  - specialize (Hn eq_refl). apply andb_true_iff in En as [?%Z.leb_le Hlt%Z.ltb_lt].
    change UXSTACKTOP with (UXSTACKBASE + 4096) in Hlt.
    destruct (Z.ltb_spec (u32 (esp - RCSV_UTRAP_SIZE)) UXSTACKBASE) as [Hb|].
    { exfalso. change RCSV_UTRAP_SIZE with 56 in Hb. change UXSTACKBASE with 4005556224 in *.
      rewrite u32_id in Hb; lia. }
    destruct (push_ux s q (esp - UXSTACKBASE) 0 Hux) as [H1 H2]; [lia|].
    replace (UXSTACKBASE + (esp - UXSTACKBASE)) with esp in H1 by lia. split; [exact H1|].
    split; [exact H2|lia].
  - split; [|split; [|lia]].
    + change UXSTACKTOP with (UXSTACKBASE + 4096). by destruct s.
    + change (write_bytes (mem s) (q * 4096 + 4096) []) with (mem s). by destruct s.
Qed.

(** The frame is written below [frame_end], and [esp] points to it. *)
Lemma frame_run s q tf fault_va :
  uxstack s q → (nested (tf_esp tf) = true → 56 <= tf_esp tf - UXSTACKBASE) →
  let o := frame_end (tf_esp tf) - 52 in
  let s' := set_mem (write_bytes (mem s) (q * 4096 + o) (utf_bytes fault_va tf ++ scratch (tf_esp tf))) s in
  ∀ (k : Z → M unit),
  (esp ← exception_esp (tf_esp tf);
   esp ← push esp (tf_esp tf);
   esp ← push esp (tf_eflags tf);
   esp ← push esp (tf_eip tf);
   let esp := u32 (esp - SIZEOF_PUSHREGS) in
   vwrite esp (regs_bytes (tf_regs tf)) ;;
   esp ← push esp (tf_err tf);
   esp ← push esp fault_va; k esp) s = k (UXSTACKBASE + o) s'.
Proof.
  intros Hux Hn o s' k. destruct (exception_esp_run s q (tf_esp tf) Hux Hn) as (H0 & U0 & Hr).
  rewrite (bind_Done _ _ _ _ _ H0). set (e := frame_end (tf_esp tf)) in *.
  destruct (push_below s q e _ (tf_esp tf) U0) as [H1 U1]; [lia|]. rewrite (bind_Done _ _ _ _ _ H1).
  destruct (push_below s q (e - 4) _ (tf_eflags tf) U1) as [H2 U2]; [lia|]. rewrite (bind_Done _ _ _ _ _ H2).
  destruct (push_below s q (e - 4 - 4) _ (tf_eip tf) U2) as [H3 U3]; [lia|]. rewrite (bind_Done _ _ _ _ _ H3).
  cbv zeta. replace (u32 (UXSTACKBASE + (e - 4 - 4 - 4) - SIZEOF_PUSHREGS)) with (UXSTACKBASE + (e - 44))
    by (change UXSTACKBASE with 4005556224; unfold SIZEOF_PUSHREGS; rewrite u32_id; lia).
  destruct (vwrite_ux (regs_bytes (tf_regs tf)) _ q (e - 44) U3) as [H4 U4]; [lia|simpl; lia|].
  rewrite (bind_Done _ _ _ _ _ H4).
  set (l := bytes32 (tf_eip tf) ++ _) in *.
  assert (set_mem (write_bytes (mem (set_mem (write_bytes (mem s) (q * 4096 + (e - 4 - 4 - 4)) l) s))
    (q * 4096 + (e - 44)) (regs_bytes (tf_regs tf))) (set_mem (write_bytes (mem s)
      (q * 4096 + (e - 4 - 4 - 4)) l) s) =
    set_mem (write_bytes (mem s) (q * 4096 + (e - 44)) (regs_bytes (tf_regs tf) ++ l)) s) as E.
  { rewrite <- write_bytes_app. simpl mem. change (length (regs_bytes (tf_regs tf))) with 32%nat.
    replace (q * 4096 + (e - 44) + Z.of_nat 32) with (q * 4096 + (e - 4 - 4 - 4)) by lia. done. }
  rewrite E in U4 |- *.
  destruct (push_below s q (e - 44) _ (tf_err tf) U4) as [H5 U5]; [lia|]. rewrite (bind_Done _ _ _ _ _ H5).
  destruct (push_below s q (e - 44 - 4) _ fault_va U5) as [H6 U6]; [lia|]. rewrite (bind_Done _ _ _ _ _ H6).
  unfold s', o, utf_bytes, l. rewrite <- !app_assoc.
  replace (e - 44 - 4 - 4) with (e - 52) by lia. done.
Qed.
End upcall.

Section handler.
Implicit Types (s : kstate) (c : Cpu) (x : Env).

Lemma assert_passes e va len perm {A} (k : unit → M A) s :
  user_mem_check e va len (Z.lor perm PTE_U) s = Done 0 s →
  (user_mem_assert e va len perm ≫= k) s = k tt s.
Proof.
  intros H. unfold user_mem_assert. rewrite run_assoc, (bind_Done _ _ _ _ _ H). done.
Qed.

(** The environment after the upcall has been set up. *)
Definition upcall_env x o : Env :=
  set_env_tf (set_tf_eip (env_pgfault_upcall x) (set_tf_esp (UXSTACKBASE + o) (env_tf x))) x.

(** The states in which a user's page fault reaches its handler. *)
Record fault_ready s c cur x q : Prop := {
  fr_call : in_call s c cur x;
  fr_lock : lock_mine s;
  fr_pgdir : KERNBASE <= env_pgdir x;
  fr_user : Z.land (tf_cs (env_tf x)) 3 = 3;
  fr_walk : ∃ r, pgdir_walk (env_pgdir x) (cr2 s) NO_CREATE s = Done r s;
  fr_handler : env_pgfault_upcall x ≠ 0;
  fr_check1 : user_mem_check cur (env_pgfault_upcall x) PGSIZE (Z.lor PTE_U PTE_P) s = Done 0 s;
  fr_check2 : user_mem_check cur (UXSTACKTOP - 52) 52 (Z.lor (Z.lor PTE_U PTE_P) PTE_W) s = Done 0 s;
  fr_stack : uxstack s q;
}.

(** The part of the handler before the frame is pushed. *)
Lemma fault_checks s c cur x q :
  fault_ready s c cur x q →
  page_fault_handler (InEnv cur) s =
  (esp ← exception_esp (tf_esp (env_tf x));
   esp ← push esp (tf_esp (env_tf x));
   esp ← push esp (tf_eflags (env_tf x));
   esp ← push esp (tf_eip (env_tf x));
   let esp := u32 (esp - SIZEOF_PUSHREGS) in
   vwrite esp (regs_bytes (tf_regs (env_tf x))) ;;
   esp ← push esp (tf_err (env_tf x));
   esp ← push esp (cr2 s);
   cur ← curenv_ptr;
   upd_env (λ e, set_env_tf (set_tf_esp esp (env_tf e)) e) cur ;;
   upd_env (λ e, set_env_tf (set_tf_eip (env_pgfault_upcall e) (env_tf e)) e) cur ;;
   env_run cur) s.
Proof.
  intros [Hic Hl Hp Hu [r Hw] Hh Hc1 Hc2 Hux]. unfold page_fault_handler.
  rewrite run_gets. cbn [get_tf]. rewrite run_assoc, (run_get_env _ x) by apply Hic. rewrite run_ret.
  rewrite Hu. change (3 =? 0) with false. cbv iota.
  rewrite (run_curenv_ptr s c cur x), (run_get_env _ x) by apply Hic || done.
  rewrite (bind_Done _ _ _ _ _ Hw). rewrite (proj2 (Z.eqb_neq _ 0) Hh).
  rewrite assert_passes by exact Hc1.
  rewrite assert_passes by exact Hc2.
  rewrite run_assoc, (run_get_env _ x) by apply Hic. by rewrite run_ret.
Qed.

Lemma page_fault_run s c cur x q :
  fault_ready s c cur x q →
  let esp := tf_esp (env_tf x) in
  let o := frame_end esp - 52 in
  (nested esp = true → 56 <= esp - UXSTACKBASE) →
  ∃ s', page_fault_handler (InEnv cur) s = Exit (UserMode cur) s' ∧
    mem s' = write_bytes (mem s) (q * 4096 + o) (utf_bytes (cr2 s) (env_tf x) ++ scratch esp) ∧
    envs s' !! cur = Some (dispatched (this_cpu s) (upcall_env x o)) ∧
    ∀ j, j ≠ cur → envs s' !! j = envs s !! j.
Proof.
  intros Hf esp o Hn. rewrite (fault_checks s c cur x q Hf). destruct Hf as [Hic Hl Hp _ _ _ _ _ Hux].
  rewrite (frame_run s q (env_tf x) (cr2 s) Hux Hn). fold esp o.
  set (m' := write_bytes (mem s) (q * 4096 + o) _).
  assert (in_call (set_mem m' s) c cur x) as Hic' by (destruct Hic; by split).
  rewrite (run_curenv_ptr _ _ _ _ _ Hic'), (run_upd_env _ _ x) by apply Hic.
  erewrite run_upd_env by (simpl; apply lookup_insert_eq).
  match goal with |- context [env_run cur ?st] => set (s2 := st) end.
  assert (envs s2 = <[cur := upcall_env x o]> (envs s)) as He by (simpl; by rewrite insert_insert_eq).
  eexists. split; [|split; [|split]].
  - apply (env_run_exit s2 cur (upcall_env x o) c); [apply Hic| |rewrite He; apply lookup_insert_eq|done|done].
    unfold cpu_ok. rewrite He. simpl. rewrite (ic_cpu _ _ _ _ Hic), (ic_cur _ _ _ _ Hic), lookup_insert_eq.
    done.
  - reflexivity.
  - change (<[cur := dispatched (this_cpu s) (upcall_env x o)]> (preempt (cpu_env c) (envs s2)) !! cur =
      Some (dispatched (this_cpu s) (upcall_env x o))). apply lookup_insert_eq.
  - intros j Hj.
    change (<[cur := dispatched (this_cpu s) (upcall_env x o)]> (preempt (cpu_env c) (envs s2)) !! j = envs s !! j).
    rewrite lookup_insert_ne by done. rewrite (ic_cur _ _ _ _ Hic). unfold preempt.
    rewrite He, lookup_insert_eq. destruct (env_status (upcall_env x o) =? ENV_RUNNING);
      by rewrite ?lookup_insert_ne.
Qed.
End handler.

(** ** Entering and leaving the kernel for a system call *)

Section entry.
Implicit Types (s : kstate) (c : Cpu) (x y : Env).

(** The state in which the trap of [cur] is dispatched. *)
Definition entered s cur x tf : kstate :=
  set_envs (<[cur := set_env_tf tf x]> (envs s))
    (set_kernel_lock (mkSpinlock 1 (Some (this_cpu s))) s).

(** The caller [y] with the result [v] in its saved registers. *)
Definition with_result (v : Z) y : Env :=
  set_env_tf (set_tf_regs (set_reg_eax (u32 v) (tf_regs (env_tf y))) (env_tf y)) y.

Lemma enter_run s c cur x tf {A} (k : tfptr → M A) :
  kernel_lock s = mkSpinlock 0 None → in_call s c cur x → env_status x ≠ ENV_DYING →
  ((lock_kernel ;;
    c ← curenv;
    assert (bool_decide (c ≠ None)) "assertion failed: curenv" ;;
    cur ← deref c;
    x ← get_env cur;
    (if env_status x =? ENV_DYING
     then env_free cur ;; set_curenv None ;; sched_yield else mret tt) ;;
    cur ← curenv_ptr;
    upd_env (set_env_tf tf) cur ;;
    mret (InEnv cur)) ≫= k) s = k (InEnv cur) (entered s cur x tf).
Proof.
  intros Hl Hic Hd. rewrite run_assoc, (bind_Done _ _ _ _ _ (lock_kernel_run s Hl)).
  assert (in_call (set_kernel_lock (mkSpinlock 1 (Some (this_cpu s))) s) c cur x) as Hic1
    by (destruct Hic; by split).
  unfold entered. change (envs s) with (envs (set_kernel_lock (mkSpinlock 1 (Some (this_cpu s))) s)).
  revert Hic1. generalize (set_kernel_lock (mkSpinlock 1 (Some (this_cpu s))) s). intros s1 Hic1.
  rewrite run_assoc, (run_curenv c), (ic_cur _ _ _ _ Hic1) by apply Hic1.
  rewrite bool_decide_true by done. cbn [assert deref]. rewrite run_assoc, run_ret, run_assoc, run_ret.
  rewrite run_assoc, (run_get_env _ x) by apply Hic1.
  rewrite (proj2 (Z.eqb_neq _ _) Hd). rewrite run_assoc, run_ret, run_assoc.
  rewrite (run_curenv_ptr _ _ _ _ _ Hic1), run_assoc, (run_upd_env _ _ x) by apply Hic1.
  by rewrite run_ret.
Qed.

(** A system call that returns while its caller still runs. *)
Lemma trap_syscall_run s c cur x tf v s2 y :
  panicstr s = false → kernel_lock s = mkSpinlock 0 None → in_call s c cur x →
  env_status x ≠ ENV_DYING → Z.land (tf_cs tf) 3 = 3 → tf_trapno tf = T_SYSCALL →
  syscall (reg_eax (tf_regs tf)) (reg_edx (tf_regs tf)) (reg_ecx (tf_regs tf))
    (reg_ebx (tf_regs tf)) (reg_edi (tf_regs tf)) (reg_esi (tf_regs tf)) (entered s cur x tf) = Done v s2 →
  in_call s2 c cur y → env_status y = ENV_RUNNING → lock_mine s2 → KERNBASE <= env_pgdir y →
  trap tf s = Exit (UserMode cur) (run_post cur (with_result v y) c
    (set_envs (<[cur := with_result v y]> (envs s2)) s2)).
Proof.
  intros Hps Hlk Hic Hdy Hcs Hno Hsys Hic2 Hrun Hl2 Hp2. unfold trap.
  rewrite run_gets, Hps, Hcs. change (3 =? 3) with true. cbv iota.
  rewrite (enter_run s c cur x tf) by done.
  set (s3 := set_envs (<[cur := with_result v y]> (envs s2)) s2).
  assert (trap_dispatch (InEnv cur) (entered s cur x tf) = Done tt s3) as Hd.
  { unfold trap_dispatch. cbn [get_tf]. rewrite run_assoc.
    erewrite run_get_env by (unfold entered; simpl; apply lookup_insert_eq). rewrite run_ret.
    cbn [env_tf set_env_tf]. rewrite Hno. cbv zeta. change (_ && _) with false. cbv iota.
    change (T_SYSCALL =? T_PGFLT) with false. change (T_SYSCALL =? T_BRKPT) with false.
    rewrite Z.eqb_refl. cbv iota. rewrite (bind_Done _ _ _ _ _ Hsys).
    rewrite tail_bind, (run_upd_env _ _ y) by apply Hic2. done. }
  assert (in_call s3 c cur (with_result v y)) as Hic3.
  { destruct Hic2 as [I1 I2 I3 I4]. split; simpl; [done|done|apply lookup_insert_eq|].
    intros i Hi. destruct (decide (i = cur)) as [->|]; simplify_map_eq; [done|]. by apply I4. }
  rewrite (bind_Done _ _ _ _ _ Hd), (run_curenv c), (ic_cur _ _ _ _ Hic3) by apply Hic3.
  rewrite (run_get_env _ (with_result v y)) by apply Hic3. simpl. rewrite Hrun. simpl.
  apply (env_run_exit s3 cur (with_result v y) c); [apply Hic3|by eapply in_call_ok|apply Hic3|done|done].
Qed.
End entry.

(** ** Properties *)

Section properties.
Implicit Types (s : kstate) (c : Cpu) (x : Env).

(** C30: trap_init makes every one of the 256 vectors a present interrupt gate (so
    that interrupts are off while the kernel runs) into the kernel's code segment
    at its own entry point; the system call and the breakpoint are the only
    vectors that user code may raise by an int instruction.  The CPU gets a kernel
    stack of its own, and a busy task-state descriptor, in its own slot of the
    GDT, that describes its task-state segment and is loaded as its task
    register; no other slot of the GDT changes. *)
Theorem trap_init_gates im s c :
  cpus s !! this_cpu s = Some c → cpu_id c = this_cpu s → ts_ss0 c = 0 → 0 <= this_cpu s < NCPU →
  0 <= cpu_ts_addr im (this_cpu s) < 4294967296 →
  let slot := 5 + this_cpu s in
  ∃ s' c' d r, trap_init im s = Done tt s' ∧
    (∀ i, 0 <= i < 256 → ∃ g, idt s' !! i = Some g ∧ gd_off g = u32 (vects im i) ∧ gd_sel g = GD_KT ∧
       gd_type g = STS_IG32 ∧ gd_p g = 1 ∧ (gd_dpl g = DPL_USER ↔ i = T_SYSCALL ∨ i = T_BRKPT)) ∧
    cpus s' !! this_cpu s = Some c' ∧ ts_ss0 c' = GD_KD ∧
    ts_esp0 c' = KSTACKTOP - 65536 * this_cpu s ∧ KSTACKTOP - PTSIZE <= ts_esp0 c' - KSTKSIZE ∧
    gdt s' = <[slot := d]> (gdt s) ∧ seg_base d = cpu_ts_addr im (this_cpu s) ∧ seg_limit d = 104 ∧
    sd_s d = 0 ∧ sd_type d = STS_T32B ∧
    segregs s' !! this_cpu s = Some r ∧ tr r = 8 * slot ∧ idtr r = idt_pd im.
Proof.
  intros Hc Hid Hss Hn Ha slot. destruct (trap_init_run im s) as (I & -> & HI).
  destruct (trap_init_percpu_run im (set_idt I s) c Hc Hid Hss Hn) as (s' & c' & d & r & -> & Hidt & Hp).
  exists s', c', d, r. split; [reflexivity|]. split; [|exact (Hp Ha)]. by rewrite Hidt.
Qed.

(** C7: a page fault of a user environment that has set up a handler, whose code
    and exception stack pass the checks, resumes it in the handler with a
    complete UTrapframe below the top of the exception stack, or, if the fault
    happened on that stack, below the word of scratch space that is left under
    the interrupted frame; nothing else in memory and no other environment
    changes.  When there is no room for a nested frame the kernel panics. *)
Theorem page_fault_upcall s c cur x q :
  fault_ready s c cur x q →
  let esp := tf_esp (env_tf x) in
  let o := frame_end esp - 52 in
  if nested esp && (esp - UXSTACKBASE <? 56)
  then page_fault_handler (InEnv cur) s = Exit (Panic "It will underflow !!!") s
  else ∃ s', page_fault_handler (InEnv cur) s = Exit (UserMode cur) s' ∧
    mem s' = write_bytes (mem s) (q * 4096 + o) (utf_bytes (cr2 s) (env_tf x) ++ scratch esp) ∧
    envs s' !! cur = Some (dispatched (this_cpu s) (upcall_env x o)) ∧
    ∀ j, j ≠ cur → envs s' !! j = envs s !! j.
Proof.
  intros Hf esp o. destruct (nested esp) eqn:En; cbn [andb].
  2: { apply (page_fault_run s c cur x q Hf). fold esp. rewrite En. discriminate. }
  destruct (Z.ltb_spec (esp - UXSTACKBASE) 56) as [Hlt|].
  2: { apply (page_fault_run s c cur x q Hf). fold esp. lia. }
  rewrite (fault_checks s c cur x q Hf). apply bind_Exit. fold esp. unfold exception_esp.
  unfold nested in En. rewrite andb_comm, En. apply andb_true_iff in En as [?%Z.leb_le ?%Z.ltb_lt].
  destruct (Z.ltb_spec (u32 (esp - RCSV_UTRAP_SIZE)) UXSTACKBASE) as [|Hge]; [done|].
  exfalso. change RCSV_UTRAP_SIZE with 56 in Hge. change UXSTACKTOP with 4005560320 in *.
  change UXSTACKBASE with 4005556224 in *. rewrite u32_id in Hge; lia.
Qed.

(** C15: a system call made by user code (an int 0x30 with the kernel lock free)
    enters the kernel under the lock with the user's registers saved in its
    environment, is dispatched on the registers eax, edx, ecx, ebx, edi and esi,
    and, when the call returns and the caller is still running, resumes exactly
    that environment with the result in eax, every other register as the call
    left it, and the lock released. *)
Theorem trap_syscall_resumes s c cur x tf v s2 y :
  panicstr s = false → kernel_lock s = mkSpinlock 0 None → in_call s c cur x →
  env_status x ≠ ENV_DYING → Z.land (tf_cs tf) 3 = 3 → tf_trapno tf = T_SYSCALL →
  syscall (reg_eax (tf_regs tf)) (reg_edx (tf_regs tf)) (reg_ecx (tf_regs tf))
    (reg_ebx (tf_regs tf)) (reg_edi (tf_regs tf)) (reg_esi (tf_regs tf)) (entered s cur x tf) = Done v s2 →
  in_call s2 c cur y → env_status y = ENV_RUNNING → lock_mine s2 → KERNBASE <= env_pgdir y →
  ∃ s', trap tf s = Exit (UserMode cur) s' ∧
    envs s' !! cur = Some (dispatched (this_cpu s2) (with_result v y)) ∧
    kernel_lock s' = mkSpinlock 0 None ∧ mem s' = mem s2.
Proof.
  intros Hps Hlk Hic Hdy Hcs Hno Hsys Hic2 Hrun Hl2 Hp2. eexists. split; [by eapply trap_syscall_run|].
  split; [|split; reflexivity]. unfold run_post. simpl. apply lookup_insert_eq.
Qed.
End properties.

(** ** Concrete instances *)

Definition ex_image : image := mkImage (λ i, 0xF0100000 + 8 * i) 0xF011A300 0xF0120000 0xF0121000.

Lemma trap_init_gates_witness :
  ∃ s' c' d r, trap_init ex_image ex_kernel = Done tt s' ∧
    (∀ i, 0 <= i < 256 → ∃ g, idt s' !! i = Some g ∧ gd_off g = u32 (0xF0100000 + 8 * i) ∧
       gd_sel g = GD_KT ∧ gd_type g = STS_IG32 ∧ gd_p g = 1 ∧
       (gd_dpl g = DPL_USER ↔ i = T_SYSCALL ∨ i = T_BRKPT)) ∧
    cpus s' !! 0 = Some c' ∧ ts_ss0 c' = GD_KD ∧
    ts_esp0 c' = KSTACKTOP - 65536 * 0 ∧ KSTACKTOP - PTSIZE <= ts_esp0 c' - KSTKSIZE ∧
    gdt s' = <[5 := d]> (gdt ex_kernel) ∧ seg_base d = 0xF012100C ∧ seg_limit d = 104 ∧
    sd_s d = 0 ∧ sd_type d = STS_T32B ∧
    segregs s' !! 0 = Some r ∧ tr r = 0x28 ∧ idtr r = idt_pd ex_image.
Proof.
  apply (trap_init_gates ex_image ex_kernel (mkCpu 0 1 (Some 1) 0 0));
    [by_compute|reflexivity|reflexivity|by_compute|by_compute].
Defined.

(** Environment 1 of [ex_kernel] with its handler at 0x1000 and page 9 as its
    exception stack, faulting there with 100 bytes of it in use. *)
Definition ex_fault_env : Env :=
  set_env_pgfault_upcall 0x1000
    (set_env_tf (set_tf_esp (UXSTACKTOP - 100) (set_tf_cs 0x1B zero_tf)) (ex_env 1)).
Definition ex_fault : kstate :=
  let m := store32 (mem ex_kernel) (2 * 4096 + 4 * PDX UXSTACKBASE) (11 * 4096 + 7) in
  let m := store32 m (11 * 4096 + 4 * PTX UXSTACKBASE) (9 * 4096 + 7) in
  set_mem m (set_cr3 {[ 0 := 2 * 4096 ]} (set_cr2 0x5000
    (set_envs (<[1 := ex_fault_env]> (envs ex_kernel)) ex_kernel))).

Lemma ex_fault_space : env_space ex_fault [3; 5; 4] 1 2.
Proof.
  split; [by_compute|by_compute| |].
  - intros i Hi q Hq.
    assert (∀ i, 0 <= i < 1024 → default 0 (pt_of ex_fault 2 i) < npages ex_fault) as H by by_compute.
    specialize (H i Hi). by rewrite Hq in H.
  - exists ex_fault_env. split; [by_compute|reflexivity].
Qed.

Lemma ex_fault_check va len perm :
  0 <= va → 0 <= len → va + len < 4294967296 →
  first_bad ex_fault 2 perm va (seqZ 0 (probes len)) = None →
  user_mem_check 1 va len perm ex_fault = Done 0 ex_fault.
Proof.
  intros H1 H2 H3 H4.
  rewrite (user_mem_check_run ex_fault [3; 5; 4] 1 2 va len perm ex_fault_space H1 H2 H3), H4. reflexivity.
Qed.

Lemma ex_fault_ready : fault_ready ex_fault (mkCpu 0 1 (Some 1) 0 0) 1 ex_fault_env 9.
Proof.
  split.
  - split; [by_compute|reflexivity|by_compute|]. unfold all_envs. by_compute.
  - reflexivity.
  - by_compute.
  - reflexivity.
  - eexists. apply (walk_present ex_fault [3; 5; 4] 2 0x5000 NO_CREATE 6); by_compute.
  - discriminate.
  - apply ex_fault_check; by_compute.
  - apply ex_fault_check; by_compute.
  - split; [by_compute| |]; intros pa Hpa; assert (pa = 8192) as -> by
      (apply (inj Some); rewrite <- Hpa; by_compute); by_compute.
Qed.

Lemma page_fault_upcall_witness :
  ∃ s', page_fault_handler (InEnv 1) ex_fault = Exit (UserMode 1) s' ∧
    mem s' = write_bytes (mem ex_fault) (9 * 4096 + 3940)
      (utf_bytes 0x5000 (env_tf ex_fault_env) ++ bytes32 0) ∧
    envs s' !! 1 = Some (dispatched 0 (upcall_env ex_fault_env 3940)) ∧
    ∀ j, j ≠ 1 → envs s' !! j = envs ex_fault !! j.
Proof.
  apply (page_fault_upcall ex_fault (mkCpu 0 1 (Some 1) 0 0) 1 ex_fault_env 9). apply ex_fault_ready.
Defined.

(** Environment 1 asks for its id. *)
Definition ex_getenvid : Trapframe :=
  set_tf_regs (set_reg_eax SYS_getenvid zero_regs) (set_tf_trapno T_SYSCALL (set_tf_cs 0x1B zero_tf)).

Lemma trap_syscall_resumes_witness :
  let s := set_kernel_lock (mkSpinlock 0 None) ex_kernel in
  ∃ s', trap ex_getenvid s = Exit (UserMode 1) s' ∧
    envs s' !! 1 = Some (dispatched 0 (with_result 4097 (set_env_tf ex_getenvid (ex_env 1)))) ∧
    kernel_lock s' = mkSpinlock 0 None ∧ mem s' = mem s.
Proof.
  intros s. assert (in_call s (mkCpu 0 1 (Some 1) 0 0) 1 (ex_env 1)) as Hic.
  { destruct ex_kernel_call. split; assumption. }
  assert (in_call (entered s 1 (ex_env 1) ex_getenvid) (mkCpu 0 1 (Some 1) 0 0) 1
    (set_env_tf ex_getenvid (ex_env 1))) as Hic2.
  { split; [by_compute|reflexivity|by_compute|]. unfold all_envs. by_compute. }
  apply (trap_syscall_resumes s (mkCpu 0 1 (Some 1) 0 0) 1 (ex_env 1) ex_getenvid 4097
    (entered s 1 (ex_env 1) ex_getenvid)).
  - reflexivity.
  - reflexivity.
  - exact Hic.
  - discriminate.
  - reflexivity.
  - reflexivity.
  - change (sys_getenvid (entered s 1 (ex_env 1) ex_getenvid) = Done 4097 (entered s 1 (ex_env 1) ex_getenvid)).
    unfold sys_getenvid. rewrite (run_curenv_ptr _ _ _ _ _ Hic2), (run_get_env _ _ _ _ (ic_env _ _ _ _ Hic2)).
    reflexivity.
  - exact Hic2.
  - reflexivity.
  - reflexivity.
  - by_compute.
Defined.
