(* ===== verification/UserLib.v ===== *)
(** * The user library: lib/fork.c, lib/pgfault.c, lib/ipc.c, lib/syscall.c

    Code that runs in user mode: the system call stubs, copy-on-write fork with
    its page-fault handler, and the message routines.  It sees the kernel through
    a small interface, [user_machine]: system calls, loads and stores of bytes,
    and the library's own variables.  CopyOnWrite.v states what the library relies
    on; UserKernel.v shows that the kernel of this development provides it.  The
    library's stack and its variables are not part of the memory it sees here, and
    no interrupt separates two of its steps. *)

From S2P Require Import Prelude Machine Pmap Syscall Spaces.
From stdpp Require Import base numbers list gmap fin_maps strings.

Local Open Scope Z_scope.

(** inc/memlayout.h, inc/mmu.h, lib/fork.c, lib/entry.S *)
Definition UTEMP : Z := PTSIZE.
Definition PFTEMP : Z := UTEMP + PTSIZE - PGSIZE.
Definition FEC_WR : Z := 0x2.
Definition PTE_COW : Z := 0x800.
Definition PT_DIGITS : Z := 10.
Definition PGNUM2LA (n : Z) : Z := Z.shiftl n PTXSHIFT.
Definition VPT : Z := UVPT.
Definition VPD : Z := UVPT + Z.shiftr UVPT 12 * 4.

(** The ways a library routine ends without returning. *)
Inductive uexit : Type :=
  | UPanic (msg : string) (r : Z)  (** [panic ()]: the breakpoint, for ever *)
  | UFault (va : Z)                (** a page fault in the library itself *)
  | UKernel (k : kexit)            (** the kernel does not come back *)
  | UBlocked (e : Z)               (** another environment [e] runs *)
  | UNoFuel.                       (** a bounded loop of the model ran out *)

(** The library's variables: [_pgfault_handler], 0 when there is none, and
    [thisenv], as an index of [envs]. *)
Record ulib : Type := mkUlib { pgfault_handler : Z; thisenv : Z }.

(** ** What user code sees of the machine *)

Class user_machine (S : Type) : Type := {
  um_syscall : Z → Z → Z → Z → Z → Z → comp S uexit Z;
  um_load8 : Z → comp S uexit Z;
  um_store8 : Z → Z → comp S uexit unit;
  um_lib : S → ulib;
  um_set_lib : ulib → S → S;
  um_env : Z → S → Env  (** the read-only copy of [envs] *)
}.

Section library.
Context {S : Type} `{!user_machine S}.
Abbreviation U := (comp S uexit).

Definition upanic {A} (msg : string) (r : Z) : U A := leave (UPanic msg r).

Definition uload32 (a : Z) : U Z :=
  b0 ← um_load8 a;
  b1 ← um_load8 (u32 (a + 1));
  b2 ← um_load8 (u32 (a + 2));
  b3 ← um_load8 (u32 (a + 3));
  mret (b0 + 256 * b1 + 65536 * b2 + 16777216 * b3).
Definition ustore32 (a v : Z) : U unit :=
  um_store8 a v ;;
  um_store8 (u32 (a + 1)) (v / 256) ;;
  um_store8 (u32 (a + 2)) (v / 65536) ;;
  um_store8 (u32 (a + 3)) (v / 16777216).

(** ** System call stubs: lib/syscall.c *)

Definition usyscall (num : Z) (check : bool) (a1 a2 a3 a4 a5 : Z) : U Z :=
  ret ← um_syscall num (u32 a1) (u32 a2) (u32 a3) (u32 a4) (u32 a5);
  if check && (0 <? ret) then upanic "syscall %d returned %d (> 0)" ret else mret ret.

Definition usys_cputs (s len : Z) : U unit := usyscall SYS_cputs false s len 0 0 0 ;; mret tt.
Definition usys_cgetc : U Z := usyscall SYS_cgetc false 0 0 0 0 0.
Definition usys_env_destroy (envid : Z) : U Z := usyscall SYS_env_destroy true envid 0 0 0 0.
Definition usys_getenvid : U Z := usyscall SYS_getenvid false 0 0 0 0 0.
Definition usys_yield : U unit := usyscall SYS_yield false 0 0 0 0 0 ;; mret tt.
Definition usys_page_alloc (envid va perm : Z) : U Z :=
  usyscall SYS_page_alloc true envid va perm 0 0.
Definition usys_page_map (srcenv srcva dstenv dstva perm : Z) : U Z :=
  usyscall SYS_page_map true srcenv srcva dstenv dstva perm.
Definition usys_page_unmap (envid va : Z) : U Z := usyscall SYS_page_unmap true envid va 0 0 0.
Definition usys_env_set_status (envid status : Z) : U Z :=
  usyscall SYS_env_set_status true envid status 0 0 0.
Definition usys_env_set_pgfault_upcall (envid upcall : Z) : U Z :=
  usyscall SYS_env_set_pgfault_upcall true envid upcall 0 0 0.
Definition usys_ipc_try_send (envid value srcva perm : Z) : U Z :=
  usyscall SYS_ipc_try_send false envid value srcva perm 0.
Definition usys_ipc_recv (dstva : Z) : U Z := usyscall SYS_ipc_recv true dstva 0 0 0 0.
(** inc/lib.h; the other registers are not arguments. *)
Definition usys_exofork : U Z := um_syscall SYS_exofork 0 0 0 0 0.

(** ** [memmove] in user memory: lib/string.c *)

(** [rep movsb] and [rep movsl], upwards or downwards by [dir]. *)
Fixpoint umovsb (dir : Z) (n : nat) (d s : Z) : U unit :=
  match n with
  | O => mret tt
  | Datatypes.S k => b ← um_load8 s; um_store8 d b ;; umovsb dir k (u32 (d + dir)) (u32 (s + dir))
  end.
Fixpoint umovsl (dir : Z) (n : nat) (d s : Z) : U unit :=
  match n with
  | O => mret tt
  | Datatypes.S k => w ← uload32 s; ustore32 d w ;; umovsl dir k (u32 (d + 4 * dir)) (u32 (s + 4 * dir))
  end.

Definition umemmove (dst src n : Z) : U unit :=
  let s := src in
  let d := dst in
  if (s <? d) && (d <? u32 (s + n)) then
    let s := u32 (s + n) in
    let d := u32 (d + n) in
    if (s mod 4 =? 0) && (d mod 4 =? 0) && (n mod 4 =? 0)
    then umovsl (-1) (Z.to_nat (n / 4)) (u32 (d - 4)) (u32 (s - 4))
    else umovsb (-1) (Z.to_nat n) (u32 (d - 1)) (u32 (s - 1))
  else
    if (s mod 4 =? 0) && (d mod 4 =? 0) && (n mod 4 =? 0)
    then umovsl 1 (Z.to_nat (n / 4)) d s
    else umovsb 1 (Z.to_nat n) d s.

(** ** Copy-on-write: lib/fork.c *)

(** [vpt[n]] and [vpd[i]] *)
Definition vpt (n : Z) : U Z := uload32 (u32 (VPT + 4 * n)).
Definition vpd (i : Z) : U Z := uload32 (u32 (VPD + 4 * i)).

Definition PTE_PU : Z := Z.lor PTE_P PTE_U.
Definition PTE_PUW : Z := Z.lor (Z.lor PTE_P PTE_U) PTE_W.

(** The handler's arguments are the fields of [*utf] that it reads. *)
Definition pgfault (utf_fault_va utf_err : Z) : U unit :=
  let addr := utf_fault_va in
  let err := utf_err in
  let failed r := upanic "page fault handler failed by: %d" r in
  pte ← vpt (PGNUM addr);
  pde ← vpd (PDX addr);
  if negb (PTE_PU =? Z.land pde PTE_PU) then failed (-1) else
  pte ← vpt (PGNUM addr);
  if negb (has PTE_P pte && has FEC_WR err && has PTE_COW pte) then failed (-2) else
  r ← usys_page_alloc 0 PFTEMP PTE_PUW;
  if r <? 0 then failed (-3) else
  umemmove PFTEMP (ROUNDDOWN addr PGSIZE) PGSIZE ;;
  r ← usys_page_map 0 PFTEMP 0 (ROUNDDOWN addr PGSIZE) PTE_PUW;
  if r <? 0 then failed (-4) else
  r ← usys_page_unmap 0 PFTEMP;
  if r <? 0 then failed (-5) else
  mret tt.

(** The results of [sys_page_map] are ignored.  The messages before the two
    returns of an error are left out; [fork] calls [duppage] only where neither is
    reached. *)
Definition duppage (envid pn : Z) : U Z :=
  pde ← vpd (Z.shiftr pn PT_DIGITS);
  if negb (PTE_PU =? Z.land pde PTE_PU) then mret (- E_INVAL) else
  pte ← vpt pn;
  if negb (PTE_PU =? Z.land pte PTE_PU) then mret (- E_INVAL) else
  pte ← vpt pn;
  if negb (has (Z.lor PTE_W PTE_COW) pte) then
    pte ← vpt pn;
    usys_page_map 0 (PGNUM2LA pn) envid (PGNUM2LA pn) (PGOFF pte) ;;
    mret 0
  else
    let cow pte := Z.land (Z.lor (PGOFF pte) PTE_COW) (Z.lnot PTE_W) in
    pte ← vpt pn;
    usys_page_map 0 (PGNUM2LA pn) envid (PGNUM2LA pn) (cow pte) ;;
    pte ← vpt pn;
    usys_page_map 0 (PGNUM2LA pn) 0 (PGNUM2LA pn) (cow pte) ;;
    mret 0.

(** lib/pgfault.c; [upcall] is the address of [_pgfault_upcall]. *)
Definition set_pgfault_handler (upcall handler : Z) : U unit :=
  l ← gets um_lib;
  (if pgfault_handler l =? 0 then
     r ← usys_page_alloc 0 UXSTACKBASE (Z.lor (Z.lor PTE_U PTE_W) PTE_P);
     if negb (0 =? r) then upanic "allocating at %x in set_pgfault_handler: %e" r else
     usys_env_set_pgfault_upcall 0 upcall ;; mret tt
   else mret tt) ;;
  modify (λ s, um_set_lib (mkUlib handler (thisenv (um_lib s))) s).

(** The body of the loop of [fork]. *)
Definition fork_page (child_envid pgn : Z) : U unit :=
  if pgn =? PGNUM UXSTACKBASE then
    usys_page_alloc child_envid UXSTACKBASE (Z.lor (Z.lor PTE_U PTE_W) PTE_P) ;; mret tt
  else if pgn <? PGNUM UXSTACKBASE then
    pde ← vpd (Z.shiftr pgn 10);
    if negb (PTE_PU =? Z.land pde PTE_PU) then mret tt else
    pte ← vpt pgn;
    if negb (PTE_PU =? Z.land pte PTE_PU) then mret tt else
    duppage child_envid pgn ;; mret tt
  else mret tt.

(** [pgfault_addr] is the address of [pgfault]. *)
Definition fork (upcall pgfault_addr : Z) : U Z :=
  set_pgfault_handler upcall pgfault_addr ;;
  child_envid ← usys_exofork;
  if child_envid <? 0 then upanic "fork in copy-on-write:%e" child_envid
  else if 0 =? child_envid then
    id ← usys_getenvid;
    modify (λ s, um_set_lib (mkUlib (pgfault_handler (um_lib s)) (ENVX id)) s) ;;
    set_pgfault_handler upcall pgfault_addr ;;
    mret 0
  else
    usys_env_set_pgfault_upcall child_envid upcall ;;
    for_each (seqZ 0 (PGNUM UTOP)) (fork_page child_envid) ;;
    r ← usys_env_set_status child_envid ENV_RUNNABLE;
    if r <? 0 then upanic "sys_env_set_status: %e!!!!!" r else mret child_envid.

Definition sfork : U Z := upanic "sfork not implemented" 0.

(** ** Messages: lib/ipc.c *)

(** The result, and the values stored through [from_env_store] and [perm_store]. *)
Definition ipc_recv (pg : Z) : U (Z * Z * Z) :=
  ret ← usys_ipc_recv (if pg =? 0 then IPC_NO_PAGE else pg);
  s ← get;
  let this := um_env (thisenv (um_lib s)) s in
  mret (if ret =? 0 then s32 (env_ipc_value this) else ret,
        if ret =? 0 then env_ipc_from this else 0,
        if ret =? 0 then env_ipc_perm this else 0).

(** At most [fuel] attempts are made. *)
Definition ipc_send (fuel : nat) (to_env val pg perm : Z) : U unit :=
  ret ← loop fuel UNoFuel (λ _,
    usys_yield ;;
    ret ← usys_ipc_try_send to_env val (if pg =? 0 then IPC_NO_PAGE else pg) (if pg =? 0 then 0 else perm);
    if - E_IPC_NOT_RECV =? ret then mret (inl tt) else mret (inr ret)) tt;
  if negb (ret =? 0) then upanic "envid:0x%d's ipc sending to 0x%x failed ret:0x%x" ret else mret tt.

Definition ipc_find_env (type : EnvType) : U Z :=
  loop 1025 UNoFuel (λ i,
    if i <? NENV then
      s ← get;
      let e := um_env i s in
      if bool_decide (env_type e = type) then mret (inr (env_id e)) else mret (inl (i + 1))
    else mret (inr 0)) 0.

(** lib/exit.c, and the start of lib/libmain.c before [umain]. *)
Definition uexit_ : U unit := usys_env_destroy 0 ;; mret tt.
Definition libmain_start : U unit :=
  id ← usys_getenvid;
  modify (λ s, um_set_lib (mkUlib (pgfault_handler (um_lib s)) (ENVX id)) s).
End library.

#[global] Arguments umovsl : simpl never.
#[global] Arguments umovsb : simpl never.
