(* ===== verification/CopyOnWrite.v ===== *)
(** * Copy-on-write, against an interface of the machine

    What lib/fork.c relies on, as a class of laws ([user_machine_ok]): the
    address spaces change as VmCalls.v specifies, the page tables can be read at
    [vpt] and [vpd], loads and stores respect the permissions.  The theorems on
    [pgfault] and [duppage] are proved from these laws alone. *)

From S2P Require Import Prelude Machine PageAlloc Pmap Syscall Spaces VmCalls UserLib.
From stdpp Require Import base numbers list gmap fin_maps sets strings.

Local Open Scope Z_scope.

(** ** The interface *)

(** What there is to see of a state. *)
Class user_view (S : Type) : Type := {
  uo_inv : S → Prop;
  uo_self : S → Z;                       (** the caller's address space *)
  uo_who : S → Z → bool → option Z;      (** whom the caller names by an id *)
  uo_spaces : S → aspaces;
  uo_dir : S → Z → Z;                    (** the caller's page directory *)
  uo_count : S → Z → Z;                  (** reference counts *)
  uo_short : S → nat → Prop;             (** no more than so many pages are free *)
  uo_byte : S → Z → Z → Z                (** a byte of a physical page *)
}.

Section view.
Context {S : Type} `{!user_machine S, !user_view S}.
Implicit Types s : S.

Definition mine s : gmap Z Z := default ∅ (uo_spaces s !! uo_self s).
Definition in_use_page s (q : Z) : Prop := ¬ unused (uo_spaces s) q.

(** Nothing but the contents of pages changed. *)
Record usame s s' : Prop := {
  sa_inv : uo_inv s';
  sa_spaces : uo_spaces s' = uo_spaces s;
  sa_self : uo_self s' = uo_self s;
  sa_who id check : uo_who s' id check = uo_who s id check;
  sa_lib : um_lib s' = um_lib s;
  sa_dir i : 0 <= i < PDX UTOP → uo_dir s' i = uo_dir s i;
  sa_count q : uo_count s' q = uo_count s q
}.

(** The address spaces became [A]; the pages in use kept their contents, and the
    entries of the directory their flags. *)
Record ustep s s' (A : aspaces) : Prop := {
  us_inv : uo_inv s';
  us_spaces : uo_spaces s' = A;
  us_self : uo_self s' = uo_self s;
  us_who id check : uo_who s' id check = uo_who s id check;
  us_lib : um_lib s' = um_lib s;
  us_dir i f : 0 <= i < PDX UTOP → has PTE_P (uo_dir s i) = true → has f (uo_dir s i) = true →
    has f (uo_dir s' i) = true;
  us_byte q o : in_use_page s q → 0 <= o < 4096 → uo_byte s' q o = uo_byte s q o
}.

(** The caller can read, and write, the page of [va], which is [q]. *)
Record readable s (va q : Z) (e : Z) : Prop := {
  rd_va : 0 <= va < UTOP;
  rd_entry : mine s !! PGNUM va = Some e;
  rd_page : PGNUM e = q;
  rd_user : has PTE_U e = true;
  rd_dir : has PTE_U (uo_dir s (PDX va)) = true
}.
Record writable s (va q : Z) (e : Z) : Prop := {
  wt_read : readable s va q e;
  wt_write : has PTE_W e = true;
  wt_dir : has PTE_W (uo_dir s (PDX va)) = true
}.
End view.

Class user_laws (S : Type) `{!user_machine S, !user_view S} : Prop := {
  ul_space (s : S) : uo_inv s → is_Some (uo_spaces s !! uo_self s);
  ul_who (s : S) check : uo_inv s → uo_who s 0 check = Some (uo_self s);
  ul_entry (s : S) n e : uo_inv s → mine s !! n = Some e →
    has PTE_P e = true ∧ has PTE_P (uo_dir s (n / 1024)) = true ∧ 0 <= e < 4294967296;
  ul_page (s : S) n e : uo_inv s → mine s !! n = Some e → 0 <= PGNUM e < 65536;
  ul_byte (s : S) q o : 0 <= uo_byte s q o < 256;

  (** The page tables, as user code reads them. *)
  ul_vpd (s : S) i : uo_inv s → 0 <= i < PDX UTOP → vpd i s = Done (uo_dir s i) s;
  ul_vpt (s : S) n : uo_inv s → 0 <= n < PGNUM UTOP →
    vpt n s = if has PTE_P (uo_dir s (n / 1024)) && has PTE_U (uo_dir s (n / 1024))
              then Done (default 0 (mine s !! n)) s else Exit (UFault (VPT + 4 * n)) s;

  (** Loads and stores. *)
  ul_load (s : S) va q e : uo_inv s → readable s va q e →
    um_load8 va s = Done (uo_byte s q (va mod 4096)) s;
  ul_store (s : S) va q e b : uo_inv s → writable s va q e →
    ∃ s', um_store8 va b s = Done tt s' ∧ usame s s' ∧
      ∀ q' o, 0 <= o < 4096 →
        uo_byte s' q' o = if decide (q' = q ∧ o = va mod 4096) then u8 b else uo_byte s q' o;

  (** System calls. *)
  ul_alloc (s : S) envid pd va perm : uo_inv s → uo_who s (s32 envid) true = Some pd → valid_va va →
    Z.land perm (Z.lnot PTE_SYSCALL) = 0 →
    (∃ s', um_syscall SYS_page_alloc envid va perm 0 0 s = Done (- E_NO_MEM) s' ∧
       ustep s s' (uo_spaces s) ∧ uo_short s 1) ∨
    (∃ q s', um_syscall SYS_page_alloc envid va perm 0 0 s = Done 0 s' ∧
       ustep s s' (set_entry pd va (Some (pte_entry q perm)) (uo_spaces s)) ∧
       0 < q < 65536 ∧ unused (uo_spaces s) q ∧ uo_count s' q <= 1 ∧
       (∀ o, 0 <= o < 4096 → uo_byte s' q o = 0) ∧
       (pd = uo_self s → ∀ f, has f perm = true → has f (uo_dir s' (PDX va)) = true));
  ul_map (s : S) srcva dstid dstva perm pd e : uo_inv s → uo_who s (s32 dstid) false = Some pd →
    valid_va srcva → valid_va dstva → 0 <= perm < 4096 →
    mine s !! PGNUM srcva = Some e → (has PTE_W perm = true → has PTE_W e = true) →
    uo_count s (PGNUM e) < 65535 →
    (∃ s', um_syscall SYS_page_map 0 srcva dstid dstva perm s = Done (- E_NO_MEM) s' ∧
       ustep s s' (uo_spaces s) ∧ uo_count s' (PGNUM e) = uo_count s (PGNUM e) ∧ uo_short s 0 ∧
       (pd = uo_self s → has PTE_P (uo_dir s (PDX dstva)) = false)) ∨
    (∃ s', um_syscall SYS_page_map 0 srcva dstid dstva perm s = Done 0 s' ∧
       ustep s s' (set_entry pd dstva (Some (pte_entry (PGNUM e) perm)) (uo_spaces s)) ∧
       uo_count s' (PGNUM e) <= uo_count s (PGNUM e) + 1 ∧
       (pd = uo_self s → ∀ f, has f perm = true → has f (uo_dir s' (PDX dstva)) = true));
  ul_unmap (s : S) va : uo_inv s → valid_va va →
    ∃ s', um_syscall SYS_page_unmap 0 va 0 0 0 s = Done 0 s' ∧
      ustep s s' (set_entry (uo_self s) va None (uo_spaces s))
}.

(** ** Consequences *)

Section laws.
Context {S : Type} `{!user_machine S, !user_view S, !user_laws S}.
Implicit Types (s : S) (va q e : Z).

Lemma usame_trans s1 s2 s3 : usame s1 s2 → usame s2 s3 → usame s1 s3.
Proof.
  intros H1 H2. split; [apply H2|intros; etrans; [by apply H2|by apply H1]..].
Qed.

Lemma usame_refl s : uo_inv s → usame s s.
Proof. by split. Qed.

Lemma usame_readable s s' va q e : usame s s' → readable s va q e → readable s' va q e.
Proof.
  intros Hs [R1 R2 R3 R4 R5]. split; try done.
  - unfold mine in *. by rewrite (sa_spaces _ _ Hs), (sa_self _ _ Hs).
  - by rewrite (sa_dir _ _ Hs) by by apply PDX_user.
Qed.

Lemma usame_writable s s' va q e : usame s s' → writable s va q e → writable s' va q e.
Proof.
  intros Hs [W1 W2 W3]. split; [by eapply usame_readable|done|].
  by rewrite (sa_dir _ _ Hs) by apply PDX_user, W1.
Qed.

(** Addresses within a page. *)
Lemma page_offset base i :
  0 <= base < UTOP → base mod 4096 = 0 → 0 <= i < 4096 →
  PGNUM (base + i) = PGNUM base ∧ PDX (base + i) = PDX base ∧ (base + i) mod 4096 = i ∧
  0 <= base + i < UTOP ∧ u32 (base + i) = base + i.
Proof.
  change UTOP with 4005560320. intros Hb Ha Hi. rewrite !PGNUM_div, !PDX_div. unfold u32. zlia.
Qed.

Lemma readable_at s base q e i :
  readable s base q e → base mod 4096 = 0 → 0 <= i < 4096 → readable s (base + i) q e.
Proof.
  intros [R1 R2 R3 R4 R5] Ha Hi. destruct (page_offset base i R1 Ha Hi) as (E1 & E2 & _ & E3 & _).
  split; rewrite ?E1, ?E2; done.
Qed.

Lemma writable_at s base q e i :
  writable s base q e → base mod 4096 = 0 → 0 <= i < 4096 → writable s (base + i) q e.
Proof.
  intros [W1 W2 W3] Ha Hi. split; [by apply readable_at|done|].
  by destruct (page_offset base i (rd_va _ _ _ _ W1) Ha Hi) as (_ & -> & _).
Qed.

Lemma load_at s base q e i :
  uo_inv s → readable s base q e → base mod 4096 = 0 → 0 <= i < 4096 →
  um_load8 (base + i) s = Done (uo_byte s q i) s.
Proof.
  intros Hi Hr Ha Ho. rewrite (ul_load s (base + i) q e) by (done || by apply readable_at).
  by destruct (page_offset base i (rd_va _ _ _ _ Hr) Ha Ho) as (_ & _ & -> & _).
Qed.

Lemma store_at s base q e i b :
  uo_inv s → writable s base q e → base mod 4096 = 0 → 0 <= i < 4096 →
  ∃ s', um_store8 (base + i) b s = Done tt s' ∧ usame s s' ∧
    ∀ q' o, 0 <= o < 4096 →
      uo_byte s' q' o = if decide (q' = q ∧ o = i) then u8 b else uo_byte s q' o.
Proof.
  intros Hi Hw Ha Ho. destruct (ul_store s (base + i) q e b Hi) as (s' & Hrun & Hs & Hb); [by apply writable_at|].
  exists s'. split; [done|]. split; [done|]. intros q' o Hoo. rewrite Hb by done.
  by destruct (page_offset base i (rd_va _ _ _ _ (wt_read _ _ _ _ Hw)) Ha Ho) as (_ & _ & -> & _).
Qed.

(** ** Copying a page *)

Definition word_at s q o : Z :=
  uo_byte s q o + 256 * uo_byte s q (o + 1) + 65536 * uo_byte s q (o + 2) + 16777216 * uo_byte s q (o + 3).

Lemma u32_at base i : 0 <= base < UTOP → 0 <= i < 8192 → u32 (base + i) = base + i.
Proof. change UTOP with 4005560320. intros. unfold u32. zlia. Qed.

Lemma uload32_at s base q e i :
  uo_inv s → readable s base q e → base mod 4096 = 0 → 0 <= i < 4093 →
  uload32 (base + i) s = Done (word_at s q i) s.
Proof.
  intros Hi Hr Ha Ho. pose proof (rd_va _ _ _ _ Hr) as Hb. unfold uload32.
  rewrite <- !Z.add_assoc, !u32_at by lia.
  assert (∀ k, 0 <= k < 4096 → um_load8 (base + k) s = Done (uo_byte s q k) s) as Hl by (intros; by eapply load_at).
  by rewrite (bind_Done _ _ _ _ _ (Hl i ltac:(lia))), (bind_Done _ _ _ _ _ (Hl (i + 1) ltac:(lia))),
    (bind_Done _ _ _ _ _ (Hl (i + 2) ltac:(lia))), (bind_Done _ _ _ _ _ (Hl (i + 3) ltac:(lia))).
Qed.

Lemma ustore32_at s base q e i v :
  uo_inv s → writable s base q e → base mod 4096 = 0 → 0 <= i < 4093 →
  ∃ s', ustore32 (base + i) v s = Done tt s' ∧ usame s s' ∧
    ∀ q' o, 0 <= o < 4096 →
      uo_byte s' q' o = if decide (q' = q ∧ i <= o < i + 4) then u8 (v / 256 ^ (o - i)) else uo_byte s q' o.
Proof.
  intros Hi Hw Ha Ho. pose proof (rd_va _ _ _ _ (wt_read _ _ _ _ Hw)) as Hb. unfold ustore32.
  rewrite <- !Z.add_assoc, !u32_at by lia.
  destruct (store_at s base q e i v Hi Hw Ha ltac:(lia)) as (s1 & R1 & S1 & B1).
  destruct (store_at s1 base q e (i + 1) (v / 256) (sa_inv _ _ S1) (usame_writable _ _ _ _ _ S1 Hw) Ha ltac:(lia))
    as (s2 & R2 & S2 & B2). pose proof (usame_trans _ _ _ S1 S2) as S2'.
  destruct (store_at s2 base q e (i + 2) (v / 65536) (sa_inv _ _ S2) (usame_writable _ _ _ _ _ S2' Hw) Ha ltac:(lia))
    as (s3 & R3 & S3 & B3). pose proof (usame_trans _ _ _ S2' S3) as S3'.
  destruct (store_at s3 base q e (i + 3) (v / 16777216) (sa_inv _ _ S3) (usame_writable _ _ _ _ _ S3' Hw) Ha ltac:(lia))
    as (s4 & R4 & S4 & B4). pose proof (usame_trans _ _ _ S3' S4) as S4'.
  exists s4. split; [by rewrite (bind_Done _ _ _ _ _ R1), (bind_Done _ _ _ _ _ R2), (bind_Done _ _ _ _ _ R3)|].
  split; [done|]. intros q' o Hoo. rewrite B4, B3, B2, B1 by done.
  destruct (decide (q' = q)) as [->|Hne]; [|by rewrite !decide_False by naive_solver].
  destruct (decide (o = i + 3)) as [->|H3]; [rewrite !decide_True by lia; do 2 f_equal; by replace (i + 3 - i) with 3 by lia|].
  rewrite (decide_False (P := _ ∧ o = i + 3)) by naive_solver.
  destruct (decide (o = i + 2)) as [->|H2]; [rewrite !decide_True by lia; do 2 f_equal; by replace (i + 2 - i) with 2 by lia|].
  rewrite (decide_False (P := _ ∧ o = i + 2)) by naive_solver.
  destruct (decide (o = i + 1)) as [->|H1]; [rewrite !decide_True by lia; do 2 f_equal; by replace (i + 1 - i) with 1 by lia|].
  rewrite (decide_False (P := _ ∧ o = i + 1)) by naive_solver.
  destruct (decide (o = i)) as [->|H0].
  - rewrite !decide_True by lia. by rewrite Z.sub_diag, Z.pow_0_r, Z.div_1_r.
  - by rewrite !decide_False by lia.
Qed.

Lemma word_byte s q i k : 0 <= k < 4 → u8 (word_at s q i / 256 ^ k) = uo_byte s q (i + k).
Proof.
  intros Hk. pose proof (ul_byte s q i). pose proof (ul_byte s q (i + 1)).
  pose proof (ul_byte s q (i + 2)). pose proof (ul_byte s q (i + 3)). unfold word_at.
  assert (k = 0 ∨ k = 1 ∨ k = 2 ∨ k = 3) as [->|[->|[->| ->]]] by lia.
  - change (256 ^ 0) with 1. rewrite Z.add_0_r. zlia.
  - change (256 ^ 1) with 256. zlia.
  - change (256 ^ 2) with 65536. zlia.
  - change (256 ^ 3) with 16777216. zlia.
Qed.

(** [rep movsl] from one page to another. *)
Lemma umovsl_run s src dst qs qd es ed (n : nat) i :
  uo_inv s → readable s src qs es → writable s dst qd ed → src mod 4096 = 0 → dst mod 4096 = 0 →
  qs ≠ qd → 0 <= i → i + 4 * Z.of_nat n <= 4096 →
  ∃ s', umovsl 1 n (dst + i) (src + i) s = Done tt s' ∧ usame s s' ∧
    ∀ q o, 0 <= o < 4096 →
      uo_byte s' q o = if decide (q = qd ∧ i <= o < i + 4 * Z.of_nat n) then uo_byte s qs o else uo_byte s q o.
Proof.
  intros Hi Hr Hw Ha Hb Hne Hi0. revert s i Hi Hr Hw Hi0. induction n as [|n IH]; intros s i Hi Hr Hw Hi0 Hle.
  { exists s. split; [done|]. split; [by apply usame_refl|]. intros q o Ho. by rewrite decide_False by lia. }
  pose proof (rd_va _ _ _ _ Hr) as Rs. pose proof (rd_va _ _ _ _ (wt_read _ _ _ _ Hw)) as Rd.
  destruct (ustore32_at s dst qd ed i (word_at s qs i) Hi Hw Hb ltac:(lia)) as (s1 & R1 & S1 & B1).
  destruct (IH s1 (i + 4) (sa_inv _ _ S1) (usame_readable _ _ _ _ _ S1 Hr) (usame_writable _ _ _ _ _ S1 Hw)
    ltac:(lia) ltac:(lia)) as (s2 & R2 & S2 & B2).
  exists s2. split; [|split; [by eapply usame_trans|]].
  - change (umovsl 1 (Datatypes.S n) ?d ?p) with
      (w ← uload32 p; ustore32 d w ;; umovsl 1 n (u32 (d + 4 * 1)) (u32 (p + 4 * 1))).
    rewrite (bind_Done _ _ _ _ _ (uload32_at s src qs es i Hi Hr Ha ltac:(lia))), (bind_Done _ _ _ _ _ R1).
    rewrite <- !Z.add_assoc, !u32_at by lia. exact R2.
  - intros q o Ho. rewrite B2, !B1 by done. rewrite (decide_False (P := qs = qd ∧ _)) by naive_solver.
    destruct (decide (q = qd)) as [->|Hq]; [|by rewrite !decide_False by naive_solver].
    destruct (decide (i <= o < i + 4)) as [H4|H4].
    + rewrite decide_False, !decide_True by lia. rewrite word_byte by lia. f_equal. lia.
    + destruct (decide (i + 4 <= o < i + 4 + 4 * Z.of_nat n)).
      * rewrite !decide_True by lia. done.
      * rewrite !decide_False by lia. done.
Qed.

Lemma umemmove_page s src dst qs qd es ed :
  uo_inv s → readable s src qs es → writable s dst qd ed → src mod 4096 = 0 → dst mod 4096 = 0 →
  PGNUM src ≠ PGNUM dst → qs ≠ qd →
  ∃ s', umemmove dst src PGSIZE s = Done tt s' ∧ usame s s' ∧
    (∀ o, 0 <= o < 4096 → uo_byte s' qd o = uo_byte s qs o) ∧
    (∀ q o, q ≠ qd → 0 <= o < 4096 → uo_byte s' q o = uo_byte s q o).
Proof.
  intros Hi Hr Hw Ha Hb Hp Hne.
  pose proof (rd_va _ _ _ _ Hr) as Rs. pose proof (rd_va _ _ _ _ (wt_read _ _ _ _ Hw)) as Rd.
  rewrite !PGNUM_div in Hp.
  destruct (umovsl_run s src dst qs qd es ed 1024 0 Hi Hr Hw Ha Hb Hne ltac:(lia) ltac:(lia)) as (s' & Hrun & Hs & HB).
  exists s'. split; [|split; [done|split]].
  - unfold umemmove. unfold PGSIZE. rewrite (u32_at src 4096) by lia.
    assert ((src <? dst) && (dst <? src + 4096) = false) as ->.
    { apply andb_false_iff. destruct (Z.ltb_spec src dst), (Z.ltb_spec dst (src + 4096)); auto. exfalso. apply Hp. zlia. }
    assert ((src mod 4 =? 0) && (dst mod 4 =? 0) && (4096 mod 4 =? 0) = true) as ->.
    { rewrite !andb_true_iff, !Z.eqb_eq. zlia. }
    change (Z.to_nat (4096 / 4)) with 1024%nat. by rewrite !Z.add_0_r in Hrun.
  - intros o Ho. rewrite HB by done. by rewrite decide_True by lia.
  - intros q o Hq Ho. rewrite HB by done. by rewrite decide_False by naive_solver.
Qed.
End laws.

(** ** Updates of one entry *)

Section entries.
Implicit Types (A : aspaces) (V : gmap Z Z) (pd va q : Z) (oe : option Z).

Lemma lookup_set_entry A pd va oe pd' :
  set_entry pd va oe A !! pd' =
    if decide (pd = pd') then partial_alter (λ _, oe) (PGNUM va) <$> A !! pd' else A !! pd'.
Proof. unfold set_entry. rewrite lookup_alter. by case_decide; subst. Qed.

Lemma unused_set A pd va oe q :
  unused A q → (∀ e, oe = Some e → PGNUM e ≠ q) → unused (set_entry pd va oe A) q.
Proof.
  intros Hu He pd' V n e HV Hn. rewrite lookup_set_entry in HV. case_decide; [|by eapply Hu].
  destruct (A !! pd') as [V'|] eqn:HV'; [|done]. injection HV as <-.
  rewrite lookup_partial_alter in Hn. case_decide; [by apply He|by eapply Hu].
Qed.

Lemma set_entry_twice A pd va oe oe' : set_entry pd va oe (set_entry pd va oe' A) = set_entry pd va oe A.
Proof.
  apply map_eq. intros pd'. rewrite !lookup_set_entry. case_decide; [|done].
  destruct (A !! pd') as [V|]; [|done]. simpl. f_equal. apply map_eq. intros n.
  rewrite !lookup_partial_alter. by case_decide.
Qed.

Lemma set_entry_comm A pd va va' oe oe' : PGNUM va ≠ PGNUM va' →
  set_entry pd va oe (set_entry pd va' oe' A) = set_entry pd va' oe' (set_entry pd va oe A).
Proof.
  intros Hne. apply map_eq. intros pd'. rewrite !lookup_set_entry. case_decide; [|done].
  destruct (A !! pd') as [V|]; [|done]. simpl. f_equal. apply map_eq. intros n.
  rewrite !lookup_partial_alter. repeat case_decide; congruence.
Qed.
End entries.

(** Flags of entries. *)
Lemma has_pow2 k x : 0 <= k → has (2 ^ k) x = Z.testbit x k.
Proof.
  intros Hk. unfold has. destruct (Z.testbit x k) eqn:E.
  - apply negb_true_iff, Z.eqb_neq. intros H. apply (f_equal (λ z, Z.testbit z k)) in H.
    rewrite Z.land_spec, E, Z.pow2_bits_true, Z.bits_0 in H by done. done.
  - apply negb_false_iff, Z.eqb_eq. apply Z.bits_inj'. intros i Hi. rewrite Z.land_spec, Z.bits_0.
    destruct (decide (i = k)) as [->|Hne]; [by rewrite E|]. rewrite Z.pow2_bits_false by done. apply andb_false_r.
Qed.

Lemma land_PU x : (PTE_PU =? Z.land x PTE_PU) = has PTE_P x && has PTE_U x.
Proof.
  change PTE_P with (2 ^ 0). change PTE_U with (2 ^ 2). rewrite !has_pow2 by lia.
  destruct (Z.testbit x 0 && Z.testbit x 2) eqn:E.
  - apply andb_true_iff in E as [E1 E2]. apply Z.eqb_eq. apply Z.bits_inj'. intros i Hi. rewrite Z.land_spec.
    destruct (decide (i = 0)) as [->|]; [by rewrite E1|]. destruct (decide (i = 2)) as [->|]; [by rewrite E2|].
    assert (Z.testbit PTE_PU i = false) as ->; [|by rewrite andb_false_r].
    destruct (decide (i = 1)) as [->|]; [done|]. apply Z.bits_above_log2; [done|]. change (Z.log2 PTE_PU) with 2. lia.
  - apply Z.eqb_neq. intros H. pose proof (f_equal (λ z, Z.testbit z 0) H) as H0.
    pose proof (f_equal (λ z, Z.testbit z 2) H) as H2. cbv beta in H0, H2. rewrite Z.land_spec in H0, H2.
    change (Z.testbit PTE_PU 0) with true in *. change (Z.testbit PTE_PU 2) with true in *.
    rewrite andb_true_r in H0, H2. by rewrite <- H0, <- H2 in E.
Qed.

Lemma entry_flag q perm f : 0 <= q < 65536 → 0 <= f < 4096 → has f perm = true → has f (pte_entry q perm) = true.
Proof. intros Hq Hf Hp. unfold pte_entry. by rewrite !has_lor, Hp, orb_true_r. Qed.

(** ** The page-fault handler *)

Section pgfault.
Context {S : Type} `{!user_machine S, !user_view S, !user_laws S}.
Implicit Types (s : S) (va q e : Z) (pd : Z) (oe : option Z).

Lemma mine_step s s' pd va oe :
  uo_inv s → ustep s s' (set_entry pd va oe (uo_spaces s)) →
  mine s' = if decide (pd = uo_self s) then partial_alter (λ _, oe) (PGNUM va) (mine s) else mine s.
Proof.
  intros Hi Hst. unfold mine. rewrite (us_spaces _ _ _ Hst), (us_self _ _ _ Hst), lookup_set_entry.
  destruct (ul_space s Hi) as [V ->]. by case_decide.
Qed.

Lemma mine_in_use s n e : mine s !! n = Some e → in_use_page s (PGNUM e).
Proof.
  unfold mine. intros He Hu. destruct (uo_spaces s !! uo_self s) as [V|] eqn:HV; [|done]. by eapply Hu.
Qed.

(** A page other than the one mapped by the step was in use before. *)
Lemma step_in_use s s' pd va oe q :
  ustep s s' (set_entry pd va oe (uo_spaces s)) → in_use_page s' q → (∀ e, oe = Some e → PGNUM e ≠ q) →
  in_use_page s q.
Proof. intros Hst Hu He H. apply Hu. rewrite (us_spaces _ _ _ Hst). by apply unused_set. Qed.

Lemma step_readable s s' pd va oe va' q e :
  uo_inv s → ustep s s' (set_entry pd va oe (uo_spaces s)) → PGNUM va ≠ PGNUM va' →
  readable s va' q e → readable s' va' q e.
Proof.
  intros Hi Hst Hne [R1 R2 R3 R4 R5]. split; try done.
  - rewrite (mine_step s s' pd va oe) by done. case_decide; [|done]. by rewrite lookup_partial_alter_ne.
  - apply (us_dir _ _ _ Hst); [by apply PDX_user| |done].
    destruct (ul_entry s _ _ Hi R2) as (_ & HP & _). rewrite PGNUM_div, Zdiv.Zdiv_Zdiv in HP by lia.
    by rewrite PDX_div, Z.mod_small in * by (change UTOP with 4005560320 in R1; zlia).
Qed.

Lemma PDX_PGNUM va : 0 <= va < UTOP → PGNUM va / 1024 = PDX va.
Proof. change UTOP with 4005560320. intros. rewrite PGNUM_div, PDX_div. zlia. Qed.

Lemma round_page va : 0 <= va < UTOP →
  let p := ROUNDDOWN va PGSIZE in valid_va p ∧ PGNUM p = PGNUM va ∧ PDX p = PDX va ∧ u32 p = p.
Proof.
  unfold valid_va. change UTOP with 4005560320. intros Hv. unfold ROUNDDOWN, PGSIZE.
  rewrite (u32_id va), !PGNUM_div, !PDX_div by lia. unfold u32. zlia.
Qed.

(** A checked stub whose call returns a result that is not positive. *)
Lemma usyscall_run num check a1 a2 a3 a4 a5 r s s' :
  um_syscall num (u32 a1) (u32 a2) (u32 a3) (u32 a4) (u32 a5) s = Done r s' → r <= 0 →
  usyscall num check a1 a2 a3 a4 a5 s = Done r s'.
Proof.
  intros H Hr. unfold usyscall. rewrite (bind_Done _ _ _ _ _ H), (proj2 (Z.ltb_ge 0 r)) by lia.
  by rewrite andb_false_r.
Qed.

Lemma PFTEMP_valid : valid_va PFTEMP.
Proof. unfold valid_va. by_compute. Qed.

(** The checks at the start of the handler. *)
Lemma pgfault_checks s addr err q e :
  uo_inv s → readable s addr q e → has FEC_WR err = true → has PTE_COW e = true →
  pgfault addr err s =
    (r ← usys_page_alloc 0 PFTEMP PTE_PUW;
     if r <? 0 then upanic "page fault handler failed by: %d" (-3) else
     umemmove PFTEMP (ROUNDDOWN addr PGSIZE) PGSIZE ;;
     r ← usys_page_map 0 PFTEMP 0 (ROUNDDOWN addr PGSIZE) PTE_PUW;
     if r <? 0 then upanic "page fault handler failed by: %d" (-4) else
     r ← usys_page_unmap 0 PFTEMP;
     if r <? 0 then upanic "page fault handler failed by: %d" (-5) else mret tt) s.
Proof.
  intros Hi [R1 R2 R3 R4 R5] Hw Hc. destruct (ul_entry s _ _ Hi R2) as (HP & HD & _).
  rewrite PDX_PGNUM in HD by done.
  assert (0 <= PGNUM addr < PGNUM UTOP) as Hn.
  { rewrite !PGNUM_div. change UTOP with 4005560320 in *. zlia. }
  pose proof (ul_vpt s (PGNUM addr) Hi Hn) as Hv. rewrite PDX_PGNUM, HD, R5, R2 in Hv by done.
  change (vpt (PGNUM addr) s = Done e s) in Hv.
  unfold pgfault. rewrite (bind_Done _ _ _ _ _ Hv), (bind_Done _ _ _ _ _ (ul_vpd s (PDX addr) Hi (PDX_user addr R1))).
  rewrite land_PU, HD, R5. cbn [andb negb]. rewrite (bind_Done _ _ _ _ _ Hv), HP, Hw, Hc. done.
Qed.

(** The result of a successful copy of the page of [addr] to the page [q]. *)
Record copied s s' (addr q0 q : Z) : Prop := {
  cp_inv : uo_inv s';
  cp_fresh : unused (uo_spaces s) q;
  cp_spaces : uo_spaces s' = set_entry (uo_self s) PFTEMP None
    (set_entry (uo_self s) addr (Some (pte_entry q PTE_PUW)) (uo_spaces s));
  cp_self : uo_self s' = uo_self s;
  cp_who id check : uo_who s' id check = uo_who s id check;
  cp_lib : um_lib s' = um_lib s;
  cp_page o : 0 <= o < 4096 → uo_byte s' q o = uo_byte s q0 o;
  cp_others q' o : in_use_page s' q' → q' ≠ q → 0 <= o < 4096 → uo_byte s' q' o = uo_byte s q' o;
  cp_writable : writable s' addr q (pte_entry q PTE_PUW)
}.

(** From the allocation on: [s1] is the state after it. *)
Lemma pgfault_copy s s1 addr q0 e q :
  uo_inv s → readable s addr q0 e → PGNUM addr ≠ PGNUM PFTEMP →
  ustep s s1 (set_entry (uo_self s) PFTEMP (Some (pte_entry q PTE_PUW)) (uo_spaces s)) →
  0 < q < 65536 → unused (uo_spaces s) q → uo_count s1 q <= 1 →
  (∀ f, has f PTE_PUW = true → has f (uo_dir s1 (PDX PFTEMP)) = true) →
  ∃ s4, (umemmove PFTEMP (ROUNDDOWN addr PGSIZE) PGSIZE ;;
     r ← usys_page_map 0 PFTEMP 0 (ROUNDDOWN addr PGSIZE) PTE_PUW;
     if r <? 0 then upanic "page fault handler failed by: %d" (-4) else
     r ← usys_page_unmap 0 PFTEMP;
     if r <? 0 then upanic "page fault handler failed by: %d" (-5) else mret tt) s1 = Done tt s4 ∧
    copied s s4 addr q0 q.
Proof.
  intros Hi Hr Hne Hst Hq Hu Hc Hf. pose proof (us_inv _ _ _ Hst) as Hi1.
  pose proof (rd_va _ _ _ _ Hr) as Hva. destruct (round_page addr Hva) as ([Hp Hpa] & Ep & Ed & E32).
  set (page := ROUNDDOWN addr PGSIZE) in *. pose proof (us_self _ _ _ Hst) as Hself1.
  assert (PGNUM (pte_entry q PTE_PUW) = q) as HPG by (apply entry_PGNUM; [lia|by_compute]).
  assert (∀ f, 0 <= f < 4096 → has f PTE_PUW = true → has f (pte_entry q PTE_PUW) = true) as Hfl
    by (intros; apply entry_flag; [lia|done|done]).
  assert (readable s page q0 e) as Hr0.
  { destruct Hr as [R1 R2 R3 R4 R5]. split; rewrite ?Ep, ?Ed; done. }
  assert (readable s1 page q0 e) as Hr1.
  { eapply step_readable; [exact Hi|exact Hst| |exact Hr0]. rewrite Ep. congruence. }
  assert (writable s1 PFTEMP q (pte_entry q PTE_PUW)) as Hw1.
  { split; [split|by apply Hfl|by apply Hf]; [apply PFTEMP_valid| |done|by apply Hfl|by apply Hf].
    rewrite (mine_step s s1 _ _ _ Hi Hst), decide_True by done. apply lookup_partial_alter_eq. }
  assert (q0 ≠ q) as Hqq.
  { intros ->. destruct (ul_space s Hi) as [V HV]. pose proof (rd_entry _ _ _ _ Hr) as He. unfold mine in He.
    rewrite HV in He. by apply (Hu _ _ _ _ HV He), (rd_page _ _ _ _ Hr). }
  destruct (umemmove_page s1 page PFTEMP q0 q e (pte_entry q PTE_PUW) Hi1 Hr1 Hw1 Hpa)
    as (s2 & R2 & S2 & B2 & B2'); [by_compute|by rewrite Ep|done|].
  pose proof (sa_inv _ _ S2) as Hi2. pose proof (usame_readable _ _ _ _ _ S2 Hr1) as Hr2.
  pose proof (usame_writable _ _ _ _ _ S2 Hw1) as Hw2. pose proof (sa_self _ _ S2) as Hself2.
  rewrite (bind_Done _ _ _ _ _ R2).
  destruct (ul_map s2 PFTEMP 0 page PTE_PUW (uo_self s2) (pte_entry q PTE_PUW) Hi2
    (ul_who s2 false Hi2) PFTEMP_valid (conj Hp Hpa) ltac:(by_compute) (rd_entry _ _ _ _ (wt_read _ _ _ _ Hw2))
    (λ _, wt_write _ _ _ _ Hw2) ltac:(rewrite HPG, (sa_count _ _ S2); lia))
    as [(? & _ & _ & _ & _ & Hbad)|(s3 & R3 & S3 & C3 & F3)].
  { destruct (ul_entry s2 _ _ Hi2 (rd_entry _ _ _ _ Hr2)) as (_ & HD & _). rewrite PDX_PGNUM in HD by done.
    by rewrite Hbad in HD. }
  rewrite HPG in S3. pose proof (us_inv _ _ _ S3) as Hi3. pose proof (us_self _ _ _ S3) as Hself3.
  erewrite bind_Done; [|apply usyscall_run; [rewrite E32; exact R3|done]]. change (0 <? 0) with false. cbv iota.
  destruct (ul_unmap s3 PFTEMP Hi3 PFTEMP_valid) as (s4 & R4 & S4).
  erewrite bind_Done; [|apply usyscall_run; [exact R4|done]]. change (0 <? 0) with false. cbv iota.
  exists s4. split; [done|]. pose proof (us_inv _ _ _ S4) as Hi4.
  assert (set_entry (uo_self s) page = set_entry (uo_self s) addr) as Epage by (unfold set_entry; by rewrite Ep).
  assert (mine s3 !! PGNUM addr = Some (pte_entry q PTE_PUW)) as Hm3.
  { rewrite (mine_step s2 s3 _ _ _ Hi2 S3), decide_True, Ep by done. apply lookup_partial_alter_eq. }
  assert (in_use_page s3 q) as Hu3 by (rewrite <- HPG; by eapply mine_in_use).
  assert (in_use_page s2 q) as Hu2.
  { rewrite <- HPG. eapply mine_in_use. apply Hw2. }
  split; try done.
  - rewrite (us_spaces _ _ _ S4), (us_spaces _ _ _ S3), (sa_spaces _ _ S2), (us_spaces _ _ _ Hst).
    rewrite Hself3, Hself2, Hself1, Epage. rewrite (set_entry_comm _ _ addr PFTEMP) by done. by rewrite set_entry_twice.
  - by rewrite (us_self _ _ _ S4), Hself3, Hself2.
  - intros. by rewrite (us_who _ _ _ S4), (us_who _ _ _ S3), (sa_who _ _ S2), (us_who _ _ _ Hst).
  - by rewrite (us_lib _ _ _ S4), (us_lib _ _ _ S3), (sa_lib _ _ S2), (us_lib _ _ _ Hst).
  - intros o Ho. rewrite (us_byte _ _ _ S4), (us_byte _ _ _ S3), B2 by done.
    apply (us_byte _ _ _ Hst); [|done]. rewrite <- (rd_page _ _ _ _ Hr). eapply mine_in_use. apply Hr.
  - intros q' o Hu4 Hq' Ho.
    assert (in_use_page s3 q') as Hu3' by (eapply step_in_use; [exact S4|done|done]).
    assert (in_use_page s2 q') as Hu2' by (eapply step_in_use; [exact S3|done|intros ? [= <-]; congruence]).
    assert (in_use_page s1 q') as Hu1' by (unfold in_use_page in *; by rewrite <- (sa_spaces _ _ S2)).
    assert (in_use_page s q') as Hu0' by (eapply step_in_use; [exact Hst|done|intros ? [= <-]; congruence]).
    rewrite (us_byte _ _ _ S4), (us_byte _ _ _ S3), B2' by done. by apply (us_byte _ _ _ Hst).
  - assert (∀ f, has f PTE_PUW = true → has f (uo_dir s4 (PDX addr)) = true) as HF4.
    { intros f Hff. rewrite <- Ed. apply (us_dir _ _ _ S4); [rewrite Ed; by apply PDX_user|by apply F3|by apply F3]. }
    split; [split|by apply Hfl|by apply HF4]; [done| |done|by apply Hfl|by apply HF4].
    rewrite (mine_step s3 s4 _ _ _ Hi3 S4), decide_True by done. by rewrite lookup_partial_alter_ne.
Qed.

Lemma pgfault_run s addr err q0 e :
  uo_inv s → readable s addr q0 e → PGNUM addr ≠ PGNUM PFTEMP →
  has FEC_WR err = true → has PTE_COW e = true →
  (∃ s', pgfault addr err s = Exit (UPanic "page fault handler failed by: %d" (-3)) s' ∧
     ustep s s' (uo_spaces s) ∧ uo_short s 1) ∨
  (∃ s' q, pgfault addr err s = Done tt s' ∧ copied s s' addr q0 q).
Proof.
  intros Hi Hr Hne Hw Hc. rewrite (pgfault_checks s addr err q0 e) by done.
  destruct (ul_alloc s 0 (uo_self s) PFTEMP PTE_PUW Hi (ul_who s true Hi) PFTEMP_valid eq_refl)
    as [(s' & Hrun & Hst & Hsh)|(q & s1 & Hrun & Hst & Hq & Hu & Hcn & _ & Hf)].
  - left. exists s'. split; [|done]. erewrite bind_Done; [|apply usyscall_run; [exact Hrun|done]]. done.
  - right. destruct (pgfault_copy s s1 addr q0 e q) as (s4 & Hrun4 & Hcp); try done; [by apply Hf|].
    exists s4, q. split; [|done]. erewrite bind_Done; [|apply usyscall_run; [exact Hrun|done]]. exact Hrun4.
Qed.
End pgfault.

(** ** Sharing a page with a child *)

(** The permissions with which [duppage] maps a page whose entry is [e]. *)
Definition shares_cow (e : Z) : bool := has (Z.lor PTE_W PTE_COW) e.
Definition dup_perm (e : Z) : Z :=
  if shares_cow e then Z.land (Z.lor (PGOFF e) PTE_COW) (Z.lnot PTE_W) else PGOFF e.

Section duppage.
Context {S : Type} `{!user_machine S, !user_view S, !user_laws S}.
Implicit Types (s : S) (q e : Z) (pd : Z).

Lemma PGOFF_range e : 0 <= PGOFF e < 4096.
Proof. unfold PGOFF. change 0xFFF with (Z.ones 12). rewrite Z.land_ones by lia. apply Z.mod_pos_bound. lia. Qed.

Lemma dup_perm_range e : 0 <= dup_perm e < 4096.
Proof.
  unfold dup_perm. destruct (shares_cow e); [|apply PGOFF_range].
  assert (0 <= Z.lor (PGOFF e) PTE_COW < 4096) as Hr by (apply (lor_range 12); [lia|apply PGOFF_range|by_compute]).
  set (y := Z.lor _ _) in *. clearbody y.
  assert (Z.land y (Z.lnot PTE_W) mod 4096 = Z.land y (Z.lnot PTE_W)) as <-; [|apply Z.mod_pos_bound; lia].
  change 4096 with (2 ^ 12). rewrite <- Z.land_ones by lia.
  rewrite <- Z.land_assoc, (Z.land_comm (Z.lnot _)), Z.land_assoc, Z.land_ones by lia.
  by rewrite Z.mod_small by (change (2 ^ 12) with 4096; lia).
Qed.

Lemma dup_perm_W e : has PTE_W (dup_perm e) = false.
Proof.
  unfold dup_perm. destruct (shares_cow e) eqn:E.
  - unfold has. by rewrite <- Z.land_assoc, (Z.land_comm (Z.lnot _)), Z.land_lnot_diag, Z.land_0_r.
  - unfold shares_cow, has in *. apply negb_false_iff, Z.eqb_eq in E. apply negb_false_iff, Z.eqb_eq.
    rewrite Z.land_lor_distr_r in E. apply Z.lor_eq_0_iff in E as [E _]. unfold PGOFF.
    by rewrite <- Z.land_assoc, (Z.land_comm 0xFFF).
Qed.

Lemma dup_entry_W q e : 0 <= q < 65536 → has PTE_W (pte_entry q (dup_perm e)) = false.
Proof.
  intros Hq. unfold pte_entry. rewrite !has_lor, dup_perm_W, page2pa_mul by lia.
  unfold PTE_W at 1. by rewrite has_page by lia.
Qed.

(** A page that was writable or copy-on-write is shared copy-on-write. *)
Lemma dup_entry_COW q e :
  0 <= q < 65536 → has PTE_W e = true ∨ has PTE_COW e = true → has PTE_COW (pte_entry q (dup_perm e)) = true.
Proof.
  intros Hq Hc. apply entry_flag; [done|by_compute|].
  assert (shares_cow e = true) as Hs.
  { unfold shares_cow, has in *. rewrite Z.land_lor_distr_r. apply negb_true_iff, Z.eqb_neq. intros E.
    apply Z.lor_eq_0_iff in E as [E1 E2]. rewrite E1, E2 in Hc. by destruct Hc. }
  unfold dup_perm. rewrite Hs. change PTE_COW with (2 ^ 11) at 1. rewrite has_pow2 by lia.
  rewrite Z.land_spec, Z.lor_spec. change (Z.testbit PTE_COW 11) with true. rewrite orb_true_r. done.
Qed.

(** The calls of [duppage], after its checks. *)
Lemma duppage_checks s envid pn q e :
  uo_inv s → 0 <= pn < PGNUM UTOP → readable s (PGNUM2LA pn) q e →
  duppage envid pn s =
    (usys_page_map 0 (PGNUM2LA pn) envid (PGNUM2LA pn) (dup_perm e) ;;
     if shares_cow e then
       pte ← vpt pn;
       usys_page_map 0 (PGNUM2LA pn) 0 (PGNUM2LA pn) (Z.land (Z.lor (PGOFF pte) PTE_COW) (Z.lnot PTE_W)) ;;
       mret 0
     else mret 0) s.
Proof.
  intros Hi Hn [R1 R2 R3 R4 R5].
  assert (PGNUM (PGNUM2LA pn) = pn) as Epn.
  { unfold PGNUM2LA, PTXSHIFT. rewrite PGNUM_div, Z.shiftl_mul_pow2 by lia. by apply Z.div_mul. }
  pose proof (PDX_PGNUM _ R1) as Ed. rewrite Epn in Ed, R2. destruct (ul_entry s _ _ Hi R2) as (HP & HD & _).
  rewrite <- Ed in R5. pose proof (ul_vpt s pn Hi Hn) as Hv. rewrite HD, R5, R2 in Hv.
  change (vpt pn s = Done e s) in Hv. change (PGNUM UTOP) with 977920 in Hn.
  assert (Z.shiftr pn PT_DIGITS = pn / 1024) as Es by (unfold PT_DIGITS; by rewrite Z.shiftr_div_pow2 by lia).
  assert (0 <= pn / 1024 < PDX UTOP) as Hd by (change (PDX UTOP) with 955; zlia).
  unfold duppage. rewrite Es, (bind_Done _ _ _ _ _ (ul_vpd s _ Hi Hd)), land_PU, HD, R5. cbn [andb negb].
  rewrite (bind_Done _ _ _ _ _ Hv), land_PU, HP, R4. cbn [andb negb]. rewrite (bind_Done _ _ _ _ _ Hv).
  unfold dup_perm. fold (shares_cow e). destruct (shares_cow e); cbn [negb]; by rewrite (bind_Done _ _ _ _ _ Hv).
Qed.

(** The result of sharing page [pn] of entry [e] with the space [pd]; [mapped]
    says whether there was memory for the child's page table. *)
Record shared s s' (pd pn e : Z) (mapped : bool) : Prop := {
  sh_inv : uo_inv s';
  sh_spaces :
    let E := Some (pte_entry (PGNUM e) (dup_perm e)) in
    let child A := if mapped then set_entry pd (PGNUM2LA pn) E A else A in
    uo_spaces s' =
      if shares_cow e then set_entry (uo_self s) (PGNUM2LA pn) E (child (uo_spaces s))
      else child (uo_spaces s);
  sh_self : uo_self s' = uo_self s;
  sh_who id check : uo_who s' id check = uo_who s id check;
  sh_lib : um_lib s' = um_lib s;
  sh_bytes q o : in_use_page s' q → 0 <= o < 4096 → uo_byte s' q o = uo_byte s q o
}.

Lemma PGNUM2LA_valid pn : 0 <= pn < PGNUM UTOP →
  valid_va (PGNUM2LA pn) ∧ u32 (PGNUM2LA pn) = PGNUM2LA pn ∧ PGNUM (PGNUM2LA pn) = pn.
Proof.
  change (PGNUM UTOP) with 977920. unfold valid_va, PGNUM2LA, PTXSHIFT. change UTOP with 4005560320.
  intros. rewrite PGNUM_div, Z.shiftl_mul_pow2 by lia. change (2 ^ 12) with 4096. unfold u32. zlia.
Qed.

Lemma usyscall_map s s' srcva dstid dstva perm r :
  um_syscall SYS_page_map 0 srcva (u32 dstid) dstva perm s = Done r s' → r <= 0 →
  u32 srcva = srcva → u32 dstva = dstva → 0 <= perm < 4096 →
  usys_page_map 0 srcva dstid dstva perm s = Done r s'.
Proof.
  intros H Hr E1 E2 Hp. apply usyscall_run; [|done]. by rewrite E1, E2, (u32_id perm) by lia.
Qed.

(** The second call of [duppage] marks the caller's own mapping. *)
Lemma duppage_own s pn q e :
  uo_inv s → 0 <= pn < PGNUM UTOP → readable s (PGNUM2LA pn) q e → shares_cow e = true →
  uo_count s (PGNUM e) < 65535 →
  ∃ s', (pte ← vpt pn;
     usys_page_map 0 (PGNUM2LA pn) 0 (PGNUM2LA pn) (Z.land (Z.lor (PGOFF pte) PTE_COW) (Z.lnot PTE_W)) ;;
     mret 0) s = Done 0 s' ∧
    ustep s s' (set_entry (uo_self s) (PGNUM2LA pn) (Some (pte_entry (PGNUM e) (dup_perm e))) (uo_spaces s)).
Proof.
  intros Hi Hn [R1 R2 R3 R4 R5] Hc Hcount. destruct (PGNUM2LA_valid pn Hn) as (Hv & E32 & Epn).
  pose proof (PDX_PGNUM _ R1) as Ed. destruct (ul_entry s _ _ Hi R2) as (HP & HD & _).
  pose proof (ul_vpt s pn Hi Hn) as Hvpt. rewrite Epn in Ed, HD. rewrite HD, Ed, R5, <- Epn in Hvpt at 1.
  rewrite Epn in R2. rewrite R2 in Hvpt. change (vpt (PGNUM (PGNUM2LA pn)) s = Done e s) in Hvpt. rewrite Epn in Hvpt.
  rewrite (bind_Done _ _ _ _ _ Hvpt).
  assert (Z.land (Z.lor (PGOFF e) PTE_COW) (Z.lnot PTE_W) = dup_perm e) as -> by (unfold dup_perm; by rewrite Hc).
  destruct (ul_map s (PGNUM2LA pn) 0 (PGNUM2LA pn) (dup_perm e) (uo_self s) e Hi (ul_who s false Hi) Hv Hv
    (dup_perm_range e) ltac:(by rewrite Epn) ltac:(by rewrite dup_perm_W) Hcount) as [(? & _ & _ & _ & _ & Hbad)|(s' & Hrun & Hst & _)].
  - rewrite Ed, Hbad in HD by done. done.
  - exists s'. split; [|done]. erewrite bind_Done; [done|].
    apply usyscall_map; [exact Hrun|done|done|done|apply dup_perm_range].
Qed.

Lemma duppage_run s envid pd pn q e :
  uo_inv s → 0 <= pn < PGNUM UTOP → readable s (PGNUM2LA pn) q e →
  uo_who s (s32 (u32 envid)) false = Some pd → pd ≠ uo_self s → uo_count s (PGNUM e) < 65534 →
  ∃ s' mapped, duppage envid pn s = Done 0 s' ∧ shared s s' pd pn e mapped ∧ (mapped = false → uo_short s 0).
Proof.
  intros Hi Hn Hr Hwho Hpd Hcount. destruct (PGNUM2LA_valid pn Hn) as (Hv & E32 & Epn).
  rewrite (duppage_checks s envid pn q e Hi Hn Hr).
  assert (∃ s1 (mapped : bool), usys_page_map 0 (PGNUM2LA pn) envid (PGNUM2LA pn) (dup_perm e) s = Done (if mapped then 0 else - E_NO_MEM) s1 ∧
    ustep s s1 (if mapped then set_entry pd (PGNUM2LA pn) (Some (pte_entry (PGNUM e) (dup_perm e))) (uo_spaces s) else uo_spaces s) ∧
    uo_count s1 (PGNUM e) < 65535 ∧ (mapped = false → uo_short s 0) ∧ readable s1 (PGNUM2LA pn) q e)
    as (s1 & mapped & R1 & S1 & C1 & Hm & Hr1).
  { destruct (ul_map s (PGNUM2LA pn) (u32 envid) (PGNUM2LA pn) (dup_perm e) pd e Hi Hwho Hv Hv
      (dup_perm_range e) (rd_entry _ _ _ _ Hr) ltac:(by rewrite dup_perm_W) ltac:(lia))
      as [(s1 & Hrun & Hst & Hc & Hsh & _)|(s1 & Hrun & Hst & Hc & _)].
    - exists s1, false. split; [apply usyscall_map; try done; apply dup_perm_range|]. split; [done|]. split; [lia|]. split; [done|].
      destruct Hr as [Q1 Q2 Q3 Q4 Q5]. split; try done.
      + unfold mine in *. by rewrite (us_spaces _ _ _ Hst), (us_self _ _ _ Hst).
      + apply (us_dir _ _ _ Hst); [by apply PDX_user| |done].
        destruct (ul_entry s _ _ Hi Q2) as (_ & HD & _). by rewrite PDX_PGNUM in HD.
    - exists s1, true. split; [apply usyscall_map; try done; apply dup_perm_range|]. split; [done|]. split; [lia|]. split; [done|].
      destruct Hr as [Q1 Q2 Q3 Q4 Q5]. split; try done.
      + rewrite (mine_step s s1 _ _ _ Hi Hst), decide_False by done. done.
      + apply (us_dir _ _ _ Hst); [by apply PDX_user| |done].
        destruct (ul_entry s _ _ Hi Q2) as (_ & HD & _). by rewrite PDX_PGNUM in HD. }
  rewrite (bind_Done _ _ _ _ _ R1). pose proof (us_inv _ _ _ S1) as Hi1.
  assert (PGNUM (pte_entry (PGNUM e) (dup_perm e)) = PGNUM e) as HPG.
  { apply entry_PGNUM; [|apply dup_perm_range]. by apply (ul_page s (PGNUM (PGNUM2LA pn))), Hr. }
  assert (∀ q', in_use_page s1 q' → q' ≠ PGNUM e → in_use_page s q') as Hback.
  { intros q' Hu Hne H. apply Hu. rewrite (us_spaces _ _ _ S1). destruct mapped; [|done].
    apply unused_set; [done|]. intros ? [= <-]. congruence. }
  destruct (shares_cow e) eqn:Hcow.
  - destruct (duppage_own s1 pn q e Hi1 Hn Hr1 Hcow C1) as (s2 & R2 & S2). exists s2, mapped.
    split; [done|]. split; [|done]. split; rewrite ?Hcow.
    + apply S2.
    + cbv zeta. by rewrite (us_spaces _ _ _ S2), (us_spaces _ _ _ S1), (us_self _ _ _ S1).
    + by rewrite (us_self _ _ _ S2), (us_self _ _ _ S1).
    + intros. by rewrite (us_who _ _ _ S2), (us_who _ _ _ S1).
    + by rewrite (us_lib _ _ _ S2), (us_lib _ _ _ S1).
    + intros q' o Hu Ho. destruct (decide (q' = PGNUM e)) as [->|Hne].
      * rewrite (us_byte _ _ _ S2) by (done || (eapply mine_in_use; apply Hr1)).
        apply (us_byte _ _ _ S1); [eapply mine_in_use; apply Hr|done].
      * assert (in_use_page s1 q') as Hu1 by (eapply step_in_use; [exact S2|done|intros ? [= <-]; congruence]).
        rewrite (us_byte _ _ _ S2) by done. apply (us_byte _ _ _ S1); [by apply Hback|done].
  - exists s1, mapped. split; [done|]. split; [|done]. split; rewrite ?Hcow; try apply S1.
    intros q' o Hu Ho. apply (us_byte _ _ _ S1); [|done].
    destruct (decide (q' = PGNUM e)) as [->|Hne]; [eapply mine_in_use; apply Hr|by apply Hback].
Qed.
End duppage.
