(* ===== verification/UserKernel.v ===== *)
(** * User programs on the kernel

    The machine of UserLib.v, implemented by the kernel: a system call is the
    trap of its [int] instruction, run through [trap] to the return to user mode,
    and a load or store goes through the page tables that CR3 designates, with
    the checks the processor makes in user mode.  The laws of CopyOnWrite.v hold
    of it, and with them the theorems on lib/fork.c. *)

From S2P Require Import Prelude Machine Spinlock PageAlloc Pmap UserMem Env Sched Syscall PageMap.
From S2P Require Import Spaces VmCalls Trap UserLib CopyOnWrite.
From stdpp Require Import base numbers list gmap fin_maps sets strings.

Local Open Scope Z_scope.

(** ** The machine *)

(** The kernel and the hardware, and the variables of the library. *)
Record umach : Type := mkUmach { uk : kstate; ul : ulib }.

Definition user_env (s : kstate) : option (Z * Env) :=
  c ← cpus s !! this_cpu s; cur ← cpu_env c; x ← envs s !! cur; Some (cur, x).

(** The frame of a system call: its number and arguments are in registers. *)
Definition call_frame (x : Env) (num a1 a2 a3 a4 a5 : Z) : Trapframe :=
  let r := tf_regs (env_tf x) in
  set_tf_regs (mkPushRegs a4 a5 (reg_ebp r) (reg_oesp r) a3 a1 a2 num)
    (set_tf_trapno T_SYSCALL (set_tf_cs (Z.lor GD_UT 3) (env_tf x))).

Definition user_syscall (num a1 a2 a3 a4 a5 : Z) : comp umach uexit Z := λ m,
  match user_env (uk m) with
  | None => Exit (UKernel NoFuel) m
  | Some (cur, x) =>
      match trap (call_frame x num a1 a2 a3 a4 a5) (uk m) with
      | Exit (UserMode e) s' =>
          if e =? cur then
            match envs s' !! cur with
            | Some x' => Done (s32 (reg_eax (tf_regs (env_tf x')))) (mkUmach s' (ul m))
            | None => Exit (UKernel NoFuel) m
            end
          else Exit (UBlocked e) (mkUmach s' (ul m))
      | Exit k s' => Exit (UKernel k) (mkUmach s' (ul m))
      | Done _ s' => Exit (UKernel NoFuel) (mkUmach s' (ul m))
      end
  end.

(** The translation of an access in user mode. *)
Definition user_mmu (s : kstate) (va : Z) (w : bool) : option Z :=
  pa ← cr3 s !! this_cpu s;
  let pd := PGNUM pa in
  let pde := pde_of s pd (PDX va) in
  let pte := pte_of s pd va in
  if has PTE_P pde && has PTE_P pte && (has PTE_U pde && has PTE_U pte) &&
     (negb w || has PTE_W pde && has PTE_W pte)
  then Some (PGNUM pte * 4096 + PGOFF va) else None.

#[global] Instance kernel_machine : user_machine umach := {
  um_syscall := user_syscall;
  um_load8 va := λ m, match user_mmu (uk m) va false with
                      | Some pa => Done (mget (mem (uk m)) pa) m
                      | None => Exit (UFault va) m
                      end;
  um_store8 va v := λ m, match user_mmu (uk m) va true with
                         | Some pa => Done tt (mkUmach (set_mem (<[pa := u8 v]> (mem (uk m))) (uk m)) (ul m))
                         | None => Exit (UFault va) m
                         end;
  um_lib := ul;
  um_set_lib l m := mkUmach (uk m) l;
  um_env i m := default zero_env (envs (uk m) !! i)
}.

(** ** The invariant between two steps of a user program *)

(** Environment [cur], described by [x], runs in the space [pd]; the kernel is not
    active and the address spaces are consistent. *)
Record running (s : kstate) (fl pds : list Z) (c : Cpu) (cur : Z) (x : Env) (pd : Z) : Prop := {
  ru_call : in_call s c cur x;
  ru_status : env_status x = ENV_RUNNING;
  ru_pgdir : env_pgdir x = pgdir_kva pd;
  ru_space : pd ∈ pds;
  ru_cr3 : cr3 s !! this_cpu s = Some (pd * 4096);
  ru_lock : kernel_lock s = mkSpinlock 0 None;
  ru_panic : panicstr s = false;
  ru_spaces : spaces s fl pds;
  ru_housed : housed s pds;
  ru_self : pde_of s pd self_index = self_entry pd
}.

Section kernel.
Implicit Types (s : kstate) (c : Cpu) (x y : Env) (fl pds : list Z) (pd va q cur : Z) (l : ulib).

(** States that agree on memory and on the allocator. *)
Lemma spaces_ext s s' fl pds :
  mem s' = mem s → pages s' = pages s → page_free_list s' = page_free_list s → npages s' = npages s →
  spaces s fl pds → spaces s' fl pds.
Proof.
  intros Hm Hp Hf Hn Hs. apply (spaces_frame s s' fl fl pds Hs).
  - by apply (pages_wf_ext s); [apply Hs|..].
  - apply Hs.
  - done.
  - intros q _. by rewrite Hm.
  - by left.
  - rewrite Hp. apply Hs.
Qed.

Lemma view_mem s s' pd : mem s' = mem s → view s' pd = view s pd.
Proof. intros H. apply view_ext. intros n _. unfold pte_of, pte_loc, pt_of, pde_of. by rewrite H. Qed.
Lemma abstract_mem s s' pds : mem s' = mem s → abstract s' pds = abstract s pds.
Proof. intros H. apply abstract_ext. intros. by apply view_mem. Qed.

(** An environment table in which only registers and counters of [cur] changed. *)
Definition same_names s s' cur x x' : Prop :=
  env_id x' = env_id x ∧ env_parent_id x' = env_parent_id x ∧ env_status x' = env_status x ∧
  env_pgdir x' = env_pgdir x ∧ envs s !! cur = Some x ∧ envs s' !! cur = Some x' ∧
  ∀ j, j ≠ cur → envs s' !! j = envs s !! j.

Lemma resolve_same s s' cur x x' envid check :
  same_names s s' cur x x' → resolve s' cur envid check = resolve s cur envid check.
Proof.
  intros (H1 & H2 & H3 & H4 & H5 & H6 & H7). unfold resolve. destruct (envid <? 0); [done|].
  destruct (envid =? 0); [done|]. destruct (decide (ENVX envid = cur)) as [->|Hne].
  - rewrite H5, H6. cbn [mbind option_bind]. by rewrite H1, H2, H3.
  - rewrite (H7 (ENVX envid)) by done. destruct (envs s !! ENVX envid) as [y|]; [|done]. cbn [mbind option_bind].
    rewrite H5, H6. cbn [mbind option_bind]. by rewrite H1.
Qed.

Lemma who_same s s' cur x x' envid check :
  same_names s s' cur x x' → who_of s' cur envid check = who_of s cur envid check.
Proof.
  intros H. unfold who_of. rewrite (resolve_same s s' cur x x') by done.
  destruct (resolve s cur envid check) as [e|]; [|done]. cbn [mbind option_bind].
  destruct H as (H1 & H2 & H3 & H4 & H5 & H6 & H7). destruct (decide (e = cur)) as [->|Hne].
  - rewrite H5, H6. cbn [mbind option_bind]. by rewrite H4.
  - by rewrite H7.
Qed.

Lemma housed_same s s' cur x x' pds : same_names s s' cur x x' → housed s pds → housed s' pds.
Proof.
  intros (H1 & H2 & H3 & H4 & H5 & H6 & H7) Hh e y Hy Hst. destruct (decide (e = cur)) as [->|Hne].
  - assert (y = x') as -> by congruence. rewrite H4. eapply Hh; [done|by rewrite <- H3].
  - rewrite H7 in Hy by done. by eapply Hh.
Qed.

(** ** A system call, seen from user mode *)

Lemma user_env_run s c cur x : in_call s c cur x → user_env s = Some (cur, x).
Proof.
  intros [I1 I2 I3 _]. unfold user_env. rewrite I1. cbn [mbind option_bind]. rewrite I2. cbn [mbind option_bind].
  by rewrite I3.
Qed.

(** The state in which the call is executed. *)
Lemma entered_running s fl pds c cur x pd tf :
  running s fl pds c cur x pd →
  let s1 := entered s cur x tf in
  in_call s1 c cur (set_env_tf tf x) ∧ spaces s1 fl pds ∧ housed s1 pds ∧ lock_mine s1 ∧
  same_names s s1 cur x (set_env_tf tf x).
Proof.
  intros [[I1 I2 I3 I4] R2 R3 R4 R5 R6 R7 R8 R9 R10] s1.
  assert (same_names s s1 cur x (set_env_tf tf x)) as Hn.
  { unfold same_names, s1, entered. simpl. split_and!; try done.
    - apply lookup_insert_eq.
    - intros j Hj. by rewrite lookup_insert_ne. }
  split; [split; [done|done|apply Hn|]|].
  { intros i Hi. destruct (decide (i = cur)) as [->|Hne]; [eexists; apply Hn|].
    destruct Hn as (_ & _ & _ & _ & _ & _ & Hn). rewrite Hn by done. by apply I4. }
  split; [by apply (spaces_ext s)|]. split; [by eapply housed_same|]. done.
Qed.

(** The state after a call that left the machine as [vm_frame] says. *)
Definition resumed (s2 : kstate) (c : Cpu) (cur : Z) (y : Env) (v : Z) : kstate :=
  run_post cur (with_result v y) c (set_envs (<[cur := with_result v y]> (envs s2)) s2).

Lemma resumed_running s fl pds c cur x pd tf v s2 fl2 :
  running s fl pds c cur x pd →
  vm_frame (entered s cur x tf) s2 → spaces s2 fl2 pds → pde_of s2 pd self_index = self_entry pd →
  let s' := resumed s2 c cur (set_env_tf tf x) v in
  ∃ x', running s' fl2 pds c cur x' pd ∧ same_names s s' cur x x' ∧
    tf_regs (env_tf x') = set_reg_eax (u32 v) (tf_regs tf).
Proof.
  intros Hr Hf Hs2 Hself s'. destruct (entered_running s fl pds c cur x pd tf Hr) as (_ & _ & Hh & _ & _).
  pose proof Hr as [[I1 I2 I3 I4] R2 R3 R4 R5 R6 R7 R8 R9 R10].
  pose proof (vm_envs _ _ Hf) as Fe. pose proof (vm_cpus _ _ Hf) as Fc. pose proof (vm_this_cpu _ _ Hf) as Ft.
  pose proof (vm_cr3 _ _ Hf) as F3. pose proof (vm_panicstr _ _ Hf) as Fp.
  set (y := set_env_tf tf x). set (x' := dispatched (this_cpu s2) (with_result v y)).
  assert (envs s' = <[cur := x']> (envs s)) as He.
  { unfold s', resumed, run_post. simpl. rewrite I2. unfold preempt. rewrite lookup_insert_eq. simpl. rewrite R2. simpl.
    rewrite Fe. unfold entered. simpl. rewrite !insert_insert_eq. done. }
  assert (same_names s s' cur x x') as Hn.
  { unfold same_names. rewrite He. split_and!; try done.
    - apply lookup_insert_eq.
    - intros j Hj. by rewrite lookup_insert_ne. }
  exists x'. split; [|split; [done|done]].
  assert (set_cpu_env (Some cur) c = c) as Ec by (destruct c; simpl in *; by rewrite I2).
  split; [|done| |done| |done| |by apply (spaces_ext s2)|by eapply housed_same|done].
  - split.
    + unfold s', resumed, run_post. simpl. rewrite Ec. apply lookup_insert_eq.
    + done.
    + apply Hn.
    + intros i Hi. rewrite He. destruct (decide (i = cur)) as [->|Hne]; [rewrite lookup_insert_eq; by eexists|].
      rewrite lookup_insert_ne by done. by apply I4.
  - done.
  - unfold s', resumed, run_post. simpl. rewrite lookup_insert_eq, R3. unfold pgdir_kva. f_equal. lia.
  - unfold s', resumed, run_post. simpl. rewrite Fp. done.
Qed.

Lemma user_syscall_run s fl pds c cur x pd l num a1 a2 a3 a4 a5 v s2 fl2 :
  running s fl pds c cur x pd →
  let tf := call_frame x num a1 a2 a3 a4 a5 in
  syscall num a1 a2 a3 a4 a5 (entered s cur x tf) = Done v s2 →
  vm_frame (entered s cur x tf) s2 → spaces s2 fl2 pds → pde_of s2 pd self_index = self_entry pd →
  ∃ s' x', user_syscall num a1 a2 a3 a4 a5 (mkUmach s l) = Done (s32 (u32 v)) (mkUmach s' l) ∧
    running s' fl2 pds c cur x' pd ∧ same_names s s' cur x x' ∧ mem s' = mem s2 ∧ pages s' = pages s2.
Proof.
  intros Hr tf Hsys Hf Hs2 Hself. pose proof Hr as [I R2 R3 R4 R5 R6 R7 R8 R9 R10].
  destruct (entered_running s fl pds c cur x pd tf Hr) as (I1 & _ & _ & L1 & _).
  destruct (resumed_running s fl pds c cur x pd tf v s2 fl2 Hr Hf Hs2 Hself) as (x' & Hr' & Hn & Hx').
  exists (resumed s2 c cur (set_env_tf tf x) v), x'. split; [|split; [done|split; [done|done]]].
  unfold user_syscall. cbn [uk ul]. rewrite (user_env_run s c cur x I).
  change (call_frame x num a1 a2 a3 a4 a5) with tf.
  rewrite (trap_syscall_run s c cur x tf v s2 (set_env_tf tf x) R7 R6 I); try done.
  - rewrite Z.eqb_refl. fold (resumed s2 c cur (set_env_tf tf x) v).
    rewrite (ic_env _ _ _ _ (ru_call _ _ _ _ _ _ _ Hr')), Hx'. done.
  - by rewrite R2.
  - destruct I1 as [J1 J2 J3 J4]. split; rewrite ?(vm_cpus _ _ Hf), ?(vm_this_cpu _ _ Hf), ?(vm_envs _ _ Hf); done.
  - unfold lock_mine. by rewrite (vm_kernel_lock _ _ Hf), (vm_this_cpu _ _ Hf).
  - change (KERNBASE <= env_pgdir x). rewrite R3. unfold pgdir_kva.
    destruct (pd_dir _ _ _ (sp_pd _ _ _ R8 pd R4)) as [? _]. lia.
Qed.

(** ** The window on the page tables *)

Lemma self_table s fl pds c cur x pd :
  running s fl pds c cur x pd → pt_of s pd self_index = Some pd ∧ 0 <= pd < 65536.
Proof.
  intros [_ _ _ R4 _ _ _ R8 _ R10].
  destruct (pd_dir _ _ _ (sp_pd _ _ _ R8 pd R4)) as [? _]. pose proof (pw_npages _ _ (sp_pages _ _ _ R8)).
  assert (0 <= pd < 65536) as Hpd by lia. destruct (self_entry_facts pd Hpd) as (_ & E1 & E2).
  unfold pt_of. by rewrite R10, E1, E2.
Qed.

Lemma window_mmu s fl pds c cur x pd i o :
  running s fl pds c cur x pd → 0 <= i < 1024 → 0 <= o < 4096 →
  user_mmu s (UVPT + i * 4096 + o) false =
    if has PTE_P (pde_of s pd i) && has PTE_U (pde_of s pd i)
    then Some (PGNUM (pde_of s pd i) * 4096 + o) else None.
Proof.
  intros Hr Hi Ho. destruct (self_table _ _ _ _ _ _ _ Hr) as [Ht Hpd].
  set (va := UVPT + i * 4096 + o).
  assert (PDX va = self_index ∧ PTX va = i ∧ PGOFF va = o) as (E1 & E2 & E3).
  { unfold va. rewrite PDX_div, PTX_div. unfold PGOFF. change 0xFFF with (Z.ones 12). rewrite Z.land_ones by lia.
    change self_index with 957. change UVPT with 4013948928. zlia. }
  unfold user_mmu. rewrite (ru_cr3 _ _ _ _ _ _ _ Hr). cbn [mbind option_bind]. cbv zeta.
  rewrite (PGNUM_div (pd * 4096)), Z.div_mul, E1, E3 by lia. rewrite <- E1 in Ht.
  rewrite (pte_of_eq s pd va pd Ht), E2. fold (pde_of s pd i). rewrite (ru_self _ _ _ _ _ _ _ Hr).
  destruct (self_entry_facts pd Hpd) as (_ & _ & E4). rewrite E4.
  assert (has PTE_U (self_entry pd) = true) as -> by (unfold self_entry; rewrite has_lor; apply orb_true_r).
  cbn [negb orb]. by rewrite andb_true_r.
Qed.

Lemma window_load s fl pds c cur x pd l i o :
  running s fl pds c cur x pd → 0 <= i < 1024 → 0 <= o < 4093 →
  uload32 (UVPT + i * 4096 + o) (mkUmach s l) =
    if has PTE_P (pde_of s pd i) && has PTE_U (pde_of s pd i)
    then Done (load32 (mem s) (PGNUM (pde_of s pd i) * 4096 + o)) (mkUmach s l)
    else Exit (UFault (UVPT + i * 4096 + o)) (mkUmach s l).
Proof.
  intros Hr Hi Ho.
  assert (∀ k, 0 <= k < 4 → um_load8 (u32 (UVPT + i * 4096 + o + k)) (mkUmach s l) =
    if has PTE_P (pde_of s pd i) && has PTE_U (pde_of s pd i)
    then Done (mget (mem s) (PGNUM (pde_of s pd i) * 4096 + o + k)) (mkUmach s l)
    else Exit (UFault (UVPT + i * 4096 + o + k)) (mkUmach s l)) as Hl.
  { intros k Hk. rewrite (u32_id (UVPT + i * 4096 + o + k)) by (change UVPT with 4013948928; lia).
    cbn [um_load8 kernel_machine uk].
    replace (UVPT + i * 4096 + o + k) with (UVPT + i * 4096 + (o + k)) by lia.
    rewrite (window_mmu s fl pds c cur x pd i (o + k) Hr) by lia. rewrite Z.add_assoc.
    by destruct (has PTE_P (pde_of s pd i) && has PTE_U (pde_of s pd i)). }
  pose proof (Hl 0 ltac:(lia)) as H0. rewrite !Z.add_0_r in H0.
  rewrite u32_id in H0 by (change UVPT with 4013948928; lia). unfold uload32.
  destruct (has PTE_P (pde_of s pd i) && has PTE_U (pde_of s pd i)); [|by erewrite bind_Exit by exact H0].
  by rewrite (bind_Done _ _ _ _ _ H0), (bind_Done _ _ _ _ _ (Hl 1 ltac:(lia))),
    (bind_Done _ _ _ _ _ (Hl 2 ltac:(lia))), (bind_Done _ _ _ _ _ (Hl 3 ltac:(lia))).
Qed.
End kernel.

(** ** The laws *)

Definition cur_of (s : kstate) : Z := match user_env s with Some (cur, _) => cur | None => 0 end.
Definition self_of (s : kstate) : Z :=
  match user_env s with Some (_, x) => (env_pgdir x - KERNBASE) / 4096 | None => 0 end.
Definition page_count (s : kstate) (q : Z) : Z := match pages s !! q with Some p => pp_ref p | None => 0 end.

(** What there is to see, when [pds] are the address spaces. *)
Definition kernel_view (pds : list Z) : user_view umach := {|
  uo_inv m := ∃ fl c cur x pd, running (uk m) fl pds c cur x pd;
  uo_self m := self_of (uk m);
  uo_who m := who_of (uk m) (cur_of (uk m));
  uo_spaces m := abstract (uk m) pds;
  uo_dir m := pde_of (uk m) (self_of (uk m));
  uo_count m := page_count (uk m);
  uo_short m k := ∀ fl, pages_wf (uk m) fl → (length fl <= k)%nat;
  uo_byte m q o := mget (mem (uk m)) (q * 4096 + o)
|}.

Section laws.
Context (pds : list Z).
#[local] Existing Instance kernel_view.
Implicit Types (s : kstate) (c : Cpu) (x y : Env) (fl : list Z) (pd va q cur : Z) (l : ulib).

Lemma running_self s fl c cur x pd : running s fl pds c cur x pd → self_of s = pd ∧ cur_of s = cur.
Proof.
  intros Hr. unfold self_of, cur_of. rewrite (user_env_run s c cur x) by apply Hr.
  rewrite (ru_pgdir _ _ _ _ _ _ _ Hr). unfold pgdir_kva. split; [|done]. rewrite Z.add_simpl_r. by apply Z.div_mul.
Qed.

Lemma running_mine s l fl c cur x pd :
  running s fl pds c cur x pd → @mine umach (kernel_view pds) (mkUmach s l) = view s pd.
Proof.
  intros Hr. unfold mine. cbn [uo_spaces uo_self kernel_view uk]. rewrite (proj1 (running_self _ _ _ _ _ _ Hr)).
  rewrite lookup_abstract, decide_True; [done|apply Hr].
Qed.

(** A system call that changed only what it says. *)
Lemma ustep_intro s s' l fl fl' c cur x x' pd A :
  running s fl pds c cur x pd → running s' fl' pds c cur x' pd → same_names s s' cur x x' →
  abstract s' pds = A →
  (∀ i f, 0 <= i < PDX UTOP → has PTE_P (pde_of s pd i) = true → has f (pde_of s pd i) = true →
    has f (pde_of s' pd i) = true) →
  (∀ pd n e, pd ∈ pds → view s pd !! n = Some e → page_same (PGNUM e) (mem s) (mem s')) →
  @ustep umach _ (kernel_view pds) (mkUmach s l) (mkUmach s' l) A.
Proof.
  intros Hr Hr' Hn HA Hd Hm. destruct (running_self _ _ _ _ _ _ Hr) as [E1 E2].
  destruct (running_self _ _ _ _ _ _ Hr') as [E1' E2'].
  split; cbn [uo_inv uo_spaces uo_self uo_who uo_dir uo_byte um_lib kernel_view kernel_machine uk ul].
  - by eauto 10.
  - done.
  - by rewrite E1, E1'.
  - intros id check. rewrite E2, E2'. by eapply who_same.
  - done.
  - by rewrite E1, E1'.
  - intros q o Hu Ho. destruct (decide (mget (mem s') (q * 4096 + o) = mget (mem s) (q * 4096 + o))) as [|Hne]; [done|].
    destruct Hu. intros pd' V n e HV He Hq. cbn [uo_spaces kernel_view uk] in HV. rewrite lookup_abstract in HV.
    case_decide as Hpd; [|done]. injection HV as <-. apply Hne. rewrite <- Hq.
    apply (Hm pd' n e Hpd He). lia.
Qed.

Lemma who_self s fl c cur x pd check : running s fl pds c cur x pd → who_of s cur 0 check = Some pd.
Proof.
  intros Hr. unfold who_of. change (resolve s cur 0 check) with (Some cur). cbn [mbind option_bind].
  rewrite (ic_env _ _ _ _ (ru_call _ _ _ _ _ _ _ Hr)). cbn [mbind option_bind].
  rewrite (ru_pgdir _ _ _ _ _ _ _ Hr). unfold pgdir_kva. by rewrite Z.add_simpl_r, Z.div_mul.
Qed.

(** The caller names somebody. *)
Lemma names_entered s fl c cur x pd tf envid check pd' :
  running s fl pds c cur x pd → who_of s cur envid check = Some pd' →
  ∃ e, names (entered s cur x tf) cur envid check pds e pd'.
Proof.
  intros Hr Hw. destruct (entered_running s fl pds c cur x pd tf Hr) as (I1 & _ & Hh & _ & Hn).
  destruct (who_names (entered s cur x tf) c cur (set_env_tf tf x) envid check pds I1) as [[_ E]|(e & pd2 & Hnm & E)].
  - change (env_status x ≠ ENV_FREE). by rewrite (ru_status _ _ _ _ _ _ _ Hr).
  - done.
  - by rewrite (who_same s _ cur x (set_env_tf tf x)), Hw in E.
  - rewrite (who_same s _ cur x (set_env_tf tf x)), Hw in E by done. injection E as <-. by exists e.
Qed.

(** A call that made a step of the virtual memory system. *)
Lemma vm_call_ustep s l fl c cur x pd num a1 a2 a3 a4 a5 v s2 fl2 pd' va oe :
  running s fl pds c cur x pd →
  let s1 := entered s cur x (call_frame x num a1 a2 a3 a4 a5) in
  syscall num a1 a2 a3 a4 a5 s1 = Done v s2 → vm_step s1 s2 fl fl2 pds pd' va oe → pd' ∈ pds →
  ∃ s' x', user_syscall num a1 a2 a3 a4 a5 (mkUmach s l) = Done (s32 (u32 v)) (mkUmach s' l) ∧
    @ustep umach _ (kernel_view pds) (mkUmach s l) (mkUmach s' l) (set_entry pd' va oe (abstract s pds)) ∧
    running s' fl2 pds c cur x' pd ∧ mem s' = mem s2 ∧ pages s' = pages s2.
Proof.
  intros Hr s1 Hsys Hst Hpd'. pose proof (ru_space _ _ _ _ _ _ _ Hr) as Hpd.
  destruct (entered_running s fl pds c cur x pd (call_frame x num a1 a2 a3 a4 a5) Hr) as (_ & Hs1 & _).
  destruct (user_syscall_run s fl pds c cur x pd l num a1 a2 a3 a4 a5 v s2 fl2 Hr Hsys) as (s' & x' & Hrun & Hr' & Hn & Hm & Hp).
  { apply Hst. }
  { apply Hst. }
  { rewrite (vs_high _ _ _ _ _ _ _ _ Hst) by (done || by_compute). apply Hr. }
  exists s', x'. split; [done|]. split; [|done].
  apply (ustep_intro s s' l fl fl2 c cur x x' pd); try done.
  - rewrite (abstract_mem s2) by done. rewrite (abstract_step _ _ _ _ _ _ _ _ Hst Hpd'). by rewrite (abstract_mem s).
  - intros i f Hi HP Hf. unfold pde_of at 1. rewrite Hm. fold (pde_of s2 pd i). change (PDX UTOP) with 955 in Hi.
    apply (vs_flags _ _ _ _ _ _ _ _ Hst); [done|lia| |done].
    unfold pt_of. change (pde_of s1 pd i) with (pde_of s pd i). by rewrite HP.
  - intros pd1 n e H1 He. rewrite Hm. change (mem s) with (mem s1). apply (vs_mem _ _ _ _ _ _ _ _ Hst).
    eapply (sp_leaf _ _ _ Hs1 pd1 n e H1). by rewrite (view_mem s).
Qed.

(** A call that changed no mapping. *)
Lemma vm_call_same s l fl c cur x pd num a1 a2 a3 a4 a5 v s2 :
  running s fl pds c cur x pd →
  let s1 := entered s cur x (call_frame x num a1 a2 a3 a4 a5) in
  syscall num a1 a2 a3 a4 a5 s1 = Done v s2 → vm_same s1 s2 fl pds →
  ∃ s', user_syscall num a1 a2 a3 a4 a5 (mkUmach s l) = Done (s32 (u32 v)) (mkUmach s' l) ∧
    @ustep umach _ (kernel_view pds) (mkUmach s l) (mkUmach s' l) (abstract s pds) ∧ pages s' = pages s2.
Proof.
  intros Hr s1 Hsys Hsm. pose proof (ru_space _ _ _ _ _ _ _ Hr) as Hpd.
  destruct (entered_running s fl pds c cur x pd (call_frame x num a1 a2 a3 a4 a5) Hr) as (_ & Hs1 & _).
  destruct (user_syscall_run s fl pds c cur x pd l num a1 a2 a3 a4 a5 v s2 fl Hr Hsys) as (s' & x' & Hrun & Hr' & Hn & Hm & Hp).
  { apply Hsm. }
  { apply Hsm. }
  { rewrite (sm_dir _ _ _ _ Hsm) by (done || by_compute). apply Hr. }
  exists s'. split; [done|]. split; [|done].
  apply (ustep_intro s s' l fl fl c cur x x' pd); try done.
  - rewrite (abstract_mem s2) by done. rewrite (abstract_ext s1 s2) by apply Hsm. by rewrite (abstract_mem s).
  - intros i f Hi HP Hf. unfold pde_of at 1. rewrite Hm. fold (pde_of s2 pd i). change (PDX UTOP) with 955 in Hi.
    rewrite (sm_dir _ _ _ _ Hsm) by (done || lia). done.
  - intros pd1 n e H1 He. rewrite Hm. change (mem s) with (mem s1). apply (sm_mem _ _ _ _ Hsm).
    eapply (sp_leaf _ _ _ Hs1 pd1 n e H1). by rewrite (view_mem s).
Qed.

Lemma k_alloc s l fl c cur x pd envid pd' va perm :
  running s fl pds c cur x pd → who_of s cur (s32 envid) true = Some pd' → valid_va va →
  Z.land perm (Z.lnot PTE_SYSCALL) = 0 →
  (∃ s', user_syscall SYS_page_alloc envid va perm 0 0 (mkUmach s l) = Done (- E_NO_MEM) (mkUmach s' l) ∧
     @ustep umach _ (kernel_view pds) (mkUmach s l) (mkUmach s' l) (abstract s pds) ∧ (length fl <= 1)%nat) ∨
  (∃ q s' fl' x', user_syscall SYS_page_alloc envid va perm 0 0 (mkUmach s l) = Done 0 (mkUmach s' l) ∧
     @ustep umach _ (kernel_view pds) (mkUmach s l) (mkUmach s' l)
       (set_entry pd' va (Some (pte_entry q perm)) (abstract s pds)) ∧
     running s' fl' pds c cur x' pd ∧
     0 < q < 65536 ∧ unused (abstract s pds) q ∧ page_count s' q <= 1 ∧
     (∀ o, 0 <= o < 4096 → mget (mem s') (q * 4096 + o) = 0) ∧
     (∀ f, has f perm = true → has f (pde_of s' pd' (PDX va)) = true)).
Proof.
  intros Hr Hw [Hva Hal] Hperm. set (tf := call_frame x SYS_page_alloc envid va perm 0 0).
  pose proof (syscall_perm_range perm Hperm) as Hpr.
  destruct (entered_running s fl pds c cur x pd tf Hr) as (I1 & Hs1 & _).
  destruct (names_entered s fl c cur x pd tf (s32 envid) true pd' Hr Hw) as [e Hnm].
  assert (syscall SYS_page_alloc envid va perm 0 0 = sys_page_alloc (s32 envid) va perm) as Hd.
  { change (syscall SYS_page_alloc envid va perm 0 0) with (sys_page_alloc (s32 envid) va (s32 perm)).
    by rewrite (s32_id perm) by lia. }
  destruct (sys_page_alloc_step _ c cur _ fl pds (s32 envid) e pd' va perm I1 Hnm Hs1 Hva Hperm)
    as [(s2 & Hrun & Hsm & Hlen)|(q & s2 & fl2 & Hrun & Hq & Hst & Hf & Hz & p' & Hp' & Hle)].
  - left. destruct (vm_call_same s l fl c cur x pd SYS_page_alloc envid va perm 0 0 (- E_NO_MEM) s2 Hr) as (s' & H1 & H2 & _).
    { by rewrite Hd. }
    { done. }
    exists s'. split; [exact H1|]. split; [done|]. destruct Hlen as [-> |[_ ->]]; [apply Nat.le_0_l|done].
  - right. destruct (vm_call_ustep s l fl c cur x pd SYS_page_alloc envid va perm 0 0 0 s2 fl2 pd' va
      (Some (pte_entry q perm)) Hr) as (s' & x' & H1 & H2 & Hr' & Hm & Hp).
    { by rewrite Hd. }
    { done. }
    { apply Hnm. }
    exists q, s', fl2, x'. split; [exact H1|]. split; [done|]. split; [done|].
    pose proof (pw_in_range _ _ q (sp_pages _ _ _ Hs1) Hq). pose proof (pw_npages _ _ (sp_pages _ _ _ Hs1)).
    assert (q ≠ 0) by (intros ->; by apply (sp_zero _ _ _ Hs1)).
    split; [lia|]. split; [eapply free_unused; [|exact Hq]; apply Hr|]. split; [|split].
    + unfold page_count. by rewrite Hp, Hp'.
    + intros o Ho. rewrite Hm. apply Hz. lia.
    + intros f Hff. unfold pde_of. rewrite Hm. by apply Hf.
Qed.

Lemma k_map s l fl c cur x pd srcva dstid pd' dstva perm e :
  running s fl pds c cur x pd → who_of s cur (s32 dstid) false = Some pd' → valid_va srcva → valid_va dstva →
  0 <= perm < 4096 → view s pd !! PGNUM srcva = Some e → (has PTE_W perm = true → has PTE_W e = true) →
  page_count s (PGNUM e) < 65535 →
  (∃ s', user_syscall SYS_page_map 0 srcva dstid dstva perm (mkUmach s l) = Done (- E_NO_MEM) (mkUmach s' l) ∧
     @ustep umach _ (kernel_view pds) (mkUmach s l) (mkUmach s' l) (abstract s pds) ∧
     page_count s' (PGNUM e) = page_count s (PGNUM e) ∧ fl = [] ∧ has PTE_P (pde_of s pd' (PDX dstva)) = false) ∨
  (∃ s' fl' x', user_syscall SYS_page_map 0 srcva dstid dstva perm (mkUmach s l) = Done 0 (mkUmach s' l) ∧
     @ustep umach _ (kernel_view pds) (mkUmach s l) (mkUmach s' l)
       (set_entry pd' dstva (Some (pte_entry (PGNUM e) perm)) (abstract s pds)) ∧
     running s' fl' pds c cur x' pd ∧
     page_count s' (PGNUM e) <= page_count s (PGNUM e) + 1 ∧
     (∀ f, has f perm = true → has f (pde_of s' pd' (PDX dstva)) = true)).
Proof.
  intros Hr Hw [Hv1 Ha1] [Hv2 Ha2] Hperm He Hwr Hc. set (tf := call_frame x SYS_page_map 0 srcva dstid dstva perm).
  destruct (entered_running s fl pds c cur x pd tf Hr) as (I1 & Hs1 & _).
  destruct (names_entered s fl c cur x pd tf (s32 dstid) false pd' Hr Hw) as [e2 N2].
  destruct (names_entered s fl c cur x pd tf 0 true pd Hr) as [e1 N1].
  { by eapply who_self. }
  assert (view (entered s cur x tf) pd !! PGNUM srcva = Some e) as He1 by (by rewrite (view_mem s)).
  pose proof (sp_leaf _ _ _ Hs1 pd _ _ (ru_space _ _ _ _ _ _ _ Hr) He1) as Hu.
  destruct (pw_total _ _ (sp_pages _ _ _ Hs1) (PGNUM e)) as [p Hp]; [destruct (up_range _ _ _ _ Hu); lia|].
  assert (page_count s (PGNUM e) = pp_ref p) as Hpc by (unfold page_count; change (pages s) with (pages (entered s cur x tf)); by rewrite Hp).
  assert (syscall SYS_page_map 0 srcva dstid dstva perm = sys_page_map 0 srcva (s32 dstid) dstva perm) as Hd.
  { change (syscall SYS_page_map 0 srcva dstid dstva perm) with (sys_page_map 0 srcva (s32 dstid) dstva (s32 perm)).
    by rewrite (s32_id perm) by lia. }
  destruct (sys_page_map_step _ c cur _ fl pds 0 (s32 dstid) e1 e2 pd pd' srcva dstva perm e p I1 N1 N2 Hs1 Hv1 Ha1 Hv2 Ha2
    Hperm He1 Hwr Hp ltac:(lia)) as [(Ht & Hfl & Hrun)|(s2 & fl2 & Hrun & Hst & Hf & (p' & Hp' & Hle) & _)].
  - left. destruct (vm_call_same s l fl c cur x pd SYS_page_map 0 srcva dstid dstva perm (- E_NO_MEM) (entered s cur x tf) Hr)
      as (s' & H1 & H2 & H3).
    { by rewrite Hd. }
    { by apply vm_same_refl. }
    exists s'. split; [exact H1|]. split; [done|]. split; [unfold page_count; by rewrite H3|]. split; [done|].
    unfold pt_of in Ht. change (pde_of (entered s cur x tf) pd' (PDX dstva)) with (pde_of s pd' (PDX dstva)) in Ht.
    by destruct (has PTE_P (pde_of s pd' (PDX dstva))).
  - right. destruct (vm_call_ustep s l fl c cur x pd SYS_page_map 0 srcva dstid dstva perm 0 s2 fl2 pd' dstva
      (Some (pte_entry (PGNUM e) perm)) Hr) as (s' & x' & H1 & H2 & Hr' & Hm & Hpg).
    { by rewrite Hd. }
    { done. }
    { apply N2. }
    exists s', fl2, x'. split; [exact H1|]. split; [done|]. split; [done|]. split.
    + rewrite Hpc. unfold page_count. rewrite Hpg, Hp'. lia.
    + intros f Hff. unfold pde_of. rewrite Hm. by apply Hf.
Qed.

Lemma k_unmap s l fl c cur x pd va :
  running s fl pds c cur x pd → valid_va va →
  ∃ s' fl' x', user_syscall SYS_page_unmap 0 va 0 0 0 (mkUmach s l) = Done 0 (mkUmach s' l) ∧
    @ustep umach _ (kernel_view pds) (mkUmach s l) (mkUmach s' l) (set_entry pd va None (abstract s pds)) ∧
    running s' fl' pds c cur x' pd.
Proof.
  intros Hr [Hv Ha]. set (tf := call_frame x SYS_page_unmap 0 va 0 0 0).
  destruct (entered_running s fl pds c cur x pd tf Hr) as (I1 & Hs1 & _).
  destruct (names_entered s fl c cur x pd tf 0 true pd Hr) as [e1 N1].
  { by eapply who_self. }
  destruct (sys_page_unmap_step _ c cur _ fl pds 0 e1 pd va I1 N1 Hs1 Hv Ha) as (s2 & fl2 & Hrun & Hst).
  destruct (vm_call_ustep s l fl c cur x pd SYS_page_unmap 0 va 0 0 0 0 s2 fl2 pd va None Hr)
    as (s' & x' & H1 & H2 & Hr' & _); [done|done|apply Hr|].
  exists s', fl2, x'. split; [exact H1|done].
Qed.

(** The free list is determined by the state. *)
Lemma short_intro s l fl c cur x pd k :
  running s fl pds c cur x pd → (length fl <= k)%nat → @uo_short _ (kernel_view pds) (mkUmach s l) k.
Proof.
  intros Hr Hk fl' Hfl'. pose proof (pw_chain _ _ (sp_pages _ _ _ (ru_spaces _ _ _ _ _ _ _ Hr))) as Hc.
  by rewrite (chain_fun _ _ _ _ (pw_chain _ _ Hfl') Hc).
Qed.

Lemma short_elim s l fl c cur x pd k :
  running s fl pds c cur x pd → @uo_short _ (kernel_view pds) (mkUmach s l) k → (length fl <= k)%nat.
Proof. intros Hr Hk. apply Hk. apply Hr. Qed.

(** *** Loads and stores *)

Lemma user_access s l fl c cur x pd va q e :
  running s fl pds c cur x pd → @readable umach (kernel_view pds) (mkUmach s l) va q e →
  user_page s fl pds q ∧ user_mmu s va false = Some (q * 4096 + va mod 4096) ∧
  (has PTE_W e = true → has PTE_W (pde_of s pd (PDX va)) = true →
    user_mmu s va true = Some (q * 4096 + va mod 4096)).
Proof.
  intros Hr [A1 A2 A3 A4 A5]. rewrite (running_mine _ _ _ _ _ _ _ Hr) in A2.
  cbn [uo_dir kernel_view uk] in A5. rewrite (proj1 (running_self _ _ _ _ _ _ Hr)) in A5.
  pose proof (sp_leaf _ _ _ (ru_spaces _ _ _ _ _ _ _ Hr) pd _ _ (ru_space _ _ _ _ _ _ _ Hr) A2) as Hu.
  rewrite A3 in Hu. split; [done|].
  apply lookup_view_Some in A2 as (Hn & HP & He).
  assert (0 <= va < 4294967296) as Hva by (change UTOP with 4005560320 in A1; lia).
  assert (pte_of s pd va = e) as Hpte.
  { rewrite He. apply pte_same_page; [|done|].
    - change (PGNUM UTOP) with 977920 in Hn. lia.
    - rewrite !PGNUM_div. by rewrite Z.div_mul. }
  rewrite <- He in HP.
  assert (has PTE_P (pde_of s pd (PDX va)) = true) as HPd.
  { destruct (pt_of s pd (PDX va)) as [t|] eqn:Ht.
    - unfold pt_of in Ht. by destruct (has PTE_P (pde_of s pd (PDX va))).
    - rewrite (pte_of_none _ _ _ Ht) in Hpte. by rewrite <- Hpte in HP. }
  assert (PGOFF va = va mod 4096) as Hoff by (unfold PGOFF; by rewrite land_low_mod).
  unfold user_mmu. rewrite (ru_cr3 _ _ _ _ _ _ _ Hr). cbn [mbind option_bind]. cbv zeta.
  rewrite (PGNUM_div (pd * 4096)), Z.div_mul, Hpte, HPd, HP, A4, A5, Hoff, A3 by lia.
  split; [done|]. intros -> ->. done.
Qed.

Lemma running_store s fl c cur x pd q pa b :
  running s fl pds c cur x pd → user_page s fl pds q → q * 4096 <= pa < (q + 1) * 4096 →
  let s' := set_mem (<[pa := u8 b]> (mem s)) s in
  running s' fl pds c cur x pd ∧ (∀ pd', pd' ∈ pds → view s' pd' = view s pd') ∧
  (∀ i, 0 <= i < 1024 → pde_of s' pd i = pde_of s pd i).
Proof.
  intros [R1 R2 R3 R4 R5 R6 R7 R8 R9 R10] [U1 U2 U3] Hpa s'.
  assert (∀ j, j ≠ q → page_same j (mem s) (mem s')) as Hm.
  { intros j Hj a Ha. unfold s'. simpl. rewrite mget_insert, decide_False; [done|]. lia. }
  destruct (spaces_frame s s' fl fl pds R8) as [Hs' Hv].
  - by apply (pages_wf_ext s); [apply R8|..].
  - apply R8.
  - done.
  - intros j Hj. apply Hm. intros ->. done.
  - by left.
  - apply R8.
  - split; [|split; [apply Hv|by apply Hv]]. split; try done; [by destruct R1; split|].
    rewrite (proj2 (Hv pd R4)) by by_compute. done.
Qed.

Lemma k_entry s fl c cur x pd n e :
  running s fl pds c cur x pd → view s pd !! n = Some e →
  has PTE_P e = true ∧ has PTE_P (pde_of s pd (n / 1024)) = true ∧ 0 <= e < 4294967296 ∧ 0 <= PGNUM e < 65536.
Proof.
  intros Hr He. pose proof (sp_leaf _ _ _ (ru_spaces _ _ _ _ _ _ _ Hr) pd n e (ru_space _ _ _ _ _ _ _ Hr) He) as [[? ?] _ _].
  pose proof (pw_npages _ _ (sp_pages _ _ _ (ru_spaces _ _ _ _ _ _ _ Hr))).
  apply lookup_view_Some in He as (Hn & HP & ->). split; [done|]. split; [|split; [apply pte_of_range|lia]].
  change (PGNUM UTOP) with 977920 in Hn. destruct (page_index n ltac:(lia)) as [<- _].
  destruct (pt_of s pd (PDX (n * 4096))) as [t|] eqn:Ht; [|by rewrite (pte_of_none _ _ _ Ht) in HP].
  unfold pt_of in Ht. by destruct (has PTE_P (pde_of s pd (PDX (n * 4096)))).
Qed.

Lemma k_vpd s l fl c cur x pd i :
  running s fl pds c cur x pd → 0 <= i < PDX UTOP → vpd i (mkUmach s l) = Done (pde_of s pd i) (mkUmach s l).
Proof.
  intros Hr Hi. change (PDX UTOP) with 955 in Hi.
  destruct (self_table _ _ _ _ _ _ _ Hr) as [_ Hpd]. destruct (self_entry_facts pd Hpd) as (_ & E1 & E2).
  unfold vpd. replace (u32 (VPD + 4 * i)) with (UVPT + self_index * 4096 + 4 * i)
    by (change VPD with 4017868800; change UVPT with 4013948928; change self_index with 957; unfold u32; zlia).
  rewrite (window_load s fl pds c cur x pd l self_index (4 * i) Hr) by (by_compute || lia).
  rewrite (ru_self _ _ _ _ _ _ _ Hr), E1, E2.
  assert (has PTE_U (self_entry pd) = true) as -> by (unfold self_entry; rewrite has_lor; apply orb_true_r). done.
Qed.

Lemma k_vpt s l fl c cur x pd n :
  running s fl pds c cur x pd → 0 <= n < PGNUM UTOP →
  vpt n (mkUmach s l) = if has PTE_P (pde_of s pd (n / 1024)) && has PTE_U (pde_of s pd (n / 1024))
    then Done (default 0 (view s pd !! n)) (mkUmach s l) else Exit (UFault (VPT + 4 * n)) (mkUmach s l).
Proof.
  intros Hr Hn. pose proof Hn as Hn'. change (PGNUM UTOP) with 977920 in Hn.
  destruct (page_index n ltac:(lia)) as [E1 E2].
  unfold vpt. replace (u32 (VPT + 4 * n)) with (UVPT + n / 1024 * 4096 + 4 * (n mod 1024))
    by (change VPT with 4013948928; change UVPT with 4013948928; unfold u32; zlia).
  rewrite (window_load s fl pds c cur x pd l (n / 1024) (4 * (n mod 1024)) Hr) by zlia.
  destruct (has PTE_P (pde_of s pd (n / 1024)) && has PTE_U (pde_of s pd (n / 1024))) eqn:E.
  2: { do 2 f_equal. change VPT with 4013948928. change UVPT with 4013948928. zlia. }
  apply andb_true_iff in E as [HP _]. f_equal.
  assert (pt_of s pd (PDX (n * 4096)) = Some (PGNUM (pde_of s pd (n / 1024)))) as Ht by (unfold pt_of; by rewrite E1, HP).
  rewrite <- E2, <- (pte_of_eq s pd (n * 4096) _ Ht). rewrite lookup_view. case_decide as Hd; [done|].
  assert (0 <= n * 4096 < UTOP) as Hv by (change UTOP with 4005560320; lia).
  apply (sp_clear _ _ _ (ru_spaces _ _ _ _ _ _ _ Hr) pd (n * 4096) (ru_space _ _ _ _ _ _ _ Hr) Hv).
  unfold mapped. destruct (has PTE_P (pte_of s pd (n * 4096))); [|done]. by destruct Hd.
Qed.

Lemma k_store s l fl c cur x pd va q e b :
  running s fl pds c cur x pd → @writable umach (kernel_view pds) (mkUmach s l) va q e →
  ∃ m', um_store8 va b (mkUmach s l) = Done tt m' ∧ @usame umach _ (kernel_view pds) (mkUmach s l) m' ∧
    ∀ q' o, 0 <= o < 4096 → @uo_byte _ (kernel_view pds) m' q' o =
      if decide (q' = q ∧ o = va mod 4096) then u8 b else @uo_byte _ (kernel_view pds) (mkUmach s l) q' o.
Proof.
  intros Hr [Hrd W1 W2]. destruct (running_self _ _ _ _ _ _ Hr) as [Es Ec].
  cbn [uo_dir kernel_view uk] in W2. rewrite Es in W2.
  destruct (user_access s l fl c cur x pd va q e Hr Hrd) as (Hu & _ & E). specialize (E W1 W2).
  assert (0 <= va mod 4096 < 4096) as Ho by (apply Z.mod_pos_bound; lia).
  destruct (running_store s fl c cur x pd q (q * 4096 + va mod 4096) b Hr Hu ltac:(lia)) as (Hr' & Hv & Hd).
  cbn [um_store8 kernel_machine uk ul]. rewrite E. eexists. split; [reflexivity|].
  set (s' := set_mem _ s) in *. destruct (running_self _ _ _ _ _ _ Hr') as [Es' Ec'].
  split; [split|]; cbn [uo_inv uo_spaces uo_self uo_who uo_dir uo_byte uo_count um_lib kernel_view kernel_machine uk ul];
    try done.
  - by eauto 10.
  - by apply abstract_ext.
  - intros i Hi. rewrite Es, Es'. apply Hd. change (PDX UTOP) with 955 in Hi. lia.
  - intros q' o Ho'. unfold s'. simpl. rewrite mget_insert, u8_u8.
    destruct (decide (q' = q ∧ o = va mod 4096)) as [[-> ->]|Hne]; [by rewrite decide_True|].
    rewrite decide_False; [done|]. intros Heq. apply Hne. lia.
Qed.

#[export] Instance kernel_laws : @user_laws umach kernel_machine (kernel_view pds).
Proof.
  split; intros [s l].
  - intros (fl & c & cur & x & pd & Hr). cbn [uo_spaces uo_self kernel_view uk] in *.
    rewrite (proj1 (running_self _ _ _ _ _ _ Hr)), lookup_abstract, decide_True by apply Hr. by eexists.
  - intros check (fl & c & cur & x & pd & Hr). cbn [uo_who uo_self kernel_view uk] in *.
    destruct (running_self _ _ _ _ _ _ Hr) as [-> ->]. by eapply who_self.
  - intros n e (fl & c & cur & x & pd & Hr). cbn [uk] in Hr. rewrite (running_mine _ _ _ _ _ _ _ Hr). intros He.
    cbn [uo_dir kernel_view uk]. rewrite (proj1 (running_self _ _ _ _ _ _ Hr)).
    by destruct (k_entry s fl c cur x pd n e Hr He) as (? & ? & ? & ?).
  - intros n e (fl & c & cur & x & pd & Hr). cbn [uk] in Hr. rewrite (running_mine _ _ _ _ _ _ _ Hr). intros He.
    by destruct (k_entry s fl c cur x pd n e Hr He) as (? & ? & ? & ?).
  - intros q o. apply mget_range.
  - intros i (fl & c & cur & x & pd & Hr) Hi. cbn [uk] in Hr. cbn [uo_dir kernel_view uk].
    rewrite (proj1 (running_self _ _ _ _ _ _ Hr)). by eapply k_vpd.
  - intros n (fl & c & cur & x & pd & Hr) Hn. cbn [uk] in Hr. rewrite (running_mine _ _ _ _ _ _ _ Hr).
    cbn [uo_dir kernel_view uk]. rewrite (proj1 (running_self _ _ _ _ _ _ Hr)). by eapply k_vpt.
  - intros va q e (fl & c & cur & x & pd & Hr) Hrd. cbn [uk] in Hr.
    destruct (user_access s l fl c cur x pd va q e Hr Hrd) as (_ & E & _).
    cbn [um_load8 kernel_machine uk]. by rewrite E.
  - intros va q e b (fl & c & cur & x & pd & Hr). by eapply k_store.
  - intros envid pd' va perm (fl & c & cur & x & pd & Hr) Hw Hva Hp. cbn [uk] in Hr.
    destruct (running_self _ _ _ _ _ _ Hr) as [Es Ec]. cbn [uo_who kernel_view uk] in Hw. rewrite Ec in Hw.
    destruct (k_alloc s l fl c cur x pd envid pd' va perm Hr Hw Hva Hp)
      as [(s' & H1 & H2 & H3)|(q & s' & fl' & x' & H1 & H2 & Hr' & H3 & H4 & H5 & H6 & H7)]; [left|right].
    { exists (mkUmach s' l). split; [done|]. split; [done|]. by eapply short_intro. }
    exists q, (mkUmach s' l). destruct (running_self _ _ _ _ _ _ Hr') as [Es' _].
    do 6 (split; [done|]). cbn [uo_self uo_dir kernel_view uk]. rewrite Es, Es'. by intros ->.
  - intros srcva dstid dstva perm pd' e (fl & c & cur & x & pd & Hr) Hw H1 H2 Hp He Hwr Hc. cbn [uk] in Hr.
    destruct (running_self _ _ _ _ _ _ Hr) as [Es Ec]. cbn [uo_who kernel_view uk] in Hw. rewrite Ec in Hw.
    rewrite (running_mine _ _ _ _ _ _ _ Hr) in He.
    destruct (k_map s l fl c cur x pd srcva dstid pd' dstva perm e Hr Hw H1 H2 Hp He Hwr Hc)
      as [(s' & K1 & K2 & K3 & K0 & K4)|(s' & fl' & x' & K1 & K2 & Hr' & K3 & K4)]; [left|right]; exists (mkUmach s' l);
      do 3 (split; [done|]); [split; [eapply short_intro; [done|by rewrite K0]|]|];
      cbn [uo_self uo_dir kernel_view uk]; rewrite Es; [by intros ->|].
    destruct (running_self _ _ _ _ _ _ Hr') as [-> _]. by intros ->.
  - intros va (fl & c & cur & x & pd & Hr) Hv. cbn [uk] in Hr.
    destruct (running_self _ _ _ _ _ _ Hr) as [Es Ec].
    destruct (k_unmap s l fl c cur x pd va Hr Hv) as (s' & fl' & x' & K1 & K2 & _).
    exists (mkUmach s' l). split; [done|]. cbn [uo_self uo_spaces kernel_view uk]. by rewrite Es.
Qed.
End laws.

(** ** Properties of lib/fork.c on this kernel *)

Section properties.
Context (pds : list Z).
Implicit Types (s : kstate) (c : Cpu) (x y : Env) (fl : list Z) (pd va q cur : Z) (l : ulib).

Lemma readable_kernel s l fl c cur x pd va e :
  running s fl pds c cur x pd → 0 <= va < UTOP → view s pd !! PGNUM va = Some e →
  has PTE_U e = true → has PTE_U (pde_of s pd (PDX va)) = true →
  @readable umach (kernel_view pds) (mkUmach s l) va (PGNUM e) e.
Proof.
  intros Hr Hva He Hu Hd. split; try done; [by rewrite (running_mine pds _ _ _ _ _ _ _ Hr)|].
  cbn [uo_dir kernel_view uk]. by rewrite (proj1 (running_self pds _ _ _ _ _ _ Hr)).
Qed.

(** A page that a space maps is in use. *)
Lemma view_in_use s l pd n e : pd ∈ pds → view s pd !! n = Some e →
  @in_use_page umach (kernel_view pds) (mkUmach s l) (PGNUM e).
Proof.
  intros Hpd He Hu. apply (Hu pd (view s pd) n e); [|done|done].
  cbn [uo_spaces kernel_view uk]. by rewrite lookup_abstract, decide_True.
Qed.

Lemma pgfault_kernel s l fl c cur x pd addr err e :
  running s fl pds c cur x pd → 0 <= addr < UTOP → PGNUM addr ≠ PGNUM PFTEMP →
  view s pd !! PGNUM addr = Some e → has PTE_U e = true → has PTE_U (pde_of s pd (PDX addr)) = true →
  has PTE_COW e = true → has FEC_WR err = true →
  (∃ m', pgfault addr err (mkUmach s l) = Exit (UPanic "page fault handler failed by: %d" (-3)) m' ∧
     abstract (uk m') pds = abstract s pds ∧ (length fl <= 1)%nat) ∨
  ∃ s' q fl' c' cur' x', pgfault addr err (mkUmach s l) = Done tt (mkUmach s' l) ∧
    running s' fl' pds c' cur' x' pd ∧ unused (abstract s pds) q ∧
    abstract s' pds = set_entry pd PFTEMP None
      (set_entry pd addr (Some (pte_entry q PTE_PUW)) (abstract s pds)) ∧
    (∀ o, 0 <= o < 4096 → mget (mem s') (q * 4096 + o) = mget (mem s) (PGNUM e * 4096 + o)) ∧
    (∀ pd' n e', pd' ∈ pds → view s' pd' !! n = Some e' → PGNUM e' ≠ q →
       page_same (PGNUM e') (mem s) (mem s')) ∧
    user_mmu s' addr true = Some (q * 4096 + addr mod 4096).
Proof.
  intros Hr Hva Hne He Hu Hd Hc Hw. pose proof (running_self pds _ _ _ _ _ _ Hr) as [Es Ec].
  assert (uo_inv (user_view := kernel_view pds) (mkUmach s l)) as Hi by (exists fl, c, cur, x, pd; done).
  destruct (@pgfault_run umach _ (kernel_view pds) _ (mkUmach s l) addr err (PGNUM e) e Hi)
    as [(m' & Hrun & Hst & Hsh)|([s' l'] & q & Hrun & Hcp)]; [by eapply readable_kernel|done|done|done|left|right].
  { exists m'. split; [done|]. split; [apply Hst|by eapply short_elim]. }
  pose proof (cp_lib _ _ _ _ _ Hcp) as Hl. cbn [um_lib kernel_machine ul] in Hl. subst l'.
  destruct (cp_inv _ _ _ _ _ Hcp) as (fl' & c' & cur' & x' & pd1 & Hr'). cbn [uk] in Hr'.
  pose proof (cp_self _ _ _ _ _ Hcp) as Hself. cbn [uo_self kernel_view uk] in Hself.
  destruct (running_self pds _ _ _ _ _ _ Hr') as [Es' _]. rewrite Es, Es' in Hself. subst pd1.
  exists s', q, fl', c', cur', x'. split; [done|]. split; [done|]. split; [apply Hcp|]. split.
  { pose proof (cp_spaces _ _ _ _ _ Hcp) as H. cbn [uo_spaces uo_self kernel_view uk] in H. by rewrite Es in H. }
  split; [apply Hcp|]. split.
  - intros pd' n e' Hpd' He' Hq a Ha. pose proof (cp_others _ _ _ _ _ Hcp (PGNUM e') (a - PGNUM e' * 4096)) as H.
    cbn [uo_byte kernel_view uk] in H. replace (PGNUM e' * 4096 + (a - PGNUM e' * 4096)) with a in H by lia.
    apply H; [by eapply view_in_use|done|lia].
  - pose proof (cp_writable _ _ _ _ _ Hcp) as [Hrd W1 W2]. cbn [uo_dir kernel_view uk] in W2. rewrite Es' in W2.
    by apply (user_access pds s' l fl' c' cur' x' pd addr q _ Hr' Hrd).
Qed.

(** C2: a write to a copy-on-write page gives the environment a private copy.  When
    the handler of lib/fork.c is entered for a write to a page that the running
    environment maps copy-on-write, other than the page at PFTEMP, through which it
    copies, it either panics with code -3, which happens only when at most one page
    is free (one for the copy and one for the page table of PFTEMP may be needed),
    and then no mapping has changed, or it returns, after three system
    calls and the copy of a page through the page tables, to a state in which the
    page of the faulting address is a physical page that nobody mapped before,
    with the contents of the old one, and a store to the address succeeds; the
    temporary mapping is gone, no other mapping of this or of any other
    environment has changed, every page that is still mapped keeps its contents,
    and the address spaces are consistent. *)
Theorem pgfault_private_copy s l fl c cur x pd addr err e :
  running s fl pds c cur x pd → 0 <= addr < UTOP → PGNUM addr ≠ PGNUM PFTEMP →
  view s pd !! PGNUM addr = Some e → has PTE_U e = true → has PTE_U (pde_of s pd (PDX addr)) = true →
  has PTE_COW e = true → has FEC_WR err = true →
  (∃ m', pgfault addr err (mkUmach s l) = Exit (UPanic "page fault handler failed by: %d" (-3)) m' ∧
     (length fl <= 1)%nat ∧ ∀ pd', pd' ∈ pds → view (uk m') pd' = view s pd') ∨
  ∃ s' q fl', pgfault addr err (mkUmach s l) = Done tt (mkUmach s' l) ∧ spaces s' fl' pds ∧
    (∀ pd' n e', pd' ∈ pds → view s pd' !! n = Some e' → PGNUM e' ≠ q) ∧
    view s' pd = delete (PGNUM PFTEMP) (<[PGNUM addr := pte_entry q PTE_PUW]> (view s pd)) ∧
    (∀ pd', pd' ∈ pds → pd' ≠ pd → view s' pd' = view s pd') ∧
    (∀ o, 0 <= o < 4096 → mget (mem s') (q * 4096 + o) = mget (mem s) (PGNUM e * 4096 + o)) ∧
    (∀ pd' n e', pd' ∈ pds → view s' pd' !! n = Some e' → PGNUM e' ≠ q →
       page_same (PGNUM e') (mem s) (mem s')) ∧
    user_mmu s' addr true = Some (q * 4096 + addr mod 4096).
Proof.
  intros Hr Hva Hne He Hu Hd Hc Hw.
  destruct (pgfault_kernel s l fl c cur x pd addr err e Hr Hva Hne He Hu Hd Hc Hw)
    as [(m' & Hrun & HA & Hlen)|(s' & q & fl' & c' & cur' & x' & Hrun & Hr' & Hun & HA & Hcopy & Hoth & Hmmu)]; [left|right].
  { exists m'. split; [done|]. split; [done|]. intros pd' Hpd'. apply (f_equal (.!! pd')) in HA.
    rewrite !lookup_abstract, !decide_True in HA by done. by injection HA. }
  assert (∀ pd', pd' ∈ pds → set_entry pd PFTEMP None
    (set_entry pd addr (Some (pte_entry q PTE_PUW)) (abstract s pds)) !! pd' = Some (view s' pd')) as Hv.
  { intros pd' Hpd'. by rewrite <- HA, lookup_abstract, decide_True. }
  exists s', q, fl'. split; [done|]. split; [apply Hr'|]. split; [|split; [|split; [|done]]].
  - intros pd' n e' Hpd' He'. apply (Hun pd' (view s pd') n e'); [|done]. by rewrite lookup_abstract, decide_True.
  - pose proof (Hv pd (ru_space _ _ _ _ _ _ _ Hr)) as H. rewrite !lookup_set_entry, !decide_True in H by done.
    rewrite lookup_abstract, decide_True in H by apply Hr. by injection H.
  - intros pd' Hpd' Hp. pose proof (Hv pd' Hpd') as H. rewrite !lookup_set_entry, !decide_False in H by done.
    rewrite lookup_abstract, decide_True in H by done. by injection H.
Qed.

(** C38: the handler refuses every other fault at an address below UTOP.  Where the page directory has no
    table for the address, or one that is closed to user code, the handler itself
    faults when it reads the page-table entry, before it looks at the directory;
    otherwise, at a page that is not mapped or not copy-on-write, and for a fault
    that was not a write, it panics with code -2.  Nothing has changed then. *)
Theorem pgfault_rejects s l fl c cur x pd addr err :
  running s fl pds c cur x pd → 0 <= addr < UTOP →
  let pde := pde_of s pd (PDX addr) in
  (has PTE_P pde = false ∨ has PTE_U pde = false →
     pgfault addr err (mkUmach s l) = Exit (UFault (VPT + 4 * PGNUM addr)) (mkUmach s l)) ∧
  (has PTE_P pde = true → has PTE_U pde = true →
   (∀ e, view s pd !! PGNUM addr = Some e → has PTE_COW e = true → has FEC_WR err = false) →
     pgfault addr err (mkUmach s l) =
       Exit (UPanic "page fault handler failed by: %d" (-2)) (mkUmach s l)).
Proof.
  intros Hr Hva pde.
  assert (0 <= PGNUM addr < PGNUM UTOP) as Hn by (rewrite !PGNUM_div; change UTOP with 4005560320 in *; zlia).
  pose proof (k_vpt pds s l fl c cur x pd (PGNUM addr) Hr Hn) as Hv. rewrite PDX_PGNUM in Hv by done. fold pde in Hv.
  unfold pgfault. split.
  - intros Hno. apply bind_Exit. rewrite Hv. by destruct Hno as [-> | ->]; rewrite ?andb_false_r.
  - intros HP HU Hc. rewrite HP, HU in Hv. cbn [andb] in Hv. rewrite (bind_Done _ _ _ _ _ Hv).
    rewrite (bind_Done _ _ _ _ _ (k_vpd pds s l fl c cur x pd (PDX addr) Hr (PDX_user addr Hva))). fold pde.
    rewrite land_PU, HP, HU. cbn [andb negb]. rewrite (bind_Done _ _ _ _ _ Hv).
    destruct (view s pd !! PGNUM addr) as [e|] eqn:He; cbn [default id]; [|done].
    destruct (has PTE_COW e) eqn:Ec; [rewrite (Hc e eq_refl Ec)|]; by rewrite ?andb_false_r.
Qed.

Lemma duppage_kernel s l fl c cur x pd envid pd' pn e :
  running s fl pds c cur x pd → who_of s cur (s32 (u32 envid)) false = Some pd' → pd' ≠ pd →
  0 <= pn < PGNUM UTOP → view s pd !! pn = Some e →
  has PTE_U e = true → has PTE_U (pde_of s pd (pn / 1024)) = true → page_count s (PGNUM e) < 65534 →
  ∃ s' (mapped : bool) fl' c' cur' x',
    duppage envid pn (mkUmach s l) = Done 0 (mkUmach s' l) ∧ running s' fl' pds c' cur' x' pd ∧
    (let E := Some (pte_entry (PGNUM e) (dup_perm e)) in
     let A := if mapped then set_entry pd' (PGNUM2LA pn) E (abstract s pds) else abstract s pds in
     abstract s' pds = if shares_cow e then set_entry pd (PGNUM2LA pn) E A else A) ∧
    (∀ pd' n e', pd' ∈ pds → view s' pd' !! n = Some e' → page_same (PGNUM e') (mem s) (mem s')) ∧
    (mapped = false → fl = []).
Proof.
  intros Hr Hw Hne Hn He Hu Hd Hc. pose proof (running_self pds _ _ _ _ _ _ Hr) as [Es Ec].
  destruct (PGNUM2LA_valid pn Hn) as ([Hv _] & _ & Epn).
  assert (uo_inv (user_view := kernel_view pds) (mkUmach s l)) as Hi by (exists fl, c, cur, x, pd; done).
  destruct (@duppage_run umach _ (kernel_view pds) _ (mkUmach s l) envid pd' pn (PGNUM e) e Hi Hn)
    as ([s' l'] & mapped & Hrun & Hsh & Hno).
  { eapply readable_kernel; try done; [by rewrite Epn|]. by rewrite <- PDX_PGNUM, Epn. }
  { cbn [uo_who kernel_view uk]. by rewrite Ec. }
  { cbn [uo_self kernel_view uk]. by rewrite Es. }
  { done. }
  pose proof (sh_lib _ _ _ _ _ _ Hsh) as Hl. cbn [um_lib kernel_machine ul] in Hl. subst l'.
  destruct (sh_inv _ _ _ _ _ _ Hsh) as (fl' & c' & cur' & x' & pd1 & Hr'). cbn [uk] in Hr'.
  pose proof (sh_self _ _ _ _ _ _ Hsh) as Hself. cbn [uo_self kernel_view uk] in Hself.
  destruct (running_self pds _ _ _ _ _ _ Hr') as [Es' _]. rewrite Es, Es' in Hself. subst pd1.
  exists s', mapped, fl', c', cur', x'. split; [done|]. split; [done|]. split; [|split].
  - pose proof (sh_spaces _ _ _ _ _ _ Hsh) as H. cbn [uo_spaces uo_self kernel_view uk] in H. by rewrite Es in H.
  - intros pd2 n e' Hpd2 He' a Ha. pose proof (sh_bytes _ _ _ _ _ _ Hsh (PGNUM e') (a - PGNUM e' * 4096)) as H.
    cbn [uo_byte kernel_view uk] in H. replace (PGNUM e' * 4096 + (a - PGNUM e' * 4096)) with a in H by lia.
    apply H; [by eapply view_in_use|lia].
  - intros Hm. pose proof (short_elim pds _ _ _ _ _ _ _ _ Hr (Hno Hm)). destruct fl; [done|simpl in *; lia].
Qed.

(** C10: duppage shares a page with a child without giving either of them a way to
    write it.  For a page that the caller maps for user code, and whose reference
    count leaves room for two more references in its 16 bits (fewer than 65534),
    duppage always returns 0.  Both spaces then map the caller's physical page with the same
    entry, which is not writable, and which is marked copy-on-write if the caller
    could write the page or already had it copy-on-write; a page that was
    read-only is left as it is in the caller's own space.  No other mapping and
    no contents of a mapped page change.  The result of the system call that maps
    the page into the child is ignored: when no page is free for the child's page
    table, and only then, the child is left without the page and duppage returns
    0 all the same. *)
Theorem duppage_shares s l fl c cur x pd envid pd' pn e :
  running s fl pds c cur x pd → who_of s cur (s32 (u32 envid)) false = Some pd' → pd' ∈ pds → pd' ≠ pd →
  0 <= pn < PGNUM UTOP → view s pd !! pn = Some e →
  has PTE_U e = true → has PTE_U (pde_of s pd (pn / 1024)) = true → page_count s (PGNUM e) < 65534 →
  ∃ s' (mapped : bool) fl', duppage envid pn (mkUmach s l) = Done 0 (mkUmach s' l) ∧ spaces s' fl' pds ∧
    (mapped = false → fl = []) ∧
    let E := pte_entry (PGNUM e) (dup_perm e) in
    PGNUM E = PGNUM e ∧ has PTE_W E = false ∧
    (has PTE_W e = true ∨ has PTE_COW e = true → has PTE_COW E = true) ∧
    view s' pd = (if shares_cow e then <[pn := E]> (view s pd) else view s pd) ∧
    view s' pd' = (if mapped then <[pn := E]> (view s pd') else view s pd') ∧
    (∀ pd2, pd2 ∈ pds → pd2 ≠ pd → pd2 ≠ pd' → view s' pd2 = view s pd2) ∧
    (∀ pd2 n e', pd2 ∈ pds → view s' pd2 !! n = Some e' → page_same (PGNUM e') (mem s) (mem s')).
Proof.
  intros Hr Hw Hpd' Hne Hn He Hu Hd Hc.
  destruct (duppage_kernel s l fl c cur x pd envid pd' pn e Hr Hw Hne Hn He Hu Hd Hc)
    as (s' & mapped & fl' & c' & cur' & x' & Hrun & Hr' & HA & Hb & Hno). cbv zeta in HA.
  destruct (PGNUM2LA_valid pn Hn) as (_ & _ & Epn).
  destruct (k_entry pds s fl c cur x pd pn e Hr He) as (_ & _ & _ & Hq).
  assert (∀ pd2, pd2 ∈ pds → Some (view s' pd2) = abstract s' pds !! pd2) as Hv.
  { intros pd2 H2. by rewrite lookup_abstract, decide_True. }
  assert (pd ≠ pd') as Hne' by congruence.
  exists s', mapped, fl'. split; [done|]. split; [apply Hr'|]. split; [done|]. cbv zeta.
  split; [apply entry_PGNUM; [done|apply dup_perm_range]|].
  split; [by apply dup_entry_W|]. split; [by apply dup_entry_COW|].
  assert (∀ pd2, pd2 ∈ pds → abstract s pds !! pd2 = Some (view s pd2)) as Hv0.
  { intros pd2 H2. by rewrite lookup_abstract, decide_True. }
  split; [|split; [|split; [|done]]].
  - apply (inj Some). rewrite Hv, HA by apply Hr.
    destruct (shares_cow e), mapped; rewrite ?lookup_set_entry, ?(decide_True (P := pd = pd)), ?(decide_False (P := pd' = pd)) by done;
      rewrite Hv0 by apply Hr; by rewrite ?Epn.
  - apply (inj Some). rewrite Hv, HA by done.
    destruct (shares_cow e), mapped; rewrite ?lookup_set_entry, ?(decide_True (P := pd' = pd')), ?(decide_False (P := pd = pd')) by done;
      rewrite Hv0 by done; by rewrite ?Epn.
  - intros pd2 H2 N1%not_eq_sym N2%not_eq_sym. apply (inj Some). rewrite Hv, HA by done.
    destruct (shares_cow e), mapped; rewrite ?lookup_set_entry, ?(decide_False (P := pd' = pd2)), ?(decide_False (P := pd = pd2)) by done;
      by rewrite Hv0.
Qed.
End properties.

(** ** Concrete instances *)

(** Environment 1 of [ex_kernel] in user mode, in directory 2, with page 8
    copy-on-write at 0x2000; its child, environment 2, has directory 10. *)
Definition ex_run : kstate :=
  let m := store32 (mem ex_kernel) (2 * 4096 + 4 * self_index) (self_entry 2) in
  let m := store32 m (6 * 4096 + 8) (8 * 4096 + 0x805) in
  set_envs (<[2 := set_env_pgdir (pgdir_kva 10) (ex_env 2)]> (envs ex_kernel))
    (set_mem m (set_cr3 {[ 0 := 2 * 4096 ]} (set_kernel_lock (mkSpinlock 0 None) ex_kernel))).

Lemma ex_run_spaces : spaces ex_run [3; 5; 4] [2; 10].
Proof. apply spaces_check; [by_compute|by_compute|by_compute|split; by_compute]. Qed.

Lemma ex_run_housed : housed ex_run [2; 10].
Proof.
  intros e y Hy Hst.
  assert (map_Forall (λ _ y, env_status y ≠ ENV_FREE → env_pgdir y = pgdir_kva 2 ∨ env_pgdir y = pgdir_kva 10)
    (envs ex_run)) as H by by_compute.
  destruct (H e y Hy Hst) as [E|E]; clear -E; [exists 2|exists 10]; (split; [|exact E]); set_solver.
Qed.

Lemma ex_run_running : running ex_run [3; 5; 4] [2; 10] (mkCpu 0 1 (Some 1) 0 0) 1 (ex_env 1) 2.
Proof.
  split; [|reflexivity|reflexivity|by left|by_compute|reflexivity|reflexivity|apply ex_run_spaces
    |apply ex_run_housed|by_compute].
  split; [by_compute|reflexivity|by_compute|]. unfold all_envs. by_compute.
Qed.

(** A write to 0x2000. *)
Lemma pgfault_private_copy_witness :
  ∃ s' q fl', pgfault 0x2010 7 (mkUmach ex_run (mkUlib 0x800020 1)) = Done tt (mkUmach s' (mkUlib 0x800020 1)) ∧
    spaces s' fl' [2; 10] ∧
    (∀ pd' n e', pd' ∈ [2; 10] → view ex_run pd' !! n = Some e' → PGNUM e' ≠ q) ∧
    view s' 2 = delete (PGNUM PFTEMP) (<[2 := pte_entry q PTE_PUW]> (view ex_run 2)) ∧
    (∀ pd', pd' ∈ [2; 10] → pd' ≠ 2 → view s' pd' = view ex_run pd') ∧
    (∀ o, 0 <= o < 4096 → mget (mem s') (q * 4096 + o) = mget (mem ex_run) (8 * 4096 + o)) ∧
    (∀ pd' n e', pd' ∈ [2; 10] → view s' pd' !! n = Some e' → PGNUM e' ≠ q →
       page_same (PGNUM e') (mem ex_run) (mem s')) ∧
    user_mmu s' 0x2010 true = Some (q * 4096 + 16).
Proof.
  destruct (pgfault_private_copy [2; 10] ex_run (mkUlib 0x800020 1) [3; 5; 4] (mkCpu 0 1 (Some 1) 0 0) 1 (ex_env 1) 2
    0x2010 7 (8 * 4096 + 0x805)) as [(m' & _ & Hlen & _)|H];
    [apply ex_run_running|by_compute|by_compute|by_compute|reflexivity|by_compute|reflexivity|reflexivity| |exact H].
  exfalso. simpl in Hlen. lia.
Defined.

(** A read of 0x2000, and a write to 0x400000, which has no page table. *)
Lemma pgfault_rejects_witness :
  pgfault 0x2010 5 (mkUmach ex_run (mkUlib 0x800020 1)) =
    Exit (UPanic "page fault handler failed by: %d" (-2)) (mkUmach ex_run (mkUlib 0x800020 1)) ∧
  pgfault 0x400000 7 (mkUmach ex_run (mkUlib 0x800020 1)) =
    Exit (UFault (VPT + 4 * 1024)) (mkUmach ex_run (mkUlib 0x800020 1)).
Proof.
  split.
  - apply (pgfault_rejects [2; 10] ex_run (mkUlib 0x800020 1) [3; 5; 4] (mkCpu 0 1 (Some 1) 0 0) 1 (ex_env 1) 2 0x2010 5);
      [apply ex_run_running|by_compute|by_compute|by_compute|reflexivity].
  - apply (pgfault_rejects [2; 10] ex_run (mkUlib 0x800020 1) [3; 5; 4] (mkCpu 0 1 (Some 1) 0 0) 1 (ex_env 1) 2 0x400000 7);
      [apply ex_run_running|by_compute|left; by_compute].
Defined.

(** Environment 1 shares its page at 0x1000 with its child. *)
Lemma duppage_shares_witness :
  ∃ s' fl', duppage 4098 1 (mkUmach ex_run (mkUlib 0x800020 1)) =
      Done 0 (mkUmach s' (mkUlib 0x800020 1)) ∧ spaces s' fl' [2; 10] ∧
    view s' 2 = <[1 := 7 * 4096 + 0x805]> (view ex_run 2) ∧
    view s' 10 = <[1 := 7 * 4096 + 0x805]> (view ex_run 10).
Proof.
  destruct (duppage_shares [2; 10] ex_run (mkUlib 0x800020 1) [3; 5; 4] (mkCpu 0 1 (Some 1) 0 0) 1 (ex_env 1) 2 4098 10 1
    (7 * 4096 + 7)) as (s' & [|] & fl' & H1 & H2 & Hno & H3);
    [apply ex_run_running|by_compute|by_compute|done|by_compute|by_compute|reflexivity|by_compute|by_compute| |].
  - exists s', fl'. split; [exact H1|]. split; [exact H2|].
    destruct H3 as (_ & _ & _ & H4 & H5 & _). split; [exact H4|exact H5].
  - by specialize (Hno eq_refl).
Defined.
