(* ===== verification/Kdebug.v ===== *)
(** * Debugging information: kern/kdebug.c

    The search in the table of stabs that the linker puts into the kernel, or
    into a user program, and the lookup of the function and the source line that
    contain an instruction.  The tables are read through the page tables in use;
    where the linker puts the kernel's own tables is a parameter. *)

From S2P Require Import Prelude Devices Machine PageAlloc Pmap UserMem Env Syscall Trap.
From stdpp Require Import base numbers list gmap fin_maps strings.

Local Open Scope Z_scope.

Definition N_FUN : Z := 0x24.
Definition N_SLINE : Z := 0x44.
Definition N_SO : Z := 0x64.
Definition N_SOL : Z := 0x84.
Definition N_PSYM : Z := 0xa0.

(** The fields of [stabs[i]], an array of 12-byte [struct Stab]. *)
Definition n_strx (stabs i : Z) : M Z := vrd32 (u32 (stabs + 12 * i)).
Definition n_type (stabs i : Z) : M Z := vrd8 (u32 (stabs + 12 * i + 4)).
Definition n_desc (stabs i : Z) : M Z := vrd16 (u32 (stabs + 12 * i + 6)).
Definition n_value (stabs i : Z) : M Z := vrd32 (u32 (stabs + 12 * i + 8)).

(** [while (m >= lo && stabs[m].n_type != type) m--;] *)
Definition back_to (stabs type lo m : Z) : M Z :=
  loop (S (Z.to_nat (m - lo + 1))) NoFuel (λ m,
    if lo <=? m then
      t ← n_type stabs m;
      if t =? type then mret (inr m) else mret (inl (m - 1))
    else mret (inr m)) m.

(** One round of the search: [l], [r], [any_matches], the values of
    [*region_left] and [*region_right] so far, and [addr]. *)
Definition binsearch_step (stabs type : Z) :
    Z * Z * bool * Z * Z * Z → M (Z * Z * bool * Z * Z * Z + bool * Z * Z) :=
  λ '(l, r, any_matches, lft, rgt, addr),
    if l <=? r then
      let true_m := Z.quot (l + r) 2 in
      m ← back_to stabs type l true_m;
      if m <? l then mret (inl (true_m + 1, r, any_matches, lft, rgt, addr)) else
      v ← n_value stabs m;
      if v <? addr then mret (inl (true_m + 1, r, true, m, rgt, addr))
      else if addr <? v then mret (inl (l, m - 1, true, lft, m - 1, addr))
      else mret (inl (m, r, true, m, rgt, u32 (addr + 1)))
    else mret (inr (any_matches, lft, rgt)).

(** The final values of [*region_left] and [*region_right].  The loop runs at
    most twice per index: an exact match may leave its interval unchanged, but
    then the next probe of the same entry shortens it. *)
Definition stab_binsearch (stabs region_left region_right type addr : Z) : M (Z * Z) :=
  '(any_matches, lft, rgt) ← loop (S (Z.to_nat (2 * (region_right - region_left + 1)))) NoFuel
    (binsearch_step stabs type) (region_left, region_right, false, region_left, region_right, addr);
  if negb any_matches then mret (lft, lft - 1) else
  l ← back_to stabs type (lft + 1) rgt;
  mret (l, rgt).

(** ** [debuginfo_eip] *)

(** A C string of the kernel's text, or at an address. *)
Inductive cname : Type := Unknown | At (va : Z).

(** [struct Eipdebuginfo] of kern/kdebug.h *)
Record Eipdebuginfo : Type := mkEipdebuginfo {
  eip_file : cname;
  eip_line : Z;
  eip_fn_name : cname;
  eip_fn_namelen : Z;
  eip_fn_addr : Z;
  eip_fn_narg : Z
}.

(** [strfind (name, ':') - name]; "<unknown>" has no colon. *)
Definition name_length (fuel : nat) (name : cname) : M Z :=
  match name with
  | Unknown => mret 9
  | At va => loop fuel NoFuel (λ n,
      c ← vrd8 (u32 (va + n));
      if (c =? 0) || (c =? 58) then mret (inr n) else mret (inl (n + 1))) 0
  end.

Definition USTABDATA : Z := PTSIZE / 2.

(** The bounds of the two tables: [stabs], [stab_end], [stabstr], [stabstr_end]. *)
Record UserStabData : Type := mkUserStabData {
  stabs : Z; stab_end : Z; stabstr : Z; stabstr_end : Z
}.

(** The tables for [addr]: the kernel's own, or those of the current environment
    when they can be read by it. *)
Definition find_stabs (ktab : UserStabData) (addr : Z) : M (option UserStabData) :=
  if ULIM <=? addr then mret (Some ktab) else
  cur ← curenv_ptr;
  let perm := Z.lor PTE_P PTE_U in
  r ← user_mem_check cur USTABDATA 16 perm;
  if negb (0 =? r) then mret None else
  stabs ← vrd32 USTABDATA;
  stab_end ← vrd32 (USTABDATA + 4);
  stabstr ← vrd32 (USTABDATA + 8);
  stabstr_end ← vrd32 (USTABDATA + 12);
  r ← user_mem_check cur stabstr (u32 (stabstr_end - stabstr)) perm;
  if negb (0 =? r) then mret None else
  r ← user_mem_check cur stabs (u32 (stab_end - stabs)) perm;
  if negb (0 =? r) then mret None else
  mret (Some (mkUserStabData stabs stab_end stabstr stabstr_end)).

(** The entry that names the file of [lline]: an [N_SOL], or an [N_SO] with an
    address, at or after [lfile]. *)
Definition find_file (stabs lfile lline : Z) : M Z :=
  loop (S (Z.to_nat (lline - lfile + 1))) NoFuel (λ lline,
    if lfile <=? lline then
      t ← n_type stabs lline;
      if t =? N_SOL then mret (inr lline) else
      if negb (t =? N_SO) then mret (inl (lline - 1)) else
      v ← n_value stabs lline;
      if v =? 0 then mret (inl (lline - 1)) else mret (inr lline)
    else mret (inr lline)) lline.

(** The number of [N_PSYM] entries that follow [lfun]. *)
Definition count_args (stabs lfun rfun : Z) : M Z :=
  lline ← loop (S (Z.to_nat (rfun - lfun))) NoFuel (λ lline,
    if lline <? rfun then
      t ← n_type stabs lline;
      if t =? N_PSYM then mret (inl (lline + 1)) else mret (inr lline)
    else mret (inr lline)) (lfun + 1);
  mret (lline - (lfun + 1)).

(** The result and [*info]; [sfuel] bounds the length of a function's name. *)
Definition debuginfo_eip (sfuel : nat) (ktab : UserStabData) (addr : Z) : M (Z * Eipdebuginfo) :=
  let info := mkEipdebuginfo Unknown 0 Unknown 9 addr 0 in
  t ← find_stabs ktab addr;
  match t with
  | None => mret (-1, info)
  | Some (mkUserStabData stabs stab_end stabstr stabstr_end) =>
      if stabstr_end <=? stabstr then mret (-1, info) else
      last ← vrd8 (u32 (stabstr_end - 1));
      if negb (last =? 0) then mret (-1, info) else
      '(lfile, rfile) ← stab_binsearch stabs 0 (Z.quot (s32 (stab_end - stabs)) 12 - 1) N_SO addr;
      if lfile =? 0 then mret (-1, info) else
      '(lfun, rfun) ← stab_binsearch stabs lfile rfile N_FUN addr;
      '(fn_name, fn_addr, addr, lline, rline) ←
        (if lfun <=? rfun then
           strx ← n_strx stabs lfun;
           fn_addr ← n_value stabs lfun;
           mret (if strx <? u32 (stabstr_end - stabstr) then At (u32 (stabstr + strx)) else Unknown,
                 fn_addr, u32 (addr - fn_addr), lfun, rfun)
         else mret (Unknown, addr, addr, lfile, rfile));
      namelen ← name_length sfuel fn_name;
      '(lline, rline) ← stab_binsearch stabs lline rline N_SLINE addr;
      line ← n_desc stabs lline;
      lline ← find_file stabs lfile lline;
      strx ← (if lfile <=? lline then n_strx stabs lline else mret 0xFFFFFFFF);
      let file := if (lfile <=? lline) && (strx <? u32 (stabstr_end - stabstr))
                  then At (u32 (stabstr + strx)) else Unknown in
      narg ← (if lfun <? rfun then count_args stabs lfun rfun else mret 0);
      mret (0, mkEipdebuginfo file line fn_name namelen fn_addr narg)
  end.

#[global] Arguments back_to : simpl never.
#[global] Arguments stab_binsearch : simpl never.
#[global] Arguments n_type : simpl never.
#[global] Arguments n_value : simpl never.

(** ** The search *)

Section search.
Variables (stabs L R type A : Z) (ty va : Z → Z) (s : kstate).

(** The entries from [L] to [R] can be read. *)
Definition readable : Prop :=
  ∀ i, L <= i <= R → n_type stabs i s = Done (ty i) s ∧ n_value stabs i s = Done (va i) s.

(** The matching entries are in increasing order, none at the address that
    follows [A]. *)
Definition ordered : Prop :=
  (∀ i j, L <= i → i < j → j <= R → ty i = type → ty j = type → va i < va j) ∧
  (∀ i, L <= i <= R → ty i = type → va i ≠ A + 1).

Hypothesis Hread : readable.

Lemma back_to_run lo m :
  L <= lo → lo - 1 <= m → m <= R →
  ∃ j, back_to stabs type lo m s = Done j s ∧ lo - 1 <= j <= m ∧
    (∀ i, j < i <= m → ty i ≠ type) ∧ (lo <= j → ty j = type).
Proof.
  intros Hlo Hm HR. unfold back_to. remember (Z.to_nat (m - lo + 1)) as n eqn:Hn.
  revert m Hm HR Hn. induction n as [|n IH]; intros m Hm HR Hn; rewrite loop_S.
  - destruct (Z.leb_spec lo m); [lia|]. rewrite run_ret. exists m. split; [reflexivity|].
    split; [lia|]. split; intros; lia.
  - destruct (Z.leb_spec lo m); [|lia].
    rewrite run_assoc, (bind_Done _ _ _ _ _ (proj1 (Hread m ltac:(lia)))).
    destruct (Z.eqb_spec (ty m) type) as [Ht|Ht]; rewrite run_ret.
    + exists m. split; [reflexivity|]. split; [lia|]. split; [intros; lia|done].
    + destruct (IH (m - 1)) as (j & Hj & Hr & Hno & Hty); [lia|lia|lia|].
      exists j. split; [exact Hj|]. split; [lia|]. split; [|done].
      intros i Hi. destruct (decide (i = m)) as [->|]; [done|]. apply Hno. lia.
Qed.

(** What the loop knows: matching entries left of [l] are at or before [A], those
    right of [r] are after it; [lft] is the start or a match at or before [A]. *)
Record searching (l r : Z) (any : bool) (lft rgt addr : Z) : Prop := {
  sg_l : L <= l <= r + 1;
  sg_r : r <= R;
  sg_right : rgt = r;
  sg_addr : addr = A ∨ addr = A + 1;
  sg_before : ∀ i, L <= i < l → ty i = type → va i <= A;
  sg_after : ∀ i, r < i <= R → ty i = type → A < va i;
  sg_left : lft = L ∨ L <= lft <= R ∧ ty lft = type ∧ va lft <= A;
  sg_edge : r = R ∨ ty (r + 1) = type;
  sg_none : any = false → lft = L ∧ r = R ∧ ∀ i, L <= i < l → ty i ≠ type;
  sg_any : any = true → ∃ i, L <= i <= R ∧ ty i = type;
}.

(** The entry at [l] is of the type and not at the address looked for, as after an
    exact match: the next probe of it shortens the interval. *)
Definition settled (l r addr : Z) : Z :=
  if (l <=? r) && ((ty l =? type) && negb (va l =? addr)) then 1 else 0.

Lemma settled_cases l r addr : settled l r addr = 0 ∨ settled l r addr = 1.
Proof. unfold settled. destruct (_ && _); auto. Qed.

(** After an exact match the interval is settled, whether the address that is
    looked for next wraps around or not. *)
Lemma settled_match l r m addr :
  l <= m <= r → ty m = type → va m = addr →
  2 * (r - m + 1) - settled m r (u32 (addr + 1)) < 2 * (r - l + 1) - settled l r addr.
Proof.
  intros Hm Hty Hv.
  assert (settled m r (u32 (addr + 1)) = 1) as ->.
  { unfold settled. rewrite Hty, Z.eqb_refl, (proj2 (Z.leb_le _ _)), (proj2 (Z.eqb_neq _ _)); [done| |lia].
    rewrite Hv. unfold u32. zlia. }
  destruct (decide (m = l)) as [->|]; [|destruct (settled_cases l r addr); lia].
  assert (settled l r addr = 0) as ->; [|lia].
  unfold settled. by rewrite Hv, Z.eqb_refl, !andb_false_r.
Qed.

(** *** The search ends, whatever the table holds *)

Lemma binsearch_step_eq l r any lft rgt addr :
  binsearch_step stabs type (l, r, any, lft, rgt, addr) =
    if l <=? r then
      m ← back_to stabs type l (Z.quot (l + r) 2);
      if m <? l then mret (inl (Z.quot (l + r) 2 + 1, r, any, lft, rgt, addr)) else
      v ← n_value stabs m;
      if v <? addr then mret (inl (Z.quot (l + r) 2 + 1, r, true, m, rgt, addr))
      else if addr <? v then mret (inl (l, m - 1, true, lft, m - 1, addr))
      else mret (inl (m, r, true, m, rgt, u32 (addr + 1)))
    else mret (inr (any, lft, rgt)).
Proof. reflexivity. Qed.

Record bounded (l r lft rgt : Z) : Prop := {
  bd_l : L <= l <= r + 1;
  bd_r : r <= R;
  bd_left : L <= lft <= R ∨ lft = L;
  bd_right : L - 1 <= rgt <= R
}.

Lemma binsearch_ends n l r any lft rgt addr :
  0 <= L → bounded l r lft rgt → 2 * (r - l + 1) - settled l r addr < Z.of_nat n →
  ∃ any' lft' rgt', loop n NoFuel (binsearch_step stabs type) (l, r, any, lft, rgt, addr) s =
    Done (any', lft', rgt') s ∧ (L <= lft' <= R ∨ lft' = L) ∧ L - 1 <= rgt' <= R.
Proof.
  intros HL. revert l r any lft rgt addr.
  induction n as [|n IH]; intros l r any lft rgt addr [B1 B2 B3 B4] Hn.
  { unfold settled in Hn. destruct (Z.leb_spec l r); [destruct (_ && _)|]; simpl in Hn; lia. }
  rewrite loop_S, binsearch_step_eq. destruct (Z.leb_spec l r) as [Hlr|Hlr].
  2: { rewrite run_ret, ret_eq. exists any, lft, rgt. done. }
  set (t := Z.quot (l + r) 2). assert (l <= t <= r) as Ht.
  { unfold t. rewrite Z.quot_div_nonneg by lia. Z.div_mod_to_equations. lia. }
  destruct (back_to_run l t) as (m & Hm & Hmr & Hmno & Hmty); [lia..|].
  rewrite run_assoc, (bind_Done _ _ _ _ _ Hm). destruct (Z.ltb_spec m l) as [Hml|Hml].
  - rewrite run_ret. apply IH; [split; (done || lia)|].
    destruct (settled_cases l r addr), (settled_cases (t + 1) r addr); lia.
  - specialize (Hmty Hml). rewrite run_assoc, (bind_Done _ _ _ _ _ (proj2 (Hread m ltac:(lia)))).
    destruct (Z.ltb_spec (va m) addr) as [Hv|Hv]; [|destruct (Z.ltb_spec addr (va m)) as [Hv'|Hv']];
      rewrite run_ret; (apply IH; [split; lia|]).
    + destruct (settled_cases l r addr), (settled_cases (t + 1) r addr); lia.
    + destruct (settled_cases l r addr), (settled_cases l (m - 1) addr); lia.
    + pose proof (settled_match l r m addr ltac:(lia) Hmty ltac:(lia)). lia.
Qed.

Lemma stab_binsearch_ends addr :
  0 <= L <= R + 1 →
  ∃ lft rgt, stab_binsearch stabs L R type addr s = Done (lft, rgt) s ∧ L - 1 <= rgt <= R ∧
    (lft <= R ∨ lft = L) ∧ L - 1 <= lft.
Proof.
  intros HL. unfold stab_binsearch.
  destruct (binsearch_ends (S (Z.to_nat (2 * (R - L + 1)))) L R false L R addr)
    as (any & lft & rgt & Hrun & Hl & Hr); [lia|split; lia|destruct (settled_cases L R addr); lia|].
  rewrite (bind_Done _ _ _ _ _ Hrun). destruct any; cbn [negb]; [|exists lft, (lft - 1); split; [done|]; lia].
  destruct (decide (lft <= rgt)) as [Hle|Hgt].
  - destruct (back_to_run (lft + 1) rgt) as (j & Hj & Hjr & _); [lia..|].
    rewrite (bind_Done _ _ _ _ _ Hj). exists j, rgt. split; [done|]. lia.
  - assert (back_to stabs type (lft + 1) rgt s = Done rgt s) as Hj.
    { unfold back_to. rewrite loop_S. destruct (Z.leb_spec (lft + 1) rgt); [lia|]. by rewrite run_ret. }
    rewrite (bind_Done _ _ _ _ _ Hj). exists rgt, rgt. split; [done|]. lia.
Qed.

(** *** What it finds in an ordered table *)

Lemma binsearch_loop n l r any lft rgt addr :
  ordered → 0 <= L → A + 1 < 4294967296 → 0 <= A →
  searching l r any lft rgt addr → 2 * (r - l + 1) - settled l r addr < Z.of_nat n →
  ∃ any' lft' rgt' r', loop n NoFuel (binsearch_step stabs type) (l, r, any, lft, rgt, addr) s =
    Done (any', lft', rgt') s ∧ ∃ addr', searching (r' + 1) r' any' lft' rgt' addr'.
Proof.
  intros [Hord Hnext] HL HA1 HA0. revert l r any lft rgt addr.
  induction n as [|n IH]; intros l r any lft rgt addr Hs Hn.
  { pose proof (sg_l _ _ _ _ _ _ Hs). unfold settled in Hn.
    destruct (Z.leb_spec l r); [destruct (_ && _)|]; simpl in Hn; lia. }
  rewrite loop_S, binsearch_step_eq. destruct (Z.leb_spec l r) as [Hlr|Hlr].
  2: { rewrite run_ret, ret_eq. exists any, lft, rgt, r. split; [reflexivity|].
       exists addr. pose proof (sg_l _ _ _ _ _ _ Hs). by replace (r + 1) with l by lia. }
  set (t := Z.quot (l + r) 2). destruct Hs as [S1 S2 S3 S4 S5 S6 S7 S8 S9 S10].
  assert (l <= t <= r) as Ht.
  { unfold t. rewrite Z.quot_div_nonneg by lia. Z.div_mod_to_equations. lia. }
  destruct (back_to_run l t) as (m & Hm & Hmr & Hmno & Hmty); [lia..|].
  rewrite run_assoc, (bind_Done _ _ _ _ _ Hm).
  assert (settled l r addr = 0 ∨ settled l r addr = 1) as Hset by (unfold settled; destruct (_ && _); auto).
  destruct (Z.ltb_spec m l) as [Hml|Hml].
  - rewrite run_ret. assert (settled l r addr = 0) as E0.
    { unfold settled. rewrite (proj2 (Z.eqb_neq _ _)), andb_false_r; [done|]. apply Hmno. lia. }
    apply IH.
    + split; try done; try discriminate; [lia| |].
      * intros i Hi Hty. destruct (decide (i < l)); [apply S5; [lia|done]|].
        exfalso. apply (Hmno i); [lia|done].
      * intros Ha. destruct (S9 Ha) as (-> & -> & Hno). split; [done|]. split; [done|].
        intros i Hi. destruct (decide (i < l)); [apply Hno; lia|apply Hmno; lia].
    + unfold settled at 1. destruct (_ && _); lia.
  - specialize (Hmty Hml). rewrite run_assoc, (bind_Done _ _ _ _ _ (proj2 (Hread m ltac:(lia)))).
    assert (∀ i, L <= i <= t → ty i = type → va i <= va m) as Hbef.
    { intros i Hi Hty. destruct (Z.lt_trichotomy i m) as [Hlt|[->|Hgt]]; [|lia|].
      - apply Z.lt_le_incl, (Hord i m); (lia || done).
      - exfalso. apply (Hmno i); [lia|done]. }
    destruct (Z.ltb_spec (va m) addr) as [Hv|Hv]; [|destruct (Z.ltb_spec addr (va m)) as [Hv'|Hv']];
      rewrite run_ret; apply IH.
    + split; try done; try discriminate; [lia| | |].
      * intros i Hi Hty. specialize (Hbef i ltac:(lia) Hty). lia.
      * right. split; [lia|]. split; [done|]. lia.
      * intros _. exists m. split; [lia|done].
    + unfold settled at 1. destruct (_ && _); lia.
    + split; try done; try discriminate; [lia|lia| | |].
      * intros i Hi Hty. destruct (decide (i = m)) as [->|]; [lia|].
        specialize (Hord m i ltac:(lia) ltac:(lia) ltac:(lia) Hmty Hty). lia.
      * right. by replace (m - 1 + 1) with m by lia.
      * intros _. exists m. split; [lia|done].
    + unfold settled at 1. destruct (_ && _); lia.
    + assert (va m = addr) as Em by lia. assert (addr = A) as ->.
      { destruct S4 as [|E]; [done|]. exfalso. apply (Hnext m ltac:(lia) Hmty). lia. }
      rewrite u32_id by lia. split; try done; try discriminate; [lia|by right| | |].
      * intros i Hi Hty. specialize (Hbef i ltac:(lia) Hty). lia.
      * right. split; [lia|]. split; [done|lia].
      * intros _. exists m. split; [lia|done].
    + pose proof (settled_match l r m addr ltac:(lia) Hmty ltac:(lia)). lia.
Qed.

(** The two values computed, from the order of the matching entries. *)
Lemma stab_binsearch_run :
  ordered → 0 <= L <= R + 1 → 0 <= A → A + 1 < 4294967296 →
  ∃ lft rgt, stab_binsearch stabs L R type A s = Done (lft, rgt) s ∧
    ((∀ i, L <= i <= R → ty i ≠ type) → lft = L ∧ rgt = L - 1) ∧
    (∀ j, L <= j <= R → ty j = type → va j <= A →
       (∀ i, j < i <= R → ty i = type → A < va i) →
       lft = j ∧ j <= rgt <= R ∧ (∀ i, j < i <= rgt → ty i ≠ type) ∧
       (rgt = R ∨ ty (rgt + 1) = type)) ∧
    (∀ j, L <= j <= R → ty j = type → A < va j → (∀ i, L <= i < j → ty i ≠ type) →
       rgt = j - 1 ∧ lft = Z.min L (j - 1)).
Proof.
  intros Hord HL HA HA1. unfold stab_binsearch.
  destruct (binsearch_loop (S (Z.to_nat (2 * (R - L + 1)))) L R false L R A Hord)
    as (any & lft & rgt & r & Hrun & addr & Hs); [lia|lia|lia| | |].
  { split; try done; try lia; try (intros; lia); try by left.
    intros _. split; [done|]. split; [done|]. intros; lia. }
  { unfold settled. destruct (_ && _); lia. }
  rewrite (bind_Done _ _ _ _ _ Hrun). clear Hrun.
  destruct Hs as [S1 S2 -> _ S5 S6 S7 S8 S9 S10]. destruct any; cbn [negb].
  2: { destruct (S9 eq_refl) as (-> & -> & Hno). exists L, (L - 1). split; [reflexivity|].
       split; [done|]. split; intros j Hj Hty; exfalso; apply (Hno j); (lia || done). }
  destruct (decide (lft <= r)) as [Hlr|Hlr].
  - destruct (back_to_run (lft + 1) r) as (j & Hj & Hjr & Hno & Hty); [lia..|].
    rewrite (bind_Done _ _ _ _ _ Hj). exists j, r. split; [reflexivity|]. split_and!.
    + intros Hnone. exfalso. destruct (S10 eq_refl) as (i & Hi & Hti). by apply (Hnone i).
    + intros k Hk Htk Hvk Hafter. assert (k <= r) as Hkr.
      { destruct (decide (k <= r)); [done|]. specialize (S6 k ltac:(lia) Htk). lia. }
      assert (j = k) as ->.
      { destruct (Z.lt_trichotomy j k) as [Hlt|[?|Hgt]]; [|done|].
        - exfalso. apply (Hno k); [lia|done].
        - exfalso. destruct (decide (lft + 1 <= j)) as [Hle|].
          + specialize (Hafter j ltac:(lia) (Hty Hle)). specialize (S5 j ltac:(lia) (Hty Hle)). lia.
          + assert (j = lft) as -> by lia. destruct S7 as [->|(Hb & Htl & Hvl)]; [lia|].
            specialize (Hafter lft ltac:(lia) Htl). lia. }
      split; [done|]. split; [lia|]. split; [intros i Hi; apply Hno; lia|done].
    + intros k Hk Htk Hvk Hfirst. assert (r < k) as Hrk.
      { destruct (decide (r < k)); [done|]. specialize (S5 k ltac:(lia) Htk). lia. }
      assert (r = k - 1) as ->.
      { destruct S8 as [->|Ht]; [lia|]. destruct (decide (r + 1 = k)); [lia|].
        exfalso. apply (Hfirst (r + 1)); [lia|done]. }
      split; [done|]. destruct (decide (lft + 1 <= j)) as [Hle|].
      * exfalso. apply (Hfirst j); [lia|auto].
      * destruct S7 as [->|(Hb & Htl & Hvl)]; [lia|]. exfalso. apply (Hfirst lft); [lia|done].
  - assert (lft = L) as ->.
    { destruct S7 as [|(Hb & Htl & Hvl)]; [done|]. specialize (S6 lft ltac:(lia) Htl). lia. }
    assert (r = L - 1) as -> by lia.
    assert (back_to stabs type (L + 1) (L - 1) s = Done (L - 1) s) as Hbk.
    { unfold back_to. replace (L - 1 - (L + 1) + 1) with (-1) by lia. rewrite loop_S.
      destruct (Z.leb_spec (L + 1) (L - 1)); [lia|]. by rewrite run_ret. }
    rewrite (bind_Done _ _ _ _ _ Hbk). exists (L - 1), (L - 1). split; [reflexivity|]. split_and!.
    + intros Hnone. exfalso. destruct (S10 eq_refl) as (i & Hi & Hti). by apply (Hnone i).
    + intros k Hk Htk Hvk _. specialize (S6 k ltac:(lia) Htk). lia.
    + intros k Hk Htk Hvk Hfirst. destruct S8 as [E|Ht]; [lia|].
      destruct (decide (k = L)) as [->|]; [lia|]. exfalso. apply (Hfirst L); [lia|].
      by replace L with (L - 1 + 1) by lia.
Qed.
End search.

(** ** Properties *)

Section properties.
Implicit Types (s : kstate).

(** C32: stab_binsearch always ends: on every range of entries that can be read,
    whatever their types, order and addresses, and for every address, it returns,
    with ends that lie in the range or just before it.  When the entries of the
    wanted type are in increasing order of address, with none at the address
    after [addr] and [addr] not the last address, it finds the last of them at
    or before [addr]: the left end is its index, and the right end the index
    before the next one, or the end of the range.  When no entry has the type,
    the result is the empty range at the start; when they all lie after [addr],
    it ends just before the first of them. *)
Theorem stab_binsearch_finds stabs L R type addr ty va s :
  readable stabs L R ty va s → 0 <= L <= R + 1 →
  ∃ lft rgt, stab_binsearch stabs L R type addr s = Done (lft, rgt) s ∧
    L - 1 <= rgt <= R ∧ L - 1 <= lft ∧ (lft <= R ∨ lft = L) ∧
    (0 <= addr → addr + 1 < 4294967296 → ordered L R type addr ty va →
      ((∀ i, L <= i <= R → ty i ≠ type) → lft = L ∧ rgt = L - 1) ∧
      (∀ j, L <= j <= R → ty j = type → va j <= addr →
         (∀ i, j < i <= R → ty i = type → addr < va i) →
         lft = j ∧ j <= rgt <= R ∧ (∀ i, j < i <= rgt → ty i ≠ type) ∧
         (rgt = R ∨ ty (rgt + 1) = type)) ∧
      (∀ j, L <= j <= R → ty j = type → addr < va j → (∀ i, L <= i < j → ty i ≠ type) →
         rgt = j - 1 ∧ lft = Z.min L (j - 1))).
Proof.
  intros Hr HL. destruct (stab_binsearch_ends stabs L R type ty va s Hr addr HL) as (lft & rgt & Hrun & H1 & H2 & H3).
  exists lft, rgt. do 4 (split; [done|]). intros Ha Ha1 Ho.
  destruct (stab_binsearch_run stabs L R type addr ty va s Hr Ho HL Ha Ha1) as (lft' & rgt' & Hrun' & Hspec).
  rewrite Hrun in Hrun'. injection Hrun' as <- <-. exact Hspec.
Qed.
End properties.

(** ** Concrete instances *)

(** What the processor reads at an address. *)
Definition peek s va : option Z := pa ← mmu s va false; Some (mget (mem s) pa).

Lemma vrd8_peek s va v : peek s va = Some v → vrd8 va s = Done v s.
Proof.
  unfold peek, vrd8. rewrite run_get. destruct (mmu s va false); simpl; [|done].
  by intros [= <-].
Qed.

Definition peek16 s va : option Z :=
  b0 ← peek s va; b1 ← peek s (u32 (va + 1)); Some (b0 + 256 * b1).
Definition peek32 s va : option Z :=
  h0 ← peek16 s va; h1 ← peek16 s (u32 (va + 2)); Some (h0 + 65536 * h1).

Lemma vrd16_peek s va v : peek16 s va = Some v → vrd16 va s = Done v s.
Proof.
  unfold peek16, vrd16. destruct (peek s va) as [b0|] eqn:E0; simpl; [|done].
  destruct (peek s (u32 (va + 1))) as [b1|] eqn:E1; simpl; [|done]. intros [= <-].
  by rewrite (bind_Done _ _ _ _ _ (vrd8_peek _ _ _ E0)), (bind_Done _ _ _ _ _ (vrd8_peek _ _ _ E1)).
Qed.
Lemma vrd32_peek s va v : peek32 s va = Some v → vrd32 va s = Done v s.
Proof.
  unfold peek32, vrd32. destruct (peek16 s va) as [b0|] eqn:E0; simpl; [|done].
  destruct (peek16 s (u32 (va + 2))) as [b1|] eqn:E1; simpl; [|done]. intros [= <-].
  by rewrite (bind_Done _ _ _ _ _ (vrd16_peek _ _ _ E0)), (bind_Done _ _ _ _ _ (vrd16_peek _ _ _ E1)).
Qed.

(** A table with (type, value) for each entry, in the page mapped at
    [UXSTACKBASE] of [ex_fault]: two source files, two functions, four lines. *)
Definition ex_entries : list (Z * Z) :=
  [(0, 0); (N_SO, 0xF0100000); (N_FUN, 0xF0100000); (N_SLINE, 0); (N_SLINE, 3); (N_FUN, 0xF0100040);
   (N_SO, 0xF0100176); (N_SLINE, 0); (N_SLINE, 1); (N_SO, 0xF0100184)].
Definition stab_bytes (e : Z * Z) : list Z := [0; 0; 0; 0; e.1; 0; 0; 0] ++ bytes32 e.2.
Definition ex_stab_state : kstate :=
  set_mem (write_bytes (mem ex_fault) (9 * 4096) (concat (stab_bytes <$> ex_entries))) ex_fault.
Definition ex_ty (i : Z) : Z := default 0 (fst <$> ex_entries !! Z.to_nat i).
Definition ex_va (i : Z) : Z := default 0 (snd <$> ex_entries !! Z.to_nat i).

Lemma ex_readable : readable UXSTACKBASE 0 9 ex_ty ex_va ex_stab_state.
Proof.
  assert (∀ i, 0 <= i < 10 →
    peek ex_stab_state (u32 (UXSTACKBASE + 12 * i + 4)) = Some (ex_ty i) ∧
    peek32 ex_stab_state (u32 (UXSTACKBASE + 12 * i + 8)) = Some (ex_va i)) as H by by_compute.
  intros i Hi. destruct (H i ltac:(lia)) as [H1 H2]. split; [by apply vrd8_peek|by apply vrd32_peek].
Qed.

(** The function that contains 0xF0100044 is the second one, entry 5; the entries
    up to 9 belong to it. *)
Lemma stab_binsearch_finds_witness :
  stab_binsearch UXSTACKBASE 0 9 N_FUN 0xF0100044 ex_stab_state = Done (5, 9) ex_stab_state.
Proof.
  destruct (stab_binsearch_finds UXSTACKBASE 0 9 N_FUN 0xF0100044 ex_ty ex_va ex_stab_state)
    as (l & r & H & _ & _ & _ & H2); [apply ex_readable|lia|].
  destruct H2 as (_ & H2 & _); [lia|lia| |].
  { assert (∀ i, 0 <= i < 10 → ∀ j, 0 <= j < 10 → i < j → ex_ty i = N_FUN → ex_ty j = N_FUN →
      ex_va i < ex_va j) as H1 by by_compute.
    assert (∀ i, 0 <= i < 10 → ex_ty i = N_FUN → ex_va i ≠ 0xF0100045) as H2 by by_compute.
    split; [intros; apply H1; (lia || done)|intros; apply H2; (lia || done)]. }
  assert (∀ i, 0 <= i < 10 → 5 < i → ex_ty i ≠ N_FUN) as Hn by by_compute.
  destruct (H2 5) as (-> & Hr & _ & Hend); [lia|reflexivity|by_compute| |].
  { intros i Hi Hty. exfalso. apply (Hn i); [lia|lia|exact Hty]. }
  destruct (decide (r = 9)) as [->|Hr9]; [exact H|]. exfalso. clear H H2.
  destruct Hend as [E|E]; [exact (Hr9 E)|]. apply (Hn (r + 1)); [lia|lia|exact E].
Defined.

(** The hypothesis on the following address is needed: after the exact match the
    search goes on for the next address.  In the second file, the lines at the
    offsets 0 and 1 are entries 7 and 8; the search for 0 finds the latter. *)
Example stab_binsearch_skips_exact :
  (λ r, match r with Done p _ => Some p | Exit _ _ => None end)
    (stab_binsearch UXSTACKBASE 6 9 N_SLINE 0 ex_stab_state) = Some (8, 9).
Proof. vm_compute. reflexivity. Qed.
