(* ===== verification/Mpconfig.v ===== *)
(** * The multiprocessor configuration: kern/mpconfig.c

    The search for the MP floating pointer structure that the firmware leaves in
    low memory, the checks on the configuration table it points to, and the
    enumeration of the processors.  The messages are left out. *)

From S2P Require Import Prelude Devices Machine PageAlloc Env.
From stdpp Require Import base numbers list gmap fin_maps.

Local Open Scope Z_scope.

Definition MPPROC_BOOT : Z := 0x02.
Definition MPPROC : Z := 0x00.
Definition MPBUS : Z := 0x01.
Definition MPIOAPIC : Z := 0x02.
Definition MPIOINTR : Z := 0x03.
Definition MPLINTR : Z := 0x04.
Definition CPU_STARTED : Z := 1.

Definition rd8 (kva : Z) : M Z :=
  if KERNBASE <=? kva then gets (λ s, mget (mem s) (kva - KERNBASE)) else leave KernelFault.

(** [struct mp], 16 bytes, and [struct mpconf] with its entries after 44 bytes. *)
Definition SIZEOF_MP : Z := 16.
Definition mp_physaddr (mp : Z) : M Z := rd32 (mp + 4).
Definition mp_type (mp : Z) : M Z := rd8 (mp + 11).
Definition mp_imcrp (mp : Z) : M Z := rd8 (mp + 12).
Definition conf_length (conf : Z) : M Z := rd16 (conf + 4).
Definition conf_version (conf : Z) : M Z := rd8 (conf + 6).
Definition conf_entry (conf : Z) : M Z := rd16 (conf + 34).
Definition conf_lapicaddr (conf : Z) : M Z := rd32 (conf + 36).
Definition conf_xlength (conf : Z) : M Z := rd16 (conf + 40).
Definition conf_xchecksum (conf : Z) : M Z := rd8 (conf + 42).
Definition conf_entries (conf : Z) : Z := conf + 44.
(** [struct mpproc], 20 bytes. *)
Definition SIZEOF_MPPROC : Z := 20.
Definition proc_flags (proc : Z) : M Z := rd8 (proc + 3).

(** The sum of [len] bytes, kept in an [uint8_t]. *)
Definition sum (addr len : Z) : M Z :=
  l ← kread addr len; mret (u8 (foldr Z.add 0 l)).

Definition mpsearch1 (a len : Z) : M (option Z) :=
  mp ← KADDR a;
  endp ← KADDR (u32 (a + len));
  loop (S (Z.to_nat (len / SIZEOF_MP + 1))) NoFuel (λ mp,
    if mp <? endp then
      sig ← kread mp 4;
      if bool_decide (sig = [95; 77; 80; 95]) then
        x ← sum mp SIZEOF_MP;
        if x =? 0 then mret (inr (Some mp)) else mret (inl (mp + SIZEOF_MP))
      else mret (inl (mp + SIZEOF_MP))
    else mret (inr None)) mp.

Definition mpsearch : M (option Z) :=
  bda ← KADDR (Z.shiftl 0x40 4);
  p ← rd16 (bda + 0x0E);
  mp ← (if negb (p =? 0) then mpsearch1 (Z.shiftl p 4) 1024
        else p ← rd16 (bda + 0x13); mpsearch1 (u32 (p * 1024 - 1024)) 1024);
  match mp with
  | Some mp => mret (Some mp)
  | None => mpsearch1 0xF0000 0x10000
  end.

(** The configuration table and [*pmp]. *)
Definition mpconfig : M (option (Z * Z)) :=
  r ← mpsearch;
  match r with
  | None => mret None
  | Some mp =>
      physaddr ← mp_physaddr mp;
      type ← mp_type mp;
      if (physaddr =? 0) || negb (type =? 0) then mret None else
      conf ← KADDR physaddr;
      sig ← kread conf 4;
      if negb (bool_decide (sig = [80; 67; 77; 80])) then mret None else
      len ← conf_length conf;
      x ← sum conf len;
      if negb (x =? 0) then mret None else
      version ← conf_version conf;
      if negb (version =? 1) && negb (version =? 4) then mret None else
      xlen ← conf_xlength conf;
      x ← sum (conf + len) xlen;
      xsum ← conf_xchecksum conf;
      if negb (x =? xsum) then mret None else mret (Some (conf, mp))
  end.

(** One entry of the table at [p]: the address of the next one, or none when the
    type is unknown. *)
Definition mp_entry (p : Z) : M (option Z) :=
  type ← rd8 p;
  if type =? MPPROC then
    flags ← proc_flags p;
    n ← gets ncpu;
    (if has MPPROC_BOOT flags then modify (set_bootcpu (Some n)) else mret tt) ;;
    (if n <? NCPU then upd_cpu (set_cpu_id (u8 n)) n ;; modify (set_ncpu (n + 1)) else mret tt) ;;
    mret (Some (p + SIZEOF_MPPROC))
  else if bool_decide (type ∈ [MPBUS; MPIOAPIC; MPIOINTR; MPLINTR]) then mret (Some (p + 8))
  else modify (set_ismp false) ;; mret None.

Definition mp_init : M unit :=
  modify (set_bootcpu (Some 0)) ;;
  r ← mpconfig;
  match r with
  | None => mret tt
  | Some (conf, mp) =>
      modify (set_ismp true) ;;
      a ← conf_lapicaddr conf;
      modify (λ s, set_apic (set_lapic a (apic s)) s) ;;
      entry ← conf_entry conf;
      loop (S (Z.to_nat entry)) NoFuel (λ '(p, i),
        if i <? entry then
          next ← mp_entry p;
          match next with
          | Some p => mret (inl (p, i + 1))
          | None => mret (inl (p, entry))
          end
        else mret (inr tt)) (conf_entries conf, 0) ;;
      b ← gets bootcpu;
      b ← deref b;
      upd_cpu (set_cpu_status CPU_STARTED) b ;;
      ok ← gets ismp;
      if negb ok then
        modify (set_ncpu 1) ;;
        modify (λ s, set_apic (set_lapic 0 (apic s)) s)
      else
        imcrp ← mp_imcrp mp;
        if negb (imcrp =? 0) then
          dev_op (outb 0x22 0x70) ;;
          v ← dev_op (inb 0x23);
          dev_op (outb 0x23 (Z.lor v 1))
        else mret tt
  end.

#[global] Arguments rd8 : simpl never.
#[global] Arguments mpconfig : simpl never.
#[global] Arguments mp_entry : simpl never.

(** ** The entries of the table *)

(** A processor with its flags, or one of the other known entries. *)
Inductive mpent : Type := Processor (flags : Z) | Other (type : Z).

Fixpoint entries_at (m : memory) (p : Z) (es : list mpent) : Prop :=
  match es with
  | [] => True
  | Processor flags :: es => mget m p = MPPROC ∧ mget m (p + 3) = flags ∧ entries_at m (p + 20) es
  | Other type :: es => mget m p = type ∧ 1 <= type <= 4 ∧ entries_at m (p + 8) es
  end.

Definition processors (es : list mpent) : list Z :=
  omap (λ e, match e with Processor f => Some f | Other _ => None end) es.

Section enumeration.
Implicit Types (s : kstate) (es : list mpent) (fs : list Z).

Definition all_cpus (C : gmap Z Cpu) : Prop := ∀ i, 0 <= i < NCPU → is_Some (C !! i).

(** The effect of one processor entry. *)
Definition add_cpu s (flags : Z) : kstate :=
  let n := ncpu s in
  let s := if has MPPROC_BOOT flags then set_bootcpu (Some n) s else s in
  if n <? NCPU then set_ncpu (n + 1) (set_cpus (alter (set_cpu_id (u8 n)) n (cpus s)) s) else s.

Lemma run_rd8 {A} p (k : Z → M A) s :
  KERNBASE <= p → (rd8 p ≫= k) s = k (mget (mem s) (p - KERNBASE)) s.
Proof. intros H. unfold rd8. apply Z.leb_le in H. by rewrite H, run_gets. Qed.

Lemma run_rd16 {A} p (k : Z → M A) s :
  KERNBASE <= p → (rd16 p ≫= k) s =
    k (mget (mem s) (p - KERNBASE) + 256 * mget (mem s) (p - KERNBASE + 1)) s.
Proof. intros H. unfold rd16. apply Z.leb_le in H. by rewrite H, run_gets. Qed.

Lemma insert_is_alter (f : Cpu → Cpu) i x (C : gmap Z Cpu) :
  C !! i = Some x → <[i := f x]> C = alter f i C.
Proof.
  intros Hx. apply map_eq. intros j. destruct (decide (i = j)) as [->|].
  - by rewrite lookup_insert_eq, lookup_alter_eq, Hx.
  - by rewrite lookup_insert_ne, lookup_alter_ne.
Qed.

Lemma add_cpu_all s f : all_cpus (cpus s) → all_cpus (cpus (add_cpu s f)).
Proof.
  intros H i Hi. unfold add_cpu. destruct (has _ _), (_ <? _); simpl; try (by apply H);
    (destruct (decide (i = ncpu s)) as [->|]; [rewrite lookup_alter_eq|rewrite lookup_alter_ne by done]);
    rewrite ?fmap_is_Some; by apply H.
Qed.

Lemma mp_entry_run s p es e :
  all_cpus (cpus s) → 0 <= ncpu s → entries_at (mem s) (p - KERNBASE) (e :: es) → KERNBASE <= p →
  ∃ d s', mp_entry p s = Done (Some (p + d)) s' ∧ 0 <= d ∧
    entries_at (mem s) (p + d - KERNBASE) es ∧
    s' = match e with Processor f => add_cpu s f | Other _ => s end.
Proof.
  intros Hall Hn He Hp. unfold mp_entry. rewrite run_rd8 by done.
  destruct e as [f|t]; cbn [entries_at] in He; destruct He as (Ht & Hf & He); rewrite Ht.
  - change (MPPROC =? MPPROC) with true. cbv iota. unfold proc_flags.
    rewrite run_rd8, run_gets by lia. replace (p + 3 - KERNBASE) with (p - KERNBASE + 3) by lia.
    rewrite Hf. exists 20, (add_cpu s f).
    split; [|split; [lia|split; [by replace (p + 20 - KERNBASE) with (p - KERNBASE + 20) by lia|done]]].
    unfold add_cpu. set (b := has MPPROC_BOOT f). set (s1 := if b then _ else s).
    assert ((if b then modify (set_bootcpu (Some (ncpu s))) else mret tt : M unit) s = Done tt s1) as Hb
      by (unfold s1; by destruct b).
    assert (cpus s1 = cpus s ∧ ncpu s1 = ncpu s) as [Ec En] by (unfold s1; by destruct b).
    rewrite (bind_Done _ _ _ _ _ Hb). destruct (Z.ltb_spec (ncpu s) NCPU).
    + destruct (Hall (ncpu s)) as [x Hx]; [lia|]. rewrite run_assoc, (run_upd_cpu _ _ x) by (by rewrite Ec).
      rewrite run_modify, ret_eq. by rewrite (insert_is_alter _ _ x) by (by rewrite Ec).
    + by rewrite run_ret, ret_eq.
  - rewrite (proj2 (Z.eqb_neq _ _)) by (unfold MPPROC; lia).
    rewrite bool_decide_true.
    2: { assert (t = 1 ∨ t = 2 ∨ t = 3 ∨ t = 4) as [->|[->|[->| ->]]] by lia; set_solver. }
    exists 8, s. split; [done|]. split; [lia|].
    split; [by replace (p + 8 - KERNBASE) with (p - KERNBASE + 8) by lia|done].
Qed.

Lemma add_cpu_mem s f : mem (add_cpu s f) = mem s.
Proof. unfold add_cpu. by destruct (has _ _), (_ <? _). Qed.
Lemma add_cpu_ncpu s f : ncpu (add_cpu s f) = Z.min (Z.max NCPU (ncpu s)) (ncpu s + 1).
Proof.
  unfold add_cpu, NCPU. destruct (has _ _); simpl; destruct (Z.ltb_spec (ncpu s) 8); simpl; lia.
Qed.

Lemma mp_loop_run n s p es i entry :
  all_cpus (cpus s) → 0 <= ncpu s → KERNBASE <= p → entries_at (mem s) (p - KERNBASE) es →
  entry = i + Z.of_nat (length es) → (length es < n)%nat →
  loop n NoFuel (λ '(p, i),
    if i <? entry then
      next ← mp_entry p;
      match next with Some p => mret (inl (p, i + 1)) | None => mret (inl (p, entry)) end
    else mret (inr tt)) (p, i) s = Done tt (foldl add_cpu s (processors es)).
Proof.
  revert s p es i. induction n as [|n IH]; intros s p es i Hall Hn Hp He Hi Hl; [lia|].
  rewrite loop_S. destruct es as [|e es]; simpl length in *.
  { rewrite (proj2 (Z.ltb_ge _ _)) by lia. rewrite run_ret. done. }
  rewrite (proj2 (Z.ltb_lt _ _)) by lia.
  destruct (mp_entry_run s p es e Hall Hn He Hp) as (d & s' & Hrun & Hd & He' & Hs').
  rewrite run_assoc, (bind_Done _ _ _ _ _ Hrun), run_ret.
  rewrite (IH s' (p + d) es (i + 1)); [by destruct e; subst s'|..]; subst s'; destruct e; try done; try lia.
  - by apply add_cpu_all.
  - rewrite add_cpu_ncpu. unfold NCPU. lia.
  - by rewrite add_cpu_mem.
Qed.

(** The processors are numbered in the order of the table, up to [NCPU]; the
    boot processor is the last one that is flagged. *)
Lemma enumerate_facts fs s :
  0 <= ncpu s <= NCPU → all_cpus (cpus s) →
  let s' := foldl add_cpu s fs in
  ncpu s' = Z.min NCPU (ncpu s + Z.of_nat (length fs)) ∧ all_cpus (cpus s') ∧
  (∀ i, ncpu s <= i < ncpu s' → cpu_id <$> cpus s' !! i = Some i) ∧
  (∀ i, i < ncpu s ∨ NCPU <= i → cpus s' !! i = cpus s !! i) ∧
  (Forall (λ f, has MPPROC_BOOT f = false) fs → bootcpu s' = bootcpu s) ∧
  ismp s' = ismp s ∧ apic s' = apic s ∧ mem s' = mem s.
Proof.
  revert s. induction fs as [|f fs IH]; intros s Hn Hall; cbn [foldl].
  { split_and!; try done; simpl; try lia. }
  pose proof (add_cpu_ncpu s f) as En.
  destruct (IH (add_cpu s f)) as (I1 & I2 & I3 & I4 & I5 & I6 & I7 & I8);
    [rewrite En; unfold NCPU in *; lia|by apply add_cpu_all|].
  assert (ismp (add_cpu s f) = ismp s ∧ apic (add_cpu s f) = apic s) as [E1 E2]
    by (unfold add_cpu; by destruct (has _ _), (_ <? _)).
  split_and!; try (congruence || done).
  - rewrite I1, En. simpl length. unfold NCPU in *. lia.
  - intros i Hi. destruct (decide (ncpu (add_cpu s f) <= i)); [apply I3; lia|].
    assert (i = ncpu s ∧ ncpu s < NCPU) as [-> Hlt] by (rewrite En in *; unfold NCPU in *; lia).
    rewrite I4 by (left; lia). unfold add_cpu. rewrite (proj2 (Z.ltb_lt _ _)) by done.
    destruct (Hall (ncpu s)) as [x Hx]; [lia|].
    destruct (has _ _); simpl; rewrite lookup_alter_eq, Hx; simpl;
      unfold u8, NCPU in *; rewrite Z.mod_small by lia; done.
  - intros i Hi. rewrite I4 by (rewrite En; unfold NCPU in *; lia). unfold add_cpu.
    destruct (has _ _), (Z.ltb_spec (ncpu s) NCPU); simpl; rewrite ?lookup_alter_ne by lia; done.
  - intros Hf. inversion Hf as [|? ? Hf1 Hf2]; subst. rewrite I5 by done. unfold add_cpu.
    rewrite Hf1. by destruct (_ <? _).
  - by rewrite I8, add_cpu_mem.
Qed.

(** Enumeration sets only the ids, the count and the boot processor. *)
Definition numbered s s' : Prop :=
  s' = set_cpus (cpus s') (set_ncpu (ncpu s') (set_bootcpu (bootcpu s') s)) ∧
  ∀ i, set_cpu_id 0 <$> cpus s' !! i = set_cpu_id 0 <$> cpus s !! i.

Lemma enumerate_frame fs s : numbered s (foldl add_cpu s fs).
Proof.
  revert s. induction fs as [|f fs IH]; intros s; cbn [foldl]; [by destruct s|].
  destruct (IH (add_cpu s f)) as [E1 E2]. split.
  - rewrite E1 at 1. apply kstate_eq; try reflexivity; unfold add_cpu; by destruct (has _ _), (_ <? _).
  - intros i. rewrite E2. unfold add_cpu. destruct (has _ _), (_ <? _); simpl; try done;
      (destruct (decide (i = ncpu s)) as [->|]; [rewrite lookup_alter_eq|by rewrite lookup_alter_ne]);
      by destruct (cpus s !! ncpu s).
Qed.

Lemma boot_cpu_found fs1 f fs2 s :
  0 <= ncpu s <= NCPU → all_cpus (cpus s) → has MPPROC_BOOT f = true →
  Forall (λ f, has MPPROC_BOOT f = false) fs2 →
  bootcpu (foldl add_cpu s (fs1 ++ f :: fs2)) = Some (Z.min NCPU (ncpu s + Z.of_nat (length fs1))).
Proof.
  intros Hn Hall Hf Hfs. rewrite foldl_app. cbn [foldl].
  destruct (enumerate_facts fs1 s Hn Hall) as (I1 & I2 & _).
  set (s1 := foldl add_cpu s fs1) in *.
  assert (0 <= ncpu s1 <= NCPU) as Hn1 by (unfold NCPU in *; lia).
  destruct (enumerate_facts fs2 (add_cpu s1 f)) as (_ & _ & _ & _ & J & _);
    [rewrite add_cpu_ncpu; unfold NCPU in *; lia|by apply add_cpu_all|].
  rewrite J by done. unfold add_cpu. rewrite Hf. destruct (_ <? _); simpl; by rewrite I1.
Qed.
End enumeration.

(** ** Properties *)

Section properties.
Implicit Types (s : kstate).

(** What makes a table acceptable. *)
Definition valid_conf s (conf : Z) : Prop :=
  let a := conf - KERNBASE in
  let len := mget (mem s) (a + 4) + 256 * mget (mem s) (a + 5) in
  let xlen := mget (mem s) (a + 40) + 256 * mget (mem s) (a + 41) in
  KERNBASE <= conf ∧ read_bytes (mem s) a 4 = [80; 67; 77; 80] ∧
  u8 (foldr Z.add 0 (read_bytes (mem s) a (Z.to_nat len))) = 0 ∧
  (mget (mem s) (a + 6) = 1 ∨ mget (mem s) (a + 6) = 4) ∧
  u8 (foldr Z.add 0 (read_bytes (mem s) (a + len) (Z.to_nat xlen))) = mget (mem s) (a + 42).

(** Computations that only read. *)
Definition reads {A} (m : M A) : Prop := ∀ s a s', m s = Done a s' → s' = s.

Lemma reads_ret {A} (a : A) : reads (mret a).
Proof. by intros s b s' [= _ <-]. Qed.
Lemma reads_gets {A} (f : kstate → A) : reads (gets f).
Proof. by intros s b s' [= _ <-]. Qed.
Lemma reads_leave {A} e : reads (leave e : M A).
Proof. by intros s b s' H. Qed.
Lemma reads_bind {A B} (m : M A) (f : A → M B) : reads m → (∀ a, reads (f a)) → reads (m ≫= f).
Proof. intros Hm Hf s b s' (a & s1 & H1%Hm & H2%Hf)%bind_inv. by subst. Qed.
Lemma reads_loop {X A} n e (step : X → M (X + A)) x : (∀ x, reads (step x)) → reads (loop n e step x).
Proof.
  intros Hs. revert x. induction n as [|n IH]; intros x; [by intros s a s' H|].
  intros s a s' H. rewrite loop_S in H. apply bind_inv in H as (r & s1 & H1%Hs & H2). subst s1.
  destruct r as [y|b]; [exact (IH y _ _ _ H2)|by injection H2].
Qed.

Lemma reads_rd8 p : reads (rd8 p).
Proof. unfold rd8. destruct (_ <=? _); [apply reads_gets|apply reads_leave]. Qed.
Lemma reads_rd16 p : reads (rd16 p).
Proof. unfold rd16. destruct (_ <=? _); [apply reads_gets|apply reads_leave]. Qed.
Lemma reads_rd32 p : reads (rd32 p).
Proof. unfold rd32. destruct (_ <=? _); [apply reads_gets|apply reads_leave]. Qed.
Lemma reads_kread p n : reads (kread p n).
Proof. unfold kread. destruct (_ <=? _); [apply reads_gets|apply reads_leave]. Qed.
Lemma reads_kaddr pa : reads (KADDR pa).
Proof.
  apply reads_bind; [apply reads_gets|]. intros n. destruct (_ <=? _); [apply reads_leave|apply reads_ret].
Qed.
End properties.

#[export] Hint Resolve @reads_ret @reads_gets @reads_leave reads_rd8 reads_rd16 reads_rd32 reads_kread
  reads_kaddr : reads.

Ltac reads_step :=
  first [ solve [auto with reads] | apply reads_bind; [|intros ?] | apply reads_loop; intros ? | case_match ].
Ltac solve_reads := repeat reads_step.

Section found.
Implicit Types (s : kstate).

Lemma reads_sum p n : reads (sum p n).
Proof. unfold sum. solve_reads. Qed.
#[local] Hint Resolve reads_sum : reads.

Lemma reads_mpsearch1 a len : reads (mpsearch1 a len).
Proof. unfold mpsearch1. solve_reads. Qed.
#[local] Hint Resolve reads_mpsearch1 : reads.

Lemma reads_mpsearch : reads mpsearch.
Proof. unfold mpsearch. solve_reads. Qed.

(** Peels a reading step off a computation that has returned. *)
Lemma read_inv {A B} (m : M A) (f : A → M B) s b s' :
  reads m → (m ≫= f) s = Done b s' → ∃ a, m s = Done a s ∧ f a s = Done b s'.
Proof.
  intros Hm (a & s1 & H1 & H2)%bind_inv. pose proof (Hm _ _ _ H1). subst s1. eauto.
Qed.

Lemma kread_inv p n s l : kread p n s = Done l s →
  KERNBASE <= p ∧ l = read_bytes (mem s) (p - KERNBASE) (Z.to_nat n).
Proof. unfold kread. destruct (Z.leb_spec KERNBASE p); [|done]. by intros [= <-]. Qed.
Lemma rd8_inv p s v : rd8 p s = Done v s → v = mget (mem s) (p - KERNBASE).
Proof. unfold rd8. destruct (_ <=? _); [|done]. by intros [= <-]. Qed.
Lemma rd16_inv p s v : rd16 p s = Done v s →
  v = mget (mem s) (p - KERNBASE) + 256 * mget (mem s) (p - KERNBASE + 1).
Proof. unfold rd16. destruct (_ <=? _); [|done]. by intros [= <-]. Qed.
Lemma sum_inv p n s v : sum p n s = Done v s →
  v = u8 (foldr Z.add 0 (read_bytes (mem s) (p - KERNBASE) (Z.to_nat n))).
Proof.
  unfold sum. intros (l & s1 & H1 & H2)%bind_inv. injection H2 as <- ->.
  by apply kread_inv in H1 as [_ ->].
Qed.

(** A table that [mpconfig] returns is valid. *)
Lemma mpconfig_sound s conf mp s' :
  mpconfig s = Done (Some (conf, mp)) s' → s' = s ∧ valid_conf s conf.
Proof.
  unfold mpconfig. intros (r & Hr & H)%read_inv; [|apply reads_mpsearch]. destruct r as [mp'|]; [|done].
  apply read_inv in H as (physaddr & _ & H); [|apply reads_rd32].
  apply read_inv in H as (type & _ & H); [|apply reads_rd8].
  destruct (_ || _); [done|]. apply read_inv in H as (cf & _ & H); [|apply reads_kaddr].
  apply read_inv in H as (sig & [Hk Hsig]%kread_inv & H); [|apply reads_kread].
  case_bool_decide as Esig; [|done]. cbn [negb] in H.
  apply read_inv in H as (len & Hlen%rd16_inv & H); [|apply reads_rd16].
  apply read_inv in H as (x & Hx%sum_inv & H); [|apply reads_sum].
  destruct (Z.eqb_spec x 0) as [Ex|]; [|done]. cbn [negb] in H.
  apply read_inv in H as (version & Hv%rd8_inv & H); [|apply reads_rd8].
  destruct (negb (version =? 1) && _) eqn:Ev; [done|].
  apply read_inv in H as (xlen & Hxl%rd16_inv & H); [|apply reads_rd16].
  apply read_inv in H as (y & Hy%sum_inv & H); [|apply reads_sum].
  apply read_inv in H as (xs & Hxs%rd8_inv & H); [|apply reads_rd8].
  destruct (Z.eqb_spec y xs) as [Ey|]; [|done]. injection H as <- _ <-. split; [done|].
  unfold valid_conf. replace (cf + 6 - KERNBASE) with (cf - KERNBASE + 6) in Hv by lia.
  replace (cf + 42 - KERNBASE) with (cf - KERNBASE + 42) in Hxs by lia.
  replace (cf + 4 - KERNBASE) with (cf - KERNBASE + 4) in Hlen by lia.
  replace (cf + 40 - KERNBASE) with (cf - KERNBASE + 40) in Hxl by lia.
  replace (cf - KERNBASE + 4 + 1) with (cf - KERNBASE + 5) in Hlen by lia.
  replace (cf - KERNBASE + 40 + 1) with (cf - KERNBASE + 41) in Hxl by lia.
  replace (cf + len - KERNBASE) with (cf - KERNBASE + len) in Hy by lia.
  rewrite <- Hlen, <- Hxl, <- Hx, <- Hy, <- Hv, <- Hxs. split_and!; [done|rewrite <- Esig; symmetry; exact Hsig|done| |done].
  destruct (Z.eqb_spec version 1), (Z.eqb_spec version 4); (done || auto).
Qed.

(** What [mp_init] changes: the numbers of the processors, their count, the boot
    processor, the address of the local APIC and the devices. *)
Record mp_frame s s' : Prop := {
  mf_rest : s' = set_dev (dev s') (set_cpus (cpus s') (set_ncpu (ncpu s') (set_bootcpu (bootcpu s')
    (set_ismp (ismp s') (set_apic (apic s') s)))));
  mf_cpus i c' : cpus s' !! i = Some c' → ∃ c, cpus s !! i = Some c ∧ ts_ss0 c' = ts_ss0 c ∧ ts_esp0 c' = ts_esp0 c ∧
    cpu_env c' = cpu_env c ∧ (bootcpu s' ≠ Some i → cpu_status c' = cpu_status c);
  mf_screen : crt_pos (dev s') = crt_pos (dev s);
}.

Lemma mp_init_run s conf mp s1 es fs1 f fs2 :
  mpconfig (set_bootcpu (Some 0) s) = Done (Some (conf, mp)) s1 →
  ncpu s = 0 → all_cpus (cpus s) → KERNBASE <= mp → cpus s !! NCPU = None →
  entries_at (mem s) (conf_entries conf - KERNBASE) es →
  mget (mem s) (conf + 34 - KERNBASE) + 256 * mget (mem s) (conf + 35 - KERNBASE) = Z.of_nat (length es) →
  processors es = fs1 ++ f :: fs2 → has MPPROC_BOOT f = true →
  Forall (λ f, has MPPROC_BOOT f = false) fs2 →
  let b := Z.of_nat (length fs1) in
  valid_conf s conf ∧
  if b <? NCPU then ∃ s', mp_init s = Done tt s' ∧ ismp s' = true ∧ bootcpu s' = Some b ∧
    ncpu s' = Z.min NCPU (Z.of_nat (length (processors es))) ∧
    lapic (apic s') = load32 (mem s) (conf + 36 - KERNBASE) ∧
    (∀ i, 0 <= i < ncpu s' → cpu_id <$> cpus s' !! i = Some i) ∧
    cpu_status <$> cpus s' !! b = Some CPU_STARTED ∧ mp_frame s s'
  else ∃ s', mp_init s = Exit KernelFault s'.
Proof.
  intros Hc Hn Hall Hmp Hend He Hcnt Hps Hf Hfs b.
  pose proof (mpconfig_sound _ _ _ _ Hc) as [-> Hv]. split; [exact Hv|].
  assert (KERNBASE <= conf) as Hk by apply Hv.
  assert (∃ k, mp_init s = k (foldl add_cpu (set_apic (set_lapic (load32 (mem s) (conf + 36 - KERNBASE)) (apic s))
    (set_ismp true (set_bootcpu (Some 0) s))) (processors es)) ∧ k = (
      b ← gets bootcpu;
      b ← deref b;
      upd_cpu (set_cpu_status CPU_STARTED) b ;;
      ok ← gets ismp;
      if negb ok then
        modify (set_ncpu 1) ;; modify (λ s, set_apic (set_lapic 0 (apic s)) s)
      else
        imcrp ← mp_imcrp mp;
        if negb (imcrp =? 0) then
          dev_op (outb 0x22 0x70) ;; v ← dev_op (inb 0x23); dev_op (outb 0x23 (Z.lor v 1))
        else mret tt)) as (k & Hrun & Ek).
  { eexists. split; [|reflexivity]. unfold mp_init. rewrite run_modify, (bind_Done _ _ _ _ _ Hc), run_modify.
    unfold conf_lapicaddr, conf_entry. rewrite run_rd32, run_modify, run_rd16 by lia.
    cbn [mem set_apic set_ismp set_bootcpu apic].
    replace (conf + 34 - KERNBASE + 1) with (conf + 35 - KERNBASE) by lia. rewrite Hcnt, Nat2Z.id.
    erewrite bind_Done; [reflexivity|].
    apply (mp_loop_run _ _ _ es); simpl; try done; try (unfold conf_entries; lia). }
  set (s0 := set_apic _ _) in Hrun.
  destruct (enumerate_facts (processors es) s0) as (I1 & I2 & I3 & I4 & _ & I6 & I7 & I8);
    [simpl; rewrite Hn; unfold NCPU; lia|done|].
  pose proof (boot_cpu_found fs1 f fs2 s0 ltac:(simpl; rewrite Hn; unfold NCPU; lia) Hall Hf Hfs) as Hb.
  rewrite <- Hps in Hb. simpl in I1, I3, Hb. rewrite Hn in I1, I3, Hb. rewrite Z.add_0_l in I1, Hb.
  fold b in Hb. rewrite Hrun. clear Hrun. subst k.
  revert I1 I2 I3 I4 I6 I7 I8 Hb. set (s2 := foldl add_cpu s0 (processors es)).
  intros I1 I2 I3 I4 I6 I7 I8 Hb. rewrite run_gets, Hb. cbn [deref]. rewrite run_ret.
  destruct (Z.ltb_spec b NCPU) as [Hlt|Hge].
  2: { rewrite Z.min_l by lia. eexists. apply bind_Exit. unfold upd_cpu. apply bind_Exit.
       unfold get_cpu. rewrite run_get, I4 by lia. simpl. by rewrite Hend. }
  rewrite Z.min_r by lia. destruct (I2 b) as [x Hx]; [lia|]. rewrite (run_upd_cpu _ _ x) by done.
  rewrite run_gets. cbn [ismp set_cpus]. rewrite I6. cbn [negb ismp set_ismp set_apic s0].
  set (s3 := set_cpus _ s2). unfold mp_imcrp. rewrite run_rd8 by lia.
  assert (∀ (m : M unit) s', m = mret tt ∨ m = (dev_op (outb 0x22 0x70) ;; v ← dev_op (inb 0x23);
    dev_op (outb 0x23 (Z.lor v 1))) → ∃ d, m s' = Done tt (set_dev d s') ∧ crt_pos d = crt_pos (dev s')) as Hdev.
  { intros m s' [->| ->]; [exists (dev s'); by destruct s'|]. unfold dev_op, inb, outb, mbind, comp_bind. simpl.
    unfold modify. simpl. destruct (inb_stream _); eexists; split; reflexivity. }
  match goal with |- context [(if ?c then ?m else ?n) s3] => set (mm := if c then m else n) end.
  destruct (Hdev mm s3) as (d & Hd & Hcrt); [unfold mm; case_match; auto|].
  exists (set_dev d s3). split; [exact Hd|]. unfold s3. cbn [ismp bootcpu ncpu apic cpus set_dev set_cpus].
  split; [exact I6|]. split; [rewrite Hb; by rewrite Z.min_r by lia|]. split; [exact I1|].
  split; [by rewrite I7|].
  destruct (enumerate_frame (processors es) s0) as [F1 F2]. fold s2 in F1, F2.
  split; [|split].
  - intros i Hi. destruct (decide (i = b)) as [->|]; [|rewrite lookup_insert_ne by done; by apply I3].
    rewrite lookup_insert_eq. specialize (I3 b Hi). rewrite Hx in I3. exact I3.
  - by rewrite lookup_insert_eq.
  - split; cbn [dev cpus ncpu bootcpu ismp apic set_dev set_cpus].
    + unfold s3. rewrite F1. apply kstate_eq; reflexivity.
    + intros i c' Hi. rewrite lookup_insert in Hi. assert (∀ c, cpus s2 !! i = Some c → ∃ c0, cpus s !! i = Some c0 ∧ set_cpu_id 0 c = set_cpu_id 0 c0) as Hold.
      { intros c Hci. specialize (F2 i). rewrite Hci in F2. change (cpus s0) with (cpus s) in F2.
        destruct (cpus s !! i) as [c0|]; [|done]. exists c0. split; [done|]. exact (inj Some _ _ F2). }
      case_decide as E.
      * injection Hi as <-. subst i. destruct (Hold x Hx) as (c0 & Hc0 & [= E1 E2 E3 E4]). exists c0. rewrite Hb, Z.min_r by lia.
        split_and!; done.
      * destruct (Hold c' Hi) as (c0 & Hc0 & [= E1 E2 E3 E4]). by exists c0.
    + rewrite Hcrt. by rewrite (f_equal dev F1 : dev s3 = _).
Qed.

(** C31: when mp_init accepts a configuration table, the table has the right
    signature, version and checksums.  The processors it lists get the numbers
    0, 1, ... in the order of the table, eight at most; every other entry is
    skipped; the boot processor is the last one flagged as such, and it is marked
    as started.  If that processor is not among the first eight, the store to its
    status is outside the array of CPUs. *)
Theorem mp_init_enumerates s conf mp s1 es fs1 f fs2 :
  mpconfig (set_bootcpu (Some 0) s) = Done (Some (conf, mp)) s1 →
  ncpu s = 0 → all_cpus (cpus s) → KERNBASE <= mp → cpus s !! NCPU = None →
  entries_at (mem s) (conf_entries conf - KERNBASE) es →
  mget (mem s) (conf + 34 - KERNBASE) + 256 * mget (mem s) (conf + 35 - KERNBASE) = Z.of_nat (length es) →
  processors es = fs1 ++ f :: fs2 → has MPPROC_BOOT f = true →
  Forall (λ f, has MPPROC_BOOT f = false) fs2 →
  let b := Z.of_nat (length fs1) in
  valid_conf s conf ∧
  if b <? NCPU then ∃ s', mp_init s = Done tt s' ∧ ismp s' = true ∧ bootcpu s' = Some b ∧
    ncpu s' = Z.min NCPU (Z.of_nat (length (processors es))) ∧
    lapic (apic s') = load32 (mem s) (conf + 36 - KERNBASE) ∧
    (∀ i, 0 <= i < ncpu s' → cpu_id <$> cpus s' !! i = Some i) ∧
    cpu_status <$> cpus s' !! b = Some CPU_STARTED
  else ∃ s', mp_init s = Exit KernelFault s'.
Proof.
  intros Hc Hn Hall Hmp Hend He Hcnt Hps Hf Hfs b.
  destruct (mp_init_run s conf mp s1 es fs1 f fs2 Hc Hn Hall Hmp Hend He Hcnt Hps Hf Hfs) as [Hv H]. split; [exact Hv|].
  fold b in H. destruct (b <? NCPU); [|exact H]. destruct H as (s' & ? & ? & ? & ? & ? & ? & ? & _). exists s'. by split_and!.
Qed.
End found.

(** ** The tables are looked up in memory alone *)

Create HintDb seen discriminated.

(** [m] only reads, and only physical memory and its size. *)
Definition seen {A} (m : M A) : Prop :=
  ∀ s t a s', mem t = mem s → npages t = npages s → m s = Done a s' → s' = s ∧ m t = Done a t.

Section seen.
Lemma seen_ret {A} (a : A) : seen (mret a).
Proof. by intros s t b s' _ _ [= <- <-]. Qed.
Lemma seen_leave {A} e : seen (leave e : M A).
Proof. by intros s t b s' _ _. Qed.
Lemma seen_gets {A} (f : kstate → A) :
  (∀ s t, mem t = mem s → npages t = npages s → f t = f s) → seen (gets f).
Proof. intros Hf s t b s' Hm Hn [= <- <-]. split; [done|]. unfold gets. by rewrite (Hf s t). Qed.
Lemma seen_bind {A B} (m : M A) (f : A → M B) : seen m → (∀ a, seen (f a)) → seen (m ≫= f).
Proof.
  intros Hm Hf s t b s' Em En (a & s1 & H1 & H2)%bind_inv.
  destruct (Hm _ _ _ _ Em En H1) as [-> H1']. destruct (Hf _ _ _ _ _ Em En H2) as [-> H2'].
  split; [done|]. by rewrite (bind_Done _ _ _ _ _ H1').
Qed.
Lemma seen_loop {X A} n e (step : X → M (X + A)) x : (∀ x, seen (step x)) → seen (loop n e step x).
Proof.
  intros Hs. revert x. induction n as [|n IH]; intros x; [apply seen_leave|].
  apply seen_bind; [apply Hs|]. intros [x'|a]; [apply IH|apply seen_ret].
Qed.
End seen.

Section seen_tables.
Lemma seen_rd8 p : seen (rd8 p).
Proof. unfold rd8. destruct (_ <=? _); [|apply seen_leave]. apply seen_gets. by intros s t ->. Qed.
Lemma seen_rd16 p : seen (rd16 p).
Proof. unfold rd16. destruct (_ <=? _); [|apply seen_leave]. apply seen_gets. by intros s t ->. Qed.
Lemma seen_rd32 p : seen (rd32 p).
Proof. unfold rd32. destruct (_ <=? _); [|apply seen_leave]. apply seen_gets. by intros s t ->. Qed.
Lemma seen_kread p n : seen (kread p n).
Proof. unfold kread. destruct (_ <=? _); [|apply seen_leave]. apply seen_gets. by intros s t ->. Qed.
Lemma seen_kaddr pa : seen (KADDR pa).
Proof.
  unfold _kaddr. apply seen_bind; [apply seen_gets; by intros s t _ ->|].
  intros n. destruct (_ <=? _); [apply seen_leave|apply seen_ret].
Qed.
End seen_tables.

#[export] Hint Resolve @seen_ret @seen_leave seen_rd8 seen_rd16 seen_rd32 seen_kread seen_kaddr : seen.

Ltac seen_step :=
  first [ solve [auto with seen] | apply seen_bind; [|intros ?] | apply seen_loop; intros ? | case_match ].
Ltac solve_seen := repeat seen_step.

Lemma seen_sum p n : seen (sum p n).
Proof. unfold sum. solve_seen. Qed.
#[export] Hint Resolve seen_sum : seen.
Lemma seen_mpsearch1 a len : seen (mpsearch1 a len).
Proof. unfold mpsearch1. solve_seen. Qed.
#[export] Hint Resolve seen_mpsearch1 : seen.
Lemma seen_mpsearch : seen mpsearch.
Proof. unfold mpsearch. solve_seen. Qed.
#[export] Hint Resolve seen_mpsearch : seen.

Lemma mpconfig_seen : seen mpconfig.
Proof.
  unfold mpconfig, mp_physaddr, mp_type, conf_length, conf_version, conf_xlength, conf_xchecksum. solve_seen.
Qed.

(** ** A concrete machine *)

(** A block whose byte [i] makes its sum zero. *)
Definition with_checksum (i : nat) (l : list Z) : list Z := <[i := u8 (- foldr Z.add 0 l)]> l.

Definition ex_mp : list Z :=
  with_checksum 10 ([95; 77; 80; 95] ++ [0x00; 0xFD; 0x09; 0] ++ [1; 4; 0; 0; 0; 0; 0; 0]).
(** The boot processor, a bus and a second processor. *)
Definition ex_conf : list Z :=
  with_checksum 7 ([80; 67; 77; 80; 92; 0; 4; 0] ++ replicate 26 0 ++ [3; 0; 0x00; 0x00; 0xE0; 0xFE]
    ++ replicate 4 0 ++ (0 :: 0 :: 0 :: 3 :: replicate 16 0) ++ (1 :: replicate 7 0)
    ++ (0 :: 1 :: 0 :: 1 :: replicate 16 0)).

Definition ex_machine : kstate :=
  set_npages 4096 (set_cpus (list_to_map ((λ i, (i, mkCpu 0 0 None 0 0)) <$> seqZ 0 8))
    (set_mem (write_bytes (write_bytes (write_bytes ∅ 0x40E [0xC0; 0x9F]) 0x9FC10 ex_mp) 0x9FD00 ex_conf)
      zero_kstate)).

Lemma mp_init_enumerates_witness :
  ∃ s', mp_init ex_machine = Done tt s' ∧ ismp s' = true ∧ bootcpu s' = Some 0 ∧ ncpu s' = 2 ∧
    lapic (apic s') = 0xFEE00000 ∧ (∀ i, 0 <= i < ncpu s' → cpu_id <$> cpus s' !! i = Some i) ∧
    cpu_status <$> cpus s' !! 0 = Some CPU_STARTED.
Proof.
  apply (mp_init_enumerates ex_machine 0xF009FD00 0xF009FC10 (set_bootcpu (Some 0) ex_machine)
    [Processor 3; Other 1; Processor 1] [] 3 [1]).
  - vm_compute. reflexivity.
  - reflexivity.
  - unfold all_cpus. by_compute.
  - by_compute.
  - by_compute.
  - vm_compute. repeat split; discriminate.
  - vm_compute. reflexivity.
  - reflexivity.
  - reflexivity.
  - repeat constructor.
Defined.
