(* ===== verification/MemInit.v ===== *)
(** * The kernel's address space: [mem_init] and [mem_init_mp] of kern/pmap.c

    The measurement of physical memory and the mappings above UTOP that the
    kernel makes at boot.  [bootstack] and [percpu_kstacks], the addresses of the
    stacks in the kernel's image, are parameters.  BootMemory.v puts
    these parts of [mem_init] together. *)

From S2P Require Import Prelude Devices Machine PageAlloc Pmap.
From stdpp Require Import base numbers list gmap fin_maps.

Local Open Scope Z_scope.

Definition MC_NVRAM_START : Z := 0xe.
Definition NVRAM_BASELO : Z := MC_NVRAM_START + 7.
Definition NVRAM_EXTLO : Z := MC_NVRAM_START + 9.

Definition nvram_read (r : Z) : M Z :=
  lo ← dev_op (mc146818_read r);
  hi ← dev_op (mc146818_read (r + 1));
  mret (Z.lor lo (Z.shiftl hi 8)).

Definition i386_detect_memory : M unit :=
  base ← nvram_read NVRAM_BASELO;
  modify (set_npages_basemem (base * 1024 / PGSIZE)) ;;
  ext ← nvram_read NVRAM_EXTLO;
  let npages_extmem := ext * 1024 / PGSIZE in
  if negb (npages_extmem =? 0) then modify (set_npages (EXTPHYSMEM / PGSIZE + npages_extmem))
  else modify (λ s, set_npages (npages_basemem s) s).

Section layout.
Variables (bootstack percpu_kstacks : Z).

Definition mem_init_mp : M unit :=
  pd ← gets kern_pgdir;
  boot_map_region pd IOMEMBASE (u32 (- IOMEMBASE)) IOMEM_PADDR PTE_W ;;
  for_each (seqZ 0 NCPU) (λ i,
    pd ← gets kern_pgdir;
    pa ← PADDR (percpu_kstacks + KSTKSIZE * i);
    boot_map_region pd (KSTACKTOP - KSTKSIZE * (i + 1) - KSTKGAP * i) KSTKSIZE pa PTE_W).

(** The part of [mem_init] that fills the kernel's page directory. *)
Definition mem_init_maps : M unit :=
  pd ← gets kern_pgdir;
  n ← gets npages;
  a ← gets pages_kva;
  pa ← PADDR a;
  boot_map_region pd UPAGES (u32 (n * SIZEOF_PAGE)) pa PTE_U ;;
  pd ← gets kern_pgdir;
  pa ← PADDR bootstack;
  boot_map_region pd (KSTACKTOP - KSTKSIZE) KSTKSIZE pa PTE_W ;;
  pd ← gets kern_pgdir;
  boot_map_region pd KERNBASE (0xffffffff - KERNBASE) 0 PTE_W ;;
  pd ← gets kern_pgdir;
  a ← gets envs_kva;
  pa ← PADDR a;
  boot_map_region pd UENVS (NENV * SIZEOF_ENV) pa PTE_U ;;
  mem_init_mp.
End layout.

#[global] Arguments boot_map_region : simpl never.
#[global] Arguments mem_init_mp : simpl never.

(** ** Mappings laid over one another *)

(** [n] pages from [va] on, mapped to the physical pages from [pa] on. *)
Record layer : Type := mkLayer { ly_va : Z; ly_n : Z; ly_pa : Z; ly_perm : Z }.

Definition covers (l : layer) (va : Z) : bool := (ly_va l <=? va) && (va <? ly_va l + ly_n l * 4096).
Definition entry_of (l : layer) (va : Z) : Z :=
  Z.lor (Z.lor (ly_pa l + (va - ly_va l)) (ly_perm l)) PTE_P.

(** The entry at [va] after the layers have been mapped, later ones on top. *)
Definition overlay (ls : list layer) (va pte : Z) : Z :=
  foldl (λ e l, if covers l va then entry_of l va else e) pte ls.

(** The page tables of the addresses above UTOP that the kernel maps. *)
Definition kernel_tables : list Z := [PDX UENVS; PDX UPAGES; PDX (KSTACKTOP - 1)] ++ seqZ 960 64.

Record layer_ok (l : layer) : Prop := {
  lo_va : ly_va l mod 4096 = 0 ∧ 0 <= ly_va l < 4294967296;
  lo_pa : ly_pa l mod 4096 = 0 ∧ 0 <= ly_pa l < 4294967296;
  lo_n : 0 <= ly_n l < 1048575;
  lo_end : ly_va l + ly_n l * 4096 <= 4294967296 ∧ ly_pa l + ly_n l * 4096 <= 4294967296;
  lo_perm : 0 <= ly_perm l < 4096;
  lo_tables : ∀ a, ly_va l <= a < ly_va l + ly_n l * 4096 → PDX a ∈ kernel_tables;
}.

Record layered (s s' : kstate) (fl fl' : list Z) (pd : Z) (ls : list layer) : Prop := {
  la_pages : pages_wf s' fl';
  la_pd : pd_wf s' fl' pd;
  la_pte : ∀ va, 0 <= va < 4294967296 → va mod 4096 = 0 → PDX va ≠ self_index →
    pte_of s' pd va = overlay ls va (pte_of s pd va);
  la_ref : ∀ j, j ∉ fl → pages s' !! j = pages s !! j;
  la_sub : ∀ j, j ∈ fl' → j ∈ fl;
  la_frame : vm_frame s s';
  la_paid : paid s s' fl fl' pd kernel_tables;
  la_dir : ∀ i, 0 <= i < 1024 → i ∉ kernel_tables → pde_of s' pd i = pde_of s pd i;
  la_writable : writable_tables s pd → writable_tables s' pd;
  la_mem : ∀ j, ¬ owned s fl pd j → page_same j (mem s) (mem s') ∧ ¬ owned s' fl' pd j;
}.

Section layers.
Implicit Types (s : kstate) (fl : list Z) (l : layer) (ls : list layer).

Lemma kernel_tables_range : Forall (λ i, 0 <= i < 1024) kernel_tables.
Proof. by_compute. Qed.
Lemma kernel_tables_self i : i ∈ kernel_tables → i ≠ self_index.
Proof.
  assert (Forall (λ i, i ≠ self_index) kernel_tables) as H by by_compute.
  by rewrite Forall_forall in H; auto.
Qed.

Lemma layered_one s fl pd l size :
  pages_wf s fl → pd_wf s fl pd → (missing s pd kernel_tables <= length fl)%nat →
  layer_ok l → ROUNDUP size PGSIZE = ly_n l * 4096 →
  ∃ s' fl', boot_map_region (pgdir_kva pd) (ly_va l) size (ly_pa l) (ly_perm l) s = Done tt s' ∧
    layered s s' fl fl' pd [l].
Proof.
  intros Hw Hd Hm [[V1 V2] [P1 P2] N [E1 E2] R T] Hsize.
  destruct (boot_map_region_run s fl pd (ly_va l) (ly_pa l) (ly_n l) size (ly_perm l) kernel_tables)
    as (s' & fl' & Hrun & [G1 G2 G3 G4 G5 G6 G7 G8 G9 G10] & Hm'); try done.
  { apply kernel_tables_range. }
  { intros a Ha. split; [by apply T|]. by apply kernel_tables_self, T. }
  exists s', fl'. split; [exact Hrun|]. split; try done.
  2: { intros i Hi Hni. apply G8; [done|]. intros a Ha <-. by apply Hni, T. }
  intros va Hva Hal Hs. cbn [overlay foldl]. unfold covers.
  destruct (Z.leb_spec (ly_va l) va), (Z.ltb_spec va (ly_va l + ly_n l * 4096)); simpl;
    try (apply G4; (done || lia)).
  specialize (G3 ((va - ly_va l) / 4096)).
  assert ((va - ly_va l) / 4096 * 4096 = va - ly_va l) as Ek by (Z.div_mod_to_equations; lia).
  rewrite Ek in G3. replace (ly_va l + (va - ly_va l)) with va in G3 by lia. apply G3.
  Z.div_mod_to_equations; lia.
Qed.

Lemma layered_app s s1 s2 fl fl1 fl2 pd ls1 ls2 :
  layered s s1 fl fl1 pd ls1 → layered s1 s2 fl1 fl2 pd ls2 → layered s s2 fl fl2 pd (ls1 ++ ls2).
Proof.
  intros [A1 A2 A3 A4 A5 A6 A7 A8 A9 A10] [B1 B2 B3 B4 B5 B6 B7 B8 B9 B10]. split; auto.
  - intros va ? ? ?. rewrite B3, A3 by done. unfold overlay. by rewrite foldl_app.
  - intros j Hj. rewrite B4, A4; [done|done|]. intros ?. by apply Hj, A5.
  - by etrans.
  - by eapply paid_trans.
  - intros i Hi Hni. by rewrite B8, A8.
  - intros j Hj. destruct (A10 j Hj) as [M1 N1]. destruct (B10 j N1) as [M2 N2]. split; [by etrans|done].
Qed.

Lemma layered_nil s fl pd : pages_wf s fl → pd_wf s fl pd → layered s s fl fl pd [].
Proof. intros. split; try done. by exists []. Qed.

Lemma layered_snoc s s1 fl fl1 pd ls l size :
  layered s s1 fl fl1 pd ls → (missing s pd kernel_tables <= length fl)%nat →
  layer_ok l → ROUNDUP size PGSIZE = ly_n l * 4096 →
  ∃ s2 fl2, boot_map_region (pgdir_kva pd) (ly_va l) size (ly_pa l) (ly_perm l) s1 = Done tt s2 ∧
    layered s s2 fl fl2 pd (ls ++ [l]).
Proof.
  intros H Hm Hl Hs. destruct (layered_one s1 fl1 pd l size) as (s2 & fl2 & Hrun & H2); try done; try apply H.
  { eapply paid_left; [apply H|done]. }
  exists s2, fl2. split; [exact Hrun|]. by eapply layered_app.
Qed.

(** A loop whose body maps one layer. *)
Lemma layered_for (body : Z → M unit) (f : Z → layer) xs s fl pd :
  pages_wf s fl → pd_wf s fl pd → (missing s pd kernel_tables <= length fl)%nat →
  kern_pgdir s = pgdir_kva pd →
  (∀ x s1 fl1, x ∈ xs → pages_wf s1 fl1 → pd_wf s1 fl1 pd → (missing s1 pd kernel_tables <= length fl1)%nat →
     kern_pgdir s1 = pgdir_kva pd → ∃ s2 fl2, body x s1 = Done tt s2 ∧ layered s1 s2 fl1 fl2 pd [f x]) →
  ∃ s' fl', for_each xs body s = Done tt s' ∧ layered s s' fl fl' pd (f <$> xs).
Proof.
  revert s fl. induction xs as [|x xs IH]; intros s fl Hw Hd Hm Hk Hb.
  { exists s, fl. split; [done|]. by apply layered_nil. }
  destruct (Hb x s fl) as (s1 & fl1 & Hrun & H1); try done; [by left|].
  destruct (IH s1 fl1) as (s' & fl' & Hrun' & H2); try apply H1.
  { eapply paid_left; [apply H1|done]. }
  { by rewrite (vm_kern_pgdir _ _ (la_frame _ _ _ _ _ _ H1)). }
  { intros y s2 fl2 Hy. apply Hb. by right. }
  exists s', fl'. split; [cbn [for_each]; by step_with Hrun|].
  rewrite fmap_cons. change (f x :: (f <$> xs)) with ([f x] ++ (f <$> xs)). by eapply layered_app.
Qed.
End layers.

(** ** The layout of the kernel's part of the address space *)

(** Replaces the layout constants by literals. *)
Ltac layout_numbers :=
  change KERNBASE with 4026531840 in *; change UPAGES with 4009754624 in *;
  change UENVS with 4005560320 in *; change KSTACKTOP with 4022337536 in *;
  change KSTKSIZE with 32768 in *; change KSTKGAP with 32768 in *;
  change IOMEMBASE with 4261412864 in *; change IOMEM_PADDR with 4261412864 in *;
  change PTE_W with 2 in *; change PTE_U with 4 in *.

Section layout_spec.
Variables (bootstack percpu_kstacks : Z).
Implicit Types (s : kstate) (fl : list Z).

(** The pages that the array [pages] occupies. *)
Definition pages_size (npages : Z) : Z := (npages * 12 + 4095) / 4096.

Definition stack_layer (i : Z) : layer :=
  mkLayer (KSTACKTOP - 65536 * i - KSTKSIZE) 8 (percpu_kstacks + KSTKSIZE * i - KERNBASE) PTE_W.

Definition kernel_layers s : list layer :=
  [mkLayer UPAGES (pages_size (npages s)) (pages_kva s - KERNBASE) PTE_U;
   mkLayer (KSTACKTOP - KSTKSIZE) 8 (bootstack - KERNBASE) PTE_W;
   mkLayer KERNBASE 65536 0 PTE_W;
   mkLayer UENVS 31 (envs_kva s - KERNBASE) PTE_U] ++
  mkLayer IOMEMBASE 8192 IOMEM_PADDR PTE_W :: (stack_layer <$> seqZ 0 NCPU).

(** Page-aligned data in the kernel's window. *)
Definition kernel_data (a : Z) : Prop := a mod 4096 = 0 ∧ KERNBASE <= a < 4026531840 + 134217728.

Record layout_ready s fl pd : Prop := {
  ld_pages : pages_wf s fl;
  ld_pd : pd_wf s fl pd;
  ld_pgdir : kern_pgdir s = pgdir_kva pd;
  ld_budget : (67 <= length fl)%nat;
  ld_npages : 0 < npages s <= 65536;
  ld_kva : kernel_data (pages_kva s) ∧ kernel_data (envs_kva s) ∧ kernel_data bootstack ∧
    kernel_data percpu_kstacks;
}.

Lemma missing_bound s pd L : (missing s pd L <= length L)%nat.
Proof. apply length_filter. Qed.

Lemma in_kernel_tables i : i = 955 ∨ i = 956 ∨ i = 958 ∨ 960 <= i < 1024 → i ∈ kernel_tables.
Proof.
  intros Hi. change kernel_tables with ([955; 956; 958] ++ seqZ 960 64). simpl.
  rewrite !elem_of_cons, elem_of_seqZ. lia.
Qed.

(** Every layer lies in the tables the kernel reserves. *)
Lemma kernel_layers_ok s fl pd l :
  layout_ready s fl pd → l ∈ kernel_layers s → layer_ok l.
Proof.
  intros [_ _ _ _ Hn ((A1 & A2) & (B1 & B2) & (C1 & C2) & (D1 & D2))] Hl.
  unfold kernel_layers in Hl. rewrite elem_of_app, !elem_of_cons in Hl.
  assert (0 <= pages_size (npages s) <= 192) as Hps
    by (unfold pages_size; Z.div_mod_to_equations; lia).
  destruct Hl as [[->|[->|[->|[->|Hl]]]]|[->|Hl]];
    [| | | |by apply elem_of_nil in Hl| |apply list_elem_of_fmap in Hl as (i & -> & Hi%elem_of_seqZ)];
    unfold stack_layer; unfold NCPU in *; layout_numbers;
    (split; simpl; [Z.div_mod_to_equations; lia|Z.div_mod_to_equations; lia|lia|lia|lia|]);
    intros a Ha; apply in_kernel_tables; rewrite PDX_div; Z.div_mod_to_equations; lia.
Qed.

Lemma mem_init_maps_run s fl pd :
  layout_ready s fl pd →
  ∃ s' fl', mem_init_maps bootstack percpu_kstacks s = Done tt s' ∧
    layered s s' fl fl' pd (kernel_layers s).
Proof.
  intros Hr. pose proof Hr as [Hw Hd Hk Hfl Hn (A & B & C & D)].
  assert (∀ l, l ∈ kernel_layers s → layer_ok l) as Hok by (intros l; by apply (kernel_layers_ok s fl pd)).
  assert ((missing s pd kernel_tables <= length fl)%nat) as Hm.
  { etrans; [apply missing_bound|]. exact Hfl. }
  assert (ROUNDUP (u32 (npages s * SIZEOF_PAGE)) PGSIZE = pages_size (npages s) * 4096) as Hps.
  { change SIZEOF_PAGE with 12. unfold pages_size, ROUNDUP, ROUNDDOWN, PGSIZE.
    rewrite (u32_id (npages s * 12)), !u32_id by (rewrite ?u32_id; lia). Z.div_mod_to_equations. lia. }
  pose proof (layered_nil s fl pd Hw Hd) as H0.
  unfold mem_init_maps. rewrite !run_gets, Hk, run_PADDR by apply A.
  destruct (layered_snoc _ _ _ _ _ _ (mkLayer UPAGES (pages_size (npages s)) (pages_kva s - KERNBASE) PTE_U)
    _ H0 Hm ltac:(apply Hok; by left) Hps) as (s1 & fl1 & R1 & H1). step_with R1.
  rewrite run_gets, (vm_kern_pgdir _ _ (la_frame _ _ _ _ _ _ H1)), Hk, run_PADDR by apply C.
  destruct (layered_snoc _ _ _ _ _ _ (mkLayer (KSTACKTOP - KSTKSIZE) 8 (bootstack - KERNBASE) PTE_W)
    KSTKSIZE H1 Hm ltac:(apply Hok; right; by left) eq_refl) as (s2 & fl2 & R2 & H2). step_with R2.
  rewrite run_gets, (vm_kern_pgdir _ _ (la_frame _ _ _ _ _ _ H2)), Hk.
  destruct (layered_snoc _ _ _ _ _ _ (mkLayer KERNBASE 65536 0 PTE_W)
    (0xffffffff - KERNBASE) H2 Hm ltac:(apply Hok; do 2 right; by left) eq_refl) as (s3 & fl3 & R3 & H3).
  step_with R3. rewrite !run_gets, (vm_kern_pgdir _ _ (la_frame _ _ _ _ _ _ H3)), Hk.
  rewrite (vm_envs_kva _ _ (la_frame _ _ _ _ _ _ H3)), run_PADDR by apply B.
  destruct (layered_snoc _ _ _ _ _ _ (mkLayer UENVS 31 (envs_kva s - KERNBASE) PTE_U)
    (NENV * SIZEOF_ENV) H3 Hm ltac:(apply Hok; do 3 right; by left) eq_refl) as (s4 & fl4 & R4 & H4).
  step_with R4. unfold mem_init_mp. rewrite run_gets, (vm_kern_pgdir _ _ (la_frame _ _ _ _ _ _ H4)), Hk.
  destruct (layered_snoc _ _ _ _ _ _ (mkLayer IOMEMBASE 8192 IOMEM_PADDR PTE_W)
    (u32 (- IOMEMBASE)) H4 Hm ltac:(apply Hok; do 4 right; by left) eq_refl) as (s5 & fl5 & R5 & H5).
  step_with R5. pose proof (vm_kern_pgdir _ _ (la_frame _ _ _ _ _ _ H5)) as K5. rewrite Hk in K5.
  destruct (layered_for (λ i, pd ← gets kern_pgdir; pa ← PADDR (percpu_kstacks + KSTKSIZE * i);
      boot_map_region pd (KSTACKTOP - KSTKSIZE * (i + 1) - KSTKGAP * i) KSTKSIZE pa PTE_W)
    stack_layer (seqZ 0 NCPU) s5 fl5 pd) as (s6 & fl6 & R6 & H6); try apply H5; [eapply paid_left; [apply H5|done]|done| |].
  { intros i t fl' Hi Hwt Hdt Hmt Hkt. rewrite run_gets, Hkt.
    apply elem_of_seqZ in Hi as Hi'. unfold NCPU in Hi'.
    rewrite run_PADDR by (destruct D; layout_numbers; lia).
    destruct (layered_one t fl' pd (stack_layer i) KSTKSIZE) as (t2 & fl2' & Rt & Ht);
      [exact Hwt|exact Hdt|exact Hmt| |reflexivity|].
    { apply Hok. do 5 right. apply list_elem_of_fmap. by exists i. }
    exists t2, fl2'. split; [|exact Ht]. cbn [stack_layer ly_va ly_pa ly_perm] in Rt. rewrite <- Rt. f_equal.
    layout_numbers. lia. }
  exists s6, fl6. split; [exact R6|]. exact (layered_app _ _ _ _ _ _ _ _ _ H5 H6).
Qed.

Lemma overlay_top ls1 l ls2 va pte :
  covers l va = true → Forall (λ l, covers l va = false) ls2 →
  overlay (ls1 ++ l :: ls2) va pte = entry_of l va.
Proof.
  intros Hl H2. unfold overlay. rewrite foldl_app. cbn [foldl]. rewrite Hl.
  generalize (entry_of l va). induction H2 as [|l' ls2 Hl' _ IH]; intros e; [done|].
  cbn [foldl]. rewrite Hl'. apply IH.
Qed.

Lemma overlay_none ls va pte : Forall (λ l, covers l va = false) ls → overlay ls va pte = pte.
Proof.
  intros H. unfold overlay. induction H as [|l ls Hl _ IH]; [done|]. cbn [foldl]. rewrite Hl. apply IH.
Qed.

Lemma covers_false l va : va < ly_va l ∨ ly_va l + ly_n l * 4096 <= va → covers l va = false.
Proof. unfold covers. intros. apply andb_false_iff. rewrite Z.leb_gt, Z.ltb_ge. lia. Qed.
Lemma covers_true l va : ly_va l <= va < ly_va l + ly_n l * 4096 → covers l va = true.
Proof. unfold covers. intros. apply andb_true_iff. rewrite Z.leb_le, Z.ltb_lt. lia. Qed.

(** The stacks from the [a]th on do not reach [va]. *)
Lemma stacks_miss a n va :
  0 <= a → a + n <= 8 → KSTACKTOP - 65536 * a <= va ∨ va < KSTACKTOP - 524288 ∨
    (∃ i, a <= i ∧ KSTACKTOP - 65536 * (i + 1) <= va < KSTACKTOP - 65536 * i - 32768) →
  Forall (λ l, covers l va = false) (stack_layer <$> seqZ a n).
Proof.
  intros Ha Hn Hva. apply Forall_fmap, Forall_forall. intros j Hj%elem_of_seqZ.
  apply covers_false. unfold stack_layer. simpl. change KSTKSIZE with 32768.
  destruct Hva as [|[|(i & Hi & Hv)]]; lia.
Qed.

Lemma stacks_split i :
  0 <= i < 8 → stack_layer <$> seqZ 0 NCPU =
    (stack_layer <$> seqZ 0 i) ++ stack_layer i :: (stack_layer <$> seqZ (i + 1) (7 - i)).
Proof.
  intros Hi. unfold NCPU. replace 8 with (i + (8 - i)) at 1 by lia.
  rewrite seqZ_app by lia. rewrite Z.add_0_l, fmap_app. f_equal.
  rewrite (seqZ_cons i) by lia. rewrite fmap_cons. do 3 f_equal; lia.
Qed.
End layout_spec.

(** Shows that none of the layers of a literal list reaches the address. *)
Ltac no_layer := unfold NCPU in *; layout_numbers;
  repeat first [apply Forall_nil_2 | apply Forall_cons_2; [apply covers_false; simpl; lia|]];
  apply stacks_miss; [lia|lia|layout_numbers; lia].

(** The kernel's part of the address space. *)
Record kernel_layout (percpu : Z) (s s' : kstate) (pd : Z) : Prop := {
  kl_kernel : ∀ va, va mod 4096 = 0 → KERNBASE <= va < IOMEMBASE →
    pte_of s' pd va = Z.lor (Z.lor (va - KERNBASE) PTE_W) PTE_P;
  kl_devices : ∀ va, va mod 4096 = 0 → IOMEMBASE <= va < 4294967296 →
    pte_of s' pd va = Z.lor (Z.lor va PTE_W) PTE_P;
  kl_stack : ∀ i o, 0 <= i < NCPU → 0 <= o < KSTKSIZE → o mod 4096 = 0 →
    pte_of s' pd (KSTACKTOP - 65536 * i - KSTKSIZE + o) =
      Z.lor (Z.lor (percpu + KSTKSIZE * i - KERNBASE + o) PTE_W) PTE_P ∧
    pte_of s' pd (KSTACKTOP - 65536 * (i + 1) + o) = 0;
  kl_pages : ∀ o, o mod 4096 = 0 → 0 <= o < 12 * npages s →
    pte_of s' pd (UPAGES + o) = Z.lor (Z.lor (pages_kva s - KERNBASE + o) PTE_U) PTE_P;
  kl_envs : ∀ o, o mod 4096 = 0 → 0 <= o < NENV * SIZEOF_ENV →
    pte_of s' pd (UENVS + o) = Z.lor (Z.lor (envs_kva s - KERNBASE + o) PTE_U) PTE_P;
  kl_user : ∀ va, va mod 4096 = 0 → 0 <= va < UTOP → pte_of s' pd va = 0;
}.

Lemma layered_layout bootstack percpu s s' fl fl' pd :
  layout_ready bootstack percpu s fl pd → (∀ va, PDX va ≠ self_index → pte_of s pd va = 0) →
  layered s s' fl fl' pd (kernel_layers bootstack percpu s) → kernel_layout percpu s s' pd.
Proof.
  intros Hr Hempty [L1 L2 L3 _ _ _ _ _ _].
  set (W pa := Z.lor (Z.lor pa PTE_W) PTE_P). set (U pa := Z.lor (Z.lor pa PTE_U) PTE_P).
  pose proof (ld_npages _ _ _ _ _ Hr) as Hn.
  assert (∀ va, va mod 4096 = 0 → 0 <= va < 4294967296 → ¬ (4013948928 <= va < 4018143232) →
    pte_of s' pd va = overlay (kernel_layers bootstack percpu s) va 0) as Hpte.
  { intros va Hal Hva Hne. assert (PDX va ≠ self_index) as Hs.
    { change self_index with 957. rewrite PDX_div. Z.div_mod_to_equations. lia. }
    by rewrite L3, Hempty. }
  assert (0 <= pages_size (npages s) <= 192) as Hps by (unfold pages_size; Z.div_mod_to_equations; lia).
  unfold kernel_layers in Hpte. cbn [app] in Hpte. split.
  - intros va Hal Hva. rewrite Hpte by (layout_numbers; (done || lia)).
    etrans; [apply (overlay_top [_; _]); [apply covers_true; simpl; layout_numbers; lia|no_layer]|].
    unfold entry_of, W. simpl. do 2 f_equal; lia.
  - intros va Hal Hva. rewrite Hpte by (layout_numbers; (done || lia)).
    etrans; [apply (overlay_top [_; _; _; _]); [apply covers_true; simpl; layout_numbers; lia|no_layer]|].
    unfold entry_of, W. simpl. do 2 f_equal; layout_numbers; lia.
  - intros i o Hi Ho Hal. unfold NCPU in Hi. rewrite !Hpte by (layout_numbers; Z.div_mod_to_equations; lia). split.
    + rewrite (stacks_split percpu i) by lia. etrans; [apply (overlay_top (_ :: _ :: _ :: _ :: _ :: _))|].
      * apply covers_true. unfold stack_layer. simpl. layout_numbers. lia.
      * no_layer.
      * unfold entry_of, stack_layer, W. simpl. do 2 f_equal; lia.
    + apply overlay_none. unfold NCPU in *. layout_numbers.
      repeat (apply Forall_cons_2; [apply covers_false; simpl; lia|]).
      apply stacks_miss; [lia|lia|]. right. right. exists i. layout_numbers. lia.
  - intros o Hal Ho. rewrite Hpte by (layout_numbers; Z.div_mod_to_equations; lia).
    assert (o < pages_size (npages s) * 4096) by (unfold pages_size; Z.div_mod_to_equations; lia).
    etrans; [apply (overlay_top []); [apply covers_true; simpl; layout_numbers; lia|no_layer]|].
    unfold entry_of, U. simpl. do 2 f_equal; lia.
  - intros o Hal Ho. change (NENV * SIZEOF_ENV) with 126976 in Ho.
    rewrite Hpte by (layout_numbers; Z.div_mod_to_equations; lia).
    etrans; [apply (overlay_top [_; _; _]); [apply covers_true; simpl; layout_numbers; lia|no_layer]|].
    unfold entry_of, U. simpl. do 2 f_equal; lia.
  - intros va Hal Hva. change UTOP with 4005560320 in Hva. rewrite Hpte by lia. apply overlay_none. no_layer.
Qed.

(** the kernel's part of every address space, as mem_init and mem_init_mp map
    it from an empty directory: physical memory at KERNBASE, the devices at
    IOMEMBASE on themselves, the stack of CPU i under its own top with an unmapped
    guard of the same size below it, and the arrays of pages and environments
    readable by the user at UPAGES and UENVS; nothing below UTOP is mapped.  The
    allocator and the directory stay well formed. *)
Theorem kernel_address_space bootstack percpu s fl pd :
  layout_ready bootstack percpu s fl pd → (∀ va, PDX va ≠ self_index → pte_of s pd va = 0) →
  let W pa := Z.lor (Z.lor pa PTE_W) PTE_P in
  let U pa := Z.lor (Z.lor pa PTE_U) PTE_P in
  ∃ s' fl', mem_init_maps bootstack percpu s = Done tt s' ∧ pages_wf s' fl' ∧ pd_wf s' fl' pd ∧
    (∀ va, va mod 4096 = 0 → KERNBASE <= va < IOMEMBASE → pte_of s' pd va = W (va - KERNBASE)) ∧
    (∀ va, va mod 4096 = 0 → IOMEMBASE <= va < 4294967296 → pte_of s' pd va = W va) ∧
    (∀ i o, 0 <= i < NCPU → 0 <= o < KSTKSIZE → o mod 4096 = 0 →
       pte_of s' pd (KSTACKTOP - 65536 * i - KSTKSIZE + o) = W (percpu + KSTKSIZE * i - KERNBASE + o) ∧
       pte_of s' pd (KSTACKTOP - 65536 * (i + 1) + o) = 0) ∧
    (∀ o, o mod 4096 = 0 → 0 <= o < 12 * npages s → pte_of s' pd (UPAGES + o) = U (pages_kva s - KERNBASE + o)) ∧
    (∀ o, o mod 4096 = 0 → 0 <= o < NENV * SIZEOF_ENV → pte_of s' pd (UENVS + o) = U (envs_kva s - KERNBASE + o)) ∧
    (∀ va, va mod 4096 = 0 → 0 <= va < UTOP → pte_of s' pd va = 0).
Proof.
  intros Hr Hempty W U. destruct (mem_init_maps_run bootstack percpu s fl pd Hr) as (s' & fl' & Hrun & HL).
  destruct (layered_layout bootstack percpu s s' fl fl' pd Hr Hempty HL).
  exists s', fl'. split; [exact Hrun|]. split_and!; try done; apply HL.
Qed.

(** ** A concrete machine *)

(** 160 pages, the last 80 of them free, and an empty directory in page 1. *)
Definition ex_boot : kstate :=
  let page i := mkPage (if (80 <=? i) && (i <? 159) then Some (i + 1) else None) (i * 4096)
                  (if i <? 80 then 1 else 0) in
  set_npages 160 (set_pages (list_to_map ((λ i, (i, page i)) <$> seqZ 0 160))
    (set_page_free_list (Some 80) (set_kern_pgdir (pgdir_kva 1)
      (set_pages_kva (KERNBASE + 8192) (set_envs_kva (KERNBASE + 16384) zero_kstate))))).

Lemma ex_boot_empty va : PDX va ≠ self_index → pte_of ex_boot 1 va = 0.
Proof.
  intros _. apply pte_of_none.
  assert (∀ i, 0 <= i < 1024 → pt_of ex_boot 1 i = None) as H by by_compute. apply H, PDX_range.
Qed.

Lemma kernel_address_space_witness :
  ∃ s' fl', mem_init_maps (KERNBASE + 65536) (KERNBASE + 131072) ex_boot = Done tt s' ∧ pd_wf s' fl' 1 ∧
    pte_of s' 1 (KERNBASE + 0x5000) = 0x5003 ∧ pte_of s' 1 (KSTACKTOP - 4096) = 131072 + 28672 + 3 ∧
    pte_of s' 1 (KSTACKTOP - 65536) = 0 ∧ pte_of s' 1 UPAGES = 8192 + 5.
Proof.
  destruct (kernel_address_space (KERNBASE + 65536) (KERNBASE + 131072) ex_boot (seqZ 80 80) 1)
    as (s' & fl' & Hrun & _ & Hd & H1 & _ & H3 & H4 & _ & _).
  - split; [by_compute|apply pd_wf_check; by_compute|reflexivity| |by_compute|].
    + rewrite length_seqZ. change (Z.to_nat 80) with 80%nat. lia.
    + unfold kernel_data. by_compute.
  - intros va. apply ex_boot_empty.
  - exists s', fl'. split; [exact Hrun|]. split; [exact Hd|].
    destruct (H3 0 28672) as [S1 _]; [by_compute|by_compute|reflexivity|].
    destruct (H3 0 0) as [_ S2]; [by_compute|by_compute|reflexivity|].
    split; [apply (H1 (KERNBASE + 0x5000)); by_compute|]. split; [exact S1|]. split; [exact S2|].
    apply (H4 0); by_compute.
Defined.
