(* ===== verification/Selfcheck.v ===== *)
(** * The self-checks of [mem_init]: kern/pmap.c

    At boot [mem_init] tests the page allocator and the page tables, and panics if
    a test fails.  The tests take pages off the free list, hide the rest of it,
    and put everything back.  Here they are run on the model: from every
    well-formed state with enough free pages no assertion fails. *)

From S2P Require Import Prelude Machine PageAlloc Pmap Env.
From stdpp Require Import base numbers list gmap fin_maps strings.

Local Open Scope Z_scope.

(** [assert (x)] of inc/assert.h *)
Definition test (b : bool) (x : string) : M unit := assert b ("assertion failed: " +:+ x).
(** [assert ((pp = m))] *)
Definition need (m : M (option Z)) (x : string) : M Z :=
  r ← m; match r with Some pp => mret pp | None => panic ("assertion failed: " +:+ x) end.
Definition ref_of (pp : Z) : M Z := p ← get_page pp; mret (pp_ref p).

(** [for (pp = page_free_list; pp; pp = pp->pp_link) body] *)
Definition walk_free_list (body : Z → M unit) : M unit :=
  hd ← gets page_free_list;
  n ← gets npages;
  loop (S (Z.to_nat n)) NoFuel (λ pp,
    match pp with
    | None => mret (inr tt)
    | Some pp => body pp ;; p ← get_page pp; mret (inl (pp_link p))
    end) hd.

(** ** [check_page_free_list] *)

(** The places that [tp] points to: the locals [pp1] and [pp2], or a link. *)
Inductive slot : Type := Local (high : bool) | Link (pp : Z).

Definition assign (sl : slot) (v : option Z) (l : option Z * option Z) : M (option Z * option Z) :=
  match sl with
  | Local false => mret (v, l.2)
  | Local true => mret (l.1, v)
  | Link pp => upd_page (set_pp_link v) pp ;; mret l
  end.

(** Moves the pages below [pdx_limit] to the front of the free list. *)
Definition low_pages_first (pdx_limit : Z) : M unit :=
  hd ← gets page_free_list;
  n ← gets npages;
  '(l, tp0, tp1) ← loop (S (Z.to_nat n)) NoFuel (λ '(pp, l, tp0, tp1),
    match pp with
    | None => mret (inr (l, tp0, tp1))
    | Some pp =>
        let pagetype := pdx_limit <=? PDX (page2pa pp) in
        l ← assign (if pagetype then tp1 else tp0) (Some pp) l;
        p ← get_page pp;
        mret (inl (pp_link p, l, if pagetype then tp0 else Link pp, if pagetype then Link pp else tp1))
    end) (hd, (None, None), Local false, Local true);
  l ← assign tp1 None l;
  l ← assign tp0 l.2 l;
  modify (set_page_free_list l.1).

(** The assertions on one page of the list.  That the pointer is aligned in the
    array holds of every page number. *)
Definition examine (first_free_page pp : Z) : M unit :=
  n ← gets npages;
  test (0 <=? pp) "pp >= pages" ;;
  test (pp <? n) "pp < pages + npages" ;;
  test (negb (page2pa pp =? 0)) "page2pa(pp) != 0" ;;
  test (negb (page2pa pp =? IOPHYSMEM)) "page2pa(pp) != IOPHYSMEM" ;;
  test (negb (page2pa pp =? EXTPHYSMEM - PGSIZE)) "page2pa(pp) != EXTPHYSMEM - PGSIZE" ;;
  test (negb (page2pa pp =? EXTPHYSMEM)) "page2pa(pp) != EXTPHYSMEM" ;;
  (if page2pa pp <? EXTPHYSMEM then mret tt else
     kva ← page2kva pp;
     test (first_free_page <=? kva) "(char * ) page2kva(pp) >= first_free_page") ;;
  test (negb (page2pa pp =? MPENTRY_PADDR)) "page2pa(pp) != MPENTRY_PADDR".

Definition check_page_free_list (kend : Z) (only_low_memory : bool) : M unit :=
  let pdx_limit := if only_low_memory then 1 else NPDENTRIES in
  hd ← gets page_free_list;
  match hd with None => panic "'page_free_list' is a null pointer!" | Some _ => mret tt end ;;
  (if only_low_memory then low_pages_first pdx_limit else mret tt) ;;
  walk_free_list (λ pp,
    if PDX (page2pa pp) <? pdx_limit then kva ← page2kva pp; kmemset kva 0x97 128 else mret tt) ;;
  first_free_page ← boot_alloc kend 0;
  hd ← gets page_free_list;
  n ← gets npages;
  '(nfree_basemem, nfree_extmem) ← loop (S (Z.to_nat n)) NoFuel (λ '(pp, nb, ne),
    match pp with
    | None => mret (inr (nb, ne))
    | Some pp =>
        examine first_free_page pp ;;
        p ← get_page pp;
        mret (inl (if page2pa pp <? EXTPHYSMEM then (pp_link p, nb + 1, ne) else (pp_link p, nb, ne + 1)))
    end) (hd, 0, 0);
  test (0 <? nfree_basemem) "nfree_basemem > 0" ;;
  test (0 <? nfree_extmem) "nfree_extmem > 0".

(** ** [check_page_alloc] *)

Definition count_free : M Z :=
  hd ← gets page_free_list;
  n ← gets npages;
  loop (S (Z.to_nat n)) NoFuel (λ '(pp, nfree),
    match pp with
    | None => mret (inr nfree)
    | Some pp => p ← get_page pp; mret (inl (pp_link p, nfree + 1))
    end) (hd, 0).

(** [assert (!page_alloc (0))] *)
Definition no_free_memory : M unit :=
  r ← page_alloc 0; test (bool_decide (r = None)) "!page_alloc (0)".

(** Three pages; three different pages. *)
Definition three_pages : M (Z * Z * Z) :=
  pp0 ← need (page_alloc 0) "(pp0 = page_alloc (0))";
  pp1 ← need (page_alloc 0) "(pp1 = page_alloc (0))";
  pp2 ← need (page_alloc 0) "(pp2 = page_alloc (0))";
  mret (pp0, pp1, pp2).
Definition alloc_three : M (Z * Z * Z) :=
  '(pp0, pp1, pp2) ← three_pages;
  test (negb (pp1 =? pp0)) "pp1 && pp1 != pp0" ;;
  test (negb (pp2 =? pp1) && negb (pp2 =? pp0)) "pp2 && pp2 != pp1 && pp2 != pp0" ;;
  mret (pp0, pp1, pp2).

Definition check_page_alloc : M unit :=
  a ← gets pages_kva;
  (if a =? 0 then panic "'pages' is a null pointer!" else mret tt) ;;
  nfree ← count_free;
  '(pp0, pp1, pp2) ← alloc_three;
  n ← gets npages;
  test (page2pa pp0 <? u32 (n * PGSIZE)) "page2pa (pp0) < npages * PGSIZE" ;;
  test (page2pa pp1 <? u32 (n * PGSIZE)) "page2pa (pp1) < npages * PGSIZE" ;;
  test (page2pa pp2 <? u32 (n * PGSIZE)) "page2pa (pp2) < npages * PGSIZE" ;;
  fl ← gets page_free_list;
  modify (set_page_free_list None) ;;
  no_free_memory ;;
  page_free (Some pp0) ;;
  page_free (Some pp1) ;;
  page_free (Some pp2) ;;
  '(pp0, pp1, pp2) ← alloc_three;
  no_free_memory ;;
  kva ← page2kva pp0;
  kmemset kva 1 PGSIZE ;;
  page_free (Some pp0) ;;
  pp ← need (page_alloc ALLOC_ZERO) "(pp = page_alloc (ALLOC_ZERO))";
  test (pp0 =? pp) "pp && pp0 == pp" ;;
  c ← page2kva pp;
  for_each (seqZ 0 PGSIZE) (λ i,
    s ← get; test (mget (mem s) (c + i - KERNBASE) =? 0) "c[i] == 0") ;;
  modify (set_page_free_list fl) ;;
  page_free (Some pp0) ;;
  page_free (Some pp1) ;;
  page_free (Some pp2) ;;
  nfree' ← count_free;
  test (nfree - nfree' =? 0) "nfree == 0".

(** ** [check_kern_pgdir] *)

(** [for (i = start; i < n; i += PGSIZE)
      assert (check_va2pa (pgdir, va + i) == expect (i))] *)
Definition check_range (pgdir start n va : Z) (expect : Z → M Z) : M unit :=
  loop (S (S (Z.to_nat ((n - start) / PGSIZE)))) NoFuel (λ i,
    if i <? n then
      r ← check_va2pa pgdir (u32 (va + i));
      e ← expect i;
      test (r =? e) "check_va2pa(pgdir, va + i) == expected" ;;
      mret (inl (u32 (i + PGSIZE)))
    else mret (inr tt)) start.

Definition NOT_MAPPED : Z := 0xFFFFFFFF.

(** The permissions that directory entry [i] must have. *)
Definition check_pde (pgdir i : Z) : M unit :=
  pde ← rd32 (pgdir + 4 * i);
  if (i =? PDX UVPT) || (i =? PDX (KSTACKTOP - 1)) || (i =? PDX UPAGES) || (i =? PDX UENVS)
  then test (has PTE_P pde) "pgdir[i] & PTE_P"
  else if PDX KERNBASE <=? i then
    test (has PTE_P pde) "pgdir[i] & PTE_P" ;;
    test (has PTE_W pde) "pgdir[i] & PTE_W"
  else test (pde =? 0) "pgdir[i] == 0".

Definition check_kern_pgdir (percpu_kstacks : Z) : M unit :=
  pgdir ← gets kern_pgdir;
  n ← gets npages;
  check_range pgdir 0 (ROUNDUP (u32 (n * SIZEOF_PAGE)) PGSIZE) UPAGES
    (λ i, a ← gets pages_kva; pa ← PADDR a; mret (u32 (pa + i))) ;;
  check_range pgdir 0 (ROUNDUP (NENV * SIZEOF_ENV) PGSIZE) UENVS
    (λ i, a ← gets envs_kva; pa ← PADDR a; mret (u32 (pa + i))) ;;
  n ← gets npages;
  check_range pgdir 0 (u32 (n * PGSIZE)) KERNBASE mret ;;
  check_range pgdir IOMEMBASE (u32 (- PGSIZE)) 0 mret ;;
  for_each (seqZ 0 NCPU) (λ n,
    let base := KSTACKTOP - (KSTKSIZE + KSTKGAP) * (n + 1) in
    check_range pgdir 0 KSTKSIZE (base + KSTKGAP)
      (λ i, pa ← PADDR (percpu_kstacks + KSTKSIZE * n); mret (u32 (pa + i))) ;;
    check_range pgdir 0 KSTKGAP base (λ _, mret NOT_MAPPED)) ;;
  for_each (seqZ 0 NPDENTRIES) (check_pde pgdir).

(** ** [check_page] *)

(** [kern_pgdir[i]] *)
Definition kern_pde (i : Z) : M Z := pd ← gets kern_pgdir; rd32 (pd + 4 * i).
Definition set_kern_pde (i v : Z) : M unit := pd ← gets kern_pgdir; wr32 (pd + 4 * i) v.

Definition map_page (pp va perm : Z) : M Z := pd ← gets kern_pgdir; page_insert pd (Some pp) va perm.
Definition must_insert (pp va perm : Z) : M unit :=
  r ← map_page pp va perm; test (r =? 0) "page_insert (kern_pgdir, pp, va, perm) == 0".
Definition must_not_insert (pp va perm : Z) : M unit :=
  r ← map_page pp va perm; test (r <? 0) "page_insert (kern_pgdir, pp, va, perm) < 0".
Definition unmap_page (va : Z) : M unit := pd ← gets kern_pgdir; page_remove pd va.
Definition test_va2pa (va pa : Z) : M unit :=
  pd ← gets kern_pgdir; r ← check_va2pa pd va; test (r =? pa) "check_va2pa (kern_pgdir, va) == pa".
Definition test_ref (pp n : Z) : M unit :=
  r ← ref_of pp; test (r =? n) "pp->pp_ref == n".
(** [*pgdir_walk (kern_pgdir, va, 0)] *)
Definition walk_entry (va : Z) : M Z :=
  pd ← gets kern_pgdir;
  p ← pgdir_walk pd va NO_CREATE;
  p ← deref p;
  rd32 p.

(** Page 1 at 0 and page 2 at [PGSIZE]; the page table is page 0. *)
Definition check_map (pp0 pp1 pp2 : Z) : M unit :=
  pd ← gets kern_pgdir;
  r ← page_lookup pd 0;
  test (bool_decide (r = None)) "page_lookup (kern_pgdir, (void * ) 0x0, &ptep) == NULL" ;;
  must_not_insert pp1 0 PTE_W ;;
  page_free (Some pp0) ;;
  must_insert pp1 0 PTE_W ;;
  e ← kern_pde 0;
  test (PTE_ADDR e =? page2pa pp0) "PTE_ADDR (kern_pgdir[0]) == page2pa (pp0)" ;;
  test_va2pa 0 (page2pa pp1) ;;
  test_ref pp1 1 ;;
  test_ref pp0 1 ;;
  must_insert pp2 PGSIZE PTE_W ;;
  test_va2pa PGSIZE (page2pa pp2) ;;
  test_ref pp2 1 ;;
  no_free_memory.

(** Page 2 at [PGSIZE] again, with other permissions, and replaced by page 1. *)
Definition check_remap (pp0 pp1 pp2 : Z) : M unit :=
  must_insert pp2 PGSIZE PTE_W ;;
  test_va2pa PGSIZE (page2pa pp2) ;;
  test_ref pp2 1 ;;
  no_free_memory ;;
  e ← kern_pde (PDX PGSIZE);
  ptep ← KADDR (PTE_ADDR e);
  pd ← gets kern_pgdir;
  p ← pgdir_walk pd PGSIZE NO_CREATE;
  test (bool_decide (p = Some (ptep + 4 * PTX PGSIZE)))
    "pgdir_walk (kern_pgdir, (void * ) PGSIZE, 0) == ptep + PTX (PGSIZE)" ;;
  must_insert pp2 PGSIZE (Z.lor PTE_W PTE_U) ;;
  test_va2pa PGSIZE (page2pa pp2) ;;
  test_ref pp2 1 ;;
  e ← walk_entry PGSIZE;
  test (has PTE_U e) "*pgdir_walk (kern_pgdir, (void * ) PGSIZE, 0) & PTE_U" ;;
  e ← kern_pde 0;
  test (has PTE_U e) "kern_pgdir[0] & PTE_U" ;;
  must_not_insert pp0 PTSIZE PTE_W ;;
  must_insert pp1 PGSIZE PTE_W ;;
  e ← walk_entry PGSIZE;
  test (negb (has PTE_U e)) "!( *pgdir_walk (kern_pgdir, (void * ) PGSIZE, 0) & PTE_U)" ;;
  test_va2pa 0 (page2pa pp1) ;;
  test_va2pa PGSIZE (page2pa pp1) ;;
  test_ref pp1 2 ;;
  test_ref pp2 0 ;;
  pp ← need (page_alloc 0) "(pp = page_alloc (0)) && pp == pp2";
  test (pp =? pp2) "(pp = page_alloc (0)) && pp == pp2".

(** Both mappings are removed, and the page table is taken back. *)
Definition check_unmap (pp0 pp1 pp2 : Z) : M unit :=
  unmap_page 0 ;;
  test_va2pa 0 NOT_MAPPED ;;
  test_va2pa PGSIZE (page2pa pp1) ;;
  test_ref pp1 1 ;;
  test_ref pp2 0 ;;
  unmap_page PGSIZE ;;
  test_va2pa 0 NOT_MAPPED ;;
  test_va2pa PGSIZE NOT_MAPPED ;;
  test_ref pp1 0 ;;
  test_ref pp2 0 ;;
  pp ← need (page_alloc 0) "(pp = page_alloc (0)) && pp == pp1";
  test (pp =? pp1) "(pp = page_alloc (0)) && pp == pp1" ;;
  no_free_memory ;;
  e ← kern_pde 0;
  test (PTE_ADDR e =? page2pa pp0) "PTE_ADDR (kern_pgdir[0]) == page2pa (pp0)" ;;
  set_kern_pde 0 0 ;;
  test_ref pp0 1 ;;
  upd_page (set_pp_ref 0) pp0.

(** Page tables that [pgdir_walk] makes, with the single free page [pp0]. *)
Definition check_walk (pp0 : Z) : M unit :=
  page_free (Some pp0) ;;
  let va := PGSIZE * NPDENTRIES + PGSIZE in
  pd ← gets kern_pgdir;
  ptep ← pgdir_walk pd va CREATE;
  e ← kern_pde (PDX va);
  ptep1 ← KADDR (PTE_ADDR e);
  test (bool_decide (ptep = Some (ptep1 + 4 * PTX va))) "ptep == ptep1 + PTX (va)" ;;
  set_kern_pde (PDX va) 0 ;;
  upd_page (set_pp_ref 0) pp0 ;;
  kva ← page2kva pp0;
  kmemset kva 0xFF PGSIZE ;;
  page_free (Some pp0) ;;
  pd ← gets kern_pgdir;
  pgdir_walk pd 0 CREATE ;;
  ptep ← page2kva pp0;
  for_each (seqZ 0 NPTENTRIES) (λ i,
    e ← rd32 (ptep + 4 * i); test (negb (has PTE_P e)) "(ptep[i] & PTE_P) == 0") ;;
  set_kern_pde 0 0 ;;
  upd_page (set_pp_ref 0) pp0.

Definition check_page : M unit :=
  '(pp0, pp1, pp2) ← alloc_three;
  fl ← gets page_free_list;
  modify (set_page_free_list None) ;;
  no_free_memory ;;
  check_map pp0 pp1 pp2 ;;
  check_remap pp0 pp1 pp2 ;;
  check_unmap pp0 pp1 pp2 ;;
  check_walk pp0 ;;
  modify (set_page_free_list fl) ;;
  page_free (Some pp0) ;;
  page_free (Some pp1) ;;
  page_free (Some pp2).

(** ** [check_page_installed_pgdir] *)

(** The accesses through [PGSIZE] are translated by the installed directory. *)
Definition check_page_installed_pgdir : M unit :=
  '(pp0, pp1, pp2) ← three_pages;
  page_free (Some pp0) ;;
  kva ← page2kva pp1;
  kmemset kva 1 PGSIZE ;;
  kva ← page2kva pp2;
  kmemset kva 2 PGSIZE ;;
  map_page pp1 PGSIZE PTE_W ;;
  test_ref pp1 1 ;;
  v ← vrd32 PGSIZE;
  test (v =? 0x01010101) "*(uint32_t * ) PGSIZE == 0x01010101U" ;;
  map_page pp2 PGSIZE PTE_W ;;
  v ← vrd32 PGSIZE;
  test (v =? 0x02020202) "*(uint32_t * ) PGSIZE == 0x02020202U" ;;
  test_ref pp2 1 ;;
  test_ref pp1 0 ;;
  vwrite PGSIZE [3; 3; 3; 3] ;;
  kva ← page2kva pp2;
  v ← rd32 kva;
  test (v =? 0x03030303) "*(uint32_t * ) page2kva (pp2) == 0x03030303U" ;;
  unmap_page PGSIZE ;;
  test_ref pp2 0 ;;
  e ← kern_pde 0;
  test (PTE_ADDR e =? page2pa pp0) "PTE_ADDR (kern_pgdir[0]) == page2pa (pp0)" ;;
  set_kern_pde 0 0 ;;
  test_ref pp0 1 ;;
  upd_page (set_pp_ref 0) pp0 ;;
  page_free (Some pp0).

(** ** Steps that touch only given pages *)

(** [kept T s s']: descriptions and contents of the pages outside [T], and all of
    the kernel but its memory, are as before. *)
Record kept (T : list Z) (s s' : kstate) : Prop := {
  kp_page j : j ∉ T → pages s' !! j = pages s !! j;
  kp_mem j : j ∉ T → page_same j (mem s) (mem s');
  kp_frame : vm_frame s s'
}.

Section kept.
Implicit Types (s : kstate) (fl T : list Z) (q : Z) (p : Page).

#[global] Instance kept_preorder T : PreOrder (kept T).
Proof.
  split.
  - intros s. by split.
  - intros s1 s2 s3 H1 H2. split.
    + intros j Hj. by rewrite (kp_page _ _ _ H2), (kp_page _ _ _ H1).
    + intros j Hj. etrans; [by apply H1|by apply H2].
    + etrans; [apply H1|apply H2].
Qed.

Lemma kept_mono T T' s s' : kept T s s' → T ⊆ T' → kept T' s s'.
Proof. intros [H1 H2 H3] Hs. split; [intros j Hj; apply H1; set_solver|intros j Hj; apply H2; set_solver|done]. Qed.

Lemma alloc_kept s fl q flags :
  pages_wf s (q :: fl) →
  ∃ s', page_alloc flags s = Done (Some q) s' ∧ pages_wf s' fl ∧ kept [q] s s' ∧
    pages s' !! q = Some (mkPage None (q * 4096) 0) ∧
    (has ALLOC_ZERO flags = true → ∀ a, q * 4096 <= a < (q + 1) * 4096 → mget (mem s') a = 0).
Proof.
  intros Hw. destruct (page_alloc_cons s fl q flags Hw) as (p & Hp & Ha & Hrun).
  exists (alloc_post flags q p s). split; [done|]. split; [by apply alloc_post_wf|].
  split; [|split].
  - split.
    + intros j Hj. unfold alloc_post. simpl. rewrite lookup_insert_ne; [done|set_solver].
    + intros j Hj. unfold alloc_post. simpl. destruct (has ALLOC_ZERO flags); simpl; [|done].
      rewrite Ha. apply fill_page_same. set_solver.
    + apply vm_frame_alloc.
  - unfold alloc_post. simpl. rewrite lookup_insert_eq, Ha. done.
  - intros Hz a Hra. unfold alloc_post. rewrite Hz. simpl. rewrite Ha, mget_fill, decide_True; [done|]. unfold PGSIZE. lia.
Qed.

Lemma free_kept s fl q p :
  pages_wf s fl → q ∉ fl → pages s !! q = Some p →
  ∃ s', page_free (Some q) s = Done tt s' ∧ pages_wf s' (q :: fl) ∧ kept [q] s s' ∧
    (∃ p', pages s' !! q = Some p' ∧ pp_ref p' = pp_ref p) ∧ mem s' = mem s.
Proof.
  intros Hw Hq Hp. exists (free_post q p s). split; [by eapply page_free_eq|]. split; [by apply free_post_wf|].
  split; [|split; [|done]].
  - split; [|done|apply vm_frame_free]. intros j Hj. unfold free_post. simpl. rewrite lookup_insert_ne; [done|set_solver].
  - unfold free_post. simpl. rewrite lookup_insert_eq. by eexists.
Qed.

(** Hiding the free list, and giving it back. *)
Lemma hide_kept s fl : pages_wf s fl → pages_wf (set_page_free_list None s) [] ∧ kept [] s (set_page_free_list None s).
Proof.
  intros [W1 W2 W3 W4 W5]. split; [|by split]. split; try done. constructor.
Qed.

Lemma restore_wf s s' fl :
  pages_wf s fl → pages_wf s' [] → (∀ q, q ∈ fl → pages s' !! q = pages s !! q) →
  pages_wf (set_page_free_list (page_free_list s) s') fl.
Proof.
  intros Hw [W1 W2 W3 _ _] Hk. split; try done; [|apply Hw].
  eapply chain_frame; [|apply (pw_chain _ _ Hw)]. intros q Hq. unfold next_page. simpl. by rewrite Hk.
Qed.

(** Assertions. *)
Lemma run_test {A} b x (k : unit → M A) s : b = true → (test b x ≫= k) s = k tt s.
Proof. intros ->. done. Qed.

Lemma run_need {A} m x (k : Z → M A) s q s' : m s = Done (Some q) s' → (need m x ≫= k) s = k q s'.
Proof. intros H. unfold need. by rewrite run_assoc, (bind_Done _ _ _ _ _ H). Qed.

Lemma run_no_free {A} s (k : unit → M A) : pages_wf s [] → (no_free_memory ≫= k) s = k tt s.
Proof. intros Hw. unfold no_free_memory. by rewrite run_assoc, (bind_Done _ _ _ _ _ (page_alloc_nil s 0 Hw)). Qed.

(** Three pages from the head of the list. *)
Lemma three_pages_run s a b c fl :
  pages_wf s (a :: b :: c :: fl) →
  ∃ s', three_pages s = Done (a, b, c) s' ∧ pages_wf s' fl ∧ kept [a; b; c] s s' ∧
    (∀ q, q ∈ [a; b; c] → pages s' !! q = Some (mkPage None (q * 4096) 0)).
Proof.
  intros Hw.
  destruct (alloc_kept s _ a 0 Hw) as (s1 & R1 & W1 & K1 & P1 & _).
  destruct (alloc_kept s1 _ b 0 W1) as (s2 & R2 & W2 & K2 & P2 & _).
  destruct (alloc_kept s2 _ c 0 W2) as (s3 & R3 & W3 & K3 & P3 & _).
  exists s3. split; [|split; [done|split]].
  - unfold three_pages. by rewrite (run_need _ _ _ _ _ _ R1), (run_need _ _ _ _ _ _ R2), (run_need _ _ _ _ _ _ R3).
  - etrans; [eapply kept_mono; [exact K1|set_solver]|].
    etrans; [eapply kept_mono; [exact K2|set_solver]|]. eapply kept_mono; [exact K3|set_solver].
  - intros q Hq. destruct (decide (q = c)) as [->|Hc]; [done|].
    rewrite (kp_page _ _ _ K3) by set_solver. destruct (decide (q = b)) as [->|Hb']; [done|].
    rewrite (kp_page _ _ _ K2) by set_solver. assert (q = a) as -> by set_solver. done.
Qed.

Lemma alloc_three_run s a b c fl :
  pages_wf s (a :: b :: c :: fl) →
  ∃ s', alloc_three s = Done (a, b, c) s' ∧ pages_wf s' fl ∧ kept [a; b; c] s s' ∧
    (∀ q, q ∈ [a; b; c] → pages s' !! q = Some (mkPage None (q * 4096) 0)).
Proof.
  intros Hw. pose proof (pw_nodup _ _ Hw) as Hnd. destruct (three_pages_run s a b c fl Hw) as (s' & R & H).
  exists s'. split; [|done]. apply NoDup_cons in Hnd as [Ha Hnd]. apply NoDup_cons in Hnd as [Hb Hnd].
  assert (b ≠ a ∧ c ≠ b ∧ c ≠ a) as (H1 & H2 & H3) by set_solver.
  unfold alloc_three. step_with R. by rewrite run_test, run_test by (by rewrite !(proj2 (Z.eqb_neq _ _))).
Qed.

(** Three pages given back. *)
Lemma free_three_run s fl a b c :
  pages_wf s fl → NoDup (a :: b :: c :: fl) →
  (∀ q, q ∈ [a; b; c] → is_Some (pages s !! q)) →
  ∃ s', (∀ k : unit → M unit,
      (page_free (Some a) ≫= λ _, page_free (Some b) ≫= λ _, page_free (Some c) ≫= k) s = k tt s') ∧
    (page_free (Some a) ;; page_free (Some b) ;; page_free (Some c)) s = Done tt s' ∧
    pages_wf s' (c :: b :: a :: fl) ∧ kept [a; b; c] s s' ∧ mem s' = mem s ∧
    (∀ q p, q ∈ [a; b; c] → pages s !! q = Some p → pp_ref <$> pages s' !! q = Some (pp_ref p)).
Proof.
  intros Hw Hnd Hp. apply NoDup_cons in Hnd as [Ha Hnd]. apply NoDup_cons in Hnd as [Hb Hnd].
  apply NoDup_cons in Hnd as [Hc _].
  destruct (Hp a) as [pa Pa]; [set_solver|]. destruct (Hp b) as [pb Pb]; [set_solver|]. destruct (Hp c) as [pc Pc]; [set_solver|].
  destruct (free_kept s fl a pa Hw ltac:(set_solver) Pa) as (s1 & R1 & W1 & K1 & (pa' & Pa' & Ra) & M1).
  destruct (free_kept s1 _ b pb W1 ltac:(set_solver)) as (s2 & R2 & W2 & K2 & (pb' & Pb' & Rb) & M2).
  { rewrite (kp_page _ _ _ K1) by set_solver. done. }
  destruct (free_kept s2 _ c pc W2 ltac:(set_solver)) as (s3 & R3 & W3 & K3 & (pc' & Pc' & Rc) & M3).
  { rewrite (kp_page _ _ _ K2), (kp_page _ _ _ K1) by set_solver. done. }
  exists s3. split; [intros k; by rewrite (bind_Done _ _ _ _ _ R1), (bind_Done _ _ _ _ _ R2), (bind_Done _ _ _ _ _ R3)|].
  split; [by rewrite (bind_Done _ _ _ _ _ R1), (bind_Done _ _ _ _ _ R2)|].
  split; [done|]. split; [|split; [congruence|]].
  - etrans; [eapply kept_mono; [exact K1|set_solver]|].
    etrans; [eapply kept_mono; [exact K2|set_solver]|]. eapply kept_mono; [exact K3|set_solver].
  - intros q p Hq Hqp. destruct (decide (q = c)) as [->|Hc']; [rewrite Pc'; simpl; congruence|].
    rewrite (kp_page _ _ _ K3) by set_solver. destruct (decide (q = b)) as [->|Hb']; [rewrite Pb'; simpl; congruence|].
    rewrite (kp_page _ _ _ K2) by set_solver. assert (q = a) as -> by set_solver. rewrite Pa'. simpl. congruence.
Qed.
End kept.

(** ** The allocator *)

Section allocator.
Implicit Types (s : kstate) (fl : list Z).

Lemma free_length s fl : pages_wf s fl → (length fl < S (Z.to_nat (npages s)))%nat.
Proof.
  intros Hw. pose proof (pw_npages _ _ Hw). apply Nat.lt_succ_r.
  assert (length (seqZ 0 (npages s)) = Z.to_nat (npages s)) as <- by apply length_seqZ.
  apply submseteq_length, NoDup_submseteq; [apply Hw|].
  intros q Hq. apply elem_of_seqZ. pose proof (pw_in_range _ _ q Hw Hq). lia.
Qed.

Lemma count_free_run s fl : pages_wf s fl → count_free s = Done (Z.of_nat (length fl)) s.
Proof.
  intros Hw. unfold count_free. rewrite run_gets, run_gets.
  pose proof (free_length s fl Hw) as Hlen. revert Hlen. generalize (S (Z.to_nat (npages s))). intros n Hlen.
  assert (∀ fuel l hd k, chain (next_page s) hd l → (length l < fuel)%nat →
    loop fuel NoFuel (λ '(pp, nfree), match pp with
      | None => mret (inr nfree)
      | Some pp => p ← get_page pp; mret (inl (pp_link p, nfree + 1)) end) (hd, k) s =
    Done (k + Z.of_nat (length l)) s) as Hloop.
  { clear. induction fuel as [|fuel IH]; intros l hd k Hc Hl; [lia|]. rewrite loop_S.
    destruct l as [|q l]; simpl in Hc.
    - subst hd. rewrite run_ret. simpl. by rewrite Z.add_0_r.
    - destruct Hc as [-> Hc]. unfold next_page in Hc. destruct (pages s !! q) as [p|] eqn:Hp; [|done]. simpl in Hc.
      rewrite run_assoc, (run_get_page _ p), run_ret by done. simpl in Hl. rewrite (IH l) by (done || lia).
      f_equal. simpl. lia. }
  rewrite (Hloop n fl _ 0); [done|apply Hw|done].
Qed.

Lemma zero_bytes_run s q l :
  (∀ a, q * 4096 <= a < (q + 1) * 4096 → mget (mem s) a = 0) → (∀ i, i ∈ l → 0 <= i < 4096) →
  for_each l (λ i, s ← get; test (mget (mem s) (q * 4096 + KERNBASE + i - KERNBASE) =? 0) "c[i] == 0") s = Done tt s.
Proof.
  intros Hz. induction l as [|i l IH]; intros Hl; [done|]. cbn [for_each].
  assert ((s ← get; test (mget (mem s) (q * 4096 + KERNBASE + i - KERNBASE) =? 0) "c[i] == 0") s = Done tt s) as Hb.
  { rewrite run_get. rewrite Hz; [done|]. pose proof (Hl i ltac:(by left)). lia. }
  rewrite (bind_Done _ _ _ _ _ Hb). apply IH. intros j Hj. apply Hl. by right.
Qed.

Definition recheck (k : Z → Z → Z → M unit) : M unit :=
  '(pp0, pp1, pp2) ← alloc_three;
  no_free_memory ;;
  kva ← page2kva pp0;
  kmemset kva 1 PGSIZE ;;
  page_free (Some pp0) ;;
  pp ← need (page_alloc ALLOC_ZERO) "(pp = page_alloc (ALLOC_ZERO))";
  test (pp0 =? pp) "pp && pp0 == pp" ;;
  c ← page2kva pp;
  for_each (seqZ 0 PGSIZE) (λ i,
    s ← get; test (mget (mem s) (c + i - KERNBASE) =? 0) "c[i] == 0") ;;
  k pp0 pp1 pp2.

(** The middle of [check_page_alloc]: the three pages are the only free ones. *)
Lemma recheck_run s a b c :
  pages_wf s [c; b; a] →
  ∃ s', (∀ k, recheck k s = k c b a s') ∧
    pages_wf s' [] ∧ kept [a; b; c] s s' ∧ (∀ q, q ∈ [a; b; c] → pp_ref <$> pages s' !! q = Some 0).
Proof.
  intros Hw. pose proof (pw_npages _ _ Hw) as Hn.
  pose proof (pw_in_range _ _ c Hw ltac:(by left)) as Hc.
  destruct (alloc_three_run s c b a [] Hw) as (s1 & R1 & W1 & K1 & P1).
  set (s2 := set_mem (fill (mem s1) (c * 4096) 1 (Z.to_nat PGSIZE)) s1).
  assert (pages_wf s2 []) as W2 by (by apply (pages_wf_ext s1)).
  assert (kept [c] s1 s2) as K2.
  { split; [done| |by split]. intros j Hj x Hx. unfold s2. simpl. rewrite mget_fill, decide_False; [done|].
    unfold PGSIZE. assert (j ≠ c) by set_solver. lia. }
  destruct (free_kept s2 [] c (mkPage None (c * 4096) 0) W2 ltac:(set_solver)) as (s3 & R3 & W3 & K3 & (p3 & P3 & Q3) & _).
  { apply (P1 c). by left. }
  destruct (alloc_kept s3 [] c ALLOC_ZERO W3) as (s4 & R4 & W4 & K4 & P4 & Z4).
  assert (kept [c] s1 s4) as K14 by (etrans; [exact K2|]; etrans; [exact K3|exact K4]).
  pose proof (vm_npages _ _ (kp_frame _ _ _ K1)) as N1. pose proof (vm_npages _ _ (kp_frame _ _ _ K14)) as N4.
  exists s4. split; [|split; [done|split]].
  - intros k. unfold recheck. rewrite (bind_Done _ _ _ _ _ R1), (run_no_free s1), run_page2kva by (done || lia).
    unfold kmemset. rewrite run_modify, Z.add_simpl_r. fold s2. rewrite (bind_Done _ _ _ _ _ R3).
    rewrite (run_need _ _ _ _ _ _ R4), run_test by apply Z.eqb_refl. rewrite run_page2kva by lia.
    rewrite (bind_Done _ _ _ _ _ (zero_bytes_run s4 c (seqZ 0 PGSIZE) (Z4 eq_refl) ltac:(intros i Hi; apply elem_of_seqZ in Hi; unfold PGSIZE in Hi; lia))).
    done.
  - etrans; [eapply kept_mono; [exact K1|set_solver]|]. eapply kept_mono; [exact K14|set_solver].
  - intros q Hq. destruct (decide (q = c)) as [->|Hne]; [by rewrite P4|].
    rewrite (kp_page _ _ _ K14) by set_solver. rewrite P1 by set_solver. done.
Qed.

Lemma check_page_alloc_run s a b c fl :
  pages_wf s (a :: b :: c :: fl) → pages_kva s ≠ 0 →
  ∃ s', check_page_alloc s = Done tt s' ∧ pages_wf s' (a :: b :: c :: fl) ∧ kept [a; b; c] s s' ∧
    (∀ q, q ∈ [a; b; c] → pp_ref <$> pages s' !! q = Some 0).
Proof.
  intros Hw Hkva. pose proof (pw_npages _ _ Hw) as Hn. pose proof (pw_nodup _ _ Hw) as Hnd.
  assert (∀ q, q ∈ [a; b; c] → 0 <= q < npages s) as Hin by (intros q Hq; apply (pw_in_range _ _ q Hw); set_solver).
  destruct (alloc_three_run s a b c fl Hw) as (s1 & R1 & W1 & K1 & P1).
  pose proof (vm_npages _ _ (kp_frame _ _ _ K1)) as N1.
  destruct (hide_kept s1 fl W1) as [W2 K2]. set (s2 := set_page_free_list None s1) in *.
  destruct (free_three_run s2 [] a b c W2) as (s3 & R3 & _ & W3 & K3 & _).
  { eapply sublist_NoDup; [exact Hnd|]. do 3 apply sublist_skip. apply sublist_nil_l. }
  { intros q Hq. change (pages s2) with (pages s1). rewrite (P1 q Hq). by eexists. }
  destruct (recheck_run s3 a b c W3) as (s4 & R4 & W4 & K4 & P4).
  assert (kept [a; b; c] s1 s4) as K14.
  { etrans; [eapply kept_mono; [exact K2|set_solver]|]. etrans; [exact K3|exact K4]. }
  assert (∀ q, q ∈ fl → q ∉ [a; b; c]) as Hfl.
  { intros q Hq. apply NoDup_cons in Hnd as [H1 Hnd]. apply NoDup_cons in Hnd as [H2 Hnd].
    apply NoDup_cons in Hnd as [H3 _]. set_solver. }
  pose proof (restore_wf s1 s4 fl W1 W4 (λ q Hq, kp_page _ _ _ K14 q (Hfl q Hq))) as W5.
  set (s5 := set_page_free_list (page_free_list s1) s4) in *.
  destruct (free_three_run s5 fl c b a W5) as (s6 & R6 & _ & W6 & K6 & _ & P6).
  { rewrite !NoDup_cons in Hnd |- *. set_solver. }
  { intros q Hq. specialize (P4 q ltac:(set_solver)). change (pages s5) with (pages s4).
    destruct (pages s4 !! q); [by eexists|done]. }
  exists s6. split; [|split; [done|split]].
  - unfold check_page_alloc. rewrite run_gets, (proj2 (Z.eqb_neq _ _) Hkva), run_ret.
    rewrite (bind_Done _ _ _ _ _ (count_free_run s _ Hw)), (bind_Done _ _ _ _ _ R1), run_gets, N1.
    assert (∀ q, q ∈ [a; b; c] → (page2pa q <? u32 (npages s * PGSIZE)) = true) as Hlt.
    { intros q Hq. specialize (Hin q Hq). rewrite page2pa_mul by lia. unfold PGSIZE. rewrite u32_id by lia.
      apply Z.ltb_lt. lia. }
    rewrite !run_test by (apply Hlt; set_solver). rewrite run_gets, run_modify. fold s2.
    rewrite (run_no_free s2) by done. etrans; [exact (R3 _)|].
    etrans; [exact (R4 (λ pp0 pp1 pp2, modify (set_page_free_list (page_free_list s1)) ;; page_free (Some pp0) ;;
      page_free (Some pp1) ;; page_free (Some pp2) ;; nfree' ← count_free;
      test (Z.of_nat (length (a :: b :: c :: fl)) - nfree' =? 0) "nfree == 0"))|].
    rewrite run_modify. fold s5. etrans; [exact (R6 _)|].
    rewrite (bind_Done _ _ _ _ _ (count_free_run s6 _ W6)), Z.sub_diag. done.
  - etrans; [exact K1|]. etrans; [exact K14|]. etrans; [|eapply kept_mono; [exact K6|set_solver]]. by split.
  - intros q Hq. specialize (P4 q Hq). change (pages s4) with (pages s5) in P4.
    destruct (pages s5 !! q) as [p|] eqn:E; [|done]. rewrite (P6 q p) by (done || set_solver). exact P4.
Qed.
End allocator.

(** ** The free list *)

(** Each element of [l] but the last is linked to the next one. *)
Definition linked (nx : Z → option (option Z)) (l : list Z) : Prop :=
  ∀ i x y, l !! i = Some x → l !! S i = Some y → nx x = Some (Some y).

Section free_list.
Implicit Types (s : kstate) (fl lo hi rest l L : list Z) (h : bool).

Lemma linked_tail nx x l : linked nx (x :: l) → linked nx l.
Proof. intros H i. exact (H (S i)). Qed.

Lemma linked_chain nx l tl rest :
  linked nx l → (∀ z, last l = Some z → nx z = Some tl) → chain nx tl rest →
  chain nx (match l with x :: _ => Some x | [] => tl end) (l ++ rest).
Proof.
  intros Hl Hz Hc. induction l as [|x l IH]; [done|]. split; [done|].
  destruct l as [|y l].
  - by rewrite (Hz x eq_refl).
  - rewrite (Hl 0%nat x y eq_refl eq_refl). apply IH; [by eapply linked_tail|]. intros z Hlast. by apply Hz.
Qed.

Lemma linked_snoc nx l q :
  linked nx l → (∀ z, last l = Some z → nx z = Some (Some q)) → linked nx (l ++ [q]).
Proof.
  intros Hl Hz i x y Hx Hy. apply lookup_snoc_Some in Hy as [[Hi Hy]|[Hi <-]].
  - apply lookup_snoc_Some in Hx as [[_ Hx]|[? _]]; [by apply (Hl i)|lia].
  - apply lookup_snoc_Some in Hx as [[_ Hx]|[? _]]; [|lia]. apply Hz. rewrite last_lookup. rewrite <- Hi. done.
Qed.

Lemma linked_frame nx nx' l :
  NoDup l → (∀ j, j ∈ l → last l ≠ Some j → nx' j = nx j) → linked nx l → linked nx' l.
Proof.
  intros Hnd Hf Hl i x y Hx Hy. rewrite Hf; [by apply (Hl i)|by eapply list_elem_of_lookup_2|].
  intros Hz. rewrite last_lookup in Hz. apply lookup_lt_Some in Hy as Hlt.
  pose proof (NoDup_lookup _ _ _ _ Hnd Hx Hz). lia.
Qed.

(** One of the two lists that are being built: [tp] points to the place where the
    next element is to be stored. *)
Definition pick h (loc : option Z * option Z) : option Z := if h then loc.2 else loc.1.
Definition slot_of h l : slot := match last l with Some z => Link z | None => Local h end.
Definition opened s h l (loc : option Z * option Z) : Prop :=
  linked (next_page s) l ∧ (l = [] ∨ pick h loc = head l).
Definition closed s h l (v : option Z) (loc : option Z * option Z) : Prop :=
  linked (next_page s) l ∧ (∀ z, last l = Some z → next_page s z = Some v) ∧
  pick h loc = match l with x :: _ => Some x | [] => v end.

(** Only links of pages in [L] may differ. *)
Definition relinked L s s' : Prop :=
  s' = set_pages (pages s') s ∧ (∀ j, j ∉ L → pages s' !! j = pages s !! j) ∧
  (∀ j, (λ p, (paddr p, pp_ref p)) <$> pages s' !! j = (λ p, (paddr p, pp_ref p)) <$> pages s !! j).

Lemma relinked_refl L s : relinked L s s.
Proof. split; [by destruct s|done]. Qed.

Lemma relinked_trans L s1 s2 s3 : relinked L s1 s2 → relinked L s2 s3 → relinked L s1 s3.
Proof.
  intros (E1 & A1 & B1) (E2 & A2 & B2). split; [rewrite E2, E1; done|split].
  - intros j Hj. by rewrite A2, A1.
  - intros j. by rewrite B2, B1.
Qed.

Lemma relinked_mono L L' s s' : relinked L s s' → (∀ j, j ∈ L → j ∈ L') → relinked L' s s'.
Proof. intros (E & A & B) H. split; [done|]. split; [|done]. intros j Hj. apply A. auto. Qed.

Lemma assign_run s h l loc v :
  opened s h l loc → NoDup l → (∀ z, z ∈ l → is_Some (pages s !! z)) →
  ∃ s' loc', assign (slot_of h l) v loc s = Done loc' s' ∧ closed s' h l v loc' ∧
    pick (negb h) loc' = pick (negb h) loc ∧ relinked (option_list (last l)) s s'.
Proof.
  intros [Hl Hv] Hnd Htot. unfold slot_of. destruct (last l) as [z|] eqn:Hz; simpl.
  - assert (z ∈ l) as Hzl by by apply last_Some_elem_of. destruct (Htot z Hzl) as [p Hp].
    set (s' := set_pages (<[z := set_pp_link v p]> (pages s)) s).
    assert (∀ j, j ≠ z → pages s' !! j = pages s !! j) as Hs by (intros j Hj; unfold s'; simpl; by rewrite lookup_insert_ne).
    exists s', loc. split; [by rewrite (run_upd_page _ z p)|]. split; [|split; [done|]].
    + split_and!.
      * eapply linked_frame; [done| |exact Hl]. intros j Hj Hne. unfold next_page. rewrite Hs by congruence. done.
      * rewrite Hz. intros ? [= <-]. unfold next_page, s'. simpl. by rewrite lookup_insert_eq.
      * destruct l as [|x l]; [done|]. destruct Hv as [?|Hv]; [done|]. exact Hv.
    + split; [done|]. split; [intros j Hj; apply Hs; set_solver|]. intros j. destruct (decide (j = z)) as [->|Hne]; [|by rewrite Hs].
      unfold s'. simpl. by rewrite lookup_insert_eq, Hp.
  - assert (l = []) as -> by by apply last_None. destruct loc as [v1 v2].
    exists s, (if h then (v1, v) else (v, v2)). split; [by destruct h|]. split; [|split; [by destruct h|apply relinked_refl]].
    split_and!; [intros i x y Hx; by rewrite lookup_nil in Hx|done|by destruct h].
Qed.

Lemma relinked_total L s s' j : relinked L s s' → is_Some (pages s !! j) → is_Some (pages s' !! j).
Proof. intros (_ & _ & H) [p Hp]. specialize (H j). rewrite Hp in H. by destruct (pages s' !! j). Qed.

Lemma split_step s h l o q rest loc :
  chain (next_page s) (Some q) (q :: rest) → NoDup (l ++ o ++ q :: rest) →
  (∀ z, z ∈ l → is_Some (pages s !! z)) → opened s h l loc → opened s (negb h) o loc →
  ∃ s1 loc1 p, assign (slot_of h l) (Some q) loc s = Done loc1 s1 ∧ pages s1 !! q = Some p ∧
    chain (next_page s1) (pp_link p) rest ∧ opened s1 h (l ++ [q]) loc1 ∧ opened s1 (negb h) o loc1 ∧ relinked l s s1.
Proof.
  intros [_ Hc] Hnd Htot Hl Ho. pose proof Hnd as (Hnl & Hdis & Hnd2)%NoDup_app.
  destruct (assign_run s h l loc (Some q) Hl Hnl Htot) as (s1 & loc1 & Hrun & (C1 & C2 & C3) & Hpick & Hre).
  assert (relinked l s s1) as Hrl.
  { eapply relinked_mono; [exact Hre|]. intros j Hj. destruct (last l) as [z|] eqn:E; simpl in Hj; [|set_solver].
    assert (j = z) as -> by set_solver. by apply last_Some_elem_of. }
  assert (∀ j, j ∈ o ++ q :: rest → next_page s1 j = next_page s j) as Hnx.
  { intros j Hj. unfold next_page. destruct Hrl as (_ & -> & _); [done|]. intros Hjl. by apply (Hdis j). }
  destruct (next_page s q) as [lk|] eqn:Hq; [|done].
  assert (next_page s1 q = Some lk) as Hq1 by (rewrite Hnx; [done|set_solver]).
  pose proof Hq1 as Hq2. unfold next_page in Hq2. destruct (pages s1 !! q) as [p|] eqn:Hp; [|done]. injection Hq2 as Hlk.
  exists s1, loc1, p. split_and!; try done.
  - rewrite Hlk. eapply chain_frame; [|exact Hc]. intros j Hj. apply Hnx. set_solver.
  - split; [by apply linked_snoc|]. right. rewrite C3. by destruct l.
  - destruct Ho as [O1 O2]. split.
    + apply NoDup_app in Hnd2 as (Hno & _ & _). eapply linked_frame; [exact Hno| |exact O1]. intros j Hj _. apply Hnx. set_solver.
    + by rewrite Hpick.
Qed.

Definition high (lim q : Z) : bool := lim <=? PDX (page2pa q).

Lemma split_loop lim rest fuel s lo hi loc pp :
  chain (next_page s) pp rest → NoDup (lo ++ hi ++ rest) → (∀ z, z ∈ lo ++ hi ++ rest → is_Some (pages s !! z)) →
  opened s false lo loc → opened s true hi loc → (length rest < fuel)%nat →
  let lo' := lo ++ filter (λ q, high lim q = false) rest in
  let hi' := hi ++ filter (λ q, high lim q = true) rest in
  ∃ s' loc', loop fuel NoFuel (λ '(pp, l, tp0, tp1),
    match pp with
    | None => mret (inr (l, tp0, tp1))
    | Some pp =>
        let pagetype := lim <=? PDX (page2pa pp) in
        l ← assign (if pagetype then tp1 else tp0) (Some pp) l;
        p ← get_page pp;
        mret (inl (pp_link p, l, if pagetype then tp0 else Link pp, if pagetype then Link pp else tp1))
    end) (pp, loc, slot_of false lo, slot_of true hi) s = Done (loc', slot_of false lo', slot_of true hi') s' ∧
    opened s' false lo' loc' ∧ opened s' true hi' loc' ∧ relinked (lo ++ hi ++ rest) s s'.
Proof.
  revert fuel s lo hi loc pp. induction rest as [|q rest IH]; intros fuel s lo hi loc pp Hc Hnd Htot Hlo Hhi Hf.
  - destruct fuel as [|fuel]; [simpl in Hf; lia|]. simpl in Hc. subst pp. rewrite loop_S, run_ret, !filter_nil, !app_nil_r.
    exists s, loc. split_and!; try done; try apply relinked_refl.
  - destruct fuel as [|fuel]; [simpl in Hf; lia|]. simpl in Hf. destruct Hc as [-> Hc']. rewrite loop_S.
    assert (chain (next_page s) (Some q) (q :: rest)) as Hc by done.
    destruct (lim <=? PDX (page2pa q)) eqn:Hq.
    + destruct (split_step s true hi lo q rest loc Hc) as (s1 & loc1 & p & R & Hp & Hc1 & H1 & H2 & Hre); try done.
      { rewrite (assoc_L (++)), (Permutation_app_comm hi lo), <- (assoc_L (++)). done. }
      { intros z Hz. apply Htot. set_solver. }
      destruct (IH fuel s1 lo (hi ++ [q]) loc1 (pp_link p)) as (s' & loc' & R' & A & B & C); try done; [| |lia|].
      { by rewrite <- (assoc_L (++) hi). }
      { intros z Hz. apply (relinked_total _ _ _ _ Hre), Htot. set_solver. }
      rewrite filter_cons_False, filter_cons_True by (unfold high; congruence).
      rewrite <- (assoc_L (++) hi) in *. unfold slot_of in R' at 2. rewrite last_snoc in R'.
      exists s', loc'. split; [|split_and!; [done|done|]].
      * rewrite run_assoc. step_with R. rewrite run_assoc, (run_get_page _ p), run_ret by done. exact R'.
      * eapply relinked_trans; [eapply relinked_mono; [exact Hre|set_solver]|exact C].
    + destruct (split_step s false lo hi q rest loc Hc) as (s1 & loc1 & p & R & Hp & Hc1 & H1 & H2 & Hre); try done.
      { intros z Hz. apply Htot. set_solver. }
      destruct (IH fuel s1 (lo ++ [q]) hi loc1 (pp_link p)) as (s' & loc' & R' & A & B & C); try done; [| |lia|].
      { rewrite <- (assoc_L (++)). simpl. by rewrite (Permutation_middle hi rest q). }
      { intros z Hz. apply (relinked_total _ _ _ _ Hre), Htot. set_solver. }
      rewrite filter_cons_True, filter_cons_False by (unfold high; congruence).
      rewrite <- (assoc_L (++) lo) in *. unfold slot_of in R' at 1. rewrite last_snoc in R'.
      exists s', loc'. split; [|split_and!; [done|done|]].
      * rewrite run_assoc. step_with R. rewrite run_assoc, (run_get_page _ p), run_ret by done. exact R'.
      * eapply relinked_trans; [eapply relinked_mono; [exact Hre|set_solver]|].
        eapply relinked_mono; [exact C|set_solver].
Qed.

Lemma relinked_wf L s s' fl fl' hd :
  relinked L s s' → pages_wf s fl → chain (next_page s') hd fl' → NoDup fl' → pages_wf (set_page_free_list hd s') fl'.
Proof.
  intros (E & _ & B) [W1 W2 W3 _ _] Hc Hnd. rewrite E in Hc. rewrite E. split; try done; simpl.
  - intros i Hi. destruct (W2 i Hi) as [p Hp]. specialize (B i). rewrite Hp in B. by destruct (pages s' !! i).
  - intros i p Hp. specialize (B i). rewrite Hp in B. destruct (pages s !! i) as [p0|] eqn:E0; [|done].
    injection B as -> ->. by apply (W3 i p0).
Qed.

(** The list in which the pages that are low come first, in their old order. *)
Definition low_first (lim : Z) fl : list Z :=
  filter (λ q, high lim q = false) fl ++ filter (λ q, high lim q = true) fl.

Lemma low_first_perm lim fl : low_first lim fl ≡ₚ fl.
Proof.
  unfold low_first. induction fl as [|q fl IH]; [done|]. rewrite !filter_cons.
  destruct (high lim q); simpl; [|by rewrite IH]. by rewrite <- Permutation_middle, IH.
Qed.

(** What [check_page_free_list] may change: the links and the contents of the free pages. *)
Record shuffled fl s s' : Prop := {
  sh_kept : kept fl s s';
  sh_avail : nAvailPages s' = nAvailPages s;
  sh_ref : ∀ j, pp_ref <$> pages s' !! j = pp_ref <$> pages s !! j;
}.

Lemma shuffled_trans fl s1 s2 s3 : shuffled fl s1 s2 → shuffled fl s2 s3 → shuffled fl s1 s3.
Proof. intros [A1 B1 C1] [A2 B2 C2]. split; [by etrans|congruence|]. intros j. by rewrite C2, C1. Qed.

Lemma low_pages_first_run lim s fl :
  pages_wf s fl →
  ∃ s', low_pages_first lim s = Done tt s' ∧ pages_wf s' (low_first lim fl) ∧ shuffled fl s s'.
Proof.
  intros Hw. pose proof (pw_nodup _ _ Hw) as Hnd.
  assert (∀ z, z ∈ fl → is_Some (pages s !! z)) as Htot.
  { intros z Hz. apply (pw_total _ _ Hw), (pw_in_range _ _ z Hw Hz). }
  assert (∀ h, opened s h [] (None, None)) as Hop.
  { intros h. split; [intros i x y Hx; by rewrite lookup_nil in Hx|by left]. }
  destruct (split_loop lim fl (S (Z.to_nat (npages s))) s [] [] (None, None) (page_free_list s))
    as (s1 & loc1 & R1 & Hlo & Hhi & Hre1); try done; [apply Hw|by apply free_length|].
  simpl in R1, Hlo, Hhi, Hre1. pose proof (low_first_perm lim fl) as Hperm. unfold low_first in *.
  set (lo := filter (λ q, high lim q = false) fl) in *. set (hi := filter (λ q, high lim q = true) fl) in *.
  assert (NoDup (lo ++ hi)) as Hnd' by by rewrite Hperm. pose proof Hnd' as (Hnl & Hdis & Hnh)%NoDup_app.
  assert (∀ z, z ∈ lo ++ hi → z ∈ fl) as Hsub by (intros z; by rewrite Hperm).
  assert (∀ L' (z : Z), z ∈ option_list (last L') → z ∈ L') as Hlast.
  { intros L' z. destruct (last L') as [z'|] eqn:E; simpl; [|set_solver]. intros ->%list_elem_of_singleton. by apply last_Some_elem_of. }
  destruct (assign_run s1 true hi loc1 None Hhi Hnh) as (s2 & loc2 & R2 & (C1 & C2 & C3) & Hp2 & Hre2).
  { intros z Hz. apply (relinked_total _ _ _ _ Hre1), Htot, Hsub. set_solver. }
  assert (relinked hi s1 s2) as Hre2' by (eapply relinked_mono; [exact Hre2|apply Hlast]).
  assert (opened s2 false lo loc2) as Hlo2.
  { destruct Hlo as [O1 O2]. change (pick false loc2 = pick false loc1) in Hp2. split; [|by rewrite Hp2]. eapply linked_frame; [done| |exact O1]. intros j Hj _. unfold next_page.
    f_equal. apply Hre2'. by apply Hdis. }
  destruct (assign_run s2 false lo loc2 loc2.2 Hlo2 Hnl) as (s3 & loc3 & R3 & (D1 & D2 & D3) & Hp3 & Hre3).
  { intros z Hz. apply (relinked_total _ _ _ _ Hre2'), (relinked_total _ _ _ _ Hre1), Htot, Hsub. set_solver. }
  assert (relinked lo s2 s3) as Hre3' by (eapply relinked_mono; [exact Hre3|apply Hlast]).
  assert (relinked fl s s3) as Hre.
  { eapply relinked_trans; [exact Hre1|]. eapply relinked_trans; (eapply relinked_mono; [done|set_solver]). }
  assert (chain (next_page s3) loc2.2 hi) as Hc3.
  { eapply chain_frame; [|rewrite <- (app_nil_r hi); change loc2.2 with (pick true loc2); rewrite C3;
      by apply (linked_chain (next_page s2) hi None [])].
    intros j Hj. unfold next_page. f_equal. apply Hre3'. intros Hjl. by apply (Hdis j). }
  pose proof (linked_chain (next_page s3) lo _ hi D1 D2 Hc3) as Hc. rewrite <- D3 in Hc.
  exists (set_page_free_list loc3.1 s3). split; [|split].
  - unfold low_pages_first. rewrite !run_gets. etrans; [apply (bind_Done _ _ _ _ _ R1)|]. cbv beta iota.
    step_with R2. step_with R3. done.
  - by apply (relinked_wf fl s s3 fl).
  - destruct Hre as (E & A & B). rewrite E. split; [|done|].
    + split; [done|done|by split].
    + intros j. simpl. specialize (B j). destruct (pages s3 !! j), (pages s !! j); simpl in *; congruence.
Qed.

(** Walking the list while only contents of pages change. *)
Lemma walk_loop (fuel : nat) l (hd : option Z) s (body : Z → M unit) (P : kstate → Prop) :
  P s → (∀ q s', q ∈ l → P s' → ∃ s'', body q s' = Done tt s'' ∧ P s'' ∧ pages s'' = pages s') →
  chain (next_page s) hd l → (length l < fuel)%nat →
  ∃ s', loop fuel NoFuel (λ pp, match pp with
      | None => mret (inr tt)
      | Some pp => body pp ;; p ← get_page pp; mret (inl (pp_link p))
      end) hd s = Done tt s' ∧ P s' ∧ pages s' = pages s.
Proof.
  revert fuel hd s. induction l as [|q l IH]; intros fuel hd s HP Hb Hc Hf; (destruct fuel as [|fuel]; [simpl in Hf; lia|]); rewrite loop_S.
  - simpl in Hc. subst hd. by exists s.
  - destruct Hc as [-> Hc]. simpl in Hf. destruct (Hb q s) as (s1 & R1 & P1 & E1); [by left|done|].
    unfold next_page in Hc. destruct (pages s !! q) as [p|] eqn:Hp; [|done]. simpl in Hc.
    destruct (IH fuel (pp_link p) s1) as (s2 & R2 & P2 & E2); [done| | |lia|].
    { intros q' s' Hq'. apply Hb. by right. }
    { eapply chain_frame; [|exact Hc]. intros j _. unfold next_page. by rewrite E1. }
    exists s2. split; [|split; [done|congruence]]. rewrite run_assoc. step_with R1.
    by rewrite run_assoc, (run_get_page _ p), run_ret by congruence.
Qed.

(** What the free pages must be for the check to pass. *)
Record reasonable s fl : Prop := {
  rs_page : ∀ q, q ∈ fl → q ≠ 0 ∧ q ≠ 160 ∧ q ≠ 255 ∧ q ≠ 256 ∧ q ≠ 7 ∧ (q < 256 ∨ nextfree s <= q * 4096 + KERNBASE);
  rs_base : ∃ q, q ∈ fl ∧ q < 256;
  rs_ext : ∃ q, q ∈ fl ∧ 256 <= q;
  rs_next : nextfree s ≠ 0;
  rs_avail : 0 <= nAvailPages s;
}.

Lemma reasonable_perm s fl fl' : fl' ≡ₚ fl → reasonable s fl → reasonable s fl'.
Proof.
  intros E [H1 (q & H2 & H2') (q' & H3 & H3') H4 H5]. split; [|by exists q; rewrite E|by exists q'; rewrite E|done|done].
  intros j. rewrite E. apply H1.
Qed.

Lemma reasonable_frame s s' fl : nextfree s' = nextfree s → nAvailPages s' = nAvailPages s → reasonable s fl → reasonable s' fl.
Proof. intros E1 E2 [H1 H2 H3 H4 H5]. split; rewrite ?E1, ?E2; done. Qed.

Lemma examine_run s q :
  0 <= q < npages s → npages s <= 65536 → q ≠ 0 → q ≠ 160 → q ≠ 255 → q ≠ 256 → q ≠ 7 →
  q < 256 ∨ nextfree s <= q * 4096 + KERNBASE → examine (nextfree s) q s = Done tt s.
Proof.
  intros Hq Hn H0 H1 H2 H3 H4 H5. unfold examine. rewrite run_gets, page2pa_mul by lia.
  change IOPHYSMEM with 655360. change EXTPHYSMEM with 1048576. change MPENTRY_PADDR with 28672. unfold PGSIZE.
  repeat (rewrite run_test by (rewrite ?negb_true_iff, ?Z.eqb_neq, ?Z.leb_le, ?Z.ltb_lt; lia)).
  destruct (Z.ltb_spec (q * 4096) 1048576).
  - rewrite run_ret. unfold test. rewrite (proj2 (Z.eqb_neq _ _)) by lia. done.
  - rewrite run_assoc, run_page2kva, run_test by (rewrite ?Z.leb_le; lia).
    unfold test. rewrite (proj2 (Z.eqb_neq _ _)) by lia. done.
Qed.

Lemma examine_loop l fuel hd s nb ne :
  (∀ q, q ∈ l → examine (nextfree s) q s = Done tt s ∧ 0 <= q < 65536) → chain (next_page s) hd l → (length l < fuel)%nat →
  loop fuel NoFuel (λ '(pp, nb, ne),
    match pp with
    | None => mret (inr (nb, ne))
    | Some pp =>
        examine (nextfree s) pp ;;
        p ← get_page pp;
        mret (inl (if page2pa pp <? EXTPHYSMEM then (pp_link p, nb + 1, ne) else (pp_link p, nb, ne + 1)))
    end) (hd, nb, ne) s =
  Done (nb + Z.of_nat (length (filter (λ q, q < 256) l)), ne + Z.of_nat (length (filter (λ q, ¬ q < 256) l))) s.
Proof.
  revert fuel hd nb ne. induction l as [|q l IH]; intros fuel hd nb ne Hb Hc Hf; (destruct fuel as [|fuel]; [simpl in Hf; lia|]); rewrite loop_S.
  - simpl in Hc. subst hd. rewrite run_ret. cbn. by rewrite !Z.add_0_r.
  - destruct Hc as [-> Hc]. simpl in Hf. destruct (Hb q ltac:(by left)) as [R Hq].
    unfold next_page in Hc. destruct (pages s !! q) as [p|] eqn:Hp; [|done]. simpl in Hc.
    rewrite run_assoc. step_with R. rewrite run_assoc, (run_get_page _ p), run_ret by done.
    rewrite page2pa_mul by lia. change EXTPHYSMEM with 1048576.
    assert (∀ q, q ∈ l → examine (nextfree s) q s = Done tt s ∧ 0 <= q < 65536) as Hb' by (intros q' Hq'; apply Hb; by right).
    destruct (Z.ltb_spec (q * 4096) 1048576) as [H|H].
    + rewrite (filter_cons_True _ q l), (filter_cons_False _ q l) by lia. rewrite IH by (done || lia). simpl length. do 2 f_equal; lia.
    + rewrite (filter_cons_False _ q l), (filter_cons_True _ q l) by lia. rewrite IH by (done || lia). simpl length. do 2 f_equal; lia.
Qed.

Lemma filter_pos {P : Z → Prop} `{∀ x, Decision (P x)} l q : q ∈ l → P q → 0 < Z.of_nat (length (filter P l)).
Proof.
  intros Hq HP. assert (q ∈ filter P l) as Hf by by apply list_elem_of_filter. destruct (filter P l); [set_solver|simpl; lia].
Qed.

Definition listed (low : bool) fl : list Z := if low then low_first 1 fl else fl.

Lemma listed_perm low fl : listed low fl ≡ₚ fl.
Proof. destruct low; [apply low_first_perm|done]. Qed.

Lemma check_page_free_list_run kend low s fl :
  pages_wf s fl → reasonable s fl →
  ∃ s', check_page_free_list kend low s = Done tt s' ∧ pages_wf s' (listed low fl) ∧ shuffled fl s s'.
Proof.
  intros Hw Hrs. pose proof (pw_npages _ _ Hw) as Hn. destruct (rs_base _ _ Hrs) as (q0 & Hq0 & _).
  assert (∃ s1, (if low then low_pages_first (if low then 1 else NPDENTRIES) else mret tt) s = Done tt s1 ∧
    pages_wf s1 (listed low fl) ∧ shuffled fl s s1) as (s1 & R1 & W1 & H1).
  { destruct low; [by apply low_pages_first_run|]. exists s. done. }
  pose proof (listed_perm low fl) as Hperm. set (fl1 := listed low fl) in *. set (lim := if low then 1 else NPDENTRIES) in *.
  pose proof (pw_npages _ _ W1) as Hn1.
  destruct (walk_loop (S (Z.to_nat (npages s1))) fl1 (page_free_list s1) s1
    (λ pp, if PDX (page2pa pp) <? lim then kva ← page2kva pp; kmemset kva 0x97 128 else mret tt)
    (λ s', shuffled fl s s' ∧ s' = set_mem (mem s') s1)) as (s2 & R2 & (H2 & E2) & _).
  { split; [done|by destruct s1]. }
  { intros q s' Hq [Hs E]. pose proof (pw_in_range _ _ q W1 Hq). destruct (PDX (page2pa q) <? lim); [|by exists s'].
    rewrite run_page2kva by (rewrite E; simpl; lia). unfold kmemset. rewrite Z.add_simpl_r.
    eexists. split; [reflexivity|]. split; [|done]. split; [|by rewrite E].
    eapply shuffled_trans; [exact Hs|]. split; [|done|done]. split; [done| |by split].
    intros j Hj a Ha. simpl. rewrite mget_fill, decide_False; [done|]. rewrite Hperm in Hq. assert (j ≠ q) by (intros ->; done). lia. }
  { apply W1. } { by apply free_length. }
  assert (pages_wf s2 fl1) as W2 by (rewrite E2; by apply (pages_wf_ext s1)).
  pose proof (vm_nextfree _ _ (kp_frame _ _ _ (sh_kept _ _ _ H2))) as N2. pose proof (vm_npages _ _ (kp_frame _ _ _ (sh_kept _ _ _ H2))) as N2'.
  assert (reasonable s2 fl1) as [P1 (q1 & P2 & P2') (q2 & P3 & P3') P4 P5].
  { eapply reasonable_perm; [exact Hperm|]. eapply reasonable_frame; [done|apply H2|done]. }
  assert (∀ q, q ∈ fl1 → examine (nextfree s2) q s2 = Done tt s2 ∧ 0 <= q < 65536) as Hex.
  { intros q Hq. pose proof (pw_in_range _ _ q W2 Hq). destruct (P1 q Hq) as (?&?&?&?&?&?).
    split; [apply examine_run; (done || lia)|lia]. }
  pose proof (examine_loop fl1 _ _ s2 0 0 Hex (pw_chain _ _ W2) (free_length _ _ W2)) as R3.
  exists s2. split; [|done]. unfold check_page_free_list. fold lim.
  destruct (page_free_list s) as [hd|] eqn:Ehd.
  2: { pose proof (pw_chain _ _ Hw) as Hc. rewrite Ehd in Hc. destruct fl; [by apply elem_of_nil in Hq0|]. by destruct Hc. }
  rewrite run_gets, Ehd, run_ret. etrans; [apply (bind_Done _ _ _ _ _ R1)|]. cbv beta.
  unfold walk_free_list. rewrite !run_assoc, run_gets, !run_assoc, run_gets. step_with R2.
  step_with (boot_alloc_0 kend s2 P4 P5). rewrite !run_gets. etrans; [apply (bind_Done _ _ _ _ _ R3)|]. cbv beta iota.
  rewrite run_test by (rewrite Z.add_0_l; apply Z.ltb_lt, (filter_pos fl1 q1); done).
  unfold test. rewrite Z.add_0_l, (proj2 (Z.ltb_lt _ _)); [done|]. apply (filter_pos fl1 q2); [done|lia].
Qed.
End free_list.
