(* ===== verification/SelfcheckTables.v ===== *)
(** * The self-checks of the page tables: [check_page], [check_page_installed_pgdir]

    Both map and unmap three pages in the kernel's directory, and put everything
    back.  The proofs follow them through an abstract state of what the three
    pages are used for. *)

From S2P Require Import Prelude Machine PageAlloc Pmap Env Selfcheck.
From stdpp Require Import base numbers list gmap fin_maps strings.

Local Open Scope Z_scope.

(** ** The page tables *)

(** While [check_page] runs, only its three pages are in use: page 0 is the page
    table of directory entry [tab], if any; [e] is what the addresses 0 and
    [PGSIZE] map, and [r] the counts of the pages, each page by its number among
    the three; [fl] are the free ones among them, in front of the free
    pages [rest] that the check has not hidden. *)
Section page_tables.
Variables (s0 : kstate) (fl0 rest : list Z) (pd a b c : Z).
Implicit Types (s : kstate) (fl : list nat) (tab : option Z) (e : list (option (nat * Z))) (r : list Z) (k x y : nat).

Definition pg (x : nat) : Z := nth x [a; b; c] 0.
Definition entry (o : option (nat * Z)) : Z :=
  match o with Some (x, perm) => Z.lor (Z.lor (page2pa (pg x)) perm) PTE_P | None => 0 end.

Record checkable : Prop := {
  ck_pages : pages_wf s0 (a :: b :: c :: fl0);
  ck_pd : pd_wf s0 (a :: b :: c :: fl0) pd;
  ck_kern : kern_pgdir s0 = pgdir_kva pd;
  ck_cpu : cpu_ok s0;
  ck_low : 0 ∉ [b; c];
  ck_rest : ∀ q, q ∈ rest → q ∈ fl0;
  ck_pde : pde_of s0 pd 0 = 0 ∧ pde_of s0 pd 1 = 0;
}.

Record stage s fl tab e r : Prop := {
  st_pages : pages_wf s ((pg <$> fl) ++ rest);
  st_free : ∀ y, y ∈ fl → (y < 3)%nat;
  st_pd : pd_wf s ((pg <$> fl) ++ rest) pd;
  st_table : ∀ i, tab = Some i → i ∈ [0; 1] ∧ pt_of s pd i = Some a;
  st_dir : ∀ i, 0 <= i < 1024 → tab ≠ Some i → pde_of s pd i = pde_of s0 pd i;
  st_entry : ∀ k o, e !! k = Some o → (k < 2)%nat ∧ pte_of s pd (Z.of_nat k * 4096) = entry o;
  st_in : ∀ k x perm, e !! k = Some (Some (x, perm)) → (0 < x < 3)%nat ∧ x ∉ fl ∧ 0 <= perm < 4096;
  st_ref : ∀ x n, r !! x = Some n → (x < 3)%nat ∧ pp_ref <$> pages s !! pg x = Some n;
  st_other : pages s !! pd = pages s0 !! pd;
  st_kept : kept [pd; a; b; c] s0 s;
}.

Context (ck : checkable).

Lemma pg_in x : (x < 3)%nat → pg x ∈ [a; b; c].
Proof. intros H. unfold pg. apply list_elem_of_In, nth_In. simpl. lia. Qed.

Lemma three_nodup : NoDup [a; b; c] ∧ (∀ q, q ∈ fl0 → q ∉ [a; b; c]).
Proof.
  pose proof (pw_nodup _ _ (ck_pages ck)) as H. rewrite !NoDup_cons in H.
  split; [|set_solver]. rewrite !NoDup_cons. split_and!; [set_solver..|constructor].
Qed.

Lemma pg_inj x y : (x < 3)%nat → (y < 3)%nat → pg x = pg y → x = y.
Proof.
  intros Hx Hy H. destruct three_nodup as [Hn _]. apply (proj1 (NoDup_nth [a; b; c] 0)) with (i := x) (j := y) in H; auto.
  by apply NoDup_ListNoDup.
Qed.

Lemma pg_free x : (x < 3)%nat → pg x ∈ a :: b :: c :: fl0.
Proof. intros Hx. change (a :: b :: c :: fl0) with ([a; b; c] ++ fl0). apply elem_of_app. left. by apply pg_in. Qed.

Lemma pg_pd x : (x < 3)%nat → pg x ≠ pd.
Proof. intros Hx E. destruct (pd_dir _ _ _ (ck_pd ck)) as [_ H]. apply H. rewrite <- E. by apply pg_free. Qed.

Lemma pg_range x : (x < 3)%nat → 0 <= pg x < npages s0.
Proof. intros Hx. by apply (pw_in_range _ _ _ (ck_pages ck)), pg_free. Qed.

Lemma pg_rest x : (x < 3)%nat → pg x ∉ rest.
Proof. intros Hx Hr. apply (proj2 three_nodup (pg x)); [by apply ck|by apply pg_in]. Qed.

Lemma pg_nonzero x : (0 < x < 3)%nat → pg x ≠ 0.
Proof. pose proof (ck_low ck) as H. intros Hx. assert (x = 1 ∨ x = 2)%nat as [-> | ->] by lia; unfold pg; simpl; set_solver. Qed.

Lemma va_facts k : (k < 2)%nat → 0 <= Z.of_nat k * 4096 < 4294967296 ∧ PDX (Z.of_nat k * 4096) = 0 ∧
  PDX (Z.of_nat k * 4096) ≠ self_index ∧ PGNUM (Z.of_nat k * 4096) = Z.of_nat k.
Proof. intros Hk. assert (k = 0 ∨ k = 1)%nat as [-> | ->] by lia; vm_compute; split_and!; done. Qed.

Section stage.
Context {s fl tab e r} (st : stage s fl tab e r).

Lemma stage_npages : npages s = npages s0 ∧ npages s0 <= 65536 ∧ 0 <= pd < npages s0.
Proof.
  pose proof (pw_npages _ _ (ck_pages ck)). pose proof (vm_npages _ _ (kp_frame _ _ _ (st_kept _ _ _ _ _ st))).
  destruct (pd_dir _ _ _ (ck_pd ck)). lia.
Qed.

Lemma stage_kern : kern_pgdir s = pgdir_kva pd.
Proof. rewrite (vm_kern_pgdir _ _ (kp_frame _ _ _ (st_kept _ _ _ _ _ st))). apply ck. Qed.

Lemma stage_cpu : cpu_ok s.
Proof. eapply cpu_ok_frame; [apply st|apply ck]. Qed.

Lemma stage_no_table i : i ∈ [0; 1] → tab ≠ Some i → pt_of s pd i = None.
Proof.
  intros Hi Ht. unfold pt_of. rewrite (st_dir _ _ _ _ _ st); [|set_solver by lia|done].
  destruct (ck_pde ck) as [H0 H1]. assert (i = 0 ∨ i = 1) as [-> | ->] by set_solver; by rewrite ?H0, ?H1.
Qed.

Lemma stage_leaf x : (0 < x < 3)%nat → x ∉ fl → leaf_ok s ((pg <$> fl) ++ rest) pd (pg x).
Proof.
  intros Hx Hf. pose proof (st_free _ _ _ _ _ st) as Hfl. pose proof stage_npages as (Hn & _). split_and!.
  1-2: pose proof (pg_range x ltac:(lia)); lia.
  - intros [(y & E & Hy)%list_elem_of_fmap|Hr]%elem_of_app; [|apply (pg_rest x); [lia|done]]. apply pg_inj in E; [congruence|lia|auto].
  - apply pg_pd. lia.
  - intros i Hi Hs E. destruct (decide (tab = Some i)) as [Ht|Ht].
    + destruct (st_table _ _ _ _ _ st i Ht) as [_ E']. assert (pg x = pg 0) as E2 by (unfold pg at 2; simpl; congruence).
      apply pg_inj in E2; lia.
    + unfold pt_of in E. rewrite (st_dir _ _ _ _ _ st i Hi Ht) in E.
      destruct (pd_table _ _ _ (ck_pd ck) i Hi (pg x) Hs E) as (_ & Hnf & _).
      apply Hnf, pg_free. lia.
Qed.

Lemma stage_mapped k o : e !! k = Some o →
  mapped s pd (Z.of_nat k * 4096) = (pg ∘ fst) <$> o.
Proof.
  intros Hk. destruct (st_entry _ _ _ _ _ st k o Hk) as [_ E]. unfold mapped. rewrite E.
  destruct o as [[x perm]|]; [|done]. destruct (st_in _ _ _ _ _ st k x perm Hk) as (Hx & _ & Hp). simpl.
  pose proof stage_npages as (_ & Hn & _). pose proof (pg_range x ltac:(lia)).
  by rewrite entry_present, entry_PGNUM by lia.
Qed.

Lemma stage_page x n : r !! x = Some n → ∃ p, pages s !! pg x = Some p ∧ pp_ref p = n.
Proof.
  intros H. destruct (st_ref _ _ _ _ _ st x n H) as [_ E]. destruct (pages s !! pg x) as [p|]; simplify_eq/=. eauto.
Qed.
End stage.

Lemma insert_no_table s fl tab e r pp va perm :
  stage s fl tab e r → fl = [] → rest = [] → pt_of s pd (PDX va) = None → must_not_insert pp va perm s = Done tt s.
Proof.
  intros st -> Hr Ht. pose proof (st_pages _ _ _ _ _ st) as Hw. rewrite Hr in Hw. pose proof (stage_npages st) as (Hn & _ & Hpd).
  assert (page_insert (pgdir_kva pd) (Some pp) va perm s = Done (- E_NO_MEM) s) as Hrun.
  { unfold page_insert. by step_with (walk_create_nil s pd va Hw ltac:(lia) Ht). }
  unfold must_not_insert, map_page. rewrite run_assoc, run_gets, (stage_kern st). by step_with Hrun.
Qed.

(** The page table is there, or page 0 is free to become it. *)
Definition has_table fl tab : Prop := tab = Some 0 ∧ fl = [] ∨ tab = None ∧ fl = [0%nat].

(** Only the table and the directory may have been written. *)
Definition same_leaves s s' : Prop := ∀ j, j ≠ a → j ≠ pd → page_same j (mem s) (mem s').

Lemma stage_insert s fl tab e r k x perm o n :
  stage s fl tab e r → has_table fl tab → e !! k = Some o → (0 < x < 3)%nat → r !! x = Some n → 0 <= perm < 4096 →
  ∃ s' (l' : list Z) p, map_page (pg x) (Z.of_nat k * 4096) perm s = Done 0 s' ∧
    inserted s s' ((pg <$> fl) ++ rest) l' pd (Z.of_nat k * 4096) (pg x) p perm ∧ pages s !! pg x = Some p ∧ pp_ref p = n.
Proof.
  intros st Ht Hk Hx Hr Hperm.
  destruct (st_entry _ _ _ _ _ st k o Hk) as [Hk2 He]. destruct (va_facts k Hk2) as (Hva & Hpdx & Hs & _).
  destruct (stage_page st x n Hr) as (p & Hp & Hn).
  assert (∀ y, (0 < y < 3)%nat → leaf_ok s ((pg <$> fl) ++ rest) pd (pg y)) as Hleaf.
  { intros y Hy. destruct Ht as [[_ ->]|[_ ->]]; apply (stage_leaf st); [done|set_solver|done|set_solver by lia]. }
  assert (insertable s ((pg <$> fl) ++ rest) pd (Z.of_nat k * 4096) (pg x) p) as Hi.
  { split; auto; [by apply (stage_cpu st)|..]; rewrite (stage_mapped st k o Hk), ?He; destruct o as [[y perm']|]; simpl; try done.
    - intros q [= <-]. destruct (st_in _ _ _ _ _ st k y perm' Hk) as (Hy & _). auto.
    - destruct (st_in _ _ _ _ _ st k y perm' Hk) as (Hy & _ & Hp').
      pose proof (stage_npages st) as (_ & Hnp & _). pose proof (pg_range y ltac:(lia)). rewrite entry_PGNUM by lia. congruence.
    - intros E. exfalso. by apply (pg_nonzero x Hx). }
  destruct (insert_spec s _ pd (Z.of_nat k * 4096) (pg x) p perm (st_pages _ _ _ _ _ st) (st_pd _ _ _ _ _ st) Hi Hperm)
    as [(Hnone & Hnil & _)|(s' & l' & Hrun & Hin)].
  { exfalso. rewrite Hpdx in Hnone. destruct Ht as [[-> ->]|[-> ->]]; [|done].
    destruct (st_table _ _ _ _ _ st 0 eq_refl). congruence. }
  exists s', l', p. split; [|done]. unfold map_page. rewrite run_gets, (stage_kern st). exact Hrun.
Qed.

Lemma must_insert_done pp va perm s s' : map_page pp va perm s = Done 0 s' → must_insert pp va perm s = Done tt s'.
Proof. intros H. unfold must_insert. by step_with H. Qed.

(** The table and the free list after an insertion. *)
Lemma inserted_lists s s' fl tab e r k x perm o p (l' : list Z) :
  stage s fl tab e r → has_table fl tab → e !! k = Some o → (0 < x < 3)%nat → 0 <= perm < 4096 →
  inserted s s' ((pg <$> fl) ++ rest) l' pd (Z.of_nat k * 4096) (pg x) p perm →
  pt_of s' pd 0 = Some a ∧ (l' = rest ∨ ∃ y perm', o = Some (y, perm') ∧ y ≠ x ∧ l' = pg y :: rest).
Proof.
  intros st Ht Hk Hx Hperm Hin.
  destruct (st_entry _ _ _ _ _ st k o Hk) as [Hk2 He]. destruct (va_facts k Hk2) as (Hva & Hpdx & Hs & Hpn).
  pose proof (stage_npages st) as (_ & Hnp & _). pose proof (pg_range x ltac:(lia)) as Hrx.
  destruct (mapped_table s' pd (Z.of_nat k * 4096) (pg x)) as [t Htt].
  { unfold mapped. by rewrite (in_pte _ _ _ _ _ _ _ _ _ Hin), entry_present, entry_PGNUM by lia. }
  destruct (in_list _ _ _ _ _ _ _ _ _ Hin) as (fl1 & Hl & Hl'). rewrite Hpdx in Hl, Htt.
  rewrite (stage_mapped st k o Hk) in Hl'.
  assert (fl1 = rest ∧ pt_of s' pd 0 = Some a) as [-> Hpt].
  { destruct Ht as [[-> ->]|[-> ->]].
    - destruct (st_table _ _ _ _ _ st 0 eq_refl) as [_ Hpt].
      destruct Hl as [[<- E]|(u & _ & E & _)]; [by rewrite E|]. by rewrite E in Hpt.
    - pose proof (stage_no_table st 0 ltac:(by left) ltac:(done)) as Hn.
      destruct Hl as [[_ E]|(u & [= <- <-] & _ & E)]; [|done]. by rewrite E, Hn in Htt. }
  split; [done|]. destruct Hl' as [->|(q & Hq & Hne & ->)]; [by left|right].
  destruct o as [[y perm']|]; [|done]. injection Hq as <-. exists y, perm'. split_and!; [done|congruence|done].
Qed.

Lemma stage_inserted s s' fl fl' tab e r r' k x perm o p :
  stage s fl tab e r → has_table fl tab → e !! k = Some o → (0 < x < 3)%nat → 0 <= perm < 4096 →
  inserted s s' ((pg <$> fl) ++ rest) ((pg <$> fl') ++ rest) pd (Z.of_nat k * 4096) (pg x) p perm →
  (∀ y n, r' !! y = Some n → (y < 3)%nat ∧ pp_ref <$> pages s' !! pg y = Some n) →
  (∀ y, y ∈ fl' → (y < 3)%nat ∧ y ≠ x ∧ ∀ k' perm', e !! k' = Some (Some (y, perm')) → k' = k) →
  stage s' fl' (Some 0) (<[k := Some (x, perm)]> e) r' ∧ same_leaves s s' ∧
  (∀ f, has f perm = true → has f (pde_of s' pd 0) = true).
Proof.
  intros st Ht Hk Hx Hperm Hin Hr' Hfl'.
  destruct (inserted_lists _ _ _ _ _ _ _ _ _ _ _ _ st Ht Hk Hx Hperm Hin) as [Hpt _].
  destruct (st_entry _ _ _ _ _ st k o Hk) as [Hk2 He]. destruct (va_facts k Hk2) as (Hva & Hpdx & Hs & Hpn).
  assert (∀ j, mapped s pd (Z.of_nat k * 4096) = Some j → j ∈ [a; b; c]) as Hm.
  { intros j. rewrite (stage_mapped st k o Hk). destruct o as [[y perm']|]; simpl; [|done]. intros [= <-].
    apply pg_in. destruct (st_in _ _ _ _ _ st k y perm' Hk). lia. }
  pose proof (pg_in x ltac:(lia)) as Hxin.
  assert (∀ j, j ∉ [a; b; c] → pt_of s' pd (PDX (Z.of_nat k * 4096)) ≠ Some j ∧ j ≠ pg x ∧ mapped s pd (Z.of_nat k * 4096) ≠ Some j) as Hout.
  { intros j Hj. rewrite Hpdx, Hpt. split_and!; [|intros ->; done|intros ?%Hm; done]. intros [= ->]. apply Hj. by left. }
  assert (same_leaves s s') as Hleaves.
  { intros j Hja Hjp. apply (in_mem_ne _ _ _ _ _ _ _ _ _ Hin); [|done]. rewrite Hpdx, Hpt. congruence. }
  split; [|split; [done|]].
  2: { intros f Hf. rewrite <- Hpdx. apply (in_flags _ _ _ _ _ _ _ _ _ Hin). by left. }
  split.
  - apply Hin.
  - intros y Hy. by apply Hfl'.
  - apply Hin.
  - intros i [= <-]. split; [by left|done].
  - intros i Hi Hne. rewrite (in_dir _ _ _ _ _ _ _ _ _ Hin i Hi) by congruence.
    apply (st_dir _ _ _ _ _ st); [done|]. destruct Ht as [[-> _]|[-> _]]; done.
  - intros k' o' [(-> & <- & _)|[Hne Hk']]%list_lookup_insert_Some.
    + split; [done|]. by rewrite (in_pte _ _ _ _ _ _ _ _ _ Hin).
    + destruct (st_entry _ _ _ _ _ st k' o' Hk') as [Hk2' <-]. destruct (va_facts k' Hk2') as (Hva' & _ & Hs' & Hpn').
      split; [done|]. apply (in_pte_other _ _ _ _ _ _ _ _ _ Hin); [done|done|lia].
  - intros k' x' perm' [(-> & [= <- <-] & _)|[Hne Hk']]%list_lookup_insert_Some.
    + split_and!; try lia. intros Hy. by destruct (Hfl' _ Hy) as (_ & ? & _).
    + destruct (st_in _ _ _ _ _ st k' x' perm' Hk') as (Hx' & _ & ?). split_and!; try lia.
      intros Hy. destruct (Hfl' _ Hy) as (_ & _ & H'). by specialize (H' _ _ Hk').
  - done.
  - rewrite <- (st_other _ _ _ _ _ st). destruct (Hout pd) as (? & ? & ?).
    { intros Hj. destruct (pd_dir _ _ _ (ck_pd ck)) as [_ []]. change (pd ∈ [a; b; c] ++ fl0). apply elem_of_app. by left. }
    by apply (in_page_ne _ _ _ _ _ _ _ _ _ Hin).
  - etrans; [apply st|]. split; [| |apply Hin]; intros j [Hjp Hj]%not_elem_of_cons; destruct (Hout j Hj) as (? & ? & ?).
    + by apply (in_page_ne _ _ _ _ _ _ _ _ _ Hin).
    + apply Hleaves; [|done]. intros ->. apply Hj. by left.
Qed.

(** The counts of the pages that an insertion does not touch. *)
Lemma inserted_ref s s' fl tab e r k x perm o p (l' : list Z) y m :
  stage s fl tab e r → has_table fl tab → e !! k = Some o → (0 < x < 3)%nat → 0 <= perm < 4096 →
  inserted s s' ((pg <$> fl) ++ rest) l' pd (Z.of_nat k * 4096) (pg x) p perm →
  r !! y = Some m → (y ≠ 0%nat ∨ tab = Some 0) → y ≠ x → (∀ perm', o ≠ Some (y, perm')) →
  (y < 3)%nat ∧ pp_ref <$> pages s' !! pg y = Some m.
Proof.
  intros st Ht Hk Hx Hperm Hin Hy H0 Hne Hno. destruct (st_ref _ _ _ _ _ st y m Hy) as [Hy3 Hm]. split; [done|].
  destruct (inserted_lists _ _ _ _ _ _ _ _ _ _ _ _ st Ht Hk Hx Hperm Hin) as [Hpt _].
  destruct (st_entry _ _ _ _ _ st k o Hk) as [Hk2 He]. destruct (va_facts k Hk2) as (_ & Hpdx & _).
  assert (pg y ≠ pg x) as Hyx by (intros E%pg_inj; lia).
  assert (mapped s pd (Z.of_nat k * 4096) ≠ Some (pg y)) as Hmy.
  { rewrite (stage_mapped st k o Hk). destruct o as [[z perm']|]; simpl; [|done].
    destruct (st_in _ _ _ _ _ st k z perm' Hk) as (Hz & _). intros [= E%pg_inj]; [|lia|lia]. subst z. by apply (Hno perm'). }
  destruct (decide (y = 0%nat)) as [->|Hy0].
  - destruct H0 as [?|E]; [done|]. destruct Ht as [[-> ->]|[-> ->]]; [|done]. rewrite (in_other _ _ _ _ _ _ _ _ _ Hin); [done| |done|done].
    simpl. apply pg_rest. lia.
  - rewrite (in_page_ne _ _ _ _ _ _ _ _ _ Hin); [done| |done|done]. rewrite Hpdx, Hpt. intros [= E].
    assert (pg 0 = pg y) as E2 by exact E. apply pg_inj in E2; lia.
Qed.

(** Mapping a page at a free address when the table is there. *)
Lemma map_new s e r k x perm n :
  stage s [] (Some 0) e r → e !! k = Some None → (0 < x < 3)%nat → r !! x = Some n → 0 <= perm < 4096 → 0 <= n < 65535 →
  ∃ s', must_insert (pg x) (Z.of_nat k * 4096) perm s = Done tt s' ∧
    stage s' [] (Some 0) (<[k := Some (x, perm)]> e) (<[x := n + 1]> r).
Proof.
  intros st Hk Hx Hr Hperm Hn. assert (has_table [] (Some 0)) as Ht by by left.
  destruct (stage_insert s _ _ e r k x perm None n st Ht Hk Hx Hr Hperm) as (s' & l' & p & Hrun & Hin & Hp & Hpn).
  pose proof (stage_mapped st k None Hk) as Hm. exists s'. split; [by apply must_insert_done|].
  destruct (inserted_lists _ _ _ _ _ _ _ _ _ _ _ _ st Ht Hk Hx Hperm Hin) as [_ [->|(? & ? & ? & _)]]; [|done].
  apply (stage_inserted s s' [] [] _ _ _ _ _ _ _ _ _ st Ht Hk Hx Hperm Hin); [|set_solver].
  intros y m [(-> & <- & _)|[Hne Hy]]%list_lookup_insert_Some.
  - split; [lia|]. rewrite (in_ref _ _ _ _ _ _ _ _ _ Hin), decide_False by by rewrite Hm. rewrite u16_id by lia. congruence.
  - eapply inserted_ref; eauto.
Qed.

(** The first mapping takes page 0 as the table. *)
Lemma map_first s e r k x perm n :
  stage s [0%nat] None e r → e !! k = Some None → (0 < x < 3)%nat → r !! x = Some n → 0 <= perm < 4096 → 0 <= n < 65535 →
  ∃ s', map_page (pg x) (Z.of_nat k * 4096) perm s = Done 0 s' ∧
    stage s' [] (Some 0) (<[k := Some (x, perm)]> e) (<[x := n + 1]> (<[0%nat := 1]> r)) ∧ same_leaves s s' ∧
    (∀ f, has f perm = true → has f (pde_of s' pd 0) = true).
Proof.
  intros st Hk Hx Hr Hperm Hn. assert (has_table [0%nat] None) as Ht by by right.
  destruct (stage_insert s _ _ e r k x perm None n st Ht Hk Hx Hr Hperm) as (s' & l' & p & Hrun & Hin & Hp & Hpn).
  pose proof (stage_mapped st k None Hk) as Hm. exists s'. split; [done|].
  destruct (inserted_lists _ _ _ _ _ _ _ _ _ _ _ _ st Ht Hk Hx Hperm Hin) as [Hpt [->|(? & ? & ? & _)]]; [|done].
  destruct (st_entry _ _ _ _ _ st k _ Hk) as [Hk2 _]. destruct (va_facts k Hk2) as (_ & Hpdx & _).
  eapply (stage_inserted s s' [0%nat] []); try done; [|set_solver].
  intros y m [(-> & <- & _)|[Hne [(<- & <- & _)|[Hne' Hy]]%list_lookup_insert_Some]]%list_lookup_insert_Some.
  - split; [lia|]. rewrite (in_ref _ _ _ _ _ _ _ _ _ Hin), decide_False by by rewrite Hm. rewrite u16_id by lia. congruence.
  - split; [lia|]. apply (in_fresh _ _ _ _ _ _ _ _ _ Hin); rewrite Hpdx; [|exact Hpt].
    apply (stage_no_table st); [by left|done].
  - eapply inserted_ref; eauto.
Qed.

(** Mapping the page that is there already changes the permissions only. *)
Lemma map_again s e r k x perm perm0 n :
  stage s [] (Some 0) e r → e !! k = Some (Some (x, perm0)) → r !! x = Some n → 0 <= perm < 4096 →
  ∃ s', must_insert (pg x) (Z.of_nat k * 4096) perm s = Done tt s' ∧
    stage s' [] (Some 0) (<[k := Some (x, perm)]> e) r ∧ same_leaves s s' ∧
    (∀ f, has f perm = true → has f (pde_of s' pd 0) = true).
Proof.
  intros st Hk Hr Hperm. assert (has_table [] (Some 0)) as Ht by by left.
  destruct (st_in _ _ _ _ _ st k x perm0 Hk) as (Hx & _).
  destruct (st_entry _ _ _ _ _ st k _ Hk) as [Hk2 _]. destruct (va_facts k Hk2) as (_ & Hpdx & _).
  destruct (stage_insert s _ _ e r k x perm _ n st Ht Hk Hx Hr Hperm) as (s' & l' & p & Hrun & Hin & Hp & Hpn).
  pose proof (stage_mapped st k _ Hk) as Hm. exists s'. split; [by apply must_insert_done|].
  destruct (inserted_lists _ _ _ _ _ _ _ _ _ _ _ _ st Ht Hk Hx Hperm Hin) as [_ [->|(? & ? & ? & ? & _)]]; [|congruence].
  eapply (stage_inserted s s' [] []); try done; [|set_solver].
  intros y m Hy. destruct (decide (y = x)) as [->|Hne].
  - split; [lia|]. rewrite (in_ref _ _ _ _ _ _ _ _ _ Hin), decide_True by done. congruence.
  - eapply (inserted_ref s s' [] _ _ _ k x); eauto. by intros ? [= ? _].
Qed.

(** Mapping over the only mapping of another page frees that page. *)
Lemma map_over s e r k x y perm perm0 n :
  stage s [] (Some 0) e r → e !! k = Some (Some (y, perm0)) → x ≠ y → (0 < x < 3)%nat → r !! x = Some n → r !! y = Some 1 →
  (∀ k' perm', e !! k' = Some (Some (y, perm')) → k' = k) → 0 <= perm < 4096 → 0 <= n < 65535 →
  ∃ s', map_page (pg x) (Z.of_nat k * 4096) perm s = Done 0 s' ∧
    stage s' [y] (Some 0) (<[k := Some (x, perm)]> e) (<[x := n + 1]> (<[y := 0]> r)) ∧ same_leaves s s' ∧
    (∀ f, has f perm = true → has f (pde_of s' pd 0) = true).
Proof.
  intros st Hk Hxy Hx Hr Hry Huniq Hperm Hn. assert (has_table [] (Some 0)) as Ht by by left.
  destruct (st_in _ _ _ _ _ st k y perm0 Hk) as (Hy & _).
  destruct (stage_insert s _ _ e r k x perm _ n st Ht Hk Hx Hr Hperm) as (s' & l' & p & Hrun & Hin & Hp & Hpn).
  pose proof (stage_mapped st k _ Hk) as Hm. simpl in Hm.
  assert (pg y ≠ pg x) as Hpg by (intros E%pg_inj; lia).
  destruct (stage_page st y 1 Hry) as (py & Hpy & Hry').
  destruct (in_old _ _ _ _ _ _ _ _ _ Hin (pg y) py Hm Hpg Hpy) as [Ho1 Ho2]. rewrite Hry' in Ho1, Ho2.
  assert (l' = (pg <$> [y]) ++ rest) as ->.
  { destruct (inserted_lists _ _ _ _ _ _ _ _ _ _ _ _ st Ht Hk Hx Hperm Hin) as [_ [->|(z & ? & [= <- _] & _ & ->)]]; [|done].
    exfalso. apply (pg_rest y); [lia|tauto]. }
  exists s'. split; [done|]. eapply (stage_inserted s s' [] [y]); try done.
  - intros z m [(-> & <- & _)|[Hne [(-> & <- & _)|[Hne' Hz]]%list_lookup_insert_Some]]%list_lookup_insert_Some.
    + split; [lia|]. rewrite (in_ref _ _ _ _ _ _ _ _ _ Hin), decide_False by congruence. rewrite u16_id by lia. congruence.
    + split; [lia|done].
    + eapply (inserted_ref s s' [] _ _ _ k x); eauto. by intros ? [= ? _].
  - intros z ->%list_elem_of_singleton. split; [lia|done].
Qed.

(** Removing a mapping; the last one frees the page. *)
Lemma unmap s fl e r k x perm n :
  stage s fl (Some 0) e r → e !! k = Some (Some (x, perm)) → r !! x = Some n → 0 < n →
  (n = 1 → ∀ k' perm', e !! k' = Some (Some (x, perm')) → k' = k) →
  ∃ s', unmap_page (Z.of_nat k * 4096) s = Done tt s' ∧
    stage s' (if n =? 1 then x :: fl else fl) (Some 0) (<[k := None]> e) (<[x := n - 1]> r).
Proof.
  intros st Hk Hr Hn Huniq. destruct (st_in _ _ _ _ _ st k x perm Hk) as (Hx & Hxf & _).
  destruct (st_entry _ _ _ _ _ st k _ Hk) as [Hk2 _]. destruct (va_facts k Hk2) as (Hva & Hpdx & Hs & Hpn).
  destruct (stage_page st x n Hr) as (p & Hp & Hpr). pose proof (stage_mapped st k _ Hk) as Hm. simpl in Hm.
  destruct (st_table _ _ _ _ _ st 0 eq_refl) as [_ Hpt].
  pose proof (pw_page _ _ (st_pages _ _ _ _ _ st) _ _ Hp) as (_ & _ & Hpp).
  destruct (remove_spec s ((pg <$> fl) ++ rest) pd (Z.of_nat k * 4096) (pg x) p) as (s' & l' & Hrun & Hrm); try done; try apply st.
  { apply (stage_cpu st). }
  { by apply (stage_leaf st). }
  pose proof (rm_free _ _ _ _ _ _ _ _ Hrm) as Hl. rewrite Hpr in Hl.
  assert (l' = (pg <$> (if n =? 1 then x :: fl else fl)) ++ rest) as -> by (rewrite Hl; by destruct (n =? 1)).
  exists s'. split; [unfold unmap_page; rewrite run_gets, (stage_kern st); exact Hrun|].
  split.
  - apply Hrm.
  - intros y. pose proof (st_free _ _ _ _ _ st y). destruct (n =? 1); [rewrite elem_of_cons|]; naive_solver lia.
  - apply Hrm.
  - intros i [= <-]. split; [by left|]. rewrite (rm_tables _ _ _ _ _ _ _ _ Hrm) by lia. done.
  - intros i Hi Hne. rewrite <- (st_dir _ _ _ _ _ st i Hi Hne). unfold pde_of. apply page_same_slot; [|done].
    apply (rm_same_mem _ _ _ _ _ _ _ _ Hrm). rewrite Hpdx, Hpt. intros [= E]. by apply (pg_pd 0); [lia|].
  - intros k' o' [(-> & <- & _)|[Hne Hk']]%list_lookup_insert_Some.
    + split; [done|]. apply (rm_pte _ _ _ _ _ _ _ _ Hrm).
    + destruct (st_entry _ _ _ _ _ st k' o' Hk') as [Hk2' <-]. destruct (va_facts k' Hk2') as (Hva' & _ & Hs' & Hpn').
      split; [done|]. apply (rm_pte_other _ _ _ _ _ _ _ _ Hrm); [done|done|lia].
  - intros k' x' perm' [(-> & [=] & _)|[Hne Hk']]%list_lookup_insert_Some.
    destruct (st_in _ _ _ _ _ st k' x' perm' Hk') as (Hx' & Hf' & ?). split_and!; try lia.
    destruct (Z.eqb_spec n 1) as [E|E]; [|done]. intros [->|?]%elem_of_cons; [|done].
    by apply Hne, eq_sym, (Huniq E k' perm').
  - intros y m [(-> & <- & _)|[Hne Hy]]%list_lookup_insert_Some.
    + split; [lia|]. rewrite (rm_ref _ _ _ _ _ _ _ _ Hrm), u16_id by lia. by rewrite Hpr.
    + destruct (st_ref _ _ _ _ _ st y m Hy) as [Hy3 Hm']. split; [done|].
      rewrite (rm_other _ _ _ _ _ _ _ _ Hrm); [done|]. intros E%pg_inj; lia.
  - rewrite <- (st_other _ _ _ _ _ st). apply (rm_other _ _ _ _ _ _ _ _ Hrm). intros E. by apply (pg_pd x); [lia|].
  - etrans; [apply st|]. pose proof (pg_in x ltac:(lia)).
    split; [| |apply Hrm]; intros j [Hjp Hj]%not_elem_of_cons.
    + apply (rm_other _ _ _ _ _ _ _ _ Hrm). intros ->. done.
    + apply (rm_same_mem _ _ _ _ _ _ _ _ Hrm). rewrite Hpdx, Hpt. intros [= ->]. apply Hj. by left.
Qed.

Lemma pg_not_free {s fl tab e r} (st : stage s fl tab e r) x : (x < 3)%nat → x ∉ fl → pg x ∉ (pg <$> fl) ++ rest.
Proof.
  intros Hx Hf [(y & E & Hy)%list_elem_of_fmap|Hr]%elem_of_app; [|by apply (pg_rest x)].
  apply pg_inj in E; [congruence|done|by apply (st_free _ _ _ _ _ st)].
Qed.

(** Steps that touch one of the pages only, while it is not the table. *)
Lemma stage_kept s s' fl fl' tab e r r' x :
  stage s fl tab e r → kept [pg x] s s' → (x < 3)%nat → (x = 0%nat → tab = None) →
  pages_wf s' ((pg <$> fl') ++ rest) → (∀ y, y ∈ fl' → y ∈ x :: fl) →
  (∀ y n, r' !! y = Some n → if decide (y = x) then pp_ref <$> pages s' !! pg x = Some n else r !! y = Some n) →
  (∀ k perm, x ∈ fl' → e !! k ≠ Some (Some (x, perm))) →
  stage s' fl' tab e r'.
Proof.
  intros st Hk Hx Hx0 Hw Hsub Hr He. pose proof (pg_pd x Hx) as Hxpd. pose proof (pg_in x Hx) as Hxin.
  pose proof (stage_npages st) as (Hn & _). pose proof (vm_npages _ _ (kp_frame _ _ _ Hk)) as Hn'.
  assert (∀ j, j ≠ pg x → page_same j (mem s) (mem s')) as Hmem by (intros j Hj; apply Hk; set_solver).
  assert (∀ i, 0 <= i < 1024 → pt_of s' pd i = pt_of s pd i) as Hpt by (intros i Hi; apply pt_frame; [by apply Hmem|done]).
  assert (∀ i, 0 <= i < 1024 → i ≠ self_index → pt_of s pd i ≠ Some (pg x)) as Hnt.
  { intros i Hi Hs E. destruct (decide (tab = Some i)) as [Ht|Ht].
    - destruct (st_table _ _ _ _ _ st i Ht) as [_ E']. assert (pg x = pg 0) as E2 by (unfold pg at 2; simpl; congruence).
      apply pg_inj in E2; [|lia|lia]. rewrite (Hx0 E2) in Ht. done.
    - unfold pt_of in E. rewrite (st_dir _ _ _ _ _ st i Hi Ht) in E.
      destruct (pd_table _ _ _ (ck_pd ck) i Hi (pg x) Hs E) as (_ & Hnf & _). by apply Hnf, pg_free. }
  assert (∀ q, q ∈ (pg <$> fl') ++ rest → q = pg x ∨ q ∈ (pg <$> fl) ++ rest) as Hq.
  { intros q [(y & -> & [->|Hy]%Hsub%elem_of_cons)%list_elem_of_fmap|Hr']%elem_of_app; [by left|right..]; apply elem_of_app;
      [left; by apply list_elem_of_fmap_2|by right]. }
  destruct (st_pd _ _ _ _ _ st) as [[D1 D2] D3 D4]. split; try done.
  - intros y [->|Hy]%Hsub%elem_of_cons; [done|]. by apply (st_free _ _ _ _ _ st).
  - split; rewrite ?Hn'.
    + split; [done|]. by intros [->|?]%Hq.
    + intros i Hi q Hs Hqt. rewrite Hpt in Hqt by done. destruct (D3 i Hi q Hs Hqt) as (? & ? & ?).
      split_and!; [lia..| |done]. intros [->|?]%Hq; [by apply (Hnt i)|done].
    + intros i Hi j Hj q Hs Hs'. rewrite !Hpt by done. eauto.
  - intros i Ht. destruct (st_table _ _ _ _ _ st i Ht) as [Hi E]. split; [done|]. rewrite Hpt; [done|]. set_solver by lia.
  - intros i Hi Ht. rewrite <- (st_dir _ _ _ _ _ st i Hi Ht). unfold pde_of. apply page_same_slot; [by apply Hmem|done].
  - intros k o Hko. destruct (st_entry _ _ _ _ _ st k o Hko) as [Hk2 <-]. split; [done|].
    destruct (va_facts k Hk2) as (_ & Hp & Hs & _). apply pte_frame; [apply Hpt, PDX_range|].
    intros q Hqt. apply Hmem. intros ->. by apply (Hnt _ (PDX_range _) Hs).
  - intros k y perm Hky. destruct (st_in _ _ _ _ _ st k y perm Hky) as (? & ? & ?). split_and!; try lia.
    intros Hy. destruct (decide (y = x)) as [->|]; [by apply (He k perm)|]. apply Hsub, elem_of_cons in Hy. naive_solver.
  - intros y n Hy. specialize (Hr y n Hy). case_decide as E; [by subst|].
    destruct (st_ref _ _ _ _ _ st y n Hr) as [Hy3 <-]. split; [done|]. f_equal. apply Hk.
    intros Hyx%list_elem_of_singleton%pg_inj; lia.
  - rewrite <- (st_other _ _ _ _ _ st). apply Hk. set_solver.
  - etrans; [apply st|]. eapply kept_mono; [exact Hk|]. intros j ->%list_elem_of_singleton. by right.
Qed.

(** A free page is taken; a page is given back. *)
Lemma take s tab e r x flags :
  stage s [x] tab e r → (x < 3)%nat → (x = 0%nat → tab = None) → r !! x = Some 0 →
  ∃ s', page_alloc flags s = Done (Some (pg x)) s' ∧ stage s' [] tab e r.
Proof.
  intros st Hx Hx0 Hr. destruct (alloc_kept s rest (pg x) flags (st_pages _ _ _ _ _ st)) as (s' & Hrun & Hw & Hk & Hp & _).
  exists s'. split; [done|]. eapply (stage_kept s s' [x] []); try done; [set_solver| |set_solver].
  intros y n Hy. case_decide; [|done]. subst y. rewrite Hp. simpl. congruence.
Qed.

Lemma give s fl tab e r x n :
  stage s fl tab e r → x ∉ fl → (x < 3)%nat → (x = 0%nat → tab = None) → r !! x = Some n →
  (∀ k perm, e !! k ≠ Some (Some (x, perm))) →
  ∃ s', page_free (Some (pg x)) s = Done tt s' ∧ stage s' (x :: fl) tab e r.
Proof.
  intros st Hxf Hx Hx0 Hr He. destruct (stage_page st x n Hr) as (p & Hp & Hpr).
  destruct (free_kept s _ (pg x) p (st_pages _ _ _ _ _ st) (pg_not_free st x Hx Hxf) Hp) as (s' & Hrun & Hw & Hk & (p' & Hp' & Hpr') & _).
  exists s'. split; [done|]. eapply (stage_kept s s' fl (x :: fl)); [exact st|exact Hk|done|done|exact Hw|done| |auto].
  intros y m Hy. case_decide; [|done]. subst y. rewrite Hp'. simpl. congruence.
Qed.

(** The count of a page is set; a page is filled. *)
Lemma set_ref_run {A} s fl e r x n v (k : unit → M A) :
  stage s fl None e r → x ∉ fl → (x < 3)%nat → r !! x = Some n → 0 <= v < 65536 →
  ∃ s', (upd_page (set_pp_ref v) (pg x) ≫= k) s = k tt s' ∧ stage s' fl None e (<[x := v]> r).
Proof.
  intros st Hxf Hx Hr Hv. destruct (stage_page st x n Hr) as (p & Hp & Hpr).
  exists (set_pages (<[pg x := set_pp_ref v p]> (pages s)) s). split; [by apply run_upd_page|].
  pose proof (pg_range x Hx). pose proof (stage_npages st) as (Hn & _). pose proof (st_pages _ _ _ _ _ st) as Hw.
  eapply (stage_kept s _ fl fl None e r _ x); [exact st| |done|done| |by right| |done].
  - split; [|done|auto with jos]. intros j Hj. simpl. rewrite lookup_insert_ne; [done|set_solver].
  - eapply (pages_wf_update s _ _ (pg x) (set_pp_ref v p)); try done; [lia|by apply (pg_not_free st)|].
    simpl. by apply (pw_paddr _ _ _ _ Hw Hp).
  - intros y m [(-> & <- & _)|[Hne Hy]]%list_lookup_insert_Some.
    + rewrite decide_True by done. simpl. by rewrite lookup_insert_eq.
    + by rewrite decide_False by done.
Qed.

Lemma fill_run s fl tab e r x v :
  stage s fl tab e r → x ∉ fl → (x < 3)%nat → (x = 0%nat → tab = None) →
  stage (set_mem (fill (mem s) (pg x * 4096) v (Z.to_nat PGSIZE)) s) fl tab e r.
Proof.
  intros st Hxf Hx Hx0. eapply (stage_kept s _ fl fl tab e r _ x); [exact st| |done|done| |by right| |done].
  - split; [done| |by split]. intros j Hj y Hy. simpl. rewrite mget_fill, decide_False; [done|].
    unfold PGSIZE. assert (j ≠ pg x) by set_solver. lia.
  - by apply (pages_wf_ext s); try apply st.
  - intros y n Hy. case_decide; [|done]. subst y. apply (st_ref _ _ _ _ _ st x n Hy).
Qed.

(** A new page table for one of the first two directory entries. *)
Lemma stage_walk s r va :
  stage s [0%nat] None [None; None] r → r !! 0%nat = Some 0 → PDX va ∈ [0; 1] → 0 <= va < 4294967296 →
  ∃ s', pgdir_walk (pgdir_kva pd) va CREATE s = Done (Some (slot_kva a (PTX va))) s' ∧
    stage s' [] (Some (PDX va)) [None; None] (<[0%nat := 1]> r) ∧
    (∀ j, 0 <= j < 1024 → load32 (mem s') (a * 4096 + 4 * j) = 0).
Proof.
  intros st Hr Hi Hva. assert (PDX va ≠ self_index) as Hs.
  { assert (PDX va = 0 ∨ PDX va = 1) as [-> | ->] by set_solver; by_compute. }
  pose proof (stage_no_table st (PDX va) Hi ltac:(done)) as Hnone.
  destruct (walk_spec s _ pd va (st_pages _ _ _ _ _ st) (st_pd _ _ _ _ _ st) Hs) as [(_ & ? & _)|(s' & l' & q & Hrun & Hk)]; [done|].
  destruct (wk_free _ _ _ _ _ _ _ Hk) as [[_ E]|[[= <- <-] _]]; [by rewrite Hnone in E|]. change (pg 0) with a in *.
  assert (∀ va', PDX va' = PDX va → pte_of s' pd va' = 0) as Hz.
  { intros va' E. rewrite (wk_pte _ _ _ _ _ _ _ Hk) by by rewrite E. apply pte_of_none. by rewrite E. }
  exists s'. split; [exact Hrun|split].
  - split; try apply Hk; [set_solver|..].
    + intros i [= <-]. split; [done|]. apply Hk.
    + intros i Hi' Hne. rewrite (wk_dir _ _ _ _ _ _ _ Hk) by (done || congruence). by apply (st_dir _ _ _ _ _ st).
    + intros k o Hko. destruct (st_entry _ _ _ _ _ st k o Hko) as [Hk2 <-]. split; [done|].
      apply (wk_pte _ _ _ _ _ _ _ Hk). apply (va_facts k Hk2).
    + intros k x perm Hkx. destruct (st_in _ _ _ _ _ st k x perm Hkx) as (? & ? & ?). split_and!; try lia. set_solver.
    + intros y n [(<- & <- & _)|[Hne Hy]]%list_lookup_insert_Some.
      * split; [lia|]. by apply (wk_fresh _ _ _ _ _ _ _ Hk).
      * destruct (st_ref _ _ _ _ _ st y n Hy) as [Hy3 <-]. split; [done|]. f_equal. apply (wk_page_ne _ _ _ _ _ _ _ Hk).
        intros E. apply (pg_inj y 0) in E; lia.
    + rewrite <- (st_other _ _ _ _ _ st). apply (wk_page_ne _ _ _ _ _ _ _ Hk).
      intros E. by apply (pg_pd 0); [lia|].
    + etrans; [apply st|]. split; [| |apply Hk]; intros j [Hjp Hj]%not_elem_of_cons.
      * apply (wk_page_ne _ _ _ _ _ _ _ Hk). intros ->. apply Hj. by left.
      * apply (wk_mem_ne _ _ _ _ _ _ _ Hk); [|done]. intros ->. apply Hj. by left.
  - intros j Hj. set (va' := PDX va * 4194304 + j * 4096).
    assert (PDX va' = PDX va ∧ PTX va' = j) as [E1 E2].
    { pose proof (PDX_range va). unfold va'. rewrite PDX_div, PTX_div. split; zlia. }
    pose proof (Hz va' E1) as H0. rewrite (pte_of_eq s' pd va' a), E2 in H0; [done|]. rewrite E1. apply Hk.
Qed.

(** The table is taken out of the directory again. *)
Lemma stage_untable s fl r i :
  stage s fl (Some i) [None; None] r → stage (put s pd i 0) fl None [None; None] r.
Proof.
  intros st. destruct (st_table _ _ _ _ _ st i eq_refl) as [Hi Ht]. assert (0 <= i < 1024) as Hi' by set_solver by lia.
  destruct (ck_pde ck) as [P0 P1].
  assert (∀ j, 0 <= j < 1024 → pt_of (put s pd i 0) pd j = if decide (j = i) then None else pt_of s pd j) as Hpt.
  { intros j Hj. rewrite put_pde_pt by (done || lia). done. }
  destruct (st_pd _ _ _ _ _ st) as [[D1 D2] D3 D4].
  assert (∀ k o, [None; None] !! k = Some o → o = @None (nat * Z)) as Hnone.
  { intros k o E%list_elem_of_lookup_2. set_solver. }
  split; try apply st; try done.
  - by apply (pages_wf_ext s _ _ (st_pages _ _ _ _ _ st)).
  - split; simpl; [done|..].
    + intros j Hj q Hs. rewrite Hpt by done. case_decide; [done|]. eauto.
    + intros j Hj k Hk q Hs Hs'. rewrite !Hpt by done. repeat case_decide; try done. eauto.
  - intros j Hj _. destruct (decide (j = i)) as [->|Hne].
    + rewrite put_pde_same by lia. assert (i = 0 ∨ i = 1) as [-> | ->] by set_solver; done.
    + unfold pde_of at 1. simpl. rewrite store_slot_ne by (done || lia). apply (st_dir _ _ _ _ _ st); congruence.
  - intros k o Hk. destruct (st_entry _ _ _ _ _ st k o Hk) as [Hk2 E]. split; [done|]. rewrite (Hnone k o Hk). simpl.
    destruct (va_facts k Hk2) as (_ & Hp & _). apply pte_of_none. rewrite Hp, Hpt by lia. case_decide as E0; [done|].
    apply (stage_no_table st); [by left|congruence].
  - etrans; [apply st|]. split; [done| |auto with jos]. intros j [Hjp _]%not_elem_of_cons. by apply store_page_same.
Qed.

(** Reading and testing. *)
Section tests.
Context {A : Type} {s fl tab e r} (st : stage s fl tab e r) (f : Z → M A) (g : unit → M A).

Lemma dir_slot i : 0 <= i < 1024 → pgdir_kva pd + 4 * i = slot_kva pd i.
Proof. intros _. unfold pgdir_kva, slot_kva. lia. Qed.

Lemma kern_pde_run i : 0 <= i < 1024 → (kern_pde i ≫= f) s = f (pde_of s pd i) s.
Proof.
  intros Hi. pose proof (stage_npages st) as (_ & Hn & Hp). unfold kern_pde. rewrite run_assoc, run_gets, (stage_kern st), dir_slot by done.
  by rewrite rd_slot by lia.
Qed.

Lemma set_kern_pde_run i v : 0 <= i < 1024 → (set_kern_pde i v ≫= g) s = g tt (put s pd i v).
Proof.
  intros Hi. pose proof (stage_npages st) as (_ & Hn & Hp). unfold set_kern_pde. rewrite run_assoc, run_gets, (stage_kern st), dir_slot by done.
  by rewrite wr_slot by lia.
Qed.

Lemma table_addr i : tab = Some i → PTE_ADDR (pde_of s pd i) = a * 4096.
Proof.
  intros Ht. destruct (st_table _ _ _ _ _ st i Ht) as [_ E]. rewrite pt_of_inv in E.
  destruct (has PTE_P (pde_of s pd i)); [|done]. rewrite PTE_ADDR_div by apply pde_of_range. congruence.
Qed.

Lemma test_ref_run x n : r !! x = Some n → (test_ref (pg x) n ≫= g) s = g tt s.
Proof.
  intros Hr. destruct (stage_page st x n Hr) as (p & Hp & <-). unfold test_ref, ref_of.
  rewrite !run_assoc, (run_get_page _ p), run_ret by done. apply run_test, Z.eqb_refl.
Qed.

Definition address (o : option (nat * Z)) : Z := match o with Some (x, _) => page2pa (pg x) | None => NOT_MAPPED end.

Lemma test_va2pa_run k o : e !! k = Some o → (test_va2pa (Z.of_nat k * 4096) (address o) ≫= g) s = g tt s.
Proof.
  intros Hk. destruct (st_entry _ _ _ _ _ st k o Hk) as [Hk2 _]. destruct (va_facts k Hk2) as (_ & _ & Hs & _).
  pose proof (check_va2pa_agrees s _ pd _ (st_pages _ _ _ _ _ st) (st_pd _ _ _ _ _ st) Hs) as Hrun.
  rewrite (stage_mapped st k o Hk) in Hrun. unfold test_va2pa. rewrite !run_assoc, run_gets, (stage_kern st), run_assoc.
  step_with Hrun. apply run_test, Z.eqb_eq. destruct o as [[x perm]|]; [|done]. simpl.
  destruct (st_in _ _ _ _ _ st k x perm Hk). pose proof (stage_npages st) as (_ & Hn & _). pose proof (pg_range x ltac:(lia)).
  rewrite page2pa_mul by lia. done.
Qed.

Lemma walk_run k : (k < 2)%nat → tab = Some 0 →
  pgdir_walk (pgdir_kva pd) (Z.of_nat k * 4096) NO_CREATE s = Done (Some (slot_kva a (PTX (Z.of_nat k * 4096)))) s.
Proof.
  intros Hk Ht. destruct (st_table _ _ _ _ _ st 0 Ht) as [_ E]. destruct (va_facts k Hk) as (_ & Hp & Hs & _).
  pose proof (stage_npages st) as (Hn & Hn' & Hpd). pose proof (pg_range 0 ltac:(lia)) as Ha. change (pg 0) with a in Ha.
  eapply walk_present; [apply st|lia|by rewrite Hp|lia].
Qed.

Lemma walk_entry_run k o : e !! k = Some o → tab = Some 0 → (walk_entry (Z.of_nat k * 4096) ≫= f) s = f (entry o) s.
Proof.
  intros Hk Ht. destruct (st_entry _ _ _ _ _ st k o Hk) as [Hk2 <-]. destruct (st_table _ _ _ _ _ st 0 Ht) as [_ E].
  destruct (va_facts k Hk2) as (_ & Hp & _). pose proof (stage_npages st) as (Hn & Hn' & _).
  pose proof (pg_range 0 ltac:(lia)) as Ha. change (pg 0) with a in Ha.
  unfold walk_entry. rewrite !run_assoc, run_gets, (stage_kern st), !run_assoc. step_with (walk_run k Hk2 Ht).
  simpl. rewrite run_assoc, run_ret, rd_slot by (lia || apply PTX_range). by rewrite <- (pte_of_eq s pd _ a) by by rewrite Hp.
Qed.
End tests.

Lemma entry_user x perm : (x < 3)%nat → has PTE_U (entry (Some (x, perm))) = has PTE_U perm.
Proof.
  intros Hx. pose proof (pg_range x Hx). pose proof (pw_npages _ _ (ck_pages ck)). simpl.
  rewrite !has_lor, page2pa_mul, has_page by (unfold PTE_U; lia). by rewrite orb_false_r.
Qed.

Lemma check_map_run s :
  rest = [] → stage s [] None [None; None] [0; 0; 0] →
  ∃ s', check_map a b c s = Done tt s' ∧ stage s' [] (Some 0) [Some (1%nat, PTE_W); Some (2%nat, PTE_W)] [1; 1; 1].
Proof.
  intros Hrest st. pose proof (stage_npages st) as (_ & Hn & _). pose proof (pg_range 0 ltac:(lia)) as Ha. change (pg 0) with a in Ha.
  pose proof (lookup_none s _ pd 0 (st_pages _ _ _ _ _ st) (st_pd _ _ _ _ _ st) ltac:(by_compute) (stage_mapped st 0 None eq_refl)) as Hl.
  pose proof (insert_no_table s _ _ _ _ b 0 PTE_W st eq_refl Hrest (stage_no_table st 0 ltac:(set_solver) ltac:(done))) as Hno.
  destruct (give s _ None _ _ 0 0 st (not_elem_of_nil _) ltac:(lia) ltac:(done) eq_refl) as (s1 & R1 & st1).
  { intros k perm E%list_elem_of_lookup_2. set_solver. }
  destruct (map_first s1 _ _ 0 1 PTE_W 0 st1 eq_refl ltac:(lia) eq_refl) as (s2 & R2 & st2 & _ & _); [unfold PTE_W; lia|lia|].
  destruct (map_new s2 _ _ 1 2 PTE_W 0 st2 eq_refl ltac:(lia) eq_refl) as (s3 & R3 & st3); [unfold PTE_W; lia|lia|].
  exists s3. split; [|exact st3].
  unfold check_map. rewrite run_gets, (stage_kern st). step_with Hl. rewrite run_test by done.
  step_with Hno. step_with R1. step_with (must_insert_done _ _ _ _ _ R2).
  rewrite (kern_pde_run st2) by lia. rewrite (table_addr st2) by done.
  rewrite run_test by (rewrite page2pa_mul by lia; apply Z.eqb_refl).
  rewrite (test_va2pa_run st2 _ 0 _ eq_refl), (test_ref_run st2 _ 1 _ eq_refl), (test_ref_run st2 _ 0 _ eq_refl).
  step_with R3. rewrite (test_va2pa_run st3 _ 1 _ eq_refl), (test_ref_run st3 _ 2 _ eq_refl).
  rewrite tail_bind, run_no_free; [done|]. rewrite <- Hrest. apply st3.
Qed.

Lemma check_remap_run s :
  rest = [] → stage s [] (Some 0) [Some (1%nat, PTE_W); Some (2%nat, PTE_W)] [1; 1; 1] →
  ∃ s', check_remap a b c s = Done tt s' ∧ stage s' [] (Some 0) [Some (1%nat, PTE_W); Some (1%nat, PTE_W)] [1; 2; 0].
Proof.
  intros Hrest st. pose proof (stage_npages st) as (Hn0 & Hn & _). pose proof (pg_range 0 ltac:(lia)) as Ha. change (pg 0) with a in Ha.
  destruct (map_again s _ _ 1 2 PTE_W _ 1 st eq_refl eq_refl ltac:(by_compute)) as (s1 & R1 & st1 & _ & _).
  destruct (map_again s1 _ _ 1 2 (Z.lor PTE_W PTE_U) _ 1 st1 eq_refl eq_refl ltac:(by_compute)) as (s2 & R2 & st2 & _ & F2).
  pose proof (insert_no_table s2 _ _ _ _ a PTSIZE PTE_W st2 eq_refl Hrest (stage_no_table st2 1 ltac:(set_solver) ltac:(done))) as Hno.
  destruct (map_over s2 _ _ 1 1 2 PTE_W _ 1 st2 eq_refl ltac:(done) ltac:(lia) eq_refl eq_refl) as (s3 & R3 & st3 & _ & _); [|by_compute|lia|].
  { intros [|[|k]] perm E; [done|done|]. apply lookup_lt_Some in E. simpl in E. lia. }
  destruct (take s3 _ _ _ 2 0 st3 ltac:(lia) ltac:(done) eq_refl) as (s4 & R4 & st4).
  pose proof (stage_npages st1) as (Hn1 & _).
  exists s4. split; [|exact st4].
  unfold check_remap. step_with R1. rewrite (test_va2pa_run st1 _ 1 _ eq_refl), (test_ref_run st1 _ 2 _ eq_refl).
  rewrite run_no_free by (rewrite <- Hrest; apply st1). rewrite (kern_pde_run st1) by by_compute. rewrite (table_addr st1) by done.
  rewrite run_KADDR; [|lia|rewrite PGNUM_div, Z.div_mul by lia; lia|lia].
  rewrite run_gets, (stage_kern st1). step_with (walk_run st1 1 ltac:(lia) ltac:(done)).
  rewrite run_test by (apply bool_decide_eq_true; f_equal; unfold slot_kva; change (Z.of_nat 1 * 4096) with PGSIZE; lia).
  step_with R2. rewrite (test_va2pa_run st2 _ 1 _ eq_refl), (test_ref_run st2 _ 2 _ eq_refl).
  rewrite (walk_entry_run st2 _ 1 _ eq_refl) by done. rewrite run_test by by rewrite entry_user by lia.
  rewrite (kern_pde_run st2) by by_compute. rewrite run_test by by apply F2.
  step_with Hno. step_with (must_insert_done _ _ _ _ _ R3). rewrite (walk_entry_run st3 _ 1 _ eq_refl) by done.
  rewrite run_test by by rewrite entry_user by lia.
  rewrite (test_va2pa_run st3 _ 0 _ eq_refl), (test_va2pa_run st3 _ 1 _ eq_refl).
  rewrite (test_ref_run st3 _ 1 _ eq_refl), (test_ref_run st3 _ 2 _ eq_refl).
  rewrite (run_need _ _ _ _ _ _ R4). change (pg 2) with c. by rewrite Z.eqb_refl.
Qed.

Lemma check_unmap_run s :
  rest = [] → stage s [] (Some 0) [Some (1%nat, PTE_W); Some (1%nat, PTE_W)] [1; 2; 0] →
  ∃ s', check_unmap a b c s = Done tt s' ∧ stage s' [] None [None; None] [0; 0; 0].
Proof.
  intros Hrest st. pose proof (stage_npages st) as (Hn0 & Hn & _). pose proof (pg_range 0 ltac:(lia)) as Ha. change (pg 0) with a in Ha.
  destruct (unmap s _ _ _ 0 1 _ 2 st eq_refl eq_refl ltac:(lia) ltac:(done)) as (s1 & R1 & st1).
  destruct (unmap s1 _ _ _ 1 1 _ 1 st1 eq_refl eq_refl ltac:(lia)) as (s2 & R2 & st2).
  { intros _ [|[|k]] perm E; [done|done|]. apply lookup_lt_Some in E. simpl in E. lia. }
  destruct (take s2 _ _ _ 1 0 st2 ltac:(lia) ltac:(done) eq_refl) as (s3 & R3 & st3).
  pose proof (stage_untable s3 _ _ 0 st3) as st4.
  destruct (set_ref_run (put s3 pd 0 0) _ _ _ 0 1 0 (λ u, mret u) st4 (not_elem_of_nil _) ltac:(lia) eq_refl ltac:(lia)) as (s5 & R5 & st5).
  exists s5. split; [|exact st5].
  unfold check_unmap. step_with R1. rewrite (test_va2pa_run st1 _ 0 _ eq_refl), (test_va2pa_run st1 _ 1 _ eq_refl).
  rewrite (test_ref_run st1 _ 1 _ eq_refl), (test_ref_run st1 _ 2 _ eq_refl).
  step_with R2. rewrite (test_va2pa_run st2 _ 0 _ eq_refl), (test_va2pa_run st2 _ 1 _ eq_refl).
  rewrite (test_ref_run st2 _ 1 _ eq_refl), (test_ref_run st2 _ 2 _ eq_refl).
  rewrite (run_need _ _ _ _ _ _ R3), run_test by apply Z.eqb_refl. rewrite run_no_free by (rewrite <- Hrest; apply st3).
  rewrite (kern_pde_run st3) by lia. rewrite (table_addr st3) by done.
  rewrite run_test by (rewrite page2pa_mul by lia; apply Z.eqb_refl).
  rewrite (set_kern_pde_run st3) by lia. rewrite (test_ref_run st4 _ 0 _ eq_refl).
  rewrite tail_bind. exact R5.
Qed.

(** The entries of a table that was just made are not present. *)
Lemma empty_table_run s L :
  0 <= a < 65536 → (∀ j, 0 <= j < 1024 → load32 (mem s) (a * 4096 + 4 * j) = 0) → (∀ i, i ∈ L → 0 <= i < 1024) →
  for_each L (λ i, e ← rd32 (a * 4096 + KERNBASE + 4 * i); test (negb (has PTE_P e)) "(ptep[i] & PTE_P) == 0") s = Done tt s.
Proof.
  intros Ha Hz. induction L as [|i L IH]; intros HL; [done|]. cbn [for_each].
  pose proof (HL i ltac:(by left)) as Hi.
  assert ((e ← rd32 (a * 4096 + KERNBASE + 4 * i); test (negb (has PTE_P e)) "(ptep[i] & PTE_P) == 0") s = Done tt s) as Hb.
  { replace (a * 4096 + KERNBASE + 4 * i) with (slot_kva a i) by (unfold slot_kva; lia).
    rewrite rd_slot, Hz by lia. done. }
  step_with Hb. apply IH. intros j Hj. apply HL. by right.
Qed.

Lemma check_walk_run s :
  stage s [] None [None; None] [0; 0; 0] →
  ∃ s', check_walk a s = Done tt s' ∧ stage s' [] None [None; None] [0; 0; 0].
Proof.
  intros st. pose proof (stage_npages st) as (Hn0 & Hn & _). pose proof (pg_range 0 ltac:(lia)) as Ha. change (pg 0) with a in Ha.
  assert (∀ k perm, [None; None] !! k ≠ Some (Some (0%nat, perm : Z))) as He by (intros k perm E%list_elem_of_lookup_2; set_solver).
  destruct (give s _ None _ _ 0 0 st (not_elem_of_nil _) ltac:(lia) ltac:(done) eq_refl He) as (s1 & R1 & st1).
  destruct (stage_walk s1 _ (PGSIZE * NPDENTRIES + PGSIZE) st1 eq_refl ltac:(by_compute) ltac:(by_compute)) as (s2 & R2 & st2 & _).
  pose proof (stage_untable s2 _ _ _ st2) as st3. change (PDX (PGSIZE * NPDENTRIES + PGSIZE)) with 1 in st3.
  set (k4 := λ _ : unit, kva ← page2kva a; kmemset kva 0xFF PGSIZE ;; page_free (Some a) ;; pd ← gets kern_pgdir;
    pgdir_walk pd 0 CREATE ;; ptep ← page2kva a; for_each (seqZ 0 NPTENTRIES) (λ i,
    e ← rd32 (ptep + 4 * i); test (negb (has PTE_P e)) "(ptep[i] & PTE_P) == 0") ;; set_kern_pde 0 0 ;; upd_page (set_pp_ref 0) a).
  destruct (set_ref_run _ _ _ _ 0 1 0 k4 st3 (not_elem_of_nil _) ltac:(lia) eq_refl ltac:(lia)) as (s4 & R4 & st4).
  pose proof (fill_run s4 _ _ _ _ 0 0xFF st4 (not_elem_of_nil _) ltac:(lia) ltac:(done)) as st5. set (s5 := set_mem _ s4) in st5.
  destruct (give s5 _ None _ _ 0 0 st5 (not_elem_of_nil _) ltac:(lia) ltac:(done) eq_refl He) as (s6 & R6 & st6).
  destruct (stage_walk s6 _ 0 st6 eq_refl ltac:(by_compute) ltac:(by_compute)) as (s7 & R7 & st7 & Z7).
  pose proof (stage_untable s7 _ _ _ st7) as st8. change (PDX 0) with 0 in st8.
  destruct (set_ref_run _ _ _ _ 0 1 0 (λ u, mret u) st8 (not_elem_of_nil _) ltac:(lia) eq_refl ltac:(lia)) as (s9 & R9 & st9).
  pose proof (stage_npages st2) as (Hn2 & _). pose proof (stage_npages st4) as (Hn4 & _). pose proof (stage_npages st7) as (Hn7 & _).
  exists s9. split; [|exact st9].
  unfold check_walk. step_with R1. rewrite run_gets, (stage_kern st1). step_with R2.
  rewrite (kern_pde_run st2) by by_compute. rewrite (table_addr st2) by done.
  rewrite run_KADDR; [|lia|rewrite PGNUM_div, Z.div_mul by lia; lia|lia].
  rewrite run_test by (apply bool_decide_eq_true; f_equal; unfold slot_kva; lia).
  rewrite (set_kern_pde_run st2) by by_compute. etrans; [exact R4|]. unfold k4.
  rewrite run_page2kva by lia. unfold kmemset at 1. rewrite run_modify, Z.add_simpl_r. fold s5. step_with R6.
  rewrite run_gets, (stage_kern st6). step_with R7. rewrite run_page2kva by lia.
  step_with (empty_table_run s7 (seqZ 0 NPTENTRIES) ltac:(lia) Z7 ltac:(intros i Hi; apply elem_of_seqZ in Hi; unfold NPTENTRIES in Hi; lia)).
  rewrite (set_kern_pde_run st7) by lia. rewrite tail_bind. exact R9.
Qed.

Lemma stage_start s :
  pages_wf s rest → kept [a; b; c] s0 s → (∀ q, q ∈ [a; b; c] → pages s !! q = Some (mkPage None (q * 4096) 0)) →
  stage s [] None [None; None] [0; 0; 0].
Proof.
  intros Hw Hk Hp. assert (pd ∉ [a; b; c]) as Hpd.
  { intros H. destruct (pd_dir _ _ _ (ck_pd ck)) as [_ []]. change (pd ∈ [a; b; c] ++ fl0). apply elem_of_app. by left. }
  assert (page_same pd (mem s0) (mem s)) as Hm by by apply Hk.
  assert (∀ k (o : option (nat * Z)), [None; None] !! k = Some o → o = None ∧ (k < 2)%nat) as Hnone.
  { intros k o E. pose proof (lookup_lt_Some _ _ _ E) as Hl. apply list_elem_of_lookup_2 in E. simpl in Hl. set_solver. }
  split; try done.
  - set_solver.
  - eapply pd_wf_update; [apply ck|apply Hk|intros i Hi _; by apply pt_frame|]. intros q Hq. do 3 right. by apply ck.
  - intros i Hi _. by apply page_same_slot.
  - intros k o E. destruct (Hnone k o E) as [-> Hk2]. split; [done|]. simpl. apply pte_of_none.
    destruct (va_facts k Hk2) as (_ & -> & _). rewrite (pt_frame s0) by (done || lia). unfold pt_of. by rewrite (proj1 (ck_pde ck)).
  - intros k x perm E. by destruct (Hnone _ _ E).
  - intros x n E. pose proof (lookup_lt_Some _ _ _ E) as Hx. simpl in Hx. split; [done|]. rewrite Hp by by apply pg_in.
    apply list_elem_of_lookup_2 in E. simpl. f_equal. set_solver.
  - by apply Hk.
  - eapply kept_mono; [exact Hk|]. intros j Hj. by right.
Qed.

Lemma check_page_run :
  rest = [] →
  ∃ s', check_page s0 = Done tt s' ∧ pages_wf s' (c :: b :: a :: fl0) ∧ pd_wf s' (c :: b :: a :: fl0) pd ∧
    (∀ i, 0 <= i < 1024 → pde_of s' pd i = pde_of s0 pd i) ∧ kept [pd; a; b; c] s0 s' ∧
    pages s' !! pd = pages s0 !! pd ∧ (∀ q, q ∈ [a; b; c] → pp_ref <$> pages s' !! q = Some 0).
Proof.
  intros Hrest. destruct three_nodup as [Hnd Hfl]. assert (pd ∉ a :: b :: c :: fl0) as Hpd by apply (pd_dir _ _ _ (ck_pd ck)).
  destruct (alloc_three_run s0 a b c fl0 (ck_pages ck)) as (s1 & R1 & W1 & K1 & P1).
  destruct (hide_kept s1 fl0 W1) as [W2 K2]. set (s2 := set_page_free_list None s1) in *.
  assert (kept [a; b; c] s0 s2) as K02 by (etrans; [exact K1|eapply kept_mono; [exact K2|set_solver]]).
  assert (stage s2 [] None [None; None] [0; 0; 0]) as st2 by (apply stage_start; [by rewrite Hrest|done..]).
  destruct (check_map_run s2 Hrest st2) as (s3 & R3 & st3). destruct (check_remap_run s3 Hrest st3) as (s4 & R4 & st4).
  destruct (check_unmap_run s4 Hrest st4) as (s5 & R5 & st5). destruct (check_walk_run s5 st5) as (s6 & R6 & st6).
  assert (pages_wf s6 []) as W6 by (rewrite <- Hrest; apply st6).
  assert (∀ q, q ∈ fl0 → pages s6 !! q = pages s1 !! q) as Hsame.
  { intros q Hq. rewrite (kp_page _ _ _ (st_kept _ _ _ _ _ st6)), (kp_page _ _ _ K1); [done|by apply Hfl|].
    intros [->|?]%elem_of_cons; [set_solver|by apply (Hfl q)]. }
  pose proof (restore_wf s1 s6 fl0 W1 W6 Hsame) as W7.
  set (s7 := set_page_free_list (page_free_list s1) s6) in *.
  assert (∀ q, q ∈ [a; b; c] → pp_ref <$> pages s7 !! q = Some 0) as P7.
  { intros q (x & Hx)%list_elem_of_lookup. assert (q = pg x) as -> by (symmetry; by apply nth_lookup_Some).
    apply (st_ref _ _ _ _ _ st6). destruct x as [|[|[|x]]]; done. }
  destruct (free_three_run s7 fl0 a b c W7) as (s8 & _ & R8 & W8 & K8 & M8 & P8).
  { apply (pw_nodup _ _ (ck_pages ck)). }
  { intros q Hq. specialize (P7 q Hq). by destruct (pages s7 !! q). }
  assert (kept [a; b; c] s6 s8) as K68 by (etrans; [|exact K8]; by split).
  assert (∀ i, 0 <= i < 1024 → pde_of s8 pd i = pde_of s0 pd i) as Hdir.
  { intros i Hi. rewrite <- (st_dir _ _ _ _ _ st6 i Hi) by done. unfold pde_of. by rewrite M8. }
  assert (kept [pd; a; b; c] s0 s8) as K08 by (etrans; [apply st6|eapply kept_mono; [exact K68|set_solver]]).
  exists s8. split; [|split_and!; [done| |done|done| |]].
  - unfold check_page. step_with R1. rewrite run_gets, run_modify. fold s2. rewrite run_no_free by done.
    step_with R3. step_with R4. step_with R5. step_with R6. rewrite run_modify. fold s7.
    exact R8.
  - eapply pd_wf_update; [apply ck|apply K08| |].
    + intros i Hi _. unfold pt_of. by rewrite Hdir.
    + set_solver.
  - rewrite (kp_page _ _ _ K68) by set_solver. apply st6.
  - intros q Hq. specialize (P7 q Hq). destruct (pages s7 !! q) as [p|] eqn:E; [|done].
    rewrite (P8 q p Hq E). exact P7.
Qed.

(** *** With the directory installed *)

Context (Hcr3 : cr3 s0 !! this_cpu s0 = Some (pd * 4096)).

Lemma stage_mmu {s fl e r} (st : stage s fl (Some 0) e r) k x perm o w :
  e !! k = Some (Some (x, perm)) → 0 <= o < 4096 → (w = true → has PTE_W perm = true ∧ has PTE_W (pde_of s pd 0) = true) →
  mmu s (Z.of_nat k * 4096 + o) w = Some (pg x * 4096 + o).
Proof.
  intros Hk Ho Hw. destruct (st_entry _ _ _ _ _ st k _ Hk) as [Hk2 He]. destruct (st_in _ _ _ _ _ st k x perm Hk) as (Hx & _ & Hp).
  destruct (va_facts k Hk2) as (Hva & Hpdx & _ & Hpn). pose proof (stage_npages st) as (_ & Hn & Hpd). pose proof (pg_range x ltac:(lia)) as Hr.
  destruct (st_table _ _ _ _ _ st 0 eq_refl) as [_ Hpt]. pose proof (kp_frame _ _ _ (st_kept _ _ _ _ _ st)) as Hf.
  assert (PDX (Z.of_nat k * 4096 + o) = PDX (Z.of_nat k * 4096) ∧ PTX (Z.of_nat k * 4096 + o) = PTX (Z.of_nat k * 4096)) as [E1 E2].
  { apply page_slots; [lia..|]. rewrite !PGNUM_div. zlia. }
  unfold mmu. rewrite (vm_cr3 _ _ Hf), (vm_this_cpu _ _ Hf), Hcr3. cbn [mbind option_bind].
  rewrite PGNUM_div, Z.div_mul by lia. unfold pte_of, pte_loc. rewrite E1, E2. fold (pte_loc s pd (Z.of_nat k * 4096)).
  fold (pte_of s pd (Z.of_nat k * 4096)). rewrite He, Hpdx. simpl. rewrite entry_present, entry_PGNUM by lia.
  rewrite pt_of_inv in Hpt. destruct (has PTE_P (pde_of s pd 0)); [|done]. simpl.
  replace (PGOFF (Z.of_nat k * 4096 + o)) with o by (unfold PGOFF; change 0xFFF with (Z.ones 12); rewrite Z.land_ones by lia; change (2 ^ 12) with 4096; zlia).
  rewrite !has_lor. destruct w; simpl; [|done]. destruct (Hw eq_refl) as [-> ->]. by rewrite orb_true_r.
Qed.

(** Reading a word of a page that is filled with one byte. *)
Lemma read_filled {A} {s fl e r} (st : stage s fl (Some 0) e r) x perm v (f : Z → M A) :
  e !! 1%nat = Some (Some (x, perm)) → (∀ j, pg x * 4096 <= j < (pg x + 1) * 4096 → mget (mem s) j = v) →
  (vrd32 PGSIZE ≫= f) s = f (v + 256 * v + 65536 * (v + 256 * v)) s.
Proof.
  intros Hk Hv. assert (∀ o, 0 <= o < 4096 → vrd8 (PGSIZE + o) s = Done v s) as Hb.
  { intros o Ho. unfold vrd8. rewrite run_get. pose proof (stage_mmu st 1 x perm o false Hk Ho ltac:(done)) as Hm.
    change (Z.of_nat 1 * 4096) with PGSIZE in Hm. rewrite Hm, Hv by lia. done. }
  unfold vrd32, vrd16. change (u32 (PGSIZE + 1)) with (PGSIZE + 1). change (u32 (PGSIZE + 2)) with (PGSIZE + 2).
  change (u32 (PGSIZE + 2 + 1)) with (PGSIZE + 3). rewrite !run_assoc. step_with (Hb 0 ltac:(lia)). rewrite run_assoc.
  step_with (Hb 1 ltac:(lia)). rewrite run_ret, !run_assoc. step_with (Hb 2 ltac:(lia)). rewrite run_assoc.
  step_with (Hb 3 ltac:(lia)). by rewrite !run_ret.
Qed.

(** Writing a byte of a mapped page. *)
Lemma write_mapped {s fl e r} (st : stage s fl (Some 0) e r) x perm o v :
  e !! 1%nat = Some (Some (x, perm)) → 0 <= o < 4096 → has PTE_W perm = true → has PTE_W (pde_of s pd 0) = true →
  ∃ s', vwr8 (PGSIZE + o) v s = Done tt s' ∧ mem s' = <[pg x * 4096 + o := u8 v]> (mem s) ∧
    stage s' fl (Some 0) e r ∧ has PTE_W (pde_of s' pd 0) = true.
Proof.
  intros Hk Ho Hp Hd. destruct (st_in _ _ _ _ _ st 1%nat x perm Hk) as (Hx & Hxf & _). pose proof (pg_pd x ltac:(lia)) as Hxpd.
  set (s' := set_mem (<[pg x * 4096 + o := u8 v]> (mem s)) s).
  assert (∀ j, j ≠ pg x → page_same j (mem s) (mem s')) as Hmem.
  { intros j Hj y Hy. unfold s'. simpl. rewrite mget_insert, decide_False; [done|lia]. }
  exists s'. split_and!.
  - unfold vwr8. rewrite run_get. pose proof (stage_mmu st 1 x perm o true Hk Ho ltac:(done)) as Hm.
    change (Z.of_nat 1 * 4096) with PGSIZE in Hm. by rewrite Hm.
  - done.
  - eapply (stage_kept s _ fl fl _ e r _ x); [exact st| |lia|lia| |by right| |done].
    + split; [done| |by split]. intros j Hj. apply Hmem. set_solver.
    + by apply (pages_wf_ext s); try apply st.
    + intros y n Hy. case_decide; [|done]. subst y. apply (st_ref _ _ _ _ _ st x n Hy).
  - rewrite <- Hd. f_equal. unfold pde_of. apply page_same_slot; [|lia]. by apply Hmem.
Qed.

Lemma write_word {s fl e r} (st : stage s fl (Some 0) e r) x perm :
  e !! 1%nat = Some (Some (x, perm)) → has PTE_W perm = true → has PTE_W (pde_of s pd 0) = true →
  ∃ s', vwrite PGSIZE [3; 3; 3; 3] s = Done tt s' ∧ load32 (mem s') (pg x * 4096) = 0x03030303 ∧ stage s' fl (Some 0) e r.
Proof.
  intros Hk Hp Hd. destruct (write_mapped st x perm 0 3 Hk ltac:(lia) Hp Hd) as (s1 & R1 & M1 & st1 & D1).
  destruct (write_mapped st1 x perm 1 3 Hk ltac:(lia) Hp D1) as (s2 & R2 & M2 & st2 & D2).
  destruct (write_mapped st2 x perm 2 3 Hk ltac:(lia) Hp D2) as (s3 & R3 & M3 & st3 & D3).
  destruct (write_mapped st3 x perm 3 3 Hk ltac:(lia) Hp D3) as (s4 & R4 & M4 & st4 & D4).
  exists s4. split; [|split; [|done]].
  - change (vwrite PGSIZE [3; 3; 3; 3]) with (vwr8 PGSIZE 3 ;; vwr8 (PGSIZE + 1) 3 ;; vwr8 (PGSIZE + 2) 3 ;; vwr8 (PGSIZE + 3) 3 ;; mret tt).
    rewrite Z.add_0_r in R1. step_with R1. step_with R2. step_with R3. by step_with R4.
  - unfold load32. rewrite M4, M3, M2, M1, !mget_insert. rewrite Z.add_0_r. repeat (case_decide; try lia). done.
Qed.

Lemma check_page_installed_run :
  rest = fl0 →
  ∃ s', check_page_installed_pgdir s0 = Done tt s' ∧ pages_wf s' (a :: c :: b :: fl0) ∧ pd_wf s' (a :: c :: b :: fl0) pd ∧
    (∀ i, 0 <= i < 1024 → pde_of s' pd i = pde_of s0 pd i) ∧ kept [pd; a; b; c] s0 s' ∧
    pages s' !! pd = pages s0 !! pd ∧ (∀ q, q ∈ [a; b; c] → pp_ref <$> pages s' !! q = Some 0).
Proof.
  intros Hrest. destruct (three_pages_run s0 a b c fl0 (ck_pages ck)) as (s1 & R1 & W1 & K1 & P1).
  assert (stage s1 [] None [None; None] [0; 0; 0]) as st1 by (apply stage_start; [by rewrite Hrest|done..]).
  pose proof (pg_range 0 ltac:(lia)) as Ha. pose proof (pg_range 1 ltac:(lia)) as Hb. pose proof (pg_range 2 ltac:(lia)) as Hc.
  pose proof (proj1 three_nodup) as Hnd. pose proof (pg_pd 1 ltac:(lia)) as Hbpd. pose proof (pg_pd 2 ltac:(lia)) as Hcpd.
  change (pg 0) with a in *. change (pg 1) with b in *. change (pg 2) with c in *.
  assert (b ≠ a ∧ c ≠ a ∧ c ≠ b) as (Hba & Hca & Hcb) by (rewrite !NoDup_cons in Hnd; set_solver).
  destruct (give s1 _ None _ _ 0 0 st1 (not_elem_of_nil _) ltac:(lia) ltac:(done) eq_refl) as (s2 & R2 & st2).
  { intros k perm E%list_elem_of_lookup_2. set_solver. }
  pose proof (fill_run s2 _ _ _ _ 1 1 st2 ltac:(set_solver by lia) ltac:(lia) ltac:(done)) as st3. set (s3 := set_mem _ s2) in st3.
  pose proof (fill_run s3 _ _ _ _ 2 2 st3 ltac:(set_solver by lia) ltac:(lia) ltac:(done)) as st4. set (s4 := set_mem _ s3) in st4.
  assert (∀ j, b * 4096 <= j < (b + 1) * 4096 → mget (mem s4) j = 1) as Mb.
  { intros y Hy. unfold s4, s3. simpl. change (pg 2) with c. change (pg 1) with b. unfold PGSIZE.
    rewrite !mget_fill, decide_False, decide_True by lia. done. }
  assert (∀ j, c * 4096 <= j < (c + 1) * 4096 → mget (mem s4) j = 2) as Mc.
  { intros y Hy. unfold s4. simpl. change (pg 2) with c. unfold PGSIZE. rewrite mget_fill, decide_True by lia. done. }
  destruct (map_first s4 _ _ 1 1 PTE_W 0 st4 eq_refl ltac:(lia) eq_refl ltac:(by_compute) ltac:(lia)) as (s5 & R5 & st5 & L5 & _).
  destruct (map_over s5 _ _ 1 2 1 PTE_W _ 0 st5 eq_refl ltac:(done) ltac:(lia) eq_refl eq_refl) as (s6 & R6 & st6 & L6 & F6); [|by_compute|lia|].
  { intros [|[|k]] perm E; [done|done|]. apply lookup_lt_Some in E. simpl in E. lia. }
  destruct (write_word st6 2 PTE_W eq_refl ltac:(by_compute) (F6 PTE_W ltac:(by_compute))) as (s7 & R7 & V7 & st7).
  destruct (unmap s7 _ _ _ 1 2 _ 1 st7 eq_refl eq_refl ltac:(lia)) as (s8 & R8 & st8).
  { intros _ [|[|k]] perm E; [done|done|]. apply lookup_lt_Some in E. simpl in E. lia. }
  pose proof (stage_untable s8 _ _ 0 st8) as st9.
  destruct (set_ref_run _ _ _ _ 0 1 0 (λ _, page_free (Some a)) st9 ltac:(set_solver by lia) ltac:(lia) eq_refl ltac:(lia)) as (s10 & R10 & st10).
  destruct (give s10 _ None _ _ 0 0 st10 ltac:(set_solver by lia) ltac:(lia) ltac:(done) eq_refl) as (s11 & R11 & st11).
  { intros k perm E%list_elem_of_lookup_2. set_solver. }
  pose proof (stage_npages st2) as (N2 & Hn & _). pose proof (stage_npages st3) as (N3 & _). pose proof (stage_npages st7) as (N7 & _).
  exists s11. split; [|split_and!].
  - unfold check_page_installed_pgdir, kmemset. step_with R1. step_with R2.
    rewrite run_page2kva by lia.  rewrite run_modify, Z.add_simpl_r.
    change (set_mem (fill (mem s2) (b * 4096) 1 (Z.to_nat PGSIZE)) s2) with s3.
    rewrite run_page2kva by lia.  rewrite run_modify, Z.add_simpl_r.
    change (set_mem (fill (mem s3) (c * 4096) 2 (Z.to_nat PGSIZE)) s3) with s4.
    step_with R5. rewrite (test_ref_run st5 _ 1 _ eq_refl).
    rewrite (read_filled st5 1 _ 1 _ eq_refl), run_test by (done || (intros j Hj; rewrite (L5 b) by done; by apply Mb)).
    step_with R6. rewrite (read_filled st6 2 _ 2 _ eq_refl), run_test
      by (done || (intros j Hj; rewrite (L6 c), (L5 c) by done; by apply Mc)).
    rewrite (test_ref_run st6 _ 2 _ eq_refl), (test_ref_run st6 _ 1 _ eq_refl). step_with R7.
    rewrite run_page2kva by lia. replace (c * 4096 + KERNBASE) with (slot_kva c 0) by (unfold slot_kva; lia).
    rewrite rd_slot by lia. rewrite Z.mul_0_r, Z.add_0_r. change (load32 (mem s7) (c * 4096) = 0x03030303) in V7. rewrite V7, run_test by done.
    step_with R8. rewrite (test_ref_run st8 _ 2 _ eq_refl), (kern_pde_run st8) by lia. rewrite (table_addr st8) by done.
    rewrite run_test by (rewrite page2pa_mul by lia; apply Z.eqb_refl).
    rewrite (set_kern_pde_run st8) by lia. rewrite (test_ref_run st9 _ 0 _ eq_refl). etrans; [exact R10|exact R11].
  - rewrite <- Hrest. apply st11.
  - rewrite <- Hrest. apply st11.
  - intros i Hi. by apply (st_dir _ _ _ _ _ st11).
  - apply st11.
  - apply st11.
  - intros q (x & Hx)%list_elem_of_lookup. assert (q = pg x) as -> by (symmetry; by apply nth_lookup_Some).
    apply (st_ref _ _ _ _ _ st11). destruct x as [|[|[|x]]]; done.
Qed.
End page_tables.
