(* ===== verification/BootMemory.v ===== *)
(** * Booting the memory system: [mem_init] of kern/pmap.c

    [mem_init] is put together from the parts that PageAlloc.v, MemInit.v and
    Selfcheck.v model, and proved to return: every assertion of its self-checks
    holds.  The end of the kernel image, the stacks and the value of [%cr0] are
    parameters.

    Until [kern_pgdir] is loaded the processor translates with the page directory
    of kern/entrypgdir.c, which maps the first 4 MB only; the model's kernel
    accesses do not have that limit.  [check_page_free_list] moves the pages below
    4 MB to the front of the free list before any page is allocated, and [fits]
    leaves enough of them, so that the pages used up to that point are mapped. *)

From S2P Require Import Prelude Devices Machine PageAlloc Pmap Env MemInit Selfcheck SelfcheckTables.
From stdpp Require Import base numbers list gmap fin_maps strings.

Local Open Scope Z_scope.

(** ** The kernel's directory passes its check *)

Section check_kern.
Implicit Types (s : kstate) (fl : list Z) (pd va : Z).

Lemma mapped_entry s pd va pa perm :
  pte_of s pd va = Z.lor (Z.lor pa perm) PTE_P → 0 <= perm < 4096 → pa mod 4096 = 0 →
  mapped s pd va = Some (pa / 4096).
Proof.
  intros E Hp Hpa. unfold mapped. rewrite E, has_lor. change (has PTE_P PTE_P) with true. rewrite orb_true_r.
  by rewrite !PGNUM_lor, PGNUM_div by (unfold PTE_P; lia).
Qed.

(** What [check_va2pa] answers. *)
Definition answer s pd va : Z := match mapped s pd va with Some q => q * 4096 | None => NOT_MAPPED end.

Lemma answer_entry s pd va pa perm :
  pte_of s pd va = Z.lor (Z.lor pa perm) PTE_P → 0 <= perm < 4096 → pa mod 4096 = 0 → answer s pd va = pa.
Proof. intros E Hp Hpa. unfold answer. rewrite (mapped_entry s pd va pa perm) by done. Z.div_mod_to_equations. lia. Qed.

Lemma answer_none s pd va : pte_of s pd va = 0 → answer s pd va = NOT_MAPPED.
Proof. intros E. unfold answer, mapped. by rewrite E. Qed.

Lemma check_range_run s fl pd start n va expect :
  pages_wf s fl → pd_wf s fl pd → start mod 4096 = 0 → 0 <= start → n <= 4294963200 →
  (∀ i, start <= i < n → i mod 4096 = 0 → PDX (u32 (va + i)) ≠ self_index ∧ expect i s = Done (answer s pd (u32 (va + i))) s) →
  check_range (pgdir_kva pd) start n va expect s = Done tt s.
Proof.
  intros Hw Hd Hal H0 Hn Hb. unfold check_range.
  assert (∀ fuel i, start <= i → i mod 4096 = 0 → n - i <= 4096 * Z.of_nat fuel → loop (S fuel) NoFuel (λ i,
    if i <? n then
      r ← check_va2pa (pgdir_kva pd) (u32 (va + i));
      e ← expect i;
      test (r =? e) "check_va2pa(pgdir, va + i) == expected" ;;
      mret (inl (u32 (i + PGSIZE)))
    else mret (inr tt)) i s = Done tt s) as Hloop.
  { induction fuel as [|fuel IH]; intros i Hi Hia Hf; rewrite loop_S; destruct (Z.ltb_spec i n); try done; [lia|].
    destruct (Hb i ltac:(lia) Hia) as [Hs He]. rewrite run_assoc.
    step_with (check_va2pa_agrees s fl pd (u32 (va + i)) Hw Hd Hs). rewrite run_assoc. step_with He.
    fold (answer s pd (u32 (va + i))). rewrite run_assoc, run_test, run_ret by apply Z.eqb_refl.
    rewrite u32_id by (unfold PGSIZE; lia). apply IH; unfold PGSIZE; [lia|Z.div_mod_to_equations; lia|lia]. }
  apply Hloop; [lia|done|]. unfold PGSIZE. destruct (decide (start <= n)); [rewrite Nat2Z.inj_succ, Z2Nat.id|]; Z.div_mod_to_equations; lia.
Qed.

Lemma for_each_same l (body : Z → M unit) s : (∀ i, i ∈ l → body i s = Done tt s) → for_each l body s = Done tt s.
Proof.
  intros H. induction l as [|i l IH]; [done|]. cbn [for_each]. step_with (H i ltac:(by left)). apply IH.
  intros j Hj. apply H. by right.
Qed.

(** The directory as [mem_init] leaves it. *)
Record kernel_dir s pd : Prop := {
  kd_self : has PTE_P (pde_of s pd self_index) = true;
  kd_empty : ∀ i, 0 <= i < 1024 → i ∉ kernel_tables → i ≠ self_index → pde_of s pd i = 0;
  kd_writable : writable_tables s pd;
}.

Lemma pte_table s pd va : pte_of s pd va ≠ 0 → has PTE_P (pde_of s pd (PDX va)) = true ∧ pt_of s pd (PDX va) ≠ None.
Proof.
  intros H. destruct (pt_of s pd (PDX va)) as [t|] eqn:E; [|by rewrite pte_of_none in H].
  split; [|done]. rewrite pt_of_inv in E. by destruct (has PTE_P (pde_of s pd (PDX va))).
Qed.

Lemma entry_nonzero pa perm : Z.lor (Z.lor pa perm) PTE_P ≠ 0.
Proof. intros E. apply (f_equal (has PTE_P)) in E. rewrite has_lor in E. change (has PTE_P PTE_P) with true in E. by rewrite orb_true_r in E. Qed.

Lemma not_kernel_table i : i ∈ kernel_tables → i = 955 ∨ i = 956 ∨ i = 958 ∨ 960 <= i < 1024.
Proof.
  change kernel_tables with ([955; 956; 958] ++ seqZ 960 64). rewrite elem_of_app, elem_of_seqZ, !elem_of_cons. intros [[|[|[|H]]]|]; try lia. by apply elem_of_nil in H.
Qed.

Lemma check_pde_run percpu s0 s fl pd i :
  pages_wf s fl → pd_wf s fl pd → 0 < npages s0 → kernel_layout percpu s0 s pd → kernel_dir s pd → 0 <= i < 1024 →
  check_pde (pgdir_kva pd) i s = Done tt s.
Proof.
  intros Hw Hd Hn HL [K1 K2 K3] Hi. pose proof (pw_npages _ _ Hw) as Hnp. destruct (pd_dir _ _ _ Hd) as [Hpd _].
  unfold check_pde. replace (pgdir_kva pd + 4 * i) with (slot_kva pd i) by (unfold pgdir_kva, slot_kva; lia).
  rewrite rd_slot by lia. fold (pde_of s pd i).
  change (PDX UVPT) with 957. change (PDX (KSTACKTOP - 1)) with 958. change (PDX UPAGES) with 956. change (PDX UENVS) with 955. change (PDX KERNBASE) with 960.
  assert (∀ va, pte_of s pd va ≠ 0 → PDX va = i → has PTE_P (pde_of s pd i) = true ∧ pt_of s pd i ≠ None) as Ht
    by (intros va Hv <-; by apply pte_table).
  destruct (Z.eqb_spec i 957) as [->|N1]; simpl.
  { change 957 with self_index. by rewrite K1. }
  destruct (Z.eqb_spec i 958) as [->|N2]; simpl.
  { destruct (Ht (KSTACKTOP - 65536 * 0 - KSTKSIZE + 0)) as [-> _]; [|done|done].
    rewrite (proj1 (kl_stack _ _ _ _ HL 0 0 ltac:(by_compute) ltac:(by_compute) eq_refl)). apply entry_nonzero. }
  destruct (Z.eqb_spec i 956) as [->|N3]; simpl.
  { destruct (Ht (UPAGES + 0)) as [-> _]; [|done|done]. rewrite (kl_pages _ _ _ _ HL 0) by (done || lia). apply entry_nonzero. }
  destruct (Z.eqb_spec i 955) as [->|N4]; simpl.
  { destruct (Ht (UENVS + 0)) as [-> _]; [|done|done]. rewrite (kl_envs _ _ _ _ HL 0) by by_compute. apply entry_nonzero. }
  destruct (Z.leb_spec 960 i).
  - assert (PDX (i * 4194304) = i) as Ei by (rewrite PDX_div; Z.div_mod_to_equations; lia).
    destruct (Ht (i * 4194304)) as [E1 E2]; [|done|].
    { destruct (decide (i * 4194304 < IOMEMBASE)).
      - rewrite (kl_kernel _ _ _ _ HL); [apply entry_nonzero|Z.div_mod_to_equations; lia|layout_numbers; lia].
      - rewrite (kl_devices _ _ _ _ HL); [apply entry_nonzero|Z.div_mod_to_equations; lia|layout_numbers; lia]. }
    rewrite E1. rewrite run_test by done. unfold test. rewrite (K3 i); [done|done| |done]. change self_index with 957. lia.
  - rewrite K2; [done|done| |change self_index with 957; lia]. intros ?%not_kernel_table. lia.
Qed.

Lemma ROUNDUP_below n i : 0 <= n < 4294963200 → i mod 4096 = 0 → i < ROUNDUP n PGSIZE → i < n.
Proof. intros Hn Hi H. destruct (ROUNDUP_bounds n) as [? ?]; [lia|]. Z.div_mod_to_equations. lia. Qed.

Lemma check_kern_pgdir_run bootstack percpu s0 s fl0 fl pd :
  layout_ready bootstack percpu s0 fl0 pd → pages_wf s fl → pd_wf s fl pd → vm_frame s0 s → npages s0 <= 57344 →
  kernel_layout percpu s0 s pd → kernel_dir s pd → check_kern_pgdir percpu s = Done tt s.
Proof.
  intros [_ _ Hk _ Hn ((A1 & A2) & (B1 & B2) & _ & (D1 & D2))] Hw Hd Hf Hnp HL HK.
  pose proof (vm_kern_pgdir _ _ Hf) as Fk. rewrite Hk in Fk.
  pose proof (vm_npages _ _ Hf) as Fn. pose proof (vm_pages_kva _ _ Hf) as Fp. pose proof (vm_envs_kva _ _ Hf) as Fe.
  assert (∀ va, 0 <= va < 4294967296 → ¬ (4013948928 <= va < 4018143232) → PDX va ≠ self_index) as Hself.
  { intros va Hva Hne. change self_index with 957. rewrite PDX_div. Z.div_mod_to_equations. lia. }
  unfold check_kern_pgdir. rewrite run_gets, Fk, run_gets, Fn. change SIZEOF_PAGE with 12. rewrite (u32_id (npages s0 * 12)) by lia.
  erewrite bind_Done. 2: { apply (check_range_run s fl pd); [done|done|done|lia|..].
    - destruct (ROUNDUP_bounds (npages s0 * 12)); lia.
    - intros i Hi Hia. pose proof (ROUNDUP_below (npages s0 * 12) i ltac:(lia) Hia (proj2 Hi)). rewrite (u32_id (UPAGES + i)) by (layout_numbers; lia).
      split; [apply Hself; layout_numbers; lia|]. rewrite run_gets, Fp, run_PADDR by lia.
      rewrite (answer_entry _ _ _ _ _ (kl_pages _ _ _ _ HL i Hia ltac:(lia))); [|by_compute|layout_numbers; Z.div_mod_to_equations; lia].
      rewrite u32_id by (layout_numbers; lia). done. }
  erewrite bind_Done. 2: { apply (check_range_run s fl pd); [done|done|done|lia|by_compute|].
    intros i Hi Hia. change (ROUNDUP (NENV * SIZEOF_ENV) PGSIZE) with 126976 in Hi. rewrite (u32_id (UENVS + i)) by (layout_numbers; lia).
    split; [apply Hself; layout_numbers; lia|]. rewrite run_gets, Fe, run_PADDR by lia.
    rewrite (answer_entry _ _ _ _ _ (kl_envs _ _ _ _ HL i Hia ltac:(change (NENV * SIZEOF_ENV) with 126976; lia))); [|by_compute|layout_numbers; Z.div_mod_to_equations; lia].
    rewrite u32_id by (layout_numbers; lia). done. }
  rewrite run_gets, Fn. rewrite (u32_id (npages s0 * PGSIZE)) by (unfold PGSIZE; lia).
  erewrite bind_Done. 2: { apply (check_range_run s fl pd); [done|done|done|lia|unfold PGSIZE; lia|].
    intros i Hi Hia. change PGSIZE with 4096 in Hi. rewrite (u32_id (KERNBASE + i)) by (layout_numbers; lia). split; [apply Hself; layout_numbers; lia|].
    erewrite (answer_entry s pd (KERNBASE + i) i PTE_W); [done| |by_compute|done].
    rewrite (kl_kernel _ _ _ _ HL); [do 2 f_equal; lia|layout_numbers; Z.div_mod_to_equations; lia|layout_numbers; lia]. }
  erewrite bind_Done. 2: { apply (check_range_run s fl pd); [done|done|done|by_compute|by_compute|].
    intros i Hi Hia. change (u32 (- PGSIZE)) with 4294963200 in Hi. rewrite Z.add_0_l, (u32_id i) by (layout_numbers; lia).
    split; [apply Hself; layout_numbers; lia|]. erewrite (answer_entry s pd i i PTE_W); [done| |by_compute|done].
    apply (kl_devices _ _ _ _ HL); [done|layout_numbers; lia]. }
  erewrite bind_Done. 2: { apply for_each_same. intros n Hn'%elem_of_seqZ. unfold NCPU in Hn'. cbv zeta. erewrite bind_Done.
    - apply (check_range_run s fl pd); [done|done|done|lia|by_compute|].
      intros i Hi Hia. rewrite u32_id by (layout_numbers; lia). split; [apply Hself; layout_numbers; lia|].
      rewrite (answer_none s pd); [done|].
      destruct (kl_stack _ _ _ _ HL n i) as [_ E]; [unfold NCPU; lia|layout_numbers; lia|done|].
      rewrite <- E. f_equal; layout_numbers; lia.
    - apply (check_range_run s fl pd); [done|done|done|lia|by_compute|].
      intros i Hi Hia. rewrite u32_id by (layout_numbers; lia). split; [apply Hself; layout_numbers; lia|].
      rewrite run_PADDR by (layout_numbers; lia). rewrite (answer_entry s pd _ (percpu + KSTKSIZE * n - KERNBASE + i) PTE_W); [|..].
      + rewrite ret_eq. f_equal. rewrite u32_id by (layout_numbers; lia). reflexivity.
      + destruct (kl_stack _ _ _ _ HL n i) as [E _]; [unfold NCPU; lia|done|done|]. rewrite <- E. f_equal. layout_numbers; lia.
      + by_compute.
      + layout_numbers. Z.div_mod_to_equations. lia. }
  apply for_each_same. intros i Hi%elem_of_seqZ. unfold NPDENTRIES in Hi.
  apply (check_pde_run percpu s0 s fl pd); (done || lia).
Qed.
End check_kern.

(** ** [mem_init] *)

Definition CR0_PE : Z := 0x00000001.
Definition CR0_MP : Z := 0x00000002.
Definition CR0_EM : Z := 0x00000004.
Definition CR0_TS : Z := 0x00000008.
Definition CR0_NE : Z := 0x00000020.
Definition CR0_WP : Z := 0x00010000.
Definition CR0_AM : Z := 0x00040000.
Definition CR0_PG : Z := 0x80000000.

(** The value that [mem_init] loads into [%cr0]. *)
Definition kernel_cr0 (cr0 : Z) : Z :=
  let cr0 := Z.lor cr0 (Z.lor CR0_PE (Z.lor CR0_PG (Z.lor CR0_AM (Z.lor CR0_WP (Z.lor CR0_NE CR0_MP))))) in
  Z.land cr0 (Z.lnot (Z.lor CR0_TS CR0_EM)).

(** The part of [mem_init] before the page allocator exists. *)
Definition boot_structures (kend : Z) : M unit :=
  r ← boot_alloc kend PGSIZE;
  modify (set_kern_pgdir r) ;;
  pd ← gets kern_pgdir;
  kmemset pd 0 PGSIZE ;;
  pd ← gets kern_pgdir;
  pa ← PADDR pd;
  wr32 (pd + 4 * PDX UVPT) (Z.lor (Z.lor pa PTE_U) PTE_P) ;;
  n ← gets npages;
  r ← boot_alloc kend (u32 (SIZEOF_PAGE * n));
  modify (set_pages_kva r) ;;
  r ← boot_alloc kend (SIZEOF_ENV * NENV);
  modify (set_envs_kva r).

(** [cr0] is the value that [rcr0] reads, the result the one given to [lcr0]. *)
Definition mem_init (kend bootstack percpu_kstacks cr0 : Z) : M Z :=
  i386_detect_memory ;;
  boot_structures kend ;;
  page_init kend ;;
  check_page_free_list kend true ;;
  check_page_alloc ;;
  check_page ;;
  mem_init_maps bootstack percpu_kstacks ;;
  check_kern_pgdir percpu_kstacks ;;
  pd ← gets kern_pgdir;
  pa ← PADDR pd;
  lcr3 pa ;;
  check_page_free_list kend false ;;
  check_page_installed_pgdir ;;
  mret (kernel_cr0 cr0).

(** *** The budget of free pages stays a natural number *)

Definition budget (s s' : kstate) : Prop := 0 <= nAvailPages s → 0 <= nAvailPages s'.

#[export] Instance budget_preorder : PreOrder budget.
Proof. split; [intros s H; exact H|]. intros s1 s2 s3 H1 H2 H. exact (H2 (H1 H)). Qed.

Section budget.
Lemma budget_modify f : (∀ s, nAvailPages (f s) = nAvailPages s) → within budget (modify f : M unit).
Proof. intros H. apply within_modify. intros s. unfold budget. by rewrite H. Qed.
Lemma budget_u32 (f : kstate → Z) : within budget (modify (λ s, set_nAvailPages (u32 (f s)) s) : M unit).
Proof. apply within_modify. intros s _. simpl. apply u32_range. Qed.
#[local] Hint Resolve budget_u32 : known.

Ltac budget := intros; within_tac; try (by apply budget_modify).

Lemma budget_get_page pp : within budget (get_page pp). Proof. unfold get_page. budget. Qed.
#[local] Hint Resolve budget_get_page : known.
Lemma budget_upd_page f pp : within budget (upd_page f pp). Proof. unfold upd_page. budget. Qed.
Lemma budget_panic {A} x : within budget (panic x : M A). Proof. unfold panic. budget. Qed.
#[local] Hint Resolve budget_upd_page budget_panic : known.
Lemma budget_KADDR pa : within budget (KADDR pa). Proof. unfold _kaddr. budget. Qed.
Lemma budget_PADDR pa : within budget (PADDR pa). Proof. unfold _paddr. budget. Qed.
Lemma budget_pa2page pa : within budget (pa2page pa). Proof. unfold pa2page. budget. Qed.
#[local] Hint Resolve budget_KADDR budget_PADDR budget_pa2page : known.
Lemma budget_page2kva pp : within budget (page2kva pp). Proof. apply budget_KADDR. Qed.
Lemma budget_kmemset a v n : within budget (kmemset a v n). Proof. unfold kmemset. budget. Qed.
Lemma budget_rd32 a : within budget (rd32 a). Proof. unfold rd32. budget. Qed.
Lemma budget_wr32 a v : within budget (wr32 a v). Proof. unfold wr32. budget. Qed.
#[local] Hint Resolve budget_page2kva budget_kmemset budget_rd32 budget_wr32 : known.
Lemma budget_page_alloc f : within budget (page_alloc f). Proof. unfold page_alloc. budget. Qed.
Lemma budget_page_free pp : within budget (page_free pp). Proof. unfold page_free. budget. Qed.
#[local] Hint Resolve budget_page_alloc budget_page_free : known.
Lemma budget_pgdir_walk pd va c : within budget (pgdir_walk pd va c). Proof. unfold pgdir_walk. budget. Qed.
#[local] Hint Resolve budget_pgdir_walk : known.
Lemma budget_page_lookup pd va : within budget (page_lookup pd va). Proof. unfold page_lookup. budget. Qed.
Lemma budget_page_decref pp : within budget (page_decref pp). Proof. unfold page_decref. budget. Qed.
Lemma budget_curenv : within budget curenv. Proof. unfold curenv, get_cpu. budget. Qed.
Lemma budget_get_env e : within budget (get_env e). Proof. unfold get_env. budget. Qed.
#[local] Hint Resolve budget_page_lookup budget_page_decref budget_curenv budget_get_env : known.
Lemma budget_tlb pd va : within budget (tlb_invalidate pd va). Proof. unfold tlb_invalidate. budget. Qed.
#[local] Hint Resolve budget_tlb : known.
Lemma budget_page_remove pd va : within budget (page_remove pd va). Proof. unfold page_remove. budget. Qed.
#[local] Hint Resolve budget_page_remove : known.
Lemma budget_page_insert pd pp va perm : within budget (page_insert pd pp va perm). Proof. unfold page_insert. budget. Qed.
Lemma budget_check_va2pa pd va : within budget (check_va2pa pd va). Proof. unfold check_va2pa. budget. Qed.
Lemma budget_map_one pd va pa perm : within budget (map_one pd va pa perm). Proof. unfold map_one. budget. Qed.
#[local] Hint Resolve budget_page_insert budget_check_va2pa budget_map_one : known.
Lemma budget_boot_map_region pd va n pa perm : within budget (boot_map_region pd va n pa perm).
Proof. unfold boot_map_region. budget. Qed.
#[local] Hint Resolve budget_boot_map_region : known.
Lemma budget_mem_init_maps b p : within budget (mem_init_maps b p).
Proof. unfold mem_init_maps, mem_init_mp. budget. Qed.
Lemma budget_test b x : within budget (test b x). Proof. unfold test, assert. budget. Qed.
#[local] Hint Resolve budget_test : known.
Lemma budget_need m x : within budget m → within budget (need m x). Proof. unfold need. budget. Qed.
#[local] Hint Resolve budget_need : known.
Lemma budget_alloc_three : within budget alloc_three. Proof. unfold alloc_three, three_pages. budget. Qed.
Lemma budget_no_free : within budget no_free_memory. Proof. unfold no_free_memory. budget. Qed.
#[local] Hint Resolve budget_alloc_three budget_no_free : known.
Lemma budget_check_page_alloc : within budget check_page_alloc.
Proof. unfold check_page_alloc, count_free. budget. Qed.
Lemma budget_check_page : within budget check_page.
Proof.
  unfold check_page, check_map, check_remap, check_unmap, check_walk, must_not_insert, must_insert, map_page, unmap_page,
    kern_pde, set_kern_pde, test_va2pa, test_ref, ref_of, walk_entry, deref. budget.
Qed.
End budget.

(** *** The first part of the boot *)

Section boot.
Variables (kend bootstack percpu : Z).
Implicit Types (s : kstate) (fl : list Z) (n : Z).

(** The first page after the kernel's image, the pages of the array [pages], and
    the first page that is free. *)
Definition image_end : Z := (kend - KERNBASE + 4095) / 4096.
Definition boot_end n : Z := image_end + 32 + pages_for (12 * n).

(** The kernel is linked above the I/O hole; it and what the boot allocates lie
    within the 4 MB that the first page table maps, and memory is larger than
    that. *)
Record fits n : Prop := {
  ft_kend : KERNBASE + 1048576 <= kend <= KERNBASE + 4194304;
  ft_npages : 0 < n <= 57344;
  ft_room : boot_end n < n;
  ft_mapped : boot_end n <= 1024;
  ft_stacks : kernel_data bootstack ∧ kernel_data percpu;
}.

(** Fields that setting up memory does not touch: the lock, the number of
    processors and the position of the cursor. *)
Definition boot_rest s := (kernel_lock s, ncpu s, crt_pos (dev s)).

(** Pages that are never free and that nothing is allocated in: the first page,
    with the BIOS data area, the page for the entry code of other processors, the
    hole from 640 KB to 1 MB with the firmware, and the image of the kernel. *)
Definition reserved (j : Z) : Prop := j = 0 ∨ j = 7 ∨ 160 <= j < image_end.

(** The processors, the environments and the rest are as they were. *)
Record same_system s s' : Prop := {
  ss_cpus : cpus s' = cpus s;
  ss_this_cpu : this_cpu s' = this_cpu s;
  ss_envs : envs s' = envs s;
  ss_cr3 : cr3 s' = cr3 s;
  ss_rest : boot_rest s' = boot_rest s;
}.

#[global] Instance same_system_preorder : PreOrder same_system.
Proof. split; [by split|]. intros s1 s2 s3 [] []. split; congruence. Qed.

Lemma vm_boot_rest s s' : vm_frame s s' → boot_rest s' = boot_rest s.
Proof. intros []. unfold boot_rest. congruence. Qed.
Lemma vm_same_system s s' : vm_frame s s' → same_system s s'.
Proof. intros Hf. split; try apply Hf. by apply vm_boot_rest. Qed.

Lemma image_end_range n : fits n → 256 <= image_end <= 1024 ∧ ROUNDUP kend PGSIZE = pgdir_kva image_end.
Proof.
  intros [H _ _ _ _]. unfold image_end, pgdir_kva. destruct (ROUNDUP_bounds kend) as [? ?]; [unfold KERNBASE in *; lia|].
  unfold KERNBASE in *. split; Z.div_mod_to_equations; lia.
Qed.

Lemma pages_for_range n : 0 <= n <= 65536 → 0 <= pages_for (12 * n) <= 192.
Proof. intros Hn. pose proof (pages_for_bound (12 * n) ltac:(lia)). lia. Qed.

Lemma boot_alloc_first n s :
  nextfree s = 0 → 0 <= n → boot_ready (set_nextfree (ROUNDUP kend PGSIZE) (set_nAvailPages (npages s) s)) →
  pages_for n <= npages s →
  boot_alloc kend n s = Done (ROUNDUP kend PGSIZE) (set_nextfree (ROUNDUP kend PGSIZE + pages_for n * 4096)
    (set_nAvailPages (npages s - pages_for n) s)).
Proof.
  intros H0 Hn Hr Hp. set (s1 := set_nextfree (ROUNDUP kend PGSIZE) (set_nAvailPages (npages s) s)) in *.
  assert (boot_alloc kend n s = boot_alloc kend n s1) as ->.
  { unfold boot_alloc. rewrite !run_gets, H0. change (nextfree s1) with (ROUNDUP kend PGSIZE).
    destruct Hr as [Hk _]. change (nextfree s1) with (ROUNDUP kend PGSIZE) in Hk.
    destruct (Z.eqb_spec (ROUNDUP kend PGSIZE) 0); [unfold KERNBASE in *; lia|]. done. }
  rewrite boot_alloc_run by done. simpl. destruct (Z.ltb_spec (npages s) (pages_for n)); [lia|done].
Qed.

Definition self_entry : Z := Z.lor (Z.lor (image_end * 4096) PTE_U) PTE_P.

Lemma boot_structures_run n s :
  fits n → nextfree s = 0 → npages s = n →
  ∃ s', boot_structures kend s = Done tt s' ∧ npages s' = n ∧ pages s' = pages s ∧ same_system s s' ∧
    kern_pgdir s' = pgdir_kva image_end ∧ pages_kva s' = KERNBASE + (image_end + 1) * 4096 ∧
    envs_kva s' = KERNBASE + (image_end + 1 + pages_for (12 * n)) * 4096 ∧
    nextfree s' = KERNBASE + boot_end n * 4096 ∧ nAvailPages s' = n - 32 - pages_for (12 * n) ∧
    (∀ i, 0 <= i < 1024 → pde_of s' image_end i = if decide (i = self_index) then self_entry else 0) ∧
    (∀ j, j ≠ image_end → page_same j (mem s) (mem s')).
Proof.
  intros Hf H0 Hn. destruct (image_end_range n Hf) as [Hie Hru]. destruct Hf as [Hk Hn0 Hr _ _]. unfold boot_end in *.
  pose proof (pages_for_range n ltac:(lia)) as Hpf.
  assert (∀ s a k, 0 <= k → 0 <= a → a + k <= 60000 → nextfree s = pgdir_kva a → nAvailPages s = k → boot_ready s) as Hready.
  { intros t a k Hk0 Ha Hak E1 E2. unfold boot_ready. rewrite E1, E2. unfold pgdir_kva, KERNBASE. split_and!; Z.div_mod_to_equations; lia. }
  unfold boot_structures. erewrite bind_Done.
  2: { apply boot_alloc_first; [done|by_compute|eapply (Hready _ image_end (npages s)); (done || lia)|]. change (pages_for PGSIZE) with 1. lia. }
  rewrite run_modify, run_gets. unfold kmemset. rewrite run_modify, run_gets. simpl kern_pgdir. rewrite Hru.
  rewrite run_PADDR by (unfold pgdir_kva; lia). change (pages_for PGSIZE) with 1.
  replace (pgdir_kva image_end + 4 * PDX UVPT) with (slot_kva image_end self_index) by (unfold pgdir_kva, slot_kva, self_index; lia).
  rewrite wr_slot by (lia || by_compute). rewrite run_gets. simpl npages. rewrite Hn.
  change (SIZEOF_PAGE * n) with (12 * n). rewrite u32_id by lia.
  erewrite bind_Done.
  2: { rewrite boot_alloc_run; [|eapply (Hready _ (image_end + 1) (n - 1)); simpl; unfold pgdir_kva; lia|lia]. simpl nAvailPages.
    destruct (Z.ltb_spec (n - 1) (pages_for (12 * n))); [lia|]. reflexivity. }
  rewrite run_modify. change (SIZEOF_ENV * NENV) with 126976.
  erewrite bind_Done.
  2: { rewrite boot_alloc_run; [|eapply (Hready _ (image_end + 1 + pages_for (12 * n)) (n - 1 - pages_for (12 * n))); simpl; unfold pgdir_kva; lia|lia].
    simpl nAvailPages. change (pages_for 126976) with 31. destruct (Z.ltb_spec (n - 1 - pages_for (12 * n)) 31); [lia|]. reflexivity. }
  eexists. split; [reflexivity|]. simpl. split_and!; try done; try (unfold pgdir_kva; lia).
  2: { intros j Hj. etrans; [|apply store_page_same; [by_compute|done]].
    replace (pgdir_kva image_end - KERNBASE) with (image_end * 4096) by (unfold pgdir_kva; lia). by apply fill_page_same. }
  intros i Hi. unfold pde_of. simpl. case_decide as E.
  - subst i. rewrite load32_store32_eq, u32_id; unfold self_entry, pgdir_kva; [do 2 f_equal; lia|].
    unfold PTE_P, PTE_U. repeat apply lor_u32; lia.
  - rewrite store_slot_ne by (done || by_compute). replace (pgdir_kva image_end - KERNBASE) with (image_end * 4096) by (unfold pgdir_kva; lia).
    apply load32_fill_zero; unfold PGSIZE; lia.
Qed.

(** What [i386_detect_memory] makes of the four bytes that the clock answers. *)
Definition kilobytes (lo hi : Z) : Z := Z.lor (u8 lo) (Z.shiftl (u8 hi) 8).
Definition detected (bl bh el eh : Z) : Z :=
  if kilobytes el eh * 1024 / PGSIZE =? 0 then kilobytes bl bh * 1024 / PGSIZE
  else EXTPHYSMEM / PGSIZE + kilobytes el eh * 1024 / PGSIZE.

Lemma nvram_read_run r lo hi l s :
  inb_stream (dev s) = lo :: hi :: l →
  ∃ d, inb_stream d = l ∧ crt_pos d = crt_pos (dev s) ∧ nvram_read r s = Done (kilobytes lo hi) (set_dev d s).
Proof.
  intros E. unfold nvram_read, dev_op, mc146818_read, inb, outb. eexists. split; [|split; [|
    unfold mbind, comp_bind; simpl; rewrite E; simpl; reflexivity]]; done.
Qed.

Lemma detect_run s bl bh el eh l :
  inb_stream (dev s) = bl :: bh :: el :: eh :: l →
  ∃ s', i386_detect_memory s = Done tt s' ∧ npages s' = detected bl bh el eh ∧ pages s' = pages s ∧
    nextfree s' = nextfree s ∧ mem s' = mem s ∧ same_system s s'.
Proof.
  intros E. unfold i386_detect_memory, detected.
  destruct (nvram_read_run NVRAM_BASELO bl bh (el :: eh :: l) s E) as (d & Ed & Ec & R). step_with R. rewrite run_modify.
  destruct (nvram_read_run NVRAM_EXTLO el eh l (set_npages_basemem (kilobytes bl bh * 1024 / PGSIZE) (set_dev d s)) Ed) as (d' & _ & Ec' & R'). step_with R'.
  destruct (Z.eqb_spec (kilobytes el eh * 1024 / PGSIZE) 0) as [E0|E0]; simpl; eexists; (split; [reflexivity|]); do 4 (split; [done|]);
    (split; try done; unfold boot_rest; simpl in *; by rewrite Ec', Ec).
Qed.

Definition boot_state (s : kstate) := (kern_pgdir s, pages_kva s, envs_kva s, cpus s, this_cpu s, envs s, cr3 s, boot_rest s).

Lemma boot_alloc_keeps n : keeps boot_state (boot_alloc kend n).
Proof. unfold boot_alloc. within_tac; try by apply within_modify. unfold panic. within_tac. Qed.

Lemma page_init_keeps : keeps boot_state (page_init kend).
Proof.
  assert (∀ f pp, keeps boot_state (upd_page f pp)) as Hu.
  { intros f pp. unfold upd_page, get_page. within_tac. by apply within_modify. }
  unfold page_init, _paddr, panic. within_tac; try by apply within_modify; try apply Hu. apply boot_alloc_keeps.
Qed.

(** *** Steps that leave the directory alone *)

Lemma pd_wf_kept T s s' fl fl' pd :
  pd_wf s fl pd → kept T s s' → (∀ i, 0 <= i < 1024 → pde_of s' pd i = pde_of s pd i) → (∀ q, q ∈ fl' → q ∈ fl) → pd_wf s' fl' pd.
Proof.
  intros Hd Hk Hm Hsub. eapply pd_wf_update; [done|apply Hk| |done]. intros i Hi _. unfold pt_of. by rewrite Hm.
Qed.

Lemma pde_kept T s s' pd : kept T s s' → pd ∉ T → ∀ i, 0 <= i < 1024 → pde_of s' pd i = pde_of s pd i.
Proof. intros Hk Hp i Hi. unfold pde_of. apply page_same_slot; [by apply Hk|done]. Qed.

Lemma pte_kept T s s' fl pd va :
  pd_wf s fl pd → kept T s s' → (∀ i, 0 <= i < 1024 → pde_of s' pd i = pde_of s pd i) → (∀ q, q ∈ T → q = pd ∨ q ∈ fl) →
  PDX va ≠ self_index → pte_of s' pd va = pte_of s pd va.
Proof.
  intros Hd Hk Hm HT Hs. apply pte_frame.
  - unfold pt_of. by rewrite Hm by apply PDX_range.
  - intros q Hq. destruct (pd_table _ _ _ Hd _ (PDX_range va) q Hs Hq) as (_ & Hf & Hne). apply Hk. intros [?|?]%HT; done.
Qed.

Lemma kernel_layout_ext s0 s1 s s' pd :
  npages s1 = npages s0 → npages s0 <= 65536 → pages_kva s1 = pages_kva s0 → envs_kva s1 = envs_kva s0 →
  (∀ va, PDX va ≠ self_index → pte_of s' pd va = pte_of s pd va) →
  kernel_layout percpu s0 s pd → kernel_layout percpu s1 s' pd.
Proof.
  intros E1 Hn E2 E3 Hp [L1 L2 L3 L4 L5 L6].
  assert (∀ va, 0 <= va < 4294967296 → ¬ (4013948928 <= va < 4018143232) → PDX va ≠ self_index) as Hself.
  { intros va Hva Hne. change self_index with 957. rewrite PDX_div. Z.div_mod_to_equations. lia. }
  split.
  - intros va Hal Hva. rewrite Hp; [by apply L1|]. apply Hself; layout_numbers; lia.
  - intros va Hal Hva. rewrite Hp; [by apply L2|]. apply Hself; layout_numbers; lia.
  - intros i o Hi Ho Hal. unfold NCPU in Hi. rewrite !Hp; [by apply L3|..]; apply Hself; layout_numbers; lia.
  - intros o Hal Ho. rewrite E1 in Ho. rewrite E2, Hp; [by apply L4|]. apply Hself; layout_numbers; lia.
  - intros o Hal Ho. rewrite E3, Hp; [by apply L5|]. change (NENV * SIZEOF_ENV) with 126976 in Ho. apply Hself; layout_numbers; lia.
  - intros va Hal Hva. rewrite Hp; [by apply L6|]. change UTOP with 4005560320 in Hva. apply Hself; lia.
Qed.

(** *** The free list during the boot: base memory first *)

Definition base_memory : list Z := seqZ 1 6 ++ seqZ 8 152.

Lemma base_memory_elem q : q ∈ base_memory ↔ 1 <= q < 160 ∧ q ≠ 7.
Proof. unfold base_memory. rewrite elem_of_app, !elem_of_seqZ. lia. Qed.

Record boot_list nb n (B X : list Z) : Prop := {
  bl_base : ∀ q, q ∈ B → 1 <= q < 160 ∧ q ≠ 7;
  bl_ext : ∀ q, q ∈ X → nb <= q < n;
  bl_some : X ≠ [];
  bl_room : n - nb <= Z.of_nat (length X);
}.

Lemma low_first_base lim X :
  0 < lim → low_first lim (base_memory ++ X) = base_memory ++ low_first lim X.
Proof.
  intros Hl.
  assert (∀ q, q ∈ base_memory → high lim q = false) as Hb.
  { intros q [Hq _]%base_memory_elem. unfold high. apply Z.leb_gt. rewrite page2pa_mul, PDX_div by lia. Z.div_mod_to_equations. lia. }
  unfold low_first. revert Hb. generalize base_memory as l. induction l as [|q l IH]; intros Hb; [done|].
  cbn [app]. rewrite filter_cons_True, filter_cons_False by (rewrite (Hb q) by (by left); done).
  cbn [app]. f_equal. apply IH. intros j Hj. apply Hb. by right.
Qed.

Lemma boot_reasonable s nb n B X :
  256 < nb → boot_list nb n B X → B ≠ [] → nextfree s = KERNBASE + nb * 4096 → 0 <= nAvailPages s → reasonable s (B ++ X).
Proof.
  intros Hnb [HB HX Hne] HBne Hnf Hav. split.
  - intros q [Hq%HB|Hq%HX]%elem_of_app; split_and!; lia.
  - destruct B as [|q B]; [done|]. exists q. split; [by left|]. destruct (HB q); [by left|]. lia.
  - destruct X as [|q X]; [done|]. exists q. split; [apply elem_of_app; right; by left|]. destruct (HX q); [by left|]. lia.
  - unfold KERNBASE in *. lia.
  - done.
Qed.

(** *** The states of the boot once the allocator exists *)

Record booting n s0 s (B X : list Z) : Prop := {
  bt_pages : pages_wf s (B ++ X);
  bt_pd : pd_wf s (B ++ X) image_end;
  bt_list : boot_list (boot_end n) n B X;
  bt_dir : ∀ i, 0 <= i < 1024 → pde_of s image_end i = if decide (i = self_index) then self_entry else 0;
  bt_npages : npages s = n;
  bt_kern : kern_pgdir s = pgdir_kva image_end;
  bt_kva : pages_kva s = KERNBASE + (image_end + 1) * 4096 ∧
    envs_kva s = KERNBASE + (image_end + 1 + pages_for (12 * n)) * 4096;
  bt_next : nextfree s = KERNBASE + boot_end n * 4096;
  bt_avail : 0 <= nAvailPages s;
  bt_system : same_system s0 s;
  bt_mem : ∀ j, reserved j → page_same j (mem s0) (mem s);
}.

Lemma booting_step n s0 s s' B X B' X' T :
  booting n s0 s B X → kept T s s' → (∀ i, 0 <= i < 1024 → pde_of s' image_end i = pde_of s image_end i) →
  pages_wf s' (B' ++ X') → (∀ q, q ∈ B' → q ∈ B) → (∀ q, q ∈ X' → q ∈ X) → X' ≠ [] → (length X <= length X')%nat → 0 <= nAvailPages s' →
  (∀ q, q ∈ T → ¬ reserved q) → booting n s0 s' B' X'.
Proof.
  intros [H1 H2 [L1 L2 L3 L4] H4 H5 H6 H7 H8 H9 H10 H11] Hk Hdir Hw HB HX Hne Hlen Hav HT. pose proof (kp_frame _ _ _ Hk) as Hf. split; try done.
  - eapply pd_wf_kept; [done|done|done|]. intros q [?%HB|?%HX]%elem_of_app; apply elem_of_app; [by left|by right].
  - split; [auto..|lia].
  - intros i Hi. by rewrite Hdir, H4.
  - by rewrite (vm_npages _ _ Hf).
  - by rewrite (vm_kern_pgdir _ _ Hf).
  - by rewrite (vm_pages_kva _ _ Hf), (vm_envs_kva _ _ Hf).
  - by rewrite (vm_nextfree _ _ Hf).
  - etrans; [done|]. by apply vm_same_system.
  - intros j Hj. etrans; [by apply H11|]. apply Hk. intros Hin. by apply (HT j).
Qed.

Lemma listed_not_reserved n B X : fits n → boot_list (boot_end n) n B X → ∀ q, q ∈ B ++ X → ¬ reserved q.
Proof.
  intros Hf [H1 H2 _ _] q Hq. destruct (image_end_range n Hf) as [Hie _]. pose proof (ft_npages n Hf).
  pose proof (pages_for_range n ltac:(lia)). unfold boot_end, reserved in *.
  apply elem_of_app in Hq as [Hq|Hq]; [specialize (H1 q Hq)|specialize (H2 q Hq)]; lia.
Qed.

Lemma budget_run {A} (m : M A) s a s' : within budget m → m s = Done a s' → 0 <= nAvailPages s → 0 <= nAvailPages s'.
Proof. intros Hm Hrun. specialize (Hm s). by rewrite Hrun in Hm. Qed.

Lemma image_end_not_listed n B X : fits n → boot_list (boot_end n) n B X → image_end ∉ B ++ X.
Proof.
  intros Hf [H1 H2 _ _]. destruct (image_end_range n Hf) as [Hie _]. pose proof (ft_npages n Hf).
  pose proof (pages_for_range n ltac:(lia)). intros [?%H1|?%H2]%elem_of_app; [lia|]. unfold boot_end in *. lia.
Qed.

(** [page_init] gives the allocator everything that the boot has not taken. *)
Lemma page_init_booting n s :
  fits n → nextfree s = 0 → npages s = n → (∀ i, 0 <= i < n → is_Some (pages s !! i)) → map_Forall (λ i _, 0 <= i < n) (pages s) →
  ∃ s', (boot_structures kend ;; page_init kend) s = Done tt s' ∧ booting n s s' base_memory (seqZ (boot_end n) (n - boot_end n)).
Proof.
  intros Hf H0 Hn Htot Hdom. destruct (image_end_range n Hf) as [Hie _]. pose proof (ft_npages n Hf) as Hn0.
  pose proof (pages_for_range n ltac:(lia)) as Hpf. pose proof (ft_room n Hf) as Hroom.
  destruct (boot_structures_run n s Hf H0 Hn) as (s1 & R1 & N1 & P1 & S1 & K1 & A1 & E1 & F1 & V1 & D1 & PS1).
  assert (256 < boot_end n) as Hbe by (unfold boot_end; lia).
  assert (before_page_init s1 (boot_end n)) as Hbefore.
  { unfold before_page_init. rewrite F1, N1, V1, P1. split_and!; try done; try lia; try (unfold boot_end in Hroom; lia).
    rewrite PGNUM_div. unfold KERNBASE. Z.div_mod_to_equations. lia. }
  destruct (page_init_run kend s1 (boot_end n) Hbefore) as (s2 & R2 & N2 & L2 & M2 & F2 & V2 & D2).
  pose proof (page_init_keeps s1) as Hkeep. rewrite R2 in Hkeep. unfold boot_state in Hkeep. simpl in Hkeep. injection Hkeep as Q1 Q2 Q3 Q4 Q5 Q6 Q7 Q8 Q9 Q10.
  assert (pages_wf s2 (base_memory ++ seqZ (boot_end n) (n - boot_end n))) as W2.
  { replace (base_memory ++ _) with (init_free (boot_end n) (npages s2))
      by (unfold init_free, base_memory; rewrite N2, N1; by rewrite (assoc_L (++))).
    apply described_init_wf; [lia|lia|done|]. by rewrite N2. }
  assert (boot_list (boot_end n) n base_memory (seqZ (boot_end n) (n - boot_end n))) as HL.
  { split; [intros q; by rewrite base_memory_elem|intros q; rewrite elem_of_seqZ; lia| |rewrite length_seqZ; lia].
    intros E. apply (f_equal length) in E. rewrite length_seqZ in E. simpl in E. lia. }
  assert (∀ i, 0 <= i < 1024 → pde_of s2 image_end i = if decide (i = self_index) then self_entry else 0) as Dir2.
  { intros i Hi. unfold pde_of. rewrite M2. by apply D1. }
  exists s2. split; [by step_with R1|]. split; try done; try congruence.
  - split.
    + rewrite N2, N1. split; [unfold boot_end in *; lia|by apply (image_end_not_listed n)].
    + intros i Hi q Hs. unfold pt_of. by rewrite Dir2, decide_False by done.
    + intros i Hi j Hj q Hs _. unfold pt_of at 1. by rewrite Dir2, decide_False by done.
  - split; congruence.
  - rewrite V2. apply u32_range.
  - destruct S1. split; try congruence. etrans; [|eassumption]. unfold boot_rest. congruence.
  - intros j Hj. rewrite M2. apply PS1. unfold reserved in Hj. lia.
Qed.

(** The three checks of the allocator and the page tables. *)
Lemma checks_booting n s0 s :
  fits n → cpu_ok s0 → booting n s0 s base_memory (seqZ (boot_end n) (n - boot_end n)) →
  ∃ s' B X, (check_page_free_list kend true ;; check_page_alloc ;; check_page) s = Done tt s' ∧
    booting n s0 s' B X ∧ (158 <= length B)%nat.
Proof.
  intros Hf Hcpu Hb. set (X0 := seqZ (boot_end n) (n - boot_end n)) in *.
  pose proof (ft_npages n Hf) as Hn0. pose proof (pages_for_range n ltac:(lia)) as Hpf. destruct (image_end_range n Hf) as [Hie _].
  assert (256 < boot_end n) as Hbe by (unfold boot_end; lia).
  pose proof (image_end_not_listed n _ _ Hf (bt_list _ _ _ _ _ Hb)) as Hnot.
  destruct (check_page_free_list_run kend true s _ (bt_pages _ _ _ _ _ Hb)) as (s1 & R1 & W1 & H1).
  { eapply boot_reasonable; [exact Hbe|apply Hb|by_compute|apply Hb|apply Hb]. }
  cbn [listed] in W1. rewrite low_first_base in W1 by lia. set (X := low_first 1 X0) in *.
  assert (X ≡ₚ X0) as HX by apply low_first_perm.
  assert (booting n s0 s1 base_memory X) as Hb1.
  { eapply booting_step; [exact Hb|apply H1| |done|done|by intros q; rewrite HX| |by rewrite HX|rewrite (sh_avail _ _ _ H1); apply Hb|exact (listed_not_reserved n _ _ Hf (bt_list _ _ _ _ _ Hb))].
    - eapply pde_kept; [apply H1|done].
    - intros E. rewrite E in HX. apply Permutation_nil_l in HX. by apply (bl_some _ _ _ _ (bt_list _ _ _ _ _ Hb)). }
  assert (base_memory = 1 :: 2 :: 3 :: seqZ 4 3 ++ seqZ 8 152) as Ebase by by vm_compute.
  set (B' := seqZ 4 3 ++ seqZ 8 152) in *. clearbody X0. rewrite Ebase in *.
  assert (∀ q, q ∈ [1; 2; 3] → q ∈ (1 :: 2 :: 3 :: B') ++ X) as Hsub.
  { intros q Hq. apply elem_of_app. left. rewrite !elem_of_cons in *. rewrite elem_of_nil in Hq. tauto. }
  pose proof (image_end_not_listed n _ _ Hf (bt_list _ _ _ _ _ Hb1)) as Hnot1.
  destruct (check_page_alloc_run s1 1 2 3 (B' ++ X) (bt_pages _ _ _ _ _ Hb1)) as (s2 & R2 & W2 & K2 & _).
  { rewrite (proj1 (bt_kva _ _ _ _ _ Hb1)). unfold KERNBASE. lia. }
  assert (booting n s0 s2 (1 :: 2 :: 3 :: B') X) as Hb2.
  { eapply booting_step; [exact Hb1|exact K2| |exact W2|done|done|apply Hb1|done| |intros q Hq; by apply (listed_not_reserved n _ _ Hf (bt_list _ _ _ _ _ Hb1)), Hsub].
    - eapply pde_kept; [exact K2|]. intros Hin. by apply Hnot1, Hsub.
    - exact (budget_run _ _ _ _ budget_check_page_alloc R2 (bt_avail _ _ _ _ _ Hb1)). }
  assert (checkable s2 (B' ++ X) [] image_end 1 2 3) as Hck.
  { split; try apply Hb2.
    - destruct (bt_system _ _ _ _ _ Hb2) as [E1 E2 E3 _ _]. unfold cpu_ok in *. by rewrite E1, E2, E3.
    - rewrite !not_elem_of_cons. split_and!; [lia|lia|apply not_elem_of_nil].
    - intros q Hq. by apply elem_of_nil in Hq.
    - rewrite !(bt_dir _ _ _ _ _ Hb2) by lia. by rewrite !decide_False by by_compute. }
  destruct (check_page_run s2 (B' ++ X) [] image_end 1 2 3 Hck eq_refl) as (s3 & R3 & W3 & _ & D3 & K3 & _).
  exists s3, (3 :: 2 :: 1 :: B'), X. split; [by step_with R1; step_with R2|]. split.
  - eapply booting_step; [exact Hb2|exact K3|exact D3|exact W3| |done|apply Hb2|done| |].
    + intros q. rewrite !elem_of_cons. tauto.
    + exact (budget_run _ _ _ _ budget_check_page R3 (bt_avail _ _ _ _ _ Hb2)).
    + intros q. unfold reserved. rewrite !elem_of_cons, elem_of_nil. lia.
  - vm_compute. lia.
Qed.

(** The mappings of the kernel, and their check. *)
Record mapped_kernel n s0 s1 s fl : Prop := {
  mk_pages : pages_wf s fl;
  mk_pd : pd_wf s fl image_end;
  mk_layout : kernel_layout percpu s1 s image_end;
  mk_dir : ∀ i, 0 <= i < PDX UTOP → pde_of s image_end i = 0;
  mk_frame : vm_frame s1 s;
  mk_free : ∃ B X, fl = B ++ X ∧ B ≠ [] ∧ (91 <= length B)%nat ∧ boot_list (boot_end n) n B X;
  mk_avail : 0 <= nAvailPages s;
  mk_mem : ∀ j, reserved j → page_same j (mem s1) (mem s);
  mk_tables : ∀ j, reserved j → ∀ i, 0 <= i < 1024 → pt_of s image_end i ≠ Some j;
}.

Lemma booting_empty n s0 s B X va : booting n s0 s B X → PDX va ≠ self_index → pt_of s image_end (PDX va) = None.
Proof. intros Hb Hs. unfold pt_of. by rewrite (bt_dir _ _ _ _ _ Hb), decide_False by (done || apply PDX_range). Qed.

Lemma layout_booting n s0 s B X :
  fits n → booting n s0 s B X → (158 <= length B)%nat → layout_ready bootstack percpu s (B ++ X) image_end.
Proof.
  intros Hf Hb HB. destruct (image_end_range n Hf) as [Hie _]. pose proof (ft_npages n Hf) as Hn0.
  pose proof (pages_for_range n ltac:(lia)) as Hpf. pose proof (ft_room n Hf). pose proof (ft_mapped n Hf).
  destruct (bt_kva _ _ _ _ _ Hb) as [E1 E2]. destruct (ft_stacks n Hf). split; try apply Hb.
  - rewrite length_app. lia.
  - rewrite E1, E2. unfold boot_end in *. split_and!; try done; unfold kernel_data, KERNBASE; Z.div_mod_to_equations; lia.
Qed.

Lemma maps_booting n s0 s B X :
  fits n → booting n s0 s B X → (158 <= length B)%nat →
  ∃ s' fl, (mem_init_maps bootstack percpu ;; check_kern_pgdir percpu) s = Done tt s' ∧ mapped_kernel n s0 s s' fl.
Proof.
  intros Hf Hb HB. pose proof (layout_booting n s0 s B X Hf Hb HB) as Hr. pose proof (ft_npages n Hf) as Hn0.
  pose proof (bt_npages _ _ _ _ _ Hb) as Hn.
  destruct (mem_init_maps_run bootstack percpu s _ image_end Hr) as (s1 & fl1 & R1 & HL).
  pose proof (layered_layout bootstack percpu s s1 _ fl1 image_end Hr) as Hlay.
  assert (kernel_layout percpu s s1 image_end) as Hkl.
  { apply Hlay; [|exact HL]. intros va Hs. by apply pte_of_none, (booting_empty n s0 s B X). }
  assert (∀ i, 0 <= i < 1024 → i ∉ kernel_tables → pde_of s1 image_end i = if decide (i = self_index) then self_entry else 0) as Hdir.
  { intros i Hi Hni. rewrite (la_dir _ _ _ _ _ _ HL i Hi Hni). by apply Hb. }
  assert (self_index ∉ kernel_tables ∧ 0 ∉ kernel_tables ∧ 1 ∉ kernel_tables) as (Hs0 & Hs1 & Hs2).
  { change self_index with 957. split_and!; intros ?%not_kernel_table; lia. }
  assert (kernel_dir s1 image_end) as Hkd.
  { split.
    - rewrite Hdir by (done || by_compute). rewrite decide_True by done. unfold self_entry. rewrite has_lor. by rewrite orb_true_r.
    - intros i Hi Hni Hs. by rewrite Hdir, decide_False by done.
    - apply (la_writable _ _ _ _ _ _ HL). intros i Hi Hs Hpt. exfalso. apply Hpt. unfold pt_of.
      by rewrite (bt_dir _ _ _ _ _ Hb), decide_False by done. }
  assert (check_kern_pgdir percpu s1 = Done tt s1) as R2.
  { eapply (check_kern_pgdir_run bootstack percpu s s1); try done; try apply HL. lia. }
  assert (∀ j, reserved j → ¬ owned s (B ++ X) image_end j) as Hown.
  { intros j Hj. destruct (image_end_range n Hf) as [Hie _].
    intros [Hin|[->|(i & Hi & Ht)]].
    - by apply (listed_not_reserved n _ _ Hf (bt_list _ _ _ _ _ Hb) j).
    - unfold reserved in Hj. lia.
    - unfold pt_of in Ht. rewrite (bt_dir _ _ _ _ _ Hb) in Ht by done. case_decide; [|done].
      unfold self_entry in Ht. case_match; [|done]. injection Ht as Ht. rewrite !PGNUM_lor in Ht by (unfold PTE_P, PTE_U; lia).
      rewrite PGNUM_div, Z.div_mul in Ht by lia. unfold reserved in Hj. lia. }
  exists s1, fl1. split; [step_with R1; exact R2|]. split; try apply HL; try done.
  - change (PDX UTOP) with 955. intros i Hi. rewrite Hdir; [|lia|intros ?%not_kernel_table; lia].
    rewrite decide_False; [done|]. change self_index with 957. lia.
  - destruct (la_paid _ _ _ _ _ _ HL) as (used & Hu & Hlen).
    assert (length used <= 67)%nat as Hl67.
    { pose proof (missing_bound s image_end kernel_tables) as Hmb. change (length kernel_tables) with 67%nat in Hmb. lia. }
    exists (drop (length used) B), X. assert (91 <= length (drop (length used) B))%nat as H3 by (rewrite length_drop; lia). split_and!.
    + apply (f_equal (drop (length used))) in Hu. rewrite drop_app_le, drop_app_length in Hu by lia. done.
    + intros E. rewrite E in H3. simpl in H3. lia.
    + done.
    + destruct (bt_list _ _ _ _ _ Hb) as [L1 L2 L3 L4]. split; [|done..]. intros q Hq. apply L1. apply list_elem_of_lookup in Hq as [k Hk]. rewrite lookup_drop in Hk. by eapply list_elem_of_lookup_2.
  - exact (budget_run _ _ _ _ (budget_mem_init_maps bootstack percpu) R1 (bt_avail _ _ _ _ _ Hb)).
  - intros j Hj. by apply (la_mem _ _ _ _ _ _ HL), Hown.
  - intros j Hj i Hi Ht. destruct (la_mem _ _ _ _ _ _ HL j (Hown j Hj)) as [_ Hn']. apply Hn'. right; right. by exists i.
Qed.

(** The state of the kernel once its address space is in use. *)
Record kernel_running n s fl : Prop := {
  kr_pages : pages_wf s fl;
  kr_pd : pd_wf s fl image_end;
  kr_npages : npages s = n;
  kr_kern : kern_pgdir s = pgdir_kva image_end;
  kr_cr3 : cr3 s !! this_cpu s = Some (image_end * 4096);
  kr_layout : kernel_layout percpu s s image_end;
  kr_user : ∀ i, 0 <= i < PDX UTOP → pde_of s image_end i = 0;
  kr_free : ∀ q, q ∈ fl → (1 <= q < 160 ∧ q ≠ 7) ∨ boot_end n <= q < n;
  kr_room : n - boot_end n + 91 <= Z.of_nat (length fl);
  kr_tables : ∀ j, reserved j → ∀ i, 0 <= i < 1024 → pt_of s image_end i ≠ Some j;
}.

Lemma install_run n s0 s1 s fl :
  fits n → cpu_ok s0 → same_system s0 s1 → npages s1 = n → kern_pgdir s1 = pgdir_kva image_end →
  nextfree s1 = KERNBASE + boot_end n * 4096 → mapped_kernel n s0 s1 s fl →
  ∃ s' fl', (lcr3 (image_end * 4096) ;; check_page_free_list kend false ;; check_page_installed_pgdir) s = Done tt s' ∧
    kernel_running n s' fl' ∧ same_system s0 (set_cr3 (cr3 s0) s') ∧ (∀ j, reserved j → page_same j (mem s1) (mem s')).
Proof.
  intros Hf Hcpu Hsys Hn Hkern Hnext HK. pose proof (ft_npages n Hf) as Hn0.
  pose proof (pages_for_range n ltac:(lia)) as Hpf. destruct (image_end_range n Hf) as [Hie _].
  destruct (mk_free _ _ _ _ _ HK) as (B & X & -> & HB & HB3 & HL). pose proof (mk_frame _ _ _ _ _ HK) as Fr1.
  set (s2 := set_cr3 (<[this_cpu s := image_end * 4096]> (cr3 s)) s).
  assert (pages_wf s2 (B ++ X)) as W2 by (by apply (pages_wf_ext s); try apply HK).
  destruct (check_page_free_list_run kend false s2 _ W2) as (s3 & R3 & W3 & H3).
  { eapply (boot_reasonable _ (boot_end n) n); [unfold boot_end; lia|done|done| |apply HK]. change (nextfree s = KERNBASE + boot_end n * 4096). by rewrite (vm_nextfree _ _ Fr1). }
  cbn [listed] in W3. pose proof (image_end_not_listed n _ _ Hf HL) as Hnot.
  pose proof (pde_kept _ _ _ _ (sh_kept _ _ _ H3) Hnot) as D3. pose proof (kp_frame _ _ _ (sh_kept _ _ _ H3)) as Fr3.
  assert (pd_wf s2 (B ++ X) image_end) as P2 by (eapply pd_wf_update; [apply HK|done..]).
  assert (pd_wf s3 (B ++ X) image_end) as P3 by (eapply pd_wf_kept; [exact P2|apply H3|exact D3|done]).
  destruct B as [|a [|b [|c B]]]; [done|simpl in HB3; lia..|]. set (rest := B ++ X).
  change ((a :: b :: c :: B) ++ X) with (a :: b :: c :: rest) in *.
  destruct HL as [L1 L2 L3 L4].
  assert (∀ q, q ∈ a :: b :: c :: rest → (1 <= q < 160 ∧ q ≠ 7) ∨ boot_end n <= q < n) as Hlist.
  { intros q [Hq|Hq]%(elem_of_app (a :: b :: c :: B)); [left; by apply L1|right; by apply L2]. }
  assert (cr3 s3 !! this_cpu s3 = Some (image_end * 4096)) as C3.
  { rewrite (vm_cr3 _ _ Fr3), (vm_this_cpu _ _ Fr3). simpl. apply lookup_insert_eq. }
  assert (checkable s3 rest rest image_end a b c) as Hck.
  { split; try done.
    - by rewrite (vm_kern_pgdir _ _ Fr3), <- Hkern, <- (vm_kern_pgdir _ _ Fr1).
    - eapply (cpu_ok_frame s2); [done|]. destruct Hsys as [E1 E2 E3 _ _]. unfold cpu_ok in *. simpl.
      by rewrite (vm_cpus _ _ Fr1), (vm_this_cpu _ _ Fr1), (vm_envs _ _ Fr1), E1, E2, E3.
    - rewrite !not_elem_of_cons. pose proof (L1 b ltac:(by right; left)). pose proof (L1 c ltac:(by right; right; left)).
      split_and!; [lia|lia|apply not_elem_of_nil].
    - rewrite !D3 by lia. split; by apply (mk_dir _ _ _ _ _ HK). }
  destruct (check_page_installed_run s3 rest rest image_end a b c Hck C3 eq_refl) as (s4 & R4 & W4 & P4 & D4 & K4 & _).
  pose proof (kp_frame _ _ _ K4) as Fr4. assert (vm_frame s2 s4) as Fr24 by by etrans.
  assert (same_system s0 (set_cr3 (cr3 s0) s4)) as Hss.
  { destruct Hsys as [E1 E2 E3 E4 E5]. split; cbn [cpus this_cpu envs cr3 set_cr3]; [.. |done|].
    - by rewrite (vm_cpus _ _ Fr24), <- E1, <- (vm_cpus _ _ Fr1).
    - by rewrite (vm_this_cpu _ _ Fr24), <- E2, <- (vm_this_cpu _ _ Fr1).
    - by rewrite (vm_envs _ _ Fr24), <- E3, <- (vm_envs _ _ Fr1).
    - change (boot_rest s4 = boot_rest s0). by rewrite (vm_boot_rest _ _ Fr24), <- E5, <- (vm_boot_rest _ _ Fr1). }
  assert (∀ j, reserved j → page_same j (mem s1) (mem s4)) as Hres.
  { intros j Hj. assert (j ≠ image_end ∧ j ∉ a :: b :: c :: rest) as [Hji Hjl].
    { split; [unfold reserved in Hj; lia|]. intros Hin. specialize (Hlist j Hin). unfold reserved, boot_end in *. lia. }
    etrans; [by apply (mk_mem _ _ _ _ _ HK)|]. change (mem s) with (mem s2).
    etrans; [by apply (kp_mem _ _ _ (sh_kept _ _ _ H3))|]. apply (kp_mem _ _ _ K4). rewrite !not_elem_of_cons in *. split_and!; try tauto. apply not_elem_of_nil. }
  exists s4, (a :: c :: b :: rest). split; [|split; [|split; [exact Hss|exact Hres]]].
  { unfold lcr3. rewrite run_modify. fold s2. by step_with R3. }
  split; try done.
  - by rewrite (vm_npages _ _ Fr24), <- Hn, <- (vm_npages _ _ Fr1).
  - by rewrite (vm_kern_pgdir _ _ Fr24), <- Hkern, <- (vm_kern_pgdir _ _ Fr1).
  - by rewrite (vm_cr3 _ _ Fr4), (vm_this_cpu _ _ Fr4).
  - eapply (kernel_layout_ext s1 s4 s); [..|apply HK].
    + by rewrite (vm_npages _ _ Fr24), <- (vm_npages _ _ Fr1).
    + lia.
    + by rewrite (vm_pages_kva _ _ Fr24), <- (vm_pages_kva _ _ Fr1).
    + by rewrite (vm_envs_kva _ _ Fr24), <- (vm_envs_kva _ _ Fr1).
    + intros va Hs. rewrite (pte_kept _ s3 s4 _ image_end va P3 K4 D4); [|set_solver|done].
      rewrite (pte_kept _ s2 s3 _ image_end va P2 (sh_kept _ _ _ H3) D3); [done|by right|done].
  - intros i Hi. assert (0 <= i < 1024) as Hi' by (change (PDX UTOP) with 955 in Hi; lia).
    rewrite D4, D3 by done. by apply (mk_dir _ _ _ _ _ HK).
  - intros q Hq. apply Hlist. rewrite !elem_of_cons in *. tauto.
  - simpl in HB3. simpl. unfold rest. rewrite length_app. lia.
  - intros j Hj i Hi. unfold pt_of. rewrite D4, D3 by done. by apply (mk_tables _ _ _ _ _ HK j Hj i).
Qed.

Lemma mem_init_run bl bh el eh l cr0 s :
  let n := detected bl bh el eh in
  inb_stream (dev s) = bl :: bh :: el :: eh :: l → fits n → nextfree s = 0 →
  (∀ i, 0 <= i < n → is_Some (pages s !! i)) → map_Forall (λ i _, 0 <= i < n) (pages s) → cpu_ok s →
  ∃ s' fl, mem_init kend bootstack percpu cr0 s = Done (kernel_cr0 cr0) s' ∧ kernel_running n s' fl ∧
    same_system s (set_cr3 (cr3 s) s') ∧ (∀ j, reserved j → page_same j (mem s) (mem s')).
Proof.
  intros n Hin Hf H0 Htot Hdom Hcpu.
  destruct (detect_run s bl bh el eh l Hin) as (s1 & R1 & N1 & P1 & F1 & Mm1 & S1). fold n in N1.
  destruct (page_init_booting n s1 Hf) as (s2 & R2 & Hb2); try congruence; [by rewrite P1|by rewrite P1|].
  assert (cpu_ok s1) as Hcpu1 by (destruct S1 as [E1 E2 E3 _ _]; unfold cpu_ok in *; by rewrite E1, E2, E3).
  destruct (checks_booting n s1 s2 Hf Hcpu1 Hb2) as (s3 & B & X & R3 & Hb3 & HB).
  destruct (maps_booting n s1 s3 B X Hf Hb3 HB) as (s4 & fl4 & R4 & HK4).
  destruct (install_run n s1 s3 s4 fl4 Hf Hcpu1) as (s5 & fl5 & R5 & HR & HS & HM); try apply Hb3; [done|].
  pose proof (vm_kern_pgdir _ _ (mk_frame _ _ _ _ _ HK4)) as K4. rewrite (bt_kern _ _ _ _ _ Hb3) in K4.
  exists s5, fl5. split; [|split; [done|split]].
  - unfold mem_init. step_with R1. apply bind_inv in R2 as ([] & t1 & A1 & A2). step_with A1. step_with A2.
    apply bind_inv in R3 as ([] & t2 & A3 & R3). step_with A3. apply bind_inv in R3 as ([] & t3 & A4 & A5). step_with A4. step_with A5.
    apply bind_inv in R4 as ([] & t4 & A6 & A7). step_with A6. step_with A7.
    rewrite run_gets, K4, run_PADDR by (unfold pgdir_kva; destruct (image_end_range n Hf); lia).
    replace (pgdir_kva image_end - KERNBASE) with (image_end * 4096) by (unfold pgdir_kva; lia).
    apply bind_inv in R5 as ([] & t5 & A8 & R5). step_with A8. apply bind_inv in R5 as ([] & t6 & A9 & A10). step_with A9. by step_with A10.
  - destruct S1 as [A1' A2' A3' A4' A5'], HS as [B1' B2' B3' B4' B5']. split; cbn [cpus this_cpu envs cr3 set_cr3] in *; try congruence.
  - intros j Hj. rewrite <- Mm1. etrans; [by apply (bt_mem _ _ _ _ _ Hb3)|by apply HM].
Qed.
End boot.

(** ** Properties *)

(** C11: mem_init runs to its end on every machine large enough for the kernel: no
    assertion of its self-checks fails and no call panics.  The memory size is the
    one the clock's NVRAM reports; afterwards the new directory is in use, it maps
    the kernel's part of the address space as inc/memlayout.h draws it and nothing
    for the user, and the free list holds only pages behind the boot-time data and
    pages from 1 to 159 other than the AP boot page.  These last are the pages
    below the constant IOPHYSMEM: they are freed whatever amount of base memory
    the NVRAM reports.  Page 0, the AP boot page, the I/O hole and the kernel's
    image keep their contents. *)
Theorem mem_init_boots kend bootstack percpu bl bh el eh l cr0 s :
  let n := detected bl bh el eh in
  inb_stream (dev s) = bl :: bh :: el :: eh :: l → fits kend bootstack percpu n → nextfree s = 0 →
  (∀ i, 0 <= i < n → is_Some (pages s !! i)) → map_Forall (λ i _, 0 <= i < n) (pages s) → cpu_ok s →
  ∃ s' fl, mem_init kend bootstack percpu cr0 s = Done (kernel_cr0 cr0) s' ∧
    kernel_running kend percpu n s' fl ∧ same_system s (set_cr3 (cr3 s) s') ∧
    (∀ j, reserved kend j → page_same j (mem s) (mem s')).
Proof. apply mem_init_run. Qed.

(** C37: The self-check of the free list passes when what it asserts is so (no free
    page is page 0, page 7, a bound of the I/O hole or a page of the kernel's
    data, and there are free pages below and above 1 MB): it moves the pages that the first page table maps
    to the front, keeps the order among them and among the others, loses no page,
    and touches no page that is not free: reference counts, allocated pages and
    their contents stay. *)
Theorem check_page_free_list_reorders kend low s fl :
  pages_wf s fl → reasonable s fl →
  ∃ s', check_page_free_list kend low s = Done tt s' ∧ pages_wf s' (listed low fl) ∧ listed low fl ≡ₚ fl ∧
    shuffled fl s s'.
Proof.
  intros Hw Hr. destruct (check_page_free_list_run kend low s fl Hw Hr) as (s' & Hrun & Hw' & Hs).
  exists s'. split; [done|]. split; [done|]. split; [apply listed_perm|done].
Qed.

(** ** A small machine *)

(** 640 KB of base memory and 576 KB above 1 MB: 400 pages. *)
Definition ex_poweron : kstate :=
  set_dev (zero_devices [128; 2; 64; 2]) (set_cpus {[ 0 := mkCpu 0 1 None 0 0 ]}
    (set_pages (list_to_map ((λ i, (i, mkPage None 0 0)) <$> seqZ 0 400)) zero_kstate)).

Lemma mem_init_boots_witness :
  ∃ s' fl, mem_init (KERNBASE + 1052000) (KERNBASE + 1048576) (KERNBASE + 1048576) 0x80000011 ex_poweron =
      Done 0x80050033 s' ∧
    kernel_running (KERNBASE + 1052000) (KERNBASE + 1048576) 400 s' fl ∧ same_system ex_poweron (set_cr3 ∅ s') ∧
    (∀ j, reserved (KERNBASE + 1052000) j → page_same j (mem ex_poweron) (mem s')).
Proof.
  apply (mem_init_boots (KERNBASE + 1052000) (KERNBASE + 1048576) (KERNBASE + 1048576) 128 2 64 2 [] 0x80000011 ex_poweron).
  - reflexivity.
  - split; [by_compute|by_compute|by_compute|by_compute|]. unfold kernel_data. by_compute.
  - reflexivity.
  - by_compute.
  - by_compute.
  - by_compute.
Defined.

(** Two free pages above 4 MB and two of base memory, alternating. *)
Definition ex_mixed : kstate :=
  let page i := mkPage (if i =? 1100 then Some 5 else if i =? 5 then Some 1030 else if i =? 1030 then Some 9 else None)
                  (i * 4096) 0 in
  set_npages 1200 (set_pages (list_to_map ((λ i, (i, page i)) <$> seqZ 0 1200))
    (set_page_free_list (Some 1100) (set_nextfree (KERNBASE + 4096) zero_kstate))).

Lemma check_page_free_list_reorders_witness :
  ∃ s', check_page_free_list KERNBASE true ex_mixed = Done tt s' ∧ pages_wf s' [5; 9; 1100; 1030].
Proof.
  destruct (check_page_free_list_reorders KERNBASE true ex_mixed [1100; 5; 1030; 9]) as (s' & Hrun & Hw & _ & _).
  - by_compute.
  - split; [|exists 5|exists 1030|done|by_compute].
    + intros q Hq. assert (q = 1100 ∨ q = 5 ∨ q = 1030 ∨ q = 9) as [-> | [-> | [-> | ->]]] by set_solver; split_and!; by_compute.
    + by_compute.
    + by_compute.
  - exists s'. split; [exact Hrun|exact Hw].
Defined.
