(* ===== verification/Monitor.v ===== *)
(** * The kernel monitor: kern/monitor.c, lib/readline.c

    Reading and editing a line, splitting it into arguments, the commands, and
    the printing of a trap frame (kern/trap.c).  The line buffer [buf] is a static
    array of the kernel, read and written through the page tables in use; where
    the linker puts it and the symbols of the image are parameters, as is the
    frame pointer that starts a backtrace. *)

From S2P Require Import Prelude Devices Console Strings Printfmt Machine PageAlloc Pmap Env Kprintf Trap Kdebug.
From stdpp Require Import base numbers list gmap fin_maps strings.

Local Open Scope Z_scope.

(** A format that ends in a newline. *)
Definition text (s : string) : list Z := bytes_of s ++ [LF].

(** ** lib/readline.c *)

Definition BUFLEN : Z := 1024.
Definition DEL : Z := 0x7f.

(** One character; [i] is the length of the line so far.  [gfuel] bounds the time
    spent waiting for a key. *)
Definition readline_step (gfuel sfuel : nat) (buf : Z) (echoing : bool) (i : Z) : M (Z + option Z) :=
  let echo c := if echoing then dev_op (cputchar c) else mret tt in
  c ← dev_op (getchar gfuel);
  if c <? 0 then cprintf sfuel (text "read error: %e") [Word c] ;; mret (inr None)
  else if ((c =? BS) || (c =? DEL)) && (0 <? i) then echo BS ;; mret (inl (i - 1))
  else if (32 <=? c) && (i <? BUFLEN - 1) then
    echo c ;; vwr8 (buf + i) c ;; mret (inl (i + 1))
  else if (c =? LF) || (c =? CR) then echo LF ;; vwr8 (buf + i) 0 ;; mret (inr (Some buf))
  else mret (inl i).

(** At most [fuel] characters are read. *)
Definition readline (fuel gfuel sfuel : nat) (buf : Z) (prompt : option (list Z)) : M (option Z) :=
  match prompt with
  | Some p => cprintf sfuel (bytes_of "%s") [Lit p] ;; mret tt
  | None => mret tt
  end ;;
  let echoing := negb (iscons 0 =? 0) in
  loop fuel NoFuel (readline_step gfuel sfuel buf echoing) 0.

(** ** Printing a trap frame: kern/trap.c *)

Section print.
Variable sfuel : nat.
Definition printf (fmt : string) (ap : list arg) : M unit := cprintf sfuel (text fmt) ap ;; mret tt.

Definition print_regs (r : PushRegs) : M unit :=
  printf "  edi  0x%08x" [Word (reg_edi r)] ;;
  printf "  esi  0x%08x" [Word (reg_esi r)] ;;
  printf "  ebp  0x%08x" [Word (reg_ebp r)] ;;
  printf "  oesp 0x%08x" [Word (reg_oesp r)] ;;
  printf "  ebx  0x%08x" [Word (reg_ebx r)] ;;
  printf "  edx  0x%08x" [Word (reg_edx r)] ;;
  printf "  ecx  0x%08x" [Word (reg_ecx r)] ;;
  printf "  eax  0x%08x" [Word (reg_eax r)].

(** The frame [t] at address [tf]; [last_tf] is the frame of the last trap. *)
Definition print_trapframe (last_tf tf : Z) (t : Trapframe) : M unit :=
  cpu ← cpunum;
  printf "TRAP frame at %p from CPU %d" [Word tf; Word cpu] ;;
  print_regs (tf_regs t) ;;
  printf "  es   0x----%04x" [Word (tf_es t)] ;;
  printf "  ds   0x----%04x" [Word (tf_ds t)] ;;
  printf "  trap 0x%08x %s" [Word (tf_trapno t); Lit (bytes_of (trapname (tf_trapno t)))] ;;
  (if (tf =? last_tf) && (tf_trapno t =? T_PGFLT)
   then c ← gets cr2; printf "  cr2  0x%08x" [Word c] else mret tt) ;;
  cprintf sfuel (bytes_of "  err  0x%08x") [Word (tf_err t)] ;;
  (if tf_trapno t =? T_PGFLT then
     let str (b : Z) (x y : string) := Lit (bytes_of (if has b (tf_err t) then x else y)) in
     printf " [%s, %s, %s]"
       [str 4 "user" "kernel"; str 2 "write" "read"; str 1 "protection" "not-present"]%string
   else printf "" []) ;;
  printf "  eip  0x%08x" [Word (tf_eip t)] ;;
  printf "  cs   0x----%04x" [Word (tf_cs t)] ;;
  printf "  flag 0x%08x" [Word (tf_eflags t)] ;;
  if has 3 (tf_cs t) then
    printf "  esp  0x%08x" [Word (tf_esp t)] ;;
    printf "  ss   0x----%04x" [Word (tf_ss t)]
  else mret tt.
End print.

(** ** Commands: kern/monitor.c *)

(** The symbols of the image, and the bounds of its debugging tables. *)
Record symbols : Type := mkSymbols {
  sym_entry : Z; sym_etext : Z; sym_edata : Z; sym_end : Z; sym_stabs : UserStabData
}.

Section commands.
Variables (sfuel bfuel : nat) (sym : symbols) (ebp : Z).

(** [struct Command]: the name, the description and the function, whose
    arguments [argc], [argv] and [tf] no command uses. *)
Record Command : Type := mkCommand { cmd_name : string; cmd_desc : string; cmd_func : M Z }.

Definition mon_kerninfo : M Z :=
  let line (n : string) (a : Z) :=
    printf sfuel ("  " +:+ n +:+ " %08x (virt)  %08x (phys)") [Word a; Word (u32 (a - KERNBASE))] in
  printf sfuel "Special kernel symbols:" [] ;;
  line "entry " (sym_entry sym) ;;
  line "etext " (sym_etext sym) ;;
  line "edata " (sym_edata sym) ;;
  line "end   " (sym_end sym) ;;
  printf sfuel "Kernel executable memory footprint: %dKB"
    [Word (Z.quot (sym_end sym - sym_entry sym + 1023) 1024)] ;;
  mret 0.

Definition name_arg (n : cname) : arg :=
  match n with Unknown => Lit (bytes_of "<unknown>") | At va => Word va end.

(** Follows the saved frame pointers, for at most [bfuel] frames. *)
Definition mon_backtrace : M Z :=
  printf sfuel "Stack backtrace" [] ;;
  loop bfuel NoFuel (λ addr,
    if addr =? 0 then mret (inr tt) else
    eip ← vrd32 (u32 (addr + 4));
    a0 ← vrd32 (u32 (addr + 8));
    a1 ← vrd32 (u32 (addr + 12));
    a2 ← vrd32 (u32 (addr + 16));
    a3 ← vrd32 (u32 (addr + 20));
    a4 ← vrd32 (u32 (addr + 24));
    printf sfuel "  ebp %08x eip %08x args %08x %08x %08x %08x %08x"
      [Word addr; Word eip; Word a0; Word a1; Word a2; Word a3; Word a4] ;;
    '(_, info) ← debuginfo_eip sfuel (sym_stabs sym) eip;
    printf sfuel "         %s:%d: %.*s+%d"
      [name_arg (eip_file info); Word (eip_line info); Word (eip_fn_namelen info);
       name_arg (eip_fn_name info); Word (u32 (eip - eip_fn_addr info))] ;;
    next ← vrd32 addr;
    mret (inl next)) ebp ;;
  mret 0.

(** The names and descriptions of [commands]; [mon_help] prints them, and is one
    of them. *)
Definition command_table (help : M Z) : list Command :=
  [mkCommand "help" "Display this list of commands" help;
   mkCommand "kerninfo" "Display information about the kernel" mon_kerninfo;
   mkCommand "backtrace" "Display current calling stack" mon_backtrace].

Definition mon_help : M Z :=
  foldr (λ c m, printf sfuel "%s - %s" [Lit (bytes_of (cmd_name c)); Lit (bytes_of (cmd_desc c))] ;; m)
    (mret 0) (command_table (mret 0)).

Definition commands : list Command := command_table mon_help.

(** ** The command interpreter *)

(** [strchr (WHITESPACE, c)], for a character that is not 0 *)
Definition WHITESPACE : list Z := [TAB; CR; LF; SPACE].
Definition is_white (c : Z) : bool :=
  match strchr 5 (write_bytes ∅ 16 (WHITESPACE ++ [0])) 16 (s8 c) with
  | Some p => negb (p =? 0)
  | None => false
  end.
Definition MAXARGS : Z := 16.

(** [while ( *buf && strchr (WHITESPACE, *buf)) *buf++ = 0;] *)
Definition gobble (buf : Z) : M Z :=
  loop sfuel NoFuel (λ buf,
    c ← vrd8 buf;
    if negb (c =? 0) && is_white c then vwr8 buf 0 ;; mret (inl (next buf)) else mret (inr buf)) buf.

(** [while ( *buf && !strchr (WHITESPACE, *buf)) buf++;] *)
Definition scan_arg (buf : Z) : M Z :=
  loop sfuel NoFuel (λ buf,
    c ← vrd8 buf;
    if negb (c =? 0) && negb (is_white c) then mret (inl (next buf)) else mret (inr buf)) buf.

(** The pointers [argv]; [None] when there are too many. *)
Definition parse_args (buf : Z) : M (option (list Z)) :=
  loop sfuel NoFuel (λ '(argv, buf),
    buf ← gobble buf;
    c ← vrd8 buf;
    if c =? 0 then mret (inr (Some argv)) else
    if Z.of_nat (length argv) =? MAXARGS - 1 then mret (inr None) else
    buf' ← scan_arg buf;
    mret (inl (argv ++ [buf], buf'))) ([], buf).

(** [strcmp (p, name)], for a string of the kernel's image *)
Fixpoint strcmp_name (p : Z) (name : list Z) : M Z :=
  c ← vrd8 p;
  match name with
  | [] => mret c
  | b :: name' => if negb (c =? 0) && (c =? b) then strcmp_name (next p) name' else mret (c - b)
  end.

Fixpoint lookup_command (arg0 : Z) (cs : list Command) : M (option Command) :=
  match cs with
  | [] => mret None
  | c :: cs' =>
      r ← strcmp_name arg0 (bytes_of (cmd_name c));
      if r =? 0 then mret (Some c) else lookup_command arg0 cs'
  end.

Definition runcmd (buf : Z) : M Z :=
  argv ← parse_args buf;
  match argv with
  | None => printf sfuel "Too many arguments (max %d)" [Word MAXARGS] ;; mret 0
  | Some [] => mret 0
  | Some (arg0 :: _) =>
      c ← lookup_command arg0 commands;
      match c with
      | Some c => cmd_func c
      | None => printf sfuel "Unknown command '%s'" [Word arg0] ;; mret 0
      end
  end.

(** At most [fuel] commands are read; [tf] is the trap frame with its address. *)
Definition monitor (fuel lfuel gfuel : nat) (buf last_tf : Z) (tf : option (Z * Trapframe)) : M unit :=
  printf sfuel "Welcome to the JOS kernel monitor!" [] ;;
  printf sfuel "Type 'help' for a list of commands." [] ;;
  match tf with Some (a, t) => print_trapframe sfuel last_tf a t | None => mret tt end ;;
  loop fuel NoFuel (λ _,
    line ← readline lfuel gfuel sfuel buf (Some (bytes_of "K> "));
    match line with
    | None => mret (inl tt)
    | Some line =>
        r ← runcmd line;
        if r <? 0 then mret (inr tt) else mret (inl tt)
    end) tt.
End commands.

#[global] Arguments gobble : simpl never.
#[global] Arguments scan_arg : simpl never.
#[global] Arguments parse_args : simpl never.
#[global] Arguments is_white : simpl never.

(** ** The line buffer *)

(** [buf] is mapped where the kernel's memory is, and no entry of the page tables
    that map it lies inside it. *)
Record line_buffer (s : kstate) (buf : Z) : Prop := {
  lb_range : KERNBASE <= buf ∧ buf + BUFLEN < 4294967296;
  lb_mmu o w : 0 <= o < BUFLEN → mmu s (buf + o) w = Some (buf - KERNBASE + o);
  lb_dir pa o : cr3 s !! this_cpu s = Some pa → 0 <= o < BUFLEN →
    let l := PGNUM pa * 4096 + 4 * PDX (buf + o) in
    l + 4 <= buf - KERNBASE ∨ buf - KERNBASE + BUFLEN <= l;
  lb_table pa o l : cr3 s !! this_cpu s = Some pa → 0 <= o < BUFLEN →
    pte_loc s (PGNUM pa) (buf + o) = Some l →
    l + 4 <= buf - KERNBASE ∨ buf - KERNBASE + BUFLEN <= l
}.

(** Only the buffer changes. *)
Definition same_outside (buf : Z) (m m' : memory) : Prop :=
  ∀ a, a < buf - KERNBASE ∨ buf - KERNBASE + BUFLEN <= a → mget m' a = mget m a.

#[export] Instance same_outside_refl buf : Reflexive (same_outside buf).
Proof. done. Qed.
#[export] Instance same_outside_trans buf : Transitive (same_outside buf).
Proof. intros m1 m2 m3 H1 H2 a Ha. by rewrite H2, H1. Qed.

Section buffer.
Implicit Types (s : kstate) (m : memory).

Lemma line_buffer_mem s buf m :
  line_buffer s buf → same_outside buf (mem s) m → line_buffer (set_mem m s) buf.
Proof.
  intros [Hr Hm Hd Ht] Hs.
  assert (∀ pa o, cr3 s !! this_cpu s = Some pa → 0 <= o < BUFLEN →
    pde_of (set_mem m s) (PGNUM pa) (PDX (buf + o)) = pde_of s (PGNUM pa) (PDX (buf + o))) as Hpde.
  { intros pa o Hpa Ho. unfold pde_of. simpl. apply load32_ext. intros b Hb. apply Hs.
    specialize (Hd pa o Hpa Ho). cbv zeta in Hd. lia. }
  assert (∀ pa o, cr3 s !! this_cpu s = Some pa → 0 <= o < BUFLEN →
    pte_loc (set_mem m s) (PGNUM pa) (buf + o) = pte_loc s (PGNUM pa) (buf + o)) as Hloc.
  { intros pa o Hpa Ho. unfold pte_loc, pt_of. by rewrite Hpde. }
  split; [done| |done|].
  - intros o w Ho. rewrite <- (Hm o w Ho). unfold mmu. simpl.
    destruct (cr3 s !! this_cpu s) as [pa|] eqn:Hpa; [|done]. cbn [mbind option_bind].
    rewrite Hpde by done.
    assert (pte_of (set_mem m s) (PGNUM pa) (buf + o) = pte_of s (PGNUM pa) (buf + o)) as ->; [|done].
    unfold pte_of. rewrite Hloc by done. destruct (pte_loc s _ _) as [l|] eqn:El; [|done]. simpl.
    apply load32_ext. intros b Hb. apply Hs. specialize (Ht pa o l eq_refl Ho El). lia.
  - intros pa o l Hpa Ho. simpl in Hpa. rewrite Hloc by done. by apply Ht.
Qed.

Lemma line_buffer_dev s buf d : line_buffer s buf → line_buffer (set_dev d s) buf.
Proof. by intros [Hr Hm Hd Ht]; split. Qed.

Lemma read_buf s buf o :
  line_buffer s buf → 0 <= o < BUFLEN →
  vrd8 (buf + o) s = Done (mget (mem s) (buf - KERNBASE + o)) s.
Proof. intros H Ho. apply vrd8_Done. by apply (lb_mmu _ _ H). Qed.

Lemma write_buf s buf o v :
  line_buffer s buf → 0 <= o < BUFLEN →
  let m := <[buf - KERNBASE + o := u8 v]> (mem s) in
  vwr8 (buf + o) v s = Done tt (set_mem m s) ∧ same_outside buf (mem s) m ∧
  line_buffer (set_mem m s) buf.
Proof.
  intros H Ho m. assert (same_outside buf (mem s) m) as Hs.
  { intros a Ha. unfold m. rewrite mget_insert, decide_False by lia. done. }
  split; [|split; [done|by apply line_buffer_mem]].
  unfold vwr8. by rewrite run_get, (lb_mmu _ _ H).
Qed.

Lemma next_buf s buf o : line_buffer s buf → 0 <= o < BUFLEN → next (buf + o) = buf + (o + 1).
Proof.
  intros H Ho. destruct (lb_range _ _ H). change KERNBASE with 4026531840 in *.
  unfold BUFLEN in *. rewrite next_id by lia. lia.
Qed.
End buffer.

(** ** Editing a line *)

(** What a key does to the line, and what it shows on the screen. *)
Definition erases (line : list Z) (c : Z) : bool :=
  ((c =? BS) || (c =? DEL)) && negb (bool_decide (line = [])).
Definition appends (line : list Z) (c : Z) : bool :=
  (32 <=? c) && (Z.of_nat (length line) <? BUFLEN - 1).
Definition edit (line : list Z) (c : Z) : list Z :=
  if erases line c then take (length line - 1) line
  else if appends line c then line ++ [c] else line.
Definition echo (line : list Z) (c : Z) : DM unit :=
  if erases line c then cputchar BS else if appends line c then cputchar c else mret tt.

(** The console delivers the keys [cs] and then the end of the line, while what
    the keys show is printed; [line] has been typed before. *)
Inductive session (gfuel : nat) : list Z → list Z → devices → devices → Prop :=
  | session_end line nl d d1 d2 :
      nl = LF ∨ nl = CR → getchar gfuel d = Done nl d1 → cputchar LF d1 = Done tt d2 →
      session gfuel line [] d d2
  | session_key line c cs d d1 d2 d3 :
      0 < c < 256 → c ≠ LF → c ≠ CR → getchar gfuel d = Done c d1 → echo line c d1 = Done tt d2 →
      session gfuel (edit line c) cs d2 d3 → session gfuel line (c :: cs) d d3.

(** The characters of [line] are stored from [p] on. *)
Definition stored (m : memory) (p : Z) (line : list Z) : Prop :=
  ∀ k c, line !! k = Some c → mget m (p + Z.of_nat k) = c.

Section readline.
Implicit Types (s : kstate) (line : list Z).

Lemma stored_cstr m p line :
  stored m p line → Forall (λ c, 0 < c < 256) line → 0 <= p →
  p + Z.of_nat (length line) < 4294967296 → mget m (p + Z.of_nat (length line)) = 0 → cstr m p line.
Proof.
  intros Hs Hl. revert p Hs. induction Hl as [|c line Hc _ IH]; intros p Hs Hp Hr H0; simpl in *.
  { rewrite Z.add_0_r in H0. split; [done|lia]. }
  pose proof (Hs 0%nat c eq_refl) as H. rewrite Z.add_0_r in H. split_and!; [done|lia|done|].
  apply IH; [|lia|lia|rewrite <- H0; f_equal; lia]. intros k x Hk. rewrite <- (Hs (S k) x Hk). f_equal. lia.
Qed.

Lemma stored_write m p line v :
  stored m p line → stored (<[p + Z.of_nat (length line) := u8 v]> m) p line.
Proof.
  intros H k c Hk. pose proof (lookup_lt_Some _ _ _ Hk). rewrite mget_insert, decide_False by lia.
  by apply H.
Qed.

Lemma stored_app m p line c :
  stored m p line → 0 < c < 256 → stored (<[p + Z.of_nat (length line) := u8 c]> m) p (line ++ [c]).
Proof.
  intros H Hc k x Hk. apply lookup_app_Some in Hk as [Hk|[Hl Hk]].
  - by apply stored_write.
  - apply list_lookup_singleton_Some in Hk as [Hk ->].
    rewrite mget_insert, decide_True by lia. by rewrite u8_u8, u8_id by lia.
Qed.

Lemma edit_length line c : Z.of_nat (length line) < BUFLEN → Z.of_nat (length (edit line c)) < BUFLEN.
Proof.
  unfold edit, appends. intros H. destruct (erases line c); [rewrite length_take; lia|].
  destruct (Z.ltb_spec (Z.of_nat (length line)) (BUFLEN - 1)); rewrite ?andb_false_r; [|done].
  case_match; [|done]. rewrite length_app. simpl. lia.
Qed.

Lemma edit_bytes line c :
  0 < c < 256 → Forall (λ c, 0 < c < 256) line → Forall (λ c, 0 < c < 256) (edit line c).
Proof.
  intros Hc Hl. unfold edit. case_match; [by apply Forall_take|]. case_match; [|done].
  apply Forall_app. by split; [|constructor].
Qed.

(** What [readline_step] does with a key. *)
Lemma key_run gfuel sfuel buf line c d1 d2 s :
  line_buffer s buf → Z.of_nat (length line) < BUFLEN → stored (mem s) (buf - KERNBASE) line →
  0 < c < 256 → c ≠ LF → c ≠ CR → getchar gfuel (dev s) = Done c d1 → echo line c d1 = Done tt d2 →
  ∃ m, readline_step gfuel sfuel buf true (Z.of_nat (length line)) s =
      Done (inl (Z.of_nat (length (edit line c)))) (set_mem m (set_dev d2 s)) ∧
    same_outside buf (mem s) m ∧ stored m (buf - KERNBASE) (edit line c).
Proof.
  intros Hb Hlen Hst Hc Hlf Hcr Hg He. unfold readline_step.
  rewrite (bind_Done _ _ _ c (set_dev d1 s)) by (unfold dev_op; by rewrite Hg).
  rewrite (proj2 (Z.ltb_ge c 0)) by lia.
  assert ((0 <? Z.of_nat (length line)) = negb (bool_decide (line = []))) as ->.
  { destruct line; [done|]. by rewrite bool_decide_false. }
  change (((c =? BS) || (c =? DEL)) && negb (bool_decide (line = []))) with (erases line c).
  change ((32 <=? c) && (Z.of_nat (length line) <? BUFLEN - 1)) with (appends line c).
  unfold echo in He. unfold edit. destruct (erases line c) eqn:Ee.
  { assert (line ≠ []) as Hne.
    { intros ->. unfold erases in Ee. by rewrite bool_decide_true, andb_false_r in Ee. }
    rewrite (bind_Done _ _ _ tt (set_dev d2 s)) by (unfold dev_op; simpl; by rewrite He).
    exists (mem s). split.
    - assert (Z.of_nat (length (take (length line - 1) line)) = Z.of_nat (length line) - 1) as ->.
      { rewrite length_take. destruct line; [done|]. simpl. lia. }
      by destruct s.
    - split; [done|]. intros k x Hk. apply Hst. by apply lookup_take_Some in Hk as [Hk _]. }
  destruct (appends line c) eqn:Ea.
  { rewrite (bind_Done _ _ _ tt (set_dev d2 s)) by (unfold dev_op; simpl; by rewrite He).
    destruct (write_buf (set_dev d2 s) buf (Z.of_nat (length line)) c) as (Hw & Ho & _);
      [by apply line_buffer_dev|lia|]. rewrite (bind_Done _ _ _ _ _ Hw), ret_eq. eexists. split.
    - f_equal. f_equal. rewrite length_app. simpl. lia.
    - split; [done|]. by apply stored_app. }
  injection He as ->. apply Z.eqb_neq in Hlf as ->, Hcr as ->. exists (mem s).
  split; [by destruct s|done].
Qed.

(** What it does with the end of the line. *)
Lemma end_run gfuel sfuel buf line nl d1 d2 s :
  line_buffer s buf → Z.of_nat (length line) < BUFLEN → stored (mem s) (buf - KERNBASE) line →
  Forall (λ c, 0 < c < 256) line →
  nl = LF ∨ nl = CR → getchar gfuel (dev s) = Done nl d1 → cputchar LF d1 = Done tt d2 →
  ∃ m, readline_step gfuel sfuel buf true (Z.of_nat (length line)) s =
      Done (inr (Some buf)) (set_mem m (set_dev d2 s)) ∧
    same_outside buf (mem s) m ∧ cstr m (buf - KERNBASE) line.
Proof.
  intros Hb Hlen Hst Hby Hnl Hg He. unfold readline_step.
  rewrite (bind_Done _ _ _ nl (set_dev d1 s)) by (unfold dev_op; by rewrite Hg).
  assert (((nl =? LF) || (nl =? CR) = true) ∧ (nl <? 0) = false ∧
    ((nl =? BS) || (nl =? DEL)) = false ∧ (32 <=? nl) = false) as (-> & -> & -> & ->)
    by (destruct Hnl; subst nl; done).
  cbn [andb]. rewrite (bind_Done _ _ _ tt (set_dev d2 s)) by (unfold dev_op; simpl; by rewrite He).
  destruct (write_buf (set_dev d2 s) buf (Z.of_nat (length line)) 0) as (Hw & Ho & _);
    [by apply line_buffer_dev|lia|]. rewrite (bind_Done _ _ _ _ _ Hw).
  eexists. split; [done|]. split; [done|].
  destruct (lb_range _ _ Hb) as [H1 H2]. unfold KERNBASE, BUFLEN in H1, H2, Hlen.
  apply stored_cstr; [by apply stored_write|done|unfold KERNBASE; lia..|].
  by rewrite mget_insert, decide_True.
Qed.

(** The whole session. *)
Lemma session_run gfuel sfuel buf line cs d' fuel s :
  session gfuel line cs (dev s) d' → line_buffer s buf → Z.of_nat (length line) < BUFLEN →
  stored (mem s) (buf - KERNBASE) line → Forall (λ c, 0 < c < 256) line → (length cs < fuel)%nat →
  ∃ m, loop fuel NoFuel (readline_step gfuel sfuel buf true) (Z.of_nat (length line)) s =
      Done (Some buf) (set_mem m (set_dev d' s)) ∧
    same_outside buf (mem s) m ∧ cstr m (buf - KERNBASE) (foldl edit line cs).
Proof.
  intros H. remember (dev s) as d eqn:Ed. revert fuel s Ed.
  induction H as [line nl d d1 d2 Hnl Hg He|line c cs d d1 d2 d3 Hc Hlf Hcr Hg He _ IH];
    intros [|fuel] s -> Hb Hlen Hst Hby Hf; try (simpl in Hf; lia); rewrite loop_S.
  - destruct (end_run gfuel sfuel buf line nl d1 d2 s) as (m & Hk & Ho & Hc); [done..|].
    rewrite (bind_Done _ _ _ _ _ Hk). by exists m.
  - destruct (key_run gfuel sfuel buf line c d1 d2 s) as (m & Hk & Ho & Hst'); [done..|].
    rewrite (bind_Done _ _ _ _ _ Hk).
    destruct (IH fuel (set_mem m (set_dev d2 s))) as (m' & Hl & Ho' & Hc'); [done| | | | | |].
    + apply (line_buffer_mem (set_dev d2 s)); [by apply line_buffer_dev|done].
    + by apply edit_length.
    + done.
    + by apply edit_bytes.
    + simpl in Hf. lia.
    + exists m'. split; [by rewrite Hl|]. split; [|done]. etrans; [exact Ho|done].
Qed.
End readline.

(** ** Reading a line never leaves the buffer *)

(** However the computation ends, nothing outside the buffer has changed; when it
    returns, [Q] holds. *)
Definition safe {A} (buf : Z) (Q : A → kstate → Prop) (m : M A) (s : kstate) : Prop :=
  line_buffer s buf →
  match m s with
  | Done r s' => line_buffer s' buf ∧ same_outside buf (mem s) (mem s') ∧ Q r s'
  | Exit _ s' => same_outside buf (mem s) (mem s')
  end.

Section safety.
Context (buf : Z).
Implicit Types s : kstate.

Lemma safe_bind {A B} (m : M A) (k : A → M B) Q Q' s :
  safe buf Q m s → (∀ a s', Q a s' → safe buf Q' (k a) s') → safe buf Q' (m ≫= k) s.
Proof.
  intros Hm Hk Hb. specialize (Hm Hb). unfold mbind, comp_bind. destruct (m s) as [a s1|]; [|done].
  destruct Hm as (Hb1 & Ho & HQ). specialize (Hk a s1 HQ Hb1). destruct (k a s1) as [b s2|].
  - destruct Hk as (? & ? & ?). split_and!; [done|by etrans|done].
  - by etrans.
Qed.
Lemma safe_ret {A} (a : A) (Q : A → kstate → Prop) s : Q a s → safe buf Q (mret a) s.
Proof. intros H Hb. simpl. by split_and!. Qed.
Lemma safe_dev {A} (m : M A) s : within only_dev m → safe buf (λ _ _, True) m s.
Proof.
  intros Hm Hb. specialize (Hm s). destruct (m s) as [a s'|e s']; destruct Hm as [d E]; simpl in E; subst s'.
  - split_and!; [by apply line_buffer_dev|done..].
  - done.
Qed.
Lemma safe_write o v s :
  0 <= o < BUFLEN → safe buf (λ _ s', mget (mem s') (buf - KERNBASE + o) = u8 v) (vwr8 (buf + o) v) s.
Proof.
  intros Ho Hb. destruct (write_buf s buf o v Hb Ho) as (-> & H1 & H2). split_and!; [done..|].
  simpl. rewrite mget_insert, decide_True by done. apply u8_u8.
Qed.

(** Whatever character arrives. *)
Lemma safe_step gfuel sfuel echoing i s :
  0 <= i < BUFLEN →
  safe buf (λ r s', match r with
      | inl i' => 0 <= i' < BUFLEN
      | inr (Some p) => p = buf ∧ mget (mem s') (buf - KERNBASE + i) = 0
      | inr None => True
      end) (readline_step gfuel sfuel buf echoing i) s.
Proof.
  intros Hi. unfold readline_step.
  apply safe_bind with (Q := λ _ _, True); [apply safe_dev, within_dev_op|]. intros c s1 _.
  assert (∀ x s, safe buf (λ _ _, True) (if echoing then dev_op (cputchar x) else mret tt) s) as He.
  { intros x s'. destruct echoing; [apply safe_dev, within_dev_op|by apply safe_ret]. }
  destruct (c <? 0).
  { eapply safe_bind; [apply safe_dev, within_cprintf|]. intros. by apply safe_ret. }
  destruct (Z.ltb_spec 0 i) as [Hpos|Hpos]; [destruct ((c =? BS) || (c =? DEL))|rewrite andb_false_r]; simpl andb.
  { eapply safe_bind; [apply He|]. intros _ s2 _. apply safe_ret. lia. }
  all: destruct (32 <=? c); [destruct (Z.ltb_spec i (BUFLEN - 1))|]; simpl andb; cbv iota.
  all: try (destruct ((c =? LF) || (c =? CR))); try (apply safe_ret; lia).
  all: eapply safe_bind; [apply He|]; intros _ s2 _;
    (eapply safe_bind; [by apply safe_write|]); intros ? s3 H3; apply safe_ret; by (lia || split).
Qed.

Lemma safe_loop gfuel sfuel echoing fuel i s :
  0 <= i < BUFLEN →
  safe buf (λ r s', ∀ p, r = Some p → p = buf ∧ ∃ k, 0 <= k < BUFLEN ∧
      mget (mem s') (buf - KERNBASE + k) = 0)
    (loop fuel NoFuel (readline_step gfuel sfuel buf echoing) i) s.
Proof.
  revert i s. induction fuel as [|fuel IH]; intros i s Hi; [by intros Hb|].
  change (safe buf ?Q (loop (S fuel) NoFuel (readline_step gfuel sfuel buf echoing) i) s) with
    (safe buf Q (r ← readline_step gfuel sfuel buf echoing i;
       match r with inl x' => loop fuel NoFuel (readline_step gfuel sfuel buf echoing) x' | inr a => mret a end) s).
  eapply safe_bind; [by apply safe_step|]. intros [i'|[p|]] s1 H; cbv beta iota in H.
  - by apply IH.
  - apply safe_ret. intros p' [= <-]. destruct H. eauto.
  - by apply safe_ret.
Qed.

Lemma safe_readline fuel gfuel sfuel prompt s :
  safe buf (λ r s', ∀ p, r = Some p → p = buf ∧ ∃ k, 0 <= k < BUFLEN ∧
      mget (mem s') (buf - KERNBASE + k) = 0) (readline fuel gfuel sfuel buf prompt) s.
Proof.
  unfold readline. apply safe_bind with (Q := λ _ _, True).
  - destruct prompt; [|by apply safe_ret]. eapply safe_bind; [apply safe_dev, within_cprintf|].
    intros. by apply safe_ret.
  - intros _ s1 _. by apply safe_loop.
Qed.
End safety.

(** ** The prompt *)

Section prompt.
Implicit Types s : kstate.

Lemma str_put_lit str l fuel out w :
  Forall (λ c, 0 < c < 128) l → (length l < fuel)%nat →
  str_put collect (collect_rd str) Endless fuel (Lit l) (-1) w false out =
    Done (w - Z.of_nat (length l)) (out ++ l).
Proof.
  intros Hl. revert fuel out w. induction Hl as [|c l Hc _ IH]; intros [|fuel] out w Hf;
    try (simpl in Hf; lia); rewrite str_put_S; cbn [str_char].
  - rewrite run_ret. simpl. rewrite app_nil_r. f_equal. lia.
  - rewrite run_ret. change (default 0 (head (c :: l))) with c. unfold s8. rewrite Z.mod_small by lia.
    replace (c + 128 - 128) with c by lia. rewrite (proj2 (Z.eqb_neq c 0)) by lia. cbn [andb negb Z.ltb Z.compare].
    rewrite (bind_Done _ _ _ tt (out ++ [c])) by done. cbn [str_next tail]. rewrite IH by (simpl in Hf; lia).
    rewrite <- app_assoc. simpl. f_equal. lia.
Qed.

Lemma printed_lit str sfuel l :
  Forall (λ c, 0 < c < 128) l → (length l < sfuel)%nat →
  printed str sfuel (bytes_of "%s") [Lit l] = Some l.
Proof.
  intros Hl Hf.
  assert (print_string collect (collect_rd str) Endless sfuel no_flags (Lit l) [] = Done tt l) as H.
  { unfold print_string. rewrite bool_decide_false by done. cbn [width no_flags]. simpl andb. cbv iota.
    rewrite run_ret. cbn [precision altflag no_flags].
    rewrite (bind_Done _ _ _ _ _ (str_put_lit str l sfuel [] (-1) Hl Hf)). unfold pad.
    replace (Z.to_nat _) with 0%nat by lia. done. }
  unfold printed, vprintfmt. change (length (bytes_of "%s") + 1)%nat with 3%nat.
  rewrite (format_escape _ _ _ _ _ 2 _ (bytes_of "%s") 0) by reflexivity.
  rewrite (bind_Done _ _ _ (2%nat, []) l); [done|].
  change (length (bytes_of "%s") + 2)%nat with 4%nat.
  rewrite (escape_s _ _ _ _ _ 3 _ (bytes_of "%s") 1) by reflexivity.
  by rewrite (bind_Done _ _ _ _ _ H).
Qed.

Lemma for_each_putch l s d :
  for_each l cputchar (dev s) = Done tt d → for_each l putch s = Done tt (set_dev d s).
Proof.
  revert s. induction l as [|c l IH]; intros s; simpl.
  { intros [= <-]. by destruct s. }
  intros H. apply bind_inv in H as ([] & d1 & H1 & H).
  rewrite (bind_Done _ _ _ tt (set_dev d1 s)) by (unfold putch, dev_op; by rewrite H1).
  by rewrite (IH (set_dev d1 s)).
Qed.

Lemma prompt_run sfuel l s d :
  screen_ok s → Forall (λ c, 0 < c < 128) l → (length l < sfuel)%nat →
  for_each l cputchar (dev s) = Done tt d →
  cprintf sfuel (bytes_of "%s") [Lit l] s = Done 0 (set_dev d s).
Proof.
  intros Hs Hl Hf H. destruct (cprintf_prints (λ _, None) sfuel (bytes_of "%s") [Lit l] l s)
    as (d' & -> & _ & H'); [done|done|by apply printed_lit|].
  rewrite (for_each_putch _ _ _ H) in H'. by injection H' as ->.
Qed.
End prompt.

(** ** Splitting a line into arguments *)

(** The words of a line; [cur] is the word read so far. *)
Fixpoint words (cur l : list Z) : list (list Z) :=
  let flush ws := if bool_decide (cur = []) then ws else cur :: ws in
  match l with
  | [] => flush []
  | c :: l' => if bool_decide (c ∈ WHITESPACE) then flush (words [] l') else words (cur ++ [c]) l'
  end.

Section parsing.
Context (sfuel : nat) (buf : Z).
Implicit Types (s : kstate) (m : memory) (l w : list Z).

Abbreviation pb := (buf - KERNBASE).

Lemma is_white_spec c : 0 < c < 256 → is_white c = bool_decide (c ∈ WHITESPACE).
Proof.
  intros Hc. assert (c ∈ seqZ 1 255) as Hin by (apply elem_of_seqZ; lia).
  assert (Forall (λ c, is_white c = bool_decide (c ∈ WHITESPACE)) (seqZ 1 255)) as H by by_compute.
  by eapply Forall_forall in H.
Qed.

(** A string inside the buffer, at offset [o]. *)
Definition rest_at m (o : Z) l : Prop :=
  0 <= o ∧ o + Z.of_nat (length l) < BUFLEN ∧ cstr m (pb + o) l.

Lemma rest_at_cons m o c l :
  rest_at m o (c :: l) → mget m (pb + o) = c ∧ 0 < c < 256 ∧ rest_at m (o + 1) l ∧ 0 <= o < BUFLEN.
Proof.
  intros (Ho & Hl & Hs). cbn [length] in Hl. pose proof (cstr_bytes _ _ _ Hs) as Hb.
  apply Forall_cons in Hb as [Hc _]. destruct Hs as (H1 & _ & _ & Hs).
  split_and!; [done|lia|lia| |lia|lia]. split_and!; [lia|lia|]. by rewrite Z.add_assoc.
Qed.

Lemma rest_at_nil m o : rest_at m o [] → mget m (pb + o) = 0 ∧ 0 <= o < BUFLEN.
Proof. intros (Ho & Hl & Hs & _). simpl in Hl. split; [done|lia]. Qed.

(** Skipping blanks clears them. *)
Lemma gobble_run l o s :
  line_buffer s buf → rest_at (mem s) o l → (length l < sfuel)%nat →
  ∃ m o' l', gobble sfuel (buf + o) s = Done (buf + o') (set_mem m s) ∧
    same_outside buf (mem s) m ∧ line_buffer (set_mem m s) buf ∧ rest_at m o' l' ∧
    o <= o' ∧ (length l' <= length l)%nat ∧ (∀ a, a < pb + o → mget m a = mget (mem s) a) ∧
    words [] l' = words [] l ∧ (l' = [] ∨ ∃ c l'', l' = c :: l'' ∧ c ∉ WHITESPACE) ∧
    (mget (mem s) (pb + o) ∈ 0 :: WHITESPACE → mget m (pb + o) = 0).
Proof.
  unfold gobble. generalize sfuel as fuel. intros fuel. revert fuel o s.
  induction l as [|c l IH]; intros [|fuel] o s Hb Hr Hf; try (simpl in Hf; lia); rewrite loop_S, run_assoc.
  { destruct (rest_at_nil _ _ Hr) as [H0 Ho]. rewrite (bind_Done _ _ _ _ _ (read_buf s buf o Hb Ho)), H0.
    change (negb (0 =? 0)) with false. cbn [andb]. exists (mem s), o, []. rewrite run_ret. split; [by destruct s|].
    split_and!; first [done|by destruct s|by left]. }
  destruct (rest_at_cons _ _ _ _ Hr) as (Hc & Hcr & Hr' & Ho).
  rewrite (bind_Done _ _ _ _ _ (read_buf s buf o Hb Ho)), Hc.
  rewrite (proj2 (Z.eqb_neq c 0)), is_white_spec by lia. simpl andb.
  case_bool_decide as Hw.
  - destruct (write_buf s buf o 0 Hb Ho) as (Hwr & Hout & Hb1).
    rewrite run_assoc, (bind_Done _ _ _ _ _ Hwr), run_ret, (next_buf s buf o Hb Ho).
    set (m1 := <[pb + o := u8 0]> (mem s)) in *.
    destruct (IH fuel (o + 1) (set_mem m1 s)) as
      (m & o' & l' & H1 & H2 & H3 & H4 & H5 & H6 & H7 & H8 & H9 & H10); [done| |simpl in Hf; lia|].
    { destruct Hr' as (? & ? & Hs). split_and!; [lia|lia|]. apply (cstr_frame (mem s)); [|done].
      intros b Hbb. simpl. unfold m1. rewrite mget_insert, decide_False by lia. done. }
    exists m, o', l'. split; [by rewrite H1|].
    split_and!; [by etrans|done|done|lia|simpl; lia| | |done|].
    + intros a Ha. rewrite H7 by lia. simpl. unfold m1. by rewrite mget_insert, decide_False by lia.
    + rewrite H8. simpl. by rewrite bool_decide_true.
    + intros _. rewrite H7 by lia. simpl. unfold m1. by rewrite mget_insert, decide_True by lia.
  - exists (mem s), o, (c :: l). rewrite run_ret. split; [by destruct s|].
    split_and!; first [done|by destruct s|by right; eauto|idtac].
    rewrite Hc, elem_of_cons. intros [->|?]; [lia|done].
Qed.

(** Scanning a word changes nothing. *)
Lemma scan_run l o s :
  line_buffer s buf → rest_at (mem s) o l → (length l < sfuel)%nat →
  ∃ w l', scan_arg sfuel (buf + o) s = Done (buf + (o + Z.of_nat (length w))) s ∧
    l = w ++ l' ∧ Forall (.∉ WHITESPACE) w ∧ (l' = [] ∨ ∃ c l'', l' = c :: l'' ∧ c ∈ WHITESPACE) ∧
    rest_at (mem s) (o + Z.of_nat (length w)) l'.
Proof.
  unfold scan_arg. generalize sfuel as fuel. intros fuel. revert fuel o.
  induction l as [|c l IH]; intros [|fuel] o Hb Hr Hf; try (simpl in Hf; lia); rewrite loop_S, run_assoc.
  { destruct (rest_at_nil _ _ Hr) as [H0 Ho]. rewrite (bind_Done _ _ _ _ _ (read_buf s buf o Hb Ho)), H0.
    change (negb (0 =? 0)) with false. cbn [andb]. exists [], []. rewrite run_ret, Z.add_0_r. by split_and!; [..|left|]. }
  destruct (rest_at_cons _ _ _ _ Hr) as (Hc & Hcr & Hr' & Ho).
  rewrite (bind_Done _ _ _ _ _ (read_buf s buf o Hb Ho)), Hc.
  rewrite (proj2 (Z.eqb_neq c 0)), is_white_spec by lia. simpl andb.
  case_bool_decide as Hw; simpl negb; cbv iota.
  - exists [], (c :: l). rewrite run_ret, Z.add_0_r. split_and!; [done..|right; eauto|done].
  - rewrite run_ret, (next_buf s buf o Hb Ho).
    destruct (IH fuel (o + 1) Hb Hr') as (w & l' & H1 & -> & H3 & H4 & H5); [simpl in Hf; lia|].
    exists (c :: w), l'. cbn [length app]. replace (o + Z.of_nat (S (length w))) with (o + 1 + Z.of_nat (length w)) by lia.
    split_and!; [done|done|by constructor|done|done].
Qed.

(** An argument that has been found: its terminator may still have to be written
    at [o], where parsing goes on. *)
Definition found m o a w : Prop :=
  ∃ ow, a = buf + ow ∧ 0 <= ow ∧ ow + Z.of_nat (length w) <= o ∧ stored m (pb + ow) w ∧
    Forall (λ c, 0 < c < 256) w ∧
    (mget m (pb + ow + Z.of_nat (length w)) = 0 ∨ ow + Z.of_nat (length w) = o).
(** The argument is a string of its own. *)
Definition argument m a w : Prop := ∃ ow, a = buf + ow ∧ rest_at m ow w.

Lemma stored_frame m m' p w :
  (∀ a, p <= a < p + Z.of_nat (length w) → mget m' a = mget m a) → stored m p w → stored m' p w.
Proof. intros Hf Hs k c Hk. pose proof (lookup_lt_Some _ _ _ Hk). rewrite Hf by lia. by apply Hs. Qed.

Lemma cstr_stored m p l : cstr m p l → stored m p l.
Proof.
  revert p. induction l as [|c l IH]; intros p Hs k x Hk; [done|]. destruct Hs as (H1 & _ & _ & Hs).
  destruct k as [|k]; [injection Hk as <-; by rewrite Z.add_0_r|]. rewrite <- (IH _ Hs k x Hk). f_equal. lia.
Qed.

Lemma found_close m m' o argv ws :
  KERNBASE <= buf → buf + BUFLEN < 4294967296 → o < BUFLEN →
  (∀ a, a < pb + o → mget m' a = mget m a) → (ws ≠ [] → mget m' (pb + o) = 0) →
  Forall2 (found m o) argv ws →
  (∀ o', o <= o' → Forall2 (found m' o') argv ws) ∧ Forall2 (argument m') argv ws.
Proof.
  intros HK Hb Ho Hf H0 H.
  assert (∀ a w, found m o a w → ws ≠ [] →
    (∀ o', o <= o' → found m' o' a w) ∧ argument m' a w) as Hone.
  { intros a w (ow & -> & H1 & H2 & Hs & Hw & Ht) Hne. specialize (H0 Hne).
    assert (stored m' (pb + ow) w) as Hs' by (eapply stored_frame; [|exact Hs]; intros; apply Hf; lia).
    assert (mget m' (pb + ow + Z.of_nat (length w)) = 0) as H0'.
    { destruct (decide (ow + Z.of_nat (length w) = o)) as [E|E].
      - rewrite <- H0. f_equal. lia.
      - rewrite Hf by lia. destruct Ht as [Ht|Ht]; [done|lia]. }
    split; [intros o' Ho'; exists ow; split_and!; first [done|lia|by left]|].
    exists ow. split; [done|]. split_and!; [done|lia|].
    unfold KERNBASE, BUFLEN in *. apply stored_cstr; [done..|lia|lia|done]. }
  destruct ws as [|w0 ws0]; [apply Forall2_nil_inv_r in H as ->; by split|].
  split; [intros o' Ho'|]; (eapply Forall2_impl; [done|]); intros a w Haw; by apply Hone.
Qed.

Lemma words_app cur w l : Forall (.∉ WHITESPACE) w → words cur (w ++ l) = words (cur ++ w) l.
Proof.
  intros Hw. revert cur. induction Hw as [|c w Hc _ IH]; intros cur; simpl; [by rewrite app_nil_r|].
  rewrite bool_decide_false by done. by rewrite IH, <- app_assoc.
Qed.

Lemma words_word w l :
  w ≠ [] → Forall (.∉ WHITESPACE) w → (l = [] ∨ ∃ c l'', l = c :: l'' ∧ c ∈ WHITESPACE) →
  words [] (w ++ l) = w :: words [] l.
Proof.
  intros Hw Hn Hl. rewrite words_app by done. simpl app.
  destruct Hl as [->|(c & l'' & -> & Hc)]; simpl; rewrite (bool_decide_false (w = [])) by done; [done|].
  by rewrite !bool_decide_true.
Qed.

Definition parse_step : list Z * Z → M (list Z * Z + option (list Z)) := λ '(argv, buf),
  buf ← gobble sfuel buf;
  c ← vrd8 buf;
  if c =? 0 then mret (inr (Some argv)) else
  if Z.of_nat (length argv) =? MAXARGS - 1 then mret (inr None) else
  buf' ← scan_arg sfuel buf;
  mret (inl (argv ++ [buf], buf')).

(** The result of parsing: all the words, or none if there are too many. *)
Definition parsed m (W : list (list Z)) (r : option (list Z)) : Prop :=
  if decide (length W < 16)%nat then ∃ argv, r = Some argv ∧ Forall2 (argument m) argv W else r = None.

Lemma parse_loop n argv ws o l s :
  line_buffer s buf → rest_at (mem s) o l → Forall2 (found (mem s) o) argv ws →
  (l = [] ∨ (∃ c l'', l = c :: l'' ∧ c ∈ WHITESPACE) ∨ ws = []) →
  (length l < n)%nat → (length l < sfuel)%nat → (length ws < 16)%nat →
  ∃ m r, loop n NoFuel parse_step (argv, buf + o) s = Done r (set_mem m s) ∧
    same_outside buf (mem s) m ∧ line_buffer (set_mem m s) buf ∧ parsed m (ws ++ words [] l) r.
Proof.
  revert argv ws o l s. induction n as [|n IH]; intros argv ws o l s Hb Hr Hfd Hl Hn Hsf Hws; [lia|].
  rewrite loop_S. match goal with |- context [(parse_step _ ≫= ?k) s] => set (K := k) end.
  unfold parse_step. rewrite run_assoc.
  destruct (gobble_run l o s Hb Hr Hsf) as (m & o' & l' & H1 & H2 & H3 & H4 & H5 & H6 & H7 & H8 & H9 & H10).
  rewrite (bind_Done _ _ _ _ _ H1), run_assoc. destruct (lb_range _ _ Hb) as [HK HB].
  assert (o < BUFLEN) as Ho by (destruct Hr as (? & ? & _); lia).
  destruct (found_close (mem s) m o argv ws HK HB Ho H7) as [Hfd' Harg]; [|done|].
  { intros Hne. apply H10. rewrite elem_of_cons. destruct Hl as [->|[(c & l'' & -> & Hc)|?]]; [| |done].
    - left. apply (rest_at_nil _ _ Hr).
    - right. by destruct (rest_at_cons _ _ _ _ Hr) as [-> _]. }
  pose proof (Forall2_length _ _ _ Harg) as Hlen.
  destruct H9 as [->|(c & l'' & -> & Hc)].
  { destruct (rest_at_nil _ _ H4) as [H0 Ho']. rewrite (bind_Done _ _ _ _ _ (read_buf _ buf o' H3 Ho')).
    simpl mem. rewrite H0. simpl Z.eqb. cbv iota. rewrite run_ret. unfold K. exists m, (Some argv).
    split_and!; [done..|]. rewrite <- H8. simpl. rewrite app_nil_r. unfold parsed.
    rewrite decide_True by lia. eauto. }
  destruct (rest_at_cons _ _ _ _ H4) as (H0 & Hcr & _ & Ho').
  rewrite (bind_Done _ _ _ _ _ (read_buf _ buf o' H3 Ho')). simpl mem. rewrite H0.
  rewrite (proj2 (Z.eqb_neq c 0)) by lia.
  destruct (scan_run (c :: l'') o' (set_mem m s) H3 H4) as (w & l3 & G1 & G2 & G3 & G4 & G5); [lia|].
  assert (w ≠ []) as Hw.
  { intros ->. simpl in G2. destruct G4 as [->|(c3 & l4 & -> & ?)]; [done|]. by simplify_eq. }
  assert (words [] l = w :: words [] l3) as HW by (rewrite <- H8, G2; by apply words_word).
  destruct (Z.eqb_spec (Z.of_nat (length argv)) (MAXARGS - 1)) as [E|E].
  { rewrite run_ret. unfold K. exists m, None. split_and!; [done..|]. unfold parsed, MAXARGS in *.
    rewrite decide_False; [done|]. rewrite HW, length_app. simpl. lia. }
  rewrite run_assoc, (bind_Done _ _ _ _ _ G1), run_ret. unfold K. simpl mem in G5.
  assert (length (c :: l'') = length w + length l3)%nat as Hlw by (by rewrite G2, length_app).
  destruct w as [|w0 w']; [done|]. cbn [length] in Hlw, H6.
  destruct (IH (argv ++ [buf + o']) (ws ++ [w0 :: w']) (o' + Z.of_nat (length (w0 :: w'))) l3 (set_mem m s))
    as (m' & r & K1 & K2 & K3 & K4); [done|done| | |lia|lia| |].
  - apply Forall2_app.
    + apply Hfd'. lia.
    + constructor; [|constructor]. destruct H4 as (? & ? & Hs). rewrite G2 in Hs.
      exists o'. split_and!; [done|done|lia| | |by right].
      * intros k x Hk. apply (cstr_stored _ _ _ Hs). by apply lookup_app_l_Some.
      * apply cstr_bytes in Hs. by apply Forall_app in Hs as [? _].
  - destruct G4; [by left|]. right. by left.
  - rewrite length_app. simpl. unfold MAXARGS in E. lia.
  - exists m', r. split; [by rewrite K1|]. split; [by etrans|]. split; [done|].
    rewrite <- app_assoc in K4. by rewrite HW.
Qed.
End parsing.

(** ** Running a command *)

Section running.
Context (sfuel bfuel : nat) (sym : symbols) (ebp buf : Z).
Implicit Types (s : kstate) (m : memory) (l w : list Z).

Lemma strcmp_name_run name w ow s :
  line_buffer s buf → rest_at buf (mem s) ow w → Forall (λ c, 0 < c < 256) name →
  ∃ r, strcmp_name (buf + ow) name s = Done r s ∧ (r = 0 ↔ w = name).
Proof.
  intros Hb Hr Hn. revert w ow Hr. induction Hn as [|b name Hb0 _ IH]; intros w ow Hr; cbn [strcmp_name].
  - destruct w as [|c w].
    + destruct (rest_at_nil _ _ _ Hr) as [H0 Ho]. rewrite (bind_Done _ _ _ _ _ (read_buf s buf ow Hb Ho)), H0.
      exists 0. done.
    + destruct (rest_at_cons _ _ _ _ _ Hr) as (H0 & Hc & _ & Ho).
      rewrite (bind_Done _ _ _ _ _ (read_buf s buf ow Hb Ho)), H0. exists c. split; [done|]. split; [lia|done].
  - destruct w as [|c w].
    + destruct (rest_at_nil _ _ _ Hr) as [H0 Ho]. rewrite (bind_Done _ _ _ _ _ (read_buf s buf ow Hb Ho)), H0.
      exists (0 - b). split; [done|]. split; [lia|done].
    + destruct (rest_at_cons _ _ _ _ _ Hr) as (H0 & Hc & Hr' & Ho).
      rewrite (bind_Done _ _ _ _ _ (read_buf s buf ow Hb Ho)), H0, (proj2 (Z.eqb_neq c 0)) by lia.
      destruct (Z.eqb_spec c b) as [->|Hne]; cbn [negb andb].
      * rewrite (next_buf s buf ow Hb Ho). destruct (IH w (ow + 1) Hr') as (r & H1 & H2).
        exists r. split; [done|]. rewrite H2. split; [by intros ->|by intros [= ->]].
      * exists (c - b). split; [done|]. split; [lia|by intros [= ->]].
Qed.

(** The first command with the given name. *)
Definition find_command (w : list Z) (cs : list Command) : option Command :=
  List.find (λ c, bool_decide (w = bytes_of (cmd_name c))) cs.

Lemma lookup_command_run cs w ow s :
  line_buffer s buf → rest_at buf (mem s) ow w →
  Forall (λ c, Forall (λ b, 0 < b < 256) (bytes_of (cmd_name c))) cs →
  lookup_command (buf + ow) cs s = Done (find_command w cs) s.
Proof.
  intros Hb Hr Hcs. induction Hcs as [|c cs Hc _ IH]; cbn [lookup_command]; [done|].
  destruct (strcmp_name_run _ w ow s Hb Hr Hc) as (r & H1 & H2). rewrite (bind_Done _ _ _ _ _ H1).
  unfold find_command. cbn [List.find]. case_bool_decide as E.
  - rewrite (proj2 (Z.eqb_eq r 0)) by (by apply H2). done.
  - rewrite (proj2 (Z.eqb_neq r 0)) by (by intros ?%H2). exact IH.
Qed.

Lemma commands_names : Forall (λ c, Forall (λ b, 0 < b < 256) (bytes_of (cmd_name c)))
  (commands sfuel bfuel sym ebp).
Proof. repeat constructor; by_compute. Qed.

(** What the interpreter does with the words of the line. *)
Definition interpret (W : list (list Z)) (argv : list Z) : M Z :=
  if decide (length W < 16)%nat then
    match W, argv with
    | w0 :: _, a0 :: _ =>
        match find_command w0 (commands sfuel bfuel sym ebp) with
        | Some c => cmd_func c
        | None => printf sfuel "Unknown command '%s'" [Word a0] ;; mret 0
        end
    | _, _ => mret 0
    end
  else printf sfuel "Too many arguments (max %d)" [Word MAXARGS] ;; mret 0.

Lemma runcmd_run l s :
  line_buffer s buf → rest_at buf (mem s) 0 l → (length l < sfuel)%nat →
  ∃ m argv, runcmd sfuel bfuel sym ebp buf s = interpret (words [] l) argv (set_mem m s) ∧
    same_outside buf (mem s) m ∧ line_buffer (set_mem m s) buf ∧
    ((length (words [] l) < 16)%nat → Forall2 (argument buf m) argv (words [] l)).
Proof.
  intros Hb Hr Hf. unfold runcmd, parse_args.
  destruct (parse_loop sfuel buf sfuel [] [] 0 l s Hb Hr) as (m & r & H1 & H2 & H3 & H4);
    [constructor|by right; right|lia|lia|simpl; lia|].
  rewrite Z.add_0_r in H1. unfold parse_step in H1. rewrite (bind_Done _ _ _ _ _ H1). simpl app in H4. unfold parsed in H4.
  unfold interpret. case_decide as Hw; [|subst r; by exists m, []].
  destruct H4 as (argv & -> & Ha). exists m, argv. split_and!; [|done..].
  destruct Ha as [|a w argv ws (ow & -> & Hr') Ha]; [done|].
  by rewrite (bind_Done _ _ _ _ _ (lookup_command_run _ w ow (set_mem m s) H3 Hr' commands_names)).
Qed.

(** Every command returns 0. *)
Definition returns_0 (m : M Z) : Prop := ∀ s r s', m s = Done r s' → r = 0.

Lemma returns_0_bind {A} (m : M A) k : (∀ a, returns_0 (k a)) → returns_0 (m ≫= k).
Proof. intros Hk s r s' H. apply bind_inv in H as (a & s1 & _ & H). by eapply Hk. Qed.
Lemma returns_0_ret : returns_0 (mret 0).
Proof. by intros s r s' [= <- _]. Qed.

Lemma mon_help_0 : returns_0 (mon_help sfuel bfuel sym ebp).
Proof.
  unfold mon_help. induction (command_table _ _ _ _ _) as [|c cs IH]; simpl foldr; [apply returns_0_ret|].
  by apply returns_0_bind.
Qed.
Lemma mon_kerninfo_0 : returns_0 (mon_kerninfo sfuel sym).
Proof. unfold mon_kerninfo. cbv zeta. do 6 (apply returns_0_bind; intros _). apply returns_0_ret. Qed.
Lemma mon_backtrace_0 : returns_0 (mon_backtrace sfuel bfuel sym ebp).
Proof. unfold mon_backtrace. do 2 (apply returns_0_bind; intros _). apply returns_0_ret. Qed.

Lemma command_returns_0 c : c ∈ commands sfuel bfuel sym ebp → returns_0 (cmd_func c).
Proof.
  unfold commands, command_table. rewrite !elem_of_cons, elem_of_nil.
  intros [->|[->|[->|[]]]]; [apply mon_help_0|apply mon_kerninfo_0|apply mon_backtrace_0].
Qed.

Lemma lookup_command_in p cs s c s' : lookup_command p cs s = Done (Some c) s' → c ∈ cs.
Proof.
  revert s. induction cs as [|x cs IH]; intros s; cbn [lookup_command]; [done|].
  intros H. apply bind_inv in H as (v & s1 & _ & H).
  destruct (v =? 0); [injection H as -> _; by left|]. right. by eapply IH.
Qed.

Lemma runcmd_returns_0 p : returns_0 (runcmd sfuel bfuel sym ebp p).
Proof.
  unfold runcmd. apply returns_0_bind. intros [[|a0 argv]|]; [apply returns_0_ret| |].
  - intros s r s' H. apply bind_inv in H as ([c|] & s1 & H1 & H).
    + apply lookup_command_in in H1. by eapply command_returns_0.
    + by eapply returns_0_bind; [|exact H]; intros; apply returns_0_ret.
  - apply returns_0_bind. intros. apply returns_0_ret.
Qed.
End running.

(** ** Properties *)

(** whatever characters arrive and however often it is interrupted by the end
    of the model's fuel, readline changes no byte outside its 1024-byte buffer;
    when it returns a line it returns the buffer, with a terminator inside it. *)
Theorem readline_safe fuel gfuel sfuel buf prompt s :
  line_buffer s buf →
  same_outside buf (mem s) (mem (final (readline fuel gfuel sfuel buf prompt s))) ∧
  ∀ p s', readline fuel gfuel sfuel buf prompt s = Done (Some p) s' →
    p = buf ∧ ∃ k, 0 <= k < BUFLEN ∧ mget (mem s') (buf - KERNBASE + k) = 0.
Proof.
  intros Hb. pose proof (safe_readline buf fuel gfuel sfuel prompt s Hb) as H.
  destruct (readline _ _ _ _ _ s) as [r s1|e s1]; [|by split].
  destruct H as (_ & Ho & HQ). split; [done|]. intros p s' [= -> ->]. by apply HQ.
Qed.

(** C29: when the console delivers the keys [cs], nonzero bytes other than newline
    and carriage return, and then one of those two, readline returns the line that
    editing with the keys gives, as a C string in the buffer: a backspace or a
    delete removes the last character of a line that has one; every other byte
    from 32 up, a delete on an empty line and the bytes from 128 to 255 included,
    is appended unless the line has 1023 characters already; the bytes below 32,
    a backspace on an empty line included, are ignored.  It prints the prompt and
    the echo of each key that changed the line, and changes nothing else. *)
Theorem readline_edits fuel gfuel sfuel buf prompt cs d d' s :
  line_buffer s buf → screen_ok s →
  Forall (λ c, 0 < c < 128) prompt → (length prompt < sfuel)%nat →
  for_each prompt cputchar (dev s) = Done tt d →
  session gfuel [] cs d d' → (length cs < fuel)%nat →
  ∃ m, readline fuel gfuel sfuel buf (Some prompt) s = Done (Some buf) (set_mem m (set_dev d' s)) ∧
    same_outside buf (mem s) m ∧ cstr m (buf - KERNBASE) (foldl edit [] cs).
Proof.
  intros Hb Hs Hp Hf Hd Hses Hfuel. unfold readline.
  rewrite run_assoc, (bind_Done _ _ _ _ _ (prompt_run sfuel prompt s d Hs Hp Hf Hd)), run_ret.
  destruct (session_run gfuel sfuel buf [] cs d' fuel (set_dev d s)) as (m & H1 & H2 & H3);
    [done|by apply line_buffer_dev|done|done|done|done|].
  exists m. split; [exact H1|]. by split.
Qed.

(** C28: runcmd splits the line at blanks, tabs, carriage returns and newlines and
    calls the command that the first word names, with every word as a C string of
    its own; an empty line does nothing, an unknown command and more than fifteen
    words are reported.  It writes only inside the buffer that holds the line. *)
Theorem runcmd_interprets sfuel bfuel sym ebp buf l s :
  line_buffer s buf → cstr (mem s) (buf - KERNBASE) l → Z.of_nat (length l) < BUFLEN →
  (length l < sfuel)%nat →
  ∃ m argv, runcmd sfuel bfuel sym ebp buf s =
      interpret sfuel bfuel sym ebp (words [] l) argv (set_mem m s) ∧
    same_outside buf (mem s) m ∧
    ((length (words [] l) < 16)%nat → Forall2 (argument buf m) argv (words [] l)).
Proof.
  intros Hb Hl Hlen Hf. destruct (runcmd_run sfuel bfuel sym ebp buf l s) as (m & argv & H1 & H2 & _ & H4);
    [done| |done|].
  - split_and!; [done|lia|]. by rewrite Z.add_0_r.
  - by exists m, argv.
Qed.

(** no command makes the monitor return, whatever is typed: entering it ends
    every kernel path that does so. *)
Theorem monitor_never_returns sfuel bfuel sym ebp fuel lfuel gfuel buf last_tf tf s s' :
  monitor sfuel bfuel sym ebp fuel lfuel gfuel buf last_tf tf s ≠ Done tt s'.
Proof.
  unfold monitor. intros H. do 3 apply bind_inv in H as ([] & ? & _ & H).
  revert H. generalize x1. clear. induction fuel as [|fuel IH]; intros s; [done|].
  rewrite loop_S, run_assoc. intros H. apply bind_inv in H as ([line|] & s1 & _ & H).
  - rewrite run_assoc in H. apply bind_inv in H as (r & s2 & Hr & H).
    apply runcmd_returns_0 in Hr as ->. by apply IH in H.
  - by apply IH in H.
Qed.

(** ** Concrete instances *)

(** A kernel whose buffer is page 5, mapped by the directory in page 1 and the
    table in page 2; "help", a slip and a correction wait in the input. *)
Definition ex_buf : Z := KERNBASE + 5 * 4096 + 100.
Definition ex_keys : list Z := [DEL; BS; 104; 101; 108; 113; BS; 112].
Definition ex_monitor : kstate :=
  set_dev (foldl (flip cons_store) (zero_devices []) (ex_keys ++ [CR]))
    (set_mem (store32 (store32 ∅ (4096 + 4 * PDX KERNBASE) (2 * 4096 + 3)) (2 * 4096 + 4 * 5) (5 * 4096 + 3))
      (set_cr3 {[ 0 := 4096 ]} zero_kstate)).

Lemma ex_line_buffer : line_buffer ex_monitor ex_buf.
Proof.
  split.
  - by_compute.
  - assert (∀ o, 0 <= o < BUFLEN → mmu ex_monitor (ex_buf + o) true = Some (ex_buf - KERNBASE + o) ∧
      mmu ex_monitor (ex_buf + o) false = Some (ex_buf - KERNBASE + o)) as H by by_compute.
    intros o [] Ho; by apply H.
  - intros pa o Hpa Ho. assert (pa = 4096) as -> by (by injection Hpa).
    revert o Ho. by_compute.
  - intros pa o l Hpa Ho. assert (pa = 4096) as -> by (by injection Hpa).
    assert (∀ o, 0 <= o < BUFLEN → pte_loc ex_monitor 1 (ex_buf + o) = Some 8212) as H by by_compute.
    change (PGNUM 4096) with 1. rewrite (H o Ho). intros [= <-]. by_compute.
Qed.

Lemma readline_safe_witness :
  same_outside ex_buf (mem ex_monitor) (mem (final (readline 9 1 100 ex_buf None ex_monitor))).
Proof. apply (readline_safe 9 1 100 ex_buf None ex_monitor ex_line_buffer). Defined.

(** The delete key on an empty line is taken for a character. *)
Example ex_line : foldl edit [] ex_keys = bytes_of "help" ∧ edit [] DEL = [DEL].
Proof. done. Qed.

Definition ex_prompted : devices :=
  dev (final (for_each (bytes_of "K> ") putch ex_monitor)).

Lemma ex_session : ∃ d', session 1 [] ex_keys ex_prompted d'.
Proof.
  eexists. unfold ex_keys.
  do 8 (eapply session_key;
    [by_compute|done|done|vm_compute; reflexivity|vm_compute; reflexivity|]).
  eapply session_end; [by right|vm_compute; reflexivity|vm_compute; reflexivity].
Qed.

Lemma readline_edits_witness :
  ∃ m s', readline 9 1 100 ex_buf (Some (bytes_of "K> ")) ex_monitor = Done (Some ex_buf) s' ∧
    mem s' = m ∧ cstr m (ex_buf - KERNBASE) (bytes_of "help").
Proof.
  destruct ex_session as [d' H].
  destruct (readline_edits 9 1 100 ex_buf (bytes_of "K> ") ex_keys ex_prompted d' ex_monitor)
    as (m & H1 & _ & H3); [exact ex_line_buffer|by_compute|by_compute|by_compute|by vm_compute|exact H|by_compute|].
  exists m, (set_mem m (set_dev d' ex_monitor)). split; [exact H1|]. split; [reflexivity|exact H3].
Defined.

(** A line with three words. *)
Definition ex_command : kstate :=
  set_mem (write_bytes (mem ex_monitor) (ex_buf - KERNBASE) (bytes_of " go to  sleep " ++ [0])) ex_monitor.

Lemma runcmd_interprets_witness :
  ∃ m argv, Forall2 (argument ex_buf m) argv [bytes_of "go"; bytes_of "to"; bytes_of "sleep"] ∧
    runcmd 100 9 (mkSymbols 0 0 0 0 (mkUserStabData 0 0 0 0)) 0 ex_buf ex_command =
      (printf 100 "Unknown command '%s'" [Word (default 0 (head argv))] ;; mret 0) (set_mem m ex_command).
Proof.
  destruct (runcmd_interprets 100 9 (mkSymbols 0 0 0 0 (mkUserStabData 0 0 0 0)) 0 ex_buf
    (bytes_of " go to  sleep ") ex_command) as (m & argv & H1 & _ & H3).
  - apply (line_buffer_mem ex_monitor ex_buf); [exact ex_line_buffer|].
    intros a Ha. rewrite mget_write_bytes, decide_False; [reflexivity|].
    assert (length (bytes_of " go to  sleep " ++ [0]) = 15%nat) as -> by reflexivity.
    unfold BUFLEN in Ha. lia.
  - by_compute.
  - by_compute.
  - by_compute.
  - assert (words [] (bytes_of " go to  sleep ") = [bytes_of "go"; bytes_of "to"; bytes_of "sleep"]) as E
      by by_compute.
    rewrite E in H1, H3. exists m, argv. split; [apply H3; by_compute|]. rewrite H1.
    specialize (H3 ltac:(by_compute)). destruct argv as [|a argv]; [by inversion H3|]. reflexivity.
Defined.
