(* ===== verification/Init.v ===== *)
(** * Starting the kernel: kern/init.c and kern/mpentry.S

    [i386_init] on the boot processor, the start of the other processors by
    [boot_aps] and [mp_main], and [_panic] and [_warn].  What the linker decides
    ([link]) and the processors that answer a STARTUP message are parameters.

    A processor that is started runs until it has to wait for the kernel lock,
    which the boot processor holds, while the boot processor polls its status:
    [on_cpu] runs it to that point.  The log of local-APIC writes is shared by all
    processors. *)

From S2P Require Import Prelude Devices Console Strings Printfmt Machine Segments Spinlock PageAlloc.
From S2P Require Import Lapic Pmap Env Sched Kprintf Trap Mpconfig MemInit BootMemory Kdebug Monitor.
From stdpp Require Import base numbers list gmap fin_maps strings.

Local Open Scope Z_scope.

(** Addresses of symbols of the kernel image: the page of entry code for the other
    processors with its descriptor table, the initial page directory (physical),
    and the binaries of the first environments with their sizes. *)
Record link : Type := mkLink {
  ln_edata : Z;
  ln_end : Z;
  ln_bootstack : Z;
  ln_percpu_kstacks : Z;
  ln_entry_pgdir : Z;
  ln_mpentry_start : Z;
  ln_mpentry_end : Z;
  ln_mpentry_gdt : Z;
  ln_user_idle : Z * Z;
  ln_user_primes : Z * Z
}.

Section init.
Variables (im : image) (ln : link) (sfuel : nat) (answers : Z → bool).

(** ** The other processors *)

(** [mpentry_start] in kern/mpentry.S, up to the call of [mp_main]. *)
Definition mpentry : M unit :=
  lgdt (mkPseudodesc 0x17 (ln_mpentry_gdt ln - ln_mpentry_start ln + MPENTRY_PADDR)) ;;
  upd_segregs (set_seg_cs 0x8) ;;
  upd_segregs (set_seg_ds 0x10) ;;
  upd_segregs (set_seg_es 0x10) ;;
  upd_segregs (set_seg_ss 0x10) ;;
  upd_segregs (set_seg_fs 0) ;;
  upd_segregs (set_seg_gs 0) ;;
  lcr3 (ln_entry_pgdir ln) ;;
  modify (λ s, set_kstack (<[this_cpu s := mpentry_kstack s]> (kstack s)) s).

(** [mp_main] before it asks for the lock. *)
Definition mp_setup : M unit :=
  k ← gets kern_pgdir;
  pa ← PADDR k;
  lcr3 pa ;;
  n ← cpunum;
  cprintf sfuel (text "SMP: CPU %d starting") [Word n] ;;
  lapic_init ;;
  env_init_percpu im ;;
  trap_init_percpu im ;;
  n ← cpunum;
  upd_cpu (set_cpu_status CPU_STARTED) n.

Definition mp_main : M unit :=
  mp_setup ;;
  lock_kernel ;;
  sched_yield.

(** Processor [i] runs [m] until it waits or stops; the running one goes on. *)
Definition on_cpu (i : Z) (m : M unit) : M unit := λ s,
  match m (set_this_cpu i s) with
  | Done _ s' | Exit _ s' => Done tt (set_this_cpu (this_cpu s) s')
  end.

(** One round of the loop of [boot_aps]. *)
Definition boot_ap (code c : Z) : M unit :=
  modify (set_mpentry_kstack (ln_percpu_kstacks ln + KSTKSIZE * c + KSTKSIZE)) ;;
  x ← get_cpu c;
  pa ← PADDR code;
  lapic_startap (cpu_id x) pa ;;
  (if answers (cpu_id x) then on_cpu (cpu_id x) (mpentry ;; mp_main) else mret tt) ;;
  x ← get_cpu c;
  if cpu_status x =? CPU_STARTED then mret tt else leave Spinning.

Definition boot_aps : M unit :=
  code ← KADDR MPENTRY_PADDR;
  kmemmove code (ln_mpentry_start ln) (ln_mpentry_end ln - ln_mpentry_start ln) ;;
  n ← gets ncpu;
  loop (S (Z.to_nat n)) NoFuel (λ c,
    n ← gets ncpu;
    if c <? n then
      me ← cpunum;
      (if c =? me then mret tt else boot_ap code c) ;;
      mret (inl (c + 1))
    else mret (inr tt)) 0.

(** ** The boot processor *)

(** [memset (edata, 0, end - edata)]: the static variables without an
    initial value, in memory and in the records of the model. *)
Definition clear_bss : M unit :=
  kmemset (ln_edata ln) 0 (ln_end ln - ln_edata ln) ;;
  modify (λ s, set_npages 0 (set_npages_basemem 0 (set_nAvailPages 0 (set_nextfree 0
    (set_pages_kva 0 (set_page_free_list None (set_tail_free_page None (set_kern_pgdir 0
    (set_user_mem_check_addr 0 (set_envs_kva 0 (set_env_free_list None s))))))))))) ;;
  modify (λ s, set_cpus (list_to_map ((λ i, (i, mkCpu 0 0 None 0 0)) <$> seqZ 0 NCPU))
    (set_idt ∅ (set_ncpu 0 (set_ismp false (set_bootcpu None (set_panicstr false
    (set_mpentry_kstack 0 (set_apic (set_lapic 0 (apic s)) s)))))))) ;;
  modify (λ s, let d := dev s in
    set_dev (set_pic_didinit false (set_serial_exists false (set_addr_6845 0 (set_crt_pos 0
      (set_kbd_shift 0 (set_cons_buf ∅ (set_cons_rpos 0 (set_cons_wpos 0 d)))))))) s).

(** [i386_init] before [mem_init]. *)
Definition init_console : M Z :=
  clear_bss ;;
  dev_op cons_init ;;
  cprintf sfuel (text "6828 decimal is %o octal!") [Word 6828].

(** [i386_init] after [mem_init], up to the start of the other processors. *)
Definition init_cpus : M unit :=
  env_init im ;;
  trap_init im ;;
  mp_init ;;
  lapic_init ;;
  dev_op pic_init ;;
  lock_kernel ;;
  boot_aps.

Definition create_envs : M unit :=
  for_each (seqZ 0 NCPU) (λ _, env_create (ln_user_idle ln).1 (ln_user_idle ln).2 ENV_TYPE_IDLE) ;;
  env_create (ln_user_primes ln).1 (ln_user_primes ln).2 ENV_TYPE_USER.

Definition i386_init (cr0 : Z) : M unit :=
  init_console ;;
  mem_init (ln_end ln) (ln_bootstack ln) (ln_percpu_kstacks ln) cr0 ;;
  init_cpus ;;
  create_envs ;;
  sched_yield.
End init.

#[global] Arguments init_console : simpl never.
#[global] Arguments boot_ap : simpl never.
#[global] Arguments mp_setup : simpl never.
#[global] Arguments on_cpu : simpl never.

(** ** The local APIC *)

(** Only the registers of the local APIC are written. *)
Definition only_apic (s s' : kstate) : Prop := ∃ a, s' = set_apic a s ∧ lapic a = lapic (apic s).

#[export] Instance only_apic_preorder : PreOrder only_apic.
Proof.
  split; [intros s; exists (apic s); by destruct s|].
  intros s1 s2 s3 (a & -> & Ha) (b & -> & Hb). exists b. split; [done|]. simpl in Hb. congruence.
Qed.

(** [m] returns from every state, in a state related to it by [R]. *)
Definition returns {A} (R : relation kstate) (m : M A) : Prop := ∀ s, ∃ a s', m s = Done a s' ∧ R s s'.

Section returns.
Context (R : relation kstate) `{!PreOrder R}.

Lemma returns_bind {A B} (m : M A) (k : A → M B) : returns R m → (∀ a, returns R (k a)) → returns R (m ≫= k).
Proof.
  intros Hm Hk s. destruct (Hm s) as (a & s1 & H1 & R1). destruct (Hk a s1) as (b & s2 & H2 & R2).
  exists b, s2. split; [by rewrite (bind_Done _ _ _ _ _ H1)|by etrans].
Qed.
Lemma returns_ret {A} (a : A) : returns R (mret a).
Proof. intros s. by exists a, s. Qed.
Lemma returns_get : returns R get.
Proof. intros s. by exists s, s. Qed.
Lemma returns_modify f : (∀ s, R s (f s)) → returns R (modify f).
Proof. intros Hf s. by exists tt, (f s). Qed.
End returns.

Lemma returns_lapicw i v : returns only_apic (lapicw i v).
Proof. apply returns_modify. intros s. by eexists. Qed.
Lemma returns_lapic_rd i : returns only_apic (lapic_rd i).
Proof.
  intros s. unfold lapic_rd. rewrite run_get. destruct (lapic_in (apic s)) as [|v l]; [by exists 0, s|].
  rewrite run_modify. eexists _, _. split; [done|]. by eexists.
Qed.
Lemma returns_wait_delivery : returns only_apic wait_delivery.
Proof. intros s. destruct (wait_delivery_run s) as [l Hl]. eexists _, _. split; [done|]. by eexists. Qed.

Ltac returns_tac :=
  repeat first [ apply returns_lapicw | apply returns_lapic_rd | apply returns_wait_delivery
    | apply (returns_ret _) | apply (returns_get _) | apply (returns_bind _); [|intros ?] | case_match ].

Lemma lapic_init_run s : ∃ a, lapic_init s = Done tt (set_apic a s) ∧ lapic a = lapic (apic s).
Proof.
  assert (returns only_apic lapic_init) as H by (unfold lapic_init; returns_tac).
  destruct (H s) as ([] & s' & Hs & a & -> & Ha). by exists a.
Qed.

(** The message that starts a processor, and the warm-reset vector. *)
Definition warm_reset (m : memory) (addr : Z) : memory :=
  <[0x469 := u8 (Z.shiftr addr 4)]> (<[0x46A := u8 (Z.shiftr addr 4 / 256)]> (<[0x467 := 0]> (<[0x468 := 0]> m))).

Lemma lapic_startap_run apicid addr s :
  0 < npages s <= 65536 →
  ∃ a d, lapic_startap apicid addr s = Done tt (set_apic a (set_dev d (set_mem (warm_reset (mem s) addr) s))) ∧
    lapic a = lapic (apic s) ∧ crt_pos d = crt_pos (dev s) ∧
    ∃ l, lapic_out a = (ICRLO, u32 (Z.lor STARTUP (Z.shiftr addr 12))) :: (ICRHI, u32 (Z.shiftl apicid 24)) :: l.
Proof.
  intros Hn. unfold lapic_startap, dev_op, outb, lapicw. unfold mbind at 1, comp_bind at 1, modify at 1. simpl.
  unfold mbind at 1, comp_bind at 1, modify at 1. simpl.
  rewrite run_KADDR; [|by_compute|simpl; change (PGNUM _) with 0; lia|simpl; lia].
  unfold wr16. simpl. run. unfold modify. eexists _, _. split; [apply ret_state; apply kstate_eq; try reflexivity|].
  split; [reflexivity|]. split; [reflexivity|]. eexists. reflexivity.
Qed.

(** ** A processor sets itself up *)

Section setup.
Variables (im : image) (ln : link) (sfuel : nat).
Implicit Types (s : kstate) (i : Z).

Lemma cpu_message_run i s :
  0 <= i < NCPU → screen_ok s →
  ∃ d, cprintf sfuel (text "SMP: CPU %d starting") [Word i] s = Done 0 (set_dev d s) ∧ 0 <= crt_pos d < CRT_SIZE.
Proof.
  unfold NCPU. intros Hi Hs.
  destruct (cprintf_prints (λ _, None) sfuel (text "SMP: CPU %d starting") [Word i]
    (bytes_of "SMP: CPU " ++ [48 + i] ++ bytes_of " starting" ++ [LF]) s Hs) as (d & Hd & Hc & _); [done| |by exists d].
  assert (i ∈ seqZ 0 8) as Hin by (apply elem_of_seqZ; lia). clear Hi. revert i Hin.
  apply (Forall_forall _ (seqZ 0 8)). repeat (constructor; [vm_compute; reflexivity|]). constructor.
Qed.

(** The registers of a processor that runs the kernel. *)
Definition kernel_regs i : SegRegs :=
  mkSegRegs 0x23 0x23 0x10 0x10 0x10 0x08 0 (8 * (5 + i)) (gdt_pd im) (idt_pd im).

(** Its task-state descriptor. *)
Definition tss_desc i : Segdesc :=
  set_sd_type 11 (set_sd_s 0 (SEG16 STS_T32A (cpu_ts_addr im i) SIZEOF_TASKSTATE 0)).

(** Its entry of [cpus]. *)
Definition started_cpu i (c : Cpu) : Cpu :=
  set_cpu_status CPU_STARTED (set_ts_ss0 GD_KD (set_ts_esp0 (KSTACKTOP - 65536 * i) c)).

(** [s'] is [s] after processor [i] has set itself up; [c] is its entry before. *)
Definition set_up i (c : Cpu) s a d : kstate :=
  set_apic a (set_dev d
    (set_cr3 (<[i := kern_pgdir s - KERNBASE]> (cr3 s))
      (set_segregs (<[i := kernel_regs i]> (segregs s))
        (set_gdt (<[5 + i := tss_desc i]> (gdt s))
          (set_cpus (<[i := started_cpu i c]> (cpus s)) s))))).

Lemma mp_setup_run i c s :
  this_cpu s = i → 0 <= i < NCPU → cpus s !! i = Some c → cpu_id c = i → ts_ss0 c = 0 →
  KERNBASE <= kern_pgdir s → screen_ok s →
  ∃ a d, mp_setup im sfuel s = Done tt (set_up i c s a d) ∧ lapic a = lapic (apic s) ∧ 0 <= crt_pos d < CRT_SIZE.
Proof.
  intros <- Hi Hc Hid Hss Hk Hscr. unfold mp_setup, lcr3, cpunum.
  rewrite run_gets, run_PADDR by done. rewrite run_modify, run_gets. simpl.
  set (s1 := set_cr3 _ s). destruct (cpu_message_run (this_cpu s) s1 Hi Hscr) as (d & Hd & Hd').
  step_with Hd. destruct (lapic_init_run (set_dev d s1)) as (a & Ha & Ha'). step_with Ha.
  step_with (env_init_percpu_run im (set_apic a (set_dev d s1))). set (s2 := set_segregs _ _).
  step_with (trap_init_percpu_state im s2 c Hc Hid Hss). simpl.
  rewrite run_gets. simpl. rewrite tail_bind.
  erewrite run_upd_cpu by (simpl; apply lookup_insert_eq).
  exists a, d. split; [|done]. apply ret_state, kstate_eq; try reflexivity; simpl.
  - by rewrite insert_insert_eq.
  - by rewrite lookup_insert_eq, insert_insert_eq.
Qed.

Lemma mpentry_run s :
  ∃ r, mpentry ln s = Done tt (set_kstack (<[this_cpu s := mpentry_kstack s]> (kstack s))
    (set_cr3 (<[this_cpu s := ln_entry_pgdir ln]> (cr3 s)) (set_segregs (<[this_cpu s := r]> (segregs s)) s))).
Proof.
  unfold mpentry, lgdt, lcr3. rewrite !upd_segregs_fuse, run_upd_segregs, run_modify. unfold modify. simpl. by eexists.
Qed.

Lemma lock_kernel_waits s c :
  kernel_lock s = mkSpinlock 1 (Some c) → c ≠ this_cpu s → lock_kernel s = Exit Spinning s.
Proof.
  intros H Hne. unfold lock_kernel, spin_lock, cpunum. run. rewrite H. unfold holding. simpl.
  rewrite bool_decide_false by congruence. simpl. run. unfold leave. f_equal. state_eq. by rewrite H.
Qed.

(** The top of the stack of processor [i]. *)
Definition ap_stack i : Z := ln_percpu_kstacks ln + KSTKSIZE * i + KSTKSIZE.

(** The state after processor [i] has been started. *)
Definition ap_started i (c : Cpu) s a d : kstate :=
  set_up i c (set_kstack (<[i := ap_stack i]> (kstack s)) (set_mpentry_kstack (ap_stack i)
    (set_mem (warm_reset (mem s) MPENTRY_PADDR) s))) a d.

(** Processor [i] is there to be started by processor [b]. *)
Record startable b s i : Prop := {
  sa_other : i ≠ b;
  sa_range : 0 <= i < NCPU;
  sa_cpu : ∃ c, cpus s !! i = Some c ∧ cpu_id c = i ∧ ts_ss0 c = 0 ∧ cpu_status c ≠ CPU_STARTED;
}.

(** The boot processor is ready to start others. *)
Record bsp_ready b s : Prop := {
  br_this : this_cpu s = b;
  br_lock : kernel_lock s = mkSpinlock 1 (Some b);
  br_npages : 8 <= npages s <= 65536;
  br_pgdir : KERNBASE <= kern_pgdir s;
  br_screen : screen_ok s;
}.

Lemma mp_main_run i c s b :
  this_cpu s = i → 0 <= i < NCPU → cpus s !! i = Some c → cpu_id c = i → ts_ss0 c = 0 →
  KERNBASE <= kern_pgdir s → screen_ok s → kernel_lock s = mkSpinlock 1 (Some b) → b ≠ i →
  ∃ a d, (mpentry ln ;; mp_main im sfuel) s =
      Exit Spinning (set_up i c (set_kstack (<[i := mpentry_kstack s]> (kstack s)) s) a d) ∧
    lapic a = lapic (apic s) ∧ 0 <= crt_pos d < CRT_SIZE.
Proof.
  intros <- Hi Hc Hid Hss Hk Hscr Hl Hb. destruct (mpentry_run s) as [r Hr]. step_with Hr.
  match goal with |- context [mp_main im sfuel ?t] => set (s1 := t) end.
  destruct (mp_setup_run (this_cpu s) c s1) as (a & d & Hm & Ha & Hd); try done.
  unfold mp_main. step_with Hm. exists a, d. split; [|done]. erewrite bind_Exit.
  2: { apply (lock_kernel_waits _ b); [exact Hl|exact Hb]. }
  f_equal. apply kstate_eq; try reflexivity; simpl; by rewrite insert_insert_eq.
Qed.

Lemma boot_ap_run (answers : Z → bool) b i s :
  bsp_ready b s → startable b s i →
  if answers i then
    ∃ c a d, cpus s !! i = Some c ∧ boot_ap im ln sfuel answers (MPENTRY_PADDR + KERNBASE) i s = Done tt (ap_started i c s a d) ∧
      lapic a = lapic (apic s) ∧ 0 <= crt_pos d < CRT_SIZE
  else ∃ s', boot_ap im ln sfuel answers (MPENTRY_PADDR + KERNBASE) i s = Exit Spinning s'.
Proof.
  intros [B1 B2 B3 B4 B5] [S1 S2 (c & Hc & Hid & Hss & Hst)]. unfold boot_ap. run.
  rewrite run_PADDR by (unfold KERNBASE, MPENTRY_PADDR; lia).
  replace (MPENTRY_PADDR + KERNBASE - KERNBASE) with MPENTRY_PADDR by lia. rewrite Hid.
  destruct (lapic_startap_run i MPENTRY_PADDR (set_mpentry_kstack (ap_stack i) s)) as (a & d & Hs & Ha & Hd & _); [simpl; lia|].
  step_with Hs. set (s1 := set_apic _ _). destruct (answers i).
  - destruct (mp_main_run i c (set_this_cpu i s1) b) as (a' & d' & Hm & Ha' & Hd'); try done.
    { unfold screen_ok in *. simpl. by rewrite Hd. }
    exists c, a', d'. split; [done|]. split.
    2: { split; [|done]. rewrite Ha'. simpl. done. }
    unfold on_cpu at 1. unfold mbind at 1, comp_bind at 1. rewrite Hm. simpl. run.
    apply ret_state, kstate_eq; try reflexivity.
  - rewrite run_ret. erewrite run_get_cpu by exact Hc. rewrite (proj2 (Z.eqb_neq _ _) Hst). by eexists.
Qed.

(** ** The loop over the processors *)

(** The processors below [n] that [b] starts. *)
Definition ap b n i : Prop := 0 <= i < n ∧ i ≠ b.
#[local] Instance ap_dec b n i : Decision (ap b n i) := and_dec _ _.

(** Where the processor looks for its first instruction. *)
Definition reset_vector (m : memory) : list Z := read_bytes m 0x467 4.

Local Transparent read_bytes.
Lemma reset_vector_set m : reset_vector (warm_reset m MPENTRY_PADDR) = [0; 0; 0; 7].
Proof. unfold reset_vector, warm_reset, read_bytes, mget. by simplify_map_eq. Qed.
Local Opaque read_bytes.

(** [s] is [s0] after [b] has started the processors below [n]. *)
Record aps_up b n s0 s : Prop := {
  au_cpus i : cpus s !! i = if decide (ap b n i) then started_cpu i <$> cpus s0 !! i else cpus s0 !! i;
  au_cr3 i : cr3 s !! i = if decide (ap b n i) then Some (kern_pgdir s0 - KERNBASE) else cr3 s0 !! i;
  au_regs i : segregs s !! i = if decide (ap b n i) then Some (kernel_regs i) else segregs s0 !! i;
  au_gdt i : gdt s !! i = if decide (ap b n (i - 5)) then Some (tss_desc (i - 5)) else gdt s0 !! i;
  au_kstack i : kstack s !! i = if decide (ap b n i) then Some (ap_stack i) else kstack s0 !! i;
  au_mem a : ¬ 0x467 <= a < 0x46B → mem s !! a = mem s0 !! a;
  au_vector : (∃ i, ap b n i) → reset_vector (mem s) = [0; 0; 0; 7];
  au_screen : screen_ok s;
  au_lapic : lapic (apic s) = lapic (apic s0);
  au_rest : s = set_cpus (cpus s) (set_cr3 (cr3 s) (set_segregs (segregs s) (set_gdt (gdt s) (set_kstack (kstack s)
    (set_mpentry_kstack (mpentry_kstack s) (set_mem (mem s) (set_apic (apic s) (set_dev (dev s) s0))))))));
}.

Lemma aps_up_none b s : screen_ok s → aps_up b 0 s s.
Proof.
  intros Hs. split; try done; try (intros i; rewrite decide_False by (unfold ap; lia); done).
  - intros [i Hi]. unfold ap in Hi. lia.
  - by destruct s.
Qed.

Lemma aps_up_skip n s0 s : aps_up n n s0 s → aps_up n (n + 1) s0 s.
Proof.
  intros [H1 H2 H3 H4 H5 H6 H7 H8 H9 H10].
  assert (∀ i, ap n n i ↔ ap n (n + 1) i) as E by (unfold ap; lia).
  split; try done; try (intros i; rewrite ?H1, ?H2, ?H3, ?H4, ?H5; apply decide_ext, E).
  intros [i Hi]. apply H7. exists i. by apply E.
Qed.

Lemma aps_up_next b n s0 s c a d :
  n ≠ b → 0 <= n → cpus s0 !! n = Some c → aps_up b n s0 s → lapic a = lapic (apic s) → 0 <= crt_pos d < CRT_SIZE →
  aps_up b (n + 1) s0 (ap_started n c s a d).
Proof.
  intros Hb Hn Hc [H1 H2 H3 H4 H5 H6 H7 H8 H9 H10] Ha Hd.
  assert (kern_pgdir s = kern_pgdir s0) as Hk by exact (f_equal kern_pgdir H10).
  assert (ap b (n + 1) n) as Hap by (unfold ap; lia).
  assert (∀ i, i ≠ n → ap b n i ↔ ap b (n + 1) i) as E by (unfold ap; lia).
  split; simpl.
  - intros i. rewrite lookup_insert. case_decide as En; [subst i; rewrite decide_True by done; by rewrite Hc|].
    rewrite H1. apply decide_ext, E. congruence.
  - intros i. rewrite lookup_insert. case_decide as En; [subst i; rewrite decide_True by done; by rewrite Hk|].
    rewrite H2. apply decide_ext, E. congruence.
  - intros i. rewrite lookup_insert. case_decide as En; [subst i; by rewrite decide_True by done|].
    rewrite H3. apply decide_ext, E. congruence.
  - intros i. rewrite lookup_insert. case_decide as En.
    { subst i. replace (5 + n - 5) with n by lia. by rewrite decide_True by done. }
    rewrite H4. apply decide_ext, E. lia.
  - intros i. rewrite lookup_insert. case_decide as En; [subst i; by rewrite decide_True by done|].
    rewrite H5. apply decide_ext, E. congruence.
  - intros x Hx. unfold warm_reset. rewrite !lookup_insert_ne by lia. by apply H6.
  - intros _. apply reset_vector_set.
  - done.
  - by rewrite Ha.
  - apply kstate_eq; try reflexivity; simpl; match goal with |- ?F s = _ => exact (f_equal F H10) end.
Qed.

Lemma boot_aps_loop (answers : Z → bool) b s0 k :
  bsp_ready b s0 → ∀ n s, 0 <= n → n + Z.of_nat k = ncpu s0 → aps_up b n s0 s →
  (∀ i, n <= i < ncpu s0 → i ≠ b → startable b s0 i) →
  let r := loop (S k) NoFuel (λ c,
    n ← gets ncpu;
    if c <? n then
      me ← cpunum;
      (if c =? me then mret tt else boot_ap im ln sfuel answers (MPENTRY_PADDR + KERNBASE) c) ;;
      mret (inl (c + 1))
    else mret (inr tt)) n s in
  if forallb (λ i, (i =? b) || answers i) (seqZ n (Z.of_nat k))
  then ∃ s', r = Done tt s' ∧ aps_up b (ncpu s0) s0 s' else ∃ s', r = Exit Spinning s'.
Proof.
  intros Hr. induction k as [|k IH]; intros n s Hn Hk Hu Hst r; subst r; rewrite loop_S; rewrite run_assoc, run_gets.
  all: assert (ncpu s = ncpu s0 ∧ this_cpu s = b ∧ bsp_ready b s) as (En & Et & Hrs)
    by (pose proof (au_rest _ _ _ _ Hu) as Hrest; destruct Hr as [R1 R2 R3 R4 R5];
      pose proof (f_equal ncpu Hrest) as E1; pose proof (f_equal this_cpu Hrest) as E2;
      pose proof (f_equal kernel_lock Hrest) as E3; pose proof (f_equal npages Hrest) as E4;
      pose proof (f_equal kern_pgdir Hrest) as E5; simpl in E1, E2, E3, E4, E5;
      split; [done|]; split; [congruence|]; split; try congruence; by rewrite ?E4, ?E5 || apply Hu);
  rewrite En.
  { simpl. rewrite (proj2 (Z.ltb_ge n (ncpu s0))) by lia. exists s. split; [done|]. replace (ncpu s0) with n by lia. done. }
  rewrite (proj2 (Z.ltb_lt n (ncpu s0))), seqZ_cons by lia. unfold cpunum. rewrite run_assoc, run_gets, Et. cbn [forallb].
  replace (Z.pred (Z.of_nat (S k))) with (Z.of_nat k) by lia. rewrite run_assoc.
  destruct (Z.eqb_spec n b) as [->|Hne]; cbn [orb andb].
  - rewrite run_ret, run_ret. apply (IH (b + 1)); [lia|lia|by apply aps_up_skip|]. intros i Hi. apply Hst. lia.
  - assert (startable b s n) as Hs.
    { destruct (Hst n ltac:(lia) Hne) as [A1 A2 A3]. split; [done|done|].
      rewrite (au_cpus _ _ _ _ Hu n), decide_False by (unfold ap; lia). done. }
    pose proof (boot_ap_run answers b n s Hrs Hs) as Hb. destruct (answers n); cbn [andb].
    + destruct Hb as (c & a & d & Hc & Hrun & Ha & Hd). step_with Hrun. rewrite run_ret.
      apply (IH (n + 1)); [lia|lia| |].
      * apply aps_up_next; try done. by rewrite (au_cpus _ _ _ _ Hu n), decide_False in Hc by (unfold ap; lia).
      * intros i Hi. apply Hst. lia.
    + destruct Hb as (s' & Hrun). exists s'. by rewrite (bind_Exit _ _ _ _ _ Hrun).
Qed.

Lemma boot_aps_run (answers : Z → bool) b s :
  let code := read_bytes (mem s) (ln_mpentry_start ln - KERNBASE) (Z.to_nat (ln_mpentry_end ln - ln_mpentry_start ln)) in
  let s1 := set_mem (write_bytes (mem s) MPENTRY_PADDR code) s in
  bsp_ready b s → 0 <= ncpu s → (∀ i, ap b (ncpu s) i → startable b s i) →
  if forallb (λ i, (i =? b) || answers i) (seqZ 0 (ncpu s))
  then ∃ s', boot_aps im ln sfuel answers s = Done tt s' ∧ aps_up b (ncpu s) s1 s'
  else ∃ s', boot_aps im ln sfuel answers s = Exit Spinning s'.
Proof.
  intros code s1 Hr Hn Hst. unfold boot_aps.
  rewrite run_KADDR; [|done|pose proof (br_npages _ _ Hr); change (PGNUM _) with 7; lia|apply Hr].
  unfold kmemmove. rewrite run_modify, run_gets.
  replace (MPENTRY_PADDR + KERNBASE - KERNBASE) with MPENTRY_PADDR by lia. fold code s1.
  pose proof (boot_aps_loop answers b s1 (Z.to_nat (ncpu s))) as H. specialize (H ltac:(by destruct Hr) 0 s1).
  rewrite Z2Nat.id in H by lia. apply H; [lia|done|apply aps_up_none, Hr|].
  intros i Hi Hne. destruct (Hst i ltac:(done)) as [A1 A2 A3]. by split.
Qed.
End setup.

(** ** From the memory system to the last processor *)

Section start.
Variables (im : image) (ln : link) (sfuel : nat) (answers : Z → bool).
Implicit Types (s : kstate) (i : Z).

Lemma pic_init_run s : ∃ d, dev_op pic_init s = Done tt (set_dev d s) ∧ crt_pos d = crt_pos (dev s).
Proof.
  assert (∃ d, pic_init (dev s) = Done tt d ∧ crt_pos d = crt_pos (dev s)) as (d & Hd & Hc).
  { unfold pic_init, irq_setmask_8259A. rewrite run_modify. do 14 rewrite outb_run. rewrite run_get. simpl.
    destruct (negb _); [|by eexists]. rewrite run_modify, run_get. simpl. rewrite outb_run, tail_bind, outb_run. by eexists. }
  exists d. split; [|done]. unfold dev_op. by rewrite Hd.
Qed.

(** The boot processor has set up memory; nothing else is initialised. *)
Record memory_up s : Prop := {
  mu_this : this_cpu s = 0;
  mu_npages : 8 <= npages s <= 65536;
  mu_pgdir : KERNBASE <= kern_pgdir s;
  mu_cr3 : cr3 s !! 0 = Some (kern_pgdir s - KERNBASE);
  mu_screen : screen_ok s;
  mu_lock : kernel_lock s = mkSpinlock 0 None;
  mu_ncpu : ncpu s = 0;
  mu_cpus i : cpus s !! i = if decide (0 <= i < NCPU) then Some (mkCpu 0 0 None 0 0) else None;
}.

(** The firmware describes the processors with the given flags, the boot
    processor first. *)
Record firmware s (conf mp : Z) (es : list mpent) : Prop := {
  fw_conf : mpconfig s = Done (Some (conf, mp)) s;
  fw_mp : KERNBASE <= mp;
  fw_entries : entries_at (mem s) (conf_entries conf - KERNBASE) es;
  fw_count : mget (mem s) (conf + 34 - KERNBASE) + 256 * mget (mem s) (conf + 35 - KERNBASE) = Z.of_nat (length es);
  fw_boot : ∃ f fs, processors es = f :: fs ∧ has MPPROC_BOOT f = true ∧ Forall (λ f, has MPPROC_BOOT f = false) fs;
}.

(** A processor that runs the kernel. *)
Record cpu_running s i : Prop := {
  cr_cpu : cpus s !! i = Some (mkCpu i CPU_STARTED None (KSTACKTOP - 65536 * i) GD_KD);
  cr_cr3 : cr3 s !! i = Some (kern_pgdir s - KERNBASE);
  cr_regs : segregs s !! i = Some (kernel_regs im i);
  cr_tss : gdt s !! (5 + i) = Some (tss_desc im i);
}.

(** The kernel with [n] processors, of which the first holds the lock. *)
Record cpus_running n s0 s : Prop := {
  rn_this : this_cpu s = 0;
  rn_lock : kernel_lock s = mkSpinlock 1 (Some 0);
  rn_ncpu : ncpu s = n ∧ ismp s = true ∧ bootcpu s = Some 0;
  rn_cpu i : 0 <= i < n → cpu_running s i;
  rn_kstack i : 0 < i < n → kstack s !! i = Some (ap_stack ln i);
  rn_gates : gates_set im (idt s);
  rn_envs : envs_wf s (seqZ 0 1024);
  rn_pages : pages s = pages s0 ∧ page_free_list s = page_free_list s0 ∧ npages s = npages s0 ∧ kern_pgdir s = kern_pgdir s0;
  rn_mem a : ¬ 0x467 <= a < 0x46B → mget (mem s) a =
    if decide (MPENTRY_PADDR <= a < MPENTRY_PADDR + Z.max 0 (ln_mpentry_end ln - ln_mpentry_start ln))
    then mget (mem s0) (ln_mpentry_start ln - KERNBASE + (a - MPENTRY_PADDR)) else mget (mem s0) a;
  rn_vector : 1 < n → reset_vector (mem s) = [0; 0; 0; 7];
}.

(** After the tables of environments, gates and the boot processor's task. *)
Definition tables_state (E : gmap Z Env) (I : gmap Z Gatedesc) s : kstate :=
  set_segregs (<[0 := kernel_regs im 0]> (segregs s)) (set_gdt (<[5 := tss_desc im 0]> (gdt s))
    (set_cpus (<[0 := mkCpu 0 0 None KSTACKTOP GD_KD]> (cpus s))
      (set_idt I (set_env_free_list (Some 0) (set_envs E s))))).

Lemma tables_run {A} (k : unit → M A) s :
  this_cpu s = 0 → cpus s !! 0 = Some (mkCpu 0 0 None 0 0) →
  ∃ E I, (env_init im ;; r ← trap_init im; k r) s = k tt (tables_state E I s) ∧
    (∀ i, E !! i = if decide (0 <= i < 1024) then Some (init_env i) else None) ∧ gates_set im I.
Proof.
  intros M1 Hc0. destruct (env_init_run im s) as (E & R1 & HE). rewrite (bind_Done _ _ _ _ _ R1). clear R1. rewrite M1.
  set (s1 := set_segregs _ _). destruct (trap_init_run im s1) as (I & R2 & HI). exists E, I. split; [|by split].
  assert (cpus s !! this_cpu s = Some (mkCpu 0 0 None 0 0)) as Hc1 by (rewrite M1; exact Hc0).
  rewrite (trap_init_percpu_state im (set_idt I s1) (mkCpu 0 0 None 0 0) Hc1 (eq_sym M1) eq_refl) in R2.
  rewrite (bind_Done _ _ _ _ _ R2). f_equal. cbn [this_cpu set_idt set_segregs set_env_free_list set_envs s1]. rewrite M1.
  apply kstate_eq; try reflexivity; simpl. by rewrite lookup_insert_eq, insert_insert_eq.
Qed.

(** The processors as [mp_init] leaves them. *)
Lemma mp_part s conf mp es E I :
  memory_up s → firmware s conf mp es →
  let n := Z.min NCPU (Z.of_nat (length (processors es))) in
  ∃ s', mp_init (tables_state E I s) = Done tt s' ∧ mp_frame (tables_state E I s) s' ∧
    ismp s' = true ∧ bootcpu s' = Some 0 ∧ ncpu s' = n ∧ 0 < n ∧
    cpus s' !! 0 = Some (mkCpu 0 CPU_STARTED None KSTACKTOP GD_KD) ∧
    (∀ i, 0 < i < n → cpus s' !! i = Some (mkCpu i 0 None 0 0)).
Proof.
  intros [M1 M2 M3 M4 M5 M6 M7 M8] [F1 F2 F3 F4 (f & fs & F5 & F6 & F7)] n. set (s2 := tables_state E I s).
  assert (∀ i, cpus s2 !! i = if decide (i = 0) then Some (mkCpu 0 0 None KSTACKTOP GD_KD) else
    if decide (0 <= i < NCPU) then Some (mkCpu 0 0 None 0 0) else None) as HC.
  { intros i. unfold s2, tables_state. cbn [cpus set_segregs set_gdt set_cpus]. rewrite lookup_insert.
    destruct (decide (0 = i)), (decide (i = 0)); try lia; [done|apply M8]. }
  destruct (mpconfig_seen s (set_bootcpu (Some 0) s2) (Some (conf, mp)) s eq_refl eq_refl F1) as [_ Hconf].
  assert (all_cpus (cpus s2)) as Hall by (intros i Hi; rewrite HC; case_decide; [done|]; by rewrite decide_True).
  assert (cpus s2 !! NCPU = None) as Hlast by (rewrite HC, !decide_False by (unfold NCPU; lia); done).
  destruct (mp_init_run s2 conf mp (set_bootcpu (Some 0) s2) es [] f fs Hconf M7 Hall F2 Hlast F3 F4 F5 F6 F7) as [_ Hrun].
  cbn [length Z.of_nat] in Hrun. change (0 <? NCPU) with true in Hrun. cbv iota in Hrun. fold n in Hrun.
  destruct Hrun as (s' & R & H1 & H2 & H3 & _ & Hid & Hst & Hf).
  assert (0 < n <= NCPU) as Hn by (unfold n; rewrite F5; simpl length; unfold NCPU; lia).
  exists s'. split; [exact R|]. split; [exact Hf|]. do 3 (split; [assumption|]). split; [lia|].
  assert (∀ i, 0 <= i < n → ∃ c c', cpus s' !! i = Some c ∧ cpu_id c = i ∧ cpus s2 !! i = Some c' ∧ ts_ss0 c = ts_ss0 c' ∧
    ts_esp0 c = ts_esp0 c' ∧ cpu_env c = cpu_env c' ∧ (bootcpu s' ≠ Some i → cpu_status c = cpu_status c')) as Hcpu.
  { intros i Hi. rewrite H3 in Hid. specialize (Hid i Hi). destruct (cpus s' !! i) as [c|] eqn:Ec; [|discriminate Hid].
    destruct (mf_cpus _ _ Hf i c Ec) as (c' & ? & ? & ? & ? & ?). exists c, c'. injection Hid as Hid. by split_and!. }
  clear R Hid F1 Hconf. split.
  - destruct (Hcpu 0) as (c & c' & Ec & E0 & E1 & E2 & E3 & E4 & _); [lia|]. rewrite HC, decide_True in E1 by done.
    injection E1 as <-. change (cpu_status <$> cpus s' !! 0 = Some CPU_STARTED) in Hst.
    rewrite Ec in Hst |- *. injection Hst as Hst. destruct c. simpl in *. by subst.
  - intros i Hi. destruct (Hcpu i) as (c & c' & Ec & E0 & E1 & E2 & E3 & E4 & E5); [lia|].
    rewrite HC, decide_False, decide_True in E1 by lia. injection E1 as <-. rewrite Ec.
    assert (bootcpu s' ≠ Some i) as E6 by (rewrite H2; intros [= ?]; lia). specialize (E5 E6). destruct c. simpl in *. by subst.
Qed.

(** The boot processor holds the lock and the others wait to be started. *)
Record about_to_boot n s0 s : Prop := {
  ab_ready : bsp_ready 0 s;
  ab_ncpu : ncpu s = n ∧ ismp s = true ∧ bootcpu s = Some 0;
  ab_cpu : cpu_running s 0;
  ab_others i : 0 < i < n → cpus s !! i = Some (mkCpu i 0 None 0 0);
  ab_gates : gates_set im (idt s);
  ab_envs : envs_wf s (seqZ 0 1024);
  ab_mem : mem s = mem s0;
  ab_pages : pages s = pages s0 ∧ page_free_list s = page_free_list s0 ∧ npages s = npages s0 ∧ kern_pgdir s = kern_pgdir s0;
}.

Lemma init_prefix s conf mp es :
  memory_up s → firmware s conf mp es →
  let n := Z.min NCPU (Z.of_nat (length (processors es))) in
  0 < n ∧ ∃ s1, about_to_boot n s s1 ∧ init_cpus im ln sfuel answers s = boot_aps im ln sfuel answers s1.
Proof.
  intros Hm Hfw n. assert (cpus s !! 0 = Some (mkCpu 0 0 None 0 0)) as Hc0 by by rewrite (mu_cpus s Hm).
  unfold init_cpus.
  match goal with |- context [env_init im ≫= λ _, trap_init im ≫= ?k] => pose (kk := k) end.
  destruct (tables_run kk s (mu_this s Hm) Hc0) as (E & I & Hrun & HE & HI). unfold kk in Hrun. rewrite Hrun. clear Hrun kk.
  destruct (mp_part s conf mp es E I Hm Hfw) as (s3 & R3 & [F1 F2 F3] & H1 & H2 & H3 & Hn & H4 & H5).
  rewrite (bind_Done _ _ _ _ _ R3). clear R3 F2. fold n in H3, H5, Hn. split; [exact Hn|].
  destruct (lapic_init_run s3) as (a & R4 & Ha). rewrite (bind_Done _ _ _ _ _ R4). clear R4.
  destruct (pic_init_run (set_apic a s3)) as (d & R5 & Hd). rewrite (bind_Done _ _ _ _ _ R5). clear R5.
  destruct Hm as [M1 M2 M3 M4 M5 M6 M7 M8].
  assert (kernel_lock s3 = mkSpinlock 0 None) as HL by by rewrite (f_equal kernel_lock F1).
  rewrite (bind_Done _ _ _ _ _ (lock_kernel_run (set_dev d (set_apic a s3)) HL)).
  assert (this_cpu s3 = 0) as HT by by rewrite (f_equal this_cpu F1). cbn [this_cpu set_dev set_apic]. rewrite HT.
  eexists. split; [|reflexivity]. assert (screen_ok s) as Hscr by exact M5.
  pose proof (f_equal kern_pgdir F1) as EK. pose proof (f_equal npages F1) as EN. simpl in EK, EN.
  split.
  - split; simpl; [done|done|by rewrite EN|by rewrite EK|]. unfold screen_ok in *. simpl. rewrite Hd. simpl. by rewrite F3.
  - done.
  - split; simpl; [exact H4| | |].
    + rewrite (f_equal cr3 F1), EK. exact M4.
    + rewrite (f_equal segregs F1). apply lookup_insert_eq.
    + rewrite (f_equal gdt F1). apply lookup_insert_eq.
  - exact H5.
  - simpl. by rewrite (f_equal idt F1).
  - apply init_envs_wf; simpl; [by rewrite (f_equal envs F1)|by rewrite (f_equal env_free_list F1)].
  - exact (f_equal mem F1).
  - simpl. rewrite EK, EN. split; [exact (f_equal pages F1)|]. split; [exact (f_equal page_free_list F1)|done].
Qed.

Lemma init_cpus_run s conf mp es :
  memory_up s → firmware s conf mp es →
  let n := Z.min NCPU (Z.of_nat (length (processors es))) in
  if forallb (λ i, (i =? 0) || answers i) (seqZ 0 n)
  then ∃ s', init_cpus im ln sfuel answers s = Done tt s' ∧ cpus_running n s s'
  else ∃ s', init_cpus im ln sfuel answers s = Exit Spinning s'.
Proof.
  intros Hm Hfw n. destruct (init_prefix s conf mp es Hm Hfw) as (Hn & s1 & Hab & Hrun). fold n in Hn, Hab. rewrite Hrun.
  clear Hrun. pose proof (boot_aps_run im ln sfuel answers 0 s1 (ab_ready _ _ _ Hab)) as HB.
  destruct Hab as [A1 (A2 & A2' & A2'') A3 A4 A5 A6 A7 A8]. rewrite A2 in HB.
  assert (n <= NCPU) as Hn8 by (unfold n; lia). specialize (HB ltac:(lia)).
  assert (∀ i, ap 0 n i → startable 0 s1 i) as Hst.
  { intros i Hi. unfold ap in Hi. split; [lia|unfold NCPU in *; lia|]. exists (mkCpu i 0 None 0 0). rewrite A4 by lia. done. }
  specialize (HB Hst). destruct (forallb _ _); [|exact HB]. destruct HB as (s' & R & [U1 U2 U3 U4 U5 U6 U7 U8 U9 U10]).
  exists s'. split; [exact R|]. clear R.
  pose proof (f_equal kern_pgdir U10) as EK. pose proof (f_equal npages U10) as EN. pose proof (f_equal this_cpu U10) as ET.
  pose proof (f_equal kernel_lock U10) as EL. simpl in EK, EN, ET, EL. destruct A1 as [B1 B2 B3 B4 B5].
  split.
  - by rewrite ET.
  - by rewrite EL.
  - rewrite (f_equal ncpu U10), (f_equal ismp U10), (f_equal bootcpu U10). done.
  - intros i Hi. destruct (decide (i = 0)) as [->|Hne].
    + destruct A3 as [C1 C2 C3 C4]. split; rewrite ?U1, ?U2, ?U3, ?U4, decide_False by (unfold ap; lia); simpl; try assumption. by rewrite EK.
    + split; rewrite ?U1, ?U2, ?U3, ?U4, decide_True by (unfold ap; lia); simpl.
      * by rewrite A4 by lia.
      * by rewrite EK.
      * done.
      * by replace (5 + i - 5) with i by lia.
  - intros i Hi. by rewrite U5, decide_True by (unfold ap; lia).
  - by rewrite (f_equal idt U10).
  - eapply envs_wf_ext; [exact A6|exact (f_equal envs U10)|exact (f_equal env_free_list U10)].
  - rewrite EK, EN, (f_equal pages U10), (f_equal page_free_list U10). simpl. done.
  - intros x Hx. unfold mget at 1. rewrite U6 by done. cbn [mem set_mem].
    match goal with |- u8 (default 0 (?m !! x)) = _ => change (u8 (default 0 (m !! x))) with (mget m x) end. rewrite mget_copy, A7. apply decide_ext. lia.
  - intros H1n. apply U7. exists 1. unfold ap. lia.
Qed.
End start.

(** ** From the first instruction of [i386_init] *)

Section power_on.
Variables (im : image) (ln : link) (sfuel : nat) (answers : Z → bool).
Implicit Types (s : kstate) (i : Z).

(** The state in which the boot loader leaves the machine for the boot processor;
    [n] is the size of the array [pages]. *)
Record loaded n s : Prop := {
  lo_this : this_cpu s = 0;
  lo_lock : kernel_lock s = mkSpinlock 0 None;
  lo_pages i : 0 <= i < n → is_Some (pages s !! i);
  lo_dom : map_Forall (λ i _, 0 <= i < n) (pages s);
}.

Lemma clear_bss_run n s :
  loaded n s → ∃ s', clear_bss ln s = Done tt s' ∧ loaded n s' ∧ nextfree s' = 0 ∧ ncpu s' = 0 ∧
    mem s' = fill (mem s) (ln_edata ln - KERNBASE) 0 (Z.to_nat (ln_end ln - ln_edata ln)) ∧
    ∀ i, cpus s' !! i = if decide (0 <= i < NCPU) then Some (mkCpu 0 0 None 0 0) else None.
Proof.
  intros [H1 H2 H3 H4]. unfold clear_bss, kmemset. rewrite !run_modify. eexists. split; [reflexivity|].
  split; [by split|]. split; [done|]. split; [done|]. split; [done|]. intros i. cbn [cpus set_dev set_cpus]. case_decide as Hi.
  - apply elem_of_list_to_map; [rewrite keys_of_pairs; apply NoDup_seqZ|].
    apply list_elem_of_fmap. exists i. split; [done|]. apply elem_of_seqZ. lia.
  - apply not_elem_of_list_to_map. rewrite keys_of_pairs, elem_of_seqZ. lia.
Qed.

Lemma init_console_eq : init_console ln sfuel =
  (clear_bss ln ;; dev_op cons_init ;; cprintf sfuel (text "6828 decimal is %o octal!") [Word 6828]).
Proof. reflexivity. Qed.

Lemma only_dev_Done {A} (m : M A) s a s' : within only_dev m → m s = Done a s' → only_dev s s'.
Proof. intros H E. specialize (H s). by rewrite E in H. Qed.

Lemma init_console_run n s r s1 :
  loaded n s → init_console ln sfuel s = Done r s1 →
  loaded n s1 ∧ nextfree s1 = 0 ∧ ncpu s1 = 0 ∧
    ∀ i, cpus s1 !! i = if decide (0 <= i < NCPU) then Some (mkCpu 0 0 None 0 0) else None.
Proof.
  intros Hl Hrun. destruct (clear_bss_run n s Hl) as (s0 & R0 & Hl0 & F0 & N0 & _ & C0).
  rewrite init_console_eq in Hrun. apply bind_inv in Hrun as ([] & t0 & A0 & Hrun). rewrite R0 in A0. injection A0 as <-. clear R0.
  apply bind_inv in Hrun as ([] & t1 & A1 & A2).
  destruct (only_dev_Done _ _ _ _ (within_dev_op cons_init) A1) as [d1 E1]. clear A1.
  destruct (only_dev_Done _ _ _ _ (within_cprintf _ _ _) A2) as [d2 E2]. clear A2.
  subst t1 s1. split; [by destruct Hl0|]. split; [exact F0|]. split; [exact N0|exact C0].
Qed.

(** The bytes of the message. *)
Lemma greeting : ∃ out, printed (λ _, None) sfuel (text "6828 decimal is %o octal!") [Word 6828] = Some out.
Proof. eexists. vm_compute. reflexivity. Qed.

(** The console comes up when the screen's controller, the first device asked,
    reports a cursor on the screen. *)
Lemma console_comes_up s hi lo l :
  inb_stream (dev s) = hi :: lo :: l → 256 * u8 hi + u8 lo < CRT_SIZE →
  ∃ s1, init_console ln sfuel s = Done 0 s1 ∧ screen_ok s1 ∧
    mem s1 = fill (mem s) (ln_edata ln - KERNBASE) 0 (Z.to_nat (ln_end ln - ln_edata ln)).
Proof.
  intros Hin Hp. rewrite init_console_eq.
  assert (∃ s0, clear_bss ln s = Done tt s0 ∧ inb_stream (dev s0) = hi :: lo :: l ∧ cons_inv (dev s0) ∧
    mem s0 = fill (mem s) (ln_edata ln - KERNBASE) 0 (Z.to_nat (ln_end ln - ln_edata ln))) as (s0 & R0 & Hin0 & Hi0 & M0).
  { unfold clear_bss, kmemset. rewrite !run_modify. eexists. split; [reflexivity|]. split; [exact Hin|]. split; [|reflexivity]. by_compute. }
  rewrite (bind_Done _ _ _ _ _ R0). clear R0.
  destruct (cons_init_run (dev s0) hi lo l Hin0 Hp Hi0) as (d1 & H1 & Hd1).
  assert (dev_op cons_init s0 = Done tt (set_dev d1 s0)) as R1 by (unfold dev_op; by rewrite H1).
  rewrite (bind_Done _ _ _ _ _ R1). destruct greeting as [out Hout].
  destruct (cprintf_prints (λ _, None) sfuel (text "6828 decimal is %o octal!") [Word 6828] out (set_dev d1 s0) Hd1)
    as (d2 & R2 & Hd2 & _); [done|exact Hout|].
  exists (set_dev d2 (set_dev d1 s0)). split; [exact R2|]. split; [exact Hd2|exact M0].
Qed.

(** The machine after [mem_init]. *)
Lemma memory_comes_up bl bh el eh l cr0 s s1 r :
  let n := detected bl bh el eh in
  loaded n s → init_console ln sfuel s = Done r s1 → screen_ok s1 → inb_stream (dev s1) = bl :: bh :: el :: eh :: l →
  fits (ln_end ln) (ln_bootstack ln) (ln_percpu_kstacks ln) n →
  ∃ s2 fl, mem_init (ln_end ln) (ln_bootstack ln) (ln_percpu_kstacks ln) cr0 s1 = Done (kernel_cr0 cr0) s2 ∧
    kernel_running (ln_end ln) (ln_percpu_kstacks ln) n s2 fl ∧ memory_up s2 ∧
    (∀ j, reserved (ln_end ln) j → page_same j (mem s1) (mem s2)).
Proof.
  intros n Hl Hrun Hscr Hin Hf. destruct (init_console_run n s r s1 Hl Hrun) as ([L1 L2 L3 L4] & F1 & N1 & C1).
  destruct (mem_init_run (ln_end ln) (ln_bootstack ln) (ln_percpu_kstacks ln) bl bh el eh l cr0 s1 Hin Hf F1 L3 L4)
    as (s2 & fl & R & HK & [S1 S2 S3 S4 S5] & HM).
  { unfold cpu_ok. by rewrite L1, C1. }
  exists s2, fl. split; [exact R|]. split; [done|]. split; [|done]. clear R Hrun. simpl in S1, S2, S3. unfold boot_rest in S5.
  injection S5 as E1 E2 E3. destruct (image_end_range _ _ _ _ Hf) as [Hie _]. pose proof (ft_npages _ _ _ _ Hf).
  pose proof (kr_kern _ _ _ _ _ HK) as EK. split.
  - by rewrite S2.
  - rewrite (kr_npages _ _ _ _ _ HK). pose proof (ft_room _ _ _ _ Hf) as Hroom. pose proof (pages_for_range n ltac:(lia)). unfold boot_end in Hroom. fold n. lia.
  - rewrite EK. unfold pgdir_kva. lia.
  - pose proof (kr_cr3 _ _ _ _ _ HK) as Ec. rewrite S2, L1 in Ec. rewrite Ec, EK. unfold pgdir_kva. f_equal. lia.
  - unfold screen_ok in *. simpl in E3. by rewrite E3.
  - simpl in E1. by rewrite E1.
  - simpl in E2. by rewrite E2.
  - intros i. by rewrite S1.
Qed.

Lemma i386_init_run bl bh el eh l cr0 s s1 r :
  let n := detected bl bh el eh in
  loaded n s → init_console ln sfuel s = Done r s1 → screen_ok s1 → inb_stream (dev s1) = bl :: bh :: el :: eh :: l →
  fits (ln_end ln) (ln_bootstack ln) (ln_percpu_kstacks ln) n →
  ∃ s2 fl, mem_init (ln_end ln) (ln_bootstack ln) (ln_percpu_kstacks ln) cr0 s1 = Done (kernel_cr0 cr0) s2 ∧
    kernel_running (ln_end ln) (ln_percpu_kstacks ln) n s2 fl ∧ memory_up s2 ∧
    (∀ j, reserved (ln_end ln) j → page_same j (mem s1) (mem s2)) ∧
    ∀ conf mp es, firmware s2 conf mp es →
    let k := Z.min NCPU (Z.of_nat (length (processors es))) in
    if forallb (λ i, (i =? 0) || answers i) (seqZ 0 k)
    then ∃ s3, i386_init im ln sfuel answers cr0 s = (create_envs ln ;; sched_yield) s3 ∧ cpus_running im ln k s2 s3
    else ∃ s3, i386_init im ln sfuel answers cr0 s = Exit Spinning s3.
Proof.
  intros n Hl Hrun Hscr Hin Hf.
  destruct (memory_comes_up bl bh el eh l cr0 s s1 r Hl Hrun Hscr Hin Hf) as (s2 & fl & R2 & HK & Hm & HM).
  exists s2, fl. do 4 (split; [done|]). intros conf mp es Hfw k.
  assert (i386_init im ln sfuel answers cr0 s = (init_cpus im ln sfuel answers ;; create_envs ln ;; sched_yield) s2) as ->.
  { unfold i386_init. by rewrite (bind_Done _ _ _ _ _ Hrun), (bind_Done _ _ _ _ _ R2). }
  pose proof (init_cpus_run im ln sfuel answers s2 conf mp es Hm Hfw) as H. cbv zeta in H. fold k in H. destruct (forallb _ _).
  - destruct H as (s3 & R3 & H3). exists s3. split; [|done]. by rewrite (bind_Done _ _ _ _ _ R3).
  - destruct H as (s3 & R3). exists s3. by rewrite (bind_Exit _ _ _ _ _ R3).
Qed.
End power_on.

(** ** [_panic] and [_warn] *)

Section panic.
Variables (sfuel bfuel mfuel lfuel gfuel : nat) (sym : symbols) (ebp buf last_tf : Z).
Implicit Types (s : kstate) (file fmt : list Z) (va : list arg).

(** The interrupt and direction flags, which it clears, are not modelled. *)
Definition panic_message file (line : Z) fmt va : M unit :=
  modify (set_panicstr true) ;;
  n ← cpunum;
  cprintf sfuel (bytes_of "kernel panic on CPU %d at %s:%d: ") [Word n; Lit file; Word line] ;;
  vcprintf sfuel fmt va ;;
  cprintf sfuel [LF] [] ;;
  mret tt.

(** [while (1) monitor (NULL);], at most [mfuel] times *)
Definition monitor_forever : M unit :=
  loop mfuel NoFuel (λ _ : unit,
    monitor sfuel bfuel sym ebp mfuel lfuel gfuel buf last_tf None ;; mret (inl tt)) tt.

Definition _panic file (line : Z) fmt va : M unit :=
  panicked ← gets panicstr;
  (if (panicked : bool) then mret tt else panic_message file line fmt va) ;;
  monitor_forever.

Definition _warn file (line : Z) fmt va : M unit :=
  cprintf sfuel (bytes_of "kernel warning at %s:%d: ") [Lit file; Word line] ;;
  vcprintf sfuel fmt va ;;
  cprintf sfuel [LF] [] ;;
  mret tt.

Lemma vrd8_panicked a s c : vrd8 a s = Done c s → vrd8 a (set_panicstr true s) = Done c (set_panicstr true s).
Proof.
  unfold vrd8. rewrite !run_get. change (mmu (set_panicstr true s) a false) with (mmu s a false).
  destruct (mmu s a false) as [pa|]; [|done]. rewrite !ret_eq. intros H. injection H as H. cbn [mem set_panicstr]. by rewrite H.
Qed.

(** Three texts in a row. *)
Lemma three_texts {A} str f1 a1 f2 a2 o1 o2 s (k : unit → M A) :
  screen_ok s → (∀ a c, str a = Some c → vrd8 a s = Done c s) →
  printed str sfuel f1 a1 = Some o1 → printed str sfuel f2 a2 = Some o2 →
  ∃ d, (cprintf sfuel f1 a1 ;; vcprintf sfuel f2 a2 ;; cprintf sfuel [LF] [] ;; k tt) s = k tt (set_dev d s) ∧
    0 <= crt_pos d < CRT_SIZE ∧ for_each (o1 ++ o2 ++ [LF]) putch s = Done tt (set_dev d s).
Proof.
  intros Hs Hrd H1 H2. destruct (cprintf_prints str sfuel f1 a1 o1 s Hs Hrd H1) as (d1 & R1 & D1 & P1).
  assert (∀ d a c, str a = Some c → vrd8 a (set_dev d s) = Done c (set_dev d s)) as Hrd' by (intros; by apply (vrd8_dev _ _ s _ s), Hrd).
  destruct (cprintf_prints str sfuel f2 a2 o2 (set_dev d1 s) D1 (Hrd' _) H2) as (d2 & R2 & D2 & P2).
  destruct (cprintf_prints str sfuel [LF] [] [LF] (set_dev d2 s) D2 (Hrd' _) eq_refl) as (d3 & R3 & D3 & P3).
  exists d3. rewrite (bind_Done _ _ _ _ _ R1), (bind_Done _ _ _ _ _ R2), (bind_Done _ _ _ _ _ R3). split; [done|]. split; [done|].
  by rewrite (for_each_app _ _ _ _ _ P1), (for_each_app _ _ _ _ _ P2).
Qed.

Lemma monitor_forever_stays s s' : monitor_forever s ≠ Done tt s'.
Proof.
  unfold monitor_forever. generalize mfuel at 1. intros k. revert s. induction k as [|k IH]; intros s; [done|].
  rewrite loop_S, run_assoc. intros (a & s1 & _ & H)%bind_inv. rewrite run_ret in H. exact (IH s1 H).
Qed.
End panic.

(** ** Properties *)

(** C13: once memory is set up, the rest of the initialisation brings up all processors
    that the firmware announces, eight at most, provided that its table lists the
    boot processor first and flags no other one as the boot processor (the code
    takes the last one flagged for it, marks that one as started and would not
    wait for it): each one runs on the kernel's page directory and on a stack of
    its own, has loaded the kernel's segments and descriptor tables, its task
    register names its own busy task-state segment with its own kernel stack, and
    its status says that it has started.  The boot processor then holds the
    kernel lock, all environments are free in array order, the gates are set, and
    memory has changed only where the entry code and the warm-reset vector are
    placed.  If one of the announced processors does not answer, the boot
    processor polls its status for ever. *)
Theorem init_cpus_starts_all im ln sfuel answers s conf mp es :
  memory_up s → firmware s conf mp es →
  let n := Z.min NCPU (Z.of_nat (length (processors es))) in
  if forallb (λ i, (i =? 0) || answers i) (seqZ 0 n)
  then ∃ s', init_cpus im ln sfuel answers s = Done tt s' ∧ cpus_running im ln n s s'
  else ∃ s', init_cpus im ln sfuel answers s = Exit Spinning s'.
Proof. apply init_cpus_run. Qed.

(** C24: i386_init gets as far as creating the first environments.  It starts in the
    state in which the boot loader leaves the machine, whatever the uninitialised
    variables hold.  If the screen's controller, the first device asked, reports a
    cursor on the screen, the console comes up: the variables are cleared and the
    greeting is printed.  If then the NVRAM reports a memory large enough for the
    kernel, the memory system comes up, no self-check panics, and page 0, the AP
    boot page, the I/O hole and the kernel's image are left as they were.  If the
    firmware's tables, as they stand then, list the boot processor first and flag
    no other one as the boot processor, all processors that they announce, eight at most,
    are started and the boot processor holds the kernel lock; it hangs exactly
    when one of them does not answer. *)
Theorem i386_init_boots im ln sfuel answers hi lo l0 cr0 s :
  inb_stream (dev s) = hi :: lo :: l0 → 256 * u8 hi + u8 lo < CRT_SIZE →
  ∃ s1, init_console ln sfuel s = Done 0 s1 ∧ screen_ok s1 ∧
    mem s1 = fill (mem s) (ln_edata ln - KERNBASE) 0 (Z.to_nat (ln_end ln - ln_edata ln)) ∧
  ∀ bl bh el eh l, let n := detected bl bh el eh in
  loaded n s → inb_stream (dev s1) = bl :: bh :: el :: eh :: l →
  fits (ln_end ln) (ln_bootstack ln) (ln_percpu_kstacks ln) n →
  ∃ s2 fl, mem_init (ln_end ln) (ln_bootstack ln) (ln_percpu_kstacks ln) cr0 s1 = Done (kernel_cr0 cr0) s2 ∧
    kernel_running (ln_end ln) (ln_percpu_kstacks ln) n s2 fl ∧ memory_up s2 ∧
    (∀ j, reserved (ln_end ln) j → page_same j (mem s1) (mem s2)) ∧
  ∀ conf mp es, firmware s2 conf mp es →
    let k := Z.min NCPU (Z.of_nat (length (processors es))) in
    if forallb (λ i, (i =? 0) || answers i) (seqZ 0 k)
    then ∃ s3, i386_init im ln sfuel answers cr0 s = (create_envs ln ;; sched_yield) s3 ∧ cpus_running im ln k s2 s3
    else ∃ s3, i386_init im ln sfuel answers cr0 s = Exit Spinning s3.
Proof.
  intros Hin Hp. destruct (console_comes_up ln sfuel s hi lo l0 Hin Hp) as (s1 & R1 & Hs & Hm).
  exists s1. do 3 (split; [done|]). intros bl bh el eh l n Hl Hin1 Hf. by apply (i386_init_run im ln sfuel answers bl bh el eh l cr0 s s1 0).
Qed.

(** C36: the first panic prints where it happened, the message and a newline, and
    records that the kernel has panicked; a panic during a panic prints nothing;
    both end in the monitor and never return.  A warning prints the same kind of
    text and returns. *)
Theorem panic_reports_once sfuel bfuel mfuel lfuel gfuel sym ebp buf last_tf file line fmt va str o1 o2 s :
  let panic_at := _panic sfuel bfuel mfuel lfuel gfuel sym ebp buf last_tf file line fmt va in
  let monitoring := monitor_forever sfuel bfuel mfuel lfuel gfuel sym ebp buf last_tf in
  screen_ok s → (∀ a c, str a = Some c → vrd8 a s = Done c s) →
  printed str sfuel (bytes_of "kernel panic on CPU %d at %s:%d: ") [Word (this_cpu s); Lit file; Word line] = Some o1 →
  printed str sfuel fmt va = Some o2 →
  (if panicstr s then panic_at s = monitoring s
   else ∃ d, panic_at s = monitoring (set_dev d (set_panicstr true s)) ∧
     for_each (o1 ++ o2 ++ [LF]) putch (set_panicstr true s) = Done tt (set_dev d (set_panicstr true s))) ∧
  (∀ t t', panic_at t ≠ Done tt t') ∧
  (∀ o3, printed str sfuel (bytes_of "kernel warning at %s:%d: ") [Lit file; Word line] = Some o3 →
   ∃ d, _warn sfuel file line fmt va s = Done tt (set_dev d s) ∧
     for_each (o3 ++ o2 ++ [LF]) putch s = Done tt (set_dev d s)).
Proof.
  intros panic_at monitoring Hs Hrd H1 H2. split_and!.
  - unfold panic_at, _panic. rewrite run_gets. destruct (panicstr s) eqn:Ep; [by rewrite run_ret|].
    unfold panic_message, cpunum. rewrite run_assoc, run_modify, run_assoc, run_gets. cbn [this_cpu set_panicstr].
    destruct (three_texts sfuel str _ _ _ _ _ _ (set_panicstr true s) (λ _, mret tt) Hs
      (λ a c H, vrd8_panicked a s c (Hrd a c H)) H1 H2) as (d & R & _ & P).
    exists d. split; [|exact P]. by rewrite (bind_Done _ _ _ _ _ R).
  - intros t t'. unfold panic_at, _panic. rewrite run_gets. intros ([] & t1 & _ & H)%bind_inv.
    by apply monitor_forever_stays in H.
  - intros o3 H3. destruct (three_texts sfuel str _ _ _ _ _ _ s (λ _, mret tt) Hs Hrd H3 H2) as (d & R & _ & P). by exists d.
Qed.

(** ** Concrete instances *)

Definition ex_image : image := mkImage (λ i, 0xF0104000 + 8 * i) 0xF0110000 0xF0120000 0xF0130000.
Definition ex_link : link :=
  mkLink 0xF0110000 0xF0140000 0xF0108000 0xF0118000 0x10D000 0xF0105000 0xF0105070 0xF0105050 (0xF0112000, 100) (0xF0113000, 100).

(** A machine with two processors whose memory system is up. *)
Definition ex_ready : kstate :=
  set_kern_pgdir (KERNBASE + 0x3000) (set_cr3 {[ 0 := 0x3000 ]} ex_machine).

Lemma init_cpus_starts_all_witness :
  ∃ s', init_cpus ex_image ex_link 100 (λ _, true) ex_ready = Done tt s' ∧ cpus_running ex_image ex_link 2 ex_ready s'.
Proof.
  apply (init_cpus_starts_all ex_image ex_link 100 (λ _, true) ex_ready 0xF009FD00 0xF009FC10 [Processor 3; Other 1; Processor 1]).
  - split; [reflexivity|by_compute|by_compute|reflexivity|by_compute|reflexivity|reflexivity|]. intros i. unfold ex_ready, ex_machine. cbn [cpus set_kern_pgdir set_cr3 set_npages set_cpus].
    case_decide as Hi.
    + apply elem_of_list_to_map; [rewrite keys_of_pairs; apply NoDup_seqZ|].
      apply list_elem_of_fmap. exists i. split; [reflexivity|]. apply elem_of_seqZ. unfold NCPU in Hi. lia.
    + apply not_elem_of_list_to_map. rewrite keys_of_pairs, elem_of_seqZ. unfold NCPU in Hi. lia.
  - split; [vm_compute; reflexivity|by_compute|vm_compute; repeat split; discriminate|vm_compute; reflexivity|].
    exists 3, [1]. split; [reflexivity|]. split; [reflexivity|]. repeat constructor.
Defined.

(** The firmware's tables in the ROM, where the extended BIOS data area is said to be. *)
Definition ex_rom_mp : list Z :=
  with_checksum 10 ([95; 77; 80; 95] ++ [0x00; 0x01; 0x0F; 0] ++ [1; 4; 0; 0; 0; 0; 0; 0]).
Definition ex_rom : memory :=
  write_bytes (write_bytes (write_bytes ∅ 0x40E [0x00; 0xF0]) 0xF0000 ex_rom_mp) 0xF0100 ex_conf.

(** A machine of 400 pages: the cursor is at 0, no key is pressed, the serial line
    and the printer are always ready, and then the clock is asked for the size. *)
Definition ex_answers : list Z := replicate 3 0 ++ replicate 61 0xA0 ++ [128; 2; 64; 2].
Definition ex_entry : kstate :=
  set_mem ex_rom (set_dev (zero_devices ex_answers)
    (set_pages (list_to_map ((λ i, (i, mkPage None 0 0)) <$> seqZ 0 400)) zero_kstate)).
Definition ex_small : link :=
  mkLink (KERNBASE + 1051990) (KERNBASE + 1052000) (KERNBASE + 1048576) (KERNBASE + 1048576) 0x100000
    (KERNBASE + 1048600) (KERNBASE + 1048700) (KERNBASE + 1048650) (KERNBASE + 1049000, 100) (KERNBASE + 1049100, 100).

(** The tables in the ROM are found in every state that agrees with [ex_rom] there
    and on the first page. *)
Lemma read_bytes_same m m' a n :
  (∀ b, a <= b < a + Z.of_nat n → mget m' b = mget m b) → read_bytes m' a n = read_bytes m a n.
Proof.
  intros H. apply list_eq_same_length with n; [by rewrite length_read_bytes..|].
  intros i x y Hi. rewrite !lookup_read_bytes by done. intros [= <-] [= <-]. apply H. lia.
Qed.

Lemma run_kread {A} p n (k : list Z → M A) s :
  KERNBASE <= p → (kread p n ≫= k) s = k (read_bytes (mem s) (p - KERNBASE) (Z.to_nat n)) s.
Proof. intros H. unfold kread. by rewrite (proj2 (Z.leb_le _ _) H), run_gets. Qed.

Lemma run_sum {A} p n (k : Z → M A) s :
  KERNBASE <= p → (sum p n ≫= k) s = k (u8 (foldr Z.add 0 (read_bytes (mem s) (p - KERNBASE) (Z.to_nat n)))) s.
Proof. intros H. unfold sum. by rewrite run_assoc, run_kread, run_ret. Qed.

Lemma ex_mpconfig s :
  npages s = 400 → (∀ a, 0 <= a < 4096 ∨ 0xF0000 <= a < 0xF1000 → mget (mem s) a = mget ex_rom a) →
  mpconfig s = Done (Some (KERNBASE + 0xF0100, KERNBASE + 0xF0000)) s.
Proof.
  intros Hn H.
  assert (∀ a n, 0xF0000 <= a → a + Z.of_nat n <= 0xF1000 → read_bytes (mem s) a n = read_bytes ex_rom a n) as HR.
  { intros a n Ha Hb. apply read_bytes_same. intros b Hab. apply H. lia. }
  assert (∀ a, 0 <= a → a < 0x190000 → PGNUM a < npages s) as HP.
  { intros a Ha Hb. rewrite Hn, PGNUM_div. zlia. }
  assert (mpsearch1 0xF0000 1024 s = Done (Some (KERNBASE + 0xF0000)) s) as H1.
  { unfold mpsearch1. rewrite run_KADDR; [|by_compute|apply HP; by_compute|lia].
    rewrite run_KADDR; [|by_compute|apply HP; by_compute|lia]. rewrite loop_S.
    change (0xF0000 + KERNBASE <? u32 (0xF0000 + 1024) + KERNBASE) with true. cbv iota.
    rewrite run_assoc, run_kread by by_compute. rewrite HR by by_compute.
    rewrite bool_decide_true by by_compute. rewrite run_assoc, run_sum by by_compute. rewrite HR by by_compute.
    match goal with |- context [?x =? 0] => assert (x = 0) as -> by by_compute end. reflexivity. }
  unfold mpconfig, mpsearch. rewrite run_assoc, run_KADDR; [|by_compute|apply HP; by_compute|lia].
  rewrite run_assoc, run_rd16 by by_compute. rewrite !H by by_compute.
  match goal with |- context [negb (?x =? 0)] => assert (x = 0xF000) as -> by by_compute end.
  change (negb (61440 =? 0)) with true. cbv iota. change (Z.shiftl 61440 4) with 0xF0000.
  rewrite run_assoc, (bind_Done _ _ _ _ _ H1), run_ret. unfold mp_physaddr, mp_type.
  rewrite run_rd32 by by_compute. rewrite run_rd8 by by_compute.
  assert (load32 (mem s) (KERNBASE + 0xF0000 + 4 - KERNBASE) = 0xF0100) as ->.
  { unfold load32. rewrite !H by by_compute. by_compute. }
  rewrite H by by_compute.
  match goal with |- context [negb (?x =? 0)] => assert (x = 0) as -> by by_compute end.
  change ((0xF0100 =? 0) || negb (0 =? 0)) with false. cbv iota.
  rewrite run_KADDR; [|by_compute|apply HP; by_compute|lia].
  rewrite run_kread by by_compute. rewrite HR by by_compute. rewrite bool_decide_true by by_compute. cbn [negb].
  unfold conf_length, conf_version, conf_xlength, conf_xchecksum.
  rewrite run_rd16 by by_compute. rewrite !H by by_compute.
  match goal with |- context [sum _ ?x] => assert (x = 92) as -> by by_compute end.
  rewrite run_sum by by_compute. rewrite HR by by_compute.
  match goal with |- context [negb (?x =? 0)] => assert (x = 0) as -> by by_compute end.
  change (negb (0 =? 0)) with false. cbv iota. rewrite run_rd8 by by_compute. rewrite H by by_compute.
  match goal with |- context [negb (?x =? 1)] => assert (x = 4) as -> by by_compute end.
  change (negb (4 =? 1) && negb (4 =? 4)) with false. cbv iota.
  rewrite run_rd16 by by_compute. rewrite !H by by_compute.
  match goal with |- context [sum _ ?x] => assert (x = 0) as -> by by_compute end.
  rewrite run_sum by by_compute. rewrite HR by by_compute. rewrite run_rd8 by by_compute. rewrite H by by_compute.
  match goal with |- context [negb (?x =? ?y)] => assert (x =? y = true) as -> by by_compute end.
  reflexivity.
Qed.

Lemma ex_firmware s :
  npages s = 400 → (∀ a, 0 <= a < 4096 ∨ 0xF0000 <= a < 0xF1000 → mget (mem s) a = mget ex_rom a) →
  firmware s (KERNBASE + 0xF0100) (KERNBASE + 0xF0000) [Processor 3; Other 1; Processor 1].
Proof.
  intros Hn H. split.
  - by apply ex_mpconfig.
  - by_compute.
  - unfold conf_entries. cbn [entries_at]. rewrite !H by by_compute. vm_compute. repeat split; discriminate.
  - rewrite !H by by_compute. by_compute.
  - exists 3, [1]. split; [reflexivity|]. split; [reflexivity|]. repeat constructor.
Qed.

(** The cursor is at 0 and the machine has 400 pages and two processors. *)
Lemma i386_init_boots_witness :
  ∃ s2 s3, i386_init ex_image ex_small 100 (λ _, true) 0x80000011 ex_entry = (create_envs ex_small ;; sched_yield) s3 ∧
    cpus_running ex_image ex_small 2 s2 s3.
Proof.
  destruct (i386_init_boots ex_image ex_small 100 (λ _, true) 0 0 (tail (tail ex_answers)) 0x80000011 ex_entry)
    as (s1 & R1 & _ & M1 & H); [reflexivity|reflexivity|].
  assert (inb_stream (dev (final (init_console ex_small 100 ex_entry))) = [128; 2; 64; 2]) as Hin by (vm_compute; reflexivity).
  rewrite R1 in Hin. cbn [final] in Hin.
  destruct (H 128 2 64 2 []) as (s2 & fl & _ & H1 & _ & H2 & H3).
  - split; [reflexivity|reflexivity|by_compute|by_compute].
  - exact Hin.
  - split; [by_compute|by_compute|by_compute|by_compute|]. unfold kernel_data. by_compute.
  - assert (∀ a, 0 <= a < 4096 ∨ 0xF0000 <= a < 0xF1000 → mget (mem s2) a = mget ex_rom a) as Hm.
    { intros a Ha. transitivity (mget (mem s1) a).
      - destruct Ha as [Ha|Ha]; [apply (H2 0)|apply (H2 240)]; [left; reflexivity|lia|right; right; by_compute|lia].
      - rewrite M1. change (mem ex_entry) with ex_rom. rewrite mget_fill, decide_False; [reflexivity|].
        change (ln_edata ex_small - KERNBASE) with 1051990. lia. }
    destruct (H3 _ _ _ (ex_firmware s2 (kr_npages _ _ _ _ _ H1) Hm)) as (s3 & R3 & H4).
    exists s2, s3. split; [exact R3|exact H4].
Defined.

Lemma panic_reports_once_witness :
  ∃ d, for_each (bytes_of "kernel panic on CPU 0 at kern/init.c:7: oops" ++ [LF]) putch (set_panicstr true zero_kstate) =
    Done tt (set_dev d (set_panicstr true zero_kstate)).
Proof.
  destruct (panic_reports_once 100 1 1 1 1 (mkSymbols 0 0 0 0 (mkUserStabData 0 0 0 0)) 0 KERNBASE 0 (bytes_of "kern/init.c") 7
    (bytes_of "oops") [] (λ _, None) (bytes_of "kernel panic on CPU 0 at kern/init.c:7: ") (bytes_of "oops") zero_kstate)
    as [(d & _ & H) _].
  - by_compute.
  - intros a c H. discriminate H.
  - vm_compute. reflexivity.
  - vm_compute. reflexivity.
  - exists d. exact H.
Defined.
