(* ===== verification/Startup.v ===== *)
(** * From power-on to the first user program

    [i386_init] as a whole: once the processors run (Init.v), the kernel creates an
    idle environment for each possible processor and one for user/primes, and the
    scheduler of the boot processor enters the last one. *)

From S2P Require Import Prelude Devices Console Machine Spinlock PageAlloc Pmap Env Sched Kprintf Spaces Loader.
From S2P Require Import Mpconfig MemInit BootMemory Init.
From stdpp Require Import base numbers list gmap fin_maps strings.

Local Open Scope Z_scope.

Section startup.
Variables (ln : link) (percpu n : Z).
Implicit Types (s : kstate) (fl pds : list Z) (i : Z).

(** The page directory of the kernel, in the page behind the kernel's image. *)
Notation kd := (image_end (ln_end ln)).

(** The pages of the kernel's image above 1 MB. *)
Definition in_image (j : Z) : Prop := 256 <= j < kd.

(** [s'] has the page allocator and the tables of [s]; memory has changed in the
    first page and the one of the entry code only. *)
Record same_tables s s' : Prop := {
  sb_pages : pages s' = pages s ∧ page_free_list s' = page_free_list s ∧ npages s' = npages s ∧ kern_pgdir s' = kern_pgdir s;
  sb_mem j : j ≠ 0 → j ≠ 7 → page_same j (mem s) (mem s');
}.

(** The kernel's directory is a well-formed system of address spaces. *)
Lemma running_spaces s s' fl :
  kernel_running (ln_end ln) percpu n s fl → 256 < kd → same_tables s s' → 
  spaces s' fl [kd] ∧ (∀ i, 0 <= i < PDX UTOP → pde_of s' kd i = 0) ∧ (∀ j, in_image j → user_page s' fl [kd] j).
Proof.
  intros [K1 K2 K3 K4 K5 K6 K7 K8 K9 K10] Hkd [(S1 & S2 & S3 & S4) S5].
  assert (∀ i, 0 <= i < 1024 → pde_of s' kd i = pde_of s kd i) as Hpde.
  { intros i Hi. apply page_same_slot; [|done]. apply S5; lia. }
  assert (∀ i, 0 <= i < 1024 → pt_of s' kd i = pt_of s kd i) as Hpt by (intros i Hi; unfold pt_of; by rewrite Hpde).
  assert (∀ i, 0 <= i < PDX UTOP → pde_of s' kd i = 0) as Hlow.
  { intros i Hi. rewrite Hpde; [by apply K7|]. change (PDX UTOP) with 955 in Hi. lia. }
  assert (∀ i, 0 <= i < PDX UTOP → pt_of s' kd i = None) as Hnone by (intros i Hi; unfold pt_of; by rewrite Hlow).
  destruct (empty_directory s' kd Hnone) as [Hpte Hview].
  assert (pages_wf s' fl) as Hw by (by apply (pages_wf_ext s)).
  assert (pd_wf s' fl kd) as Hd by (apply (pd_wf_update s _ fl fl); [done|done|by intros; apply Hpt|done]).
  assert (∀ q, q ∈ fl → ¬ in_image q ∧ q ≠ 0) as Hfree.
  { pose proof (pw_npages _ _ K1). pose proof (pages_for_range n ltac:(lia)). intros q [Hq|Hq]%K8; unfold in_image, boot_end in *; lia. }
  assert (∀ j i, reserved (ln_end ln) j → 0 <= i < 1024 → pt_of s' kd i ≠ Some j) as Htab.
  { intros j i Hj Hi. rewrite Hpt by done. by apply K10. }
  split; [split|split; [done|]].
  - done.
  - intros Hq. by apply Hfree in Hq as [_ ?].
  - apply NoDup_singleton.
  - by intros pd ->%list_elem_of_singleton.
  - intros pd i t ->%list_elem_of_singleton Hi Hs Ht ->%list_elem_of_singleton.
    by destruct (pd_table _ _ _ Hd i Hi kd Hs Ht) as (_ & _ & ?).
  - by intros pd pd' i j t ->%list_elem_of_singleton ->%list_elem_of_singleton.
  - intros pd m e ->%list_elem_of_singleton. by rewrite Hview, lookup_empty.
  - intros pd va ->%list_elem_of_singleton Hva _. by apply Hpte.
  - intros q p Hp. cbn [refs]. rewrite Hview, uses_zero by done. destruct (pw_page _ _ Hw q p Hp) as (_ & _ & ?). lia.
  - intros j Hj. destruct (pd_dir _ _ _ Hd) as [Hr _]. unfold in_image in Hj. split; [lia|by intros [? _]%Hfree|].
    intros [->%list_elem_of_singleton|(pd & i & ->%list_elem_of_singleton & Hi & _ & Ht)]; [lia|].
    apply (Htab j i); [unfold reserved; lia|done|done].
Qed.

(** ** Creating the environments *)

(** A program linked into the kernel: it lies in the pages of the image, and is an
    ELF file in the memory [m]. *)
Record embedded (m : memory) (bin : Z * Z) (gs : list segment) (entry : Z) : Prop := {
  em_elf : elf m bin.1 bin.2 gs entry;
  em_image : 256 * 4096 <= bin.1 - KERNBASE ∧ bin.1 - KERNBASE + bin.2 <= kd * 4096;
}.

(** Pages taken from the free list for a program: its directory, and at most a
    page and a page table for each page of a segment and for the stack. *)
Definition cost (gs : list segment) : nat := S (2 * S (total_pages gs)).

(** [k] environments exist, in the first slots; the image is as in [m]. *)
Record launching (m : memory) (C : gmap Z Cpu) (k : Z) s fl pds : Prop := {
  la_spaces : spaces s fl pds;
  la_cpus : cpus s = C ∧ this_cpu s = 0 ∧ kernel_lock s = mkSpinlock 1 (Some 0);
  la_kern : kern_pgdir s = pgdir_kva kd ∧ kd ∈ pds;
  la_low i : 0 <= i < PDX UTOP → pt_of s kd i = None;
  la_envs : envs_wf s (seqZ k (1024 - k));
  la_image j : in_image j → user_page s fl pds j ∧ page_same j m (mem s);
}.

Lemma launch m C k s fl pds bin gs entry type :
  (∃ c, C !! 0 = Some c ∧ cpu_env c = None) →
  launching m C k s fl pds → 0 <= k < 1024 → embedded m bin gs entry → (cost gs <= length fl)%nat →
  ∃ s' fl' q x, env_create bin.1 bin.2 type s = Done tt s' ∧ launching m C (k + 1) s' fl' (q :: pds) ∧
    (length fl <= cost gs + length fl')%nat ∧ 
    envs s' = <[k := program_env k x q entry type]> (envs s) ∧
    cr3 s' !! 0 = Some (kd * 4096) ∧ 0 <= q ∧
    (∀ g o, g ∈ gs → is_load g → 0 <= o < sg_memsz g → user_byte s' q (sg_va g + o) = Some (segment_byte m bin.1 g o)) ∧
    (∀ va, USTACKTOP - PGSIZE <= va < USTACKTOP → user_byte s' q va = Some 0).
Proof.
  intros (c & Hc & Hce) [A1 (A2 & A3 & A4) (A5 & A6) A7 A8 A9] Hk [B1 B2] Hcost. unfold cost in Hcost.
  destruct fl as [|q fl]; [simpl in Hcost; lia|].
  assert (seqZ k (1024 - k) = k :: seqZ (k + 1) (1024 - (k + 1))) as Eq.
  { rewrite seqZ_cons by lia. f_equal. f_equal; lia. }
  rewrite Eq in A8. destruct (ew_total _ _ A8 k Hk) as [x Hx].
  assert (∀ a, bin.1 - KERNBASE <= a < bin.1 - KERNBASE + bin.2 → in_image (a / 4096)) as Hin.
  { intros a Ha. unfold in_image. zlia. }
  assert (same_binary m (mem s) bin.1 bin.2) as Hsame.
  { intros a Ha. destruct (A9 _ (Hin a Ha)) as [_ H]. apply H. zlia. }
  assert (cpu_ok s) as Hok by (unfold cpu_ok; by rewrite A2, A3, Hc, Hce).
  destruct (env_create_run s fl (seqZ (k + 1) (1024 - (k + 1))) pds kd q k x bin.1 bin.2 gs entry type)
    as (s' & fl' & R & [D1 (D2 & D3) D4 D5 D6 D7 D8 D9 D10 (D11 & D12 & D13 & D14 & D15)] & Hm & Hlen); try done.
  - intros a Ha. apply A9. by apply Hin.
  - by eapply elf_same.
  - simpl in Hcost. lia.
  - exists s', fl', q, x. split; [done|]. split; [|split; [unfold cost; simpl; lia|]].
    + split; [done|by rewrite D11, D12, D14|split; [by rewrite D13|by right]| |done|].
      * intros i Hi. unfold pt_of. rewrite D10 by (done || (change (PDX UTOP) with 955 in Hi; lia)). by apply A7.
      * intros j Hj. destruct (A9 j Hj) as [U P]. destruct (Hm j U) as [P' U']. split; [done|]. by etrans.
    + split; [done|]. split; [rewrite D12, A3, A5 in D8; rewrite D8; unfold pgdir_kva; f_equal; lia|].
      split; [|split; [|done]].
      * apply (pw_in_range _ _ q (sp_pages _ _ _ A1)). by left.
      * intros g o Hg Hl Ho. rewrite D4 by done. f_equal. unfold segment_byte. case_decide; [|done].
        pose proof (el_ok _ _ _ _ _ B1 g Hg Hl) as [S1 S2 S3].
        assert (0 <= sg_offset g) as H0.
        { destruct (el_headers _ _ _ _ _ B1) as [_ E]. rewrite E in Hg. apply list_elem_of_fmap in Hg as (i & -> & _). apply segment_at_range. }
        apply Hsame. lia.
Qed.

(** An idle environment that starts at [entry]. *)
Definition idle_env (entry : Z) (y : Env) : Prop :=
  env_type y = ENV_TYPE_IDLE ∧ env_status y = ENV_RUNNABLE ∧ KERNBASE <= env_pgdir y ∧ tf_eip (env_tf y) = entry.

Lemma launch_idles m C bin gs entry l : 
  (∃ c, C !! 0 = Some c ∧ cpu_env c = None) → embedded m bin gs entry →
  ∀ k s fl pds, launching m C k s fl pds → 0 <= k → k + Z.of_nat (length l) <= 1024 → (length l * cost gs <= length fl)%nat →
  ∃ s' fl' pds', for_each l (λ _, env_create bin.1 bin.2 ENV_TYPE_IDLE) s = Done tt s' ∧
    launching m C (k + Z.of_nat (length l)) s' fl' pds' ∧ (length fl <= length l * cost gs + length fl')%nat ∧
    ∀ i, if decide (k <= i < k + Z.of_nat (length l)) then ∃ y, envs s' !! i = Some y ∧ idle_env entry y
         else envs s' !! i = envs s !! i.
Proof.
  intros HC Hem. induction l as [|a l IH]; intros k s fl pds HL Hk Hb Hcost.
  { exists s, fl, pds. split; [done|]. split; [by rewrite Z.add_0_r|]. split; [simpl; lia|].
    intros i. by rewrite decide_False by (simpl; lia). }
  cbn [length] in *. rewrite Nat.mul_succ_l in *.
  destruct (launch m C k s fl pds bin gs entry ENV_TYPE_IDLE HC HL) as (s1 & fl1 & q & x & R1 & L1 & N1 & E1 & _ & Hq & _);
    [lia|done|lia|].
  destruct (IH (k + 1) s1 fl1 (q :: pds) L1) as (s2 & fl2 & pds2 & R2 & L2 & N2 & E2); [lia|lia|lia|].
  exists s2, fl2, pds2. split; [cbn [for_each]; by rewrite (bind_Done _ _ _ _ _ R1)|].
  replace (k + Z.of_nat (S (length l))) with (k + 1 + Z.of_nat (length l)) by lia.
  split; [done|]. split; [lia|]. intros i. specialize (E2 i). destruct (decide (i = k)) as [->|Hne].
  - rewrite decide_True by lia. rewrite decide_False in E2 by lia. exists (program_env k x q entry ENV_TYPE_IDLE).
    rewrite E2, E1, lookup_insert_eq. split; [done|]. unfold idle_env. simpl. unfold pgdir_kva. split_and!; [done|done|lia|done].
  - repeat case_decide; try lia; [done|]. by rewrite E2, E1, lookup_insert_ne.
Qed.

(** After [create_envs]: eight idle environments, user/primes in slot 8, in the
    address space [q], and nothing else. *)
Record started (m : memory) (ei ep : Z) (gp : list segment) s (q : Z) (y : Env) : Prop := {
  st_idle i : 0 <= i < NCPU → ∃ y, envs s !! i = Some y ∧ idle_env ei y;
  st_env : envs s !! 8 = Some y;
  st_user : env_type y = ENV_TYPE_USER ∧ env_status y = ENV_RUNNABLE ∧ env_pgdir y = pgdir_kva q ∧ tf_eip (env_tf y) = ep ∧
    env_runs y = 0 ∧ tf_esp (env_tf y) = USTACKTOP;
  st_free i y : 9 <= i < 1024 → envs s !! i = Some y → env_status y = ENV_FREE;
  st_byte g o : g ∈ gp → is_load g → 0 <= o < sg_memsz g →
    user_byte s q (sg_va g + o) = Some (segment_byte m (ln_user_primes ln).1 g o);
  st_stack va : USTACKTOP - PGSIZE <= va < USTACKTOP → user_byte s q va = Some 0;
}.

Lemma create_envs_run m C s fl gi ei gp ep :
  (∃ c, C !! 0 = Some c ∧ cpu_env c = None) →
  launching m C 0 s fl [kd] → embedded m (ln_user_idle ln) gi ei → embedded m (ln_user_primes ln) gp ep →
  (8 * cost gi + cost gp <= length fl)%nat →
  ∃ s' fl' pds' q y, create_envs ln s = Done tt s' ∧ launching m C 9 s' fl' (q :: pds') ∧ started m ei ep gp s' q y.
Proof.
  intros HC HL Hi Hp Hroom. unfold create_envs.
  destruct (launch_idles m C (ln_user_idle ln) gi ei (seqZ 0 NCPU) HC Hi 0 s fl [kd] HL)
    as (s1 & fl1 & pds1 & R1 & L1 & N1 & E1); [lia|done|change (length (seqZ 0 NCPU)) with 8%nat; lia|].
  change (length (seqZ 0 NCPU)) with 8%nat in *. change (0 + Z.of_nat 8) with 8 in *. rewrite (bind_Done _ _ _ _ _ R1).
  destruct (launch m C 8 s1 fl1 pds1 (ln_user_primes ln) gp ep ENV_TYPE_USER HC L1)
    as (s2 & fl2 & q & x & R2 & L2 & _ & E2 & _ & Hq & Hb & Hst); [lia|done|lia|].
  exists s2, fl2, pds1, q, (program_env 8 x q ep ENV_TYPE_USER). split; [done|]. split; [done|]. split.
  - intros i Hr. unfold NCPU in Hr. specialize (E1 i). rewrite decide_True in E1 by lia.
    rewrite E2, lookup_insert_ne by lia. done.
  - rewrite E2. apply lookup_insert_eq.
  - done.
  - intros i y Hr Hy. apply (ew_env _ _ (la_envs _ _ _ _ _ _ L2)) in Hy as (_ & _ & _ & Hf). apply Hf, elem_of_seqZ. lia.
  - done.
  - done.
Qed.

(** The scheduler of the boot processor passes over the idle environments. *)
Lemma first_turn m ei ep gp s q y c :
  started m ei ep gp s q y → cpus s !! 0 = Some c → cpu_env c = None → this_cpu s = 0 → lock_mine s →
  (∀ i, 0 <= i < 1024 → is_Some (envs s !! i)) → map_Forall (λ i _, 0 <= i < 1024) (envs s) → 0 <= q →
  sched_yield s = Exit (UserMode 8) (run_post 8 y c s).
Proof.
  intros [S1 S2 (S3 & S4 & S5 & _) S7 _ _] Hc Hce Ht Hl Hall Hdom Hq.
  assert (preempt (cpu_env c) (envs s) = envs s) as Hpre by (by rewrite Hce).
  assert (∀ i x, envs s !! i = Some x → eligible x → i = 8) as Hel.
  { intros i x Hx [Ht1 Ht2]. pose proof (Hdom _ _ Hx) as Hr. simpl in Hr.
    destruct (decide (i < 8)) as [H8|H8].
    - destruct (S1 i) as (z & Hz & Hz1 & _); [unfold NCPU; lia|]. congruence.
    - destruct (decide (9 <= i)); [|lia]. rewrite (S7 i x) in Ht2 by (done || lia). done. }
  assert (sched_ready s c) as Hr.
  { split.
    - done.
    - rewrite Hpre. intros i x Hx He. rewrite (Hel i x Hx He) in Hx. simplify_eq. rewrite S5. unfold pgdir_kva. lia.
    - by rewrite Ht.
    - by rewrite Hce.
    - rewrite Ht. lia.
    - rewrite Ht. intros x Hx. destruct (S1 0) as (z & Hz & _ & _ & Hz3 & _); [unfold NCPU; lia|]. congruence.
    - done. }
  assert (runnable_at (envs s) 8 = true) as H8 by (unfold runnable_at; rewrite S2; apply bool_decide_eq_true; split; [by rewrite S3|done]).
  pose proof (sched_yield_run s c Hr) as H. cbv zeta in H. rewrite Hpre in H.
  change (envs (set_envs (envs s) s)) with (envs s) in H.
  assert (set_envs (envs s) s = s) as Es by by destruct s. rewrite Es in H.
  destruct (next_runnable (envs s) (start_index (envs s) (cpu_env c)) (seqZ 0 NENV)) as [r|] eqn:En.
  - destruct H as (x & Hx & He & H). pose proof (Hel r x Hx He) as ->. simplify_eq. done.
  - by rewrite (next_runnable_none _ _ _ En) in H8 by lia.
Qed.
End startup.

(** ** From the boot loader to user mode *)

Section power_on.
Variables (im : image) (ln : link) (sfuel : nat) (answers : Z → bool).
Implicit Types (s : kstate) (fl pds : list Z).

(** Memory once the uninitialised variables are cleared. *)
Definition cleared s : memory := fill (mem s) (ln_edata ln - KERNBASE) 0 (Z.to_nat (ln_end ln - ln_edata ln)).

(** What the machine and the two programs have to be for the kernel to boot: [n]
    pages of memory and [k] processors. *)
Record bootable s (n k : Z) (gi gp : list segment) (ei ep : Z) : Prop := {
  bo_loaded : loaded n s;
  bo_cursor : ∃ hi lo l, inb_stream (dev s) = hi :: lo :: l ∧ 256 * u8 hi + u8 lo < CRT_SIZE;
  bo_nvram : ∃ bl bh el eh l, inb_stream (dev (final (init_console ln sfuel s))) = bl :: bh :: el :: eh :: l ∧
    n = detected bl bh el eh;
  bo_fits : fits (ln_end ln) (ln_bootstack ln) (ln_percpu_kstacks ln) n;
  bo_firmware : ∃ conf mp es, k = Z.min NCPU (Z.of_nat (length (processors es))) ∧
    ∀ t, npages t = n → (∀ j, reserved (ln_end ln) j → page_same j (cleared s) (mem t)) → firmware t conf mp es;
  bo_answers i : 0 < i < k → answers i = true;
  bo_entry : ln_mpentry_end ln - ln_mpentry_start ln <= 4096;
  bo_idle : embedded ln (cleared s) (ln_user_idle ln) gi ei;
  bo_primes : embedded ln (cleared s) (ln_user_primes ln) gp ep;
  bo_room : Z.of_nat (8 * cost gi + cost gp) <= n - boot_end (ln_end ln) n + 91;
}.

(** The other processors run, and nothing is created yet. *)
Lemma launching_starts s n k gi gp ei ep cr0 :
  bootable s n k gi gp ei ep →
  ∃ s3 fl, i386_init im ln sfuel answers cr0 s = (create_envs ln ;; sched_yield) s3 ∧
    launching ln (cleared s) (cpus s3) 0 s3 fl [image_end (ln_end ln)] ∧
    (8 * cost gi + cost gp <= length fl)%nat ∧ ∃ c, cpus s3 !! 0 = Some c ∧ cpu_env c = None.
Proof.
  intros [B1 (hi & lo & l0 & B2 & B3) (bl & bh & el & eh & l & B4 & B5) B6 (conf & mp & es & B7 & B8) B9 B10 B11 B12 B13].
  destruct (console_comes_up ln sfuel s hi lo l0 B2 B3) as (s1 & R1 & Hscr & M1). rewrite R1 in B4. cbn [final] in B4.
  rewrite B5 in *. destruct (i386_init_run im ln sfuel answers bl bh el eh l cr0 s s1 0 B1 R1 Hscr B4 B6)
    as (s2 & fl & _ & HK & _ & HM & Hrun).
  rewrite M1 in HM. specialize (Hrun conf mp es (B8 s2 (kr_npages _ _ _ _ _ HK) HM)). cbv zeta in Hrun. rewrite <- B7 in Hrun.
  rewrite (proj2 (forallb_forall _ _)) in Hrun.
  2: { intros i Hi%list_elem_of_In%elem_of_seqZ. destruct (Z.eqb_spec i 0); [done|]. apply B9. lia. }
  destruct Hrun as (s3 & R3 & [C1 C2 _ C3 _ _ C4 C5 C6 _]). exists s3, fl. split; [done|].
  set (kd := image_end (ln_end ln)) in *.
  assert (256 < kd) as Hkd. { destruct B11 as [[(_ & E & _) _ _ _ _ _] [E1 E2]]. fold kd in E2. lia. }
  assert (same_tables s2 s3) as Hsame.
  { split; [done|]. intros j J0 J7 a Ha. unfold MPENTRY_PADDR in C6. rewrite C6 by lia. by rewrite decide_False by lia. }
  destruct (running_spaces ln (ln_percpu_kstacks ln) _ s2 s3 fl HK Hkd Hsame) as (Hs & Hlow & Hu). fold kd in Hs, Hlow, Hu.
  split; [|split; [pose proof (kr_room _ _ _ _ _ HK); lia|]].
  - split; [done|done|split; [|by left]| |done|].
    + destruct C5 as (_ & _ & _ & ->). apply HK.
    + intros i Hi. unfold pt_of. by rewrite Hlow.
    + intros j Hj. split; [by apply Hu|]. unfold in_image in Hj. fold kd in Hj. etrans; [apply HM; unfold reserved; fold kd; lia|].
      apply Hsame; lia.
  - exists (mkCpu 0 CPU_STARTED None (KSTACKTOP - 65536 * 0) GD_KD). split; [|done].
    apply C3. rewrite B7. destruct (fw_boot _ _ _ _ (B8 s2 (kr_npages _ _ _ _ _ HK) HM)) as (f & fs & -> & _). unfold NCPU. simpl. lia.
Qed.

(** The state in which the boot processor first enters user mode. *)
Record in_primes (m : memory) (ei ep : Z) (gp : list segment) s (q : Z) : Prop := {
  ip_env : ∃ y, envs s !! 8 = Some y ∧ env_status y = ENV_RUNNING ∧ env_type y = ENV_TYPE_USER ∧
    env_runs y = 1 ∧ tf_eip (env_tf y) = ep ∧ tf_esp (env_tf y) = USTACKTOP;
  ip_cpu : cpu_env <$> cpus s !! 0 = Some (Some 8) ∧ cr3 s !! 0 = Some (q * 4096);
  ip_lock : kernel_lock s = mkSpinlock 0 None;
  ip_idle i : 0 <= i < NCPU → ∃ y, envs s !! i = Some y ∧ idle_env ei y;
  ip_byte g o : g ∈ gp → is_load g → 0 <= o < sg_memsz g →
    user_byte s q (sg_va g + o) = Some (segment_byte m (ln_user_primes ln).1 g o);
  ip_stack va : USTACKTOP - PGSIZE <= va < USTACKTOP → user_byte s q va = Some 0;
}.

Lemma i386_init_enters_user s n k gi gp ei ep cr0 :
  bootable s n k gi gp ei ep →
  ∃ s' q, i386_init im ln sfuel answers cr0 s = Exit (UserMode 8) s' ∧ in_primes (cleared s) ei ep gp s' q.
Proof.
  intros Hb. destruct (launching_starts s n k gi gp ei ep cr0 Hb) as (s3 & fl & -> & HL & Hroom & HC).
  destruct (create_envs_run ln (cleared s) (cpus s3) s3 fl gi ei gp ep HC HL (bo_idle _ _ _ _ _ _ _ Hb) (bo_primes _ _ _ _ _ _ _ Hb) Hroom)
    as (s4 & fl4 & pds4 & q & y & R4 & [L1 (L2 & L3 & L4) _ _ L5 _] & Hst).
  rewrite (bind_Done _ _ _ _ _ R4). destruct HC as (c & Hc & Hce). rewrite <- L2 in Hc.
  assert (0 <= q) as Hq. { destruct (pd_dir _ _ _ (sp_pd _ _ _ L1 q ltac:(by left))). lia. }
  rewrite (first_turn ln (cleared s) ei ep gp s4 q y c Hst Hc Hce L3); [|unfold lock_mine; by rewrite L3|apply L5| |done].
  2: { intros i x Hx. by apply (ew_env _ _ L5) in Hx as (? & _). }
  exists (run_post 8 y c s4), q. split; [done|].
  assert (∀ va, user_byte (run_post 8 y c s4) q va = user_byte s4 q va) as Hub.
  { intros va. unfold user_byte. by rewrite (proj2 (same_mem_spaces s4 (run_post 8 y c s4) fl4 (q :: pds4) q L1 eq_refl eq_refl eq_refl eq_refl)). }
  destruct Hst as [S1 S2 (S3 & S4 & S5 & S6 & S7 & S8) S9 S10 S11].
  assert (envs (run_post 8 y c s4) = <[8 := dispatched 0 y]> (envs s4)) as He by (unfold run_post; simpl; by rewrite Hce, L3).
  split.
  - exists (dispatched 0 y). rewrite He, lookup_insert_eq. unfold dispatched. simpl. by rewrite S7.
  - unfold run_post. simpl. rewrite L3, !lookup_insert_eq, S5. unfold pgdir_kva. split; [done|]. f_equal. lia.
  - done.
  - intros i Hi. rewrite He, lookup_insert_ne by (unfold NCPU in Hi; lia). by apply S1.
  - intros g o Hg Hl Ho. rewrite Hub. by apply S10.
  - intros va Hva. rewrite Hub. by apply S11.
Qed.
End power_on.

(** ** Properties *)

(** C39: the kernel boots into its first user program.  Take a machine on which the boot
    loader has loaded the kernel, whatever its uninitialised variables hold, such
    that the screen's controller reports a cursor on the screen, the NVRAM
    reports a memory in which the kernel, eight copies of user/idle and
    user/primes have room, the firmware's tables lie in pages that the memory
    system keeps, list the boot processor first and flag no other one, all other
    processors that they announce answer, the entry code of the other processors
    fits into its page, and user/idle and user/primes are well-formed ELF files
    in the kernel's image.  Then i386_init does not panic, hang or return: it
    ends with the boot processor in user mode, in environment 8, for the first
    time, at the entry point of user/primes with its stack pointer at the top of
    a zeroed stack page; the address space in use holds every byte of the loadable
    segments of user/primes as the file has it, with zeros beyond the file's
    part; the kernel lock is free; and the first eight slots hold runnable idle
    environments that will start at the entry point of user/idle. *)
Theorem i386_init_runs_primes im ln sfuel answers s n k gi gp ei ep cr0 :
  bootable ln sfuel answers s n k gi gp ei ep →
  ∃ s' q, i386_init im ln sfuel answers cr0 s = Exit (UserMode 8) s' ∧ in_primes ln (cleared ln s) ei ep gp s' q.
Proof. apply i386_init_enters_user. Qed.

(** ** A concrete machine *)

(** The machine of [ex_entry], with the program of Loader.v as user/idle and as
    user/primes. *)
Definition ex_boot : kstate :=
  set_mem (write_bytes (write_bytes ex_rom 1049000 ex_binary) 1049100 ex_binary) ex_entry.

Lemma ex_embedded a :
  a = 1049000 ∨ a = 1049100 → embedded ex_small (cleared ex_small ex_boot) (KERNBASE + a, 100) [ex_segment] 0x800020.
Proof.
  intros Ha. split; [|destruct Ha as [-> | ->]; by_compute].
  split.
  - destruct Ha as [-> | ->]; by_compute.
  - destruct Ha as [-> | ->]; by_compute.
  - destruct Ha as [-> | ->]; by_compute.
  - destruct Ha as [-> | ->]; (split; [by_compute|]); vm_compute; reflexivity.
  - intros g ->%list_elem_of_singleton _. split; by_compute.
  - split; [|done]. intros h m H. by apply not_elem_of_nil in H.
Qed.

Lemma ex_bootable : bootable ex_small 100 (λ _, true) ex_boot 400 2 [ex_segment] [ex_segment] 0x800020 0x800020.
Proof.
  split.
  - split; [reflexivity|reflexivity|by_compute|by_compute].
  - exists 0, 0, (tail (tail ex_answers)). split; reflexivity.
  - exists 128, 2, 64, 2, []. split; [vm_compute; reflexivity|reflexivity].
  - split; [by_compute|by_compute|by_compute|by_compute|]. unfold kernel_data. by_compute.
  - exists (KERNBASE + 0xF0100), (KERNBASE + 0xF0000), [Processor 3; Other 1; Processor 1]. split; [reflexivity|].
    intros t Hn Ht. apply ex_firmware; [done|]. intros a Ha. transitivity (mget (cleared ex_small ex_boot) a).
    + destruct Ha as [Ha|Ha]; [apply (Ht 0)|apply (Ht 240)]; [left; reflexivity|lia|right; right; by_compute|lia].
    + unfold cleared. change (ln_edata ex_small - KERNBASE) with 1051990. rewrite mget_fill, decide_False by lia.
      cbn [mem set_mem ex_boot]. rewrite mget_write_bytes, decide_False by lia. by rewrite mget_write_bytes, decide_False by lia.
  - done.
  - by_compute.
  - apply (ex_embedded 1049000). by left.
  - apply (ex_embedded 1049100). by right.
  - by_compute.
Qed.

Lemma i386_init_runs_primes_witness :
  ∃ s' q, i386_init ex_image ex_small 100 (λ _, true) 0x80000011 ex_boot = Exit (UserMode 8) s' ∧
    in_primes ex_small (cleared ex_small ex_boot) 0x800020 0x800020 [ex_segment] s' q.
Proof. apply (i386_init_runs_primes ex_image ex_small 100 (λ _, true) ex_boot 400 2 [ex_segment] [ex_segment]), ex_bootable. Defined.
