(* ===== verification/Boot.v ===== *)
(** * The boot loader: boot/main.c

    [bootmain] reads the kernel's ELF image from the first IDE disk, sector by
    sector, and jumps to its entry point; nothing of the kernel exists yet, so
    the state is the physical memory and the disk with its registers.  The disk
    controller is modelled by its documented behaviour: it is busy for a finite
    number of polls, command 0x20 makes the sectors addressed by the registers
    readable at the data port. *)

From S2P Require Import Prelude Machine Env.
From stdpp Require Import base numbers list gmap fin_maps.

Local Open Scope Z_scope.

Record bstate : Type := mkBstate {
  bmem : memory;        (** physical memory *)
  disk : memory;        (** the contents of the disk *)
  ide_regs : gmap Z Z;  (** the registers 0x1F2 to 0x1F6 *)
  fifo : list Z;        (** the bytes to be read at the data port *)
  status : list Z       (** the status bytes before the disk is ready *)
}.
Definition set_bmem v s := mkBstate v (disk s) (ide_regs s) (fifo s) (status s).
Definition set_ide_regs v s := mkBstate (bmem s) (disk s) v (fifo s) (status s).
Definition set_fifo v s := mkBstate (bmem s) (disk s) (ide_regs s) v (status s).
Definition set_status v s := mkBstate (bmem s) (disk s) (ide_regs s) (fifo s) v.

(** The exits of the loader: the jump to the kernel, the endless loop at [bad],
    and the end of the model's fuel. *)
Inductive bexit : Type := EnterKernel (eip : Z) | Bad | BootNoFuel.
Abbreviation B := (comp bstate bexit).

Definition SECTSIZE : Z := 512.
Definition ELFHDR : Z := 0x10000.

(** ** The disk controller *)

Definition ide_reg (s : bstate) (p : Z) : Z := u8 (default 0 (ide_regs s !! p)).

(** The 28-bit sector number in the registers. *)
Definition lba (s : bstate) : Z :=
  ide_reg s 0x1F3 + 256 * ide_reg s 0x1F4 + 65536 * ide_reg s 0x1F5 +
  16777216 * (ide_reg s 0x1F6 mod 16).

(** The status register; a disk with nothing left to do answers "ready". *)
Definition inb_status : B Z :=
  s ← get;
  match status s with
  | [] => mret 0x40
  | b :: l => modify (set_status l) ;; mret (u8 b)
  end.

Definition outb (port v : Z) : B unit :=
  if port =? 0x1F7 then
    if u8 v =? 0x20 then modify (λ s,
      set_fifo (read_bytes (disk s) (SECTSIZE * lba s) (Z.to_nat (SECTSIZE * ide_reg s 0x1F2))) s)
    else mret tt
  else modify (λ s, set_ide_regs (<[port := u8 v]> (ide_regs s)) s).

(** [rep insl] from the data port; without data the bus reads as ones. *)
Definition insl (addr cnt : Z) : B unit := modify (λ s,
  let n := Z.to_nat (4 * cnt) in
  set_fifo (drop n (fifo s))
    (set_bmem (write_bytes (bmem s) addr (take n (fifo s ++ replicate n 255))) s)).

(** ** The loader *)

(** Waits for as long as the disk is not ready. *)
Definition waitdisk : B unit :=
  s ← get;
  loop (S (length (status s))) BootNoFuel (λ _,
    b ← inb_status;
    if negb (Z.land b 0xC0 =? 0x40) then mret (inl tt) else mret (inr tt)) tt.

Definition readsect (dst offset : Z) : B unit :=
  waitdisk ;;
  outb 0x1F2 1 ;;
  outb 0x1F3 offset ;;
  outb 0x1F4 (Z.shiftr offset 8) ;;
  outb 0x1F5 (Z.shiftr offset 16) ;;
  outb 0x1F6 (Z.lor (Z.shiftr offset 24) 0xE0) ;;
  outb 0x1F7 0x20 ;;
  waitdisk ;;
  insl dst (SECTSIZE / 4).

(** The loop runs once per sector of the range. *)
Definition readseg (pa count offset : Z) : B unit :=
  let end_pa := u32 (pa + count) in
  let pa := Z.land pa (Z.lnot (SECTSIZE - 1)) in
  let offset := u32 (offset / SECTSIZE + 1) in
  loop (S (Z.to_nat ((end_pa - pa + 511) / 512))) BootNoFuel (λ '(pa, offset),
    if pa <? end_pa then
      readsect pa offset ;; mret (inl (u32 (pa + SECTSIZE), u32 (offset + 1)))
    else mret (inr tt)) (pa, offset).

Definition brd32 (a : Z) : B Z := gets (λ s, load32 (bmem s) a).
Definition brd16 (a : Z) : B Z := gets (λ s, mget (bmem s) a + 256 * mget (bmem s) (a + 1)).

(** Any exit is the jump or the endless loop after [bad:]; the two writes to the
    emulator's port before that loop are left out. *)
Definition bootmain : B unit :=
  readseg ELFHDR (SECTSIZE * 8) 0 ;;
  e_magic ← brd32 ELFHDR;
  if negb (e_magic =? ELF_MAGIC) then leave Bad else
  e_phoff ← brd32 (ELFHDR + 28);
  e_phnum ← brd16 (ELFHDR + 44);
  let ph := u32 (ELFHDR + e_phoff) in
  let eph := u32 (ph + 32 * e_phnum) in
  loop (S (Z.to_nat e_phnum)) BootNoFuel (λ ph,
    if ph <? eph then
      p_pa ← brd32 (ph + 12);
      p_memsz ← brd32 (ph + 20);
      p_offset ← brd32 (ph + 4);
      readseg p_pa p_memsz p_offset ;;
      mret (inl (u32 (ph + 32)))
    else mret (inr tt)) ph ;;
  e_entry ← brd32 (ELFHDR + 24);
  leave (EnterKernel e_entry).

#[global] Arguments readsect : simpl never.
#[global] Arguments readseg : simpl never.

(** ** Reading sectors *)

Section sectors.
Implicit Types s : bstate.

Lemma mget_write_read m d dst src n b :
  mget (write_bytes m dst (read_bytes d src n)) b =
    if decide (dst <= b < dst + Z.of_nat n) then mget d (src + (b - dst)) else mget m b.
Proof.
  rewrite mget_write_bytes, length_read_bytes. case_decide; [|done].
  rewrite lookup_read_bytes by lia. simpl. rewrite Z2Nat.id by lia. apply u8_id, mget_range.
Qed.

Lemma waitdisk_run s : ∃ l, waitdisk s = Done tt (set_status l s).
Proof.
  unfold waitdisk. rewrite run_get.
  assert (∀ n s, (length (status s) < n)%nat → ∃ l,
    loop n BootNoFuel (λ _, b ← inb_status;
      if negb (Z.land b 0xC0 =? 0x40) then mret (inl tt) else mret (inr tt)) tt s =
    Done tt (set_status l s)) as H; [|apply H; lia].
  clear s. induction n as [|n IH]; intros s Hn; [lia|].
  rewrite loop_S, run_assoc. destruct (status s) as [|b l] eqn:El.
  { rewrite (bind_Done _ _ _ 0x40 s) by (unfold inb_status; by rewrite run_get, El).
    exists []. rewrite <- El. by destruct s. }
  rewrite (bind_Done _ _ _ (u8 b) (set_status l s)) by (unfold inb_status; by rewrite run_get, El).
  destruct (negb _).
  - rewrite run_ret. destruct (IH (set_status l s)) as (l' & ->); [simpl in *; lia|]. by exists l'.
  - by exists l.
Qed.

(** The registers hold the sector number. *)
Lemma lba_written o s :
  0 <= o < 268435456 →
  lba (set_ide_regs (<[0x1F6 := u8 (Z.lor (Z.shiftr o 24) 0xE0)]> (<[0x1F5 := u8 (Z.shiftr o 16)]>
    (<[0x1F4 := u8 (Z.shiftr o 8)]> (<[0x1F3 := u8 o]> (<[0x1F2 := u8 1]> (ide_regs s)))))) s) = o.
Proof.
  intros Ho. unfold lba, ide_reg. simpl. rewrite !lookup_insert. simpl. rewrite !u8_u8.
  rewrite !Z.shiftr_div_pow2 by lia.
  assert (u8 (Z.lor (o / 2 ^ 24) 0xE0) mod 16 = o / 2 ^ 24) as ->; [|zlia].
  assert (0 <= o / 2 ^ 24 < 16) as Hh by zlia. revert Hh. generalize (o / 2 ^ 24). intros h Hh.
  assert (h ∈ seqZ 0 16) as Hin by (apply elem_of_seqZ; lia). revert h Hh Hin.
  assert (Forall (λ h, u8 (Z.lor h 0xE0) mod 16 = h) (seqZ 0 16)) as H by by_compute.
  intros h _ Hin. by eapply Forall_forall in H.
Qed.

Lemma readsect_run dst o s :
  0 <= o < 268435456 →
  ∃ s', readsect dst o s = Done tt s' ∧ disk s' = disk s ∧
    bmem s' = write_bytes (bmem s) dst (read_bytes (disk s) (512 * o) 512).
Proof.
  intros Ho. unfold readsect. destruct (waitdisk_run s) as (l1 & H1). step_with H1.
  unfold outb. simpl. rewrite !run_modify. simpl.
  set (s1 := set_ide_regs _ _).
  assert (lba s1 = o) as Hl by apply (lba_written o (set_status l1 s) Ho).
  assert (ide_reg s1 0x1F2 = 1) as Hc by (unfold ide_reg; simpl; by rewrite !lookup_insert).
  rewrite Hl, Hc. set (s2 := set_fifo _ _). destruct (waitdisk_run s2) as (l2 & H2). step_with H2.
  eexists. split; [reflexivity|]. split; [done|]. simpl.
  rewrite take_app_le, take_ge by (rewrite length_read_bytes; vm_compute; lia). done.
Qed.

(** [n] consecutive sectors. *)
Lemma readseg_loop end_pa n pa o s :
  0 <= pa → pa mod 512 = 0 → 0 <= o → o + Z.of_nat n < 268435456 →
  pa + 512 * Z.of_nat n <= 4294967295 →
  (∀ k, 0 <= k < Z.of_nat n → pa + 512 * k < end_pa) → end_pa <= pa + 512 * Z.of_nat n →
  ∃ s', loop (S n) BootNoFuel (λ '(pa, offset),
      if pa <? end_pa then
        readsect pa offset ;; mret (inl (u32 (pa + SECTSIZE), u32 (offset + 1)))
      else mret (inr tt)) (pa, o) s = Done tt s' ∧ disk s' = disk s ∧
    ∀ b, mget (bmem s') b =
      if decide (pa <= b < pa + 512 * Z.of_nat n) then mget (disk s) (512 * o + (b - pa))
      else mget (bmem s) b.
Proof.
  revert pa o s. induction n as [|n IH]; intros pa o s Hp Hm Ho Ho' Hp' Hlt Hge; rewrite loop_S.
  { rewrite (proj2 (Z.ltb_ge pa end_pa)) by lia. exists s. split; [done|]. split; [done|].
    intros b. by rewrite decide_False by lia. }
  rewrite (proj2 (Z.ltb_lt pa end_pa)) by (specialize (Hlt 0); lia).
  destruct (readsect_run pa o s) as (s1 & H1 & D1 & M1); [lia|]. rewrite run_assoc. step_with H1.
  rewrite run_ret. change SECTSIZE with 512. rewrite !u32_id by lia.
  destruct (IH (pa + 512) (o + 1) s1) as (s2 & H2 & D2 & M2); [zlia|zlia|lia|lia|lia| |lia|].
  { intros k Hk. specialize (Hlt (k + 1)). lia. }
  exists s2. split; [done|]. split; [congruence|]. intros b. rewrite M2, D1, M1, mget_write_read.
  repeat case_decide; try lia; [|done..]. f_equal. lia.
Qed.
End sectors.

(** Addresses rounded down and up to a sector. *)
Definition sector_down (a : Z) : Z := a - a mod 512.
Definition sector_up (a : Z) : Z := sector_down (a + 511).

Section load.
Implicit Types s : bstate.

Lemma land_sector a : Z.land a (Z.lnot (SECTSIZE - 1)) = sector_down a.
Proof.
  change (Z.lnot (SECTSIZE - 1)) with (Z.lnot (Z.ones 9)). unfold sector_down.
  rewrite <- Z.ldiff_land, Z.ldiff_ones_r by lia.
  rewrite Z.shiftr_div_pow2, Z.shiftl_mul_pow2 by lia. zlia.
Qed.

Lemma readseg_run pa count offset s :
  0 <= pa → 0 <= count → pa + count <= 4294966784 → 0 <= offset → offset + count <= 2 ^ 36 →
  ∃ s', readseg pa count offset s = Done tt s' ∧ disk s' = disk s ∧
    ∀ b, mget (bmem s') b =
      if decide (sector_down pa <= b < sector_up (pa + count))
      then mget (disk s) (512 + sector_down offset + (b - sector_down pa))
      else mget (bmem s) b.
Proof.
  intros Hp Hc He Ho Hoc. unfold readseg. rewrite land_sector. change SECTSIZE with 512.
  rewrite (u32_id (pa + count)) by lia. rewrite (u32_id (offset / 512 + 1)) by (change (2 ^ 36) with 68719476736 in *; zlia).
  set (p := sector_down pa). set (n := Z.to_nat ((pa + count - p + 511) / 512)).
  change (2 ^ 36) with 68719476736 in *.
  assert (0 <= p ∧ p mod 512 = 0 ∧ p <= pa < p + 512) as (Hp0 & Hpm & Hpp) by (unfold p, sector_down; zlia).
  assert (p + 512 * Z.of_nat n = sector_up (pa + count)) as Hn by (unfold n, sector_up, sector_down; zlia).
  assert (Z.of_nat n <= (count + 1022) / 512) as Hn' by (unfold n; zlia).
  destruct (readseg_loop (pa + count) n p (offset / 512 + 1) s) as (s' & H1 & H2 & H3);
    [lia|lia|zlia|zlia|rewrite Hn; unfold sector_up, sector_down; zlia| |rewrite Hn; unfold sector_up, sector_down; zlia|].
  { intros k Hk. unfold n in Hk. zlia. }
  exists s'. split; [exact H1|]. split; [done|]. intros b. rewrite H3, Hn. case_decide; [|done].
  f_equal. assert (sector_down offset = 512 * (offset / 512)) as -> by (unfold sector_down; zlia). lia.
Qed.
End load.

(** ** The kernel's image on the disk *)

(** Fields of the ELF header and of program header [i], which start at the
    second sector of the disk [d]. *)
Section image.
Variable d : memory.
Definition file_word (a : Z) : Z := load32 d (512 + a).
Definition file_phoff : Z := file_word 28.
Definition file_phnum : Z := mget d (512 + 44) + 256 * mget d (512 + 45).
Definition seg_field (i o : Z) : Z := file_word (file_phoff + 32 * i + o).
Definition seg_offset (i : Z) : Z := seg_field i 4.
Definition seg_pa (i : Z) : Z := seg_field i 12.
Definition seg_end (i : Z) : Z := seg_pa i + seg_field i 20.

(** An image the loader can load: the headers lie in its first 4096 bytes, every
    segment has the same position within a sector in memory and in the file, and
    the sectors of a segment touch neither the headers nor an earlier segment. *)
Record bootable : Prop := {
  boot_magic : file_word 0 = ELF_MAGIC;
  boot_phdrs : file_phoff + 32 * file_phnum <= 4096;
  boot_fits i : 0 <= i < file_phnum → seg_end i <= 4294966784;
  boot_congruent i : 0 <= i < file_phnum → seg_pa i mod 512 = seg_offset i mod 512;
  boot_header i : 0 <= i < file_phnum →
    sector_up (seg_end i) <= ELFHDR ∨ ELFHDR + 4096 <= sector_down (seg_pa i);
  boot_disjoint i j : 0 <= i < j → j < file_phnum →
    sector_up (seg_end j) <= seg_pa i ∨ seg_end i <= sector_down (seg_pa j)
}.

(** The first [n] segments are in memory, and so are the headers. *)
Definition header_loaded (m : memory) : Prop :=
  ∀ b, 0 <= b < 4096 → mget m (ELFHDR + b) = mget d (512 + b).
Definition seg_loaded (m : memory) (i : Z) : Prop :=
  ∀ a, seg_pa i <= a < seg_end i → mget m a = mget d (512 + seg_offset i + (a - seg_pa i)).

Lemma header_word m a : header_loaded m → 0 <= a → a + 4 <= 4096 → load32 m (ELFHDR + a) = file_word a.
Proof.
  intros H Ha Hb. unfold file_word, load32.
  assert (∀ k, 0 <= k < 4 → mget m (ELFHDR + a + k) = mget d (512 + a + k)) as E.
  { intros k Hk. rewrite <- !Z.add_assoc. apply H. lia. }
  pose proof (E 0) as E0. rewrite !Z.add_0_r in E0. rewrite E0, !E by lia. done.
Qed.

Lemma file_word_range a : 0 <= file_word a < 4294967296.
Proof. apply load32_range. Qed.
Lemma file_phnum_range : 0 <= file_phnum.
Proof. unfold file_phnum. pose proof (mget_range d (512 + 44)). pose proof (mget_range d (512 + 45)). lia. Qed.
End image.

Section bootmain.
Implicit Types s : bstate.

Lemma sector_down_le a : sector_down a <= a < sector_down a + 512.
Proof. unfold sector_down. zlia. Qed.
Lemma sector_up_ge a : a <= sector_up a.
Proof. unfold sector_up, sector_down. zlia. Qed.

(** Loading segment [i] keeps the headers and the segments before it. *)
Lemma seg_run i s :
  bootable (disk s) → 0 <= i < file_phnum (disk s) → header_loaded (disk s) (bmem s) →
  (∀ j, 0 <= j < i → seg_loaded (disk s) (bmem s) j) →
  ∃ s', readseg (seg_pa (disk s) i) (seg_field (disk s) i 20) (seg_offset (disk s) i) s = Done tt s' ∧
    disk s' = disk s ∧ header_loaded (disk s) (bmem s') ∧
    ∀ j, 0 <= j < i + 1 → seg_loaded (disk s) (bmem s') j.
Proof.
  intros [_ _ Hf Hc Hh Hd] Hi Hhdr Hseg.
  specialize (Hf i Hi). specialize (Hc i Hi). specialize (Hh i Hi).
  pose proof (file_word_range (disk s)) as Hr. unfold seg_end in Hf.
  destruct (readseg_run (seg_pa (disk s) i) (seg_field (disk s) i 20) (seg_offset (disk s) i) s)
    as (s' & H1 & H2 & H3).
  { apply Hr. } { apply Hr. } { done. } { apply Hr. }
  { change (2 ^ 36) with 68719476736. unfold seg_offset, seg_field.
    pose proof (Hr (file_phoff (disk s) + 32 * i + 4)). pose proof (Hr (file_phoff (disk s) + 32 * i + 20)). lia. }
  fold (seg_end (disk s) i) in H3. exists s'. split; [done|]. split; [done|]. split.
  - intros b Hb. rewrite H3, decide_False by lia. by apply Hhdr.
  - intros j Hj a Ha. rewrite H3. destruct (decide (j = i)) as [->|Hne].
    + pose proof (sector_down_le (seg_pa (disk s) i)). pose proof (sector_up_ge (seg_end (disk s) i)).
      rewrite decide_True by lia. f_equal. unfold sector_down. lia.
    + assert (0 <= j < i) as Hji by lia. specialize (Hd j i Hji ltac:(lia)).
      rewrite decide_False by lia. by apply Hseg.
Qed.

Lemma load_segments n i s :
  bootable (disk s) → 0 <= i → i + Z.of_nat n = file_phnum (disk s) →
  header_loaded (disk s) (bmem s) → (∀ j, 0 <= j < i → seg_loaded (disk s) (bmem s) j) →
  let ph i := ELFHDR + file_phoff (disk s) + 32 * i in
  ∃ s', loop (S n) BootNoFuel (λ p,
      if p <? ph (file_phnum (disk s)) then
        p_pa ← brd32 (p + 12);
        p_memsz ← brd32 (p + 20);
        p_offset ← brd32 (p + 4);
        readseg p_pa p_memsz p_offset ;;
        mret (inl (u32 (p + 32)))
      else mret (inr tt)) (ph i) s = Done tt s' ∧
    disk s' = disk s ∧ header_loaded (disk s) (bmem s') ∧
    ∀ j, 0 <= j < file_phnum (disk s) → seg_loaded (disk s) (bmem s') j.
Proof.
  intros Hb Hi Hn Hh Hs ph. revert i s Hb Hi Hn Hh Hs ph.
  induction n as [|n IH]; intros i s Hb Hi Hn Hh Hs ph; rewrite loop_S.
  { rewrite (proj2 (Z.ltb_ge (ph i) _)) by (unfold ph; lia). exists s. split_and!; [done..|].
    intros j Hj. apply Hs. lia. }
  rewrite (proj2 (Z.ltb_lt (ph i) _)) by (unfold ph; lia).
  pose proof (boot_phdrs _ Hb) as Hp. pose proof (file_word_range (disk s) 28) as Hpr.
  fold (file_phoff (disk s)) in Hpr.
  assert (∀ o, 0 <= o → o + 4 <= 32 → load32 (bmem s) (ph i + o) = seg_field (disk s) i o) as Hw.
  { intros o Ho Ho'. unfold ph, seg_field. rewrite <- (header_word (disk s) (bmem s)) by (done || lia).
    f_equal. lia. }
  unfold brd32. rewrite run_assoc, run_gets, run_assoc, run_gets, run_assoc, run_gets, run_assoc.
  rewrite !Hw by lia. fold (seg_pa (disk s) i). fold (seg_offset (disk s) i).
  destruct (seg_run i s) as (s1 & H1 & D1 & Hh1 & Hs1); [done|lia|done|done|]. step_with H1.
  rewrite run_ret. destruct (IH (i + 1) s1) as (s2 & H2 & D2 & Hh2 & Hs2);
    rewrite ?D1; [done|lia|lia|done|done|]. cbv zeta in H2. rewrite D1 in *.
  exists s2. split; [|by split_and!]. rewrite <- H2. f_equal. unfold ph.
  change ELFHDR with 65536. rewrite u32_id; lia.
Qed.
End bootmain.

(** C27: bootmain refuses a disk without the ELF magic number; from a well-formed
    image it loads every byte of every segment to its physical address, whatever
    it reads beyond the ends of the segments because it reads whole sectors, and
    jumps to the entry point that the image names, however long the disk is busy
    before each sector. *)
Theorem bootmain_loads s :
  (file_word (disk s) 0 ≠ ELF_MAGIC → ∃ s', bootmain s = Exit Bad s') ∧
  (bootable (disk s) →
   ∃ s', bootmain s = Exit (EnterKernel (file_word (disk s) 24)) s' ∧
     ∀ i, 0 <= i < file_phnum (disk s) → seg_loaded (disk s) (bmem s') i).
Proof.
  destruct (readseg_run ELFHDR (SECTSIZE * 8) 0 s) as (s1 & H1 & D1 & M1); [by compute..|].
  assert (header_loaded (disk s) (bmem s1)) as Hh.
  { intros b Hb. rewrite M1, decide_True.
    - f_equal. change (sector_down ELFHDR) with ELFHDR. change (sector_down 0) with 0. lia.
    - change (sector_down ELFHDR) with ELFHDR. change (sector_up (ELFHDR + SECTSIZE * 8)) with (ELFHDR + 4096). lia. }
  unfold bootmain. rewrite (bind_Done _ _ _ _ _ H1), (bind_Done _ _ _ (file_word (disk s) 0) s1).
  2: { unfold brd32, gets. rewrite <- (Z.add_0_r ELFHDR), (header_word (disk s)) by (done || lia). done. }
  split.
  - intros Hm. apply Z.eqb_neq in Hm. rewrite Hm. by exists s1.
  - intros Hb. pose proof (boot_magic _ Hb) as Hm. rewrite Hm. change (negb (ELF_MAGIC =? ELF_MAGIC)) with false.
    cbv iota. pose proof (boot_phdrs _ Hb) as Hp. pose proof (file_word_range (disk s) 28) as Hpr.
    pose proof (file_phnum_range (disk s)).
    assert (brd32 (ELFHDR + 28) s1 = Done (file_phoff (disk s)) s1) as Ho.
    { unfold brd32, gets. by rewrite (header_word (disk s)) by (done || lia). }
    assert (brd16 (ELFHDR + 44) s1 = Done (file_phnum (disk s)) s1) as Hn.
    { unfold brd16, gets. f_equal. unfold file_phnum. rewrite <- Z.add_assoc, !Hh by lia. done. }
    rewrite (bind_Done _ _ _ _ _ Ho), (bind_Done _ _ _ _ _ Hn).
    fold (file_phoff (disk s)) in Hpr.
    destruct (load_segments (Z.to_nat (file_phnum (disk s))) 0 s1) as (s2 & H2 & D2 & Hh2 & Hs2);
      rewrite ?D1; [done|lia|lia|done|intros; lia|]. cbv zeta in H2. rewrite D1 in *.
    cbv zeta. change ELFHDR with 65536 in *. rewrite (u32_id (65536 + file_phoff (disk s))), u32_id by lia.
    replace (65536 + file_phoff (disk s) + 32 * 0) with (65536 + file_phoff (disk s)) in H2 by lia.
    rewrite (bind_Done _ _ _ _ _ H2). exists s2. split; [|done].
    change 65536 with ELFHDR. unfold brd32. rewrite run_gets, (header_word (disk s)) by (done || lia). done.
Qed.

(** ** A concrete disk *)

Definition word_bytes (v : Z) : list Z := [u8 v; u8 (v / 256); u8 (v / 65536); u8 (v / 16777216)].

(** Two segments, of 3 bytes at 0x100204 and of one byte at 0x100400; the disk is
    busy, and reports an error once, before it is ready. *)
Definition ex_disk : bstate :=
  mkBstate ∅ (foldr (λ '(a, l) m, write_bytes m (512 + a) l) ∅
    [(0, word_bytes ELF_MAGIC); (24, word_bytes 0x10000C); (28, word_bytes 52); (44, [2]);
     (52 + 4, word_bytes 0x1004); (52 + 12, word_bytes 0x100204); (52 + 20, word_bytes 3);
     (84 + 4, word_bytes 0x1200); (84 + 12, word_bytes 0x100400); (84 + 20, word_bytes 1);
     (0x1004, [7; 8; 9]); (0x1200, [10])]) ∅ [] [0x80; 0xC0; 0x80].

Lemma ex_disk_bootable : bootable (disk ex_disk).
Proof.
  assert (∀ i, 0 <= i < file_phnum (disk ex_disk) → i = 0 ∨ i = 1) as Hi.
  { assert (file_phnum (disk ex_disk) = 2) as -> by by_compute. lia. }
  split; [by_compute..| | | |].
  - intros i [->| ->]%Hi; by_compute.
  - intros i [->| ->]%Hi; by_compute.
  - intros i [->| ->]%Hi; right; by_compute.
  - intros i j Hij Hj. assert (j = 0 ∨ j = 1) as [->| ->] by (apply Hi; lia); [lia|].
    assert (i = 0) as -> by lia. right. by_compute.
Qed.

Lemma bootmain_loads_witness :
  ∃ s', bootmain ex_disk = Exit (EnterKernel 0x10000C) s' ∧ seg_loaded (disk ex_disk) (bmem s') 0.
Proof.
  destruct (proj2 (bootmain_loads ex_disk) ex_disk_bootable) as (s' & H1 & H2).
  exists s'. split; [exact H1|]. apply H2. by_compute.
Defined.
